(* ===== verification/_CoqProject ===== *)
-Q . S2P
Prelude.v
CInt.v
Platform.v
Kernel.v
CString.v
NetIp.v
AddrParse.v
Session.v
World.v
Environment.v
Print.v
Common.v
Server.v
UdpStats.v
UdpReceiver.v
UdpSpec.v
UdpServer.v
UdpSession.v
TcpReceiver.v
TcpSpec.v
TcpSession.v
Work.v
UdpUploader.v
TcpUploader.v
Resources.v
Control.v
Async.v
Shell.v
Init.v
Commands.v
Download.v
Main.v
EndToEnd.v
Network.v
CommandLine.v
TcpCommandLine.v
