(* ===== verification/Prelude.v ===== *)
(** * Verification of zperf on FreeRTOS and lwIP

    The program under src/zperf/ measures network throughput. A server receives
    UDP datagrams or TCP connections and keeps statistics per peer; a client
    sends a paced UDP stream, or as much TCP data as the stack takes, and prints
    the statistics. It was written for Zephyr; src/zperf/zephyr/ is a layer that
    maps the Zephyr calls it makes to FreeRTOS and lwIP, whose code is not in
    the repository.

    ** Machine model

    The definitions follow the C source function by function, for the build the
    repository configures: 32-bit x86, GCC, IPv4 and IPv6, UDP and TCP. An
    integer is a [Z] whose conversions are written out ([u32], [s32], ...); the
    overflow of a signed operation, undefined in C, wraps. A memory object is
    the list of its bytes, and access past its end is a [Fault], as are division
    by zero, a call or read through a null pointer, a failed [assert] and the
    end of the program by [exit].

    A function without side effects gives an [outcome]: a value, a fault, or
    [OutOfFuel]. A function with side effects runs in the state monad [M] of
    [Prelude] over the [world] of [World]: the static variables ([globals]), the
    state of an environment, and the trace of the calls made to it so far with
    their answers. The environment is a class, [Env]: any function that answers
    each call (sockets, ticks, semaphores, the queue, callbacks). A theorem that
    asks something of it names a class of [Environment]; the others hold for
    every environment.

    C loops are [loop fuel body], one unit of fuel per iteration. No theorem
    fixes the fuel: a termination theorem gives a bound on the fuel, computed
    from the arguments, above which the run ends with a value, and [wp Total]
    excludes faults and lack of fuel; [wp Partial] constrains the runs that end;
    [wpf] constrains them too, and excludes every fault a theorem does not name.
    [Prelude.loop_more_fuel] shows that more fuel never changes a result. The
    endless loops of the threads have no fuel: one turn is a definition, and
    [Control] and [Async] iterate the turns as step relations.

    ** Files

    - [Prelude]: outcomes, the state monad, loops, the rules of [wp], the hint
      databases [zperf].
    - [CInt], [CString]: C integers, byte order, buffers; <string.h>,
      <stdlib.h>.
    - [Platform]: the constants, layouts and functions of lwIP and FreeRTOS that
      the source uses, as the classes [Lwip] and [Rtos], with the facts their
      documentation states, [LwipOk] and [RtosOk]. The instances are for
      examples and witnesses.
    - [Kernel]: zephyr/kernel.c and .h, time_delta of zperf_internal.h.
    - [NetIp], [AddrParse]: zephyr/net/net_ip.c and .h, net_core.c, and the
      theorems on the parser of addresses.
    - [Session]: zperf_session.c and .h.
    - [World]: zperf.h, zephyr/net/socket.h, all static variables, the calls;
      the notions the theorems state traces with ([balance] of opened and closed
      descriptors, [callbacks], [sent_to]).
    - [Environment]: contracts of the environment, and one that meets them.
    - [Print]: printf, as a call with its text or, in functions that do nothing
      else, as the text they print; zephyr/net/net_private.c. Pieces of text
      printed in a row, with no other call in between, are one call.
    - [Common]: zperf_common.c, zephyr/net/net_if.c.
    - [Server]: what zperf_udp_receiver.c and zperf_tcp_receiver.c have in
      common, zephyr/thread.c, and how theorems describe open sockets.
    - [UdpStats], [UdpReceiver], [UdpServer]: zperf_udp_receiver.c, as the
      statistics, the packet handler, and the loop around it.
    - [UdpSpec]: the contract of the UDP server, a step relation on peers and
      the packets received of each, which the packet handler refines; it has no
      table, slots or counters. [UdpSession]: the contract of a whole session.
    - [TcpReceiver]: zperf_tcp_receiver.c.
    - [TcpSpec]: the contract of the TCP server, a step relation on open
      connections and the bytes each has delivered, whose labels are the calls
      made and their answers; the server's loop implements it. [TcpSession]: the
      contract of a whole session.
    - [Work]: zephyr/work.c and .h.
    - [UdpUploader], [TcpUploader]: zperf_udp_uploader.c, zperf_tcp_uploader.c.
    - [Resources]: the sockets all tasks have open at once, against the number
      lwip/include/lwipopts.h gives lwIP.
    - [Control]: the request functions and the thread of a server, interleaved,
      behind the class [ServerControl] that both servers implement, with their
      sessions in parts.
    - [Async]: the work task and asynchronous uploads, interleaved.
    - [Shell], [Commands]: zperf_shell.c, the commands the shell's task
      dispatches to and those it does not, with every line they print; also the
      functions of zperf_common.c that nothing calls.
    - [Download]: the download commands composed with the servers they start.
    - [Init], [Main]: zperf_init and the start of the threads; zperf_main.c, with
      vSetupIFTask and usage, which nothing calls, and the hooks of
      freertos/FreeRTOSCommonHooks.c.
    - [EndToEnd], [Network]: the clients composed with the servers, first the
      datagrams of one given to the other, then over an environment whose
      sockets deliver what is sent to the server's handler and its reply back.
    - [CommandLine]: the command udp_upload over that environment.
      [TcpCommandLine]: the command tcp_upload and the connection it arrives on.

    A session of a server has a parameter, what other tasks do to the server's
    variables while it is in [poll] and before it reports an error;
    [udp_requests] and [tcp_requests] of [UdpServer] and [TcpReceiver] are any
    requests at any of these moments, [nobody] is none. [Control] composes the
    parts of a session with requests itself.

    The receivers find a peer's slot with [get_session] and update it in place;
    the servers call the receivers for what a socket delivers and the shell's
    callbacks when a session starts and ends. The uploaders open a socket with
    [zperf_prepare_upload_sock], and are called by the shell, or by the work
    task when asynchronous.

    ** What the theorems show

    - Sessions. [Session.get_session_refines]: the table searched by
      [get_session] is a finite map from peers to slots.
      [Session.get_session_v6_sockaddr]: the address the UDP server passes is
      too short for an IPv6 peer.
    - UDP server. [UdpSpec.udp_server_refines]: any sequence of datagrams of any
      peers is served as the contract says, a full table included;
      [UdpSpec.stream_report]: the report of a session in terms of the packets
      received, a reference definition without counters.
      [UdpSession.udp_server_session_refines]: a whole session opens its sockets,
      serves what arrives by that contract and closes what it opened, whatever
      requests other tasks make meanwhile; the one fault it can meet, with IPv4
      clients, is the division of [udp_empty_session_faults]. The step
      lemmas: [UdpReceiver.udp_session_run], the packets of one session with its
      reply, callbacks and results; [udp_deliver_ok]: the type invariant of the
      table; [udp_deliver_isolation]: peers do not disturb each other;
      [udp_fin_again], [udp_exhausted], [udp_empty_session_faults]: repeated
      ends, a full table, a session without data. The theorems of [UdpStats]
      say what the counters mean for streams of identifiers in any order.
      [UdpServer]: sockets are closed on every path, and a stop request ends the
      session.
    - TCP server. [TcpSpec.tcp_server_refines]: whatever arrives on any number
      of interleaved connections, each is counted, reported and closed as the
      contract says, and the loop meets no fault.
      [TcpSession.tcp_server_session_refines]: a whole session, which closes
      exactly what is open when it ends, by an error or by a request to stop
      that comes while it polls. [TcpSpec.tcp_stop_exhausts]: what a
      session of the server that is stopped leaves behind. [TcpReceiver]:
      one connection, the connection without data, and that every accepted
      connection is closed.
    - Servers' control. [Control.server_starts], [Control.server_stop_kept]:
      under any interleaving of requests and thread. A request can come before
      or after any part of a session (opening, [poll], serving what arrived,
      closing); once a stop is accepted the thread is at most five parts from
      the end, silent, and never stuck before it ([ServerReturns]: both servers'
      parts return when the static objects have the sizes declared).
    - Sockets. The theorems on the sockets of each task also bound how many are
      open at any moment; [Resources.sockets_bounded]: all tasks together need
      up to one more than lwIP has.
    - Clients. [UdpUploader]: what an upload sends ([udp_upload_stream]), that
      it ends, or never does when its end is past the 32-bit clock, and the rate
      of the pacing. [TcpUploader]: [sendall] sends all bytes once, the upload's
      results, and the same on termination. Both: the sockets on every path.
    - [Async]: when a request is accepted, and what two overlapping ones do.
    - Program start. [Main.main_starts]: the order in which [main] starts the
      program, and that the invariants the theorems above begin with hold when
      the scheduler starts ([Init.zperf_init_ready]); [Init.servers_ready]: from
      when on the servers can be started.
    - [Shell], [Commands]: the arguments of an upload, its address, the option
      -S, numbers with units and printed durations, the command setip.
      [Download.udp_download_binds], [tcp_download_binds]: the server a download
      command starts binds its first socket to the address and port of the
      command, or to the configured address when the command's is 0.0.0.0. [Kernel]: the tick conversions.
    - [AddrParse]: host:port is parsed to that host and port; the parser stays in
      its buffers unless the port is too long, and then does not.
    - Composition. [EndToEnd]: the statistics arrive as the server computed them.
      [Network.upload_over_link], [Network.tcp_upload_received]: client and
      server run against each other over a network that loses nothing, and what
      both report of an upload. [CommandLine.udp_upload_command],
      [TcpCommandLine.tcp_upload_command]: the same from the arguments of the
      command to the report it prints.

    Where the code departs from what it means to do (a division by zero, a
    length modulo 2^32 - 1, a tick count converted twice), the theorem states
    what it does.

    ** Not modelled

    The diagnostics of NET_ERR and its like and of the debug and assert macros of
    lwIP, which print the file and line they stand in; the configuration headers,
    of which only the values the source uses and the number of sockets appear;
    the macros that declare commands to the shell of Zephyr, which this program
    does not use. Tasks interleave between the parts that [Control] and [Async]
    name, and reach a session where it says so, not between single
    instructions. *)
From Stdlib Require Export ZArith Lia.
From stdpp Require Export base tactics list numbers option.

(** lia also solves goals with [/], [mod], [Z.quot] and [Z.rem] by constants. *)
Ltac Zify.zify_post_hook ::= Z.to_euclidean_division_equations.

(** [cbn] keeps tests on unknown integers folded. *)
#[global] Arguments Z.eqb !_ !_ : simpl nomatch.
#[global] Arguments Z.ltb !_ !_ : simpl nomatch.
#[global] Arguments Z.leb !_ !_ : simpl nomatch.
#[global] Arguments Z.gtb !_ !_ : simpl nomatch.
#[global] Arguments Z.geb !_ !_ : simpl nomatch.

(** ** Outcomes of C code

    A run of C code ends with a value, stops at a fault (the operations the C
    standard leaves undefined and that stop this program, an [assert], or
    [exit]), or has used up the number of loop iterations the model was given. *)
Inductive fault : Set :=
| DivisionByZero
| OutOfBounds
| NullPointer
| AssertionFailed
| Exited (status : Z).

Inductive outcome (A : Type) : Type :=
| Done (a : A)
| Fault (f : fault)
| OutOfFuel.
Arguments Done {A} _.
Arguments Fault {A} _.
Arguments OutOfFuel {A}.

#[global] Instance fault_eq_dec : EqDecision fault.
Proof. solve_decision. Defined.

#[global] Instance outcome_ret : MRet outcome := fun A a => Done a.
#[global] Instance outcome_bind : MBind outcome := fun A B k o =>
  match o with
  | Done a => k a
  | Fault f => Fault f
  | OutOfFuel => OutOfFuel
  end.

(** ** The state monad the stateful code runs in *)
Definition M (S A : Type) : Type := S -> outcome (A * S).

#[global] Instance M_ret {S} : MRet (M S) := fun A a s => Done (a, s).
#[global] Instance M_bind {S} : MBind (M S) := fun A B k m s =>
  match m s with
  | Done (a, s') => k a s'
  | Fault f => Fault f
  | OutOfFuel => OutOfFuel
  end.

Definition fail {S A} (f : fault) : M S A := fun _ => Fault f.
Definition gets {S A} (g : S -> A) : M S A := fun s => Done (g s, s).
Definition modify {S} (g : S -> S) : M S unit := fun s => Done (tt, g s).

(** Code without side effects, run inside stateful code. *)
Definition lift {S A} (o : outcome A) : M S A := fun s =>
  match o with
  | Done a => Done (a, s)
  | Fault f => Fault f
  | OutOfFuel => OutOfFuel
  end.

Definition when {S} (b : bool) (m : M S unit) : M S unit :=
  if b then m else mret tt.

(** [loop fuel body a]: the C loops. An iteration ends with [inl] (go on, with
    the loop variables) or [inr] (leave the loop). *)
Fixpoint loop {S A B} (fuel : nat) (body : A -> M S (A + B)) (a : A) : M S B :=
  match fuel with
  | O => fun _ => OutOfFuel
  | S fuel' =>
      r ← body a;
      match r with
      | inl a' => loop fuel' body a'
      | inr b => mret b
      end
  end.

(** ** Weakest preconditions

    [Total]: the run ends with a value. [Safe]: it meets no fault.
    [Partial]: only a run that ends with a value is constrained. *)
Inductive mode : Set := Total | Safe | Partial.

Definition wp {S A} (md : mode) (m : M S A) (Q : A -> S -> Prop) (s : S) : Prop :=
  match m s with
  | Done (a, s') => Q a s'
  | Fault _ => md = Partial
  | OutOfFuel => md <> Total
  end.

Section WpRules.
Context {S : Type}.
Implicit Types (s : S) (md : mode).

Lemma wp_ret md {A} (a : A) (Q : A -> S -> Prop) s :
  Q a s -> wp md (mret a) Q s.
Proof. done. Qed.

Lemma wp_bind md {A B} (m : M S A) (k : A -> M S B) Q s :
  wp md m (fun a s' => wp md (k a) Q s') s -> wp md (m ≫= k) Q s.
Proof. unfold wp, mbind, M_bind. destruct (m s) as [[a s']| |]; done. Qed.

Lemma wp_mono md {A} (m : M S A) (P Q : A -> S -> Prop) s :
  wp md m P s -> (forall a s', P a s' -> Q a s') -> wp md m Q s.
Proof. unfold wp. destruct (m s) as [[a s']| |]; eauto. Qed.

Lemma wp_conj md {A} (m : M S A) (P Q : A -> S -> Prop) s :
  wp md m P s -> wp md m Q s -> wp md m (fun a s' => P a s' /\ Q a s') s.
Proof. unfold wp. destruct (m s) as [[a s']| |]; eauto. Qed.

Lemma wp_conj_partial md {A} (m : M S A) (P Q : A -> S -> Prop) s :
  wp md m P s -> wp Partial m Q s -> wp md m (fun a s' => P a s' /\ Q a s') s.
Proof. unfold wp. destruct (m s) as [[a s']| |]; eauto. Qed.

Lemma wp_gets md {A} (g : S -> A) Q s : Q (g s) s -> wp md (gets g) Q s.
Proof. done. Qed.

Lemma wp_modify md (g : S -> S) Q s : Q tt (g s) -> wp md (modify g) Q s.
Proof. done. Qed.

Lemma wp_lift md {A} (o : outcome A) (Q : A -> S -> Prop) s a :
  o = Done a -> Q a s -> wp md (lift o) Q s.
Proof. by intros ->. Qed.

Lemma wp_lift_partial {A} (o : outcome A) (Q : A -> S -> Prop) s :
  (forall a, o = Done a -> Q a s) -> wp Partial (lift o) Q s.
Proof. unfold wp, lift. destruct o; eauto. Qed.

Lemma wp_when md (b : bool) (m : M S unit) Q s :
  (b = true -> wp md m Q s) -> (b = false -> Q tt s) -> wp md (when b m) Q s.
Proof. destruct b; cbn; auto. Qed.

Lemma wp_total_done {A} (m : M S A) Q s :
  wp Total m Q s -> exists a s', m s = Done (a, s') /\ Q a s'.
Proof. unfold wp. destruct (m s) as [[a s']| |]; [eauto| |]; done. Qed.

(** The same code, grouped in another way. *)
Lemma wp_assoc md {A B C} (m : M S A) (k : A -> M S B) (h : B -> M S C) Q s :
  wp md ((m ≫= k) ≫= h) Q s -> wp md (m ≫= fun a => k a ≫= h) Q s.
Proof. unfold wp, mbind, M_bind. by destruct (m s) as [[a s']| |]. Qed.

Lemma wp_assoc3 md {A B C D} (m : M S A) (k : A -> M S B) (h : A -> M S C) (l : M S D) Q s :
  wp md ((a ← m; k a;; h a);; l) Q s -> wp md (a ← m; k a;; h a;; l) Q s.
Proof.
  unfold wp, mbind, M_bind. destruct (m s) as [[a s']| |]; [|done..]. by destruct (k a s') as [[b s'']| |].
Qed.

(** A run that ends satisfies its postcondition in every mode. *)
Lemma wp_total md {A} (m : M S A) Q s : wp Total m Q s -> wp md m Q s.
Proof. unfold wp. destruct (m s) as [[a s']| |]; done. Qed.

Lemma wp_done md {A} (m : M S A) Q s a s' :
  wp md m Q s -> m s = Done (a, s') -> Q a s'.
Proof. unfold wp. intros H Hm. by rewrite Hm in H. Qed.

Lemma wp_of_done md {A} (m : M S A) (Q : A -> S -> Prop) s a s' :
  m s = Done (a, s') -> Q a s' -> wp md m Q s.
Proof. unfold wp. by intros ->. Qed.

(** Invariant rule: for the modes that accept a loop that has not ended. *)
Lemma wp_loop_inv md {A B} (I : A -> S -> Prop) (body : A -> M S (A + B)) Q fuel a s :
  md <> Total ->
  (forall a s, I a s ->
    wp md (body a) (fun r s' => match r with inl a' => I a' s' | inr b => Q b s' end) s) ->
  I a s -> wp md (loop fuel body a) Q s.
Proof.
  intros Hmd Hbody. revert a s. induction fuel as [|fuel IH]; intros a s HI; [done|].
  cbn [loop]. apply wp_bind. eapply wp_mono; [by apply Hbody|].
  intros [a'|b] s'; [apply IH|done].
Qed.

(** Variant rule: enough fuel ends the loop. *)
Lemma wp_loop_variant md {A B} (I : A -> S -> Prop) (mu : A -> S -> nat)
    (body : A -> M S (A + B)) Q fuel a s :
  (forall a s, I a s ->
    wp md (body a) (fun r s' =>
      match r with inl a' => I a' s' /\ (mu a' s' < mu a s)%nat | inr b => Q b s' end) s) ->
  I a s -> (mu a s < fuel)%nat -> wp md (loop fuel body a) Q s.
Proof.
  intros Hbody. revert a s. induction fuel as [|fuel IH]; intros a s HI Hmu; [lia|].
  cbn [loop]. apply wp_bind. eapply wp_mono; [by apply Hbody|].
  intros [a'|b] s'; [|done]. intros [HI' Hlt]. apply IH; [done|lia].
Qed.
End WpRules.

(** Runs that meet a given fault. *)
Definition faults {S A} (f : fault) (m : M S A) (s : S) : Prop := m s = Fault f.

Lemma faults_here {S A B} f (m : M S A) (k : A -> M S B) s : faults f m s -> faults f (m ≫= k) s.
Proof. unfold faults, mbind, M_bind. by intros ->. Qed.

Lemma faults_after {S A B} f (m : M S A) (k : A -> M S B) s :
  wp Total m (fun a s' => faults f (k a) s') s -> faults f (m ≫= k) s.
Proof. unfold faults, wp, mbind, M_bind. destruct (m s) as [[a s']| |]; done. Qed.

Lemma faults_lift {S A} f (o : outcome A) (s : S) : o = Fault f -> faults f (lift o) s.
Proof. unfold faults, lift. by intros ->. Qed.

(** Runs that end as [Q] says, or with a fault [F] allows. *)
Definition wpf {S A} (F : fault -> Prop) (m : M S A) (Q : A -> S -> Prop) (s : S) : Prop :=
  match m s with
  | Done (a, s') => Q a s'
  | Fault f => F f
  | OutOfFuel => True
  end.

Section Faulty.
Context {S : Type} (F : fault -> Prop).

Lemma wpf_bind {A B} (m : M S A) (k : A -> M S B) Q s :
  wpf F m (fun a s' => wpf F (k a) Q s') s -> wpf F (m ≫= k) Q s.
Proof. unfold wpf, mbind, M_bind. by destruct (m s) as [[a s']| |]. Qed.
Lemma wpf_mono {A} (F' : fault -> Prop) (m : M S A) (P Q : A -> S -> Prop) s :
  wpf F' m P s -> (forall f, F' f -> F f) -> (forall a s', P a s' -> Q a s') -> wpf F m Q s.
Proof. unfold wpf. destruct (m s) as [[a s']| |]; auto. Qed.
Lemma wpf_safe {A} (m : M S A) Q s : wp Safe m Q s -> wpf F m Q s.
Proof. unfold wp, wpf. destruct (m s) as [[a s']| |]; done. Qed.
Lemma wpf_done {A} (m : M S A) Q s a s' : wpf F m Q s -> m s = Done (a, s') -> Q a s'.
Proof. unfold wpf. intros H Hm. by rewrite Hm in H. Qed.
Lemma wpf_ret {A} (a : A) (Q : A -> S -> Prop) s : Q a s -> wpf F (mret a) Q s.
Proof. done. Qed.
Lemma wpf_conj {A} (m : M S A) (P Q : A -> S -> Prop) s :
  wpf F m P s -> wp Partial m Q s -> wpf F m (fun a s' => P a s' /\ Q a s') s.
Proof. unfold wp, wpf. destruct (m s) as [[a s']| |]; auto. Qed.
Lemma wpf_loop_inv {A B} (I : A -> S -> Prop) (body : A -> M S (A + B)) Q fuel a s :
  (forall a s, I a s ->
    wpf F (body a) (fun r s' => match r with inl a' => I a' s' | inr b => Q b s' end) s) ->
  I a s -> wpf F (loop fuel body a) Q s.
Proof.
  intros Hbody. revert a s. induction fuel as [|fuel IH]; intros a s HI; [done|].
  cbn [loop]. apply wpf_bind. eapply wpf_mono; [by apply Hbody|done|].
  intros [a'|b] s'; [apply IH|apply wpf_ret].
Qed.
End Faulty.

(** More fuel does not change a run that has ended. *)
Lemma loop_more_fuel {S A B} (body : A -> M S (A + B)) fuel fuel' a s o :
  loop fuel body a s = o -> o <> OutOfFuel -> (fuel <= fuel')%nat ->
  loop fuel' body a s = o.
Proof.
  revert fuel' a s. induction fuel as [|fuel IH]; intros fuel' a s Ho Hne Hle.
  - by subst o.
  - destruct fuel' as [|fuel']; [lia|]. cbn [loop] in *. unfold mbind, M_bind in *.
    destruct (body a s) as [[[a'|b] s']|f|]; [|done..].
    apply IH; [done|done|lia].
Qed.

(** The two runs of a sequence that has ended. *)
Lemma bind_done {S A B} (m : M S A) (k : A -> M S B) s b s' :
  (m ≫= k) s = Done (b, s') -> exists a s1, m s = Done (a, s1) /\ k a s1 = Done (b, s').
Proof. unfold mbind, M_bind. destruct (m s) as [[a s1]| |]; [by eexists _, _|done..]. Qed.

(** Two bodies that behave the same make the same loop. *)
Lemma loop_ext {S A B} (body body' : A -> M S (A + B)) fuel a s :
  (forall a s, body a s = body' a s) -> loop fuel body a s = loop fuel body' a s.
Proof.
  intros Hb. revert a s. induction fuel as [|fuel IH]; intros a s; [done|].
  cbn [loop]. unfold mbind, M_bind. rewrite Hb. by destruct (body' a s) as [[[a'|b] s']| |].
Qed.

(** ** Proof automation *)
Create HintDb zperf.
Create Rewrite HintDb zperf.

(** One step of symbolic execution of monadic code under [wp]. *)
Ltac wp_step :=
  lazymatch goal with
  | |- wp _ (_ ≫= _) _ _ => apply wp_bind
  | |- wp _ (mret _) _ _ => apply wp_ret
  | |- wp _ (gets _) _ _ => apply wp_gets
  | |- wp _ (modify _) _ _ => apply wp_modify
  | |- wp _ (when _ _) _ _ => apply wp_when; intros
  end.
Ltac wp_steps := repeat wp_step.

(** Splits conjunctions and solves what arithmetic and [done] solve. *)
Ltac done_arith := repeat split; first [done | lia | idtac].

(** Case analysis on the boolean tests of the code. *)
Ltac bool_cases :=
  repeat match goal with
  | |- context [ (?a <? ?b)%Z ] => destruct (Z.ltb_spec a b)
  | |- context [ (?a <=? ?b)%Z ] => destruct (Z.leb_spec a b)
  | |- context [ (?a =? ?b)%Z ] => destruct (Z.eqb_spec a b)
  end.

(** ** Lists *)
Lemma omap_length_le {A B} (f : A -> option B) (l : list A) : (length (omap f l) <= length l)%nat.
Proof. induction l as [|a l IH]; cbn; [lia|]. destruct (f a); cbn; lia. Qed.
Lemma omap_length_lt {A B} (f : A -> option B) (l : list A) i a :
  l !! i = Some a -> f a = None -> (length (omap f l) < length l)%nat.
Proof.
  revert i. induction l as [|b l IH]; intros i Hi Ha; [done|]. cbn.
  destruct i as [|i]; cbn in Hi.
  - injection Hi as ->. rewrite Ha. pose proof (omap_length_le f l). lia.
  - specialize (IH i Hi Ha). destruct (f b); cbn; lia.
Qed.
Lemma omap_length_eq {A B} (f : A -> option B) (l : list A) :
  Forall (fun a => is_Some (f a)) l -> length (omap f l) = length l.
Proof. induction 1 as [|a l [b Hb] _ IH]; [done|]. cbn. rewrite Hb. cbn. by rewrite IH. Qed.

Lemma fmap_const {A B} (f : A -> B) (b : B) (l : list A) :
  (forall a, f a = b) -> f <$> l = replicate (length l) b.
Proof. intros Hf. induction l as [|a l IH]; [done|]. cbn. by rewrite Hf, IH. Qed.

(** One place of a list mapped through two functions that differ there only. *)
Lemma omap_change {A B} (f g : A -> option B) (l1 l2 : list A) a b :
  f a = Some b -> g a = None -> (forall x, x <> a -> f x = g x) -> NoDup (l1 ++ a :: l2) ->
  omap f (l1 ++ a :: l2) ≡ₚ b :: omap g (l1 ++ a :: l2).
Proof.
  intros Hf Hg Hfg Hnd. apply list.NoDup_app in Hnd as (_ & Hd & Hnd). apply list.NoDup_cons in Hnd as [Ha _].
  rewrite !omap_app. cbn. rewrite Hf, Hg.
  assert (Hsame : forall l : list A, a ∉ l -> omap f l = omap g l).
  { induction l as [|x l IH]; intros Hl; [done|]. rewrite not_elem_of_cons in Hl. destruct Hl as [Hx Hl].
    cbn. by rewrite IH, Hfg by congruence. }
  rewrite (Hsame l1), (Hsame l2).
  - by rewrite Permutation_middle.
  - done.
  - intros Hin. apply (Hd a Hin). by left.
Qed.

Definition sum (l : list Z) : Z := foldr Z.add 0%Z l.

Lemma lookup_app_cases {A} (l k : list A) i x :
  (l ++ k) !! i = Some x ->
  l !! i = Some x \/ (length l <= i)%nat /\ k !! (i - length l)%nat = Some x.
Proof. intros H. apply lookup_app_Some in H. tauto. Qed.
