(* ===== verification/CInt.v ===== *)
(** Machine integers and memory: the fixed-width integer types of C with their
    wrap-around, the in-memory (little-endian) representation of integers, the
    byte-order functions of the sockets API, and bounds-checked access to byte
    buffers. *)
From S2P Require Import Prelude.
Open Scope Z_scope.

(** ** Fixed-width integers, as [Z] reduced to the type's range

    Conversion to an unsigned type reduces modulo 2^w; conversion to a signed
    type and signed arithmetic wrap to two's complement, as on the x86 target
    ([-m32] in freertos/CMakeLists.txt). On this target [unsigned long],
    [size_t] and pointers have 32 bits. *)
Definition u8 (z : Z) : Z := z mod 256.
Definition u16 (z : Z) : Z := z mod 65536.
Definition u32 (z : Z) : Z := z mod 4294967296.
Definition u64 (z : Z) : Z := z mod 18446744073709551616.
Definition s32 (z : Z) : Z := (z + 2147483648) mod 4294967296 - 2147483648.
Definition s64 (z : Z) : Z :=
  (z + 9223372036854775808) mod 18446744073709551616 - 9223372036854775808.

Definition UINT8_MAX : Z := 255.
Definition ULONG_MAX : Z := 4294967295.

(** Integer division in C: by zero is undefined, else truncation. *)
Definition c_div (a b : Z) : outcome Z :=
  if b =? 0 then Fault DivisionByZero else Done (Z.quot a b).

(** ** Bytes *)
Definition bytes : Set := list Z.

Definition is_byte (b : Z) : Prop := 0 <= b < 256.

(** [load_le] and [store_le n]: an integer of [n] bytes in memory. *)
Fixpoint load_le (bs : bytes) : Z :=
  match bs with
  | [] => 0
  | b :: bs' => b + 256 * load_le bs'
  end.

Fixpoint store_le (n : nat) (v : Z) : bytes :=
  match n with
  | O => []
  | S n' => v mod 256 :: store_le n' (v / 256)
  end.

(** [htonl], [ntohl], [htons] and [ntohs] reverse the bytes on a little-endian
    machine. *)
Definition htonl (v : Z) : Z := load_le (reverse (store_le 4 v)).
Definition ntohl (v : Z) : Z := load_le (reverse (store_le 4 v)).
Definition htons (v : Z) : Z := load_le (reverse (store_le 2 v)).
Definition ntohs (v : Z) : Z := load_le (reverse (store_le 2 v)).

(** ** Memory objects: a buffer is the list of its bytes *)
Definition read_at (off n : nat) (m : bytes) : outcome bytes :=
  if decide (off + n <= length m)%nat then Done (take n (drop off m))
  else Fault OutOfBounds.

Definition write_at (off : nat) (bs m : bytes) : outcome bytes :=
  if decide (off + length bs <= length m)%nat
  then Done (take off m ++ bs ++ drop (off + length bs) m)
  else Fault OutOfBounds.

Definition load_at (off n : nat) (m : bytes) : outcome Z :=
  bs ← read_at off n m; mret (load_le bs).

Definition store_at (off n : nat) (v : Z) (m : bytes) : outcome bytes :=
  write_at off (store_le n v) m.

Definition memset (b : Z) (n : nat) : bytes := replicate n b.

(** The part of an [n]-byte object that a call filled with [bs]; the rest, which
    C leaves uninitialised, reads as zero. *)
Definition fill (n : nat) (bs : bytes) : bytes := take n bs ++ replicate (n - length bs) 0.

(** ** Integers: lemmas *)
Lemma u32_range z : 0 <= u32 z < 4294967296.
Proof. unfold u32. lia. Qed.
Lemma u16_range z : 0 <= u16 z < 65536.
Proof. unfold u16. lia. Qed.
Lemma s32_range z : -2147483648 <= s32 z < 2147483648.
Proof. unfold s32. lia. Qed.
Lemma u32_small z : 0 <= z < 4294967296 -> u32 z = z.
Proof. apply Z.mod_small. Qed.
Lemma u64_small z : 0 <= z < 18446744073709551616 -> u64 z = z.
Proof. apply Z.mod_small. Qed.
Lemma u16_small z : 0 <= z < 65536 -> u16 z = z.
Proof. apply Z.mod_small. Qed.
Lemma s32_small z : -2147483648 <= z < 2147483648 -> s32 z = z.
Proof. unfold s32. lia. Qed.
Lemma s64_small z : -9223372036854775808 <= z < 9223372036854775808 -> s64 z = z.
Proof. unfold s64. lia. Qed.
Lemma u32_s32 z : u32 (s32 z) = u32 z.
Proof. unfold u32, s32. lia. Qed.
Lemma s32_u32 z : s32 (u32 z) = s32 z.
Proof. unfold u32, s32. lia. Qed.
Lemma u32_idemp z : u32 (u32 z) = u32 z.
Proof. unfold u32. lia. Qed.
Lemma u32_add_l a b : u32 (u32 a + b) = u32 (a + b).
Proof. unfold u32. lia. Qed.
Lemma u32_add_r a b : u32 (a + u32 b) = u32 (a + b).
Proof. unfold u32. lia. Qed.
Lemma u32_sub_l a b : u32 (u32 a - b) = u32 (a - b).
Proof. unfold u32. lia. Qed.
Lemma u32_sub_r a b : u32 (a - u32 b) = u32 (a - b).
Proof. unfold u32. lia. Qed.

#[export] Hint Rewrite u32_s32 s32_u32 u32_idemp u32_add_l u32_add_r u32_sub_l u32_sub_r : zperf.

(** Solves equations and bounds between integer expressions of C. *)
Ltac cint := unfold u8, u16, u32, u64, s32, s64 in *; lia.

(** ** Bytes: lemmas *)
Lemma length_store_le n v : length (store_le n v) = n.
Proof. revert v. induction n as [|n IH]; intros v; cbn; [done|by rewrite IH]. Qed.

Lemma store_le_bytes n v : Forall is_byte (store_le n v).
Proof.
  revert v. induction n as [|n IH]; intros v; constructor; [unfold is_byte; lia|apply IH].
Qed.

Lemma load_store_le n v : load_le (store_le n v) = v mod 256 ^ Z.of_nat n.
Proof.
  revert v. induction n as [|n IH]; intros v; [cbn; by rewrite Z.mod_1_r|].
  cbn [store_le load_le]. rewrite IH, Nat2Z.inj_succ, Z.pow_succ_r by lia.
  symmetry. rewrite Z.rem_mul_r by lia. lia.
Qed.

Lemma load_le_range bs : Forall is_byte bs -> 0 <= load_le bs < 256 ^ Z.of_nat (length bs).
Proof.
  induction 1 as [|b bs Hb _ IH]; [cbn; lia|].
  cbn [load_le length]. rewrite Nat2Z.inj_succ, Z.pow_succ_r by lia.
  unfold is_byte in Hb. lia.
Qed.

Lemma store_load_le bs : Forall is_byte bs -> store_le (length bs) (load_le bs) = bs.
Proof.
  induction 1 as [|b bs Hb _ IH]; [done|]. unfold is_byte in Hb.
  cbn [length load_le store_le]. f_equal; [lia|].
  replace ((b + 256 * load_le bs) / 256) with (load_le bs) by lia. done.
Qed.

Lemma store_le_eq n v v' :
  v mod 256 ^ Z.of_nat n = v' mod 256 ^ Z.of_nat n -> store_le n v = store_le n v'.
Proof.
  intros H. rewrite <- !load_store_le in H.
  rewrite <- (store_load_le (store_le n v)), <- (store_load_le (store_le n v'))
    by apply store_le_bytes.
  by rewrite H, !length_store_le.
Qed.

Lemma store_le_u32 v : store_le 4 (u32 v) = store_le 4 v.
Proof. apply store_le_eq. change (256 ^ Z.of_nat 4) with 4294967296. cint. Qed.

(** Network order: the bytes of [htonl v] in memory are the big-endian bytes of [v]. *)
Lemma store_htonl v : store_le 4 (htonl v) = reverse (store_le 4 v).
Proof.
  unfold htonl. rewrite <- (store_load_le (reverse (store_le 4 v))) at 2.
  - by rewrite length_reverse, length_store_le.
  - rewrite Forall_reverse. apply store_le_bytes.
Qed.

Lemma ntohl_load bs :
  Forall is_byte bs -> length bs = 4%nat -> ntohl (load_le bs) = load_le (reverse bs).
Proof. intros Hb Hl. unfold ntohl. rewrite <- Hl at 1. by rewrite store_load_le. Qed.

Lemma ntohl_htonl v : ntohl (htonl v) = u32 v.
Proof. unfold ntohl. by rewrite store_htonl, reverse_involutive, load_store_le. Qed.

Lemma htonl_range v : 0 <= htonl v < 4294967296.
Proof.
  unfold htonl. pose proof (load_le_range (reverse (store_le 4 v))) as H.
  rewrite length_reverse, length_store_le in H. apply H.
  rewrite Forall_reverse. apply store_le_bytes.
Qed.

Lemma htonl_u32 v : htonl (u32 v) = htonl v.
Proof. unfold htonl. by rewrite store_le_u32. Qed.

Lemma htons_range v : 0 <= htons v < 65536.
Proof.
  unfold htons. pose proof (load_le_range (reverse (store_le 2 v))) as H.
  rewrite length_reverse, length_store_le in H. apply H.
  rewrite Forall_reverse. apply store_le_bytes.
Qed.

Lemma ntohs_htons v : ntohs (htons v) = u16 v.
Proof.
  unfold ntohs, htons.
  pose proof (store_load_le (reverse (store_le 2 v))) as H.
  rewrite length_reverse, length_store_le in H. rewrite H.
  - by rewrite reverse_involutive, load_store_le.
  - rewrite Forall_reverse. apply store_le_bytes.
Qed.

(** ** Buffers: lemmas *)
Lemma read_at_ok off n m :
  (off + n <= length m)%nat -> read_at off n m = Done (take n (drop off m)).
Proof. intros. unfold read_at. by rewrite decide_True. Qed.

Lemma read_at_oob off n m :
  (length m < off + n)%nat -> read_at off n m = Fault OutOfBounds.
Proof. intros. unfold read_at. rewrite decide_False; [done|lia]. Qed.

Lemma write_at_ok off bs m :
  (off + length bs <= length m)%nat ->
  write_at off bs m = Done (take off m ++ bs ++ drop (off + length bs) m).
Proof. intros. unfold write_at. by rewrite decide_True. Qed.

Lemma write_at_oob off bs m :
  (length m < off + length bs)%nat -> write_at off bs m = Fault OutOfBounds.
Proof. intros. unfold write_at. rewrite decide_False; [done|lia]. Qed.

Lemma write_at_length off bs m m' :
  write_at off bs m = Done m' -> length m' = length m.
Proof.
  unfold write_at. case_decide; [|done]. intros [= <-].
  rewrite !length_app, length_take, length_drop. lia.
Qed.

(** Reading back what was written, and what was not. *)
Lemma read_write_same off bs m m' :
  write_at off bs m = Done m' -> read_at off (length bs) m' = Done bs.
Proof.
  unfold write_at. case_decide as Hle; [|done]. intros [= <-].
  rewrite read_at_ok by (rewrite !length_app, length_take, length_drop; lia).
  rewrite drop_app_length' by (rewrite length_take; lia).
  by rewrite take_app_length.
Qed.

Lemma read_write_before off off' n bs m m' :
  write_at off bs m = Done m' -> (off' + n <= off)%nat ->
  read_at off' n m' = read_at off' n m.
Proof.
  unfold write_at. case_decide as Hle; [|done]. intros [= <-] Hlt.
  rewrite !read_at_ok by (rewrite ?length_app, ?length_take, ?length_drop; lia).
  f_equal. rewrite drop_app_le by (rewrite length_take; lia).
  rewrite take_app_le by (rewrite length_drop, length_take; lia).
  rewrite !take_drop_commute, take_take. do 2 f_equal. lia.
Qed.

Lemma read_write_after off off' n bs m m' :
  write_at off bs m = Done m' -> (off + length bs <= off')%nat ->
  read_at off' n m' = read_at off' n m.
Proof.
  intros Hw Hlt. pose proof (write_at_length _ _ _ _ Hw) as Hlen.
  unfold read_at. rewrite Hlen. case_decide; [|done]. do 2 f_equal.
  unfold write_at in Hw. case_decide as Hle; [|done]. injection Hw as <-.
  rewrite app_assoc, drop_app_ge by (rewrite length_app, length_take; lia).
  rewrite drop_drop. f_equal. rewrite length_app, length_take. lia.
Qed.

Lemma length_fill n bs : length (fill n bs) = n.
Proof. unfold fill. rewrite length_app, length_take, length_replicate. lia. Qed.
