(* ===== verification/Platform.v ===== *)
(** What the program takes from lwIP and FreeRTOS: constants, structure layouts
    and pure functions of their headers. None of that code is under src/, so
    the two classes [Lwip] and [Rtos] hold it as parameters, and [LwipOk] and
    [RtosOk] hold the documented facts the proofs use. The instances at the end
    give concrete values, for evaluation on concrete inputs only. *)
From S2P Require Import Prelude CInt.
Open Scope Z_scope.

(** The sockets API (<lwip/sockets.h>, <lwip/inet.h>, <lwip/errno.h>). Socket
    addresses are memory objects: [off_*] are the byte offsets of the fields
    and [sizeof_*] the sizes of the structures. *)
Class Lwip : Type := {
  AF_INET : Z;
  AF_INET6 : Z;
  SOCK_STREAM : Z;
  SOCK_DGRAM : Z;
  IPPROTO_IP : Z;
  IPPROTO_TCP : Z;
  IPPROTO_UDP : Z;
  SOL_SOCKET : Z;
  SO_RCVTIMEO : Z;
  IP_TOS : Z;
  TCP_NODELAY : Z;
  MSG_DONTWAIT : Z;
  POLLIN : Z;
  POLLERR : Z;
  POLLNVAL : Z;
  ERR_OK : Z;
  EINVAL : Z;
  EALREADY : Z;
  EBUSY : Z;
  EAGAIN : Z;
  ENOMEM : Z;
  sizeof_sockaddr : nat;
  sizeof_sockaddr_in : nat;
  sizeof_sockaddr_in6 : nat;
  sizeof_sockaddr_storage : nat;
  sizeof_sa_family : nat;
  off_sa_family : nat;
  off_sin_port : nat;
  off_sin_addr : nat;
  off_sin6_port : nat;
  off_sin6_addr : nat;
  INADDR_ANY : Z;
  in6addr_any : bytes;
  INET6_ADDRSTRLEN : nat;
  LWIP_IPV6_NUM_ADDRESSES : nat;
  LWIP_TCPIP_CORE_LOCKING : bool;
  (** [inet_pton family str]: the return value, and the bytes written to the
      destination when the conversion succeeded. *)
  inet_pton : Z -> bytes -> Z * option bytes;
  (** The text of an address, from its bytes in network order. *)
  ip4addr_ntoa : bytes -> bytes;
  ip6addr_ntoa : bytes -> bytes;
  (** [ipaddr_ntoa_r(addr, buf, buflen)], for the address of an interface. *)
  ipaddr_ntoa_r : bytes -> Z -> option bytes;
}.

(** Facts of POSIX and lwIP about them. *)
Class LwipOk (L : Lwip) : Prop := {
  af_distinct : AF_INET <> AF_INET6;
  af_inet_range : 0 < AF_INET < 256 ^ Z.of_nat sizeof_sa_family;
  af_inet6_range : 0 < AF_INET6 < 256 ^ Z.of_nat sizeof_sa_family;
  family_before_port : (off_sa_family + sizeof_sa_family <= off_sin_port)%nat;
  family_before_port6 : (off_sa_family + sizeof_sa_family <= off_sin6_port)%nat;
  port_before_addr : (off_sin_port + 2 <= off_sin_addr)%nat;
  port_before_addr6 : (off_sin6_port + 2 <= off_sin6_addr)%nat;
  addr_in_sockaddr_in : (off_sin_addr + 4 <= sizeof_sockaddr_in)%nat;
  addr_in_sockaddr_in6 : (off_sin6_addr + 16 <= sizeof_sockaddr_in6)%nat;
  in_fits_sockaddr : (sizeof_sockaddr_in <= sizeof_sockaddr)%nat;
  port6_in_sockaddr : (off_sin6_port + 2 <= sizeof_sockaddr)%nat;
  sockaddr_fits_storage : (sizeof_sockaddr <= sizeof_sockaddr_storage)%nat;
  in6_fits_storage : (sizeof_sockaddr_in6 <= sizeof_sockaddr_storage)%nat;
  errno_positive : 0 < EINVAL /\ 0 < EALREADY /\ 0 < EBUSY /\ 0 < EAGAIN /\ 0 < ENOMEM;
  inaddr_any_zero : INADDR_ANY = 0;
  in6addr_any_zero : in6addr_any = replicate 16 0;
  inet_pton_size_4 : forall str r bs,
    inet_pton AF_INET str = (r, Some bs) -> length bs = 4%nat /\ Forall is_byte bs;
  inet_pton_size_6 : forall str r bs,
    inet_pton AF_INET6 str = (r, Some bs) -> length bs = 16%nat /\ Forall is_byte bs;
}.

(** FreeRTOS (FreeRTOSConfig.h, projdefs.h). *)
Class Rtos : Type := {
  configTICK_RATE_HZ : Z;
  pdMS_TO_TICKS : Z -> Z;
}.

Class RtosOk (R : Rtos) : Prop := {
  tick_rate_range : 0 < configTICK_RATE_HZ <= 1000000;
  pdMS_TO_TICKS_spec : forall ms,
    pdMS_TO_TICKS ms = u32 (u32 ms * configTICK_RATE_HZ) / 1000;
}.

(** ** Concrete values *)

(** A dotted-quad reader good enough for the examples: digits and dots only,
    four parts of at most 255. *)
Fixpoint dotted_quad (s : bytes) (cur : option Z) : option bytes :=
  match s with
  | [] => match cur with Some v => Some [v] | None => None end
  | c :: s' =>
      if (48 <=? c) && (c <=? 57) then
        let v := match cur with Some v => v | None => 0 end * 10 + (c - 48) in
        if v <=? 255 then dotted_quad s' (Some v) else None
      else if c =? 46 then
        match cur, dotted_quad s' None with
        | Some v, Some bs => Some (v :: bs)
        | _, _ => None
        end
      else None
  end.

Definition example_pton (family : Z) (s : bytes) : Z * option bytes :=
  if family =? 2 then
    match dotted_quad s None with
    | Some [a; b; c; d] => (1, Some [a; b; c; d])
    | _ => (0, None)
    end
  else if family =? 10 then
    if decide (s = [58; 58; 49]) then (1, Some (replicate 15 0 ++ [1])) else (0, None)
  else (-1, None).

(** Numbers below 256 in decimal, without leading zeros, and in hexadecimal. *)
Definition octet_text (n : Z) : bytes :=
  (if 100 <=? n then [48 + n / 100] else []) ++ (if 10 <=? n then [48 + n / 10 mod 10] else [])
    ++ [48 + n mod 10].
Definition hex_text (n : Z) : bytes :=
  let digit d := if d <? 10 then 48 + d else 55 + d in [digit (n / 16); digit (n mod 16)].
Fixpoint example_ntoa4 (bs : bytes) : bytes :=
  match bs with
  | [] => []
  | [b] => octet_text b
  | b :: bs' => octet_text b ++ [46] ++ example_ntoa4 bs'
  end.
Fixpoint example_ntoa6 (bs : bytes) : bytes :=
  match bs with
  | b1 :: b2 :: ((_ :: _) as bs') => hex_text b1 ++ hex_text b2 ++ [58] ++ example_ntoa6 bs'
  | bs' => mjoin (hex_text <$> bs')
  end.

(** The values of lwIP 2 with IPv6, whose [struct sockaddr] has 16 bytes. *)
Definition lwip_example : Lwip := {|
  AF_INET := 2; AF_INET6 := 10; SOCK_STREAM := 1; SOCK_DGRAM := 2;
  IPPROTO_IP := 0; IPPROTO_TCP := 6; IPPROTO_UDP := 17;
  SOL_SOCKET := 4095; SO_RCVTIMEO := 4102; IP_TOS := 1; TCP_NODELAY := 1;
  MSG_DONTWAIT := 8; POLLIN := 1; POLLERR := 4; POLLNVAL := 8; ERR_OK := 0;
  EINVAL := 22; EALREADY := 114; EBUSY := 16; EAGAIN := 11; ENOMEM := 12;
  sizeof_sockaddr := 16; sizeof_sockaddr_in := 16;
  sizeof_sockaddr_in6 := 28; sizeof_sockaddr_storage := 28;
  sizeof_sa_family := 1; off_sa_family := 1;
  off_sin_port := 2; off_sin_addr := 4; off_sin6_port := 2; off_sin6_addr := 8;
  INADDR_ANY := 0; in6addr_any := replicate 16 0; INET6_ADDRSTRLEN := 46; LWIP_IPV6_NUM_ADDRESSES := 3; LWIP_TCPIP_CORE_LOCKING := true;
  inet_pton := example_pton;
  ip4addr_ntoa := example_ntoa4; ip6addr_ntoa := example_ntoa6;
  ipaddr_ntoa_r := fun a n =>
    let s := example_ntoa4 a in if Z.of_nat (length s) <? n then Some s else None;
|}.

Lemma dotted_quad_bytes s cur bs :
  (forall v, cur = Some v -> 0 <= v <= 255) ->
  dotted_quad s cur = Some bs -> Forall is_byte bs.
Proof.
  revert cur bs. induction s as [|c s IH]; intros cur bs Hcur; cbn.
  - destruct cur as [v|]; [|done]. intros [= <-].
    constructor; [|done]. unfold is_byte. specialize (Hcur v eq_refl). lia.
  - destruct ((48 <=? c) && (c <=? 57)) eqn:Hd.
    + destruct (Z.leb_spec (match cur with Some v => v | None => 0 end * 10 + (c - 48)) 255);
        [|done].
      apply IH. intros v [= <-].
      destruct cur as [v'|]; [specialize (Hcur v' eq_refl)|]; lia.
    + destruct (c =? 46); [|done]. destruct cur as [v|]; [|done].
      destruct (dotted_quad s None) as [bs'|] eqn:Hr; [|done]. intros [= <-].
      constructor; [unfold is_byte; specialize (Hcur v eq_refl); lia|].
      by apply (IH None).
Qed.

#[global] Instance lwip_example_ok : LwipOk lwip_example.
Proof.
  split; cbn; try lia; try done.
  - intros str r bs. unfold example_pton. cbn.
    destruct (dotted_quad str None) as [[|a [|b [|c [|d [|]]]]]|] eqn:Hd; try done.
    intros [= <- <-]. split; [done|]. by apply (dotted_quad_bytes str None).
  - intros str r bs. unfold example_pton. cbn. case_decide; [|done].
    intros [= <- <-]. split; [done|].
    repeat constructor; unfold is_byte; lia.
Qed.

Definition rtos_example : Rtos := {|
  configTICK_RATE_HZ := 1000;
  pdMS_TO_TICKS := fun ms => u32 (u32 ms * 1000) / 1000;
|}.

#[global] Instance rtos_example_ok : RtosOk rtos_example.
Proof. split; cbn; [lia|done]. Qed.

(** A second one, whose tick is not a millisecond. *)
Definition rtos_100hz : Rtos := {|
  configTICK_RATE_HZ := 100;
  pdMS_TO_TICKS := fun ms => u32 (u32 ms * 100) / 1000;
|}.

#[global] Instance rtos_100hz_ok : RtosOk rtos_100hz.
Proof. split; cbn; [lia|done]. Qed.
