(* ===== verification/Kernel.v ===== *)
(** The Zephyr time API on FreeRTOS ticks (zephyr/kernel.c, zephyr/kernel.h)
    and the time arithmetic of zperf_internal.h. *)
From S2P Require Import Prelude CInt Platform.
Open Scope Z_scope.

Definition USEC_PER_MSEC : Z := 1000.
Definition MSEC_PER_SEC : Z := 1000.
Definition USEC_PER_SEC : Z := USEC_PER_MSEC * MSEC_PER_SEC.

Section Kernel.
Context {R : Rtos}.

Definition _tick_rate_hz : Z := u64 configTICK_RATE_HZ.

Definition k_ticks_to_us_ceil32 (ticks : Z) : Z :=
  u32 (u64 (u64 (u32 ticks) * u64 USEC_PER_SEC) / _tick_rate_hz).

Definition k_us_to_ticks_ceil32 (us : Z) : Z :=
  u32 (u64 (u64 (u32 us) * _tick_rate_hz) / u64 USEC_PER_SEC).

Definition k_ticks_to_ms_ceil32 (ticks : Z) : Z :=
  u32 (u64 (u64 (u32 ticks) * u64 USEC_PER_MSEC) / _tick_rate_hz).

Definition k_ms_to_ticks_ceil32 (ms : Z) : Z :=
  u32 (u64 (u64 (u32 ms) * _tick_rate_hz) / u64 USEC_PER_MSEC).

Definition k_ticks_to_us_ceil64 (ticks : Z) : Z :=
  u64 (u64 ticks * u64 USEC_PER_SEC) / _tick_rate_hz.

Definition k_ms_to_ticks_ceil64 (ms : Z) : Z :=
  u64 (u64 ms * _tick_rate_hz) / u64 USEC_PER_MSEC.

Definition k_ticks_to_us_floor64 (ticks : Z) : Z := k_ticks_to_us_ceil64 ticks.

Definition K_MSEC (ms : Z) : Z := pdMS_TO_TICKS ms.
Definition K_TICKS (ms : Z) : Z := pdMS_TO_TICKS ms.
End Kernel.

(** zperf_internal.h: the time from [ts] to [t]. [ULONG_MAX - ts + t] has type
    [unsigned long]; the result is converted to [uint32_t]. *)
Definition time_delta (ts t : Z) : Z :=
  if t >=? ts then u32 (t - ts) else u32 (u32 (u32 (ULONG_MAX - ts) + t)).

(** ** The conversions *)
Section Conversions.
Context {R : Rtos} {ROk : RtosOk R}.

Lemma _tick_rate_hz_value : _tick_rate_hz = configTICK_RATE_HZ.
Proof. pose proof tick_rate_range. apply u64_small. lia. Qed.

(** The 64-bit products do not overflow on 32-bit arguments. *)
Lemma ticks_to_us_exact t :
  0 <= t < 4294967296 -> k_ticks_to_us_ceil32 t = u32 (t * 1000000 / configTICK_RATE_HZ).
Proof.
  intros Ht. unfold k_ticks_to_us_ceil32. rewrite _tick_rate_hz_value.
  change (u64 USEC_PER_SEC) with 1000000.
  rewrite (u32_small t), (u64_small t), u64_small by lia. done.
Qed.

Lemma us_to_ticks_exact us :
  0 <= us < 4294967296 -> k_us_to_ticks_ceil32 us = u32 (us * configTICK_RATE_HZ / 1000000).
Proof.
  intros Hus. unfold k_us_to_ticks_ceil32. rewrite _tick_rate_hz_value.
  change (u64 USEC_PER_SEC) with 1000000. pose proof tick_rate_range.
  rewrite (u32_small us), (u64_small us), u64_small by nia. done.
Qed.

(** Ticks to microseconds and back. While the microseconds fit their 32 bits,
    the conversion rounds down (it never rounds up, whatever the name
    says), and the conversion of its result loses at most one tick; it loses
    none when a tick is a whole number of microseconds. *)
Theorem ticks_us_round_trip t :
  0 <= t -> t * 1000000 < 4294967296 * configTICK_RATE_HZ ->
  let us := k_ticks_to_us_ceil32 t in
  us * configTICK_RATE_HZ <= t * 1000000 < (us + 1) * configTICK_RATE_HZ /\
  t - 1 <= k_us_to_ticks_ceil32 us <= t /\
  ((configTICK_RATE_HZ | 1000000) -> k_us_to_ticks_ceil32 us = t).
Proof.
  intros H0 Hfit us. pose proof tick_rate_range as Hhz.
  set (hz := configTICK_RATE_HZ) in *.
  assert (Hus : us = t * 1000000 / hz).
  { unfold us. rewrite ticks_to_us_exact by nia. apply u32_small. split.
    - apply Z.div_pos; lia.
    - apply Z.div_lt_upper_bound; lia. }
  pose proof (Z.div_mod (t * 1000000) hz ltac:(lia)) as Hdm.
  pose proof (Z.mod_pos_bound (t * 1000000) hz ltac:(lia)) as Hm.
  rewrite <- Hus in Hdm. set (m := (t * 1000000) mod hz) in *. clearbody m.
  assert (Hback : k_us_to_ticks_ceil32 us = us * hz / 1000000).
  { rewrite us_to_ticks_exact by nia. apply u32_small. clear Hus.
    assert (0 <= us) by nia. assert (0 <= us * hz <= t * 1000000) by nia.
    assert (t < 4294967296) by nia. set (p := us * hz) in *. clearbody p. lia. }
  clearbody us hz. split; [nia|]. split.
  - rewrite Hback. clear Hback Hus.
    assert (t * 1000000 - hz < us * hz <= t * 1000000) by nia.
    set (p := us * hz) in *. clearbody p. lia.
  - intros [q Hq]. rewrite Hback. clear Hback.
    assert (us = t * q) as ->.
    { rewrite Hus, Hq. rewrite Z.mul_assoc. apply Z.div_mul. lia. }
    replace (t * q * hz) with (t * 1000000) by (rewrite Hq; ring). apply Z.div_mul. lia.
Qed.

Lemma floor64_exact t :
  0 <= t < 4294967296 ->
  k_ticks_to_us_floor64 t = t * 1000000 / configTICK_RATE_HZ /\
  0 <= k_ticks_to_us_floor64 t < 4294967296 * 1000000.
Proof.
  intros Ht. pose proof tick_rate_range as Hhz.
  assert (H64 : k_ticks_to_us_floor64 t = t * 1000000 / configTICK_RATE_HZ).
  { unfold k_ticks_to_us_floor64, k_ticks_to_us_ceil64.
    rewrite _tick_rate_hz_value. change (u64 USEC_PER_SEC) with 1000000.
    rewrite (u64_small t), u64_small by lia. done. }
  split; [done|]. rewrite H64. split; [apply Z.div_pos; lia|].
  apply Z.div_lt_upper_bound; nia.
Qed.

Lemma timestamp_parts us :
  0 <= us < 4294967296 * 1000000 ->
  let secs := u32 (us / USEC_PER_SEC) in
  let usecs := u32 (u64 (us - secs * USEC_PER_SEC)) in
  secs * USEC_PER_SEC + usecs = us /\ 0 <= usecs < USEC_PER_SEC.
Proof. intros Hus secs usecs. change USEC_PER_SEC with 1000000 in *. unfold usecs, secs. cint. Qed.

(** The timestamp of a datagram. The client splits the microseconds of a tick
    count in seconds and a rest below a second, and loses nothing as long as
    the seconds fit 32 bits. *)
Theorem timestamp_split ticks :
  0 <= ticks < 4294967296 ->
  let usecs64 := k_ticks_to_us_floor64 ticks in
  let secs := u32 (usecs64 / USEC_PER_SEC) in
  let usecs := u32 (u64 (usecs64 - secs * USEC_PER_SEC)) in
  usecs64 = ticks * 1000000 / configTICK_RATE_HZ /\
  secs * USEC_PER_SEC + usecs = usecs64 /\ 0 <= usecs < USEC_PER_SEC.
Proof.
  intros Ht usecs64 secs usecs. destruct (floor64_exact ticks Ht) as [H64 Hr].
  split; [exact H64|]. by apply timestamp_parts.
Qed.

(** A millisecond interval as ticks, then slept. [K_TICKS] takes milliseconds:
    given a number of ticks it sleeps that number only when a tick is a
    millisecond, and a [1000 / hz] part of it (rounded down) otherwise. *)
Theorem K_TICKS_of_ticks delay :
  0 <= delay -> delay * configTICK_RATE_HZ < 4294967296 ->
  K_TICKS delay = delay * configTICK_RATE_HZ / 1000 /\
  (0 < delay -> K_TICKS delay = delay -> 1000 <= configTICK_RATE_HZ < 2000) /\
  (configTICK_RATE_HZ = 1000 -> K_TICKS delay = delay).
Proof.
  intros H0 Hfit. pose proof tick_rate_range.
  assert (K_TICKS delay = delay * configTICK_RATE_HZ / 1000) as ->.
  { unfold K_TICKS. rewrite pdMS_TO_TICKS_spec, (u32_small delay), u32_small by nia. done. }
  pose proof (Z.div_mod (delay * configTICK_RATE_HZ) 1000 ltac:(lia)) as Hdm.
  pose proof (Z.mod_pos_bound (delay * configTICK_RATE_HZ) 1000 ltac:(lia)) as Hm.
  split; [done|]. split; [intros Hd Heq; rewrite Heq in Hdm; split; nia|].
  intros ->. by apply Z.div_mul.
Qed.
End Conversions.

(** [time_delta] across a wrap of the 32-bit clock: it gives the distance
    modulo 2^32 when the clock has not wrapped, and one microsecond less when
    it has. *)
Theorem time_delta_spec ts t :
  0 <= ts < 4294967296 -> 0 <= t < 4294967296 ->
  time_delta ts t = if t <? ts then u32 (t - ts) - 1 else u32 (t - ts).
Proof. intros Hts Ht. unfold time_delta, ULONG_MAX. rewrite Z.geb_leb. bool_cases; cint. Qed.

(** ** Witnesses: a 100 Hz tick, where a tick is 10 ms *)
Lemma ticks_us_round_trip_witness :
  (k_ticks_to_us_ceil32 (R := rtos_100hz) 7 = 70000) /\
  k_us_to_ticks_ceil32 (R := rtos_100hz) (k_ticks_to_us_ceil32 (R := rtos_100hz) 7) = 7.
Proof.
  split; [reflexivity|].
  apply (ticks_us_round_trip (R := rtos_100hz) 7); [lia|cbn; lia|exists 10000; reflexivity].
Defined.

Lemma timestamp_split_witness :
  k_ticks_to_us_floor64 (R := rtos_100hz) 1234 = 12 * USEC_PER_SEC + 340000.
Proof.
  destruct (timestamp_split (R := rtos_100hz) 1234 ltac:(lia)) as (H & _). exact H.
Defined.

Lemma K_TICKS_of_ticks_witness : K_TICKS (R := rtos_100hz) 25 = 2.
Proof.
  destruct (K_TICKS_of_ticks (R := rtos_100hz) 25 ltac:(lia) ltac:(cbn; lia)) as (H & _). exact H.
Defined.

Lemma time_delta_spec_witness : time_delta 4294967290 5 = 10.
Proof. rewrite (time_delta_spec 4294967290 5); [reflexivity|lia|lia]. Defined.
