(* ===== verification/CString.v ===== *)
(** The functions of <string.h>, <strings.h> and <stdlib.h> the program calls on
    C strings. A [char] array is the list of its bytes; the string in it ends at
    the first zero byte, and reading past the array is a fault. *)
From S2P Require Import Prelude CInt.
From Stdlib Require String Ascii.
Import String.StringSyntax.
Open Scope Z_scope.

(** A string literal, as the bytes of the array that holds it. *)
Definition text (s : String.string) : bytes :=
  List.map (fun c => Z.of_N (Ascii.N_of_ascii c)) (String.list_ascii_of_string s).
Definition literal (s : String.string) : bytes := text s ++ [0].
Arguments text _%_string_scope.
Arguments literal _%_string_scope.

(** The string in an array, without its terminator. *)
Fixpoint c_str (m : bytes) : outcome bytes :=
  match m with
  | [] => Fault OutOfBounds
  | b :: m' => if b =? 0 then Done [] else s ← c_str m'; mret (b :: s)
  end.

Definition strlen (m : bytes) : outcome nat := s ← c_str m; mret (length s).

(** [memchr(m, b, len)]: the index of the first [b]. *)
Fixpoint find_byte (b : Z) (m : bytes) : option nat :=
  match m with
  | [] => None
  | x :: m' => if x =? b then Some 0%nat else S <$> find_byte b m'
  end.

Definition memchr (m : bytes) (b : Z) (len : nat) : option nat := find_byte b (take len m).

(** [memcpy(dst + doff, src + soff, n)], with the lengths the code computes as
    [int] or [size_t]: a negative one is a huge [size_t]. *)
Definition memcpy (dst : bytes) (doff : nat) (src : bytes) (soff : nat) (n : Z) : outcome bytes :=
  if n <? 0 then Fault OutOfBounds else
  bs ← read_at soff (Z.to_nat n) src;
  write_at doff bs dst.

(** [m[i] = 0] and [m[i]]. *)
Definition set_nul (m : bytes) (i : Z) : outcome bytes :=
  if i <? 0 then Fault OutOfBounds else write_at (Z.to_nat i) [0] m.
Definition char_at (m : list Z) (i : nat) : outcome Z :=
  match m !! i with Some b => Done b | None => Fault OutOfBounds end.

Definition isspace (c : Z) : bool := (c =? 32) || ((9 <=? c) && (c <=? 13)).

Definition tolower (c : Z) : Z := if (65 <=? c) && (c <=? 90) then c + 32 else c.

(** The value of a digit in a base up to 16. *)
Definition digit (base c : Z) : option Z :=
  let v :=
    if (48 <=? c) && (c <=? 57) then Some (c - 48)
    else if (97 <=? tolower c) && (tolower c <=? 122) then Some (tolower c - 87)
    else None in
  match v with
  | Some d => if d <? base then Some d else None
  | None => None
  end.

(** The digits at the head of a string: their value and their number. *)
Fixpoint digits (base acc : Z) (s : bytes) : Z * nat :=
  match s with
  | [] => (acc, 0%nat)
  | c :: s' =>
      match digit base c with
      | Some d => let '(v, n) := digits base (acc * base + d) s' in (v, S n)
      | None => (acc, 0%nat)
      end
  end.

Fixpoint skip_space (s : bytes) : bytes :=
  match s with
  | c :: s' => if isspace c then skip_space s' else s
  | [] => []
  end.

(** In base 16 an "0x" prefix is skipped when a digit follows it. *)
Definition skip_0x (base : Z) (s : bytes) : bytes :=
  match s with
  | 48 :: x :: d :: s' =>
      if (base =? 16) && (tolower x =? 120) && bool_decide (is_Some (digit 16 d))
      then d :: s' else s
  | _ => s
  end.

(** The subject sequence of [strtoul]/[strtol]: sign, magnitude, and the offset
    of the first unused byte (0 when there is no number). *)
Definition number (base : Z) (s : bytes) : bool * Z * nat :=
  let s1 := skip_space s in
  let '(neg, s2) :=
    match s1 with
    | c :: s' => if c =? 45 then (true, s') else if c =? 43 then (false, s') else (false, s1)
    | [] => (false, s1)
    end in
  let s3 := skip_0x base s2 in
  let '(v, n) := digits base 0 s3 in
  match n with
  | O => (neg, 0, 0%nat)
  | _ => (neg, v, (length s - length s3 + n)%nat)
  end.

(** [unsigned long] and [long] have 32 bits here; a number out of range gives
    the end of the range and sets [errno]. *)
Definition strtoul (s : bytes) (base : Z) : Z * nat :=
  let '(neg, v, stop) := number base s in
  (if v >? ULONG_MAX then ULONG_MAX else if neg then u32 (- v) else v, stop).

Definition LONG_MAX : Z := 2147483647.
Definition LONG_MIN : Z := -2147483648.

(** The value, the offset of the first unused byte, and whether [errno] is set. *)
Definition strtol (s : bytes) (base : Z) : Z * nat * bool :=
  let '(neg, v, stop) := number base s in
  let z := if neg then - v else v in
  if z >? LONG_MAX then (LONG_MAX, stop, true)
  else if z <? LONG_MIN then (LONG_MIN, stop, true)
  else (z, stop, false).

(** [strncasecmp(a, b, n)] and [strncmp(a, b, n)]: zero or not, which is all the
    callers test. A string shorter than [n] is compared with its terminator. *)
Definition head_n (n : nat) (s : bytes) : bytes := take n (s ++ [0]).
Definition strncasecmp_eq (a b : bytes) (n : nat) : bool :=
  bool_decide (List.map tolower (head_n n a) = List.map tolower (head_n n b)).
Definition strncmp_eq (a b : bytes) (n : nat) : bool :=
  bool_decide (head_n n a = head_n n b).
Definition strcmp_eq (a b : bytes) : bool := bool_decide (a = b).

(** Decimal output of [%u]. *)
Fixpoint decimal_aux (fuel : nat) (n : Z) (acc : bytes) : bytes :=
  match fuel with
  | O => acc
  | S fuel' =>
      let acc' := (48 + n mod 10) :: acc in
      if n <? 10 then acc' else decimal_aux fuel' (n / 10) acc'
  end.
Definition decimal (n : Z) : bytes := decimal_aux 32 n [].

(** ** Strings and numbers read back *)

(** The string before the terminator. *)
Lemma c_str_app s rest : Forall (fun c => c <> 0) s -> c_str (s ++ 0 :: rest) = Done s.
Proof.
  induction 1 as [|c s Hc _ IH]; [done|]. cbn [app c_str].
  destruct (Z.eqb_spec c 0); [done|]. by rewrite IH.
Qed.

Lemma decimal_digits (P : Z -> Prop) n :
  0 <= n -> (forall d, 0 <= d < 10 -> P (48 + d)) -> Forall P (decimal n).
Proof.
  intros Hn HP. unfold decimal. assert (H : forall fuel n acc, 0 <= n ->
    Forall P acc -> Forall P (decimal_aux fuel n acc)).
  { clear n Hn. induction fuel as [|fuel IH]; intros n acc Hn Hacc; [done|]. cbn [decimal_aux].
    assert (Forall P (48 + n mod 10 :: acc)) by (constructor; [apply HP; lia|done]).
    destruct (n <? 10); [done|]. apply IH; [lia|done]. }
  apply H; [lia|constructor].
Qed.
Lemma decimal_nonzero n : 0 <= n -> Forall (fun c => c <> 0) (decimal n).
Proof. intros Hn. apply decimal_digits; intros; lia. Qed.

(** The decimal digits of a number, read back. *)
Definition starts_with_digit (s : bytes) : bool :=
  match s with c :: _ => bool_decide (is_Some (digit 10 c)) | [] => false end.

Lemma digit_value d : 0 <= d < 10 -> digit 10 (48 + d) = Some d.
Proof.
  intros Hd. unfold digit. replace ((48 <=? 48 + d) && (48 + d <=? 57)) with true by lia.
  replace (48 + d - 48) with d by lia. by replace (d <? 10) with true by lia.
Qed.

Lemma decimal_aux_digits fuel : forall n acc,
  0 <= n < 10 ^ Z.of_nat fuel -> (0 < fuel)%nat ->
  exists ds, decimal_aux fuel n acc = ds ++ acc /\ (0 < length ds)%nat /\
    (exists d, 0 <= d < 10 /\ head ds = Some (48 + d)) /\
    forall a rest, digits 10 a (ds ++ rest) =
      let '(v, m) := digits 10 (a * 10 ^ Z.of_nat (length ds) + n) rest in
      (v, (length ds + m)%nat).
Proof.
  induction fuel as [|fuel IH]; intros n acc Hn Hf; [lia|]. cbn [decimal_aux].
  destruct (Z.ltb_spec n 10) as [H|H].
  - exists [48 + n]. rewrite Z.mod_small by lia. split; [done|]. split; [cbn; lia|].
    split; [exists n; split; [lia|done]|].
    intros a rest. cbn [app digits length]. rewrite digit_value by lia.
    change (10 ^ Z.of_nat 1) with 10. by destruct (digits 10 (a * 10 + n) rest).
  - rewrite Nat2Z.inj_succ, Z.pow_succ_r in Hn by lia.
    assert (Hf' : (0 < fuel)%nat) by (destruct fuel; [cbn in Hn; lia|lia]).
    destruct (IH (n / 10) ((48 + n mod 10) :: acc)) as (ds & Hds & Hl & (d & Hd & Hh) & Hr);
      [split; [lia|apply Z.div_lt_upper_bound; lia]|done|].
    exists (ds ++ [48 + n mod 10]). rewrite <- app_assoc. split; [exact Hds|].
    split; [rewrite length_app; cbn; lia|].
    split; [exists d; split; [done|]; destruct ds; [done|exact Hh]|].
    intros a rest. rewrite <- app_assoc, Hr. cbn [app digits]. rewrite digit_value by lia.
    rewrite length_app. cbn [length]. rewrite Nat2Z.inj_add, Z.pow_add_r by lia.
    change (10 ^ Z.of_nat 1) with 10.
    replace ((a * 10 ^ Z.of_nat (length ds) + n / 10) * 10 + n mod 10)
      with (a * (10 ^ Z.of_nat (length ds) * 10) + n) by (pose proof (Z.div_mod n 10); lia).
    destruct (digits 10 _ rest) as [v m]. f_equal. lia.
Qed.

(** In base 10 there is no prefix to skip. *)
Lemma skip_0x_10 s : skip_0x 10 s = s.
Proof. unfold skip_0x. by repeat case_match. Qed.

Lemma number_decimal n rest :
  0 <= n < 10 ^ 32 -> starts_with_digit rest = false ->
  number 10 (decimal n ++ rest) = (false, n, length (decimal n)) /\ (0 < length (decimal n))%nat.
Proof.
  intros Hn Hrest.
  destruct (decimal_aux_digits 32 n []) as (ds & Hds & Hl & (d & Hd & Hh) & Hr); [lia|lia|].
  unfold decimal. rewrite app_nil_r in Hds. rewrite Hds. clear Hds.
  specialize (Hr 0 rest). rewrite Z.mul_0_l, Z.add_0_l in Hr.
  assert (Hstop : digits 10 n rest = (n, 0%nat)).
  { destruct rest as [|c rest]; [done|]. cbn. cbn in Hrest.
    destruct (digit 10 c) as [x|]; [by rewrite bool_decide_true in Hrest|done]. }
  rewrite Hstop, Nat.add_0_r in Hr. unfold number. split; [|done].
  destruct ds as [|c ds]; [cbn in Hl; lia|]. injection Hh as ->. cbn [app skip_space].
  assert (isspace (48 + d) = false) as -> by (unfold isspace; lia).
  assert ((48 + d =? 45) = false) as -> by lia. assert ((48 + d =? 43) = false) as -> by lia.
  rewrite skip_0x_10. change (48 + d :: ds ++ rest) with ((48 + d :: ds) ++ rest).
  rewrite Hr. cbn [length]. f_equal. lia.
Qed.

Lemma strtoul_any_decimal n rest :
  0 <= n < 10 ^ 32 -> starts_with_digit rest = false ->
  strtoul (decimal n ++ rest) 10 = (Z.min n ULONG_MAX, length (decimal n)).
Proof.
  intros Hn Hrest. unfold strtoul. rewrite (proj1 (number_decimal n rest Hn Hrest)).
  destruct (n >? ULONG_MAX) eqn:H; f_equal; lia.
Qed.
Lemma strtoul_decimal n rest :
  0 <= n < 4294967296 -> starts_with_digit rest = false ->
  strtoul (decimal n ++ rest) 10 = (n, length (decimal n)).
Proof.
  intros Hn Hrest. rewrite strtoul_any_decimal by (done || lia). f_equal. unfold ULONG_MAX. lia.
Qed.

Lemma strtol_decimal n rest :
  0 <= n < 2147483648 -> starts_with_digit rest = false ->
  strtol (decimal n ++ rest) 10 = (n, length (decimal n), false) /\ (0 < length (decimal n))%nat.
Proof.
  intros Hn Hrest. destruct (number_decimal n rest ltac:(lia) Hrest) as [H Hl]. split; [|done].
  unfold strtol. rewrite H. unfold LONG_MAX, LONG_MIN.
  by rewrite (proj2 (Z.ltb_ge _ _)) by lia; replace (n >? 2147483647) with false by lia.
Qed.

(** Reading stops within the string. *)
Lemma digits_length base s : forall acc, (snd (digits base acc s) <= length s)%nat.
Proof.
  induction s as [|c s IH]; intros acc; [done|]. cbn [digits length].
  destruct (digit base c) as [d|]; [|cbn; lia]. specialize (IH (acc * base + d)).
  destruct (digits base _ s). cbn in *. lia.
Qed.
Lemma skip_space_length s : (length (skip_space s) <= length s)%nat.
Proof. induction s as [|c s IH]; [done|]. cbn. destruct (isspace c); cbn in *; lia. Qed.
Lemma skip_0x_length base s : (length (skip_0x base s) <= length s)%nat.
Proof. unfold skip_0x. repeat case_match; cbn in *; lia. Qed.
Lemma number_length base s : (snd (number base s) <= length s)%nat.
Proof.
  unfold number. pose proof (skip_space_length s) as H1.
  assert (H2 : forall neg l, (length l <= length s)%nat ->
    (snd (let '(v, n) := digits base 0 (skip_0x base l) in
          match n with 0 => (neg : bool, 0%Z, 0) | _ => (neg, v, length s - length (skip_0x base l) + n) end)
     <= length s)%nat).
  { intros neg l Hl. pose proof (skip_0x_length base l). pose proof (digits_length base (skip_0x base l) 0).
    destruct (digits base 0 _) as [v [|n]]; cbn [snd] in *; lia. }
  destruct (skip_space s) as [|c s']; [apply H2; cbn; lia|]. cbn [length] in H1.
  destruct (c =? 45); [apply H2; lia|]. destruct (c =? 43); apply H2; cbn [length]; lia.
Qed.
Lemma strtoul_length s base : (snd (strtoul s base) <= length s)%nat.
Proof. unfold strtoul. pose proof (number_length base s). by destruct (number base s) as [[? ?] ?]. Qed.

Lemma c_str_Done m s : c_str m = Done s -> exists rest, m = s ++ 0 :: rest.
Proof.
  revert s. induction m as [|b m IH]; intros s; [done|]. cbn.
  destruct (Z.eqb_spec b 0) as [->|Hb]; [intros [= <-]; by exists m|].
  destruct (c_str m) as [s'| |]; [|done..]. intros [= <-].
  destruct (IH s' eq_refl) as [rest ->]. by exists rest.
Qed.
Lemma c_str_total m : In 0 m -> exists s, c_str m = Done s.
Proof.
  induction m as [|b m IH]; [done|]. cbn. intros Hin.
  destruct (Z.eqb_spec b 0) as [->|Hb]; [by eexists|]. destruct Hin as [->|Hin]; [done|].
  destruct (IH Hin) as [s ->]. by eexists.
Qed.
Lemma char_at_ok m i : (i < length m)%nat -> exists c, char_at m i = Done c.
Proof.
  intros Hi. unfold char_at. destruct (_ !! _) as [c|] eqn:Hc; [by exists c|].
  apply (lookup_ge_None (A := Z)) in Hc. unfold bytes in *. lia.
Qed.
Lemma char_at_app_0 s rest : char_at (s ++ 0 :: rest) (length s) = Done 0.
Proof. unfold char_at. by rewrite lookup_app_r, Nat.sub_diag by lia. Qed.
Lemma char_at_app_l s rest i c : s !! i = Some c -> char_at (s ++ rest) i = Done c.
Proof. intros H. unfold char_at. by rewrite (lookup_app_l_Some _ _ _ _ H). Qed.

(** [memcpy] within both objects. *)
Lemma memcpy_ok dst src soff n :
  (soff + n <= length src)%nat -> (n <= length dst)%nat ->
  memcpy dst 0 src soff (Z.of_nat n) = Done (take n (drop soff src) ++ drop n dst).
Proof.
  intros Hs Hd. unfold memcpy. destruct (Z.ltb_spec (Z.of_nat n) 0); [lia|]. rewrite Nat2Z.id.
  rewrite read_at_ok by done. cbn [mbind outcome_bind].
  assert (Hl : length (take n (drop soff src)) = n) by (rewrite length_take, length_drop; lia).
  rewrite write_at_ok by (rewrite Hl; lia). rewrite Hl. done.
Qed.
Lemma set_nul_ok m i :
  (i < length m)%nat -> set_nul m (Z.of_nat i) = Done (take i m ++ 0 :: drop (i + 1) m).
Proof.
  intros Hi. unfold set_nul. destruct (Z.ltb_spec (Z.of_nat i) 0); [lia|]. rewrite Nat2Z.id.
  by rewrite write_at_ok by (cbn; lia).
Qed.
