(* ===== verification/NetIp.v ===== *)
(** Addresses: zephyr/net/net_ip.c, zephyr/net/net_ip.h and
    zephyr/net/net_core.c. A [struct sockaddr *] is the bytes of the object it
    points to, so a cast to [sockaddr_in6] reads and writes the object at the
    field offsets of [Platform.Lwip] and faults past its end. *)
From S2P Require Import Prelude CInt Platform CString.
Import Stdlib.Strings.String.StringSyntax.
Open Scope Z_scope.

(** config.h and lwipopts.h: both protocols are compiled in. *)
Definition CONFIG_NET_IPV4 : bool := true.
Definition CONFIG_NET_IPV6 : bool := true.

(** [sizeof("xxx.xxx.xxx.xxx")], with its terminator. *)
Definition NET_IPV4_ADDR_LEN : nat := 16.

Section NetIp.
Context {L : Lwip}.

(** ** Fields of socket addresses (the casts [net_sin] and [net_sin6]) *)
Definition sa_family (addr : bytes) : outcome Z := load_at off_sa_family sizeof_sa_family addr.
Definition sin_port (addr : bytes) : outcome Z := load_at off_sin_port 2 addr.
Definition sin_addr (addr : bytes) : outcome bytes := read_at off_sin_addr 4 addr.
Definition sin6_port (addr : bytes) : outcome Z := load_at off_sin6_port 2 addr.
Definition sin6_addr (addr : bytes) : outcome bytes := read_at off_sin6_addr 16 addr.

Definition set_sa_family (v : Z) (addr : bytes) : outcome bytes :=
  store_at off_sa_family sizeof_sa_family v addr.
Definition set_sin_port (v : Z) (addr : bytes) : outcome bytes := store_at off_sin_port 2 v addr.
Definition set_sin_addr (bs addr : bytes) : outcome bytes := write_at off_sin_addr bs addr.
Definition set_sin6_port (v : Z) (addr : bytes) : outcome bytes := store_at off_sin6_port 2 v addr.
Definition set_sin6_addr (bs addr : bytes) : outcome bytes := write_at off_sin6_addr bs addr.

(** ** Comparison and copy *)
Definition net_ipv4_addr_cmp (first_address second_address : bytes) : bool :=
  load_le first_address =? load_le second_address.

Definition net_ipv6_addr_cmp (first_address second_address : bytes) : bool :=
  bool_decide (first_address = second_address).

(** Both copies overwrite the bytes of the destination, here the head of the
    16-byte union of a session's address. *)
Definition net_ipaddr_copy (dest src : bytes) : bytes := src ++ drop 4 dest.
Definition net_ipaddr6_copy (dest src : bytes) : bytes := src ++ drop 16 dest.

Definition net_ipv6_unspecified_address : bytes := in6addr_any.

Definition net_ipv4_is_addr_unspecified (addr : bytes) : bool := load_le addr =? INADDR_ANY.
Definition net_ipv6_is_addr_unspecified (addr : bytes) : bool :=
  net_ipv6_addr_cmp addr net_ipv6_unspecified_address.

(** [net_addr_pton family src dst]: the result, and what is written to [dst]. *)
Definition net_addr_pton (family : Z) (src : bytes) : Z * option bytes :=
  let '(r, written) := inet_pton family src in
  (if r =? 0 then -1 else 0, written).

(** ** net_core.c *)
Definition copy_sockaddr_in6_to_sockaddr_storage (src : bytes) : outcome bytes :=
  let dest := memset 0 sizeof_sockaddr_storage in
  family ← sa_family src;
  if family =? AF_INET6
  then memcpy dest 0 src 0 (Z.of_nat sizeof_sockaddr_in6)
  else mret dest.

Definition copy_sockaddr_in_to_sockaddr_storage (src : bytes) : outcome bytes :=
  let dest := memset 0 sizeof_sockaddr_storage in
  family ← sa_family src;
  if family =? AF_INET
  then memcpy dest 0 src 0 (Z.of_nat sizeof_sockaddr_in)
  else mret dest.

(** ** Parsing *)

(** [convert_port(buf, &port)]: the port when the result is [true]. *)
Definition convert_port (buf : bytes) : outcome (option Z) :=
  s ← c_str buf;
  let '(tmp, endptr) := strtoul s 10 in
  first ← char_at buf 0;
  last ← char_at buf endptr;
  if ((endptr =? 0)%nat && (tmp =? 0))
     || negb (negb (first =? 0) && (last =? 0))
     || negb (u16 tmp =? tmp)
  then mret None
  else mret (Some (u16 tmp)).

(** [for (i = 0; i < len; i++) if (!str[i]) { len = i; break; }], from [off]. *)
Fixpoint clip (str : bytes) (off i n : nat) : outcome nat :=
  match n with
  | O => mret i
  | S n' =>
      c ← char_at str (off + i);
      if c =? 0 then mret i else clip str off (S i) n'
  end.

Definition parse_ipv6 (str : bytes) (str_len : nat) (addr : bytes) (has_port : bool)
    : outcome (bool * bytes) :=
  let ipaddr := memset 0 (INET6_ADDRSTRLEN + 1) in
  len ← clip str 0 0 (Nat.min INET6_ADDRSTRLEN str_len);
  let ptr := if has_port then memchr str 93 len else Some 0%nat in
  match ptr with
  | None => mret (false, addr)
  | Some ptr =>
      let stop := if has_port then Z.min (Z.of_nat len) (Z.of_nat ptr - 1) else Z.of_nat len in
      ipaddr ← memcpy ipaddr 0 str (if has_port then 1 else 0)%nat stop;
      ipaddr ← set_nul ipaddr stop;
      host ← c_str ipaddr;
      let '(ret, written) := net_addr_pton AF_INET6 host in
      addr ← match written with Some bs => set_sin6_addr bs addr | None => mret addr end;
      if ret <? 0 then mret (false, addr) else
      addr ← set_sa_family AF_INET6 addr;
      if negb has_port then mret (true, addr) else
      colon ← (if (ptr + 1 <? str_len)%nat
               then c ← char_at str (ptr + 1); mret (c =? 58) else mret false);
      if negb colon then mret (true, addr) else
      let len := Z.of_nat str_len - stop - 1 - 2 in
      len ← clip str (ptr + 2) 0 (Z.to_nat len);
      ipaddr ← memcpy ipaddr 0 str (ptr + 2) (Z.of_nat len);
      ipaddr ← set_nul ipaddr (Z.of_nat len);
      ret ← convert_port ipaddr;
      match ret with
      | None => mret (false, addr)
      | Some port => addr ← set_sin6_port (htons port) addr; mret (true, addr)
      end
  end.

Definition parse_ipv4 (str : bytes) (str_len : nat) (addr : bytes) (has_port : bool)
    : outcome (bool * bytes) :=
  let ipaddr := memset 0 (NET_IPV4_ADDR_LEN + 1) in
  len ← clip str 0 0 (Nat.min NET_IPV4_ADDR_LEN str_len);
  let ptr := if has_port then memchr str 58 len else Some 0%nat in
  match ptr with
  | None => mret (false, addr)
  | Some ptr =>
      let stop := if has_port then Nat.min len ptr else len in
      ipaddr ← memcpy ipaddr 0 str 0 (Z.of_nat stop);
      ipaddr ← set_nul ipaddr (Z.of_nat stop);
      host ← c_str ipaddr;
      let '(ret, written) := net_addr_pton AF_INET host in
      addr ← match written with Some bs => set_sin_addr bs addr | None => mret addr end;
      if ret <? 0 then mret (false, addr) else
      addr ← set_sa_family AF_INET addr;
      if negb has_port then mret (true, addr) else
      ipaddr ← memcpy ipaddr 0 str (ptr + 1) (Z.of_nat str_len - Z.of_nat stop);
      ipaddr ← set_nul ipaddr (Z.of_nat str_len - Z.of_nat stop);
      ret ← convert_port ipaddr;
      match ret with
      | None => mret (false, addr)
      | Some port => addr ← set_sin_port (htons port) addr; mret (true, addr)
      end
  end.

(** [for (i = 0; i < str_len && str[i]; i++) if (str[i] == ':') count++;] *)
Fixpoint count_colons (str : bytes) (i n : nat) (count : nat) : outcome nat :=
  match n with
  | O => mret count
  | S n' =>
      c ← char_at str i;
      if c =? 0 then mret count
      else count_colons str (S i) n' (if c =? 58 then S count else count)
  end.

Definition net_ipaddr_parse (str : option bytes) (str_len : nat) (addr : bytes)
    : outcome (bool * bytes) :=
  match str with
  | None => mret (false, addr)
  | Some str =>
      if (str_len =? 0)%nat then mret (false, addr) else
      c ← char_at str 0;
      if c =? 0 then mret (false, addr) else
      if c =? 91 then parse_ipv6 str str_len addr true else
      count ← count_colons str 0 str_len 0;
      if (count =? 1)%nat then parse_ipv4 str str_len addr true else
      '(ok, addr) ← parse_ipv4 str str_len addr false;
      if ok : bool then mret (true, addr) else parse_ipv6 str str_len addr false
  end.
End NetIp.

(** The parsers on concrete inputs. *)
Section Examples.
Existing Instance lwip_example.
Example parse_host_port :
  net_ipaddr_parse (Some (literal "10.0.0.1:80")) 11 (memset 0 16)
  = Done (true, [0; 2; 0; 80; 10; 0; 0; 1; 0; 0; 0; 0; 0; 0; 0; 0]).
Proof. vm_compute. reflexivity. Qed.
Example parse_host :
  net_ipaddr_parse (Some (literal "192.168.0.2")) 11 (memset 0 16)
  = Done (true, [0; 2; 0; 0; 192; 168; 0; 2; 0; 0; 0; 0; 0; 0; 0; 0]).
Proof. vm_compute. reflexivity. Qed.
Example parse_v6_storage :
  net_ipaddr_parse (Some (literal "[::1]:5001")) 10 (memset 0 28)
  = Done (true, [0; 10; 19; 137; 0; 0; 0; 0] ++ replicate 15 0 ++ [1; 0; 0; 0; 0]).
Proof. vm_compute. reflexivity. Qed.
End Examples.
