(* ===== verification/AddrParse.v ===== *)
(** The parsers of zephyr/net/net_ip.c on strings: what [net_ipaddr_parse] makes of
    host:port, and when its copies stay within its buffers. *)
From S2P Require Import Prelude CInt Platform CString NetIp.
Import Stdlib.Strings.String.StringSyntax.
Open Scope Z_scope.

(** ** Parsing: theorems *)
Section Parsing.
Context {L : Lwip} {LOk : LwipOk L}.

Definition nonzero (s : bytes) : Prop := Forall (fun c => c <> 0) s.

(** Strings in their array. *)
Lemma char_in_string (s rest : bytes) i :
  (i < length s)%nat -> nonzero s -> exists c, char_at (s ++ rest) i = Done c /\ c <> 0 /\ s !! i = Some c.
Proof.
  intros Hi Hs. destruct (lookup_lt_is_Some_2 s i Hi) as [c Hc]. exists c.
  split; [by apply char_at_app_l|]. split; [|done]. exact (Forall_lookup_1 _ _ _ _ Hs Hc).
Qed.

Lemma clip_string (pre s rest : bytes) n : forall i,
  nonzero s -> (i <= length s)%nat ->
  clip (pre ++ s ++ 0 :: rest) (length pre) i n = Done (Nat.min (i + n) (length s)).
Proof.
  induction n as [|n IH]; intros i Hs Hi; cbn [clip].
  - unfold mret, outcome_ret. f_equal. lia.
  - destruct (decide (i = length s)) as [->|Hne].
    + replace (char_at _ _) with (Done 0).
      * cbn. unfold mret, outcome_ret. f_equal. lia.
      * rewrite app_assoc, <- length_app. symmetry. apply char_at_app_0.
    + destruct (char_in_string s (0 :: rest) i ltac:(lia) Hs) as (c & Hc & Hc0 & _).
      replace (char_at _ _) with (Done c).
      * cbn. destruct (Z.eqb_spec c 0); [done|]. rewrite IH by (done || lia). f_equal. lia.
      * unfold char_at in *. by rewrite (lookup_app_r pre), Nat.add_comm, Nat.add_sub by lia.
Qed.

Lemma clip_start (s rest : bytes) n :
  nonzero s -> clip (s ++ 0 :: rest) 0 0 n = Done (Nat.min n (length s)).
Proof. intros Hs. apply (clip_string []); [done|lia]. Qed.

(** The colons of a string. *)
Definition colons (s : list Z) : nat := length (filter (fun c => c = 58) s).

Lemma count_colons_string (s rest : bytes) n : forall i count,
  nonzero s -> (i + n = length s)%nat ->
  count_colons (s ++ 0 :: rest) i n count = Done (count + colons (drop i s))%nat.
Proof.
  induction n as [|n IH]; intros i count Hs Hi; cbn [count_colons].
  - rewrite drop_ge by lia. by rewrite Nat.add_0_r.
  - destruct (char_in_string s (0 :: rest) i ltac:(lia) Hs) as (c & Hc & Hc0 & Hl). rewrite Hc.
    cbn [mbind outcome_bind]. destruct (Z.eqb_spec c 0); [done|]. rewrite IH by (done || lia).
    rewrite (drop_S s c i Hl). unfold colons. rewrite filter_cons.
    destruct (Z.eqb_spec c 58) as [->|Hne].
    + rewrite decide_True by done. cbn [length]. f_equal. lia.
    + by rewrite decide_False.
Qed.

Lemma no_colons s : Forall (fun c => c <> 58) s -> colons s = 0%nat.
Proof.
  induction 1 as [|c s Hc _ IH]; [done|]. unfold colons. by rewrite filter_cons, decide_False.
Qed.
Lemma colons_app s1 s2 : colons (s1 ++ s2) = (colons s1 + colons s2)%nat.
Proof.
  unfold colons. induction s1 as [|c s1 IH]; [done|]. cbn [app]. rewrite !filter_cons.
  case_decide; cbn [length]; lia.
Qed.
Lemma colons_one s : colons s = 1%nat ->
  exists h q, s = h ++ 58 :: q /\ Forall (fun c => c <> 58) h /\ Forall (fun c => c <> 58) q.
Proof.
  assert (H0 : forall s, colons s = 0%nat -> Forall (fun c => c <> 58) s).
  { clear. induction s as [|c s IH]; [constructor|]. unfold colons. rewrite filter_cons. case_decide; [done|].
    intros H1. constructor; [done|by apply IH]. }
  induction s as [|c s IH]; [done|]. unfold colons. rewrite filter_cons. case_decide as Hc.
  - cbn [length]. intros [= H1]. exists [], s. subst c. split; [done|]. split; [constructor|by apply H0].
  - intros H1. destruct (IH H1) as (h & q & -> & Hh & Hq). exists (c :: h), q.
    split; [done|]. split; [by constructor|done].
Qed.

Lemma find_byte_app b (s rest : bytes) :
  Forall (fun c => c <> b) s -> find_byte b (s ++ b :: rest) = Some (length s).
Proof.
  induction 1 as [|c s Hc _ IH]; cbn; [by rewrite Z.eqb_refl|].
  destruct (Z.eqb_spec c b); [done|]. by rewrite IH.
Qed.
Lemma find_byte_none b (s : bytes) : Forall (fun c => c <> b) s -> find_byte b s = None.
Proof.
  induction 1 as [|c s Hc _ IH]; [done|]. cbn. destruct (Z.eqb_spec c b); [done|]. by rewrite IH.
Qed.
Lemma find_byte_Some b (s : bytes) i :
  find_byte b s = Some i -> exists h q, s = h ++ b :: q /\ length h = i /\ Forall (fun c => c <> b) h.
Proof.
  revert i. induction s as [|c s IH]; intros i; [done|]. cbn.
  destruct (Z.eqb_spec c b) as [->|Hc]; [intros [= <-]; by exists [], s|].
  destruct (find_byte b s) as [j|]; [|done]. intros [= <-].
  destruct (IH j eq_refl) as (h & q & -> & <- & Hh). exists (c :: h), q. split; [done|].
  split; [done|by constructor].
Qed.

(** [convert_port] on a buffer with a string in it: it never reads past it, and
    reads back a decimal number exactly when it fits 16 bits. *)
Lemma convert_port_total buf : In 0 buf -> exists r, convert_port buf = Done r.
Proof.
  intros Hin. destruct (c_str_total buf Hin) as [s Hs]. destruct (c_str_Done _ _ Hs) as [rest ->].
  unfold convert_port. rewrite Hs. cbn [mbind outcome_bind].
  pose proof (strtoul_length s 10) as Hl. destruct (strtoul s 10) as [v stop]. cbn [snd] in Hl.
  destruct (char_at_ok (s ++ 0 :: rest) 0) as [c0 ->]; [rewrite length_app; cbn; lia|].
  destruct (char_at_ok (s ++ 0 :: rest) stop) as [c1 ->]; [rewrite length_app; cbn; lia|].
  cbn [mbind outcome_bind]. case_match; by eexists.
Qed.

Lemma convert_port_decimal p rest :
  0 <= p < 10 ^ 32 ->
  convert_port (decimal p ++ 0 :: rest) = Done (if p <? 65536 then Some p else None).
Proof.
  intros Hp. pose proof (decimal_nonzero p (proj1 Hp)) as Hnz. unfold convert_port.
  rewrite c_str_app by done. cbn [mbind outcome_bind].
  pose proof (strtoul_any_decimal p [] Hp eq_refl) as Hv. rewrite app_nil_r in Hv. rewrite Hv.
  clear Hv. unfold ULONG_MAX. set (v := Z.min p 4294967295).
  destruct (number_decimal p [] Hp eq_refl) as [_ Hlen].
  destruct (char_in_string (decimal p) (0 :: rest) 0 Hlen Hnz) as (c & -> & Hc & _).
  cbn [mbind outcome_bind]. rewrite char_at_app_0. cbn [mbind outcome_bind].
  destruct (Nat.eqb_spec (length (decimal p)) 0); [lia|].
  destruct (Z.eqb_spec c 0); [done|]. cbn [negb andb orb Z.eqb].
  destruct (Z.ltb_spec p 65536) as [H|H].
  - assert (v = p) as -> by lia. rewrite (u16_small p) by lia. by rewrite Z.eqb_refl.
  - destruct (Z.eqb_spec (u16 v) v) as [He|He]; [|done]. unfold u16 in He. lia.
Qed.

(** A piece of a string copied to a buffer and terminated. *)
Lemma memcpy_set_nul {A} (f : bytes -> outcome A) (buf str : list Z) off k :
  (off + k <= length str)%nat -> (k < length buf)%nat ->
  (buf' ← memcpy buf 0 str off (Z.of_nat k); buf' ← set_nul buf' (Z.of_nat k); f buf') =
  f (take k (drop off str) ++ 0 :: drop (k + 1) buf).
Proof.
  intros Hs Hb. rewrite memcpy_ok by lia. cbn [mbind outcome_bind].
  assert (Hl : length (take k (drop off str)) = k) by (rewrite length_take, length_drop; lia).
  rewrite set_nul_ok by (rewrite length_app, Hl, length_drop; lia). cbn [mbind outcome_bind].
  rewrite take_app_length' by done. rewrite drop_app_ge by (rewrite Hl; lia).
  rewrite Hl, drop_drop. by replace (k + (k + 1 - k))%nat with (k + 1)%nat by lia.
Qed.

(** One byte too many for the buffer. *)
Lemma memcpy_set_nul_oob {A} (f : bytes -> outcome A) (buf str : list Z) off k :
  (off + k <= length str)%nat -> (length buf <= k)%nat ->
  (buf' ← memcpy buf 0 str off (Z.of_nat k); buf' ← set_nul buf' (Z.of_nat k); f buf') =
  Fault OutOfBounds.
Proof.
  intros Hs Hb. destruct (decide (k = length buf)) as [->|Hne].
  - rewrite memcpy_ok by lia. cbn [mbind outcome_bind].
    assert (Hl : length (take (length buf) (drop off str)) = length buf)
      by (rewrite length_take, length_drop; lia).
    unfold set_nul. destruct (Z.ltb_spec (Z.of_nat (length buf)) 0); [lia|].
    rewrite Nat2Z.id, write_at_oob; [done|]. rewrite length_app, Hl, length_drop. cbn. lia.
  - unfold memcpy. destruct (Z.ltb_spec (Z.of_nat k) 0); [lia|]. rewrite Nat2Z.id, read_at_ok by lia.
    cbn [mbind outcome_bind]. rewrite write_at_oob; [done|]. rewrite length_take, length_drop. lia.
Qed.

(** The part of both parsers that reads the address. *)
Definition read_host (family : Z) (set : bytes -> bytes -> outcome bytes) (host addr : bytes)
    (f : bytes -> outcome (bool * bytes)) : outcome (bool * bytes) :=
  let '(ret, written) := net_addr_pton family host in
  addr ← match written with Some bs => set bs addr | None => mret addr end;
  if ret <? 0 then mret (false, addr) else
  addr ← set_sa_family family addr; f addr.

Definition set_port (set : Z -> bytes -> outcome bytes) (addr : bytes) (r : option Z) : outcome (bool * bytes) :=
  match r with
  | None => mret (false, addr)
  | Some port => addr ← set (htons port) addr; mret (true, addr)
  end.

Lemma parse_ipv4_port (host q : list Z) addr :
  nonzero host -> Forall (fun c => c <> 58) host -> nonzero q ->
  parse_ipv4 (host ++ 58 :: q ++ [0]) (length host + 1 + length q) addr true =
  if (length host <? NET_IPV4_ADDR_LEN)%nat
  then read_host AF_INET set_sin_addr host addr (fun addr =>
         if (length q <? NET_IPV4_ADDR_LEN)%nat
         then r ← convert_port (q ++ 0 :: 0 :: drop (length q + 2)
                                  (host ++ 0 :: drop (length host + 1) (memset 0 (NET_IPV4_ADDR_LEN + 1))));
              set_port set_sin_port addr r
         else Fault OutOfBounds)
  else mret (false, addr).
Proof.
  intros Hh Hh58 Hq. unfold parse_ipv4. set (s := host ++ 58 :: q).
  assert (Hstr : host ++ 58 :: q ++ [0] = s ++ 0 :: []) by (unfold s; by rewrite <- app_assoc).
  assert (Hsl : length s = (length host + 1 + length q)%nat) by (unfold s; rewrite length_app; cbn; lia).
  assert (Hs : nonzero s) by (apply Forall_app; split; [done|by constructor]).
  rewrite <- Hsl, Hstr, clip_start by done. cbn [mbind outcome_bind]. cbv zeta.
  set (len := Nat.min _ _). unfold memchr.
  destruct (Nat.ltb_spec (length host) NET_IPV4_ADDR_LEN) as [Hlen|Hlen].
  - assert (Hlen' : (length host < len)%nat) by lia.
    assert (Htake : take len (s ++ 0 :: []) = host ++ 58 :: take (len - length host - 1) (q ++ [0])).
    { rewrite <- Hstr, take_app_ge by lia. f_equal. destruct (len - length host)%nat eqn:Hd; [lia|].
      cbn. do 2 f_equal. lia. }
    rewrite Htake, find_byte_app by done. cbn iota.
    replace (Nat.min len (length host)) with (length host) by lia.
    rewrite (memcpy_set_nul (fun b => _ ← c_str b; _)); [| |unfold memset; rewrite length_replicate; lia].
    2: { rewrite length_app. lia. }
    rewrite drop_0. replace (take (length host) (s ++ [0])) with host
      by (rewrite <- Hstr; symmetry; by apply take_app_length').
    rewrite c_str_app by done. cbn [mbind outcome_bind]. unfold read_host.
    destruct (net_addr_pton AF_INET host) as [ret written].
    destruct (match written with Some bs => set_sin_addr bs addr | None => mret addr end)
      as [addr1| |]; [|done..]. cbn [mbind outcome_bind].
    destruct (ret <? 0); [done|]. destruct (set_sa_family AF_INET addr1) as [addr2| |]; [|done..].
    cbn [mbind outcome_bind negb].
    replace (Z.of_nat (length s) - Z.of_nat (length host)) with (Z.of_nat (length q + 1)) by lia.
    assert (Hroom : (length host + 1 + (length q + 1) <= length (s ++ 0%Z :: []))%nat)
      by (rewrite length_app; cbn; lia).
    set (buf := host ++ 0 :: _).
    assert (Hbuf : length buf = 17%nat).
    { unfold buf, memset. rewrite length_app. cbn [length]. rewrite length_drop, length_replicate.
      unfold NET_IPV4_ADDR_LEN in *. lia. }
    destruct (Nat.ltb_spec (length q) NET_IPV4_ADDR_LEN) as [Hq16|Hq16]; unfold NET_IPV4_ADDR_LEN in Hq16.
    + rewrite (memcpy_set_nul (fun b => ret ← convert_port b; _)) by lia.
      assert (take (length q + 1) (drop (length host + 1) (s ++ [0])) = q ++ [0]) as ->.
      { rewrite <- Hstr, <- drop_drop, drop_app_length. cbn [drop]. apply take_ge.
        rewrite length_app. cbn. lia. }
      rewrite <- app_assoc. cbn [app]. by replace (length q + 1 + 1)%nat with (length q + 2)%nat by lia.
    + by apply (memcpy_set_nul_oob (fun b => ret ← convert_port b; _)); lia.
  - rewrite find_byte_none; [done|].
    assert (Hle : (len <= length host)%nat) by (unfold len, NET_IPV4_ADDR_LEN in *; lia).
    rewrite <- Hstr, take_app_le by done. by apply Forall_take.
Qed.

(** Fields that were stored. *)
Lemma load_stored off n v m m' :
  store_at off n v m = Done m' -> load_at off n m' = Done (v mod 256 ^ Z.of_nat n).
Proof.
  unfold store_at, load_at. intros Hw. pose proof (read_write_same _ _ _ _ Hw) as Hr.
  rewrite length_store_le in Hr. rewrite Hr. cbn. by rewrite load_store_le.
Qed.
Lemma load_other off n off' bs m m' :
  write_at off bs m = Done m' -> (off' + n <= off \/ off + length bs <= off')%nat ->
  load_at off' n m' = load_at off' n m.
Proof.
  unfold load_at. intros Hw [Hlt|Hlt];
    [by rewrite (read_write_before _ _ _ _ _ _ Hw)|by rewrite (read_write_after _ _ _ _ _ _ Hw)].
Qed.

Lemma decimal_length p : 0 <= p < 10 ^ 15 -> (length (decimal p) <= 15)%nat.
Proof.
  intros Hp. unfold decimal.
  assert (H : forall k fuel n acc, 0 <= n < 10 ^ Z.of_nat (S k) ->
    (length (decimal_aux fuel n acc) <= S k + length acc)%nat); [|apply (H 14%nat 32%nat p []); cbn; lia].
  induction k as [|k IH]; intros fuel n acc Hn; (destruct fuel as [|fuel]; cbn [decimal_aux]; [cbn [length]; lia|]).
  - change (10 ^ Z.of_nat 1) with 10 in Hn. destruct (Z.ltb_spec n 10); [cbn; lia|lia].
  - destruct (n <? 10); [cbn; lia|]. etransitivity; [apply IH|cbn; lia].
    rewrite (Nat2Z.inj_succ (S k)), Z.pow_succ_r in Hn by lia.
    split; [lia|apply Z.div_lt_upper_bound; lia].
Qed.

(** A text host:port goes to [parse_ipv4]. *)
Lemma net_ipaddr_parse_port (host q : list Z) addr :
  nonzero host -> Forall (fun c => c <> 58) host -> host <> [] -> host !! 0%nat <> Some 91 ->
  nonzero q -> Forall (fun c => c <> 58) q ->
  net_ipaddr_parse (Some (host ++ 58 :: q ++ [0])) (length host + 1 + length q) addr =
  parse_ipv4 (host ++ 58 :: q ++ [0]) (length host + 1 + length q) addr true.
Proof.
  intros Hh Hh58 Hne H91 Hq Hq58. unfold net_ipaddr_parse.
  destruct (Nat.eqb_spec (length host + 1 + length q) 0); [lia|].
  destruct (char_in_string host (58 :: q ++ [0]) 0) as (c & Hc & Hc0 & Hl);
    [destruct host; [done|cbn; lia]|done|]. rewrite Hc. cbn [mbind outcome_bind].
  destruct (Z.eqb_spec c 0); [done|]. destruct (Z.eqb_spec c 91) as [->|]; [done|].
  replace (host ++ 58 :: q ++ [0]) with ((host ++ 58 :: q) ++ 0 :: []) by by rewrite <- app_assoc.
  rewrite count_colons_string.
  - rewrite drop_0, colons_app. change (colons (58 :: q)) with (S (colons q)).
    by rewrite (no_colons host), (no_colons q).
  - apply Forall_app. split; [done|by constructor].
  - rewrite length_app. cbn. lia.
Qed.

(** The address that was written. *)
Lemma read_host_ok host bs r addr f :
  inet_pton AF_INET host = (r, Some bs) -> r <> 0 -> (sizeof_sockaddr_in <= length addr)%nat ->
  exists addr', read_host AF_INET set_sin_addr host addr f = f addr' /\ length addr' = length addr /\
    sa_family addr' = Done AF_INET /\ sin_addr addr' = Done bs /\ sin_port addr' = sin_port addr.
Proof.
  intros Hp Hr Hl. destruct (inet_pton_size_4 _ _ _ Hp) as [Hbs _].
  pose proof addr_in_sockaddr_in. pose proof family_before_port. pose proof port_before_addr.
  unfold read_host, net_addr_pton. rewrite Hp. destruct (Z.eqb_spec r 0); [done|].
  unfold set_sin_addr. rewrite write_at_ok by lia. set (addr1 := _ ++ _ ++ _).
  assert (Hw1 : write_at off_sin_addr bs addr = Done addr1) by (apply write_at_ok; lia).
  cbn [mbind outcome_bind Z.ltb Z.compare]. clearbody addr1.
  pose proof (write_at_length _ _ _ _ Hw1) as Hl1.
  unfold set_sa_family. destruct (store_at off_sa_family sizeof_sa_family AF_INET addr1)
    as [addr2| |] eqn:Hw2;
    [|unfold store_at in Hw2; rewrite write_at_ok in Hw2; [done|rewrite length_store_le; lia]..].
  cbn [mbind outcome_bind]. pose proof (write_at_length _ _ _ _ Hw2) as Hl2.
  exists addr2. split; [done|]. split; [lia|]. split; [|split].
  - unfold sa_family. rewrite (load_stored _ _ _ _ _ Hw2), Z.mod_small; [done|].
    pose proof af_inet_range. lia.
  - unfold sin_addr. rewrite (read_write_after _ _ _ _ _ _ Hw2) by (rewrite length_store_le; lia).
    rewrite <- Hbs. by apply (read_write_same _ _ addr).
  - unfold sin_port. rewrite (load_other _ 2 _ _ _ _ Hw2) by (rewrite length_store_le; lia).
    apply (load_other _ 2 _ _ _ _ Hw1). lia.
Qed.

(** C33: host:port is read back. The text made of a host that inet_pton reads as an
    IPv4 address (with no colon in it and no bracket in front), a colon and a decimal number of at most 15 digits (a longer
    one overruns a buffer, as the next theorem says) is parsed as follows. If
    the host has fewer than NET_IPV4_ADDR_LEN characters, to a socket address
    with that address and, if the number is below 65536, that port in network
    order; if the number is not, the result is [false] and the port is not
    written. If the host is longer, which the longest dotted address is not, the
    result is [false] and nothing is written. *)
Theorem net_ipaddr_parse_host_port host bs r p addr :
  nonzero host -> Forall (fun c => c <> 58) host -> host <> [] -> host !! 0%nat <> Some 91 ->
  inet_pton AF_INET host = (r, Some bs) -> r <> 0 ->
  0 <= p < 10 ^ 15 -> (sizeof_sockaddr_in <= length addr)%nat ->
  let str := host ++ 58 :: decimal p ++ [0] in
  if (length host <? NET_IPV4_ADDR_LEN)%nat then
    exists addr', net_ipaddr_parse (Some str) (length str - 1) addr = Done (p <? 65536, addr') /\
      length addr' = length addr /\ sa_family addr' = Done AF_INET /\ sin_addr addr' = Done bs /\
      sin_port addr' = if p <? 65536 then Done (htons p) else sin_port addr
  else net_ipaddr_parse (Some str) (length str - 1) addr = Done (false, addr).
Proof.
  intros Hh Hh58 Hne H91 Hp Hr Hport Hl str.
  pose proof (decimal_nonzero p (proj1 Hport)) as Hnz. pose proof (decimal_length p Hport) as Hdl.
  assert (Hd58 : Forall (fun c => c <> 58) (decimal p)) by (apply decimal_digits; intros; lia).
  assert (Hstr : (length str - 1 = length host + 1 + length (decimal p))%nat).
  { unfold str. rewrite length_app. cbn [length]. rewrite length_app. cbn [length]. clear. lia. }
  rewrite Hstr. unfold str.
  rewrite net_ipaddr_parse_port, parse_ipv4_port by done.
  destruct (Nat.ltb_spec (length host) NET_IPV4_ADDR_LEN); [|done].
  edestruct (read_host_ok host bs r addr) as (addr1 & -> & Hl1 & Hf1 & Ha1 & Hp1); [done..|].
  destruct (Nat.ltb_spec (length (decimal p)) NET_IPV4_ADDR_LEN) as [_|Hbad];
    [|unfold NET_IPV4_ADDR_LEN in Hbad; lia].
  rewrite convert_port_decimal by lia. cbn [mbind outcome_bind].
  destruct (Z.ltb_spec p 65536) as [H16|H16]; cbn [set_port]; [|by exists addr1].
  pose proof addr_in_sockaddr_in. pose proof family_before_port. pose proof port_before_addr.
  unfold set_sin_port. destruct (store_at off_sin_port 2 (htons p) addr1) as [addr2| |] eqn:Hw2;
    [|unfold store_at in Hw2; rewrite write_at_ok in Hw2; [done|rewrite length_store_le; lia]..].
  cbn [mbind outcome_bind]. pose proof (write_at_length _ _ _ _ Hw2) as Hl2.
  exists addr2. split; [done|]. split; [lia|]. split; [|split].
  - unfold sa_family. rewrite (load_other _ sizeof_sa_family _ _ _ _ Hw2); [done|lia].
  - unfold sin_addr. by rewrite (read_write_after _ _ _ _ _ _ Hw2) by (rewrite length_store_le; lia).
  - unfold sin_port. rewrite (load_stored _ _ _ _ _ Hw2), Z.mod_small; [done|].
    change (256 ^ Z.of_nat 2) with 65536. apply htons_range.
Qed.

(** C35: a long port number is written past the end of a local buffer: [parse_ipv4]
    copies what follows the colon to a buffer of 17 bytes whatever its length.
    From 16 characters on the program faults, whatever they are. *)
Theorem net_ipaddr_parse_port_overflow host bs r q addr :
  nonzero host -> Forall (fun c => c <> 58) host -> host <> [] -> host !! 0%nat <> Some 91 ->
  (length host < NET_IPV4_ADDR_LEN)%nat -> inet_pton AF_INET host = (r, Some bs) -> r <> 0 ->
  nonzero q -> Forall (fun c => c <> 58) q -> (NET_IPV4_ADDR_LEN <= length q)%nat ->
  (sizeof_sockaddr_in <= length addr)%nat ->
  let str := host ++ 58 :: q ++ [0] in
  net_ipaddr_parse (Some str) (length str - 1) addr = Fault OutOfBounds.
Proof.
  intros Hh Hh58 Hne H91 Hlen Hp Hr Hq Hq58 Hql Hl str.
  assert (Hstr : (length str - 1 = length host + 1 + length q)%nat).
  { unfold str. rewrite length_app. cbn [length]. rewrite length_app. cbn [length]. clear. lia. }
  rewrite Hstr. unfold str.
  rewrite net_ipaddr_parse_port, parse_ipv4_port by done.
  destruct (Nat.ltb_spec (length host) NET_IPV4_ADDR_LEN); [|lia].
  edestruct (read_host_ok host bs r addr) as (addr1 & -> & _); [done..|].
  by destruct (Nat.ltb_spec (length q) NET_IPV4_ADDR_LEN); [lia|].
Qed.

(** ** No access past the end *)
Definition parsed (addr : bytes) (o : outcome (bool * bytes)) : Prop :=
  exists b addr', o = Done (b, addr') /\ length addr' = length addr.

Lemma parsed_same b addr : parsed addr (mret (b, addr)).
Proof. by exists b, addr. Qed.
Lemma parsed_trans addr addr1 o : length addr1 = length addr -> parsed addr1 o -> parsed addr o.
Proof. intros Hl (b & a & -> & Ha). exists b, a. split; [done|]. congruence. Qed.
Lemma parsed_write {B} off (bs addr : bytes) (f : bytes -> outcome B) (P : outcome B -> Prop) :
  (off + length bs <= length addr)%nat ->
  (forall a, length a = length addr -> P (f a)) -> P (a ← write_at off bs addr; f a).
Proof.
  intros Hl Hf. destruct (write_at off bs addr) as [a| |] eqn:Hw;
    [|by rewrite write_at_ok in Hw..]. apply Hf. by eapply write_at_length.
Qed.

Lemma read_host_safe family off host addr f :
  (forall r bs, inet_pton family host = (r, Some bs) -> (off + length bs <= length addr)%nat) ->
  (off_sa_family + sizeof_sa_family <= length addr)%nat ->
  (forall a, length a = length addr -> parsed a (f a)) ->
  parsed addr (read_host family (fun bs a => write_at off bs a) host addr f).
Proof.
  intros Hpton Hfam Hf. unfold read_host, net_addr_pton.
  destruct (inet_pton family host) as [r written] eqn:Hp. cbn beta iota.
  assert (Hgo : forall a, length a = length addr ->
    parsed addr (if (if r =? 0 then -1 else 0) <? 0 then mret (false, a)
                 else a ← set_sa_family family a; f a)).
  { intros a Ha. eapply parsed_trans; [exact Ha|].
    destruct (_ <? 0); [apply parsed_same|]. unfold set_sa_family, store_at.
    apply parsed_write; [rewrite length_store_le; lia|].
    intros a' Ha'. eapply parsed_trans; [exact Ha'|]. apply Hf. congruence. }
  destruct written as [bs|]; [|by apply Hgo]. apply parsed_write; [by eapply Hpton|done].
Qed.

Lemma set_port_safe off r addr :
  (off + 2 <= length addr)%nat ->
  parsed addr (set_port (fun v a => store_at off 2 v a) addr r).
Proof.
  intros Hl. destruct r as [p|]; [|apply parsed_same]. cbn [set_port]. unfold store_at.
  apply parsed_write; [by rewrite length_store_le|]. intros a Ha. by exists true, a.
Qed.

Lemma in_terminated (s rest : list Z) : In 0 (s ++ 0 :: rest).
Proof. apply in_or_app. right. by left. Qed.

(** Without a port. *)
Lemma parse_ipv4_safe (s : list Z) addr :
  nonzero s -> (sizeof_sockaddr_in <= length addr)%nat ->
  parsed addr (parse_ipv4 (s ++ [0]) (length s) addr false).
Proof.
  intros Hs Hl. pose proof addr_in_sockaddr_in. pose proof family_before_port. pose proof port_before_addr.
  unfold parse_ipv4. rewrite clip_start by done. cbn [mbind outcome_bind]. cbv zeta.
  set (len := Nat.min _ _).
  rewrite (memcpy_set_nul (fun b => host ← c_str b; _));
    [|rewrite length_app; unfold len; lia|unfold memset; rewrite length_replicate; unfold len; lia].
  destruct (c_str_total _ (in_terminated (take len (drop 0 (s ++ [0])))
    (drop (len + 1) (memset 0 (NET_IPV4_ADDR_LEN + 1))))) as [host ->]. cbn [mbind outcome_bind].
  apply (read_host_safe AF_INET off_sin_addr host addr (fun a => mret (true, a))); [|lia|].
  - intros r bs Hp. apply inet_pton_size_4 in Hp as [-> _]. lia.
  - intros a Ha. apply parsed_same.
Qed.

(** The port after the bracket at [length h], in a buffer that holds it. *)
Lemma parse_ipv6_port_safe (s h rest buf : list Z) a :
  nonzero s -> s = h ++ 93 :: rest -> (1 <= length h)%nat ->
  (forall q : list Z, rest = 58 :: q -> (length q < length buf)%nat) ->
  (off_sin6_port + 2 <= length a)%nat ->
  parsed a
    (colon ← (if (length h + 1 <? length s)%nat
              then c ← char_at (s ++ [0]) (length h + 1); mret (c =? 58) else mret false);
     if negb colon then mret (true, a) else
     len ← clip (s ++ [0]) (length h + 2) 0
             (Z.to_nat (Z.of_nat (length s) - Z.of_nat (length h - 1) - 1 - 2));
     ipaddr ← memcpy buf 0 (s ++ [0]) (length h + 2) (Z.of_nat len);
     ipaddr ← set_nul ipaddr (Z.of_nat len);
     ret ← convert_port ipaddr;
     match ret with
     | None => mret (false, a)
     | Some port => addr ← set_sin6_port (htons port) a; mret (true, addr)
     end).
Proof.
  intros Hs -> Hh Hroom Hport.
  destruct rest as [|c q].
  { rewrite length_app. cbn [length]. destruct (Nat.ltb_spec (length h + 1) (length h + 1)); [lia|].
    apply parsed_same. }
  replace (length (h ++ 93 :: c :: q)) with (length h + 2 + length q)%nat by (rewrite length_app; cbn; lia).
  destruct (Nat.ltb_spec (length h + 1) (length h + 2 + length q)); [|lia].
  assert (char_at ((h ++ 93 :: c :: q) ++ [0]) (length h + 1) = Done c) as ->.
  { unfold char_at. rewrite <- app_assoc, lookup_app_r, Nat.add_comm, Nat.add_sub by lia. done. }
  cbn [mbind outcome_bind]. unfold mret at 1, outcome_ret at 1. cbn iota beta.
  destruct (Z.eqb_spec c 58) as [->|Hc]; [|apply parsed_same]. cbn [negb].
  specialize (Hroom q eq_refl).
  replace (Z.to_nat _) with (length q) by lia.
  replace ((h ++ 93 :: 58 :: q) ++ [0]) with ((h ++ [93; 58]) ++ q ++ 0 :: []) by by rewrite <- !app_assoc.
  replace (length h + 2)%nat with (length (h ++ [93; 58])) by (rewrite length_app; cbn; lia).
  assert (Hq : nonzero q).
  { apply Forall_app in Hs as [_ Hs]. by do 2 apply Forall_cons_iff in Hs as [_ Hs]. }
  rewrite clip_string by (done || lia). cbn [mbind outcome_bind]. rewrite Nat.add_0_l, Nat.min_id.
  rewrite (memcpy_set_nul (fun b => ret ← convert_port b; _)) by (rewrite ?length_app; cbn; lia).
  destruct (convert_port_total _ (in_terminated (take (length q) (drop (length (h ++ [93; 58]))
    ((h ++ [93; 58]) ++ q ++ [0]))) (drop (length q + 1) buf))) as [r ->].
  cbn [mbind outcome_bind]. by apply set_port_safe.
Qed.

Lemma parse_ipv6_safe (s : list Z) addr has_port :
  nonzero s -> (sizeof_sockaddr_in6 <= length addr)%nat ->
  (has_port = true -> s !! 0%nat = Some 91) ->
  (forall h q : list Z, s = h ++ 93 :: 58 :: q -> (length q <= INET6_ADDRSTRLEN)%nat) ->
  parsed addr (parse_ipv6 (s ++ [0]) (length s) addr has_port).
Proof.
  intros Hs Hl H91 Hroom. pose proof addr_in_sockaddr_in6. pose proof family_before_port6.
  pose proof port_before_addr6.
  assert (Hpton : forall host f, (forall a, length a = length addr -> parsed a (f a)) ->
    parsed addr (read_host AF_INET6 (fun bs a => write_at off_sin6_addr bs a) host addr f)).
  { intros host f Hf. apply read_host_safe; [|lia|done].
    intros r bs Hp. apply inet_pton_size_6 in Hp as [-> _]. lia. }
  assert (Hbuf : length (memset 0 (INET6_ADDRSTRLEN + 1)) = (INET6_ADDRSTRLEN + 1)%nat)
    by apply length_replicate.
  unfold parse_ipv6. rewrite clip_start by done. cbn [mbind outcome_bind]. cbv zeta.
  set (len := Nat.min _ _). assert (Hlen : (len <= INET6_ADDRSTRLEN /\ len <= length s)%nat) by lia.
  destruct has_port.
  - unfold memchr. destruct (find_byte 93 (take len (s ++ [0]))) as [ptr|] eqn:Hptr; [|apply parsed_same].
    assert (Hs1 : exists h rest, s = h ++ 93 :: rest /\ length h = ptr /\ (1 <= ptr < len)%nat).
    { apply find_byte_Some in Hptr as (h & q & Htake & <- & Hh). exists h, (q ++ drop len s).
      rewrite take_app_le in Htake by lia.
      assert (Hl1 : length (take len s) = len) by (rewrite length_take; lia).
      rewrite Htake, length_app in Hl1. cbn in Hl1. split; [|split; [done|]].
      - rewrite <- (take_drop len s) at 1. by rewrite Htake, <- app_assoc.
      - destruct h as [|c h]; [|cbn in *; lia]. rewrite <- (take_drop len s), Htake in H91.
        by specialize (H91 eq_refl). }
    destruct Hs1 as (h & rest & Heq & Hh & Hptr1).
    replace (Z.min (Z.of_nat len) (Z.of_nat ptr - 1)) with (Z.of_nat (ptr - 1)) by lia.
    rewrite (memcpy_set_nul (fun b => host ← c_str b; _)) by (rewrite ?length_app; lia).
    destruct (c_str_total _ (in_terminated (take (ptr - 1) (drop 1 (s ++ [0])))
      (drop (ptr - 1 + 1) (memset 0 (INET6_ADDRSTRLEN + 1))))) as [host ->]. cbn [mbind outcome_bind].
    apply (Hpton host). intros a Ha. cbn [negb]. subst ptr.
    eapply parse_ipv6_port_safe; [done|exact Heq|lia| |lia]. intros q ->. specialize (Hroom h q Heq).
    rewrite length_app. cbn [length]. rewrite length_take, !length_drop, Hbuf, length_app. cbn. lia.
  - rewrite (memcpy_set_nul (fun b => host ← c_str b; _)) by (rewrite ?length_app; lia).
    destruct (c_str_total _ (in_terminated (take len (drop 0 (s ++ [0])))
      (drop (len + 1) (memset 0 (INET6_ADDRSTRLEN + 1))))) as [host ->]. cbn [mbind outcome_bind].
    apply (Hpton host (fun a => mret (true, a))). intros a Ha. apply parsed_same.
Qed.
Lemma parse_ipv4_port_safe (h q : list Z) addr :
  nonzero h -> Forall (fun c => c <> 58) h -> nonzero q -> (length q < NET_IPV4_ADDR_LEN)%nat ->
  (sizeof_sockaddr_in <= length addr)%nat ->
  parsed addr (parse_ipv4 (h ++ 58 :: q ++ [0]) (length h + 1 + length q) addr true).
Proof.
  intros Hh Hh58 Hq Hroom Hl. rewrite parse_ipv4_port by done.
  pose proof addr_in_sockaddr_in. pose proof family_before_port. pose proof port_before_addr.
  destruct (Nat.ltb_spec (length h) NET_IPV4_ADDR_LEN); [|apply parsed_same].
  apply (read_host_safe AF_INET off_sin_addr); [|lia|].
  - intros r bs Hp. apply inet_pton_size_4 in Hp as [-> _]. lia.
  - intros a Ha. destruct (Nat.ltb_spec (length q) NET_IPV4_ADDR_LEN); [|lia].
    set (buf := q ++ 0 :: _). destruct (convert_port_total buf) as [r ->]; [apply in_terminated|].
    cbn [mbind outcome_bind]. apply (set_port_safe off_sin_port). lia.
Qed.

(** C34: parsing an address stays within its buffers, for every string whose port is
    not too long: at most 15 characters after the only colon, or
    INET6_ADDRSTRLEN after a bracket and a colon. Whatever the string, the
    parser ends with a result and leaves the size of the socket address, which
    must hold either kind, as it is. *)
Theorem net_ipaddr_parse_safe (s : list Z) addr :
  nonzero s -> (sizeof_sockaddr_in <= length addr)%nat -> (sizeof_sockaddr_in6 <= length addr)%nat ->
  (forall h q : list Z, colons s = 1%nat -> s = h ++ 58 :: q -> (length q < NET_IPV4_ADDR_LEN)%nat) ->
  (forall h q : list Z, s = h ++ 93 :: 58 :: q -> (length q <= INET6_ADDRSTRLEN)%nat) ->
  exists b addr', net_ipaddr_parse (Some (s ++ [0])) (length s) addr = Done (b, addr') /\
    length addr' = length addr.
Proof.
  intros Hs Hl4 Hl6 H4 H6. change (parsed addr (net_ipaddr_parse (Some (s ++ [0])) (length s) addr)).
  unfold net_ipaddr_parse. destruct (Nat.eqb_spec (length s) 0) as [|Hne]; [apply parsed_same|].
  destruct (char_in_string s [0] 0 ltac:(lia) Hs) as (c & -> & Hc & Hl). cbn [mbind outcome_bind].
  destruct (Z.eqb_spec c 0); [done|]. destruct (Z.eqb_spec c 91) as [->|].
  { by apply parse_ipv6_safe. }
  rewrite count_colons_string by done. cbn [mbind outcome_bind Nat.add]. rewrite drop_0.
  destruct (Nat.eqb_spec (colons s) 1) as [H1|_].
  - destruct (colons_one s H1) as (h & q & -> & Hh & Hq). specialize (H4 h q H1 eq_refl).
    rewrite <- app_assoc. cbn [app]. replace (length (h ++ 58 :: q)) with (length h + 1 + length q)%nat
      by (rewrite length_app; cbn; lia).
    apply Forall_app in Hs as [Hsh Hsq]. apply Forall_cons_iff in Hsq as [_ Hsq].
    by apply parse_ipv4_port_safe.
  - destruct (parse_ipv4_safe s addr Hs Hl4) as (b & addr1 & -> & Hl1). cbn [mbind outcome_bind].
    destruct b; [by exists true, addr1|]. eapply parsed_trans; [exact Hl1|].
    apply parse_ipv6_safe; [done|lia|done|done].
Qed.
End Parsing.

(** ** Witnesses *)
Lemma net_ipaddr_parse_host_port_witness :
  exists addr', net_ipaddr_parse (L := lwip_example) (Some (text "10.0.0.1" ++ 58 :: decimal 5001 ++ [0]))
      13 (memset 0 16) = Done (true, addr') /\ addr' = [0; 2; 19; 137; 10; 0; 0; 1; 0; 0; 0; 0; 0; 0; 0; 0] /\
    sin_port (L := lwip_example) addr' = Done (htons 5001).
Proof.
  destruct (net_ipaddr_parse_host_port (L := lwip_example) (text "10.0.0.1") [10; 0; 0; 1] 1 5001 (memset 0 16))
    as (addr' & H & _ & _ & _ & Hp);
    [repeat constructor; discriminate|repeat constructor; discriminate|discriminate|discriminate
    |vm_compute; reflexivity|lia|lia|vm_compute; lia|].
  exists addr'. split; [exact H|]. split; [|exact Hp]. vm_compute in H. by injection H as <-.
Defined.

Lemma net_ipaddr_parse_port_overflow_witness :
  net_ipaddr_parse (L := lwip_example) (Some (literal "10.0.0.1:0000000000000080")) 25 (memset 0 16)
    = Fault OutOfBounds.
Proof.
  apply (net_ipaddr_parse_port_overflow (L := lwip_example) (text "10.0.0.1") [10; 0; 0; 1] 1
    (text "0000000000000080") (memset 0 16));
    [repeat constructor; discriminate|repeat constructor; discriminate|discriminate|discriminate
    |vm_compute; lia|vm_compute; reflexivity|lia|repeat constructor; discriminate
    |repeat constructor; discriminate|vm_compute; lia|vm_compute; lia].
Defined.

Lemma net_ipaddr_parse_safe_witness :
  exists b addr', net_ipaddr_parse (L := lwip_example) (Some (text "[::1]" ++ [0])) 5 (memset 0 28)
    = Done (b, addr').
Proof.
  assert (Hno : forall h q : list Z, text "[::1]" = h ++ 93 :: 58 :: q -> False).
  { intros h q H. assert (H1 : lookup (M := list Z) (length h) (text "[::1]") = Some 93)
      by (by rewrite H, lookup_app_r, Nat.sub_diag by lia).
    assert (H2 : lookup (M := list Z) (S (length h)) (text "[::1]") = Some 58)
      by (rewrite H, lookup_app_r by lia; by rewrite Nat.sub_succ_l, Nat.sub_diag by lia).
    clear H. destruct (length h) as [|[|[|[|[|[|n]]]]]]; vm_compute in H1, H2; discriminate. }
  destruct (net_ipaddr_parse_safe (L := lwip_example) (text "[::1]") (memset 0 28)) as (b & a & H & _);
    [repeat constructor; discriminate|vm_compute; lia|vm_compute; lia|discriminate
    |intros h q Hs; destruct (Hno h q Hs)|].
  exists b, a. exact H.
Defined.
