(* ===== verification/Session.v ===== *)
(** The session table (zperf_session.h, zperf_session.c): one row of
    [SESSION_MAX] slots per protocol, searched by peer address and port. *)
From stdpp Require Import gmap.
From S2P Require Import Prelude CInt Platform NetIp.
Open Scope Z_scope.

(** config.h: CONFIG_NET_ZPERF_MAX_SESSIONS. *)
Definition SESSION_MAX : nat := 4.

(** [enum state]. *)
Inductive state : Set :=
| STATE_NULL
| STATE_ONGOING
| STATE_LAST_PACKET_RECEIVED
| STATE_COMPLETED.

#[global] Instance state_eq_dec : EqDecision state.
Proof. solve_decision. Defined.

(** [enum session_proto]; [SESSION_PROTO_END] is the number of rows. *)
Inductive session_proto : Set := SESSION_UDP | SESSION_TCP.

#[global] Instance session_proto_eq_dec : EqDecision session_proto.
Proof. solve_decision. Defined.

(** zperf_internal.h: the statistics header. All fields are [int32_t]. *)
Record zperf_server_hdr : Set := ServerHdr {
  flags : Z;
  total_len1 : Z;
  total_len2 : Z;
  stop_sec : Z;
  stop_usec : Z;
  error_cnt : Z;
  outorder_cnt : Z;
  datagrams : Z;
  jitter1 : Z;
  jitter2 : Z;
}.

Definition zero_hdr : zperf_server_hdr := ServerHdr 0 0 0 0 0 0 0 0 0 0.

(** [struct net_addr]: the family and the bytes of the union, which hold an
    [in_addr] in their head or an [in6_addr]. *)
Record net_addr : Set := NetAddr {
  na_family : Z;
  na_union : bytes;
}.

Definition na_in_addr (a : net_addr) : bytes := take 4 (na_union a).
Definition na_in6_addr (a : net_addr) : bytes := na_union a.

Record session : Set := Session {
  port : Z;
  ip : net_addr;
  state_of : state;
  counter : Z;
  next_id : Z;
  outorder : Z;
  error : Z;
  length_of : Z;
  start_time : Z;
  last_time : Z;
  jitter : Z;
  last_transit_time : Z;
  stat : zperf_server_hdr;
}.

(** A slot of the static array: all bytes zero. *)
Definition zero_session : session :=
  Session 0 (NetAddr 0 (memset 0 16)) STATE_NULL 0 0 0 0 0 0 0 0 0 zero_hdr.

Definition set_state (x : state) (s : session) : session :=
  Session (port s) (ip s) x (counter s) (next_id s) (outorder s) (error s)
    (length_of s) (start_time s) (last_time s) (jitter s) (last_transit_time s) (stat s).
Definition set_start_time (x : Z) (s : session) : session :=
  Session (port s) (ip s) (state_of s) (counter s) (next_id s) (outorder s) (error s)
    (length_of s) x (last_time s) (jitter s) (last_transit_time s) (stat s).
Definition set_key (p : Z) (a : net_addr) (s : session) : session :=
  Session p a (state_of s) (counter s) (next_id s) (outorder s) (error s)
    (length_of s) (start_time s) (last_time s) (jitter s) (last_transit_time s) (stat s).
Definition set_stat (x : zperf_server_hdr) (s : session) : session :=
  Session (port s) (ip s) (state_of s) (counter s) (next_id s) (outorder s) (error s)
    (length_of s) (start_time s) (last_time s) (jitter s) (last_transit_time s) x.
Definition add_data (datalen : Z) (s : session) : session :=
  Session (port s) (ip s) (state_of s) (u32 (counter s + 1)) (next_id s) (outorder s) (error s)
    (u64 (length_of s + datalen)) (start_time s) (last_time s) (jitter s)
    (last_transit_time s) (stat s).

Definition zperf_reset_session_stats (s : session) : session :=
  Session (port s) (ip s) (state_of s) 0 1 0 0 0 0 (last_time s) 0 0 (stat s).

(** The static array [sessions]. *)
Record table : Set := Table {
  row_udp : list session;
  row_tcp : list session;
}.

Definition row (p : session_proto) (t : table) : list session :=
  match p with SESSION_UDP => row_udp t | SESSION_TCP => row_tcp t end.

Definition set_row (p : session_proto) (r : list session) (t : table) : table :=
  match p with
  | SESSION_UDP => Table r (row_tcp t)
  | SESSION_TCP => Table (row_udp t) r
  end.

Definition zperf_session_init (t : table) : table :=
  let init s := zperf_reset_session_stats (set_state STATE_NULL s) in
  Table (init <$> row_udp t) (init <$> row_tcp t).

Definition static_table : table :=
  Table (replicate SESSION_MAX zero_session) (replicate SESSION_MAX zero_session).

Section Session.
Context {L : Lwip}.

(** The two tests of the search loop. *)
Definition slot_matches (addr : bytes) (ptr : session) : outcome bool :=
  family ← sa_family addr;
  hit4 ← (if CONFIG_NET_IPV4 && (family =? AF_INET) && (na_family (ip ptr) =? AF_INET) then
            p ← sin_port addr;
            if port ptr =? p
            then a ← sin_addr addr; mret (net_ipv4_addr_cmp (na_in_addr (ip ptr)) a)
            else mret false
          else mret false);
  if hit4 : bool then mret true else
  if CONFIG_NET_IPV6 && (family =? AF_INET6) && (na_family (ip ptr) =? AF_INET6) then
    p ← sin6_port addr;
    if port ptr =? p
    then a ← sin6_addr addr; mret (net_ipv6_addr_cmp (na_in6_addr (ip ptr)) a)
    else mret false
  else mret false.

Definition slot_free (ptr : session) : bool :=
  bool_decide (state_of ptr = STATE_NULL) || bool_decide (state_of ptr = STATE_COMPLETED).

(** The loop: the active slot, and the first free slot seen before it. *)
Fixpoint scan (addr : bytes) (i : nat) (slots : list session) (free : option nat)
    : outcome (option nat * option nat) :=
  match slots with
  | [] => mret (None, free)
  | ptr :: slots' =>
      hit ← slot_matches addr ptr;
      if hit : bool then mret (Some i, free) else
      let free := match free with
                  | Some f => Some f
                  | None => if slot_free ptr then Some i else None
                  end in
      scan addr (S i) slots' free
  end.

(** A free slot is given the peer's port and address. *)
Definition bind_slot (addr : bytes) (s : session) : outcome session :=
  family ← sa_family addr;
  if CONFIG_NET_IPV4 && (family =? AF_INET) then
    p ← sin_port addr;
    a ← sin_addr addr;
    mret (set_key p (NetAddr AF_INET (net_ipaddr_copy (na_union (ip s)) a)) s)
  else if CONFIG_NET_IPV6 && (family =? AF_INET6) then
    p ← sin6_port addr;
    a ← sin6_addr addr;
    mret (set_key p (NetAddr AF_INET6 (net_ipaddr6_copy (na_union (ip s)) a)) s)
  else mret s.

(** [get_session]: the index of the slot in the protocol's row, or [None] for
    [NULL]. *)
Definition get_session (addr : bytes) (proto : session_proto) (t : table)
    : outcome (option nat * table) :=
  '(active, free) ← scan addr 0 (row proto t) None;
  match active, free with
  | Some i, _ => mret (Some i, t)
  | None, None => mret (None, t)
  | None, Some f =>
      match row proto t !! f with
      | None => Fault OutOfBounds
      | Some s =>
          s ← bind_slot addr s;
          mret (Some f, set_row proto (<[f := s]> (row proto t)) t)
      end
  end.
End Session.

(** ** Specification: a finite map from peers to slots

    A peer is what a session is searched by. [binding_map] is the abstract
    state of a row; [get_session] is specified as find-or-allocate on it. *)
Inductive peer : Set :=
| Peer4 (port addr : Z)
| Peer6 (port : Z) (addr : bytes).

#[global] Instance peer_eq_dec : EqDecision peer.
Proof. solve_decision. Defined.
#[global] Program Instance peer_countable : Countable peer :=
  inj_countable'
    (fun k => match k with Peer4 p a => inl (p, a) | Peer6 p a => inr (p, a) end)
    (fun x => match x with inl (p, a) => Peer4 p a | inr (p, a) => Peer6 p a end) _.
Next Obligation. by intros []. Qed.

Section Spec.
Context {L : Lwip}.

(** The peer an address object names; faults if the object is too small. *)
Definition addr_peer (addr : bytes) : outcome (option peer) :=
  family ← sa_family addr;
  if family =? AF_INET then
    p ← sin_port addr; a ← sin_addr addr; mret (Some (Peer4 p (load_le a)))
  else if family =? AF_INET6 then
    p ← sin6_port addr; a ← sin6_addr addr; mret (Some (Peer6 p a))
  else mret None.

Definition slot_peer (s : session) : option peer :=
  if na_family (ip s) =? AF_INET then Some (Peer4 (port s) (load_le (na_in_addr (ip s))))
  else if na_family (ip s) =? AF_INET6 then Some (Peer6 (port s) (na_in6_addr (ip s)))
  else None.

Fixpoint binding_map (i : nat) (slots : list session) : gmap peer nat :=
  match slots with
  | [] => ∅
  | s :: slots' =>
      match slot_peer s with
      | Some k => <[k := i]> (binding_map (S i) slots')
      | None => binding_map (S i) slots'
      end
  end.

(** The first free slot from index [i] on. *)
Fixpoint first_free_slot (i : nat) (slots : list session) : option nat :=
  match slots with
  | [] => None
  | s :: slots' => if slot_free s then Some i else first_free_slot (S i) slots'
  end.

(** No two slots are bound to the same peer. *)
Definition unique_peers (slots : list session) : Prop :=
  forall i j s s' k,
    slots !! i = Some s -> slots !! j = Some s' ->
    slot_peer s = Some k -> slot_peer s' = Some k -> i = j.

(** The union of every slot has its 16 bytes. *)
Definition slot_wf (s : session) : Prop := length (na_union (ip s)) = 16%nat.

Definition table_wf (t : table) : Prop :=
  forall p, Forall slot_wf (row p t) /\ unique_peers (row p t).
(** The fields are in the ranges of their C types, and the state is one of the
    three the program uses. *)
Definition session_ok (s : session) : Prop :=
  0 <= counter s < 4294967296 /\ 0 <= next_id s < 4294967296 /\
  0 <= outorder s < 4294967296 /\ 0 <= error s < 4294967296 /\
  0 <= length_of s < 18446744073709551616 /\
  -2147483648 <= jitter s < 2147483648 /\ -2147483648 <= last_transit_time s < 2147483648 /\
  state_of s <> STATE_LAST_PACKET_RECEIVED.

Definition table_ok (t : table) : Prop := table_wf t /\ forall p, Forall session_ok (row p t).
End Spec.
(** ** Lemmas *)
Lemma row_set_row p q r t : row p (set_row q r t) = if decide (p = q) then r else row p t.
Proof. by destruct p, q. Qed.
#[export] Hint Rewrite row_set_row : zperf.

Section Lemmas.
Context {L : Lwip} {LOk : LwipOk L}.

Lemma slot_matches_peer addr k s :
  addr_peer addr = Done (Some k) ->
  slot_matches addr s = Done (bool_decide (slot_peer s = Some k)).
Proof.
  unfold addr_peer, slot_matches, slot_peer, mbind, outcome_bind, mret, outcome_ret.
  destruct (sa_family addr) as [f| |]; [|done..].
  cbn [CONFIG_NET_IPV4 CONFIG_NET_IPV6 andb].
  pose proof af_distinct as Hne.
  destruct (Z.eqb_spec f AF_INET) as [->|Hf4].
  - destruct (sin_port addr) as [p| |]; [|done..].
    destruct (sin_addr addr) as [a| |]; [|done..]. intros [= <-].
    destruct (Z.eqb_spec AF_INET AF_INET6); [done|].
    destruct (Z.eqb_spec (na_family (ip s)) AF_INET) as [Hs|Hs]; cbn [andb].
    + unfold net_ipv4_addr_cmp.
      destruct (Z.eqb_spec (port s) p), (Z.eqb_spec (load_le (na_in_addr (ip s))) (load_le a));
        f_equal; symmetry; first [apply bool_decide_eq_true_2; congruence
                                 |apply bool_decide_eq_false_2; congruence].
    + f_equal. symmetry. apply bool_decide_eq_false_2. case_match; congruence.
  - destruct (Z.eqb_spec f AF_INET6) as [->|Hf6]; [|done].
    destruct (sin6_port addr) as [p| |]; [|done..].
    destruct (sin6_addr addr) as [a| |]; [|done..]. intros [= <-]. cbn [andb].
    destruct (Z.eqb_spec (na_family (ip s)) AF_INET6) as [Hs|Hs].
    + destruct (Z.eqb_spec (na_family (ip s)) AF_INET); [congruence|].
      unfold net_ipv6_addr_cmp.
      destruct (Z.eqb_spec (port s) p); [case_bool_decide|];
        f_equal; symmetry; first [apply bool_decide_eq_true_2; congruence
                                 |apply bool_decide_eq_false_2; congruence].
    + f_equal. symmetry. apply bool_decide_eq_false_2. case_match; congruence.
Qed.

Lemma binding_map_cons_ne i s slots k :
  slot_peer s <> Some k -> binding_map i (s :: slots) !! k = binding_map (S i) slots !! k.
Proof.
  intros Hs. cbn. destruct (slot_peer s) as [k'|]; [|done].
  by rewrite lookup_insert_ne by congruence.
Qed.

Lemma scan_hit addr k slots i free j :
  addr_peer addr = Done (Some k) -> binding_map i slots !! k = Some j ->
  exists free', scan addr i slots free = Done (Some j, free').
Proof.
  intros Hk. revert i free. induction slots as [|s slots IH]; intros i free; [done|].
  cbn [scan]. rewrite (slot_matches_peer _ k) by done. cbn. case_bool_decide as Hs.
  - rewrite Hs, lookup_insert_eq. intros [= <-]. eauto.
  - rewrite (binding_map_cons_ne i s slots) by done. apply IH.
Qed.

Lemma scan_miss addr k slots i free :
  addr_peer addr = Done (Some k) -> binding_map i slots !! k = None ->
  scan addr i slots free =
    Done (None, match free with Some f => Some f | None => first_free_slot i slots end).
Proof.
  intros Hk. revert i free. induction slots as [|s slots IH]; intros i free; cbn [scan].
  - by destruct free.
  - rewrite (slot_matches_peer _ k) by done. cbn. case_bool_decide as Hs.
    + by rewrite Hs, lookup_insert_eq.
    + rewrite (binding_map_cons_ne i s slots) by done. intros Hn.
      rewrite IH by done. destruct free; [done|]. by destruct (slot_free s).
Qed.

Lemma binding_map_Some i slots k j :
  binding_map i slots !! k = Some j ->
  exists m s, j = (i + m)%nat /\ slots !! m = Some s /\ slot_peer s = Some k.
Proof.
  revert i. induction slots as [|s slots IH]; intros i; [done|].
  destruct (decide (slot_peer s = Some k)) as [Hs|Hs].
  - cbn. rewrite Hs, lookup_insert_eq. intros [= <-]. exists 0%nat, s. split; [lia|done].
  - rewrite binding_map_cons_ne by done. intros (m & s' & -> & Hm & Hs')%IH.
    exists (S m), s'. split; [lia|done].
Qed.

Lemma binding_map_None i slots k m s :
  binding_map i slots !! k = None -> slots !! m = Some s -> slot_peer s <> Some k.
Proof.
  revert i m. induction slots as [|s' slots IH]; intros i m; [done|].
  destruct (decide (slot_peer s' = Some k)) as [Hs|Hs].
  - cbn. by rewrite Hs, lookup_insert_eq.
  - rewrite binding_map_cons_ne by done. destruct m as [|m]; cbn; [by intros _ [= <-]|].
    apply IH.
Qed.

Lemma binding_map_unique slots k j :
  unique_peers slots ->
  binding_map 0 slots !! k = Some j <-> exists s, slots !! j = Some s /\ slot_peer s = Some k.
Proof.
  intros Hu. split.
  - intros (m & s & -> & ? & ?)%binding_map_Some. eauto.
  - intros (s & Hj & Hs). destruct (binding_map 0 slots !! k) as [j'|] eqn:Hb.
    + apply binding_map_Some in Hb as (m & s' & -> & Hm & Hs').
      f_equal. by eapply Hu.
    + by eapply binding_map_None in Hb.
Qed.

Lemma first_free_slot_Some i slots f :
  first_free_slot i slots = Some f ->
  exists m s, f = (i + m)%nat /\ slots !! m = Some s /\ slot_free s = true.
Proof.
  revert i. induction slots as [|s slots IH]; intros i; cbn; [done|].
  destruct (slot_free s) eqn:Hs.
  - intros [= <-]. exists 0%nat, s. split; [lia|done].
  - intros (m & s' & -> & ? & ?)%IH. exists (S m), s'. split; [lia|done].
Qed.

Lemma first_free_slot_None i slots :
  first_free_slot i slots = None <-> Forall (fun s => slot_free s = false) slots.
Proof.
  revert i. induction slots as [|s slots IH]; intros i; cbn.
  - split; [constructor|done].
  - rewrite Forall_cons_iff, <- (IH (S i)). destruct (slot_free s); [|tauto].
    split; [discriminate|intros []; discriminate].
Qed.

Lemma read_at_length off n m bs : read_at off n m = Done bs -> length bs = n.
Proof.
  unfold read_at. case_decide; [|done]. intros [= <-]. rewrite length_take, length_drop. lia.
Qed.

Lemma bind_slot_spec addr k s :
  addr_peer addr = Done (Some k) -> slot_wf s ->
  exists p a, bind_slot addr s = Done (set_key p a s)
    /\ slot_peer (set_key p a s) = Some k /\ slot_wf (set_key p a s).
Proof.
  unfold addr_peer, bind_slot, slot_peer, slot_wf, mbind, outcome_bind, mret, outcome_ret.
  destruct (sa_family addr) as [f| |]; [|done..].
  cbn [CONFIG_NET_IPV4 CONFIG_NET_IPV6 andb]. intros Hk Hwf.
  destruct (Z.eqb_spec f AF_INET) as [Hf|Hf]; [|destruct (Z.eqb_spec f AF_INET6) as [Hf6|Hf6]].
  - destruct (sin_port addr) as [p| |]; [|done..].
    destruct (sin_addr addr) as [a| |] eqn:Ha; [|done..]. injection Hk as <-.
    apply read_at_length in Ha. eexists _, _. split; [done|]. cbn. rewrite Z.eqb_refl.
    unfold na_in_addr, net_ipaddr_copy. cbn.
    rewrite take_app_length' by done. split; [done|].
    rewrite length_app, length_drop. lia.
  - destruct (sin6_port addr) as [p| |]; [|done..].
    destruct (sin6_addr addr) as [a| |] eqn:Ha; [|done..]. injection Hk as <-.
    apply read_at_length in Ha. eexists _, _. split; [done|]. cbn. rewrite Z.eqb_refl.
    pose proof af_distinct. destruct (Z.eqb_spec AF_INET6 AF_INET); [congruence|].
    unfold na_in6_addr, net_ipaddr6_copy. cbn.
    rewrite drop_ge, app_nil_r by lia. done.
  - done.
Qed.

Lemma unique_peers_insert slots f s' k :
  unique_peers slots -> binding_map 0 slots !! k = None -> slot_peer s' = Some k ->
  unique_peers (<[f := s']> slots).
Proof.
  intros Hu Hn Hs' i j s1 s2 k' Hi Hj H1 H2.
  apply list_lookup_insert_Some in Hi as [(-> & -> & _)|(? & Hi)];
    apply list_lookup_insert_Some in Hj as [(-> & -> & _)|(? & Hj)]; try done.
  - exfalso. eapply binding_map_None; [exact Hn|exact Hj|congruence].
  - exfalso. eapply binding_map_None; [exact Hn|exact Hi|congruence].
  - by eapply Hu.
Qed.

Lemma omap_peers_nodup (l : list session) : unique_peers l -> NoDup (omap slot_peer l).
Proof.
  induction l as [|s l IH]; intros Hu; [constructor|]. cbn [omap list_omap].
  assert (Hu' : unique_peers l).
  { intros i j s1 s2 k H1 H2 P1 P2. assert (S i = S j) by (by eapply (Hu (S i) (S j))). lia. }
  destruct (slot_peer s) as [k|] eqn:Hs; [|by apply IH]. constructor; [|by apply IH].
  rewrite list_elem_of_omap. intros (s' & Hin & Hs'). apply list_elem_of_lookup in Hin as [i Hi].
  assert (0%nat = S i) by (by eapply (Hu 0%nat (S i))). lia.
Qed.

Lemma binding_map_insert slots f s s' k :
  unique_peers slots -> binding_map 0 slots !! k = None ->
  slots !! f = Some s -> slot_peer s' = Some k ->
  binding_map 0 (<[f := s']> slots) =
    <[k := f]> (match slot_peer s with
                | Some k0 => delete k0 (binding_map 0 slots)
                | None => binding_map 0 slots
                end).
Proof.
  intros Hu Hn Hf Hs'. pose proof (unique_peers_insert slots f s' k Hu Hn Hs') as Hu'.
  apply map_eq. intros k'. apply option_eq. intros j.
  rewrite binding_map_unique by done.
  rewrite lookup_insert. case_decide as Hk.
  - subst k'. split.
    + intros (s1 & Hj & Hs1).
      apply list_lookup_insert_Some in Hj as [(-> & _)|(_ & Hj)]; [done|].
      exfalso. by eapply binding_map_None.
    + intros [= <-]. exists s'. split; [|done]. apply list_lookup_insert_eq.
      by eapply lookup_lt_Some.
  - transitivity (j <> f /\ binding_map 0 slots !! k' = Some j).
    + rewrite (binding_map_unique slots) by done. split.
      * intros (s1 & Hj & Hs1).
        apply list_lookup_insert_Some in Hj as [(-> & -> & _)|(Hne & Hj)]; [congruence|eauto].
      * intros (Hne & s1 & Hj & Hs1). exists s1. by rewrite list_lookup_insert_ne.
    + destruct (slot_peer s) as [k0|] eqn:Hk0.
      * rewrite lookup_delete. case_decide as Hkk.
        -- subst k'. split; [|done]. intros [Hne Hb]. exfalso. apply Hne.
           apply (binding_map_unique slots) in Hb as (s1 & ? & ?); [|done]. by eapply Hu.
        -- split; [by intros [_ ?]|]. intros Hb. split; [|done]. intros ->.
           apply (binding_map_unique slots) in Hb as (s1 & ? & ?); [|done]. congruence.
      * split; [by intros [_ ?]|]. intros Hb. split; [|done]. intros ->.
        apply (binding_map_unique slots) in Hb as (s1 & ? & ?); [|done]. congruence.
Qed.

(** What [get_session] does for an address that names a peer. *)
Lemma get_session_cases addr k p t :
  addr_peer addr = Done (Some k) -> Forall slot_wf (row p t) ->
  match binding_map 0 (row p t) !! k, first_free_slot 0 (row p t) with
  | Some i, _ => get_session addr p t = Done (Some i, t)
  | None, None => get_session addr p t = Done (None, t)
  | None, Some f =>
      exists s q a, row p t !! f = Some s /\ slot_free s = true /\
        slot_peer (set_key q a s) = Some k /\ slot_wf (set_key q a s) /\
        get_session addr p t =
          Done (Some f, set_row p (<[f := set_key q a s]> (row p t)) t)
  end.
Proof.
  intros Hk Hwf. unfold get_session.
  destruct (binding_map 0 (row p t) !! k) as [i|] eqn:Hb.
  - by destruct (scan_hit addr k _ 0 None i Hk Hb) as [fr ->].
  - rewrite (scan_miss addr k _ 0 None Hk Hb).
    destruct (first_free_slot 0 (row p t)) as [f|] eqn:Hf; [|done].
    apply first_free_slot_Some in Hf as (m & s & -> & Hm & Hfree).
    destruct (bind_slot_spec addr k s Hk) as (q & a & Hbind & Hpeer & Hs).
    { by eapply Forall_lookup_1. }
    exists s, q, a. cbn in *. rewrite Hm, Hbind. done.
Qed.

(** A peer that has a slot gets it. *)
Lemma get_session_found addr k p t i s :
  table_wf t -> addr_peer addr = Done (Some k) ->
  row p t !! i = Some s -> slot_peer s = Some k -> get_session addr p t = Done (Some i, t).
Proof.
  intros Hwf Hk Hi Hs. destruct (Hwf p) as [Hsw Hu].
  pose proof (get_session_cases addr k p t Hk Hsw) as H.
  assert (binding_map 0 (row p t) !! k = Some i) as Hb by (apply binding_map_unique; eauto).
  by rewrite Hb in H.
Qed.

(** The slot [get_session] returns is the peer's; the others are as before. *)
Lemma get_session_slot addr k p t i t' :
  table_wf t -> addr_peer addr = Done (Some k) -> get_session addr p t = Done (Some i, t') ->
  table_wf t' /\ (exists s, row p t' !! i = Some s /\ slot_peer s = Some k) /\
  (forall q j, (q, j) <> (p, i) -> row q t' !! j = row q t !! j) /\
  (forall s, row p t !! i = Some s -> slot_peer s = Some k \/ slot_free s = true).
Proof.
  intros Hwf Hk Hget. destruct (Hwf p) as [Hs Hu].
  pose proof (get_session_cases addr k p t Hk Hs) as H.
  destruct (binding_map 0 (row p t) !! k) as [j|] eqn:Hb.
  - rewrite Hget in H. injection H as <- <-.
    apply binding_map_unique in Hb as (s & Hi & Hp); [|done].
    split; [done|]. split_and!; [by eauto|done|]. intros s' Hi'. left. congruence.
  - destruct (first_free_slot 0 (row p t)) as [f|]; [|rewrite Hget in H; done].
    destruct H as (s & q & a & Hf & Hfree & Hpeer & Hsw & H). rewrite Hget in H.
    injection H as -> ->. split; [|split_and!].
    + intros p'. rewrite row_set_row. case_decide as Hp; [subst p'|by apply Hwf].
      split; [by apply Forall_insert|]. by eapply unique_peers_insert.
    + exists (set_key q a s). rewrite row_set_row, decide_True by done.
      split; [|done]. apply list_lookup_insert_eq. by eapply lookup_lt_Some.
    + intros q' j Hne. rewrite row_set_row. case_decide as Hp; [subst q'|done].
      apply list_lookup_insert_ne. congruence.
    + intros s' Hs'. right. congruence.
Qed.

(** Only the key of a slot changes. *)
Lemma get_session_fields addr p t r t' :
  get_session addr p t = Done (r, t') ->
  forall q j s', row q t' !! j = Some s' ->
    exists s, row q t !! j = Some s /\ (s' = s \/ exists k a, s' = set_key k a s).
Proof.
  unfold get_session, mbind, outcome_bind. intros Hget q j s' Hj.
  destruct (scan addr 0 (row p t) None) as [[[a|] [f|]]| |]; try done;
    try (injection Hget as <- <-; eauto).
  destruct (row p t !! f) as [s|] eqn:Hf; [|done].
  destruct (bind_slot addr s) as [s1| |] eqn:Hb; [|done..]. injection Hget as <- <-.
  rewrite row_set_row in Hj. case_decide as Hq; [subst q|eauto].
  apply list_lookup_insert_Some in Hj as [(<- & <- & _)|(_ & Hj)]; [|eauto].
  exists s. split; [done|]. unfold bind_slot, mbind, outcome_bind, mret, outcome_ret in Hb.
  repeat (case_match; try done); injection Hb as <-; eauto.
Qed.

Lemma get_session_ok addr k p t r t' :
  table_ok t -> addr_peer addr = Done (Some k) -> get_session addr p t = Done (r, t') ->
  table_ok t'.
Proof.
  intros [Hwf Hok] Hk Hget. split.
  - destruct r as [i|]; [by eapply get_session_slot|].
    destruct (Hwf p) as [Hs _]. pose proof (get_session_cases addr k p t Hk Hs) as H.
    destruct (binding_map 0 (row p t) !! k); [congruence|].
    destruct (first_free_slot 0 (row p t)); [|by assert (t' = t) as -> by congruence].
    destruct H as (? & ? & ? & _ & _ & _ & _ & H). congruence.
  - intros q. apply Forall_lookup_2. intros j s' Hj.
    destruct (get_session_fields _ _ _ _ _ Hget q j s' Hj) as (s & Hj' & Hs').
    pose proof (Forall_lookup_1 _ _ _ _ (Hok q) Hj') as H.
    by destruct Hs' as [-> | (? & ? & ->)].
Qed.

(** An update of a slot that keeps its key keeps the table well formed. *)
Lemma table_wf_update p t i s s' :
  table_wf t -> row p t !! i = Some s -> ip s' = ip s -> port s' = port s ->
  table_wf (set_row p (<[i := s']> (row p t)) t).
Proof.
  intros Hwf Hi Hip Hport p'. rewrite row_set_row. case_decide as Hp; [subst p'|by apply Hwf].
  destruct (Hwf p) as [Hs Hu].
  assert (Hpeer : slot_peer s' = slot_peer s) by (unfold slot_peer; by rewrite Hip, Hport).
  split.
  - apply Forall_insert; [done|]. unfold slot_wf. rewrite Hip. exact (Forall_lookup_1 _ _ _ _ Hs Hi).
  - intros a b s1 s2 k Ha Hb H1 H2.
    apply list_lookup_insert_Some in Ha as [(-> & -> & _)|(_ & Ha)];
      apply list_lookup_insert_Some in Hb as [(-> & -> & _)|(_ & Hb)]; try done;
      try rewrite Hpeer in H1; try rewrite Hpeer in H2; eapply Hu; eauto.
Qed.

Lemma set_row_same p t i s : row p t !! i = Some s -> set_row p (<[i := s]> (row p t)) t = t.
Proof. intros Hi. rewrite list_insert_id by done. by destruct p, t. Qed.

Lemma set_row_twice p t r r' : set_row p r' (set_row p r t) = set_row p r' t.
Proof. by destruct p. Qed.

(** The free slot the loop reports is free. *)
Lemma scan_free addr slots i free a f :
  scan addr i slots free = Done (a, Some f) ->
  free = Some f \/
  exists m s, f = (i + m)%nat /\ slots !! m = Some s /\ slot_free s = true.
Proof.
  revert i free. induction slots as [|s slots IH]; intros i free; cbn; [intros [= _ ->]; by left|].
  destruct (slot_matches addr s) as [[|]| |]; cbn; [intros [= _ ->]; by left| |done..].
  intros [Hf|(m & s' & -> & Hm & Hs')]%IH.
  - destruct free as [f'|]; [by left|]. destruct (slot_free s) eqn:Hs; [|done].
    injection Hf as <-. right. exists 0%nat, s. split; [lia|done].
  - right. exists (S m), s'. split; [lia|done].
Qed.
End Lemmas.

(** ** Theorems *)
Section Theorems.
Context {L : Lwip} {LOk : LwipOk L}.

(** C9: [get_session] refines find-or-allocate on the map from peers to slots. On a
    well-formed table, for an address that names a peer, it returns the slot
    bound to that peer and changes nothing; else it takes the first free slot,
    drops the binding that slot had and binds it to the peer, changing only
    the key of that slot; else, with no free slot, it returns [NULL] and
    changes nothing. The table stays well formed. *)
Theorem get_session_refines addr k p t :
  table_wf t -> addr_peer addr = Done (Some k) ->
  exists r t', get_session addr p t = Done (r, t') /\ table_wf t' /\
    match binding_map 0 (row p t) !! k, first_free_slot 0 (row p t) with
    | Some i, _ => r = Some i /\ t' = t
    | None, None => r = None /\ t' = t
    | None, Some f =>
        r = Some f /\ exists s q a, row p t !! f = Some s /\
          t' = set_row p (<[f := set_key q a s]> (row p t)) t /\
          binding_map 0 (row p t') =
            <[k := f]> (match slot_peer s with
                        | Some k0 => delete k0 (binding_map 0 (row p t))
                        | None => binding_map 0 (row p t)
                        end)
    end.
Proof.
  intros Hwf Hk. destruct (Hwf p) as [Hs Hu].
  generalize (get_session_cases addr k p t Hk Hs).
  destruct (binding_map 0 (row p t) !! k) as [i|] eqn:Hb; [eauto 8|].
  destruct (first_free_slot 0 (row p t)) as [f|]; [|eauto 8].
  intros (s & q & a & Hf & _ & Hpeer & Hsw & Hget).
  eexists _, _. split; [exact Hget|]. split.
  - intros p'. rewrite row_set_row. case_decide as Hp; [subst p'|by apply Hwf].
    split; [by apply Forall_insert|]. by eapply unique_peers_insert.
  - split; [done|]. exists s, q, a. split_and!; [done..|].
    rewrite row_set_row, decide_True by done. by apply binding_map_insert.
Qed.

(** Slots without a peer. *)
Lemma no_peer_wf s t :
  na_family (ip s) = 0 -> (forall p, row p t = replicate SESSION_MAX s) -> slot_wf s -> table_wf t.
Proof.
  intros Hf Ht Hs p. rewrite Ht. split; [by apply Forall_replicate|].
  intros i j s1 s2 k Hi _. apply lookup_replicate in Hi as [-> _]. unfold slot_peer. rewrite Hf.
  pose proof af_inet_range. pose proof af_inet6_range.
  destruct (Z.eqb_spec 0 AF_INET); [lia|]. destruct (Z.eqb_spec 0 AF_INET6); [lia|].
  by intros [=].
Qed.

Lemma static_table_wf : table_wf static_table.
Proof. apply (no_peer_wf zero_session); [done|by intros []|by repeat constructor]. Qed.

Lemma session_init_wf : table_wf (zperf_session_init static_table).
Proof.
  apply (no_peer_wf (zperf_reset_session_stats zero_session)); [done|by intros []|by repeat constructor].
Qed.

(** A slot in use is never handed out to another peer: whatever the address,
    and whichever row it is in, a slot that is neither new nor completed is
    unchanged by [get_session]. *)
Theorem get_session_keeps_busy addr p t r t' q i s :
  get_session addr p t = Done (r, t') ->
  row q t !! i = Some s -> slot_free s = false -> row q t' !! i = Some s.
Proof.
  unfold get_session, mbind, outcome_bind. intros Hget Hi Hbusy.
  destruct (scan addr 0 (row p t) None) as [[active free]| |] eqn:Hscan; [|done..].
  destruct active; [by injection Hget as _ <-|].
  destruct free as [f|]; [|by injection Hget as _ <-].
  destruct (row p t !! f) as [s0|] eqn:Hf; [|done].
  destruct (bind_slot addr s0) as [s1| |]; [|done..]. injection Hget as _ <-.
  rewrite row_set_row. case_decide as Hq; [subst q|done].
  pose proof (scan_free addr (row p t) 0 None None f Hscan) as [?|(m & s' & -> & Hm & ?)];
    [done|]. cbn in *.
  rewrite list_lookup_insert_ne; [done|]. intros <-. congruence.
Qed.

Lemma slot_matches_truncated addr s :
  sa_family addr = Done AF_INET6 -> length addr = sizeof_sockaddr ->
  (sizeof_sockaddr < off_sin6_addr + 16)%nat ->
  slot_matches addr s = Done false \/ slot_matches addr s = Fault OutOfBounds.
Proof.
  intros Hf Hl Hlt. pose proof af_distinct. pose proof port6_in_sockaddr.
  unfold slot_matches. rewrite Hf. cbn.
  destruct (Z.eqb_spec AF_INET6 AF_INET); [congruence|]. cbn.
  rewrite Z.eqb_refl. destruct (na_family (ip s) =? AF_INET6); [|by left]. cbn.
  unfold sin6_port, load_at. rewrite read_at_ok by lia. cbn.
  destruct (port s =? _); [|by left]. right.
  unfold sin6_addr. by rewrite read_at_oob by lia.
Qed.

Lemma scan_truncated addr slots i free :
  sa_family addr = Done AF_INET6 -> length addr = sizeof_sockaddr ->
  (sizeof_sockaddr < off_sin6_addr + 16)%nat ->
  scan addr i slots free = Fault OutOfBounds \/
  scan addr i slots free =
    Done (None, match free with Some f => Some f | None => first_free_slot i slots end).
Proof.
  intros Hf Hl Hlt. revert i free. induction slots as [|s slots IH]; intros i free; cbn.
  - right. by destruct free.
  - destruct (slot_matches_truncated addr s Hf Hl Hlt) as [-> | ->]; cbn; [|by left].
    destruct (IH (S i) (match free with Some f => Some f
                        | None => if slot_free s then Some i else None end)) as [-> | ->];
      [by left|right]. destruct free; [done|]. by destruct (slot_free s).
Qed.

(** C40: an IPv6 peer in an object of type [struct sockaddr]. That structure does
    not hold an IPv6 address (net_core.h notes it), yet the UDP receive loop
    passes one: [get_session] then reads past the object whenever a slot is
    free, and finds no session for the peer otherwise. *)
Theorem get_session_v6_sockaddr addr p t :
  sa_family addr = Done AF_INET6 -> length addr = sizeof_sockaddr ->
  (sizeof_sockaddr < off_sin6_addr + 16)%nat ->
  (first_free_slot 0 (row p t) <> None -> get_session addr p t = Fault OutOfBounds) /\
  (forall r t', get_session addr p t = Done (r, t') -> r = None /\ t' = t).
Proof.
  intros Hf Hl Hlt. pose proof af_distinct. pose proof port6_in_sockaddr.
  unfold get_session.
  destruct (scan_truncated addr (row p t) 0 None Hf Hl Hlt) as [-> | ->]; cbn; [done|].
  destruct (first_free_slot 0 (row p t)) as [f|] eqn:Hfree.
  - apply first_free_slot_Some in Hfree as (m & s & -> & Hm & _). cbn. rewrite Hm.
    unfold bind_slot. rewrite Hf. cbn.
    destruct (Z.eqb_spec AF_INET6 AF_INET); [congruence|]. rewrite Z.eqb_refl. cbn.
    unfold sin6_port, load_at. rewrite read_at_ok by lia. cbn.
    unfold sin6_addr. by rewrite read_at_oob by lia.
  - split; [done|]. by intros r t' [= <- <-].
Qed.
End Theorems.

(** ** Witnesses: concrete values at which the hypotheses hold *)
Section Witnesses.
#[local] Existing Instance lwip_example.

(** 192.168.0.1, port 5001, in a [sockaddr_in] of the example layout. *)
Definition example_peer4 : bytes :=
  [0; 2; 19; 137; 192; 168; 0; 1; 0; 0; 0; 0; 0; 0; 0; 0].
Definition example_peer6_short : bytes :=
  [0; 10; 19; 137; 0; 0; 0; 0; 32; 1; 13; 184; 0; 0; 0; 0].

Lemma get_session_refines_witness :
  table_wf static_table /\
  exists r t', get_session example_peer4 SESSION_UDP static_table = Done (r, t') /\ table_wf t'.
Proof.
  split; [apply static_table_wf|].
  destruct (get_session_refines (L:=lwip_example) example_peer4 (Peer4 35091 16820416) SESSION_UDP static_table
              static_table_wf eq_refl) as (r & t' & H & Hwf & _).
  exists r, t'. split; [exact H|exact Hwf].
Defined.

Lemma get_session_keeps_busy_witness :
  exists t t' s, get_session example_peer4 SESSION_UDP t = Done (Some 1%nat, t') /\
    row SESSION_UDP t !! 0%nat = Some s /\ row SESSION_UDP t' !! 0%nat = Some s.
Proof.
  pose (t := set_row SESSION_UDP
    [set_state STATE_ONGOING zero_session; zero_session] static_table).
  destruct (get_session example_peer4 SESSION_UDP t) as [[r t']| |] eqn:H;
    [|discriminate H|discriminate H].
  exists t, t', (set_state STATE_ONGOING zero_session). split; [|split; [reflexivity|]].
  - vm_compute in H. injection H as <- <-. vm_compute. reflexivity.
  - exact (get_session_keeps_busy (L:=lwip_example) example_peer4 SESSION_UDP t r t' SESSION_UDP 0%nat
             (set_state STATE_ONGOING zero_session) H eq_refl eq_refl).
Defined.

Lemma get_session_v6_sockaddr_witness :
  get_session example_peer6_short SESSION_UDP static_table = Fault OutOfBounds.
Proof.
  apply (get_session_v6_sockaddr (L:=lwip_example) example_peer6_short SESSION_UDP static_table);
    [reflexivity|reflexivity|cbn; lia|discriminate].
Defined.
End Witnesses.
