(* ===== verification/World.v ===== *)
(** The program's state and its environment: the static variables of every
    component in one record, the calls the program makes to lwIP, FreeRTOS and
    its own callbacks, and the monad the stateful code runs in. *)
From S2P Require Import Prelude CInt Platform NetIp Session.
Open Scope Z_scope.

(** ** zperf.h *)
Inductive zperf_status : Set :=
| ZPERF_SESSION_STARTED
| ZPERF_SESSION_FINISHED
| ZPERF_SESSION_ERROR.

(** All fields are [uint32_t]. *)
Record zperf_results : Set := Results {
  nb_packets_sent : Z;
  nb_packets_rcvd : Z;
  nb_packets_lost : Z;
  nb_packets_outorder : Z;
  total_len : Z;
  time_in_us : Z;
  jitter_in_us : Z;
  client_time_in_us : Z;
  packet_size : Z;
  nb_packets_errors : Z;
}.

Definition zero_results : zperf_results := Results 0 0 0 0 0 0 0 0 0 0.

Record zperf_upload_params : Set := UploadParams {
  peer_addr : bytes;
  duration_ms : Z;
  rate_kbps : Z;
  up_packet_size : Z;
  tos : Z;
  tcp_nodelay : Z;
  priority : Z;
}.

Record zperf_download_params : Set := DownloadParams {
  dp_port : Z;
  dp_addr : bytes;
}.

(** A [zperf_callback] is named by its address; [None] is [NULL]. *)
Definition callback : Set := Z.

(** ** Calls out of the program *)
Record pollfd : Set := Pollfd { fd : Z; events : Z; revents : Z }.

#[global] Instance pollfd_eq_dec : EqDecision pollfd.
Proof. solve_decision. Defined.

(** The two static [struct k_work] objects, named as pointers to them are. *)
Inductive work_id : Set := UDP_WORK | TCP_WORK.

#[global] Instance work_id_eq_dec : EqDecision work_id.
Proof. solve_decision. Defined.

(** The tasks of zperf_common.c, zperf_udp_receiver.c, zperf_tcp_receiver.c and
    zperf_main.c. *)
Inductive task : Set := WorkTask | UdpReceiverThread | TcpReceiverThread | ShellTask.

Inductive call : Set :=
| LwipSocket (domain type protocol : Z)
| LwipSetsockopt (s level optname : Z) (optval : list Z)
| LwipConnect (s : Z) (name : bytes)
| LwipBind (s : Z) (name : bytes)
| LwipListen (s backlog : Z)
| LwipAccept (s : Z) (addrlen : Z)
| LwipPoll (fds : list pollfd) (timeout : Z)
| LwipRecv (s len flags : Z)
| LwipRecvfrom (s len flags fromlen : Z)
| LwipSend (s : Z) (data : bytes) (flags : Z)
| LwipSendto (s : Z) (data : bytes) (flags : Z) (to : bytes)
| LwipClose (s : Z)
| Errno
| NetifSetAddr (addr : bytes)
| NetifAddIp6Address (addr : bytes)
| LwipInit
| NetifAdd (ipaddr netmask gw : bytes)
| NetifCreateIp6LinklocalAddress (from_mac_48bit : Z)
| NetifAddrSetValid (idx : Z)
| NetifSetDefault
| NetifSetUp
| SysMutexNew
| SysThreadNew (t : task)
| TaskStartScheduler
| TaskGetTickCount
| TaskDelay (ticks : Z)
| TaskYield
| TaskCreate (t : task)
| SemaphoreCreateCounting (max_count initial_count : Z)
| SemaphoreTake (handle : Z)
| SemaphoreGive (handle : Z)
| QueueCreate (length : Z)
| QueueSend (item : work_id)
| QueueReceive
| Printf (text : bytes)
| Fflush
| TaskEnterCritical
| TaskExitCritical
| TaskDelayUntil (previous increment : Z)
| TcpipInit
| ReadTcpipDone
| NetifAddress
| NetifNetmask
| NetifGateway
| InvokeCallback (cb : callback) (status : zperf_status) (result : option zperf_results)
    (user_data : Z).

(** What each call gives back. A received datagram comes with its bytes, an
    accepted connection and [recvfrom] with the peer's address, [poll] with the
    [revents] of every entry, [netif_add_ip6_address] with the index it writes,
    if it writes one. [Printf] has the text as formatted; what [printf] returns
    is never used. [ReadTcpipDone] and the three after it read memory that lwIP
    writes. *)
Definition resp (c : call) : Set :=
  match c with
  | LwipAccept _ _ => Z * bytes
  | LwipPoll _ _ => Z * list Z
  | LwipRecv _ _ _ => Z * bytes
  | LwipRecvfrom _ _ _ _ => Z * bytes * bytes
  | NetifAddIp6Address _ => Z * option Z
  | TaskDelay _ | TaskYield | SemaphoreTake _ | SemaphoreGive _
  | Printf _ | Fflush | TaskEnterCritical | TaskExitCritical | TcpipInit
  | InvokeCallback _ _ _ _ => unit
  | NetifAddress | NetifNetmask | NetifGateway => bytes
  | SemaphoreCreateCounting _ _ => option Z
  | TaskCreate _ | QueueCreate _ | NetifAdd _ _ _ => bool
  | QueueReceive => option work_id
  | _ => Z
  end.

(** An environment: some state [E], and how it answers each call. *)
Class Env (E : Type) : Type := {
  answer : forall c : call, E -> resp c * E;
}.

(** ** Static variables *)

(** thread.h: [struct k_sem]; a [NULL] handle is [None]. *)
Record k_sem : Set := KSem {
  semaphore_handle : option Z;
  initial_count : Z;
  max_count : Z;
}.

(** The statics of zperf_udp_receiver.c, and those of zperf_tcp_receiver.c. *)
Record server : Set := Server {
  session_cb : option callback;
  user_data : Z;
  server_running : bool;
  server_stop : bool;
  server_port : Z;
  server_addr : bytes;
  server_run : k_sem;
}.

(** work.h: [struct k_work]. A handler is named by the function it is. *)
Inductive work_handler : Set := UdpUploadAsyncWork | TcpUploadAsyncWork.

Record k_work : Set := KWork {
  handler : option work_handler;
  context : option work_id;
  is_pending : Z;
}.

(** zperf_internal.h: [struct zperf_async_upload_context]. *)
Record async_ctx : Set := AsyncCtx {
  work : k_work;
  ctx_param : zperf_upload_params;
  ctx_callback : option callback;
  ctx_user_data : Z;
}.

(** The statics of zperf_shell.c: the addresses it sets up when it starts, and
    those the command setip sets. *)
Record shell_addrs : Set := ShellAddrs {
  sh_in6_addr_my : bytes;
  sh_in6_addr_dst : bytes;
  sh_in4_addr_dst : bytes;
  sh_in4_addr_my : bytes;
  shell_ipv6 : bytes;
  shell_ipv4 : bytes;
}.

Record globals : Set := Globals {
  sessions : table;
  in4_addr_my : bytes;
  in6_addr_my : bytes;
  udp_server : server;
  tcp_server : server;
  tcp_fds : list pollfd;
  tcp_sock_addr : list bytes;
  udp_sample_packet : bytes;
  tcp_sample_packet : bytes;
  udp_async_upload_ctx : async_ctx;
  tcp_async_upload_ctx : async_ctx;
  shell_statics : shell_addrs;
}.

(** One event of the run: a call and its answer. *)
Record event : Set := Event { ev_call : call; ev_resp : resp ev_call }.

Record world (E : Type) : Type := World {
  glob : globals;
  env : E;
  trace : list event;
}.
Arguments World {E} _ _ _.
Arguments glob {E} _.
Arguments env {E} _.
Arguments trace {E} _.

(** Field updates. *)
Definition set_sessions (x : table) (g : globals) : globals :=
  Globals x (in4_addr_my g) (in6_addr_my g) (udp_server g) (tcp_server g) (tcp_fds g)
    (tcp_sock_addr g) (udp_sample_packet g) (tcp_sample_packet g)
    (udp_async_upload_ctx g) (tcp_async_upload_ctx g) (shell_statics g).
Definition set_in4_addr_my (x : bytes) (g : globals) : globals :=
  Globals (sessions g) x (in6_addr_my g) (udp_server g) (tcp_server g) (tcp_fds g)
    (tcp_sock_addr g) (udp_sample_packet g) (tcp_sample_packet g)
    (udp_async_upload_ctx g) (tcp_async_upload_ctx g) (shell_statics g).
Definition set_in6_addr_my (x : bytes) (g : globals) : globals :=
  Globals (sessions g) (in4_addr_my g) x (udp_server g) (tcp_server g) (tcp_fds g)
    (tcp_sock_addr g) (udp_sample_packet g) (tcp_sample_packet g)
    (udp_async_upload_ctx g) (tcp_async_upload_ctx g) (shell_statics g).
Definition set_udp_server (x : server) (g : globals) : globals :=
  Globals (sessions g) (in4_addr_my g) (in6_addr_my g) x (tcp_server g) (tcp_fds g)
    (tcp_sock_addr g) (udp_sample_packet g) (tcp_sample_packet g)
    (udp_async_upload_ctx g) (tcp_async_upload_ctx g) (shell_statics g).
Definition set_tcp_server (x : server) (g : globals) : globals :=
  Globals (sessions g) (in4_addr_my g) (in6_addr_my g) (udp_server g) x (tcp_fds g)
    (tcp_sock_addr g) (udp_sample_packet g) (tcp_sample_packet g)
    (udp_async_upload_ctx g) (tcp_async_upload_ctx g) (shell_statics g).
Definition set_tcp_fds (x : list pollfd) (g : globals) : globals :=
  Globals (sessions g) (in4_addr_my g) (in6_addr_my g) (udp_server g) (tcp_server g) x
    (tcp_sock_addr g) (udp_sample_packet g) (tcp_sample_packet g)
    (udp_async_upload_ctx g) (tcp_async_upload_ctx g) (shell_statics g).
Definition set_tcp_sock_addr (x : list bytes) (g : globals) : globals :=
  Globals (sessions g) (in4_addr_my g) (in6_addr_my g) (udp_server g) (tcp_server g)
    (tcp_fds g) x (udp_sample_packet g) (tcp_sample_packet g)
    (udp_async_upload_ctx g) (tcp_async_upload_ctx g) (shell_statics g).
Definition set_udp_sample_packet (x : bytes) (g : globals) : globals :=
  Globals (sessions g) (in4_addr_my g) (in6_addr_my g) (udp_server g) (tcp_server g)
    (tcp_fds g) (tcp_sock_addr g) x (tcp_sample_packet g)
    (udp_async_upload_ctx g) (tcp_async_upload_ctx g) (shell_statics g).
Definition set_tcp_sample_packet (x : bytes) (g : globals) : globals :=
  Globals (sessions g) (in4_addr_my g) (in6_addr_my g) (udp_server g) (tcp_server g)
    (tcp_fds g) (tcp_sock_addr g) (udp_sample_packet g) x
    (udp_async_upload_ctx g) (tcp_async_upload_ctx g) (shell_statics g).
Definition set_udp_ctx (x : async_ctx) (g : globals) : globals :=
  Globals (sessions g) (in4_addr_my g) (in6_addr_my g) (udp_server g) (tcp_server g)
    (tcp_fds g) (tcp_sock_addr g) (udp_sample_packet g) (tcp_sample_packet g)
    x (tcp_async_upload_ctx g) (shell_statics g).
Definition set_tcp_ctx (x : async_ctx) (g : globals) : globals :=
  Globals (sessions g) (in4_addr_my g) (in6_addr_my g) (udp_server g) (tcp_server g)
    (tcp_fds g) (tcp_sock_addr g) (udp_sample_packet g) (tcp_sample_packet g)
    (udp_async_upload_ctx g) x (shell_statics g).
Definition set_shell_statics (x : shell_addrs) (g : globals) : globals :=
  Globals (sessions g) (in4_addr_my g) (in6_addr_my g) (udp_server g) (tcp_server g)
    (tcp_fds g) (tcp_sock_addr g) (udp_sample_packet g) (tcp_sample_packet g)
    (udp_async_upload_ctx g) (tcp_async_upload_ctx g) x.

Section World.
Context {E : Type} `{!Env E}.

Definition emit (c : call) (r : resp c) (e : E) (w : world E) : world E :=
  World (glob w) e (trace w ++ [Event c r]).

(** A call out of the program. *)
Definition trigger (c : call) : M (world E) (resp c) := fun w =>
  let '(r, e) := answer c (env w) in Done (r, emit c r e w).

Definition with_glob (f : globals -> globals) (w : world E) : world E :=
  World (f (glob w)) (env w) (trace w).
Definition get_glob {A} (f : globals -> A) : M (world E) A := gets (fun w => f (glob w)).
Definition upd_glob (f : globals -> globals) : M (world E) unit := modify (with_glob f).

(** [k_uptime_ticks]: [xTaskGetTickCount], a 32-bit [TickType_t]. *)
Definition k_uptime_ticks : M (world E) Z :=
  t ← trigger TaskGetTickCount; mret (u32 t).

Definition get_errno : M (world E) Z := trigger Errno.

(** [if (cb != NULL) cb(status, result, user_data);] *)
Definition notify (srv : globals -> server) (status : zperf_status)
    (result : option zperf_results) : M (world E) unit :=
  s ← get_glob srv;
  match session_cb s with
  | None => mret tt
  | Some cb => trigger (InvokeCallback cb status result (user_data s))
  end.

Lemma wp_trigger md (c : call) (Q : resp c -> world E -> Prop) (w : world E) :
  (forall r e, answer c (env w) = (r, e) -> Q r (emit c r e w)) -> wp md (trigger c) Q w.
Proof.
  intros HQ. unfold wp, trigger. destruct (answer c (env w)) as [r e] eqn:Ha. by apply HQ.
Qed.
End World.

(** ** Rules *)
Lemma with_sessions_same {E} (w : world E) t :
  t = sessions (glob w) -> with_glob (set_sessions t) w = w.
Proof. intros ->. by destruct w as [[] ? ?]. Qed.

(** The callback a notification invokes. *)
Definition notified (s : server) (st : zperf_status) (r : option zperf_results) : list event :=
  match session_cb s with
  | None => []
  | Some cb => [Event (InvokeCallback cb st r (user_data s)) tt]
  end.

Lemma wp_notify {E} `{!Env E} md srv st r (Q : unit -> world E -> Prop) w :
  (forall e, Q tt (World (glob w) e (trace w ++ notified (srv (glob w)) st r))) ->
  wp md (notify srv st r) Q w.
Proof.
  intros HQ. unfold notify. apply wp_bind, wp_gets.
  unfold notified in HQ. destruct (session_cb (srv (glob w))) as [cb|].
  - unfold wp, trigger. destruct (answer _ (env w)) as [[] e]. apply HQ.
  - apply wp_ret. specialize (HQ (env w)). rewrite app_nil_r in HQ. by destruct w.
Qed.

(** [wp_call r e]: the call at the head of the goal answers [r]. *)
Tactic Notation "wp_call" ident(r) ident(e) :=
  lazymatch goal with
  | |- wp ?md (trigger ?c) ?Q ?w => apply (wp_trigger md c Q w); intros r e _
  end.

Ltac w_step :=
  lazymatch goal with
  | |- wp ?md (trigger ?c) ?Q ?w => apply (wp_trigger md c Q w); intros ? ? _
  | |- wp _ (get_glob _) _ _ => apply wp_gets
  | |- wp _ (upd_glob _) _ _ => apply wp_modify
  | |- wp _ k_uptime_ticks _ _ => unfold k_uptime_ticks at 1
  | |- wp _ get_errno _ _ => unfold get_errno at 1
  | _ => wp_step
  end.
Ltac w_steps := repeat w_step.

(** ** Socket accounting

    How many descriptors equal to [f] a trace opened and has not closed. *)
Definition opens (f : Z) (ev : event) : Z :=
  match ev with
  | Event (LwipSocket _ _ _) r => if (r =? f) && (0 <=? r) then 1 else 0
  | Event (LwipAccept _ _) r => if (fst r =? f) && (0 <=? fst r) then 1 else 0
  | Event (LwipClose s) _ => if s =? f then -1 else 0
  | _ => 0
  end.
Definition balance (f : Z) (tr : list event) : Z :=
  foldr (fun ev n => opens f ev + n) 0 tr.

Lemma balance_app f tr1 tr2 : balance f (tr1 ++ tr2) = balance f tr1 + balance f tr2.
Proof. induction tr1 as [|ev tr1 IH]; cbn; [done|]. fold (balance f (tr1 ++ tr2)). unfold balance in *. lia. Qed.
#[export] Hint Rewrite balance_app : zperf.

(** How many sockets a trace opened, less those it closed; and the most it had
    open at any moment. *)
Definition gained (ev : event) : Z :=
  match ev with
  | Event (LwipSocket _ _ _) r => if 0 <=? r then 1 else 0
  | Event (LwipAccept _ _) r => if 0 <=? fst r then 1 else 0
  | Event (LwipClose s) _ => if 0 <=? s then -1 else 0
  | _ => 0
  end.
Definition net (tr : list event) : Z := foldr (fun ev n => gained ev + n) 0 tr.
Definition peak (tr : list event) : Z := foldr (fun ev n => Z.max 0 (gained ev + n)) 0 tr.

Lemma peak_nonneg tr : 0 <= peak tr.
Proof. destruct tr; cbn; lia. Qed.
Lemma net_app tr1 tr2 : net (tr1 ++ tr2) = net tr1 + net tr2.
Proof.
  induction tr1 as [|ev tr1 IH]; [done|]. cbn [app net foldr].
  fold (net tr1) (net (tr1 ++ tr2)). rewrite IH. lia.
Qed.
Lemma peak_app tr1 tr2 : peak (tr1 ++ tr2) = Z.max (peak tr1) (net tr1 + peak tr2).
Proof.
  pose proof (peak_nonneg tr2). induction tr1 as [|ev tr1 IH].
  { change (peak tr2 = Z.max 0 (0 + peak tr2)). lia. }
  cbn [app peak net foldr].
  fold (net tr1) (peak tr1) (peak (tr1 ++ tr2)). rewrite IH. lia.
Qed.
(** [peak] is the largest number over the prefixes of the trace. *)
Lemma peak_spec tr :
  (forall p, p `prefix_of` tr -> net p <= peak tr) /\ exists p, p `prefix_of` tr /\ net p = peak tr.
Proof.
  split.
  - intros p [q ->]. rewrite peak_app. pose proof (peak_nonneg q). lia.
  - induction tr as [|ev tr (p & [q Hq] & Hp)]; [by exists []|].
    cbn [peak foldr]. fold (peak tr). destruct (Z.leb_spec (gained ev + peak tr) 0).
    + exists []. split; [apply prefix_nil|]. change (0 = Z.max 0 (gained ev + peak tr)). lia.
    + exists (ev :: p). split; [exists q; by rewrite Hq|]. cbn [net foldr]. fold (net p). lia.
Qed.

(** Between two worlds at most [n] sockets are open at any moment. *)
Definition at_most {E} (n : Z) (w w' : world E) : Prop :=
  exists tr, trace w' = trace w ++ tr /\ peak tr <= n.

(** The calls of a trace, without their answers. *)
Definition calls (tr : list event) : list call := List.map ev_call tr.

(** The data passed to [send] on a socket, in order. *)
Fixpoint sent_on (s : Z) (tr : list event) : list bytes :=
  match tr with
  | [] => []
  | Event (LwipSend s' data _) _ :: tr' =>
      if s' =? s then data :: sent_on s tr' else sent_on s tr'
  | _ :: tr' => sent_on s tr'
  end.

(** The callbacks a trace invoked, in order. *)
Fixpoint callbacks (tr : list event)
    : list (callback * zperf_status * option zperf_results * Z) :=
  match tr with
  | [] => []
  | Event (InvokeCallback cb st r ud) _ :: tr' => (cb, st, r, ud) :: callbacks tr'
  | _ :: tr' => callbacks tr'
  end.

(** The datagrams a trace passed to [sendto], with their destination. *)
Fixpoint sent_to (tr : list event) : list (Z * bytes * bytes) :=
  match tr with
  | [] => []
  | Event (LwipSendto s data _ to) _ :: tr' => (s, data, to) :: sent_to tr'
  | _ :: tr' => sent_to tr'
  end.

(** The readings of the clock in a trace. *)
Fixpoint clock_readings (tr : list event) : list Z :=
  match tr with
  | [] => []
  | Event TaskGetTickCount r :: tr' => u32 r :: clock_readings tr'
  | _ :: tr' => clock_readings tr'
  end.
Lemma clock_readings_app tr1 tr2 :
  clock_readings (tr1 ++ tr2) = clock_readings tr1 ++ clock_readings tr2.
Proof. induction tr1 as [|[[] r] tr1 IH]; cbn; by rewrite ?IH. Qed.
Lemma sent_to_app tr1 tr2 : sent_to (tr1 ++ tr2) = sent_to tr1 ++ sent_to tr2.
Proof. induction tr1 as [|[[] r] tr1 IH]; cbn; by rewrite ?IH. Qed.
Lemma callbacks_app tr1 tr2 : callbacks (tr1 ++ tr2) = callbacks tr1 ++ callbacks tr2.
Proof. induction tr1 as [|[[] r] tr1 IH]; cbn; by rewrite ?IH. Qed.
Lemma sent_on_app s tr1 tr2 : sent_on s (tr1 ++ tr2) = sent_on s tr1 ++ sent_on s tr2.
Proof.
  induction tr1 as [|[[] r] tr1 IH]; cbn; rewrite ?IH; try done.
  by case_match.
Qed.
#[export] Hint Rewrite callbacks_app sent_on_app sent_to_app clock_readings_app : zperf.

(** The events of a notification. *)
Lemma callbacks_notified srv st r :
  callbacks (notified srv st r) =
  match session_cb srv with Some cb => [(cb, st, r, user_data srv)] | None => [] end.
Proof. unfold notified. by destruct (session_cb srv). Qed.

Lemma sent_to_notified srv st r : sent_to (notified srv st r) = [].
Proof. unfold notified. by destruct (session_cb srv). Qed.

Lemma clock_readings_notified srv st r : clock_readings (notified srv st r) = [].
Proof. unfold notified. by destruct (session_cb srv). Qed.

(** ** Computations whose events all satisfy a predicate *)
Section Only.
Context {E : Type} `{!Env E}.

Definition only {A} (P : event -> Prop) (m : M (world E) A) : Prop :=
  forall w, wp Partial m (fun _ w' => exists evs, trace w' = trace w ++ evs /\ Forall P evs) w.

Implicit Types (P : event -> Prop).

Lemma only_pure {A} P (m : M (world E) A) :
  (forall w, wp Partial m (fun _ w' => trace w' = trace w) w) -> only P m.
Proof.
  intros Hm w. eapply wp_mono; [apply Hm|]. intros a w' ->. exists []. by rewrite app_nil_r.
Qed.
Lemma only_ret {A} P (a : A) : only P (mret a).
Proof. by apply only_pure. Qed.
Lemma only_fail {A} P f : only P (fail (A := A) f).
Proof. by apply only_pure. Qed.
Lemma only_lift {A} P (o : outcome A) : only P (lift o).
Proof. apply only_pure. intros w. by apply wp_lift_partial. Qed.
Lemma only_get_glob {A} P (f : globals -> A) : only P (get_glob f).
Proof. by apply only_pure. Qed.
Lemma only_upd_glob P f : only P (upd_glob f).
Proof. by apply only_pure. Qed.
Lemma only_bind {A B} P (m : M (world E) A) (k : A -> M (world E) B) :
  only P m -> (forall a, only P (k a)) -> only P (m ≫= k).
Proof.
  intros Hm Hk w. apply wp_bind. eapply wp_mono; [apply Hm|]. intros a w1 (evs & Htr & He).
  eapply wp_mono; [apply Hk|]. intros b w2 (evs' & Htr' & He').
  exists (evs ++ evs'). rewrite Htr', Htr, app_assoc. split; [done|by apply Forall_app_2].
Qed.
Lemma only_trigger P c : (forall r, P (Event c r)) -> only P (trigger c).
Proof.
  intros HP w. apply wp_trigger. intros r e _. exists [Event c r]. split; [done|by constructor].
Qed.
Lemma only_when P b (m : M (world E) unit) : only P m -> only P (when b m).
Proof. intros Hm. destruct b; [done|apply only_ret]. Qed.
Lemma only_loop {A B} P fuel (body : A -> M (world E) (A + B)) a :
  (forall a, only P (body a)) -> only P (loop fuel body a).
Proof.
  intros Hb. revert a. induction fuel as [|fuel IH]; intros a w; [done|].
  cbn [loop]. apply only_bind; [done|]. intros [a'|b]; [apply IH|apply only_ret].
Qed.

Lemma only_impl {A} P P' (m : M (world E) A) : (forall ev, P ev -> P' ev) -> only P m -> only P' m.
Proof.
  intros Hi Hm w. eapply wp_mono; [apply Hm|]. intros a w' (evs & Htr & He). exists evs.
  split; [done|]. by eapply Forall_impl.
Qed.

Lemma wp_only {A} P (m : M (world E) A) Q w :
  only P m ->
  (forall a w' evs, trace w' = trace w ++ evs -> Forall P evs -> Q a w') ->
  wp Partial m Q w.
Proof. intros Hm HQ. eapply wp_mono; [apply Hm|]. intros a w' (evs & ? & ?). by eapply HQ. Qed.
End Only.

(** Proves [only P m] by the structure of [m], with the lemmas of the hint
    database for the functions it calls. *)
Ltac only_step :=
  lazymatch goal with
  | |- only _ (_ ≫= _) => apply only_bind; [|intros]
  | |- only _ (mret _) => apply only_ret
  | |- only _ (fail _) => apply only_fail
  | |- only _ (lift _) => apply only_lift
  | |- only _ (get_glob _) => apply only_get_glob
  | |- only _ (upd_glob _) => apply only_upd_glob
  | |- only ?P (trigger ?c) => apply (only_trigger P c); intros
  | |- only _ (when _ _) => apply only_when
  | |- only _ (loop _ _ _) => apply only_loop; intros
  | |- only _ (if ?b then _ else _) => destruct b
  | |- only _ (match ?x with _ => _ end) => destruct x
  | |- only _ (let '(_, _) := ?x in _) => destruct x
  end.
Ltac only_steps := repeat first [only_step | solve [eauto with zperf]].

(** The results a computation can return, whatever happens on the way. *)
Definition returns {E A} (P : A -> Prop) (m : M (world E) A) : Prop :=
  forall w, wp Partial m (fun a _ => P a) w.

Section Returns.
Context {E : Type} `{!Env E}.
Lemma returns_ret {A} (P : A -> Prop) (a : A) : P a -> returns (E := E) P (mret a).
Proof. by intros ? w. Qed.
Lemma returns_bind {A B} (P : B -> Prop) (m : M (world E) A) k :
  (forall a, returns P (k a)) -> returns P (m ≫= k).
Proof.
  intros Hk w. apply wp_bind. unfold wp at 1. destruct (m w) as [[a w']| |]; [apply Hk|done..].
Qed.
Lemma returns_bind_of {A B} (P : A -> Prop) (Q : B -> Prop) (m : M (world E) A) k :
  returns P m -> (forall a, P a -> returns Q (k a)) -> returns Q (m ≫= k).
Proof.
  intros Hm Hk w. apply wp_bind. eapply wp_mono; [apply Hm|]. intros a w' Ha. by apply Hk.
Qed.
Lemma returns_lift {A} (P : A -> Prop) (o : outcome A) :
  (forall a, o = Done a -> P a) -> returns (E := E) P (lift o).
Proof. intros H w. by apply wp_lift_partial. Qed.
Lemma returns_fail {A} (P : A -> Prop) f : returns (E := E) P (fail f).
Proof. by intros w. Qed.

(** Both properties of one computation. *)
Lemma wp_only_returns {A} P (P' : A -> Prop) (m : M (world E) A) Q w :
  only P m -> returns P' m ->
  (forall a w' evs, P' a -> trace w' = trace w ++ evs -> Forall P evs -> Q a w') ->
  wp Partial m Q w.
Proof.
  intros Ho Hr HQ. eapply wp_mono; [apply wp_conj; [apply Ho|apply Hr]|].
  intros a w' [(evs & Htr & He) Ha]. by eapply HQ.
Qed.
End Returns.
Ltac returns_steps := repeat first
  [ apply returns_ret
  | apply returns_fail
  | match goal with
    | |- returns _ (_ ≫= _) => apply returns_bind; intros
    | |- returns _ (if ?b then _ else _) => destruct b
    | |- returns _ (match ?x with _ => _ end) => destruct x
    end ].

(** Computations that keep a part of the static variables. *)
Section Keeps.
Context {E : Type} `{!Env E} {B : Type}.
Implicit Types (obs : globals -> B).

Definition keeps {A} obs (m : M (world E) A) : Prop :=
  forall w, wp Partial m (fun _ w' => obs (glob w') = obs (glob w)) w.

Lemma keeps_ret {A} obs (a : A) : keeps obs (mret a).
Proof. done. Qed.
Lemma keeps_fail {A} obs f : keeps obs (fail (A := A) f).
Proof. done. Qed.
Lemma keeps_lift {A} obs (o : outcome A) : keeps obs (lift o).
Proof. intros w. by apply wp_lift_partial. Qed.
Lemma keeps_get_glob {A} obs (f : globals -> A) : keeps obs (get_glob f).
Proof. done. Qed.
Lemma keeps_upd_glob obs f : (forall g, obs (f g) = obs g) -> keeps obs (upd_glob f).
Proof. intros Hf w. apply wp_modify. apply Hf. Qed.
Lemma keeps_trigger obs c : keeps obs (trigger c).
Proof. intros w. by wp_call r e. Qed.
Lemma keeps_bind {A C} obs (m : M (world E) A) (k : A -> M (world E) C) :
  keeps obs m -> (forall a, keeps obs (k a)) -> keeps obs (m ≫= k).
Proof.
  intros Hm Hk w. apply wp_bind. eapply wp_mono; [apply Hm|]. intros a w1 H1.
  eapply wp_mono; [apply Hk|]. intros b w2 H2. congruence.
Qed.
Lemma keeps_when obs b (m : M (world E) unit) : keeps obs m -> keeps obs (when b m).
Proof. intros Hm. destruct b; [done|apply keeps_ret]. Qed.
Lemma keeps_loop {A C} obs fuel (body : A -> M (world E) (A + C)) a :
  (forall a, keeps obs (body a)) -> keeps obs (loop fuel body a).
Proof.
  intros Hb. revert a. induction fuel as [|fuel IH]; intros a w; [done|].
  cbn [loop]. apply keeps_bind; [done|]. intros [a'|c]; [apply IH|apply keeps_ret].
Qed.
End Keeps.
Ltac keeps_step :=
  lazymatch goal with
  | |- keeps _ (_ ≫= _) => apply keeps_bind; [|intros]
  | |- keeps _ (mret _) => apply keeps_ret
  | |- keeps _ (fail _) => apply keeps_fail
  | |- keeps _ (lift _) => apply keeps_lift
  | |- keeps _ (get_glob _) => apply keeps_get_glob
  | |- keeps _ (upd_glob _) => apply keeps_upd_glob; intros
  | |- keeps ?obs (trigger ?c) => apply (keeps_trigger obs c)
  | |- keeps _ (when _ _) => apply keeps_when
  | |- keeps _ (loop _ _ _) => apply keeps_loop; intros
  | |- keeps _ (if ?b then _ else _) => destruct b
  | |- keeps _ (match ?x with _ => _ end) => destruct x
  end.
Ltac keeps_steps := repeat first [keeps_step | solve [eauto with zperf]].

(** Events that neither open nor close a socket. *)
Definition no_socket (ev : event) : Prop := forall f, opens f ev = 0.

Lemma balance_no_socket f evs : Forall no_socket evs -> balance f evs = 0.
Proof. induction 1 as [|ev evs He _ IH]; [done|]. cbn. fold (balance f evs). rewrite He, IH. done. Qed.

Lemma gained_no_socket ev : no_socket ev -> gained ev = 0.
Proof.
  intros H. destruct ev as [[] r]; try done; cbn.
  - specialize (H r). cbn in H. rewrite Z.eqb_refl in H. by destruct (0 <=? r).
  - specialize (H (fst r)). cbn in H. rewrite Z.eqb_refl in H. by destruct (0 <=? fst r).
  - specialize (H s). cbn in H. by rewrite Z.eqb_refl in H.
Qed.
Lemma net_no_socket evs : Forall no_socket evs -> net evs = 0 /\ peak evs = 0.
Proof.
  induction 1 as [|ev evs He _ [IH1 IH2]]; [done|]. cbn. fold (net evs) (peak evs).
  rewrite (gained_no_socket ev He), IH1, IH2. done.
Qed.

Section NoSocket.
Context {E : Type} `{!Env E}.

Lemma notify_no_socket srv st r : only no_socket (notify (E := E) srv st r).
Proof. unfold notify. by only_steps. Qed.
Lemma k_uptime_no_socket : only no_socket (k_uptime_ticks (E := E)).
Proof. unfold k_uptime_ticks. by only_steps. Qed.
Lemma get_errno_no_socket : only no_socket (get_errno (E := E)).
Proof. unfold get_errno. by only_steps. Qed.
End NoSocket.

Section KeepsCalls.
Context {E : Type} `{!Env E} {B : Type}.
Lemma keeps_notify (obs : globals -> B) srv st r : keeps (E := E) obs (notify srv st r).
Proof. unfold notify. by keeps_steps. Qed.
Lemma keeps_uptime (obs : globals -> B) : keeps (E := E) obs k_uptime_ticks.
Proof. unfold k_uptime_ticks. by keeps_steps. Qed.
Lemma keeps_errno (obs : globals -> B) : keeps (E := E) obs get_errno.
Proof. unfold get_errno. by keeps_steps. Qed.
End KeepsCalls.
#[export] Hint Resolve keeps_notify keeps_uptime keeps_errno : zperf.
#[export] Hint Resolve notify_no_socket k_uptime_no_socket get_errno_no_socket : zperf.

(** The descriptors in an array of [pollfd], counted. *)
Definition held (f : Z) (fds : list pollfd) : Z :=
  foldr (fun p n => (if fd p =? f then 1 else 0) + n) 0 fds.

(** How many of them are open. *)
Definition used (fds : list pollfd) : Z :=
  foldr (fun p n => (if 0 <=? fd p then 1 else 0) + n) 0 fds.

(** ** A scripted environment, for evaluation on concrete inputs

    A list of answers, one per call but for [printf]; a call whose answer is
    missing, or of the wrong shape, gets zero. Creating a task, a queue or an interface succeeds
    with any number. *)
Inductive reply : Set :=
| RZ (z : Z)
| RData (ret : Z) (data : bytes)
| RFrom (ret : Z) (data from : bytes)
| RPoll (ret : Z) (rs : list Z).

Definition scripted_answer (c : call) (r : reply) : resp c :=
  match c with
  | LwipAccept _ _ => match r with RData z bs => (z, bs) | _ => (0, []) end
  | LwipPoll _ _ => match r with RPoll z rs => (z, rs) | _ => (0, []) end
  | LwipRecv _ _ _ => match r with RData z bs => (z, bs) | _ => (0, []) end
  | LwipRecvfrom _ _ _ _ => match r with RFrom z bs a => (z, bs, a) | _ => (0, [], []) end
  | NetifAddIp6Address _ => match r with RZ 0 => (0, Some 1) | RZ z => (z, None) | _ => (0, Some 1) end
  | TaskDelay _ | TaskYield | SemaphoreTake _ | SemaphoreGive _
  | Printf _ | Fflush | TaskEnterCritical | TaskExitCritical | TcpipInit
  | InvokeCallback _ _ _ _ => tt
  | NetifAddress | NetifNetmask | NetifGateway => match r with RData _ bs => bs | _ => [] end
  | SemaphoreCreateCounting _ _ => match r with RZ z => Some z | _ => None end
  | TaskCreate _ | QueueCreate _ | NetifAdd _ _ _ => match r with RZ _ => true | _ => false end
  | QueueReceive => match r with RZ 0 => Some UDP_WORK | RZ 1 => Some TCP_WORK | _ => None end
  | _ => match r with RZ z => z | _ => 0 end
  end.

#[global] Instance scripted : Env (list reply) := {|
  answer c e :=
    match c, e with
    | Printf _, _ => (scripted_answer c (RZ 0), e)
    | _, [] => (scripted_answer c (RZ 0), [])
    | _, r :: e' => (scripted_answer c r, e')
    end;
|}.
