(* ===== verification/Environment.v ===== *)
(** What some theorems ask of the environment: contracts of the sockets API and
    of the tick count, as classes of environments, and an environment that meets
    them all. *)
From S2P Require Import Prelude CInt Platform NetIp Session World.
Open Scope Z_scope.

(** ** What [send] takes *)
Section Sending.
Context {E : Type} `{!Env E}.

(** The bytes the stack took from the program on a socket, in order. *)
Fixpoint accepted (s : Z) (tr : list event) : bytes :=
  match tr with
  | [] => []
  | Event (LwipSend s' data _) r :: tr' =>
      if s' =? s then take (Z.to_nat r) data ++ accepted s tr' else accepted s tr'
  | _ :: tr' => accepted s tr'
  end.

Lemma accepted_app s tr1 tr2 : accepted s (tr1 ++ tr2) = accepted s tr1 ++ accepted s tr2.
Proof.
  induction tr1 as [|[[] r] tr1 IH]; cbn; rewrite ?IH; try done.
  case_match; by rewrite ?app_assoc.
Qed.

(** [send] fails, or takes between one byte and all it was given. *)
Class SendOk : Prop := {
  send_takes : forall s data flags e r e',
    answer (LwipSend s data flags) e = (r, e') -> data <> [] ->
    r < 0 \/ 0 < r <= Z.of_nat (length data);
}.
End Sending.
Arguments SendOk E {_}.

(** ** Environments whose clock goes on *)
Section Clocks.
Context {E : Type} `{!Env E}.

(** The clock reaches [stop]: every reading before it brings it closer, and no
    other call turns it back. *)
Class ClockReaches (stop : Z) : Type := {
  remaining : E -> nat;
  remaining_call : forall c e, (remaining (snd (answer c e)) <= remaining e)%nat;
  remaining_tick : forall e, u32 (fst (answer TaskGetTickCount e)) < stop ->
    (remaining (snd (answer TaskGetTickCount e)) < remaining e)%nat;
}.

(** [send] always takes something, and [errno] is an error number. *)
Class SendSucceeds : Prop := {
  send_succeeds : forall s data flags e r e',
    answer (LwipSend s data flags) e = (r, e') -> data <> [] -> 0 < r <= Z.of_nat (length data);
}.
(** At most [k - 1] datagrams wait to be received. *)
Class DrainEnds (flags : Z) (k : nat) : Type := {
  waiting : E -> nat;
  waiting_bound : forall e, (waiting e < k)%nat;
  waiting_recv : forall s len e, 0 <= fst (fst (answer (LwipRecv s len flags) e)) ->
    (waiting (snd (answer (LwipRecv s len flags) e)) < waiting e)%nat;
}.
(** Socket options can be set. *)
Class SetsockoptSucceeds : Prop := {
  setsockopt_succeeds : forall s level optname optval e,
    0 <= fst (answer (LwipSetsockopt s level optname optval) e);
}.
Class ErrnoOk : Prop := {
  errno_ok : forall e, 0 < fst (answer Errno e);
}.

#[export] Instance send_succeeds_ok : SendSucceeds -> SendOk E.
Proof. intros [H]. split. intros. right. by eapply H. Qed.
End Clocks.
Arguments ClockReaches E {_} _.
Arguments remaining {E _} stop {_} _.
Arguments remaining_call {E _} stop {_} _ _.
Arguments remaining_tick {E _} stop {_} _ _.
Arguments DrainEnds E {_} _ _.
Arguments waiting {E _} flags k {_} _.
Arguments waiting_bound {E _} flags k {_} _.
Arguments waiting_recv {E _} flags k {_} _ _ _.
Arguments SendSucceeds E {_}.
Arguments ErrnoOk E {_}.
Arguments SetsockoptSucceeds E {_}.

(** ** Computations that do not turn the clock back *)
Section Advances.
Context {E : Type} `{!Env E} {stop : Z} `{!ClockReaches E stop}.

Definition advances {A} (m : M (world E) A) : Prop :=
  forall w, wp Partial m (fun _ w' => (remaining stop (env w') <= remaining stop (env w))%nat) w.

Lemma advances_pure {A} (m : M (world E) A) :
  (forall w, wp Partial m (fun _ w' => env w' = env w) w) -> advances m.
Proof. intros Hm w. eapply wp_mono; [apply Hm|]. by intros a w' ->. Qed.
Lemma advances_ret {A} (a : A) : advances (mret a).
Proof. by apply advances_pure. Qed.
Lemma advances_lift {A} (o : outcome A) : advances (lift o).
Proof. apply advances_pure. intros w. by apply wp_lift_partial. Qed.
Lemma advances_get_glob {A} (f : globals -> A) : advances (get_glob f).
Proof. by apply advances_pure. Qed.
Lemma advances_upd_glob f : advances (upd_glob f).
Proof. by apply advances_pure. Qed.
Lemma advances_trigger c : advances (trigger c).
Proof.
  intros w. apply wp_trigger. intros r e Ha. pose proof (remaining_call stop c (env w)) as H.
  rewrite Ha in H. exact H.
Qed.
Lemma advances_bind {A B} (m : M (world E) A) (k : A -> M (world E) B) :
  advances m -> (forall a, advances (k a)) -> advances (m ≫= k).
Proof.
  intros Hm Hk w. apply wp_bind. eapply wp_mono; [apply Hm|]. intros a w1 H1.
  eapply wp_mono; [apply Hk|]. intros b w2 H2. etransitivity; [exact H2|exact H1].
Qed.
Lemma advances_when b (m : M (world E) unit) : advances m -> advances (when b m).
Proof. intros Hm. destruct b; [done|apply advances_ret]. Qed.
Lemma advances_loop {A B} fuel (body : A -> M (world E) (A + B)) a :
  (forall a, advances (body a)) -> advances (loop fuel body a).
Proof.
  intros Hb. revert a. induction fuel as [|fuel IH]; intros a w; [done|].
  cbn [loop]. apply advances_bind; [done|]. intros [a'|b]; [apply IH|apply advances_ret].
Qed.

(** A reading of the clock before [stop]. *)
Lemma wp_tick_before md (Q : Z -> world E -> Prop) w :
  (forall time w', glob w' = glob w -> trace w' = trace w ++ [Event TaskGetTickCount time] ->
     (remaining stop (env w') <= remaining stop (env w))%nat ->
     (u32 time < stop -> (remaining stop (env w') < remaining stop (env w))%nat) -> Q (u32 time) w') ->
  wp md k_uptime_ticks Q w.
Proof.
  intros HQ. apply wp_bind, (wp_trigger _ TaskGetTickCount). intros time e Ha.
  pose proof (remaining_call stop TaskGetTickCount (env w)) as H1.
  pose proof (remaining_tick stop (env w)) as H2. rewrite Ha in H1, H2.
  apply wp_ret. by apply HQ.
Qed.
End Advances.
Arguments advances {E _} stop {_ A} m.

Ltac advances_step :=
  lazymatch goal with
  | |- advances _ (_ ≫= _) => apply advances_bind; [|intros]
  | |- advances _ (mret _) => apply advances_ret
  | |- advances _ (lift _) => apply advances_lift
  | |- advances _ (get_glob _) => apply advances_get_glob
  | |- advances _ (upd_glob _) => apply advances_upd_glob
  | |- advances _ (trigger ?c) => apply (advances_trigger c)
  | |- advances _ (when _ _) => apply advances_when
  | |- advances _ (loop _ _ _) => apply advances_loop; intros
  | |- advances _ (if ?b then _ else _) => destruct b
  | |- advances _ (match ?x with _ => _ end) => destruct x
  end.
Ltac advances_steps := repeat advances_step.

(** ** The environment's state is a function of the trace *)
Section Follows.
Context {E : Type} `{!Env E}.

Definition env_after (e : E) (evs : list event) : E :=
  foldl (fun e ev => snd (answer (ev_call ev) e)) e evs.

Definition follows {A} (m : M (world E) A) : Prop :=
  forall w, wp Partial m (fun _ w' => exists evs,
    trace w' = trace w ++ evs /\ env w' = env_after (env w) evs) w.

Lemma follows_pure {A} (m : M (world E) A) :
  (forall w, wp Partial m (fun _ w' => env w' = env w /\ trace w' = trace w) w) -> follows m.
Proof.
  intros Hm w. eapply wp_mono; [apply Hm|]. intros a w' [He Ht]. exists []. by rewrite app_nil_r.
Qed.
Lemma follows_ret {A} (a : A) : follows (mret a).
Proof. by apply follows_pure. Qed.
Lemma follows_lift {A} (o : outcome A) : follows (lift o).
Proof. apply follows_pure. intros w. by apply wp_lift_partial. Qed.
Lemma follows_get_glob {A} (f : globals -> A) : follows (get_glob f).
Proof. by apply follows_pure. Qed.
Lemma follows_upd_glob f : follows (upd_glob f).
Proof. by apply follows_pure. Qed.
Lemma follows_trigger c : follows (trigger c).
Proof.
  intros w. apply wp_trigger. intros r e Ha. exists [Event c r]. split; [done|].
  cbn. by rewrite Ha.
Qed.
Lemma follows_bind {A B} (m : M (world E) A) (k : A -> M (world E) B) :
  follows m -> (forall a, follows (k a)) -> follows (m ≫= k).
Proof.
  intros Hm Hk w. apply wp_bind. eapply wp_mono; [apply Hm|]. intros a w1 (evs1 & Ht1 & He1).
  eapply wp_mono; [apply Hk|]. intros b w2 (evs2 & Ht2 & He2). exists (evs1 ++ evs2).
  rewrite Ht2, Ht1, <- app_assoc. split; [done|]. unfold env_after in *.
  by rewrite He2, He1, foldl_app.
Qed.
Lemma follows_when b (m : M (world E) unit) : follows m -> follows (when b m).
Proof. intros Hm. destruct b; [done|apply follows_ret]. Qed.
Lemma follows_loop {A B} fuel (body : A -> M (world E) (A + B)) a :
  (forall a, follows (body a)) -> follows (loop fuel body a).
Proof.
  intros Hb. revert a. induction fuel as [|fuel IH]; intros a w; [done|].
  cbn [loop]. apply follows_bind; [done|]. intros [a'|b]; [apply IH|apply follows_ret].
Qed.
End Follows.

Ltac follows_step :=
  lazymatch goal with
  | |- follows (_ ≫= _) => apply follows_bind; [|intros]
  | |- follows (mret _) => apply follows_ret
  | |- follows (lift _) => apply follows_lift
  | |- follows (get_glob _) => apply follows_get_glob
  | |- follows (upd_glob _) => apply follows_upd_glob
  | |- follows (trigger ?c) => apply (follows_trigger c)
  | |- follows (when _ _) => apply follows_when
  | |- follows (loop _ _ _) => apply follows_loop; intros
  | |- follows (if ?b then _ else _) => destruct b
  | |- follows (match ?x with _ => _ end) => destruct x
  end.
Ltac follows_steps := repeat first [follows_step | solve [eauto with zperf]].

(** ** An environment that meets them

    The state is the time: every reading of the clock gives it and advances it
    by a tick, up to the end of the clock's range; [send] takes all it is given,
    [recv] fills its buffer with zeros, except that a call that must not block
    fails, every other call succeeds with 0, and [errno] is 5. *)
Definition ticking_answer (c : call) (now : Z) : resp c * Z :=
  match c with
  | TaskGetTickCount => (Z.max 0 (Z.min now 4294967295), now + 1)
  | LwipSend _ data _ => (Z.of_nat (length data), now)
  | LwipRecv _ len flags =>
      if flags =? 0 then ((len, memset 0 (Z.to_nat len)), now) else ((-1, []), now)
  | Errno => (5, now)
  | c => (scripted_answer c (RZ 0), now)
  end.
Definition ticking : Env Z := {| answer := ticking_answer |}.

Lemma ticking_errno : ErrnoOk Z (Env0 := ticking).
Proof. by split. Qed.
Lemma ticking_send : SendSucceeds Z (Env0 := ticking).
Proof. split. intros s data flags e r e' [= <- <-] Hd. destruct data; [done|cbn; lia]. Qed.
Lemma ticking_sockopt : SetsockoptSucceeds Z (Env0 := ticking).
Proof. by split. Qed.
Definition ticking_clock (stop : Z) (H : stop <= 4294967295) : ClockReaches Z (Env0 := ticking) stop.
Proof.
  refine {| remaining := fun now => Z.to_nat (stop - now) |}.
  - intros [] now; cbn; try case_match; cbn; lia.
  - intros now. cbn. unfold u32. lia.
Defined.
Definition ticking_drain (flags : Z) (H : flags <> 0) : DrainEnds Z (Env0 := ticking) flags 1.
Proof.
  refine {| waiting := fun _ => 0%nat |}; [lia|].
  intros s len e. cbn. destruct (Z.eqb_spec flags 0); cbn; lia.
Defined.

(** ** Connections *)
Section Connections.
Context {L : Lwip} {E : Type} `{!Env E}.

(** [poll] reports nothing on a negative descriptor. *)
Class PollSkips : Prop := {
  poll_skips : forall fds timeout e ret rs e' i p r,
    answer (LwipPoll fds timeout) e = ((ret, rs), e') -> fds !! i = Some p -> fd p < 0 ->
    rs !! i = Some r -> r = 0;
}.
(** [accept] gives the address of the peer, which fits where it is stored. *)
Class AcceptNames : Prop := {
  accept_names : forall s e sock from e',
    answer (LwipAccept s (Z.of_nat sizeof_sockaddr_storage)) e = ((sock, from), e') -> 0 <= sock ->
    (length from <= sizeof_sockaddr_storage)%nat /\ exists k, addr_peer from = Done (Some k);
}.
End Connections.
Arguments PollSkips E {_}.
Arguments AcceptNames {L} E {_}.

(** An environment with connections: each poll finds the next listed descriptors
    readable, when they are polled, and fails when the list is used up; the
    sockets are 3 and 4, [accept] gives descriptor 5 and the example's peer, [recv] the next number of bytes,
    the clock ten ticks more at each reading. *)
Record traffic : Set := Traffic { readable : list (list Z); deliveries : list Z; ticks : Z }.

Definition traffic_answer (c : call) (e : traffic) : resp c * traffic :=
  match c with
  | LwipPoll fds _ =>
      match readable e with
      | [] => ((-1, []), e)
      | now :: later =>
          ((1, (fun p => if fd p <? 0 then 0 else if bool_decide (fd p ∈ now) then @POLLIN lwip_example else 0) <$> fds),
           Traffic later (deliveries e) (ticks e))
      end
  | LwipSocket domain _ _ => (if domain =? @AF_INET lwip_example then 3 else 4, e)
  | LwipAccept _ _ => ((5, example_peer4), e)
  | LwipRecv _ _ _ =>
      match deliveries e with
      | [] => ((-1, []), e)
      | n :: later => ((n, []), Traffic (readable e) later (ticks e))
      end
  | TaskGetTickCount => (ticks e, Traffic (readable e) (deliveries e) (ticks e + 10))
  | c => (scripted_answer c (RZ 0), e)
  end.
Definition trafficking : Env traffic := {| answer := traffic_answer |}.

Lemma trafficking_polls : PollSkips traffic (Env0 := trafficking).
Proof.
  split. intros fds timeout e ret rs e' i p r Ha Hp Hf Hr. cbn in Ha.
  destruct (readable e) as [|now later]; [by simplify_eq|]. injection Ha as _ <- _.
  rewrite list_lookup_fmap, Hp in Hr. cbn in Hr. destruct (Z.ltb_spec (fd p) 0); [by simplify_eq|lia].
Qed.
Lemma trafficking_accepts : AcceptNames (L := lwip_example) traffic (Env0 := trafficking).
Proof.
  split. intros s e sock from e' Ha Hs. cbn in Ha. injection Ha as <- <- _.
  split; [apply Nat.leb_le; reflexivity|]. eexists. vm_compute. reflexivity.
Qed.
