(* ===== verification/Print.v ===== *)
(** What the program prints: [printf] as a call, code that only computes and
    prints as a writer monad, the text of addresses (zephyr/net/net_private.c)
    and the text a trace of calls has printed. *)
From S2P Require Import Prelude CInt Platform CString NetIp Session World Environment.
Import Stdlib.Strings.String.StringSyntax.
Open Scope Z_scope.

(** ** Code without calls other than [printf]

    The text printed, and the value. The text of a run that meets a fault is
    lost: the program has ended. *)
Definition printing (A : Type) : Type := outcome (bytes * A).

#[global] Instance printing_ret : MRet printing := fun A a => Done ([], a).
#[global] Instance printing_bind : MBind printing := fun A B k p =>
  match p with
  | Done (t, a) =>
      match k a with
      | Done (t', b) => Done (t ++ t', b)
      | Fault f => Fault f
      | OutOfFuel => OutOfFuel
      end
  | Fault f => Fault f
  | OutOfFuel => OutOfFuel
  end.

Definition print (t : bytes) : printing unit := Done (t, tt).
Definition quiet {A} (o : outcome A) : printing A :=
  match o with
  | Done a => Done ([], a)
  | Fault f => Fault f
  | OutOfFuel => OutOfFuel
  end.

Lemma quiet_bind {A B} (a : A) (k : A -> printing B) : quiet (Done a) ≫= k = k a.
Proof. unfold mbind, printing_bind, quiet. by destruct (k a) as [[t b]| |]. Qed.
Lemma print_bind {B} t (k : unit -> printing B) u b :
  k tt = Done (u, b) -> print t ≫= k = Done (t ++ u, b).
Proof. unfold mbind, printing_bind, print. by intros ->. Qed.

(** The escapes of the format strings; [%d] of an [int] ([%u] is [decimal]). *)
Definition nl : bytes := [10].
Definition tab : bytes := [9].
Definition signed (n : Z) : bytes := if n <? 0 then text "-" ++ decimal (- n) else decimal n.

(** ** Its use in code that makes calls

    Pieces of text with no other call between them are printed as one; printing
    nothing is no call. *)
Section Print.
Context {E : Type} `{!Env E}.

Definition printf (t : bytes) : M (world E) unit :=
  match t with [] => mret tt | _ => trigger (Printf t) end.
Definition say {A} (p : printing A) : M (world E) A :=
  '(t, a) ← lift p;
  printf t;;
  mret a.
End Print.

(** ** net_private.c *)
Section NetPrivate.
Context {L : Lwip}.
Definition net_sprint_ipv4_addr (addr : option bytes) : outcome bytes :=
  match addr with Some a => mret (ip4addr_ntoa a) | None => Fault AssertionFailed end.
Definition net_sprint_ipv6_addr (addr : option bytes) : outcome bytes :=
  match addr with Some a => mret (ip6addr_ntoa a) | None => Fault AssertionFailed end.
End NetPrivate.

(** ** Text in a trace *)
Definition prints (t : bytes) : list event :=
  match t with [] => [] | _ => [Event (Printf t) tt] end.

Fixpoint printed (tr : list event) : bytes :=
  match tr with
  | [] => []
  | Event (Printf t) _ :: tr' => t ++ printed tr'
  | _ :: tr' => printed tr'
  end.

Lemma printed_app tr1 tr2 : printed (tr1 ++ tr2) = printed tr1 ++ printed tr2.
Proof. induction tr1 as [|[[] r] tr1 IH]; cbn; rewrite ?IH; try done. by rewrite app_assoc. Qed.
Lemma printed_prints t : printed (prints t) = t.
Proof. destruct t; [done|]. cbn. by rewrite app_nil_r. Qed.
#[export] Hint Rewrite printed_app printed_prints : zperf.

(** ** Rules *)
Section Rules.
Context {E : Type} `{!Env E}.
Implicit Types w : world E.

(** The world after some text. *)
Definition env_printed (t : bytes) (e : E) : E :=
  match t with [] => e | _ => snd (answer (Printf t) e) end.
Definition after_text (t : bytes) (w : world E) : world E :=
  World (glob w) (env_printed t (env w)) (trace w ++ prints t).

Lemma wp_printf md t (Q : unit -> world E -> Prop) w : Q tt (after_text t w) -> wp md (printf t) Q w.
Proof.
  intros HQ. unfold printf, after_text, env_printed, prints in *. destruct t as [|c t].
  - apply wp_ret. rewrite app_nil_r in HQ. by destruct w.
  - apply (wp_trigger md (Printf (c :: t))). intros [] e Ha. rewrite Ha in HQ. exact HQ.
Qed.
Lemma wp_say {A} md (p : printing A) t a (Q : A -> world E -> Prop) w :
  p = Done (t, a) -> Q a (after_text t w) -> wp md (say p) Q w.
Proof.
  intros -> HQ. unfold say. apply wp_bind. eapply wp_lift; [reflexivity|].
  apply wp_bind, wp_printf, wp_ret. exact HQ.
Qed.

Lemma only_printf P t : (forall t, P (Event (Printf t) tt)) -> only P (printf (E := E) t).
Proof.
  intros HP. unfold printf. destruct t; [apply only_ret|].
  apply (only_trigger P (Printf _)). intros []. apply HP.
Qed.
Lemma only_say {A} P (p : printing A) :
  (forall t, P (Event (Printf t) tt)) -> only P (say (E := E) p).
Proof.
  intros HP. unfold say. apply only_bind; [apply only_lift|]. intros [t a].
  apply only_bind; [by apply only_printf|]. intros []. apply only_ret.
Qed.
Lemma keeps_printf {B} (obs : globals -> B) t : keeps (E := E) obs (printf t).
Proof. unfold printf. destruct t; [apply keeps_ret|apply (keeps_trigger obs (Printf _))]. Qed.
Lemma keeps_say {A B} (obs : globals -> B) (p : printing A) : keeps (E := E) obs (say p).
Proof. unfold say. keeps_step; [apply keeps_lift|destruct a as [t a]]. keeps_step; [apply keeps_printf|]. apply keeps_ret. Qed.
Lemma printf_no_socket t : only no_socket (printf (E := E) t).
Proof. by apply only_printf. Qed.
Lemma say_no_socket {A} (p : printing A) : only no_socket (say (E := E) p).
Proof. by apply only_say. Qed.
End Rules.
#[export] Hint Resolve keeps_printf keeps_say printf_no_socket say_no_socket : zperf.

(** Runs a bind of [printing] whose first part is a value. *)
Ltac print_step :=
  unfold quiet; cbn [mbind mret printing_bind printing_ret outcome_bind outcome_ret print app].
