(* ===== verification/Common.v ===== *)
(** zperf_common.c and zephyr/net/net_if.c: the local addresses, the upload
    socket and the duration of a packet. *)
From S2P Require Import Prelude CInt Platform CString Kernel NetIp Session World Environment.
Import Stdlib.Strings.String.StringSyntax.
Open Scope Z_scope.

(** zperf_internal.h, config.h. *)
Definition MY_SRC_PORT : Z := 50000.
Definition DEF_PORT : Z := 5001.
Definition PACKET_SIZE_MAX : Z := 1024.
Definition MY_IP4ADDR : bytes := text "192.168.0.2".
Definition MY_IP6ADDR : bytes := text "2001:db8::1".
Definition MY_PREFIX_LEN_STR : bytes := text "64".
(** Not defined in config.h. *)
Definition CONFIG_NET_CONTEXT_PRIORITY : bool := false.
Definition CONFIG_NET_ALLOW_ANY_PRIORITY : bool := false.
Definition NET_MAX_PRIORITIES : Z := 8.
Definition SO_PRIORITY : Z := 12.

Section Common.
Context {L : Lwip} {R : Rtos} {E : Type} `{!Env E}.
Abbreviation W := (world E).

(** The initialisers of [in4_addr_my] and [in6_addr_my]. *)
Definition init_sin (p : Z) : outcome bytes :=
  a ← set_sa_family AF_INET (memset 0 sizeof_sockaddr_in);
  set_sin_port (htons p) a.
Definition init_sin6 (p : Z) : outcome bytes :=
  a ← set_sa_family AF_INET6 (memset 0 sizeof_sockaddr_in6);
  set_sin6_port (htons p) a.

(** The static variables before [main]: zero, but for the addresses. *)
Definition static_server : server :=
  Server None 0 false false 0 (memset 0 sizeof_sockaddr_storage) (KSem None 0 1).
Definition static_ctx : async_ctx :=
  AsyncCtx (KWork None None 0)
    (UploadParams (memset 0 sizeof_sockaddr_storage) 0 0 0 0 0 0) None 0.
Definition static_globals : outcome globals :=
  sin ← init_sin MY_SRC_PORT;
  sin6 ← init_sin6 MY_SRC_PORT;
  dst ← init_sin DEF_PORT;
  dst6 ← init_sin6 DEF_PORT;
  mret (Globals static_table sin sin6 static_server static_server
          (replicate (SESSION_MAX + 2) (Pollfd 0 0 0))
          (replicate (SESSION_MAX + 2) (memset 0 sizeof_sockaddr_storage))
          (memset 0 (12 + 24 + Z.to_nat PACKET_SIZE_MAX)) (memset 0 (Z.to_nat PACKET_SIZE_MAX))
          static_ctx static_ctx (ShellAddrs sin6 dst6 dst sin (memset 0 16) (memset 0 4))).

(** net_if.c. The result tells whether the returned pointer is not [NULL]. *)
Definition net_if_ipv4_addr_add (addr : bytes) : M W bool :=
  trigger (NetifSetAddr addr);; mret true.

Definition net_if_ipv6_addr_add (addr : bytes) : M W bool :=
  '(r, _) ← trigger (NetifAddIp6Address addr); mret (r =? ERR_OK).

(** Its four parameters are not used and the result is a static object. *)
Definition net_if_ipv6_prefix_add (addr : bytes) (prefix_len : Z) : M W bool := mret true.

(** The result and the bytes written to [*addr]. *)
Definition zperf_get_ipv4_addr (host : option bytes) : M W (Z * option bytes) :=
  match host with
  | None => mret (- EINVAL, None)
  | Some host =>
      let '(ret, written) := net_addr_pton AF_INET host in
      if ret <? 0 then mret (- EINVAL, written) else
      ifaddr ← net_if_ipv4_addr_add (default [] written);
      if negb ifaddr then mret (- EINVAL, written) else mret (0, written)
  end.

Definition zperf_get_ipv6_addr (host : option bytes) (prefix_str : bytes)
    : M W (Z * option bytes) :=
  match host with
  | None => mret (- EINVAL, None)
  | Some host =>
      let '(ret, written) := net_addr_pton AF_INET6 host in
      if ret <? 0 then mret (- EINVAL, written) else
      let prefix_len := fst (strtoul prefix_str 10) in
      ifaddr ← net_if_ipv6_addr_add (default [] written);
      if negb ifaddr then mret (- EINVAL, written) else
      prefix ← net_if_ipv6_prefix_add (default [] written) prefix_len;
      if negb prefix then mret (- EINVAL, written) else mret (0, written)
  end.

(** The [switch] on the peer's family: the new socket, or the code to return. *)
Definition open_upload_sock (family tos type proto : Z) : M W (Z + Z) :=
  if family =? AF_INET then
    if negb CONFIG_NET_IPV4 then mret (inr (- EINVAL)) else
    sock ← trigger (LwipSocket AF_INET type proto);
    if sock <? 0 then e ← get_errno; mret (inr (- e)) else
    (if tos >? 0
     then trigger (LwipSetsockopt sock IPPROTO_IP IP_TOS [tos]);; mret tt
     else mret tt);;
    mret (inl sock)
  else if family =? AF_INET6 then
    if negb CONFIG_NET_IPV6 then mret (inr (- EINVAL)) else
    sock ← trigger (LwipSocket AF_INET6 type proto);
    if sock <? 0 then e ← get_errno; mret (inr (- e)) else mret (inl sock)
  else mret (inr (- EINVAL)).

Definition zperf_prepare_upload_sock (peer_addr : bytes) (tos priority proto : Z) : M W Z :=
  family ← lift (sa_family peer_addr);
  let addrlen := if family =? AF_INET6 then sizeof_sockaddr_in6 else sizeof_sockaddr_in in
  let type := if proto =? IPPROTO_UDP then SOCK_DGRAM else SOCK_STREAM in
  r ← open_upload_sock family tos type proto;
  match r with
  | inr e => mret e
  | inl sock =>
      bad ← (if CONFIG_NET_CONTEXT_PRIORITY && (0 <=? priority) then
               let prio := u8 priority in
               if negb CONFIG_NET_ALLOW_ANY_PRIORITY && (NET_MAX_PRIORITIES <=? prio)
               then mret true
               else r ← trigger (LwipSetsockopt sock SOL_SOCKET SO_PRIORITY [prio]);
                    mret (negb (r =? 0))
             else mret false);
      if bad : bool then mret (- EINVAL) else
      name ← lift (read_at 0 addrlen peer_addr);
      ret ← trigger (LwipConnect sock name);
      if ret <? 0 then
        e ← get_errno;
        trigger (LwipClose sock);;
        mret (- e)
      else mret sock
  end.

Definition zperf_packet_duration (packet_size rate_in_kbps : Z) : outcome Z :=
  d ← c_div (u64 (u64 (u32 packet_size) * 8 * USEC_PER_SEC)) (u32 (rate_in_kbps * 1024));
  mret (u32 d).
End Common.

(** The statics under the example layout, and a world to run examples in. *)
Definition example_globals : globals :=
  Eval vm_compute in
    match static_globals (L := lwip_example) with
    | Done g => g
    | _ => Globals static_table [] [] (static_server (L := lwip_example))
             (static_server (L := lwip_example)) [] [] [] []
             (static_ctx (L := lwip_example)) (static_ctx (L := lwip_example))
             (ShellAddrs [] [] [] [] [] [])
    end.
Definition example_world (script : list reply) : world (list reply) :=
  World example_globals script [].

(** ** The calls of a client

    During an upload, and in all. *)
Definition upload_event (ev : event) : Prop :=
  match ev with
  | Event (LwipSend _ _ _) _ | Event (LwipRecv _ _ _) _ | Event (LwipSetsockopt _ _ _ _) _
  | Event Errno _ | Event TaskGetTickCount _ | Event (TaskDelay _) _ | Event TaskYield _ => True
  | _ => False
  end.
Definition client_event (ev : event) : Prop :=
  match ev with
  | Event (LwipSocket _ _ _) _ | Event (LwipConnect _ _) _ | Event (LwipClose _) _ => True
  | _ => upload_event ev
  end.

Lemma upload_client ev : upload_event ev -> client_event ev.
Proof. by destruct ev as [[] r]. Qed.
Lemma upload_no_socket ev : upload_event ev -> no_socket ev.
Proof. by destruct ev as [[] r]. Qed.

Lemma prepare_events {L : Lwip} {E : Type} `{!Env E} p tos prio proto :
  only client_event (zperf_prepare_upload_sock (E := E) p tos prio proto).
Proof. unfold zperf_prepare_upload_sock, open_upload_sock, get_errno. by only_steps. Qed.
#[export] Hint Resolve prepare_events : zperf.

(** ** The upload socket *)
Section UploadSocket.
Context {L : Lwip} {R : Rtos} {E : Type} `{!Env E, !ErrnoOk E}.
Implicit Types w : world E.

(** The descriptor [r] was opened between two worlds, and no other; at no
    moment was there more than one. *)
Definition opened (r : Z) (w w' : world E) : Prop :=
  (forall f, 0 <= f -> balance f (trace w') = balance f (trace w) + (if r =? f then 1 else 0)) /\
  exists tr, trace w' = trace w ++ tr /\ net tr = (if 0 <=? r then 1 else 0) /\ peak tr <= 1.

Lemma opened_emit r w w' c (x : resp c) e r' :
  opened r w w' ->
  (forall f, 0 <= f -> (if r' =? f then 1 else 0) = (if r =? f then 1 else 0) + opens f (Event c x)) ->
  (if 0 <=? r' then 1 else 0) = (if 0 <=? r then 1 else 0) + gained (Event c x) ->
  opened r' w (emit c x e w').
Proof.
  intros [H (tr & Htr & Hn & Hp)] Ho Hg. cbn [trace emit]. split.
  - intros f Hf. cbn [trace emit]. rewrite balance_app, H, Ho by done. cbn. lia.
  - exists (tr ++ [Event c x]). cbn [trace emit]. rewrite Htr, app_assoc. split; [done|].
    rewrite net_app, peak_app. change (net [Event c x]) with (gained (Event c x) + 0).
    change (peak [Event c x]) with (Z.max 0 (gained (Event c x) + 0)).
    destruct (0 <=? r), (0 <=? r'); lia.
Qed.

Lemma opened_same r w w' c (x : resp c) e :
  opened r w w' -> (forall f, opens f (Event c x) = 0) -> opened r w (emit c x e w').
Proof.
  intros H Ho. eapply opened_emit; [exact H|intros f _; rewrite Ho; lia|].
  rewrite (gained_no_socket (Event c x) Ho). lia.
Qed.

(** Calls that neither open nor close a socket. *)
Lemma opened_quiet r w w' w'' evs :
  opened r w w' -> trace w'' = trace w' ++ evs -> Forall no_socket evs -> opened r w w''.
Proof.
  intros [H (tr & Htr & Hn & Hp)] Ht He. destruct (net_no_socket evs He) as [Hn' Hp']. split.
  - intros f Hf. rewrite Ht, balance_app, (balance_no_socket f evs He), H by done. lia.
  - exists (tr ++ evs). rewrite Ht, Htr, app_assoc, net_app, peak_app. split; [done|].
    destruct (0 <=? r); lia.
Qed.

Lemma wp_errno {B} w w' (k : Z -> M (world E) B) Q :
  opened (-1) w w' ->
  (forall e w'', 0 < e -> opened (- e) w w'' -> wp Partial (k e) Q w'') ->
  wp Partial (get_errno ≫= k) Q w'.
Proof.
  intros H HQ. apply wp_bind, (wp_trigger _ Errno). intros e e' He.
  pose proof (errno_ok (env w')) as Hpos. rewrite He in Hpos. cbn in Hpos. apply HQ; [done|].
  apply (opened_emit (-1)); [done| |cbn; destruct (Z.leb_spec 0 (- e)); lia]. intros f Hf. cbn.
  destruct (Z.eqb_spec (- e) f), (Z.eqb_spec (-1) f); lia.
Qed.

Lemma opened_refl w : opened (-1) w w.
Proof.
  split; [intros f Hf; destruct (Z.eqb_spec (-1) f); lia|]. exists []. by rewrite app_nil_r.
Qed.

Lemma opened_negative r r' w w' : opened r w w' -> r < 0 -> r' < 0 -> opened r' w w'.
Proof.
  intros [H Htr] Hr Hr'. split.
  - intros f Hf. rewrite H by done. destruct (Z.eqb_spec r f), (Z.eqb_spec r' f); lia.
  - destruct (Z.leb_spec 0 r), (Z.leb_spec 0 r'); [lia..|exact Htr].
Qed.

Lemma opened_none r w w1 w' evs :
  trace w1 = trace w ++ evs -> Forall no_socket evs -> opened r w1 w' -> opened r w w'.
Proof.
  intros Ht He [H (tr & Htr & Hn & Hp)]. destruct (net_no_socket evs He) as [Hn' Hp']. split.
  - intros f Hf. rewrite H, Ht, balance_app, (balance_no_socket f evs He) by done. lia.
  - exists (evs ++ tr). rewrite Htr, Ht, app_assoc, net_app, peak_app. split; [done|]. lia.
Qed.

(** The sockets of a call that closes what it opens. *)
Lemma opened_closed r w w' :
  opened r w w' -> r < 0 ->
  (forall f, 0 <= f -> balance f (trace w') = balance f (trace w)) /\ at_most 1 w w'.
Proof.
  intros [H (tr & Htr & _ & Hp)] Hr. split; [|by exists tr].
  intros f Hf. rewrite H by done. destruct (Z.eqb_spec r f); lia.
Qed.

Lemma open_upload_sock_opens family tos type proto w :
  0 < EINVAL ->
  wp Partial (open_upload_sock family tos type proto)
    (fun r w' => match r with
                 | inl sock => 0 <= sock /\ opened sock w w'
                 | inr e => e < 0 /\ opened e w w'
                 end) w.
Proof.
  intros HE. unfold open_upload_sock. cbn [CONFIG_NET_IPV4 CONFIG_NET_IPV6 negb].
  assert (Hsock : forall d sock e,
            opened sock w (emit (LwipSocket d type proto) sock e w) /\
            (sock < 0 -> opened (-1) w (emit (LwipSocket d type proto) sock e w))).
  { intros d sock e.
    assert (H : forall r, (sock < 0 /\ r = -1 \/ r = sock) ->
              opened r w (emit (LwipSocket d type proto) sock e w)).
    { intros r Hr. apply (opened_emit (-1)); [apply opened_refl|intros f Hf|]; cbn.
      - destruct (Z.eqb_spec r f), (Z.eqb_spec (-1) f), (Z.eqb_spec sock f), (Z.leb_spec 0 sock);
          cbn; lia.
      - destruct (Z.leb_spec 0 r), (Z.leb_spec 0 sock); lia. }
    split; [apply H; lia|]. intros. apply H. lia. }
  destruct (family =? AF_INET); [|destruct (family =? AF_INET6)].
  - apply wp_bind. wp_call sock e. destruct (Hsock AF_INET sock e) as [H1 H2].
    destruct (Z.ltb_spec sock 0) as [Hs|Hs].
    + apply (wp_errno w); [by apply H2|]. intros e' w' He H. apply wp_ret. split; [lia|done].
    + apply wp_bind. eapply (wp_mono _ _ (fun _ w' => opened sock w w')).
      * destruct (tos >? 0); [|by apply wp_ret]. apply wp_bind.
        apply (wp_trigger _ (LwipSetsockopt _ _ _ _)). intros r e' _. apply wp_ret.
        by apply opened_same.
      * intros u w' H. by apply wp_ret.
  - apply wp_bind. wp_call sock e. destruct (Hsock AF_INET6 sock e) as [H1 H2].
    destruct (Z.ltb_spec sock 0) as [Hs|Hs]; [|by apply wp_ret].
    apply (wp_errno w); [by apply H2|]. intros e' w' He H. apply wp_ret. split; [lia|done].
  - apply wp_ret. split; [lia|]. apply (opened_negative (-1)); [apply opened_refl|lia..].
Qed.

(** The socket of an upload: opened when the result is not negative, and closed
    again when it is. *)
Lemma prepare_upload_sock_opens peer tos priority proto w :
  0 < EINVAL ->
  wp Partial (zperf_prepare_upload_sock peer tos priority proto) (fun r w' => opened r w w') w.
Proof.
  intros HE. unfold zperf_prepare_upload_sock. apply wp_bind, wp_lift_partial. intros family _.
  cbv zeta. apply wp_bind. eapply wp_mono; [by apply open_upload_sock_opens|].
  intros [sock|e] w1; [|intros [_ H]; by apply wp_ret]. intros [Hs H].
  cbn [CONFIG_NET_CONTEXT_PRIORITY andb]. apply wp_bind, wp_ret. cbn beta iota.
  apply wp_bind, wp_lift_partial. intros name _. apply wp_bind.
  apply (wp_trigger _ (LwipConnect sock name)). intros ret e _. cbn in ret.
  assert (H1 : opened sock w (emit (LwipConnect sock name) ret e w1)) by by apply opened_same.
  destruct (ret <? 0); [|by apply wp_ret]. set (w2 := emit _ _ _ _) in *. clearbody w2.
  apply wp_bind, (wp_trigger _ Errno). intros err e2 Herr.
  pose proof (errno_ok (env w2)) as Hpos. rewrite Herr in Hpos. cbn in Hpos.
  apply wp_bind. wp_call u e3. apply wp_ret.
  eapply opened_emit; [by apply opened_same|intros f Hf|]; cbn.
  - destruct (Z.eqb_spec (- err) f), (Z.eqb_spec sock f); lia.
  - destruct (Z.leb_spec 0 (- err)), (Z.leb_spec 0 sock); lia.
Qed.

(** An upload that has opened its socket, used it and closed it. *)
Lemma opened_used sock r w w1 w2 evs e w' :
  opened sock w w1 -> 0 <= sock -> trace w2 = trace w1 ++ evs -> Forall no_socket evs ->
  w' = emit (LwipClose sock) r e w2 ->
  (forall f, 0 <= f -> balance f (trace w') = balance f (trace w)) /\ at_most 1 w w'.
Proof.
  intros H Hs Htr He ->. apply (opened_closed (-1)); [|lia].
  eapply opened_emit; [by eapply opened_quiet|intros f Hf|]; cbn.
  - destruct (Z.eqb_spec (-1) f), (Z.eqb_spec sock f); lia.
  - destruct (Z.leb_spec 0 sock); lia.
Qed.
End UploadSocket.

(** C36: the time between two packets of an upload. It is the number of
    microseconds [packet_size] bytes take at [rate_in_kbps] units of 1024 bits
    per second, rounded down, for every rate below 2^22; a larger rate is
    reduced modulo 2^22 first, so that the multiples of 2^22, as the rate 0,
    divide by zero. *)
Theorem zperf_packet_duration_spec packet_size rate_in_kbps :
  0 <= packet_size < 4294967296 -> 0 <= rate_in_kbps < 4294967296 ->
  (rate_in_kbps mod 4194304 = 0 ->
     zperf_packet_duration packet_size rate_in_kbps = Fault DivisionByZero) /\
  (rate_in_kbps mod 4194304 <> 0 ->
     zperf_packet_duration packet_size rate_in_kbps =
       Done (u32 (packet_size * 8 * 1000000 / (rate_in_kbps mod 4194304 * 1024)))) /\
  (0 < rate_in_kbps < 4194304 -> packet_size <= PACKET_SIZE_MAX ->
     exists d, zperf_packet_duration packet_size rate_in_kbps = Done d /\
       d * (rate_in_kbps * 1024) <= packet_size * 8 * 1000000 < (d + 1) * (rate_in_kbps * 1024)).
Proof.
  intros Hs Hr.
  assert (Hmod : u32 (rate_in_kbps * 1024) = rate_in_kbps mod 4194304 * 1024).
  { unfold u32. change 4294967296 with (4194304 * 1024). by rewrite Z.mul_mod_distr_r by lia. }
  assert (Hnum : u64 (u64 (u32 packet_size) * 8 * USEC_PER_SEC) = packet_size * 8 * 1000000).
  { change USEC_PER_SEC with 1000000. rewrite u32_small, (u64_small packet_size), u64_small by lia.
    done. }
  assert (Hd : rate_in_kbps mod 4194304 <> 0 ->
     zperf_packet_duration packet_size rate_in_kbps =
       Done (u32 (packet_size * 8 * 1000000 / (rate_in_kbps mod 4194304 * 1024)))).
  { intros Hne. unfold zperf_packet_duration, c_div. rewrite Hmod, Hnum.
    destruct (Z.eqb_spec (rate_in_kbps mod 4194304 * 1024) 0) as [H|_]; [lia|].
    cbn. by rewrite Z.quot_div_nonneg by lia. }
  split; [|split; [exact Hd|]].
  - intros H0. unfold zperf_packet_duration, c_div. by rewrite Hmod, H0.
  - intros Hr' Hsize. change PACKET_SIZE_MAX with 1024 in Hsize. rewrite Z.mod_small in Hd by lia.
    eexists. split; [apply Hd; lia|].
    set (b := rate_in_kbps * 1024) in *. set (a := packet_size * 8 * 1000000) in *.
    assert (0 < b) by lia. pose proof (Z.div_mod a b ltac:(lia)).
    pose proof (Z.mod_pos_bound a b ltac:(lia)).
    assert (0 <= a / b) by (apply Z.div_pos; lia).
    assert (a / b <= a) by (apply Z.div_le_upper_bound; nia).
    rewrite u32_small; [nia|]. 
    assert (a / b <= a / 1024) by (apply Z.div_le_compat_l; lia).
    assert (a / 1024 < 4294967296) by (apply Z.div_lt_upper_bound; lia). lia.
Qed.

Lemma zperf_packet_duration_spec_witness :
  zperf_packet_duration 1000 4194304 = Fault DivisionByZero /\
  exists d, zperf_packet_duration 1000 800 = Done d /\ d * 819200 <= 8000000000 < (d + 1) * 819200.
Proof.
  split.
  - apply (zperf_packet_duration_spec 1000 4194304); [lia|lia|reflexivity].
  - apply (zperf_packet_duration_spec 1000 800); [lia|lia|lia|discriminate].
Defined.
