(* ===== verification/Server.v ===== *)
(** What the UDP and the TCP server share: sessions through a pointer, the
    [pollfd] array, semaphores (zephyr/thread.c) and the start and stop
    requests, which the two receivers write in the same way. *)
From S2P Require Import Prelude CInt Platform CString Kernel NetIp Session World Common.
Open Scope Z_scope.

Definition POLL_TIMEOUT_MS : Z := 100.

(** ** [struct pollfd] *)
Definition no_fd : pollfd := Pollfd (-1) 0 0.
Definition set_fd (v : Z) (p : pollfd) : pollfd := Pollfd v (events p) (revents p).
Definition set_events (v : Z) (p : pollfd) : pollfd := Pollfd (fd p) v (revents p).
Definition set_revents (v : Z) (p : pollfd) : pollfd := Pollfd (fd p) (events p) v.

(** [zsock_poll] stores the [revents] of every entry. *)
Definition store_revents (fds : list pollfd) (rs : list Z) : list pollfd :=
  imap (fun i p => set_revents (default 0 (rs !! i)) p) fds.

Definition has_bit (v mask : Z) : bool := negb (Z.land v mask =? 0).

(** ** The server's variables *)
Definition set_running (v : bool) (s : server) : server :=
  Server (session_cb s) (user_data s) v (server_stop s) (server_port s) (server_addr s)
    (server_run s).

Definition set_server_run (k : k_sem) (s : server) : server :=
  Server (session_cb s) (user_data s) (server_running s) (server_stop s) (server_port s)
    (server_addr s) k.

Definition server_stop_request (s : server) : server :=
  Server None (user_data s) (server_running s) true (server_port s) (server_addr s)
    (server_run s).

Section Server.
Context {L : Lwip} {R : Rtos} {E : Type} `{!Env E}.
Abbreviation W := (world E).

(** Access through a [struct session *]. *)
Definition load_session (p : session_proto) (i : nat) : M W session :=
  t ← get_glob sessions;
  match row p t !! i with
  | Some s => mret s
  | None => fail OutOfBounds
  end.
Definition store_session (p : session_proto) (i : nat) (s : session) : M W unit :=
  t ← get_glob sessions;
  upd_glob (set_sessions (set_row p (<[i := s]> (row p t)) t)).

Definition find_session (addr : bytes) (p : session_proto) : M W (option nat) :=
  t ← get_glob sessions;
  '(r, t) ← lift (get_session addr p t);
  upd_glob (set_sessions t);;
  mret r.

(** What [zperf_udp_download] stores: only [sizeof(struct sockaddr)] bytes of
    the address are copied. *)
Definition server_start (param : zperf_download_params) (cb : callback) (ud : Z) (s : server)
    : outcome server :=
  addr ← memcpy (server_addr s) 0 (dp_addr param) 0 (Z.of_nat sizeof_sockaddr);
  mret (Server (Some cb) ud true false (dp_port param) addr (server_run s)).

(** ** thread.c: a [NULL] handle is a fault in FreeRTOS *)
Definition k_sem_init (sem : k_sem) (initial max : Z) : M W k_sem :=
  h ← trigger (SemaphoreCreateCounting max initial);
  match h with
  | None => fail AssertionFailed
  | Some h => mret (KSem (Some h) (initial_count sem) (max_count sem))
  end.

Definition k_sem_take (sem : k_sem) : M W unit :=
  match semaphore_handle sem with
  | None => fail NullPointer
  | Some h => trigger (SemaphoreTake h)
  end.

Definition k_sem_give (sem : k_sem) : M W unit :=
  match semaphore_handle sem with
  | None => fail NullPointer
  | Some h => trigger (SemaphoreGive h)
  end.
End Server.

(** ** Requests of other tasks, while a session runs *)
Inductive request : Set :=
| RequestStart (param : option zperf_download_params) (cb : option callback) (ud : Z)
| RequestStop.

Section Requests.
Context {E : Type} `{!Env E}.
Implicit Types (w : world E) (srv : server).

(** The requests that arrive at some moment, whatever it is. *)
Fixpoint handle_all (handle : request -> M (world E) unit) (rs : list request) : M (world E) unit :=
  match rs with
  | [] => mret tt
  | r :: rs => handle r;; handle_all handle rs
  end.
Definition requests (handle : request -> M (world E) unit) (arrive : world E -> list request)
    : M (world E) unit :=
  rs ← gets arrive; handle_all handle rs.
Definition nobody : M (world E) unit := mret tt.

(** A server, or the same asked to stop. *)
Definition asked srv srv' : Prop := srv' = srv \/ srv' = server_stop_request srv.

(** All that happens to the server [srv] is that it is asked to stop. *)
Definition only_stops (get : globals -> server) (put : server -> globals -> globals) srv
    (others : M (world E) unit) : Prop :=
  forall w, asked srv (get (glob w)) ->
    wp Total others (fun _ w' => w' = w \/ w' = with_glob (put (server_stop_request srv)) w) w.

Lemma asked_stop srv srv' : asked srv srv' -> server_stop_request srv' = server_stop_request srv.
Proof. by intros [->| ->]. Qed.
Lemma asked_serving srv srv' : asked srv srv' -> server_stop srv' = false -> srv' = srv.
Proof. by intros [->| ->]. Qed.

Lemma nobody_stops get put srv : only_stops get put srv nobody.
Proof. intros w _. apply wp_ret. by left. Qed.

(** The requests of a server that runs. *)
Lemma requests_stop get put handle arrive srv :
  (forall s g, get (put s g) = s) -> (forall s g, put s (put s g) = put s g) ->
  (forall r, only_stops get put srv (handle r)) -> only_stops get put srv (requests handle arrive).
Proof.
  intros Hgp Hpp Hr w Hw. unfold requests. apply wp_bind, wp_gets. generalize (arrive w). clear arrive.
  intros rs. revert w Hw. induction rs as [|r rs IH]; intros w Hw; cbn [handle_all].
  { apply wp_ret. by left. }
  apply wp_bind. eapply wp_mono; [by apply Hr|]. intros _ w1 [->| ->]; [by apply IH|].
  eapply wp_mono; [apply IH; cbn [glob with_glob]; rewrite Hgp; by right|].
  intros _ w2 [->| ->]; right; [done|]. unfold with_glob. cbn [glob env trace]. by rewrite Hpp.
Qed.
Lemma only_requests P handle arrive : (forall r, only P (handle r)) -> only P (requests handle arrive).
Proof.
  intros Hr. unfold requests. apply only_bind; [by apply only_pure|]. intros rs.
  induction rs as [|r rs IH]; cbn [handle_all]; [by only_steps|]. by apply only_bind.
Qed.
Lemma keeps_requests {B} (obs : globals -> B) handle arrive :
  (forall r, keeps obs (handle r)) -> keeps obs (requests handle arrive).
Proof.
  intros Hr. unfold requests. apply keeps_bind; [done|]. intros rs.
  induction rs as [|r rs IH]; cbn [handle_all]; [by keeps_steps|]. by apply keeps_bind.
Qed.
End Requests.

(** ** Rules: running on a world given by its session table

    [on g t e tr]: the statics [g] with table [t], environment [e], trace [tr]. *)
Section Rules.
Context {L : Lwip} {R : Rtos} {E : Type} `{!Env E}.

Definition on (g : globals) (t : table) (e : E) (tr : list event) : world E :=
  World (set_sessions t g) e tr.

Lemma world_on (w : world E) : w = on (glob w) (sessions (glob w)) (env w) (trace w).
Proof. by destruct w as [[] ? ?]. Qed.

Lemma wp_find_session md addr p r t' Q g t e tr :
  get_session addr p t = Done (r, t') -> Q r (on g t' e tr) ->
  wp md (find_session addr p) Q (on g t e tr).
Proof. intros Hget HQ. unfold wp, find_session, mbind, M_bind, lift, on. cbn. by rewrite Hget. Qed.

Lemma wp_load_session md p i s Q g t e tr :
  row p t !! i = Some s -> Q s (on g t e tr) -> wp md (load_session p i) Q (on g t e tr).
Proof. intros Hi HQ. unfold wp, load_session, mbind, M_bind. cbn. by rewrite Hi. Qed.

Lemma wp_find_session_partial addr p (Q : option nat -> world E -> Prop) g t e tr :
  (forall r t', get_session addr p t = Done (r, t') -> Q r (on g t' e tr)) ->
  wp Partial (find_session addr p) Q (on g t e tr).
Proof.
  intros HQ. unfold wp, find_session, mbind, M_bind, lift, on. cbn.
  destruct (get_session addr p t) as [[r t']| |] eqn:Hget; [by apply HQ|done..].
Qed.

Lemma wp_load_session_partial p i (Q : session -> world E -> Prop) g t e tr :
  (forall s, row p t !! i = Some s -> Q s (on g t e tr)) ->
  wp Partial (load_session p i) Q (on g t e tr).
Proof.
  intros HQ. unfold wp, load_session, mbind, M_bind, on. cbn.
  destruct (row p t !! i) as [s|] eqn:Hi; [by apply HQ|done].
Qed.

Lemma wp_store_session md p i s (Q : unit -> world E -> Prop) g t e tr :
  Q tt (on g (set_row p (<[i := s]> (row p t)) t) e tr) ->
  wp md (store_session p i s) Q (on g t e tr).
Proof. done. Qed.

Lemma wp_clock md Q g t e tr :
  (forall time e', answer TaskGetTickCount e = (time, e') ->
    Q (u32 time) (on g t e' (tr ++ [Event TaskGetTickCount time]))) ->
  wp md k_uptime_ticks Q (on g t e tr).
Proof.
  intros HQ. unfold wp, k_uptime_ticks, mbind, M_bind, trigger, on. cbn.
  destruct (answer TaskGetTickCount e) as [time e'] eqn:Ha. by apply HQ.
Qed.

Lemma wp_notify_on md (srv : globals -> server) st r (Q : unit -> world E -> Prop) g t e tr :
  (forall e', Q tt (on g t e' (tr ++ notified (srv (set_sessions t g)) st r))) ->
  wp md (notify srv st r) Q (on g t e tr).
Proof. intros HQ. apply wp_notify. intros e'. apply HQ. Qed.
End Rules.

(** ** Sockets *)
Section Sockets.
Context {L : Lwip} {R : Rtos} {E : Type} `{!Env E}.
Implicit Types w : world E.

Lemma held_alter f i v fds p :
  fds !! i = Some p -> held f (alter (set_fd v) i fds) =
    held f fds - (if fd p =? f then 1 else 0) + (if v =? f then 1 else 0).
Proof.
  revert i. induction fds as [|q fds IH]; intros [|i]; cbn; [done..|intros [= ->]|].
  - fold (held f fds). cbn. lia.
  - intros Hi. fold (held f fds). fold (held f (alter (set_fd v) i fds)). rewrite (IH _ Hi). lia.
Qed.

Lemma held_ext f fds fds' : fd <$> fds = fd <$> fds' -> held f fds = held f fds'.
Proof.
  revert fds'. induction fds as [|p fds IH]; intros [|q fds']; cbn; [done..|].
  intros [= H1 H2]. fold (held f fds) (held f fds'). by rewrite H1, (IH _ H2).
Qed.

Lemma fd_alter (h : pollfd -> pollfd) v i (fds : list pollfd) :
  (forall q, fd (h q) = v) -> fd <$> alter h i fds = <[i := v]> (fd <$> fds).
Proof.
  intros Hh. revert i. induction fds as [|p fds IH]; intros [|i]; cbn; [done..| |].
  - by rewrite Hh.
  - f_equal. apply IH.
Qed.

Lemma fd_alter_events v i (fds : list pollfd) : fd <$> alter (set_events v) i fds = fd <$> fds.
Proof. revert i. induction fds as [|p fds IH]; intros [|i]; cbn; f_equal; done. Qed.

Lemma fd_store_revents (fds : list pollfd) rs : fd <$> store_revents fds rs = fd <$> fds.
Proof.
  unfold store_revents. apply list_eq. intros i. rewrite !list_lookup_fmap, list_lookup_imap.
  by destruct (fds !! i).
Qed.

(** The descriptors of an array that are open. *)
Definition open_fds (fds : list pollfd) : list Z := filter (fun s => 0 <= s) (fd <$> fds).

Lemma used_alter i v fds p :
  fds !! i = Some p -> used (alter (set_fd v) i fds) =
    used fds - (if 0 <=? fd p then 1 else 0) + (if 0 <=? v then 1 else 0).
Proof.
  revert i. induction fds as [|q fds IH]; intros [|i]; cbn; [done..|intros [= ->]|].
  - fold (used fds). cbn. lia.
  - intros Hi. fold (used fds). fold (used (alter (set_fd v) i fds)). rewrite (IH _ Hi). lia.
Qed.

Lemma used_ext fds fds' : fd <$> fds = fd <$> fds' -> used fds = used fds'.
Proof.
  revert fds'. induction fds as [|p fds IH]; intros [|q fds']; cbn; [done..|].
  intros [= H1 H2]. fold (used fds) (used fds'). by rewrite H1, (IH _ H2).
Qed.

Lemma used_range fds : 0 <= used fds <= Z.of_nat (length fds).
Proof. induction fds as [|p fds IH]; [done|]. cbn [used foldr length]. fold (used fds). case_match; lia. Qed.

(** What the array [fds] accounts for: between two worlds, the descriptors
    opened and not closed are those the array has gained. All along, [spare]
    more than it has entries are open at most. *)
Definition accounted (spare : Z) (fds : list pollfd) (w : world E) (fds' : list pollfd) (w' : world E) : Prop :=
  length fds' = length fds /\
  (forall f, 0 <= f -> balance f (trace w') - balance f (trace w) = held f fds' - held f fds) /\
  exists tr, trace w' = trace w ++ tr /\ net tr = used fds' - used fds /\
    used fds + peak tr <= Z.of_nat (length fds) + spare.

Lemma accounted_trans spare fds1 w1 fds2 w2 fds3 w3 :
  accounted spare fds1 w1 fds2 w2 -> accounted spare fds2 w2 fds3 w3 -> accounted spare fds1 w1 fds3 w3.
Proof.
  intros (Hl1 & Hb1 & tr1 & Ht1 & Hn1 & Hp1) (Hl2 & Hb2 & tr2 & Ht2 & Hn2 & Hp2).
  split; [congruence|]. split.
  - intros f Hf. specialize (Hb1 f Hf). specialize (Hb2 f Hf). lia.
  - exists (tr1 ++ tr2). rewrite net_app, peak_app, Ht2, Ht1, app_assoc. split; [done|]. lia.
Qed.

(** Calls that open and close nothing. *)
Lemma accounted_quiet spare fds w fds' w' evs :
  0 <= spare -> fd <$> fds' = fd <$> fds -> trace w' = trace w ++ evs -> Forall no_socket evs ->
  accounted spare fds w fds' w'.
Proof.
  intros Hs Hfd Htr He. destruct (net_no_socket evs He) as [Hn Hp]. pose proof (used_range fds). split.
  { apply (f_equal length) in Hfd. by rewrite !length_fmap in Hfd. }
  split.
  - intros f _. rewrite Htr, balance_app, (balance_no_socket f evs He), (held_ext f _ _ Hfd). lia.
  - exists evs. rewrite (used_ext _ _ Hfd). split; [done|]. lia.
Qed.
Lemma accounted_refl spare fds w : 0 <= spare -> accounted spare fds w fds w.
Proof. intros Hs. apply (accounted_quiet _ _ _ _ _ []); [done..|by rewrite app_nil_r|constructor]. Qed.

(** One call that opens or closes a socket. *)
Lemma accounted_call spare fds w fds' w' ev :
  0 <= spare -> length fds' = length fds -> trace w' = trace w ++ [ev] ->
  (forall f, 0 <= f -> opens f ev = held f fds' - held f fds) -> gained ev = used fds' - used fds ->
  accounted spare fds w fds' w'.
Proof.
  intros Hs Hl Htr Ho Hg. split; [done|]. split.
  - intros f Hf. rewrite Htr, balance_app, <- Ho by done. cbn. lia.
  - pose proof (used_range fds). pose proof (used_range fds'). exists [ev]. split; [done|]. cbn.
    rewrite Hg. lia.
Qed.

(** A new descriptor stored in a slot that held none. *)
Lemma accounted_store spare fds w w' ev i p sock :
  0 <= spare -> fds !! i = Some p -> fd p < 0 -> trace w' = trace w ++ [ev] ->
  (forall f, 0 <= f -> opens f ev = if sock =? f then 1 else 0) ->
  gained ev = (if 0 <=? sock then 1 else 0) ->
  accounted spare fds w (alter (set_fd sock) i fds) w'.
Proof.
  intros Hs Hi Hp Htr Ho Hg. apply (accounted_call _ _ _ _ _ ev); [done|apply length_alter|done| |].
  - intros f Hf. rewrite Ho, (held_alter _ _ _ _ p Hi) by done. destruct (Z.eqb_spec (fd p) f); lia.
  - rewrite Hg, (used_alter _ _ _ p Hi). destruct (Z.leb_spec 0 (fd p)); lia.
Qed.

(** A socket created, and stored. *)
Lemma created_accounted spare fds i p d t pr sock e w :
  0 <= spare -> fds !! i = Some p -> fd p < 0 ->
  accounted spare fds w (alter (set_fd sock) i fds) (emit (LwipSocket d t pr) sock e w).
Proof.
  intros Hs Hi Hp. eapply (accounted_store _ _ _ _ (Event (LwipSocket d t pr) sock)); try done.
  intros f Hf. cbn. destruct (Z.eqb_spec sock f), (Z.leb_spec 0 sock); cbn; lia.
Qed.

(** The descriptors of an array, closed. *)
Definition closed (fds : list pollfd) (w w' : world E) : Prop :=
  (forall f, 0 <= f -> balance f (trace w') = balance f (trace w) - held f fds) /\
  exists tr, trace w' = trace w ++ tr /\ peak tr = 0.

Lemma closed_nil w : closed [] w w.
Proof. split; [intros f _; cbn; lia|]. exists []. by rewrite app_nil_r. Qed.
Lemma closed_cons p fds s r w e w1 w' :
  fd p = s -> 0 <= s -> trace w1 = trace (emit (LwipClose s) r e w) ->
  closed fds w1 w' -> closed (p :: fds) w w'.
Proof.
  intros <- Hs Hw1 [Hb (tr & Htr & Hp)]. rewrite Hw1 in Hb, Htr. cbn [trace emit] in Hb, Htr. split.
  - intros f Hf. rewrite Hb by done. rewrite balance_app. cbn. fold (held f fds). destruct (fd p =? f); lia.
  - exists (Event (LwipClose (fd p)) r :: tr). rewrite Htr, <- app_assoc. split; [done|].
    cbn. fold (peak tr). rewrite Hp. by destruct (0 <=? fd p).
Qed.
Lemma closed_skip p fds w w' : fd p < 0 -> closed fds w w' -> closed (p :: fds) w w'.
Proof.
  intros Hp [Hb Htr]. split; [|exact Htr]. intros f Hf. rewrite Hb by done. cbn. fold (held f fds).
  destruct (Z.eqb_spec (fd p) f); lia.
Qed.

(** A session that starts with no socket and closes those it has at the end. *)
Lemma accounted_closed spare fds0 w fds w1 w' :
  0 <= spare -> Forall (fun p => fd p < 0) fds0 -> accounted spare fds0 w fds w1 -> closed fds w1 w' ->
  (forall f, 0 <= f -> balance f (trace w') = balance f (trace w)) /\
  at_most (Z.of_nat (length fds0) + spare) w w'.
Proof.
  intros Hs H0 (Hl & Hb & tr1 & Ht1 & Hn1 & Hp1) (Hb2 & tr2 & Ht2 & Hp2).
  assert (Hu : used fds0 = 0 /\ forall f, 0 <= f -> held f fds0 = 0).
  { clear -H0. induction H0 as [|p fds Hp _ [IH1 IH2]]; [done|]. split.
    - cbn. fold (used fds). destruct (Z.leb_spec 0 (fd p)); lia.
    - intros f Hf. cbn. fold (held f fds). rewrite IH2 by done. destruct (Z.eqb_spec (fd p) f); lia. }
  destruct Hu as [Hu Hh]. pose proof (used_range fds). split.
  - intros f Hf. specialize (Hb f Hf). rewrite Hb2, Hh in * by done. lia.
  - exists (tr1 ++ tr2). rewrite Ht2, Ht1, app_assoc. split; [done|]. rewrite peak_app. lia.
Qed.

Lemma get_ipv4_no_socket host : only no_socket (zperf_get_ipv4_addr (E := E) host).
Proof. unfold zperf_get_ipv4_addr, net_if_ipv4_addr_add. by only_steps. Qed.
Lemma get_ipv6_no_socket host p : only no_socket (zperf_get_ipv6_addr (E := E) host p).
Proof. unfold zperf_get_ipv6_addr, net_if_ipv6_addr_add, net_if_ipv6_prefix_add. by only_steps. Qed.
End Sockets.
#[export] Hint Resolve get_ipv4_no_socket get_ipv6_no_socket : zperf.

(** ** Setting up the sockets *)
(** The calls that set up a socket, and the one that creates it. *)
Definition setup_event (ev : event) : Prop :=
  match ev with
  | Event (NetifSetAddr _) _ | Event (NetifAddIp6Address _) _
  | Event (LwipBind _ _) _ | Event (LwipListen _ _) _ => True
  | _ => False
  end.
Definition opening_event (ev : event) : Prop :=
  match ev with Event (LwipSocket _ _ _) _ => True | _ => setup_event ev end.
(** The sockets a trace has created. *)
Fixpoint created (tr : list event) : list Z :=
  match tr with
  | [] => []
  | Event (LwipSocket _ _ _) s :: tr' => if 0 <=? s then s :: created tr' else created tr'
  | _ :: tr' => created tr'
  end.

Lemma created_app tr1 tr2 : created (tr1 ++ tr2) = created tr1 ++ created tr2.
Proof. induction tr1 as [|[[] r] tr1 IH]; cbn; rewrite ?IH; try done. by case_match. Qed.
Lemma created_setup evs : Forall setup_event evs -> created evs = [].
Proof. induction 1 as [|[[] r] evs H _ IH]; done. Qed.
Lemma setup_opening ev : setup_event ev -> opening_event ev.
Proof. by destruct ev as [[] r]. Qed.
Lemma callbacks_closes evs (l : list Z) : calls evs = LwipClose <$> l -> callbacks evs = [].
Proof.
  revert l. induction evs as [|[c r] evs IH]; intros [|s l] H; try done.
  injection H as -> H. cbn. by eapply IH.
Qed.

Section Setup.
Context {L : Lwip} {R : Rtos} {E : Type} `{!Env E}.
Lemma get_ipv4_setup host : only setup_event (zperf_get_ipv4_addr (E := E) host).
Proof. unfold zperf_get_ipv4_addr, net_if_ipv4_addr_add. by only_steps. Qed.
Lemma get_ipv6_setup host p : only setup_event (zperf_get_ipv6_addr (E := E) host p).
Proof. unfold zperf_get_ipv6_addr, net_if_ipv6_addr_add, net_if_ipv6_prefix_add. by only_steps. Qed.
End Setup.
#[export] Hint Resolve get_ipv4_setup get_ipv6_setup : zperf.

(** ** Choosing the local address, without a fault *)
Section Choose.
Context {L : Lwip} {LOk : LwipOk L} {R : Rtos} {E : Type} `{!Env E}.
Implicit Types w : world E.

Lemma wp_write off bs m (Q : bytes -> world E -> Prop) w :
  (off + length bs <= length m)%nat ->
  (forall m', length m' = length m -> Q m' w) -> wp Total (lift (write_at off bs m)) Q w.
Proof.
  intros Hl HQ. pose proof (write_at_ok off bs m Hl) as Hw.
  eapply wp_lift; [exact Hw|]. apply HQ. by eapply write_at_length.
Qed.

Lemma wp_get_ipv4_addr md host (Q : Z * option bytes -> world E -> Prop) w :
  (forall ret written w', glob w' = glob w ->
     (forall bs, written = Some bs -> length bs = 4%nat) -> Q (ret, written) w') ->
  wp md (zperf_get_ipv4_addr (Some host)) Q w.
Proof.
  intros HQ. unfold zperf_get_ipv4_addr, net_addr_pton.
  destruct (inet_pton AF_INET host) as [r written] eqn:Hp.
  assert (Hl : forall bs, written = Some bs -> length bs = 4%nat).
  { intros bs ->. by eapply inet_pton_size_4. }
  destruct (_ <? 0); [by apply wp_ret, HQ|]. apply wp_bind. unfold net_if_ipv4_addr_add.
  apply wp_bind. wp_call u e. apply wp_ret. cbn. by apply wp_ret, HQ.
Qed.

Lemma wp_get_ipv6_addr md host prefix (Q : Z * option bytes -> world E -> Prop) w :
  (forall ret written w', glob w' = glob w ->
     (forall bs, written = Some bs -> length bs = 16%nat) -> Q (ret, written) w') ->
  wp md (zperf_get_ipv6_addr (Some host) prefix) Q w.
Proof.
  intros HQ. unfold zperf_get_ipv6_addr, net_addr_pton.
  destruct (inet_pton AF_INET6 host) as [r written] eqn:Hp.
  assert (Hl : forall bs, written = Some bs -> length bs = 16%nat).
  { intros bs ->. by eapply inet_pton_size_6. }
  destruct (_ <? 0); [by apply wp_ret, HQ|]. apply wp_bind. unfold net_if_ipv6_addr_add.
  apply wp_bind, (wp_trigger _ (NetifAddIp6Address _)). intros [u idx] e _. apply wp_ret.
  destruct (u =? ERR_OK); by apply wp_ret, HQ.
Qed.

(** The address to bind to, as the two receivers choose it. *)
Lemma wp_choose4 addr my w :
  length addr = 4%nat -> length my = sizeof_sockaddr_in ->
  wp Total
    (if negb (net_ipv4_is_addr_unspecified addr) then lift (set_sin_addr addr my)
     else
       '(ret, written) ← zperf_get_ipv4_addr (Some MY_IP4ADDR);
       my ← lift (match written with Some bs => set_sin_addr bs my | None => mret my end);
       if ret <? 0 then lift (set_sin_addr (store_le 4 INADDR_ANY) my) else mret my)
    (fun my' w' => glob w' = glob w /\ length my' = sizeof_sockaddr_in) w.
Proof.
  intros Ha Hmy. pose proof addr_in_sockaddr_in. destruct (negb _).
  { apply wp_write; [lia|]. intros my' ->. done. }
  apply wp_bind, wp_get_ipv4_addr. intros ret written w1 Hg Hw. apply wp_bind.
  eapply (wp_mono _ _ (fun my' w' => glob w' = glob w /\ length my' = sizeof_sockaddr_in)).
  { destruct written as [bs|]; [|done]. specialize (Hw bs eq_refl).
    apply wp_write; [lia|]. intros my' ->. done. }
  intros my1 w2 [Hg2 Hl]. destruct (ret <? 0); [|by apply wp_ret].
  apply wp_write; [rewrite length_store_le; lia|]. intros my' ->. done.
Qed.

Lemma wp_choose6 addr my w :
  length addr = 16%nat -> length my = sizeof_sockaddr_in6 ->
  wp Total
    (if negb (net_ipv6_is_addr_unspecified addr) then lift (set_sin6_addr addr my)
     else
       '(ret, written) ← zperf_get_ipv6_addr (Some MY_IP6ADDR) MY_PREFIX_LEN_STR;
       my ← lift (match written with Some bs => set_sin6_addr bs my | None => mret my end);
       if ret <? 0 then lift (set_sin6_addr net_ipv6_unspecified_address my) else mret my)
    (fun my' w' => glob w' = glob w /\ length my' = sizeof_sockaddr_in6) w.
Proof.
  intros Ha Hmy. pose proof addr_in_sockaddr_in6. destruct (negb _).
  { apply wp_write; [lia|]. intros my' ->. done. }
  apply wp_bind, wp_get_ipv6_addr. intros ret written w1 Hg Hw. apply wp_bind.
  eapply (wp_mono _ _ (fun my' w' => glob w' = glob w /\ length my' = sizeof_sockaddr_in6)).
  { destruct written as [bs|]; [|done]. specialize (Hw bs eq_refl).
    apply wp_write; [lia|]. intros my' ->. done. }
  intros my1 w2 [Hg2 Hl]. destruct (ret <? 0); [|by apply wp_ret].
  unfold set_sin6_addr, net_ipv6_unspecified_address. rewrite in6addr_any_zero.
  apply wp_write; [rewrite length_replicate; lia|]. intros my' ->. done.
Qed.
End Choose.
