(* ===== verification/UdpStats.v ===== *)
(** The statistics of a UDP session (zperf_udp_receiver.c, the data and the end
    branches of [udp_received]): jitter, sequence check and final report, as
    functions on the session, with the theorems on streams of packets. *)
From S2P Require Import Prelude CInt Platform Kernel NetIp Session World.
Open Scope Z_scope.

(** ** Session statistics *)

(** A data packet of an ongoing session: [id] from its header, its length, and
    the receive and send times in microseconds. *)
Definition udp_jitter (transit_time : Z) (s : session) : Z :=
  if last_transit_time s =? 0 then jitter s else
  let delta_transit := s32 (transit_time - last_transit_time s) in
  let delta_transit := if delta_transit <? 0 then s32 (- delta_transit) else delta_transit in
  s32 (jitter s + Z.quot (s32 (delta_transit - jitter s)) 16).

(** The sequence check: the new [outorder], [error] and [next_id]. *)
Definition udp_sequence (id : Z) (s : session) : Z * Z * Z :=
  if negb (u32 id =? next_id s) then
    if u32 id <? next_id s then (u32 (outorder s + 1), error s, next_id s)
    else (outorder s, u32 (error s + u32 (u32 id - next_id s)), u32 (id + 1))
  else (outorder s, error s, u32 (next_id s + 1)).

Definition udp_data (id datalen now_us sent_us : Z) (s : session) : session :=
  let s := add_data datalen s in
  let transit_time := s32 (time_delta now_us sent_us) in
  let '(outorder', error', next_id') := udp_sequence id s in
  Session (port s) (ip s) (state_of s) (counter s) next_id' outorder' error'
    (length_of s) (start_time s) (last_time s) (udp_jitter transit_time s) transit_time (stat s).

(** The statistics packet of a finished session. *)
Definition udp_fill_stat (duration : Z) (s : session) : zperf_server_hdr :=
  ServerHdr
    (s32 2147483648)
    (s32 (Z.shiftr (length_of s) 32))
    (s32 (length_of s mod 4294967295))
    (s32 (duration / USEC_PER_SEC))
    (s32 (duration mod USEC_PER_SEC))
    (s32 (error s)) (s32 (outorder s)) (s32 (counter s))
    0 (jitter s).

(** The results given to the callback: faults when no packet was counted. *)
Definition udp_fill_results (duration : Z) (s : session) : outcome zperf_results :=
  size ← c_div (length_of s) (counter s);
  mret (Results 0 (counter s) (error s) (outorder s) (u32 (length_of s)) duration
          (u32 (jitter s)) 0 (u32 size) 0).

(** ** Streams of packets *)
Record packet : Set := Packet { pk_id : Z; pk_len : Z; pk_recv_us : Z; pk_sent_us : Z }.

Definition udp_packet (s : session) (p : packet) : session :=
  udp_data (pk_id p) (pk_len p) (pk_recv_us p) (pk_sent_us p) s.
Definition udp_stream (ps : list packet) (s : session) : session := foldl udp_packet s ps.

(** ** Reference definitions

    The largest identifier of a stream, the packets that are not larger than
    all before them. *)
Definition max_id (ids : list Z) : Z := foldr Z.max 0 ids.
Fixpoint late (hi : Z) (ids : list Z) : Z :=
  match ids with
  | [] => 0
  | id :: ids' => if id <=? hi then 1 + late hi ids' else late id ids'
  end.

(** The counters of a session that has just started. *)
Definition fresh (s : session) : Prop :=
  counter s = 0 /\ next_id s = 1 /\ outorder s = 0 /\ error s = 0 /\
  length_of s = 0 /\ jitter s = 0 /\ last_transit_time s = 0.

Definition transit (p : packet) : Z := s32 (time_delta (pk_recv_us p) (pk_sent_us p)).

(** The transit times of consecutive packets differ by at most [b]. *)
Fixpoint steady (b : Z) (t : Z) (ps : list packet) : Prop :=
  match ps with
  | [] => True
  | p :: ps' => Z.abs (transit p - t) <= b /\ steady b (transit p) ps'
  end.

(** ** Counters *)
Lemma reset_fresh s : fresh (zperf_reset_session_stats s).
Proof. done. Qed.

Lemma late_range hi ids : 0 <= late hi ids <= Z.of_nat (length ids).
Proof.
  revert hi. induction ids as [|id ids IH]; intros hi; cbn [late length]; [lia|].
  destruct (id <=? hi); [specialize (IH hi)|specialize (IH id)]; lia.
Qed.

Lemma udp_data_fixed id len now sent s :
  let s' := udp_data id len now sent s in
  port s' = port s /\ ip s' = ip s /\ state_of s' = state_of s /\
  start_time s' = start_time s /\ stat s' = stat s.
Proof. unfold udp_data. by destruct (udp_sequence _ _) as [[? ?] ?]. Qed.

Lemma udp_stream_totals ps s :
  let s' := udp_stream ps s in
  u32 (counter s') = u32 (counter s + Z.of_nat (length ps)) /\
  u64 (length_of s') = u64 (length_of s + sum (pk_len <$> ps)).
Proof.
  cbv zeta. unfold udp_stream. revert s. induction ps as [|p ps IH]; intros s.
  - cbn. rewrite !Z.add_0_r. done.
  - cbn [foldl length sum fmap list_fmap foldr]. destruct (IH (udp_packet s p)) as (-> & ->).
    fold (sum (pk_len <$> ps)). clear IH.
    unfold udp_packet, udp_data, udp_sequence. cbn [counter next_id outorder error add_data].
    split; (destruct (negb _); [destruct (_ <? _)|]); cbn [counter length_of add_data]; cint.
Qed.

(** C8: the counters account for every packet. Whatever identifiers the packets of
    a stream carry, and in whatever order, the session counts every packet and
    every byte, and [next_id - counter + outorder - error] keeps its value
    modulo 2^32: an identifier is expected, counted as received, or counted as
    lost, and a packet that is not counted as received in order is out of
    order. *)
Theorem udp_stream_conservation ps s :
  let s' := udp_stream ps s in
  u32 (counter s') = u32 (counter s + Z.of_nat (length ps)) /\
  u64 (length_of s') = u64 (length_of s + sum (pk_len <$> ps)) /\
  u32 (next_id s' - counter s' + outorder s' - error s') =
    u32 (next_id s - counter s + outorder s - error s).
Proof.
  cbv zeta. destruct (udp_stream_totals ps s) as [Hc Hl]. split; [exact Hc|]. split; [exact Hl|].
  clear Hc Hl. unfold udp_stream. revert s. induction ps as [|p ps IH]; intros s; [done|].
  cbn [foldl]. rewrite (IH (udp_packet s p)). unfold udp_packet, udp_data, udp_sequence.
  cbn [counter next_id outorder error add_data].
  destruct (negb _); [destruct (_ <? _)|]; cbn [counter next_id outorder error]; cint.
Qed.

(** The same, from a session whose last identifier was [hi] and with no overflow. *)
Lemma udp_stream_counts ps s hi :
  Forall (fun p => 0 <= pk_id p < 2147483648) ps ->
  0 <= hi < 2147483648 -> next_id s = 1 + hi ->
  0 <= outorder s -> outorder s + Z.of_nat (length ps) < 4294967296 ->
  0 <= error s <= hi ->
  let ids := pk_id <$> ps in
  let s' := udp_stream ps s in
  next_id s' = 1 + foldr Z.max hi ids /\
  outorder s' = outorder s + late hi ids /\
  error s' = error s + (foldr Z.max hi ids - hi) - (Z.of_nat (length ps) - late hi ids).
Proof.
  cbv zeta. unfold udp_stream. revert s hi.
  induction ps as [|p ps IH]; intros s hi Hids Hhi Hn Ho0 Ho He; [cbn; lia|].
  apply Forall_cons_iff in Hids as [Hp Hids]. cbn [length] in Ho.
  cbn [foldl fmap list_fmap foldr late length].
  assert (Hmax : forall l a b, foldr Z.max (Z.max a b) l = Z.max b (foldr Z.max a l)).
  { induction l as [|z l IHl]; intros a b; cbn; [lia|]. rewrite IHl. lia. }
  set (id := pk_id p) in *.
  assert (Hstep : (id <= hi /\ next_id (udp_packet s p) = 1 + hi /\
                   outorder (udp_packet s p) = outorder s + 1 /\
                   error (udp_packet s p) = error s) \/
                  (hi < id /\ next_id (udp_packet s p) = 1 + id /\
                   outorder (udp_packet s p) = outorder s /\
                   error (udp_packet s p) = error s + (id - hi - 1))).
  { unfold udp_packet, udp_data, udp_sequence. fold id. cbn [next_id outorder error add_data].
    rewrite Hn, (u32_small id) by lia.
    destruct (Z.eqb_spec id (1 + hi)); cbn [negb];
      [|destruct (Z.ltb_spec id (1 + hi))]; cbn [next_id outorder error]; cint. }
  destruct (Z.leb_spec id hi) as [Hle|Hlt].
  - destruct Hstep as [(_ & Hn' & Ho' & He')|]; [|lia].
    destruct (IH (udp_packet s p) hi Hids) as (-> & -> & ->); try lia.
    rewrite <- Hmax, Z.max_l by lia. lia.
  - destruct Hstep as [|(_ & Hn' & Ho' & He')]; [lia|].
    destruct (IH (udp_packet s p) id Hids) as (-> & -> & ->); try lia.
    replace (foldr Z.max id (pk_id <$> ps)) with (Z.max id (foldr Z.max hi (pk_id <$> ps)))
      by (rewrite <- Hmax; f_equal; lia).
    lia.
Qed.

Lemma udp_stream_counter_range ps s :
  0 <= counter s < 4294967296 -> 0 <= counter (udp_stream ps s) < 4294967296.
Proof.
  unfold udp_stream. revert s. induction ps as [|p ps IH]; intros s Hs; [done|].
  cbn [foldl]. apply IH. unfold udp_packet, udp_data.
  destruct (udp_sequence _ _) as [[? ?] ?]. apply u32_range.
Qed.

Lemma udp_stream_length_range ps s :
  0 <= length_of s < 18446744073709551616 ->
  0 <= length_of (udp_stream ps s) < 18446744073709551616.
Proof.
  unfold udp_stream. revert s. induction ps as [|p ps IH]; intros s Hs; [done|].
  cbn [foldl]. apply IH. unfold udp_packet, udp_data.
  destruct (udp_sequence _ _) as [[? ?] ?]. cbn. cint.
Qed.

Lemma udp_stream_fresh ps s0 :
  fresh s0 -> Forall (fun p => 0 <= pk_id p < 2147483648) ps ->
  Z.of_nat (length ps) < 4294967296 ->
  let ids := pk_id <$> ps in
  let s := udp_stream ps s0 in
  counter s = Z.of_nat (length ps) /\
  next_id s = 1 + max_id ids /\
  outorder s = late 0 ids /\
  error s = max_id ids - (Z.of_nat (length ps) - late 0 ids).
Proof.
  intros (Hc0 & Hn0 & Ho0 & He0 & _) Hids Hlen ids s.
  destruct (udp_stream_counts ps s0 0 Hids) as (Hn & Ho & He); try lia.
  fold s in Hn, Ho, He. fold ids in Hn, Ho, He. fold (max_id ids) in Hn, He.
  split_and!; [|done|lia|lia].
  destruct (udp_stream_totals ps s0) as (Hc & _). fold s in Hc.
  pose proof (udp_stream_counter_range ps s0 ltac:(lia)) as Hr. fold s in Hr.
  rewrite Hc0 in Hc. rewrite !u32_small in Hc by lia. lia.
Qed.

(** Sequence numbers. For a session that has just been reset, after a stream
    of packets with non-negative identifiers: the next identifier expected is
    one more than the largest received, a packet is out of order when its
    identifier is not larger than all before it, and the lost packets are the
    identifiers up to the largest that no packet arrived for in order. *)
Theorem udp_stream_spec ps s0 :
  fresh s0 -> Forall (fun p => 0 <= pk_id p < 2147483648) ps ->
  Z.of_nat (length ps) < 4294967296 ->
  let ids := pk_id <$> ps in
  let s := udp_stream ps s0 in
  counter s = Z.of_nat (length ps) /\
  next_id s = 1 + max_id ids /\
  outorder s = late 0 ids /\
  error s = max_id ids - (Z.of_nat (length ps) - late 0 ids).
Proof. apply udp_stream_fresh. Qed.

Lemma max_id_permutation ids ids' : Permutation ids ids' -> max_id ids = max_id ids'.
Proof. unfold max_id. induction 1; cbn; lia. Qed.

Lemma max_id_seq n : max_id (Z.of_nat <$> seq 1 n) = Z.of_nat n.
Proof.
  induction n as [|n IH]; [done|]. rewrite seq_S, fmap_app.
  rewrite (max_id_permutation _ _ (Permutation_app_comm _ _)). cbn.
  change (foldr Z.max 0 (Z.of_nat <$> seq 1 n)) with (max_id (Z.of_nat <$> seq 1 n)). lia.
Qed.

Lemma late_increasing k n : late (Z.of_nat k) (Z.of_nat <$> seq (S k) n) = 0.
Proof.
  revert k. induction n as [|n IH]; intros k; [done|]. cbn [seq fmap list_fmap late].
  destruct (Z.leb_spec (Z.of_nat (S k)) (Z.of_nat k)); [lia|]. apply IH.
Qed.

(** A stream that arrives complete. If the identifiers are [1..n] in some
    order, as many packets are reported lost as out of order: a late packet is
    not taken off the losses. In order, none is lost and none out of order. *)
Theorem udp_stream_complete ps s0 n :
  fresh s0 -> Permutation (pk_id <$> ps) (Z.of_nat <$> seq 1 n) -> Z.of_nat n < 2147483648 ->
  let s := udp_stream ps s0 in
  counter s = Z.of_nat n /\ next_id s = Z.of_nat n + 1 /\ error s = outorder s /\
  (pk_id <$> ps = Z.of_nat <$> seq 1 n -> error s = 0 /\ outorder s = 0).
Proof.
  intros Hf Hp Hn s.
  assert (Hlen : length ps = n)
    by (apply Permutation_length in Hp; by rewrite !length_fmap, length_seq in Hp).
  assert (Hids : Forall (fun p => 0 <= pk_id p < 2147483648) ps).
  { change (Forall ((fun id => 0 <= id < 2147483648) ∘ pk_id) ps).
    rewrite <- Forall_fmap, Hp.
    apply Forall_fmap, Forall_seq. intros i Hi. cbn. lia. }
  destruct (udp_stream_fresh ps s0 Hf Hids ltac:(lia)) as (Hc & Hx & Ho & He). fold s in Hc, Hx, Ho, He.
  rewrite (max_id_permutation _ _ Hp), max_id_seq in Hx, He.
  split_and!; [lia|lia|lia|]. intros Heq. rewrite Heq in Ho, He.
  pose proof (late_increasing 0 n) as Hl. change (Z.of_nat 0) with 0 in Hl.
  rewrite Hl in Ho, He. lia.
Qed.

(** ** Jitter *)
Lemma udp_jitter_step b s t :
  0 <= b < 2147483648 -> 0 <= jitter s <= b -> Z.abs (t - last_transit_time s) <= b ->
  0 <= udp_jitter t s <= b.
Proof.
  intros Hb Hj Ht. unfold udp_jitter. destruct (Z.eqb_spec (last_transit_time s) 0); [lia|].
  rewrite (s32_small (t - _)) by lia.
  destruct (Z.ltb_spec (t - last_transit_time s) 0).
  - rewrite (s32_small (- _)) by lia. rewrite (s32_small (_ - jitter s)) by lia.
    rewrite s32_small by lia. lia.
  - rewrite (s32_small (_ - jitter s)) by lia. rewrite s32_small by lia. lia.
Qed.

(** C28: the jitter estimate stays between zero and the largest difference of the
    transit times of consecutive packets, as long as that difference fits 31
    bits. *)
Theorem udp_jitter_bound b ps s :
  0 <= b < 2147483648 -> 0 <= jitter s <= b -> steady b (last_transit_time s) ps ->
  0 <= jitter (udp_stream ps s) <= b.
Proof.
  unfold udp_stream. revert s. induction ps as [|p ps IH]; intros s Hb Hj Hst; [done|].
  destruct Hst as [Hd Hst]. cbn [foldl].
  assert (Hjit : jitter (udp_packet s p) = udp_jitter (transit p) s /\
                 last_transit_time (udp_packet s p) = transit p).
  { unfold udp_packet, udp_data. by destruct (udp_sequence _ _) as [[? ?] ?]. }
  destruct Hjit as [Hjit Hlast].
  apply IH; [done|rewrite Hjit; by apply udp_jitter_step|by rewrite Hlast].
Qed.

(** ** The final report *)

(** The report of a finished session. Loss, reordering, packet count and
    jitter are the session's counters; seconds and microseconds make up the
    duration; but the two halves of the length, put together, are the length
    only below 2^32 - 1 bytes: the low half is taken modulo 2^32 - 1. *)
Theorem udp_fill_stat_spec duration s :
  0 <= duration < 4294967296 -> 0 <= length_of s < 9223372036854775808 ->
  let st := udp_fill_stat duration s in
  u32 (error_cnt st) = u32 (error s) /\ u32 (outorder_cnt st) = u32 (outorder s) /\
  u32 (datagrams st) = u32 (counter s) /\ jitter2 st = jitter s /\ jitter1 st = 0 /\
  stop_sec st * 1000000 + stop_usec st = duration /\ 0 <= stop_usec st < 1000000 /\
  (u32 (total_len1 st) * 4294967296 + u32 (total_len2 st) = length_of s <->
   length_of s < 4294967295).
Proof.
  intros Hd Hl st. unfold st, udp_fill_stat. clear st.
  cbn [error_cnt outorder_cnt datagrams jitter2 jitter1 stop_sec stop_usec total_len1 total_len2].
  change USEC_PER_SEC with 1000000. rewrite !u32_s32, Z.shiftr_div_pow2 by lia.
  change (2 ^ 32) with 4294967296.
  split_and!; try done; [cint|cint|cint|].
  rewrite (u32_small (length_of s / _)), (u32_small (length_of s mod _)) by lia. lia.
Qed.

(** The results of a finished session exist when a packet was counted, and
    then give the mean packet size, rounded down; with no packet the division
    faults. *)
Theorem udp_fill_results_spec duration s :
  0 <= counter s < 4294967296 -> 0 <= length_of s < 18446744073709551616 ->
  (counter s = 0 -> udp_fill_results duration s = Fault DivisionByZero) /\
  (0 < counter s -> length_of s < 4294967296 ->
   exists r, udp_fill_results duration s = Done r /\
     nb_packets_rcvd r = counter s /\ nb_packets_lost r = error s /\
     nb_packets_outorder r = outorder s /\ total_len r = length_of s /\
     time_in_us r = duration /\
     packet_size r * counter s <= length_of s < (packet_size r + 1) * counter s).
Proof.
  intros Hc Hl. unfold udp_fill_results, c_div. split.
  - intros ->. done.
  - intros Hpos Hlen. destruct (Z.eqb_spec (counter s) 0); [lia|].
    eexists. split; [reflexivity|].
    cbn [nb_packets_rcvd nb_packets_lost nb_packets_outorder total_len time_in_us packet_size].
    split_and!; try done; [by apply u32_small; lia| |].
    all: rewrite Z.quot_div_nonneg by lia.
    all: assert (0 <= length_of s / counter s < 4294967296)
           by (split; [apply Z.div_pos; lia|apply Z.div_lt_upper_bound; nia]).
    all: rewrite u32_small by done.
    all: pose proof (Z.div_mod (length_of s) (counter s) ltac:(lia)).
    all: pose proof (Z.mod_pos_bound (length_of s) (counter s) ltac:(lia)).
    all: set (q := length_of s / counter s) in *; set (m := length_of s mod counter s) in *.
    all: clearbody q m; nia.
Qed.

(** ** Witnesses *)

(** Packets of 100 bytes with a transit time of 10 to 12 us. *)
Definition example_stream (ids : list Z) : list packet :=
  (fun id => Packet id 100 (1000 + id) (1010 + id + id mod 3)) <$> ids.

Lemma udp_stream_spec_witness :
  let s := udp_stream (example_stream [1; 2; 5; 3; 6]) (zperf_reset_session_stats zero_session) in
  next_id s = 7 /\ outorder s = 1 /\ error s = 2.
Proof.
  destruct (udp_stream_spec (example_stream [1; 2; 5; 3; 6]) _ (reset_fresh zero_session)
              ltac:(repeat constructor; cbn; lia) ltac:(cbn; lia)) as (_ & Hn & Ho & He).
  split; [exact Hn|split; [exact Ho|exact He]].
Defined.

Lemma udp_stream_complete_witness :
  let s := udp_stream (example_stream [2; 1; 3]) (zperf_reset_session_stats zero_session) in
  error s = outorder s /\ error s = 1.
Proof.
  destruct (udp_stream_complete (example_stream [2; 1; 3]) _ 3 (reset_fresh zero_session)
              ltac:(apply perm_swap) ltac:(lia)) as (_ & _ & He & _).
  split; [exact He|reflexivity].
Defined.

Lemma udp_jitter_bound_witness :
  0 <= jitter (udp_stream (example_stream [1; 2; 3]) (zperf_reset_session_stats zero_session)) <= 20.
Proof.
  apply (udp_jitter_bound 20); [lia|cbn; lia|].
  repeat split; vm_compute; discriminate.
Defined.

Lemma udp_fill_stat_spec_witness :
  let s := add_data 4294967294 zero_session in
  let st := udp_fill_stat 1500000 s in
  stop_sec st * 1000000 + stop_usec st = 1500000 /\
  u32 (total_len1 st) * 4294967296 + u32 (total_len2 st) = length_of s.
Proof.
  destruct (udp_fill_stat_spec 1500000 (add_data 4294967294 zero_session)
              ltac:(lia) ltac:(vm_compute; split; [discriminate|reflexivity]))
    as (_ & _ & _ & _ & _ & Ht & _ & Hl).
  split; [exact Ht|]. apply Hl. reflexivity.
Defined.

Lemma udp_fill_results_spec_witness :
  udp_fill_results 0 zero_session = Fault DivisionByZero /\
  is_Some (match udp_fill_results 5 (add_data 100 zero_session) with
           | Done r => Some r | _ => None end).
Proof.
  split.
  - apply (udp_fill_results_spec 0 zero_session); [cbn; lia|cbn; lia|reflexivity].
  - destruct (udp_fill_results_spec 5 (add_data 100 zero_session)) as [_ H];
      [vm_compute; split; [discriminate|reflexivity]
      |vm_compute; split; [discriminate|reflexivity]|].
    destruct H as (r & Hr & _); [reflexivity|reflexivity|]. rewrite Hr. eexists. reflexivity.
Defined.
