(* ===== verification/UdpReceiver.v ===== *)
(** The packet handler of the UDP server (zperf_udp_receiver.c): [udp_received]
    and the reply to the client, with the theorems on sequences of datagrams. *)
From S2P Require Import Prelude CInt Platform CString Kernel NetIp Session World Common Server UdpStats.
Open Scope Z_scope.

Definition UDP_RECEIVER_BUF_SIZE : nat := 1500.

(** zperf_internal.h: sizes of the wire structures. *)
Definition sizeof_udp_datagram : nat := 12.
Definition sizeof_server_hdr : nat := 40.

(** ** The reply *)
Definition hdr_fields (st : zperf_server_hdr) : list Z :=
  [flags st; total_len1 st; total_len2 st; stop_sec st; stop_usec st;
   error_cnt st; outorder_cnt st; datagrams st; jitter1 st; jitter2 st].

Definition build_reply (hdr : bytes) (st : zperf_server_hdr) : bytes :=
  take sizeof_udp_datagram hdr
    ++ mjoin ((fun v => store_le 4 (htonl v)) <$> hdr_fields st).

Section UdpReceiver.
Context {L : Lwip} {R : Rtos} {E : Type} `{!Env E}.
Abbreviation W := (world E).

Definition zperf_receiver_send_stat (sock : Z) (addr hdr : bytes) (st : zperf_server_hdr)
    : M W Z :=
  let reply := build_reply hdr st in
  family ← lift (sa_family addr);
  to ← lift (read_at 0 (if family =? AF_INET6 then sizeof_sockaddr_in6
                        else sizeof_sockaddr_in) addr);
  trigger (LwipSendto sock reply 0 to).

(** [case STATE_COMPLETED: case STATE_NULL:] *)
Definition udp_received_idle (sock : Z) (addr hdr : bytes) (i : nat) (time id : Z) : M W unit :=
  s ← load_session SESSION_UDP i;
  if id <? 0 then
    zperf_receiver_send_stat sock addr hdr (stat s);; mret tt
  else
    store_session SESSION_UDP i
      (set_start_time time (set_state STATE_ONGOING (zperf_reset_session_stats s)));;
    notify udp_server ZPERF_SESSION_STARTED None.

(** [case STATE_ONGOING:] *)
Definition udp_received_ongoing (sock : Z) (addr hdr : bytes) (i : nat)
    (time id datalen : Z) : M W unit :=
  s ← load_session SESSION_UDP i;
  if id <? 0 then
    let duration := k_ticks_to_us_ceil32 (s64 (time - start_time s)) in
    let st := udp_fill_stat duration s in
    let s := set_stat st (set_state STATE_COMPLETED s) in
    store_session SESSION_UDP i s;;
    zperf_receiver_send_stat sock addr hdr st;;
    results ← lift (udp_fill_results duration s);
    notify udp_server ZPERF_SESSION_FINISHED (Some results)
  else
    tv_sec ← lift (load_at 4 4 hdr);
    tv_usec ← lift (load_at 8 4 hdr);
    store_session SESSION_UDP i
      (udp_data id datalen (k_ticks_to_us_ceil32 time)
         (u32 (u32 (ntohl tv_sec * USEC_PER_SEC) + ntohl tv_usec)) s).

Definition udp_received (sock : Z) (addr data : bytes) (datalen : Z) : M W unit :=
  if datalen <? Z.of_nat sizeof_udp_datagram then mret tt else
  hdr ← lift (read_at 0 sizeof_udp_datagram data);
  time ← k_uptime_ticks;
  session ← find_session addr SESSION_UDP;
  match session with
  | None => mret tt
  | Some i =>
      id ← lift (load_at 0 4 hdr);
      let id := s32 (ntohl id) in
      s ← load_session SESSION_UDP i;
      match state_of s with
      | STATE_COMPLETED | STATE_NULL => udp_received_idle sock addr hdr i time id
      | STATE_ONGOING => udp_received_ongoing sock addr hdr i time id datalen
      | STATE_LAST_PACKET_RECEIVED => mret tt
      end
  end.
End UdpReceiver.

(** ** The packet handler, branch by branch *)

(** The fields of a datagram's header. *)
Definition dgram_id (data : bytes) : Z := s32 (ntohl (load_le (take 4 data))).
Definition dgram_sent_us (data : bytes) : Z :=
  u32 (u32 (ntohl (load_le (take 4 (drop 4 data))) * USEC_PER_SEC)
       + ntohl (load_le (take 4 (drop 8 data)))).

Section Handler.
Context {L : Lwip} {R : Rtos} {E : Type} `{!Env E}.
Implicit Types (g : globals) (t : table) (e : E) (tr : list event).

(** Where the reply to a peer goes; faults when the address object is too small. *)
Definition destination (addr : bytes) : outcome bytes :=
  family ← sa_family addr;
  read_at 0 (if family =? AF_INET6 then sizeof_sockaddr_in6 else sizeof_sockaddr_in) addr.

Definition started (time : Z) (s : session) : session :=
  set_start_time time (set_state STATE_ONGOING (zperf_reset_session_stats s)).

Definition finished (time : Z) (s : session) : session :=
  set_stat (udp_fill_stat (k_ticks_to_us_ceil32 (s64 (time - start_time s))) s)
    (set_state STATE_COMPLETED s).

(** The table with slot [i] of the UDP row replaced. *)
Definition put (i : nat) (s : session) (t : table) : table :=
  set_row SESSION_UDP (<[i := s]> (row SESSION_UDP t)) t.

Lemma hdr_load off data :
  (off + 4 <= sizeof_udp_datagram)%nat -> (sizeof_udp_datagram <= length data)%nat ->
  load_at off 4 (take sizeof_udp_datagram data) = Done (load_le (take 4 (drop off data))).
Proof.
  unfold sizeof_udp_datagram. intros Ho Hl. unfold load_at.
  rewrite read_at_ok by (rewrite length_take; lia). cbn.
  rewrite !take_drop_commute, take_take. do 4 f_equal. lia.
Qed.

Lemma wp_send_stat md sock addr hdr st to (Q : Z -> world E -> Prop) g t e tr :
  destination addr = Done to ->
  (forall r e', Q r (on g t e' (tr ++ [Event (LwipSendto sock (build_reply hdr st) 0 to) r]))) ->
  wp md (zperf_receiver_send_stat sock addr hdr st) Q (on g t e tr).
Proof.
  unfold destination, wp, zperf_receiver_send_stat, mbind, M_bind, outcome_bind, lift, trigger, on.
  destruct (sa_family addr) as [f| |]; [|done..]. intros ->. cbn. intros HQ.
  destruct (answer _ e) as [r e']. apply HQ.
Qed.

Lemma wp_enter md sock addr data len i s (Q : unit -> world E -> Prop) g t t' e tr :
  Z.of_nat sizeof_udp_datagram <= len -> (sizeof_udp_datagram <= length data)%nat ->
  get_session addr SESSION_UDP t = Done (Some i, t') -> row SESSION_UDP t' !! i = Some s ->
  (forall time e', let hdr := take sizeof_udp_datagram data in
    wp md (match state_of s with
           | STATE_COMPLETED | STATE_NULL =>
               udp_received_idle sock addr hdr i (u32 time) (dgram_id data)
           | STATE_ONGOING => udp_received_ongoing sock addr hdr i (u32 time) (dgram_id data) len
           | STATE_LAST_PACKET_RECEIVED => mret tt
           end) Q (on g t' e' (tr ++ [Event TaskGetTickCount time]))) ->
  wp md (udp_received sock addr data len) Q (on g t e tr).
Proof.
  intros Hlen Hdata Hget Hi HQ. unfold udp_received.
  destruct (Z.ltb_spec len (Z.of_nat sizeof_udp_datagram)); [lia|].
  apply wp_bind. eapply wp_lift; [apply read_at_ok; lia|]. rewrite drop_0.
  apply wp_bind, wp_clock. intros time e' _.
  apply wp_bind. eapply wp_find_session; [exact Hget|].
  apply wp_bind. eapply wp_lift; [by apply hdr_load; [unfold sizeof_udp_datagram; lia|]|].
  cbv zeta. rewrite drop_0. apply wp_bind. eapply wp_load_session; [exact Hi|]. apply HQ.
Qed.

Lemma wp_idle_start md sock addr hdr i s time id (Q : unit -> world E -> Prop) g t e tr :
  row SESSION_UDP t !! i = Some s -> 0 <= id ->
  (forall e', Q tt (on g (put i (started time s) t) e'
                      (tr ++ notified (udp_server g) ZPERF_SESSION_STARTED None))) ->
  wp md (udp_received_idle sock addr hdr i time id) Q (on g t e tr).
Proof.
  intros Hi Hid HQ. apply wp_bind. eapply wp_load_session; [exact Hi|].
  destruct (Z.ltb_spec id 0); [lia|]. apply wp_bind, wp_store_session, wp_notify_on. apply HQ.
Qed.

Lemma wp_idle_fin md sock addr hdr i s time id to (Q : unit -> world E -> Prop) g t e tr :
  row SESSION_UDP t !! i = Some s -> id < 0 -> destination addr = Done to ->
  (forall r e', Q tt (on g t e'
     (tr ++ [Event (LwipSendto sock (build_reply hdr (stat s)) 0 to) r]))) ->
  wp md (udp_received_idle sock addr hdr i time id) Q (on g t e tr).
Proof.
  intros Hi Hid Hto HQ. apply wp_bind. eapply wp_load_session; [exact Hi|].
  destruct (Z.ltb_spec id 0); [|lia]. apply wp_bind. eapply wp_send_stat; [exact Hto|].
  intros r e'. apply wp_ret, HQ.
Qed.

Lemma wp_ongoing_data md sock addr data i s time len (Q : unit -> world E -> Prop) g t e tr :
  row SESSION_UDP t !! i = Some s -> 0 <= dgram_id data ->
  (sizeof_udp_datagram <= length data)%nat ->
  Q tt (on g (put i (udp_packet s (Packet (dgram_id data) len (k_ticks_to_us_ceil32 time)
                                     (dgram_sent_us data))) t) e tr) ->
  wp md (udp_received_ongoing sock addr (take sizeof_udp_datagram data) i time (dgram_id data) len)
    Q (on g t e tr).
Proof.
  intros Hi Hid Hdata HQ. apply wp_bind. eapply wp_load_session; [exact Hi|].
  destruct (Z.ltb_spec (dgram_id data) 0); [lia|].
  apply wp_bind. eapply wp_lift; [by apply hdr_load; [unfold sizeof_udp_datagram; lia|]|].
  apply wp_bind. eapply wp_lift; [by apply hdr_load; [unfold sizeof_udp_datagram; lia|]|].
  apply wp_store_session. exact HQ.
Qed.

Lemma wp_ongoing_fin md sock addr hdr i s time id len to (Q : unit -> world E -> Prop) g t e tr r :
  let duration := k_ticks_to_us_ceil32 (s64 (time - start_time s)) in
  row SESSION_UDP t !! i = Some s -> id < 0 -> destination addr = Done to ->
  udp_fill_results duration s = Done r ->
  (forall n e', Q tt (on g (put i (finished time s) t) e'
     (tr ++ [Event (LwipSendto sock (build_reply hdr (udp_fill_stat duration s)) 0 to) n]
         ++ notified (udp_server g) ZPERF_SESSION_FINISHED (Some r)))) ->
  wp md (udp_received_ongoing sock addr hdr i time id len) Q (on g t e tr).
Proof.
  intros duration Hi Hid Hto Hr HQ. apply wp_bind. eapply wp_load_session; [exact Hi|].
  destruct (Z.ltb_spec id 0); [|lia].
  apply wp_bind, wp_store_session, wp_bind. eapply wp_send_stat; [exact Hto|].
  intros n e'. apply wp_bind. eapply wp_lift; [exact Hr|].
  apply wp_notify_on. intros e''. rewrite <- app_assoc. apply HQ.
Qed.
End Handler.

(** ** A conversation with one peer *)
Section Conversation.
Context {L : Lwip} {LOk : LwipOk L} {R : Rtos} {E : Type} `{!Env E}.
Implicit Types (g : globals) (t : table) (e : E) (tr : list event).

(** Datagrams, with their source address, in the order they arrive. *)
Fixpoint deliver (sock : Z) (msgs : list (bytes * bytes)) : M (world E) unit :=
  match msgs with
  | [] => mret tt
  | (addr, data) :: msgs' =>
      udp_received sock addr data (Z.of_nat (length data));; deliver sock msgs'
  end.

(** A datagram with a whole header. *)
Definition whole (data : bytes) : Prop := (sizeof_udp_datagram <= length data)%nat.

(** The packets the session sees: identifiers, lengths and send times are the
    datagrams'; the receive times are the clock's. *)
Definition seen_as (data : bytes) (p : packet) : Prop :=
  pk_id p = dgram_id data /\ pk_len p = Z.of_nat (length data) /\
  pk_sent_us p = dgram_sent_us data.

(** Events of the clock only. *)
Definition silent (evs : list event) : Prop := callbacks evs = [] /\ sent_to evs = [].

Lemma silent_clock n evs : silent evs -> silent (Event TaskGetTickCount n :: evs).
Proof. done. Qed.

Lemma udp_packet_fixed s p :
  ip (udp_packet s p) = ip s /\ port (udp_packet s p) = port s /\
  state_of (udp_packet s p) = state_of s /\ stat (udp_packet s p) = stat s.
Proof. unfold udp_packet, udp_data. by destruct (udp_sequence _ _) as [[? ?] ?]. Qed.

Lemma put_lookup i s s0 t :
  row SESSION_UDP t !! i = Some s0 -> row SESSION_UDP (put i s t) !! i = Some s.
Proof.
  intros Hi. unfold put. rewrite row_set_row, decide_True by done.
  apply list_lookup_insert_eq. by eapply lookup_lt_Some.
Qed.

Lemma put_other i s t q j :
  (q, j) <> (SESSION_UDP, i) -> row q (put i s t) !! j = row q t !! j.
Proof.
  intros Hne. unfold put. rewrite row_set_row. case_decide; [subst q|done].
  apply list_lookup_insert_ne. congruence.
Qed.

Lemma put_put i s s' t : put i s' (put i s t) = put i s' t.
Proof.
  unfold put. rewrite row_set_row, decide_True by done.
  by rewrite set_row_twice, list_insert_insert_eq.
Qed.

Lemma put_wf i s s0 t :
  table_wf t -> row SESSION_UDP t !! i = Some s0 -> ip s = ip s0 -> port s = port s0 ->
  table_wf (put i s t).
Proof. intros. by eapply table_wf_update. Qed.

Lemma slot_peer_same s s' : ip s' = ip s -> port s' = port s -> slot_peer s' = slot_peer s.
Proof. unfold slot_peer. by intros -> ->. Qed.

(** The data of an ongoing session. *)
Lemma wp_deliver_data md sock addr k i body s (Q : unit -> world E -> Prop) g t e tr :
  table_wf t -> addr_peer addr = Done (Some k) ->
  row SESSION_UDP t !! i = Some s -> slot_peer s = Some k -> state_of s = STATE_ONGOING ->
  Forall (fun d => whole d /\ 0 <= dgram_id d) body ->
  (forall ps evs e', Forall2 seen_as body ps -> silent evs ->
    Q tt (on g (put i (udp_stream ps s) t) e' (tr ++ evs))) ->
  wp md (deliver sock ((fun d => (addr, d)) <$> body)) Q (on g t e tr).
Proof.
  intros Hwf Hk. revert s t e tr Hwf. induction body as [|data body IH];
    intros s t e tr Hwf' Hi Hs Hst Hb HQ.
  - apply wp_ret. specialize (HQ [] [] e (Forall2_nil _) (conj eq_refl eq_refl)).
    change (udp_stream [] s) with s in HQ. unfold put in HQ.
    rewrite set_row_same, app_nil_r in HQ by done. exact HQ.
  - apply Forall_cons_iff in Hb as [[Hw Hid] Hb]. cbn [fmap list_fmap deliver].
    apply wp_bind. eapply wp_enter; [unfold whole in Hw; lia|done|by eapply get_session_found|done|].
    intros time e'. cbv zeta. rewrite Hst. eapply wp_ongoing_data; [done..|].
    set (p := Packet _ _ _ _). destruct (udp_packet_fixed s p) as (Hip & Hport & Hst' & _).
    apply (IH (udp_packet s p)).
    + by eapply put_wf.
    + by eapply put_lookup.
    + by rewrite (slot_peer_same s).
    + congruence.
    + done.
    + intros ps evs e'' Hps Hevs. rewrite put_put, <- app_assoc.
      apply (HQ (p :: ps) (Event TaskGetTickCount time :: evs)); [|by apply silent_clock].
      by constructor.
Qed.

Lemma fill_results_ok duration s :
  counter s <> 0 ->
  exists r, udp_fill_results duration s = Done r /\
    nb_packets_rcvd r = counter s /\ nb_packets_lost r = error s /\
    nb_packets_outorder r = outorder s /\ total_len r = u32 (length_of s) /\
    time_in_us r = duration.
Proof.
  intros Hc. unfold udp_fill_results, c_div. destruct (Z.eqb_spec (counter s) 0); [done|].
  eexists. by split; [reflexivity|].
Qed.

Lemma seen_as_ids body ps : Forall2 seen_as body ps -> pk_id <$> ps = dgram_id <$> body.
Proof. induction 1 as [|d p body ps (H & _) _ IH]; cbn; [done|by rewrite H, IH]. Qed.

Lemma seen_as_lens body ps :
  Forall2 seen_as body ps -> pk_len <$> ps = (fun d => Z.of_nat (length d)) <$> body.
Proof. induction 1 as [|d p body ps (_ & H & _) _ IH]; cbn; [done|by rewrite H, IH]. Qed.

Lemma dgram_id_range data : -2147483648 <= dgram_id data < 2147483648.
Proof. apply s32_range. Qed.

(** The counters of the session after its data, from the datagrams alone. *)
Lemma stream_of_datagrams body ps s :
  fresh s -> Forall2 seen_as body ps -> Forall (fun d => 0 <= dgram_id d) body ->
  Z.of_nat (length body) < 4294967296 ->
  let s' := udp_stream ps s in let ids := dgram_id <$> body in
  counter s' = Z.of_nat (length body) /\ outorder s' = late 0 ids /\
  error s' = max_id ids - (Z.of_nat (length body) - late 0 ids) /\
  u32 (length_of s') = u32 (sum ((fun d => Z.of_nat (length d)) <$> body)).
Proof.
  intros Hf Hps Hids Hn. cbv zeta. pose proof (seen_as_ids _ _ Hps) as Hid.
  assert (Hlen : length ps = length body) by (symmetry; by eapply Forall2_length).
  destruct (udp_stream_fresh ps s) as (Hc & _ & Ho & He); [done| |lia|].
  { clear -Hps Hids. induction Hps as [|d p body ps (H & _) _ IH]; [done|].
    apply Forall_cons_iff in Hids as [Hd Hids]. constructor; [|by apply IH].
    rewrite H. pose proof (dgram_id_range d). lia. }
  rewrite Hid in Ho, He. rewrite Hlen in Hc, He. split_and!; [done..|].
  destruct (udp_stream_totals ps s) as (_ & Hl).
  destruct Hf as (_ & _ & _ & _ & H0 & _). rewrite H0, (seen_as_lens _ _ Hps) in Hl. cint.
Qed.

Lemma deliver_app md sock ms1 ms2 Q w :
  wp md (deliver sock ms1) (fun _ w' => wp md (deliver sock ms2) Q w') w ->
  wp md (deliver sock (ms1 ++ ms2)) Q w.
Proof.
  revert w. induction ms1 as [|[a d] ms1 IH]; intros w H; [exact H|].
  cbn [app deliver] in *. unfold mbind, M_bind, wp in *.
  destruct (udp_received _ _ _ _ w) as [[[] w1]| |]; [|done..]. apply IH. exact H.
Qed.

Lemma udp_stream_fixed ps s :
  ip (udp_stream ps s) = ip s /\ port (udp_stream ps s) = port s /\
  state_of (udp_stream ps s) = state_of s /\ stat (udp_stream ps s) = stat s.
Proof.
  unfold udp_stream. revert s. induction ps as [|p ps IH]; intros s; [done|]. cbn [foldl].
  destruct (IH (udp_packet s p)) as (-> & -> & -> & ->). apply udp_packet_fixed.
Qed.

Lemma slot_free_idle s : slot_free s = true -> state_of s = STATE_NULL \/ state_of s = STATE_COMPLETED.
Proof.
  unfold slot_free. intros [H|H]%orb_true_iff; apply bool_decide_eq_true in H; tauto.
Qed.

(** The first datagram of a session. *)
Lemma wp_start md sock addr data i s0 (Q : unit -> world E -> Prop) g t t1 e tr :
  get_session addr SESSION_UDP t = Done (Some i, t1) -> row SESSION_UDP t1 !! i = Some s0 ->
  slot_free s0 = true -> whole data -> 0 <= dgram_id data ->
  (forall time e', Q tt (on g (put i (started (u32 time) s0) t1) e'
     (tr ++ Event TaskGetTickCount time
         :: notified (udp_server g) ZPERF_SESSION_STARTED None))) ->
  wp md (udp_received sock addr data (Z.of_nat (length data))) Q (on g t e tr).
Proof.
  intros Hget Hi Hfree Hw Hid HQ. unfold whole in Hw.
  eapply wp_enter; [lia|done|exact Hget|exact Hi|]. intros time e1. cbv zeta.
  destruct (slot_free_idle _ Hfree) as [-> | ->]; (eapply wp_idle_start; [exact Hi|done|]);
    intros e2; rewrite <- app_assoc; apply HQ.
Qed.

(** The last one, with at least one datagram of data in between. *)
Lemma wp_fin md sock addr k data i s to (Q : unit -> world E -> Prop) g t e tr :
  table_wf t -> addr_peer addr = Done (Some k) -> destination addr = Done to ->
  row SESSION_UDP t !! i = Some s -> slot_peer s = Some k -> state_of s = STATE_ONGOING ->
  counter s <> 0 -> whole data -> dgram_id data < 0 ->
  (forall time n e' r,
     udp_fill_results (time_in_us r) s = Done r -> 0 <= time_in_us r < 4294967296 ->
     let st := udp_fill_stat (time_in_us r) s in
     Q tt (on g (put i (set_stat st (set_state STATE_COMPLETED s)) t) e'
       (tr ++ Event TaskGetTickCount time
           :: Event (LwipSendto sock (build_reply (take sizeof_udp_datagram data) st) 0 to) n
           :: notified (udp_server g) ZPERF_SESSION_FINISHED (Some r)))) ->
  wp md (udp_received sock addr data (Z.of_nat (length data))) Q (on g t e tr).
Proof.
  intros Hwf Hk Hto Hi Hs Hst Hnz Hw Hid HQ. unfold whole in Hw.
  eapply wp_enter; [lia|done|by eapply get_session_found|exact Hi|]. intros time e1. cbv zeta.
  rewrite Hst.
  destruct (fill_results_ok (k_ticks_to_us_ceil32 (s64 (u32 time - start_time s))) s Hnz)
    as (r & Hr & _ & _ & _ & _ & Ht).
  eapply wp_ongoing_fin; [exact Hi|done|exact Hto|exact Hr|].
  intros n e2. rewrite <- app_assoc. unfold finished. rewrite <- Ht. apply HQ; [by rewrite Ht|].
  rewrite Ht. apply u32_range.
Qed.

(** A whole session: first datagram, data, last datagram. *)
Lemma wp_session md sock addr k to start body fin i s0 t1 (Q : unit -> world E -> Prop) g t e tr :
  table_wf t -> addr_peer addr = Done (Some k) -> destination addr = Done to ->
  get_session addr SESSION_UDP t = Done (Some i, t1) ->
  row SESSION_UDP t1 !! i = Some s0 -> slot_free s0 = true ->
  Forall whole (start :: fin :: body) -> 0 <= dgram_id start -> dgram_id fin < 0 ->
  Forall (fun d => 0 <= dgram_id d) body -> body <> [] ->
  Z.of_nat (length body) < 4294967296 ->
  (forall s ps r evs e', fresh s -> Forall2 seen_as body ps ->
     let s' := udp_stream ps s in let st := udp_fill_stat (time_in_us r) s' in
     udp_fill_results (time_in_us r) s' = Done r -> 0 <= time_in_us r < 4294967296 ->
     sent_to evs = [(sock, build_reply (take sizeof_udp_datagram fin) st, to)] ->
     callbacks evs =
       match session_cb (udp_server g) with
       | None => []
       | Some cb =>
           [(cb, ZPERF_SESSION_STARTED, None, user_data (udp_server g));
            (cb, ZPERF_SESSION_FINISHED, Some r, user_data (udp_server g))]
       end ->
     Q tt (on g (put i (set_stat st (set_state STATE_COMPLETED s')) t1) e' (tr ++ evs))) ->
  wp md (deliver sock ((fun d => (addr, d)) <$> start :: body ++ [fin])) Q (on g t e tr).
Proof.
  intros Hwf Hk Hto Hget Hi Hfree Hw Hstart Hfin Hbody Hne Hn HQ.
  apply Forall_cons_iff in Hw as [Hws Hw]. apply Forall_cons_iff in Hw as [Hwf' Hwb].
  destruct (get_session_slot addr k SESSION_UDP t i t1 Hwf Hk Hget) as (Hwf1 & Hs & _).
  destruct Hs as (s0' & Hi' & Hpeer). assert (s0' = s0) as -> by congruence. clear Hi'.
  change (fmap (fun d => (addr, d)) (start :: body ++ [fin]))
    with ((addr, start) :: ((fun d => (addr, d)) <$> (body ++ [fin]))).
  rewrite fmap_app. cbn [deliver]. apply wp_bind. eapply wp_start; [done..|].
  intros time e1. set (s := started (u32 time) s0). set (tr1 := _ ++ _ :: _).
  apply deliver_app.
  assert (Hs : slot_peer s = Some k) by (rewrite <- Hpeer; by apply slot_peer_same).
  eapply wp_deliver_data; [by eapply put_wf|done|by eapply put_lookup|done|done|by apply Forall_and|].
  intros ps evs e2 Hps [Hev1 Hev2]. rewrite put_put.
  destruct (stream_of_datagrams body ps s ltac:(done) Hps Hbody Hn) as (Hc & _).
  destruct (udp_stream_fixed ps s) as (Hip & Hport & Hst & _). set (s' := udp_stream ps s) in *.
  apply wp_bind. eapply (wp_fin _ _ _ k _ i s'); try done.
  - by eapply put_wf.
  - by eapply put_lookup.
  - by rewrite (slot_peer_same s).
  - destruct body; [done|cbn [length] in *; lia].
  - intros time' n e3 r Hr Ht st. apply wp_ret. rewrite put_put. unfold tr1. rewrite <- !app_assoc.
    apply (HQ s ps r); [done|done|exact Hr|exact Ht| |].
    + cbn [app sent_to]. rewrite !sent_to_app, sent_to_notified, Hev2. cbn [sent_to app].
      by rewrite sent_to_notified.
    + cbn [app callbacks]. rewrite !callbacks_app, callbacks_notified, Hev1. cbn [callbacks app].
      rewrite callbacks_notified. cbn. by destruct (session_cb (udp_server g)).
Qed.

(** A whole UDP session. A client that has no session in progress sends a
    first datagram, then data, then a datagram with a negative identifier.
    Whatever the clock and the environment answer, the server runs to the end:
    it reports the start and the end to the callback, sends one reply to the
    client, leaves the session completed with the statistics of that reply, and
    touches no other session. The results count every data datagram after the
    first one, its bytes, and loss and reordering as for a stream of
    identifiers. *)
Theorem udp_session_run sock addr k to start body fin i s0 w t1 :
  table_wf (sessions (glob w)) -> addr_peer addr = Done (Some k) -> destination addr = Done to ->
  get_session addr SESSION_UDP (sessions (glob w)) = Done (Some i, t1) ->
  row SESSION_UDP t1 !! i = Some s0 -> slot_free s0 = true ->
  Forall whole (start :: fin :: body) -> 0 <= dgram_id start -> dgram_id fin < 0 ->
  Forall (fun d => 0 <= dgram_id d) body -> body <> [] ->
  Z.of_nat (length body) < 4294967296 ->
  wp Total (deliver sock ((fun d => (addr, d)) <$> start :: body ++ [fin])) (fun _ w' =>
    exists s ps r evs,
      fresh s /\ Forall2 seen_as body ps /\
      (let s' := udp_stream ps s in let st := udp_fill_stat (time_in_us r) s' in
       row SESSION_UDP (sessions (glob w')) !! i =
         Some (set_stat st (set_state STATE_COMPLETED s')) /\
       sent_to evs = [(sock, build_reply (take sizeof_udp_datagram fin) st, to)]) /\
      (forall q j, (q, j) <> (SESSION_UDP, i) ->
         row q (sessions (glob w')) !! j = row q (sessions (glob w)) !! j) /\
      trace w' = trace w ++ evs /\
      callbacks evs =
        match session_cb (udp_server (glob w)) with
        | None => []
        | Some cb =>
            [(cb, ZPERF_SESSION_STARTED, None, user_data (udp_server (glob w)));
             (cb, ZPERF_SESSION_FINISHED, Some r, user_data (udp_server (glob w)))]
        end /\
      let n := Z.of_nat (length body) in let ids := dgram_id <$> body in
      nb_packets_rcvd r = n /\ nb_packets_outorder r = late 0 ids /\
      nb_packets_lost r = max_id ids - (n - late 0 ids) /\
      total_len r = u32 (sum ((fun d => Z.of_nat (length d)) <$> body))) w.
Proof.
  intros Hwf Hk Hto Hget Hi Hfree Hw Hstart Hfin Hbody Hne Hn.
  rewrite (world_on w). set (g := glob w). set (t := sessions g) in *.
  destruct (get_session_slot addr k SESSION_UDP t i t1 Hwf Hk Hget) as (_ & _ & Hoth & _).
  eapply wp_session; [done..|]. intros s ps r evs e' Hf Hps s' st Hr _ Hsent Hcb.
  destruct (stream_of_datagrams body ps s Hf Hps Hbody Hn) as (Hc & Ho & He & Hl). fold s' in Hc, Ho, He, Hl.
  destruct (fill_results_ok (time_in_us r) s') as (r' & Hr' & H1 & H2 & H3 & H4 & _).
  { destruct body; [done|cbn [length] in *; lia]. }
  assert (r' = r) as -> by congruence.
  exists s, ps, r, evs. split; [done|]. split; [done|].
  split; [split; [by eapply put_lookup|exact Hsent]|].
  split; [|split; [done|split; [exact Hcb|cbv zeta; by rewrite H1, H2, H3, H4]]].
  intros q j Hne'. transitivity (row q t1 !! j); [by apply put_other|by apply Hoth].
Qed.

(** ** Any datagram *)

(** What one datagram does to the slot of its sender. *)
Inductive slot_step (id : Z) : session -> session -> Prop :=
| step_same s : slot_step id s s
| step_start s time : slot_free s = true -> 0 <= id -> slot_step id s (started (u32 time) s)
| step_data s p :
    state_of s = STATE_ONGOING -> 0 <= id -> pk_id p = id -> slot_step id s (udp_packet s p)
| step_fin s time :
    state_of s = STATE_ONGOING -> id < 0 -> slot_step id s (finished (u32 time) s).

Definition table_step (addr data : bytes) (t t' : table) : Prop :=
  t' = t \/
  exists i t1 s s', get_session addr SESSION_UDP t = Done (Some i, t1) /\
    row SESSION_UDP t1 !! i = Some s /\ slot_step (dgram_id data) s s' /\ t' = put i s' t1.

Lemma wp_send_stat_partial sock addr hdr st (Q : Z -> world E -> Prop) g t e tr :
  (forall to r e', Q r (on g t e' (tr ++ [Event (LwipSendto sock (build_reply hdr st) 0 to) r]))) ->
  wp Partial (zperf_receiver_send_stat sock addr hdr st) Q (on g t e tr).
Proof.
  intros HQ. apply wp_bind, wp_lift_partial. intros f _. apply wp_bind, wp_lift_partial.
  intros to _. apply (wp_trigger Partial (LwipSendto sock _ 0 to) Q). intros r e' _. apply HQ.
Qed.

Lemma udp_idle_step sock addr hdr i s time id g t e tr :
  row SESSION_UDP t !! i = Some s -> slot_free s = true ->
  wp Partial (udp_received_idle sock addr hdr i (u32 time) id)
    (fun _ w' => exists s' e' tr', w' = on g (put i s' t) e' tr' /\ slot_step id s s') (on g t e tr).
Proof.
  intros Hi Hfree. apply wp_bind. eapply wp_load_session; [exact Hi|].
  destruct (Z.ltb_spec id 0) as [Hid|Hid].
  - apply wp_bind, wp_send_stat_partial. intros to r e'. apply wp_ret.
    eexists s, e', _. split; [|constructor]. unfold put. rewrite set_row_same by done. reflexivity.
  - apply wp_bind, wp_store_session, wp_notify_on. intros e'.
    eexists _, _, _. split; [reflexivity|]. by constructor.
Qed.

Lemma udp_ongoing_step sock addr data i s time len g t e tr :
  row SESSION_UDP t !! i = Some s -> state_of s = STATE_ONGOING ->
  wp Partial (udp_received_ongoing sock addr (take sizeof_udp_datagram data) i (u32 time)
                (dgram_id data) len)
    (fun _ w' => exists s' e' tr', w' = on g (put i s' t) e' tr' /\ slot_step (dgram_id data) s s')
    (on g t e tr).
Proof.
  intros Hi Hst. apply wp_bind. eapply wp_load_session; [exact Hi|].
  destruct (Z.ltb_spec (dgram_id data) 0) as [Hid|Hid].
  - apply wp_bind, wp_store_session, wp_bind, wp_send_stat_partial. intros to r e'.
    apply wp_bind, wp_lift_partial. intros res _. apply wp_notify_on. intros e''.
    eexists (finished (u32 time) s), _, _. split; [reflexivity|]. by constructor.
  - apply wp_bind, wp_lift_partial. intros sec _. apply wp_bind, wp_lift_partial. intros usec _.
    apply wp_store_session. eexists (udp_packet s (Packet (dgram_id data) len _ _)), _, _.
    split; [reflexivity|]. by constructor.
Qed.

(** Whatever the datagram and its sender, the table makes one step and no other
    static variable changes. *)
Lemma udp_received_step sock addr data len g t e tr :
  wp Partial (udp_received sock addr data len)
    (fun _ w' => exists t' e' tr', w' = on g t' e' tr' /\ table_step addr data t t') (on g t e tr).
Proof.
  unfold udp_received. destruct (len <? _).
  { apply wp_ret. eexists t, e, tr. split; [done|by left]. }
  apply wp_bind, wp_lift_partial. intros hdr Hhdr. apply wp_bind, wp_clock. intros time e1 _.
  apply wp_bind, wp_find_session_partial. intros r t1 Hget.
  destruct r as [i|]; [|apply wp_ret; eexists t1, _, _; split; [reflexivity|]].
  2: { left. unfold get_session, mbind, outcome_bind in Hget.
       destruct (scan addr 0 (row SESSION_UDP t) None) as [[[a|] fr]| |]; try done.
       destruct fr as [f|]; [|by injection Hget as <-].
       destruct (row SESSION_UDP t !! f); [|done]. by destruct (bind_slot addr _). }
  apply wp_bind, wp_lift_partial. intros id Hid.
  assert (hdr = take sizeof_udp_datagram data /\ s32 (ntohl id) = dgram_id data) as [-> Hid'].
  { unfold read_at in Hhdr. case_decide; [|done]. injection Hhdr as <-. rewrite drop_0 in *.
    rewrite (hdr_load 0) in Hid by (unfold sizeof_udp_datagram in *; lia).
    split; [done|]. by injection Hid as <-. }
  rewrite Hid'. apply wp_bind.
  apply wp_load_session_partial. intros s Hi. cbv zeta.
  assert (Hfin : forall w' : world E, (exists s' e' tr',  w' = on g (put i s' t1) e' tr' /\
                              slot_step (dgram_id data) s s') ->
                  exists t' e' tr', w' = on g t' e' tr' /\ table_step addr data t t').
  { intros w' (s' & e' & tr' & -> & Hs). eexists _, _, _. split; [reflexivity|].
    right. by exists i, t1, s, s'. }
  destruct (state_of s) eqn:Hst.
  - eapply wp_mono; [apply udp_idle_step; [exact Hi|]|intros ? w' H; by apply Hfin].
    unfold slot_free. by rewrite Hst.
  - eapply wp_mono; [by eapply udp_ongoing_step|intros ? w' H; by apply Hfin].
  - apply wp_ret, Hfin. eexists s, _, _. split; [|constructor].
    unfold put. rewrite set_row_same by done. reflexivity.
  - eapply wp_mono; [apply udp_idle_step; [exact Hi|]|intros ? w' H; by apply Hfin].
    unfold slot_free. by rewrite Hst.
Qed.

(** ** Invariants over any sequence of datagrams *)
Lemma slot_step_ok id s s' : session_ok s -> slot_step id s s' -> session_ok s'.
Proof.
  unfold session_ok. intros Hs Hstep. destruct Hstep as [s|s time Hf Hid|s p Hst Hid Hp|s time Hst Hid].
  - exact Hs.
  - cbn. split_and!; try lia. done.
  - unfold udp_packet, udp_data. destruct (udp_sequence _ _) as [[o er] n] eqn:Hseq.
    cbn [counter next_id outorder error length_of jitter last_transit_time state_of add_data].
    unfold udp_sequence in Hseq. cbn [next_id outorder error add_data] in Hseq.
    assert (0 <= o < 4294967296 /\ 0 <= er < 4294967296 /\ 0 <= n < 4294967296) as (? & ? & ?).
    { destruct (negb _); [destruct (_ <? _)|]; injection Hseq as <- <- <-;
        pose proof u32_range; split_and!; try apply u32_range; lia. }
    assert (-2147483648 <= udp_jitter (s32 (time_delta (pk_recv_us p) (pk_sent_us p)))
              (add_data (pk_len p) s) < 2147483648).
    { unfold udp_jitter. cbn. destruct (_ =? 0); [lia|]. apply s32_range. }
    destruct Hs as (? & ? & ? & ? & ? & ? & ? & ?).
    split_and!; try done; try lia; first [apply u32_range | apply s32_range | unfold u64; lia].
  - unfold finished. cbn. destruct Hs as (? & ? & ? & ? & ? & ? & ? & ?).
    split_and!; try lia; done.
Qed.

Lemma table_step_ok addr k data t t' :
  addr_peer addr = Done (Some k) -> table_ok t -> table_step addr data t t' -> table_ok t'.
Proof.
  intros Hk Hok [-> | (i & t1 & s & s' & Hget & Hi & Hstep & ->)]; [done|].
  destruct (get_session_ok addr k _ _ _ _ Hok Hk Hget) as [Hwf1 Hok1]. split.
  - assert (ip s' = ip s /\ port s' = port s) as [Hip Hport].
    { destruct Hstep; try done. by destruct (udp_packet_fixed s p) as (-> & -> & _). }
    by eapply put_wf.
  - intros q. unfold put. rewrite row_set_row. case_decide as Hq; [subst q|apply Hok1].
    apply Forall_insert; [apply Hok1|]. eapply slot_step_ok; [|exact Hstep].
    exact (Forall_lookup_1 _ _ _ _ (Hok1 SESSION_UDP) Hi).
Qed.

(** An invariant of the session table under steps is one of [deliver]. *)
Lemma deliver_inv sock (I : table -> Prop) msgs g t e tr :
  (forall addr data t t', In (addr, data) msgs -> I t -> table_step addr data t t' -> I t') ->
  I t ->
  wp Partial (deliver sock msgs)
    (fun _ w' => exists t' e' tr', w' = on g t' e' tr' /\ I t') (on g t e tr).
Proof.
  revert t e tr. induction msgs as [|[addr data] msgs IH]; intros t e tr Hstep HI.
  - apply wp_ret. by eexists t, e, tr.
  - cbn [deliver]. apply wp_bind. eapply wp_mono; [apply udp_received_step|].
    intros _ w' (t' & e' & tr' & -> & Ht). apply IH.
    + intros a d t1 t2 Hin. apply Hstep. by right.
    + eapply Hstep; [by left|done|done].
Qed.

(** C23: the type invariant of the session table. Whatever datagrams arrive, from
    whatever peers: counters stay in the ranges of their C types, the state
    [STATE_LAST_PACKET_RECEIVED] is never entered, no two slots belong to one
    peer, and no static variable but the session table changes. *)
Theorem udp_deliver_ok sock msgs w :
  table_ok (sessions (glob w)) ->
  Forall (fun m => exists k, addr_peer (fst m) = Done (Some k)) msgs ->
  wp Partial (deliver sock msgs)
    (fun _ w' => table_ok (sessions (glob w')) /\
       glob w' = set_sessions (sessions (glob w')) (glob w)) w.
Proof.
  intros Hok Hms. rewrite (world_on w).
  eapply wp_mono; [apply (deliver_inv sock table_ok msgs)|].
  - intros addr data t t' Hin Ht Hst.
    destruct (proj1 (List.Forall_forall _ _) Hms _ Hin) as [k Hk]. by eapply table_step_ok.
  - exact Hok.
  - intros _ w' (t' & e' & tr' & -> & Ht). split; [exact Ht|]. by destruct w as [[] ? ?].
Qed.

(** Peers do not disturb each other. A session in progress is left as it is
    by any datagrams of other peers, whatever they contain. *)
Theorem udp_deliver_isolation sock msgs w i s k0 :
  table_wf (sessions (glob w)) ->
  row SESSION_UDP (sessions (glob w)) !! i = Some s ->
  slot_peer s = Some k0 -> slot_free s = false ->
  Forall (fun m => exists k, addr_peer (fst m) = Done (Some k) /\ k <> k0) msgs ->
  wp Partial (deliver sock msgs)
    (fun _ w' => row SESSION_UDP (sessions (glob w')) !! i = Some s /\
       row SESSION_TCP (sessions (glob w')) = row SESSION_TCP (sessions (glob w))) w.
Proof.
  intros Hwf Hi Hs Hbusy Hms. rewrite (world_on w).
  set (tcp := row SESSION_TCP (sessions (glob w))).
  eapply wp_mono;
    [apply (deliver_inv sock (fun t => table_wf t /\ row SESSION_UDP t !! i = Some s /\
                                       row SESSION_TCP t = tcp) msgs)|].
  - intros addr data t t' Hin (Ht & Hti & Htcp) Hst.
    destruct (proj1 (List.Forall_forall _ _) Hms _ Hin) as (k & Hk & Hne). cbn in Hk.
    destruct Hst as [-> | (j & t1 & s1 & s2 & Hget & Hj & Hstep & ->)]; [done|].
    destruct (get_session_slot addr k _ _ _ _ Ht Hk Hget) as (Ht1 & (s1' & Hj' & Hp1) & Hoth & Hold).
    assert (s1' = s1) as -> by congruence.
    assert (Hij : j <> i).
    { intros ->. destruct (Hold s Hti) as [H|H]; congruence. }
    split; [|split].
    + assert (ip s2 = ip s1 /\ port s2 = port s1) as [Hip Hport].
      { destruct Hstep; try done. by destruct (udp_packet_fixed s0 p) as (-> & -> & _). }
      by eapply put_wf.
    + rewrite put_other by congruence. rewrite Hoth by congruence. done.
    + transitivity (row SESSION_TCP t1); [by apply list_eq; intros n; apply put_other|].
      rewrite <- Htcp. apply list_eq. intros n. by apply Hoth.
  - done.
  - by intros _ w' (t' & e' & tr' & -> & _ & Ht & Htcp).
Qed.

(** The closing datagram of a session with no packet counted. *)
Lemma udp_fin_faults sock addr data i s to g t e tr :
  get_session addr SESSION_UDP t = Done (Some i, t) -> row SESSION_UDP t !! i = Some s ->
  state_of s = STATE_ONGOING -> counter s = 0 -> destination addr = Done to ->
  whole data -> dgram_id data < 0 ->
  faults DivisionByZero (udp_received sock addr data (Z.of_nat (length data))) (on g t e tr).
Proof.
  intros Hget Hi Hst Hc Hto Hw Hid. unfold whole in Hw. unfold udp_received.
  destruct (Z.ltb_spec (Z.of_nat (length data)) (Z.of_nat sizeof_udp_datagram)); [lia|].
  apply faults_after. eapply wp_lift; [apply read_at_ok; lia|]. rewrite drop_0.
  apply faults_after, wp_clock. intros time e1 _.
  apply faults_after. eapply wp_find_session; [exact Hget|].
  apply faults_after. eapply wp_lift; [by apply (hdr_load 0); [unfold sizeof_udp_datagram; lia|]|].
  cbv zeta. rewrite drop_0. fold (dgram_id data).
  apply faults_after. eapply wp_load_session; [exact Hi|]. rewrite Hst.
  apply faults_after. eapply wp_load_session; [exact Hi|].
  destruct (Z.ltb_spec (dgram_id data) 0); [|lia].
  apply faults_after, wp_store_session, faults_after. eapply wp_send_stat; [exact Hto|]. intros r e2.
  apply faults_here, faults_lift. unfold udp_fill_results, c_div.
  cbn [counter set_stat set_state]. by rewrite Hc.
Qed.

(** The statistics can be fetched again. After a session has ended, every
    further closing datagram of its client, for instance because the reply was
    lost, is answered with the same statistics; nothing is reported to the
    callback again and the table stays as it is. *)
Theorem udp_fin_again sock addr k to fins i s w :
  table_wf (sessions (glob w)) -> addr_peer addr = Done (Some k) -> destination addr = Done to ->
  row SESSION_UDP (sessions (glob w)) !! i = Some s -> slot_peer s = Some k ->
  state_of s = STATE_COMPLETED ->
  Forall (fun d => whole d /\ dgram_id d < 0) fins ->
  wp Total (deliver sock ((fun d => (addr, d)) <$> fins)) (fun _ w' =>
    glob w' = glob w /\ exists evs, trace w' = trace w ++ evs /\ callbacks evs = [] /\
      sent_to evs =
        (fun d => (sock, build_reply (take sizeof_udp_datagram d) (stat s), to)) <$> fins) w.
Proof.
  intros Hwf Hk Hto Hi Hs Hst Hf. rewrite (world_on w). set (g := glob w) in *. set (t := sessions g) in *.
  change (glob (on g t (env w) (trace w))) with (set_sessions t g).
  change (trace (on g t (env w) (trace w))) with (trace w).
  generalize (env w) (trace w). clearbody t g. clear w. induction Hf as [|d fins [Hw Hid] _ IH].
  - intros e tr. apply wp_ret. split; [done|]. exists []. by rewrite app_nil_r.
  - intros e tr. cbn [fmap list_fmap deliver]. unfold whole in Hw. apply wp_bind.
    eapply wp_enter; [lia|done|by eapply get_session_found|exact Hi|].
    intros time e1. cbv zeta. rewrite Hst.
    eapply wp_idle_fin; [exact Hi|done|exact Hto|]. intros r e2.
    eapply wp_mono; [apply IH|]. intros _ w' (Hg & evs & Htr & Hcb & Hsent).
    split; [exact Hg|]. exists (Event TaskGetTickCount time :: Event (LwipSendto sock
      (build_reply (take sizeof_udp_datagram d) (stat s)) 0 to) r :: evs).
    rewrite Htr, <- !app_assoc. split; [done|]. split; [exact Hcb|].
    cbn [sent_to]. by rewrite Hsent.
Qed.

(** Sessions that do not end. Once every slot of the table belongs to a
    session in progress, a new client is not served: its datagrams change no
    static variable, are not answered and not reported, however many there
    are. *)
Theorem udp_exhausted sock msgs w :
  table_wf (sessions (glob w)) ->
  Forall (fun s => slot_free s = false) (row SESSION_UDP (sessions (glob w))) ->
  Forall (fun m => exists k, addr_peer (fst m) = Done (Some k) /\
            Forall (fun s => slot_peer s <> Some k) (row SESSION_UDP (sessions (glob w)))) msgs ->
  wp Total (deliver sock msgs) (fun _ w' =>
    glob w' = glob w /\ exists evs, trace w' = trace w ++ evs /\ silent evs) w.
Proof.
  intros Hwf Hbusy Hms. rewrite (world_on w). set (g := glob w) in *. set (t := sessions g) in *.
  change (glob (on g t (env w) (trace w))) with (set_sessions t g).
  change (trace (on g t (env w) (trace w))) with (trace w).
  generalize (env w) (trace w). clearbody t g. clear w.
  induction Hms as [|[addr data] msgs (k & Hk & Hno) _ IH]; intros e tr.
  - apply wp_ret. split; [done|]. exists []. by rewrite app_nil_r.
  - cbn [deliver]. apply wp_bind. unfold udp_received. cbn in Hk.
    destruct (Z.ltb_spec (Z.of_nat (length data)) (Z.of_nat sizeof_udp_datagram)) as [Hlt|Hge].
    { apply wp_ret, IH. }
    apply wp_bind. eapply wp_lift; [apply read_at_ok; lia|].
    apply wp_bind, wp_clock. intros time e1 _.
    destruct (Hwf SESSION_UDP) as [Hs Hu]. pose proof (get_session_cases addr k _ _ Hk Hs) as Hget.
    destruct (binding_map 0 (row SESSION_UDP t) !! k) as [j|] eqn:Hb.
    { apply binding_map_unique in Hb as (s & Hj & Hp); [|done]. exfalso.
      exact (Forall_lookup_1 _ _ _ _ Hno Hj Hp). }
    apply (first_free_slot_None 0) in Hbusy. rewrite Hbusy in Hget.
    apply wp_bind. eapply wp_find_session; [exact Hget|]. apply wp_ret.
    eapply wp_mono; [apply IH|]. intros _ w' (Hg & evs & Htr & Hev).
    split; [exact Hg|]. exists (Event TaskGetTickCount time :: evs).
    rewrite Htr, <- app_assoc. split; [done|]. by apply silent_clock.
Qed.

Lemma empty_session sock addr k to start fin i s0 w t1 :
  table_wf (sessions (glob w)) -> addr_peer addr = Done (Some k) -> destination addr = Done to ->
  get_session addr SESSION_UDP (sessions (glob w)) = Done (Some i, t1) ->
  row SESSION_UDP t1 !! i = Some s0 -> slot_free s0 = true ->
  whole start -> 0 <= dgram_id start -> whole fin -> dgram_id fin < 0 ->
  deliver sock [(addr, start); (addr, fin)] w = Fault DivisionByZero.
Proof.
  intros Hwf Hk Hto Hget Hi Hfree Hws Hstart Hwf' Hfin. rewrite (world_on w) in *.
  destruct (get_session_slot addr k SESSION_UDP _ i t1 Hwf Hk Hget) as (Hwf1 & Hs & _).
  destruct Hs as (s0' & Hi' & Hpeer). assert (s0' = s0) as -> by congruence. clear Hi'.
  cbn [deliver]. unfold mbind at 1, M_bind at 1.
  assert (Hst : wp Total (udp_received sock addr start (Z.of_nat (length start)))
    (fun _ w' => exists time e' tr', w' = on (glob w) (put i (started (u32 time) s0) t1) e' tr')
    (on (glob w) (sessions (glob w)) (env w) (trace w))).
  { eapply wp_start; [exact Hget|exact Hi|done..|]. intros time e'. eauto. }
  apply wp_total_done in Hst as ([] & w' & -> & time & e' & tr' & ->).
  set (s := started (u32 time) s0). set (t := put i s t1).
  assert (Hfound : get_session addr SESSION_UDP t = Done (Some i, t)).
  { eapply get_session_found; [by eapply put_wf|exact Hk|by eapply put_lookup|].
    rewrite <- Hpeer. by apply slot_peer_same. }
  assert (Hslot : row SESSION_UDP t !! i = Some s) by (by eapply put_lookup).
  unfold mbind at 1, M_bind at 1. rewrite (udp_fin_faults sock addr fin i s to); done.
Qed.

(** C37: a session without data. A client whose closing datagram follows the first
    datagram of its session, with no data counted in between, makes the server
    divide by zero: the mean packet size is computed from the packet count
    without a test. This holds in every environment. *)
Theorem udp_empty_session_faults sock addr k to start fin i s0 w t1 :
  table_wf (sessions (glob w)) -> addr_peer addr = Done (Some k) -> destination addr = Done to ->
  get_session addr SESSION_UDP (sessions (glob w)) = Done (Some i, t1) ->
  row SESSION_UDP t1 !! i = Some s0 -> slot_free s0 = true ->
  whole start -> 0 <= dgram_id start -> whole fin -> dgram_id fin < 0 ->
  deliver sock [(addr, start); (addr, fin)] w = Fault DivisionByZero.
Proof. apply empty_session. Qed.
End Conversation.

(** ** Witnesses *)
Section Witnesses.
#[local] Existing Instances lwip_example rtos_example.

(** A datagram of [12 + n] bytes. *)
Definition example_dgram (id : Z) (n : nat) : bytes :=
  store_le 4 (htonl id) ++ memset 0 8 ++ memset 122 n.

Definition example_key : peer := Peer4 35091 16820416.

(** A UDP row whose slots are bound to 1, 2, 3 and 4 at port 5001, all in the
    given state. *)
Definition example_slot (n : Z) (st : state) : session :=
  set_key 35091 (NetAddr 2 ([10; 0; 0; n] ++ memset 0 12)) (set_state st zero_session).
Definition example_busy_world : world (list reply) :=
  with_glob (set_sessions (Table ((fun n => example_slot n STATE_ONGOING) <$> [1; 2; 3; 4])
                             (row_tcp static_table)))
    (example_world []).

Lemma example_busy_wf : table_wf (sessions (glob example_busy_world)).
Proof.
  intros []; [|apply (static_table_wf SESSION_TCP)].
  split; [by repeat constructor|]. intros i j s s' k Hi Hj H1 H2.
  destruct i as [|[|[|[|i]]]], j as [|[|[|[|j]]]]; try done;
    injection Hi as <-; injection Hj as <-; vm_compute in H1, H2; congruence.
Qed.

Lemma udp_session_run_witness :
  exists w', deliver 3 ((fun d => (example_peer4, d)) <$>
      example_dgram 0 88 :: [example_dgram 1 88; example_dgram 3 88; example_dgram 2 88]
        ++ [example_dgram (-4) 88]) (example_world []) = Done (tt, w') /\
    exists r evs, trace w' = evs /\ nb_packets_rcvd r = 3 /\ nb_packets_outorder r = 1 /\
      nb_packets_lost r = 1 /\ total_len r = 300.
Proof.
  assert (H : wp Total _ _ _) by
    (apply (udp_session_run (L := lwip_example) (R := rtos_example) 3 example_peer4 example_key
       example_peer4 (example_dgram 0 88) [example_dgram 1 88; example_dgram 3 88; example_dgram 2 88]
       (example_dgram (-4) 88) 0%nat (set_key 35091 (NetAddr 2 ([192; 168; 0; 1] ++ memset 0 12)) zero_session)
       (example_world []) (set_row SESSION_UDP
          (<[0%nat := set_key 35091 (NetAddr 2 ([192; 168; 0; 1] ++ memset 0 12)) zero_session]>
             (row_udp static_table)) static_table));
     [apply (static_table_wf (L := lwip_example))|vm_compute; reflexivity|vm_compute; reflexivity
     |vm_compute; reflexivity|vm_compute; reflexivity|vm_compute; reflexivity
     |repeat constructor; vm_compute; lia|vm_compute; discriminate|vm_compute; reflexivity
     |repeat constructor; vm_compute; discriminate|discriminate|cbn; lia]).
  apply wp_total_done in H.
  destruct H as ([] & w' & Hrun & s & ps & r & evs & _ & _ & _ & _ & Htr & _ & H1 & H2 & H3 & H4).
  exists w'. split; [exact Hrun|]. exists r, evs.
  split; [exact Htr|]. split; [exact H1|]. split; [exact H2|]. split; [exact H3|exact H4].
Defined.

Lemma udp_deliver_ok_witness :
  exists w', deliver 3 [(example_peer4, example_dgram 0 0); (example_peer4, [1; 2])]
               (example_world []) = Done (tt, w') /\ table_ok (sessions (glob w')).
Proof.
  assert (Hok : table_ok static_table).
  { split; [apply static_table_wf|]. intros p.
    assert (row p static_table = replicate SESSION_MAX zero_session) as -> by by destruct p.
    apply Forall_replicate. unfold session_ok. cbn. split_and!; try lia; done. }
  destruct (deliver 3 [(example_peer4, example_dgram 0 0); (example_peer4, [1; 2])]
              (example_world [])) as [[[] w']| |] eqn:Hrun;
    [|vm_compute in Hrun; discriminate Hrun..].
  exists w'. split; [reflexivity|].
  refine (proj1 (wp_done Partial _ _ _ tt w' (udp_deliver_ok (L := lwip_example) (R := rtos_example)
    3 [(example_peer4, example_dgram 0 0); (example_peer4, [1; 2])] (example_world []) Hok _) Hrun)).
  repeat constructor; exists example_key; vm_compute; reflexivity.
Defined.

Lemma udp_deliver_isolation_witness :
  exists w', deliver 3 [([0; 2; 19; 137; 10; 0; 0; 2; 0; 0; 0; 0; 0; 0; 0; 0], example_dgram 7 100)]
               example_busy_world = Done (tt, w') /\
    row_udp (sessions (glob w')) !! 0%nat = Some (example_slot 1 STATE_ONGOING).
Proof.
  destruct (deliver 3 [([0; 2; 19; 137; 10; 0; 0; 2; 0; 0; 0; 0; 0; 0; 0; 0], example_dgram 7 100)]
              example_busy_world) as [[[] w']| |] eqn:Hrun;
    [|vm_compute in Hrun; discriminate Hrun..].
  exists w'. split; [reflexivity|].
  refine (proj1 (wp_done Partial _ _ _ tt w' (udp_deliver_isolation (L := lwip_example)
    (R := rtos_example) 3 [([0; 2; 19; 137; 10; 0; 0; 2; 0; 0; 0; 0; 0; 0; 0; 0], example_dgram 7 100)]
    example_busy_world 0%nat (example_slot 1 STATE_ONGOING) (Peer4 35091 16777226)
    example_busy_wf eq_refl eq_refl eq_refl _) Hrun)).
  repeat constructor. exists (Peer4 35091 33554442). split; [vm_compute; reflexivity|discriminate].
Defined.

Lemma udp_fin_again_witness :
  let s := set_key 35091 (NetAddr 2 ([192; 168; 0; 1] ++ memset 0 12))
             (set_state STATE_COMPLETED zero_session) in
  let w := with_glob (set_sessions (Table [s] (row_tcp static_table))) (example_world []) in
  exists w', deliver 3 [(example_peer4, example_dgram (-4) 0)] w = Done (tt, w') /\
    glob w' = glob w.
Proof.
  intros s w.
  assert (Hwf : table_wf (sessions (glob w))).
  { intros []; [|apply (static_table_wf SESSION_TCP)]. split; [by repeat constructor|].
    intros [|i] [|j] ? ? ? Hi Hj; done. }
  assert (H : wp Total _ _ w) by
    (apply (udp_fin_again (L := lwip_example) (R := rtos_example) 3 example_peer4 example_key
       example_peer4 [example_dgram (-4) 0] 0%nat s w Hwf);
     [vm_compute; reflexivity|vm_compute; reflexivity|reflexivity|vm_compute; reflexivity|reflexivity
     |repeat constructor; vm_compute; lia]).
  apply wp_total_done in H. destruct H as ([] & w' & Hrun & Hg & _).
  exists w'. split; [exact Hrun|exact Hg].
Defined.

Lemma udp_exhausted_witness :
  exists w', deliver 3 [(example_peer4, example_dgram 0 100); (example_peer4, example_dgram 1 100)]
               example_busy_world = Done (tt, w') /\ glob w' = glob example_busy_world.
Proof.
  assert (H : wp Total _ _ example_busy_world) by
    (apply (udp_exhausted (L := lwip_example) (R := rtos_example) 3
       [(example_peer4, example_dgram 0 100); (example_peer4, example_dgram 1 100)]
       example_busy_world example_busy_wf);
     [repeat constructor
     |repeat constructor; (exists example_key; split;
        [vm_compute; reflexivity|repeat constructor; vm_compute; discriminate])]).
  apply wp_total_done in H. destruct H as ([] & w' & Hrun & Hg & _).
  exists w'. split; [exact Hrun|exact Hg].
Defined.

Lemma udp_empty_session_faults_witness :
  deliver 3 [(example_peer4, example_dgram 0 88); (example_peer4, example_dgram (-1) 88)]
    (example_world []) = Fault DivisionByZero.
Proof.
  apply (udp_empty_session_faults (L := lwip_example) (R := rtos_example) 3 example_peer4
    example_key example_peer4 (example_dgram 0 88) (example_dgram (-1) 88) 0%nat
    (set_key 35091 (NetAddr 2 ([192; 168; 0; 1] ++ memset 0 12)) zero_session) (example_world [])
    (set_row SESSION_UDP
      (<[0%nat := set_key 35091 (NetAddr 2 ([192; 168; 0; 1] ++ memset 0 12)) zero_session]>
         (row_udp static_table)) static_table));
    [apply (static_table_wf (L := lwip_example))|vm_compute; reflexivity|vm_compute; reflexivity
    |vm_compute; reflexivity|vm_compute; reflexivity|reflexivity|vm_compute; lia
    |vm_compute; discriminate|vm_compute; lia|vm_compute; reflexivity].
Defined.
End Witnesses.
