(* ===== verification/UdpSpec.v ===== *)
(** The UDP server as its clients see it: an abstract server, whose state is a
    finite map from peers to what is known of each, and which keeps the packets
    of a measurement instead of counters; and the proof that the packet handler
    of zperf_udp_receiver.c implements it. *)
From stdpp Require Import gmap.
From S2P Require Import Prelude CInt Platform CString Kernel NetIp Session World Common Server UdpStats UdpReceiver.
Open Scope Z_scope.

(** ** The report of a measurement, from the packets received

    The last jitter and transit time, after one more transit time. *)
Definition smooth (jl : Z * Z) (t : Z) : Z * Z :=
  let '(j, last) := jl in
  (if last =? 0 then j else
     let d := s32 (t - last) in
     s32 (j + Z.quot (s32 ((if d <? 0 then s32 (- d) else d) - j)) 16), t).

Definition packets (ps : list packet) : Z := u32 (Z.of_nat (length ps)).
Definition octets (ps : list packet) : Z := u64 (sum (pk_len <$> ps)).
Definition reordered (ps : list packet) : Z := u32 (late 0 (pk_id <$> ps)).
(** The identifiers up to the largest that were not received in order. *)
Definition lost (ps : list packet) : Z :=
  u32 (max_id (pk_id <$> ps) - (Z.of_nat (length ps) - late 0 (pk_id <$> ps))).
Definition jitter_of (ps : list packet) : Z := fst (foldl smooth (0, 0) (transit <$> ps)).

Definition report (duration : Z) (ps : list packet) : zperf_server_hdr :=
  ServerHdr (-2147483648)
    (s32 (octets ps / 4294967296)) (s32 (octets ps mod 4294967295))
    (s32 (duration / 1000000)) (s32 (duration mod 1000000))
    (s32 (lost ps)) (s32 (reordered ps)) (s32 (packets ps)) 0 (jitter_of ps).

Definition summary (duration : Z) (ps : list packet) : outcome zperf_results :=
  size ← c_div (octets ps) (packets ps);
  mret (Results 0 (packets ps) (lost ps) (reordered ps) (u32 (octets ps)) duration
          (u32 (jitter_of ps)) 0 (u32 size) 0).

(** ** Counting is as good as remembering *)
Lemma stream_counts_mod ps s hi o e :
  Forall (fun p => 0 <= pk_id p < 2147483648) ps ->
  0 <= hi < 2147483648 -> next_id s = 1 + hi -> outorder s = u32 o -> error s = u32 e ->
  let ids := pk_id <$> ps in
  let s' := udp_stream ps s in
  outorder s' = u32 (o + late hi ids) /\
  error s' = u32 (e + (foldr Z.max hi ids - hi) - (Z.of_nat (length ps) - late hi ids)).
Proof.
  cbv zeta. unfold udp_stream. revert s hi o e.
  induction ps as [|p ps IH]; intros s hi o e Hids Hhi Hn Ho He.
  - cbn. rewrite Ho, He. split; f_equal; lia.
  - apply Forall_cons_iff in Hids as [Hp Hids].
    cbn [foldl fmap list_fmap foldr late length]. set (id := pk_id p) in *.
    assert (Hmax : forall l a b, foldr Z.max (Z.max a b) l = Z.max b (foldr Z.max a l)).
    { induction l as [|z l IHl]; intros a b; cbn; [lia|]. rewrite IHl. lia. }
    assert (Hstep : (id <= hi /\ next_id (udp_packet s p) = 1 + hi /\
                     outorder (udp_packet s p) = u32 (o + 1) /\
                     error (udp_packet s p) = u32 e) \/
                    (hi < id /\ next_id (udp_packet s p) = 1 + id /\
                     outorder (udp_packet s p) = u32 o /\
                     error (udp_packet s p) = u32 (e + (id - hi - 1)))).
    { unfold udp_packet, udp_data, udp_sequence. fold id. cbn [next_id outorder error add_data].
      rewrite Hn, Ho, He, (u32_small id) by lia.
      destruct (Z.eqb_spec id (1 + hi)); cbn [negb];
        [|destruct (Z.ltb_spec id (1 + hi))]; cbn [next_id outorder error]; cint. }
    destruct (Z.leb_spec id hi) as [Hle|Hlt].
    + destruct Hstep as [(_ & Hn' & Ho' & He')|]; [|lia].
      destruct (IH (udp_packet s p) hi (o + 1) e Hids) as (-> & ->); try done.
      rewrite <- Hmax, Z.max_l by lia. split; f_equal; lia.
    + destruct Hstep as [|(_ & Hn' & Ho' & He')]; [lia|].
      destruct (IH (udp_packet s p) id o (e + (id - hi - 1)) Hids) as (-> & ->); try done; try lia.
      replace (foldr Z.max id (pk_id <$> ps)) with (Z.max id (foldr Z.max hi (pk_id <$> ps)))
        by (rewrite <- Hmax; f_equal; lia).
      split; f_equal; lia.
Qed.

Lemma stream_jitter ps s :
  (jitter (udp_stream ps s), last_transit_time (udp_stream ps s)) =
  foldl smooth (jitter s, last_transit_time s) (transit <$> ps).
Proof.
  unfold udp_stream. revert s. induction ps as [|p ps IH]; intros s; [done|].
  cbn [foldl fmap list_fmap]. rewrite IH. f_equal.
  unfold udp_packet, udp_data. by destruct (udp_sequence _ _) as [[? ?] ?].
Qed.

(** The session's counters, and what they stand for. *)
Lemma stream_stats ps s :
  fresh s -> Forall (fun p => 0 <= pk_id p < 2147483648) ps ->
  let s' := udp_stream ps s in
  counter s' = packets ps /\ length_of s' = octets ps /\ outorder s' = reordered ps /\
  error s' = lost ps /\ jitter s' = jitter_of ps.
Proof.
  intros (Hc & Hn & Ho & He & Hl & Hj & Ht) Hids. cbv zeta.
  destruct (udp_stream_totals ps s) as [H1 H2].
  pose proof (udp_stream_counter_range ps s ltac:(lia)) as Hcr.
  pose proof (udp_stream_length_range ps s ltac:(lia)) as Hlr.
  rewrite Hc, (u32_small (counter _)) in H1 by done. rewrite Hl, (u64_small (length_of _)) in H2 by done.
  destruct (stream_counts_mod ps s 0 0 0 Hids) as [H3 H4]; try done; try lia.
  pose proof (stream_jitter ps s) as H5. rewrite Hj, Ht in H5.
  split_and!; [exact H1|exact H2|exact H3| |unfold jitter_of; by rewrite <- H5].
  rewrite H4. unfold lost, max_id. f_equal. lia.
Qed.

Lemma stream_fill_stat ps s duration :
  fresh s -> Forall (fun p => 0 <= pk_id p < 2147483648) ps ->
  udp_fill_stat duration (udp_stream ps s) = report duration ps.
Proof.
  intros Hf Hids. destruct (stream_stats ps s Hf Hids) as (Hc & Hl & Ho & He & Hj).
  unfold udp_fill_stat, report. rewrite Hc, Hl, Ho, He, Hj. change USEC_PER_SEC with 1000000.
  rewrite Z.shiftr_div_pow2 by lia. done.
Qed.
Lemma stream_fill_results ps s duration :
  fresh s -> Forall (fun p => 0 <= pk_id p < 2147483648) ps ->
  udp_fill_results duration (udp_stream ps s) = summary duration ps.
Proof.
  intros Hf Hids. destruct (stream_stats ps s Hf Hids) as (Hc & Hl & Ho & He & Hj).
  unfold udp_fill_results, summary. by rewrite Hc, Hl, Ho, He, Hj.
Qed.

(** C7: the counters are equivalent to the packets. A session that counts the
    packets one by one, on machine integers, ends with the report and the
    results that are computed from the list of all packets received: their
    number, their bytes, those not larger than all before them, the gaps, and
    the smoothed differences of transit times. *)
Theorem stream_report ps s duration :
  fresh s -> Forall (fun p => 0 <= pk_id p < 2147483648) ps ->
  udp_fill_stat duration (udp_stream ps s) = report duration ps /\
  udp_fill_results duration (udp_stream ps s) = summary duration ps.
Proof. split; [by apply stream_fill_stat|by apply stream_fill_results]. Qed.

(** ** The abstract server

    What is known of a client: nothing in progress, and the statistics a closing
    datagram is answered with; or a measurement, with the time of its first
    datagram and the packets since. *)
Inductive client : Set :=
| Resting (st : zperf_server_hdr)
| Measuring (start : Z) (ps : list packet).

Inductive output : Set :=
| Answer (st : zperf_server_hdr)
| Started
| Finished (r : zperf_results).

Abbreviation clients := (gmap peer client).

Section Abstract.
Context {L : Lwip} {R : Rtos}.

(** What a client's datagram does, at a time in ticks. *)
Definition react (time : Z) (data : bytes) (c : client) : outcome (client * list output) :=
  let id := dgram_id data in
  match c with
  | Resting st =>
      if id <? 0 then mret (c, [Answer st]) else mret (Measuring time [], [Started])
  | Measuring start ps =>
      if id <? 0 then
        let duration := k_ticks_to_us_ceil32 (s64 (time - start)) in
        r ← summary duration ps;
        mret (Resting (report duration ps), [Answer (report duration ps); Finished r])
      else
        mret (Measuring start (ps ++ [Packet id (Z.of_nat (length data)) (k_ticks_to_us_ceil32 time)
                                        (dgram_sent_us data)]), [])
  end.

Definition measuring (c : client) : bool := if c is Measuring _ _ then true else false.

(** A place for a new peer: a free one, or that of a client at rest, whose
    statistics stay in it. *)
Inductive place (m : clients) : zperf_server_hdr -> clients -> Prop :=
| place_free : (size m < SESSION_MAX)%nat -> place m zero_hdr m
| place_of k st : m !! k = Some (Resting st) -> place m st (delete k m).

(** A datagram of peer [k], and the readings of the clock it takes. Without a
    place for a new peer it is ignored. *)
Inductive serve (k : peer) (data : bytes) (m : clients)
    : list Z -> list output -> clients -> Prop :=
| serve_short : (length data < sizeof_udp_datagram)%nat -> serve k data m [] [] m
| serve_known time c c' out :
    m !! k = Some c -> react time data c = Done (c', out) -> serve k data m [time] out (<[k := c']> m)
| serve_new time st m1 c' out :
    m !! k = None -> place m st m1 -> react time data (Resting st) = Done (c', out) ->
    serve k data m [time] out (<[k := c']> m1)
| serve_full time :
    m !! k = None -> size m = SESSION_MAX -> map_Forall (fun _ c => measuring c = true) m ->
    serve k data m [time] [] m.

(** Datagrams one after the other, with what each makes the server do. *)
Inductive serves : clients -> list (bytes * bytes) -> list Z -> list (list output) -> clients -> Prop :=
| serves_nil m : serves m [] [] [] m
| serves_cons m addr data k times out m1 msgs times' outs m2 :
    addr_peer addr = Done (Some k) -> serve k data m times out m1 -> serves m1 msgs times' outs m2 ->
    serves m ((addr, data) :: msgs) (times ++ times') (out :: outs) m2.

(** What the outputs are in calls to lwIP and to the callback. *)
Definition answers (sock : Z) (addr data : bytes) (out : list output) : list (Z * bytes * bytes) :=
  match destination addr with
  | Done to =>
      omap (fun o => match o with
                     | Answer st => Some (sock, build_reply (take sizeof_udp_datagram data) st, to)
                     | _ => None
                     end) out
  | _ => []
  end.
Definition reports (srv : server) (out : list output)
    : list (callback * zperf_status * option zperf_results * Z) :=
  match session_cb srv with
  | None => []
  | Some cb =>
      omap (fun o => match o with
                     | Answer _ => None
                     | Started => Some (cb, ZPERF_SESSION_STARTED, None, user_data srv)
                     | Finished r => Some (cb, ZPERF_SESSION_FINISHED, Some r, user_data srv)
                     end) out
  end.
Fixpoint all_answers (sock : Z) (msgs : list (bytes * bytes)) (outs : list (list output)) :=
  match msgs, outs with
  | (addr, data) :: msgs', out :: outs' =>
      answers sock addr data out ++ all_answers sock msgs' outs'
  | _, _ => []
  end.
End Abstract.

(** ** The abstraction relation *)
Section Refinement.
Context {L : Lwip} {LOk : LwipOk L} {R : Rtos}.

Definition represents (s : session) (c : client) : Prop :=
  match c with
  | Resting st => slot_free s = true /\ stat s = st
  | Measuring start ps =>
      state_of s = STATE_ONGOING /\ start_time s = start /\
      Forall (fun p => 0 <= pk_id p < 2147483648) ps /\
      exists s0, fresh s0 /\ s = udp_stream ps s0
  end.

(** Every slot bound to a peer represents what the map knows of the peer, and
    the map knows no other; the other slots are as new. *)
Definition implements (t : table) (m : clients) : Prop :=
  table_wf t /\ length (row SESSION_UDP t) = SESSION_MAX /\
  (forall i s, row SESSION_UDP t !! i = Some s ->
    match slot_peer s with
    | Some k => exists c, m !! k = Some c /\ represents s c
    | None => represents s (Resting zero_hdr)
    end) /\
  (forall k c, m !! k = Some c ->
    exists i s, row SESSION_UDP t !! i = Some s /\ slot_peer s = Some k).

Lemma represents_free s c : represents s c -> measuring c = negb (slot_free s).
Proof. destruct c as [st|start ps]; cbn; [by intros [-> _]|]. unfold slot_free. by intros [-> _]. Qed.

(** The peers of a row. *)
Lemma dom_covered t m :
  implements t m ->
  dom m =@{gset peer} list_to_set (omap slot_peer (row SESSION_UDP t)).
Proof.
  intros (_ & _ & Hi & Hc). apply leibniz_equiv, set_equiv. intros k. rewrite elem_of_dom, elem_of_list_to_set, list_elem_of_omap.
  split.
  - intros [c Hk]. destruct (Hc k c Hk) as (i & s & Hs & Hp). exists s.
    split; [by eapply list_elem_of_lookup_2|done].
  - intros (s & Hs & Hp). apply list_elem_of_lookup in Hs as [i Hs].
    specialize (Hi i s Hs). rewrite Hp in Hi. destruct Hi as (c & Hk & _). eauto.
Qed.

Lemma size_clients t m :
  implements t m -> size m = length (omap slot_peer (row SESSION_UDP t)).
Proof.
  intros Hi. rewrite <- size_dom, (dom_covered t m) by done.
  apply size_list_to_set, omap_peers_nodup. destruct Hi as (Hwf & _). apply Hwf.
Qed.

(** A slot whose peer stays the same. *)
Lemma implements_update t m i s s' k c :
  implements t m -> row SESSION_UDP t !! i = Some s -> slot_peer s = Some k ->
  ip s' = ip s -> port s' = port s -> represents s' c -> implements (put i s' t) (<[k := c]> m).
Proof.
  intros (Hwf & Hl & Hslots & Hcov) Hi Hk Hip Hport Hc.
  assert (Hk' : slot_peer s' = Some k) by (by rewrite (slot_peer_same s)).
  assert (Hrow : row SESSION_UDP (put i s' t) = <[i := s']> (row SESSION_UDP t)) by done.
  split_and!; [by eapply put_wf|by rewrite Hrow, length_insert| |].
  - intros j s1. rewrite Hrow. intros [(<- & <- & _)|(Hne & Hj)]%list_lookup_insert_Some.
    + rewrite Hk'. exists c. by rewrite lookup_insert_eq.
    + specialize (Hslots j s1 Hj). destruct (slot_peer s1) as [k1|] eqn:H1; [|done].
      assert (k1 <> k) by (intros ->; apply Hne; by eapply (proj2 (Hwf SESSION_UDP))).
      by rewrite lookup_insert_ne.
  - intros k1 c1 [(<- & <-)|(Hne & H1)]%lookup_insert_Some.
    + exists i, s'. split; [|done]. rewrite Hrow. apply list_lookup_insert_eq. by eapply lookup_lt_Some.
    + destruct (Hcov k1 c1 H1) as (j & s1 & Hj & Hp). exists j, s1. split; [|done].
      rewrite Hrow, list_lookup_insert_ne; [done|]. intros ->. congruence.
Qed.

(** A free slot that gets a peer. *)
Lemma implements_bind t m f s s' k :
  implements t m -> m !! k = None -> row SESSION_UDP t !! f = Some s -> slot_free s = true ->
  slot_peer s' = Some k -> stat s' = stat s -> slot_free s' = true -> table_wf (put f s' t) ->
  exists m1, place m (stat s) m1 /\ implements (put f s' t) (<[k := Resting (stat s)]> m1).
Proof.
  intros Him Hk Hf Hfree Hp' Hst Hfree' Hwf'. pose proof Him as (Hwf & Hl & Hslots & Hcov).
  pose proof (Hslots f s Hf) as Hs.
  assert (Hrow : row SESSION_UDP (put f s' t) = <[f := s']> (row SESSION_UDP t)) by done.
  assert (Hnew : forall m1, (forall j s1 k1, f <> j -> row SESSION_UDP t !! j = Some s1 ->
              slot_peer s1 = Some k1 -> m1 !! k1 = m !! k1) ->
            (forall k1, is_Some (m1 !! k1) -> is_Some (m !! k1) /\ slot_peer s <> Some k1) ->
            implements (put f s' t) (<[k := Resting (stat s)]> m1)).
  { intros m1 Hsame Hsub. split_and!; [done|by rewrite Hrow, length_insert| |].
    - intros j s1. rewrite Hrow. intros [(<- & <- & _)|(Hne & Hj)]%list_lookup_insert_Some.
      + rewrite Hp'. exists (Resting (stat s)). rewrite lookup_insert_eq. by rewrite <- Hst.
      + specialize (Hslots j s1 Hj). destruct (slot_peer s1) as [k1|] eqn:H1; [|done].
        destruct Hslots as (c & Hc & Hr). exists c. split; [|done].
        rewrite lookup_insert_ne by congruence. by rewrite (Hsame j s1).
    - intros k1 c1 [(<- & <-)|(Hne & H1)]%lookup_insert_Some.
      + exists f, s'. split; [|done]. rewrite Hrow. apply list_lookup_insert_eq. by eapply lookup_lt_Some.
      + destruct (Hsub k1) as [[c2 Hc2] Hns]; [by rewrite H1|].
        destruct (Hcov k1 c2 Hc2) as (j & s1 & Hj & Hp). exists j, s1. split; [|done].
        rewrite Hrow, list_lookup_insert_ne; [done|]. intros ->. congruence. }
  destruct (slot_peer s) as [k0|] eqn:Hk0.
  - destruct Hs as (c & Hc & Hr). destruct c as [st|start ps]; cbn in Hr;
      [|destruct Hr as [Hon _]; unfold slot_free in Hfree; by rewrite Hon in Hfree].
    destruct Hr as [_ <-]. exists (delete k0 m). split; [by apply place_of|]. apply Hnew.
    + intros j s1 k1 Hne Hj Hp. apply lookup_delete_ne. intros ->. apply Hne.
      by eapply (proj2 (Hwf SESSION_UDP)).
    + intros k1 [c1 H1]. apply lookup_delete_Some in H1 as [Hne H1]. split; [by eexists|congruence].
  - cbn in Hs. destruct Hs as [_ Hz]. exists m. split.
    + rewrite Hz. apply place_free. rewrite (size_clients t m) by done. rewrite <- Hl.
      by eapply omap_length_lt.
    + apply Hnew; [done|]. intros k1 H1. by split.
Qed.

(** Every slot in use: no place left. *)
Lemma implements_full t m :
  implements t m -> first_free_slot 0 (row SESSION_UDP t) = None ->
  size m = SESSION_MAX /\ map_Forall (fun _ c => measuring c = true) m.
Proof.
  intros Him Hfull. pose proof Him as (Hwf & Hl & Hslots & Hcov).
  apply first_free_slot_None in Hfull.
  assert (Hbound : forall i s, row SESSION_UDP t !! i = Some s ->
            exists k c, slot_peer s = Some k /\ m !! k = Some c /\ measuring c = true).
  { intros i s Hi. pose proof (Forall_lookup_1 _ _ _ _ Hfull Hi) as Hb. cbn in Hb.
    specialize (Hslots i s Hi). destruct (slot_peer s) as [k|];
      [|cbn in Hslots; by rewrite (proj1 Hslots) in Hb].
    destruct Hslots as (c & Hc & Hr). exists k, c. split; [done|]. split; [done|].
    by rewrite (represents_free s), Hb. }
  split.
  - rewrite (size_clients t m), <- Hl by done. apply omap_length_eq, Forall_lookup. intros i s Hi.
    destruct (Hbound i s Hi) as (k & c & Hk & _). by exists k.
  - intros k c Hk. destruct (Hcov k c Hk) as (i & s & Hi & Hp).
    destruct (Hbound i s Hi) as (k' & c' & Hk' & Hc' & Hm). congruence.
Qed.
End Refinement.

(** ** The packet handler implements the abstract server *)
Section Simulation.
Context {L : Lwip} {LOk : LwipOk L} {R : Rtos} {E : Type} `{!Env E}.
Implicit Types (g : globals) (t : table) (e : E) (tr : list event) (m : clients).

Lemma reports_started srv :
  callbacks (notified srv ZPERF_SESSION_STARTED None) = reports srv [Started].
Proof. rewrite callbacks_notified. unfold reports. by destruct (session_cb srv). Qed.

(** What the proofs below ask of the states after a reaction at [time]. *)
Definition reacted sock addr data i s c g t1 tr (Q : unit -> world E -> Prop) time : Prop :=
  forall c' out s' e' evs, react (u32 time) data c = Done (c', out) ->
    represents s' c' -> ip s' = ip s -> port s' = port s ->
    sent_to evs = answers sock addr data out -> callbacks evs = reports (udp_server g) out ->
    clock_readings evs = [u32 time] -> Q tt (on g (put i s' t1) e' (tr ++ evs)).

Lemma answers_one sock addr data to st :
  destination addr = Done to ->
  answers sock addr data [Answer st] = [(sock, build_reply (take sizeof_udp_datagram data) st, to)].
Proof. intros Hto. unfold answers. by rewrite Hto. Qed.

Lemma wp_react_resting sock addr data to i s st (Q : unit -> world E -> Prop) g t1 e tr time :
  row SESSION_UDP t1 !! i = Some s -> destination addr = Done to -> represents s (Resting st) ->
  reacted sock addr data i s (Resting st) g t1 tr Q time ->
  wp Total (udp_received_idle sock addr (take sizeof_udp_datagram data) i (u32 time) (dgram_id data)) Q
    (on g t1 e (tr ++ [Event TaskGetTickCount time])).
Proof.
  intros Hi Hto [Hfree <-] HQ. unfold reacted, react in HQ.
  destruct (Z.ltb_spec (dgram_id data) 0) as [Hid|Hid].
  - eapply wp_idle_fin; [exact Hi|done|exact Hto|]. intros r e2. rewrite <- app_assoc.
    rewrite <- (set_row_same SESSION_UDP t1 i s Hi).
    eapply (HQ _ _ s); [reflexivity|done..| | |].
    + by rewrite (answers_one _ _ _ _ _ Hto).
    + unfold reports. cbn. by destruct (session_cb (udp_server g)).
    + done.
  - eapply wp_idle_start; [exact Hi|done|]. intros e2. rewrite <- app_assoc.
    eapply (HQ _ _ (started (u32 time) s)); [reflexivity| |done..| | |].
    + split; [done|]. split; [done|]. split; [constructor|].
      exists (started (u32 time) s). by split; [apply reset_fresh|].
    + cbn. rewrite sent_to_notified. unfold answers. by rewrite Hto.
    + apply reports_started.
    + cbn. by rewrite clock_readings_notified.
Qed.

Lemma wp_react_measuring sock addr data to i s start ps (Q : unit -> world E -> Prop) g t1 e tr time :
  row SESSION_UDP t1 !! i = Some s -> destination addr = Done to -> whole data ->
  represents s (Measuring start ps) ->
  (exists r, react (u32 time) data (Measuring start ps) = Done r) ->
  reacted sock addr data i s (Measuring start ps) g t1 tr Q time ->
  wp Total (udp_received_ongoing sock addr (take sizeof_udp_datagram data) i (u32 time)
      (dgram_id data) (Z.of_nat (length data))) Q
    (on g t1 e (tr ++ [Event TaskGetTickCount time])).
Proof.
  intros Hi Hto Hw (Hst & Hstart & Hids & s0 & Hfresh & ->) Hre HQ. unfold reacted, react in *.
  unfold whole in Hw. destruct (Z.ltb_spec (dgram_id data) 0) as [Hid|Hid].
  - destruct Hre as [x Hre].
    rewrite <- (stream_fill_results ps s0) in Hre, HQ by done.
    destruct (udp_fill_results _ _) as [r| |] eqn:Hr in Hre; [|done..]. rewrite Hr in HQ.
    eapply wp_ongoing_fin; [exact Hi|done|exact Hto|by rewrite Hstart|].
    intros n e2. rewrite <- app_assoc, Hstart.
    eapply (HQ _ _ (finished (u32 time) (udp_stream ps s0))); [reflexivity| |done..| | |].
    + split; [done|]. cbn. rewrite Hstart. by apply stream_fill_stat.
    + cbn [sent_to app]. rewrite sent_to_notified, stream_fill_stat by done. unfold answers. by rewrite Hto.
    + cbn. rewrite callbacks_notified. unfold reports. by destruct (session_cb (udp_server g)).
    + cbn. by rewrite clock_readings_notified.
  - eapply wp_ongoing_data; [exact Hi|done|done|].
    destruct (udp_packet_fixed (udp_stream ps s0) (Packet (dgram_id data) (Z.of_nat (length data))
      (k_ticks_to_us_ceil32 (u32 time)) (dgram_sent_us data))) as (Hip & Hport & Hst' & _).
    eapply (HQ _ _ (udp_packet (udp_stream ps s0) _)); [reflexivity| |exact Hip|exact Hport| | |].
    + split; [by rewrite Hst'|]. split.
      { rewrite <- Hstart. unfold udp_packet. apply udp_data_fixed. }
      split; [apply Forall_app; split; [done|]; apply Forall_singleton; cbn;
        pose proof (dgram_id_range data); lia|].
      exists s0. split; [done|]. unfold udp_stream. by rewrite foldl_snoc.
    + unfold answers. by rewrite Hto.
    + unfold reports. by destruct (session_cb (udp_server g)).
    + done.
Qed.

(** A datagram for the client of slot [i], when it does not make the abstract
    server divide by zero. *)
Lemma wp_react sock addr k data to i s c (Q : unit -> world E -> Prop) g t t1 e tr :
  get_session addr SESSION_UDP t = Done (Some i, t1) -> row SESSION_UDP t1 !! i = Some s ->
  destination addr = Done to -> whole data -> represents s c -> slot_peer s = Some k ->
  (forall time, exists r, react (u32 time) data c = Done r) ->
  (forall time, reacted sock addr data i s c g t1 tr Q time) ->
  wp Total (udp_received sock addr data (Z.of_nat (length data))) Q (on g t e tr).
Proof.
  intros Hget Hi Hto Hw Hc Hp Hre HQ. unfold whole in Hw.
  eapply wp_enter; [lia|done|exact Hget|exact Hi|]. intros time e1. cbv zeta.
  specialize (Hre time). specialize (HQ time). destruct c as [st|start ps].
  - destruct (slot_free_idle s) as [-> | ->]; [apply Hc|by eapply wp_react_resting..].
  - rewrite (proj1 Hc). by eapply wp_react_measuring.
Qed.

Lemma resting_reacts time data st : exists r, react (u32 time) data (Resting st) = Done r.
Proof. unfold react. destruct (_ <? 0); by eexists. Qed.

(** A run that is a step of the abstract server, or faults where it does. *)
Definition as_served sock addr k data m g tr (o : outcome (unit * world E)) : Prop :=
  match o with
  | Done (_, w') => exists out m' t' e' evs,
      w' = on g t' e' (tr ++ evs) /\ serve k data m (clock_readings evs) out m' /\ implements t' m' /\
      sent_to evs = answers sock addr data out /\ callbacks evs = reports (udp_server g) out
  | Fault f => exists time c, m !! k = Some c /\ react time data c = Fault f
  | OutOfFuel => False
  end.

Lemma ignored sock addr k data m t e evs g tr :
  implements t m -> serve k data m (clock_readings evs) [] m -> sent_to evs = [] -> callbacks evs = [] ->
  as_served sock addr k data m g tr (Done (tt, on g t e (tr ++ evs))).
Proof.
  intros Him Hs Hsent Hcb. exists [], m, t, e, evs. rewrite Hsent, Hcb.
  unfold answers, reports. destruct (destination addr), (session_cb (udp_server g)); done.
Qed.

(** A client that reacts. *)
Lemma received_reacts sock addr k data to i s c m m1 g t t1 e tr :
  get_session addr SESSION_UDP t = Done (Some i, t1) -> row SESSION_UDP t1 !! i = Some s ->
  destination addr = Done to -> whole data -> represents s c -> slot_peer s = Some k ->
  implements t1 m1 -> (forall time, exists r, react (u32 time) data c = Done r) ->
  (forall time c' out, react time data c = Done (c', out) -> serve k data m [time] out (<[k := c']> m1)) ->
  as_served sock addr k data m g tr
    (udp_received sock addr data (Z.of_nat (length data)) (on g t e tr)).
Proof.
  intros Hget Hi Hto Hw Hc Hp Him1 Hre Hserve.
  assert (H : wp Total (udp_received sock addr data (Z.of_nat (length data)))
    (fun a w' => as_served sock addr k data m g tr (Done (a, w'))) (on g t e tr)).
  { eapply wp_react; [done..|]. intros time c' out s' e' evs Hr Hc' Hip Hport Hs Hcb Ht.
    exists out, (<[k := c']> m1), (put i s' t1), e', evs.
    split; [done|]. split; [rewrite Ht; by apply Hserve|]. split; [|done]. by eapply implements_update. }
  apply wp_total_done in H as ([] & w' & -> & H). exact H.
Qed.

(** The client of a slot, which the closing datagram of an empty measurement
    makes divide by zero. *)
Lemma received_known sock addr k data to i s m g t e tr :
  implements t m -> addr_peer addr = Done (Some k) -> destination addr = Done to -> whole data ->
  row SESSION_UDP t !! i = Some s -> slot_peer s = Some k ->
  as_served sock addr k data m g tr
    (udp_received sock addr data (Z.of_nat (length data)) (on g t e tr)).
Proof.
  intros Him Hk Hto Hw Hi Hp. pose proof Him as (Hwf & _ & Hslots & _).
  pose proof (get_session_found addr k _ _ _ _ Hwf Hk Hi Hp) as Hget.
  pose proof (Hslots i s Hi) as Hs. rewrite Hp in Hs. destruct Hs as (c & Hc & Hr).
  assert (Hgo : (forall time, exists r, react (u32 time) data c = Done r) ->
    as_served sock addr k data m g tr
      (udp_received sock addr data (Z.of_nat (length data)) (on g t e tr))).
  { intros Hre. eapply received_reacts; [done..|]. intros. by eapply serve_known. }
  destruct c as [st|start ps]; [apply Hgo; intros; apply resting_reacts|].
  destruct (decide (dgram_id data < 0 /\ packets ps = 0)) as [[Hid Hz]|Hnz].
  - pose proof Hr as (Hst & _ & Hids & s0 & Hf & ->).
    destruct (stream_stats ps s0 Hf Hids) as (Hcount & _).
    rewrite (udp_fin_faults sock addr data i _ to g t e tr Hget Hi Hst) by (done || by rewrite Hcount).
    exists 0, (Measuring start ps). split; [done|]. unfold react, summary, c_div. rewrite Hz.
    by destruct (Z.ltb_spec (dgram_id data) 0); [|lia].
  - apply Hgo. intros time. unfold react. destruct (Z.ltb_spec (dgram_id data) 0); [|by eexists].
    unfold summary, c_div. destruct (Z.eqb_spec (packets ps) 0); [lia|]. by eexists.
Qed.

(** A client without a slot. *)
Lemma received_new sock addr k data to m g t e tr :
  implements t m -> addr_peer addr = Done (Some k) -> destination addr = Done to -> whole data ->
  binding_map 0 (row SESSION_UDP t) !! k = None ->
  as_served sock addr k data m g tr
    (udp_received sock addr data (Z.of_nat (length data)) (on g t e tr)).
Proof.
  intros Him Hk Hto Hw Hb. pose proof Him as (Hwf & _ & _ & Hcov). destruct (Hwf SESSION_UDP) as [Hsw Hu].
  pose proof (get_session_cases addr k SESSION_UDP t Hk Hsw) as Hget. rewrite Hb in Hget.
  assert (Hnew : m !! k = None).
  { destruct (m !! k) as [c|] eqn:Hc; [|done]. destruct (Hcov k c Hc) as (i & s & Hi & Hp).
    assert (binding_map 0 (row SESSION_UDP t) !! k = Some i) by (apply binding_map_unique; eauto).
    congruence. }
  destruct (first_free_slot 0 (row SESSION_UDP t)) as [f|] eqn:Hfree.
  - destruct Hget as (s & q & a & Hf & Hsf & Hp & _ & Hget).
    destruct (get_session_slot addr k _ _ _ _ Hwf Hk Hget) as (Hwf1 & _).
    destruct (implements_bind t m f s (set_key q a s) k) as (m1 & Hplace & Him1); [done..|].
    eapply (received_reacts _ _ _ _ _ f (set_key q a s) (Resting (stat s)));
      [exact Hget|by eapply put_lookup|done..|exact Him1|intros; apply resting_reacts|].
    intros time c' out Hr. rewrite insert_insert_eq. by eapply serve_new.
  - destruct (implements_full t m Him Hfree) as [Hsize Hall].
    assert (Hskip : wp Total (udp_received sock addr data (Z.of_nat (length data))) (fun _ w' =>
      exists time e', w' = on g t e' (tr ++ [Event TaskGetTickCount time])) (on g t e tr)).
    { unfold whole in Hw. unfold udp_received.
      destruct (Z.ltb_spec (Z.of_nat (length data)) (Z.of_nat sizeof_udp_datagram)); [lia|].
      apply wp_bind. eapply wp_lift; [apply read_at_ok; lia|].
      apply wp_bind, wp_clock. intros time e1 _. apply wp_bind.
      eapply wp_find_session; [exact Hget|]. apply wp_ret. eauto. }
    apply wp_total_done in Hskip as ([] & w' & -> & time & e' & ->).
    by apply ignored; [|apply serve_full| |].
Qed.

(** One datagram. *)
Lemma received_serves sock addr k data to m g t e tr :
  implements t m -> addr_peer addr = Done (Some k) -> destination addr = Done to ->
  as_served sock addr k data m g tr
    (udp_received sock addr data (Z.of_nat (length data)) (on g t e tr)).
Proof.
  intros Him Hk Hto. destruct (decide (whole data)) as [Hw|Hw].
  - destruct (binding_map 0 (row SESSION_UDP t) !! k) as [i|] eqn:Hb; [|by eapply received_new].
    apply binding_map_unique in Hb as (s & Hi & Hp); [|apply Him]. by eapply received_known.
  - unfold whole in Hw. unfold udp_received.
    destruct (Z.ltb_spec (Z.of_nat (length data)) (Z.of_nat sizeof_udp_datagram)); [|lia].
    cbn - [as_served]. rewrite <- (app_nil_r tr) at 2. apply ignored; [done| |done..].
    apply serve_short. lia.
Qed.

(** C2: the UDP server implements the abstract server. Given any datagrams, of
    any peers, it answers and reports to its callback what the abstract server
    does for them one after the other, at the times the clock gave, and ends in a table that represents its state; or it divides by zero, at the datagram for
    which the abstract server does: the end of a measurement of no packets. *)
Theorem udp_server_refines sock msgs w m :
  implements (sessions (glob w)) m ->
  Forall (fun '(addr, _) => (exists k, addr_peer addr = Done (Some k)) /\
            exists to, destination addr = Done to) msgs ->
  match deliver sock msgs w with
  | Done (_, w') => exists outs m' evs,
      serves m msgs (clock_readings evs) outs m' /\ implements (sessions (glob w')) m' /\
      glob w' = set_sessions (sessions (glob w')) (glob w) /\ trace w' = trace w ++ evs /\
      sent_to evs = all_answers sock msgs outs /\
      callbacks evs = mjoin (reports (udp_server (glob w)) <$> outs)
  | Fault f => f = DivisionByZero /\ exists done addr data rest times outs m' k time c,
      msgs = done ++ (addr, data) :: rest /\ serves m done times outs m' /\
      addr_peer addr = Done (Some k) /\ m' !! k = Some c /\ react time data c = Fault f
  | OutOfFuel => False
  end.
Proof.
  rewrite (world_on w). set (g := glob w). set (t := sessions g).
  change (glob (on g t (env w) (trace w))) with (set_sessions t g).
  change (trace (on g t (env w) (trace w))) with (trace w). generalize (env w) (trace w).
  clearbody t. clearbody g. clear w. revert t m.
  induction msgs as [|[addr data] msgs IH]; intros t m e tr Him Hms.
  - exists [], m, []. rewrite app_nil_r. cbn. repeat split; try done; [constructor|apply Him..].
  - apply Forall_cons_iff in Hms as [[[k Hk] [to Hto]] Hms]. cbn [deliver].
    unfold mbind at 1, M_bind at 1.
    pose proof (received_serves sock addr k data to m g t e tr Him Hk Hto) as H.
    destruct (udp_received _ _ _ _ _) as [[[] w1]|f|]; [| |done].
    + destruct H as (out & m1 & t1 & e1 & evs1 & -> & Hs1 & Him1 & Hsent1 & Hcb1).
      specialize (IH t1 m1 e1 (tr ++ evs1) Him1 Hms).
      destruct (deliver sock msgs _) as [[[] w2]|f|]; [| |done].
      * destruct IH as (outs & m2 & evs2 & Hs2 & Him2 & Hg & Htr & Hsent2 & Hcb2).
        exists (out :: outs), m2, (evs1 ++ evs2). rewrite sent_to_app, callbacks_app, clock_readings_app, Hsent1, Hcb1, Hsent2.
        split; [by eapply serves_cons|]. split; [done|]. split; [exact Hg|].
        split; [by rewrite Htr, app_assoc|]. split; [done|].
        change (udp_server (set_sessions t1 g)) with (udp_server g) in Hcb2. rewrite Hcb2. done.
      * destruct IH as (-> & pre & a & d & rest & times & outs & m2 & k' & time' & c & -> & Hs & H2).
        split; [done|]. exists ((addr, data) :: pre), a, d, rest, (clock_readings evs1 ++ times), (out :: outs), m2, k', time', c.
        split; [done|]. split; [by eapply serves_cons|exact H2].
    + destruct H as (time & c & Hc & Hr).
      assert (f = DivisionByZero) as ->.
      { unfold react in Hr. destruct c as [st|start ps]; [by destruct (_ <? 0)|].
        destruct (_ <? 0); [|done]. unfold summary, c_div in Hr.
        destruct (packets ps =? 0); [by injection Hr|done]. }
      split; [done|]. exists [], addr, data, msgs, [], [], m, k, time, c.
      split; [done|]. split; [constructor|done].
Qed.
End Simulation.

(** The table the program starts from, and the one it makes of it, represent the
    server that knows no client. *)
Section Start.
Context {L : Lwip} {LOk : LwipOk L}.

Lemma implements_empty s t :
  table_wf t -> row SESSION_UDP t = replicate SESSION_MAX s -> na_family (ip s) = 0 ->
  slot_free s = true -> stat s = zero_hdr -> implements t ∅.
Proof.
  intros Hwf Hrow Hf Hfree Hst. split; [done|]. rewrite Hrow. split; [apply length_replicate|].
  split; [|by intros k c]. intros i s' [-> _]%lookup_replicate.
  assert (slot_peer s = None) as ->; [|done].
  unfold slot_peer. rewrite Hf. pose proof af_inet_range. pose proof af_inet6_range.
  destruct (Z.eqb_spec 0 AF_INET); [lia|]. by destruct (Z.eqb_spec 0 AF_INET6); [lia|].
Qed.
Lemma static_implements : implements static_table ∅.
Proof. by apply (implements_empty zero_session); [apply static_table_wf|..]. Qed.
Lemma session_init_implements : implements (zperf_session_init static_table) ∅.
Proof. by apply (implements_empty (zperf_reset_session_stats zero_session)); [apply session_init_wf|..]. Qed.
End Start.

(** ** Witnesses *)
Lemma stream_report_witness :
  let ps := [Packet 1 100 7000 5000; Packet 4 100 9000 8000; Packet 2 50 9500 8100] in
  Forall (fun p => 0 <= pk_id p < 2147483648) ps /\
  udp_fill_stat 2500000 (udp_stream ps (zperf_reset_session_stats zero_session)) = report 2500000 ps /\
  lost ps = 2 /\ reordered ps = 1 /\ octets ps = 250 /\ packets ps = 3.
Proof.
  intros ps. assert (H : Forall (fun p => 0 <= pk_id p < 2147483648) ps) by (repeat constructor; done).
  split; [exact H|]. split; [|by vm_compute].
  refine (proj1 (stream_report ps (zperf_reset_session_stats zero_session) 2500000 _ H)). by repeat split.
Defined.

(** A measurement of two packets of one client, then a closing datagram of
    another, which ends nothing. *)
Definition example_refinement : list (bytes * bytes) :=
  [(example_peer4, example_dgram 0 88); (example_peer4, example_dgram 1 88);
   (example_peer4, example_dgram 3 88); (example_peer4, example_dgram (-4) 88);
   ([0; 2; 19; 137; 10; 0; 0; 2; 0; 0; 0; 0; 0; 0; 0; 0], example_dgram (-4) 88)].

Lemma udp_server_refines_witness :
  exists w' outs m' evs,
    deliver (L := lwip_example) (R := rtos_example) 3 example_refinement (example_world []) = Done (tt, w') /\
    serves (L := lwip_example) (R := rtos_example) ∅ example_refinement (clock_readings evs) outs m' /\
    implements (L := lwip_example) (sessions (glob w')) m' /\
    sent_to evs = all_answers (L := lwip_example) 3 example_refinement outs /\
    length (sent_to evs) = 2%nat.
Proof.
  pose proof (udp_server_refines (L := lwip_example) (R := rtos_example) 3 example_refinement
    (example_world []) ∅ (static_implements (L := lwip_example))) as H.
  assert (Hms : Forall (fun '(addr, _) => (exists k, addr_peer (L := lwip_example) addr = Done (Some k)) /\
            exists to, destination (L := lwip_example) addr = Done to) example_refinement).
  { repeat constructor; try (eexists; vm_compute; reflexivity). }
  specialize (H Hms).
  destruct (deliver (L := lwip_example) (R := rtos_example) 3 example_refinement (example_world []))
    as [[[] w']| |] eqn:Hrun; [|vm_compute in Hrun; discriminate Hrun..].
  destruct H as (outs & m' & evs & Hs & Hi & _ & Htr & Hsent & _).
  exists w', outs, m', evs. split; [reflexivity|]. split; [exact Hs|]. split; [exact Hi|].
  split; [exact Hsent|]. cbn in Htr. rewrite <- Htr. vm_compute in Hrun. injection Hrun as <-. reflexivity.
Defined.
