(* ===== verification/UdpServer.v ===== *)
(** The UDP server (zperf_udp_receiver.c): its sockets, the receive loop, and
    starting and stopping it. *)
From S2P Require Import Prelude CInt Platform CString Kernel NetIp Session World Common Server UdpStats UdpReceiver.
Open Scope Z_scope.

Section UdpServer.
Context {L : Lwip} {R : Rtos} {E : Type} `{!Env E}.
Abbreviation W := (world E).

(** ** The server *)
Definition SOCK_ID_IPV4 : nat := 0.
Definition SOCK_ID_IPV6 : nat := 1.

(** The two blocks that open a socket: the array, and whether to go on (false:
    [goto error]). The address bound to is the one given to
    [zperf_udp_download], else the configured one, else any. *)
Definition udp_open_ipv4 (fds : list pollfd) : M W (list pollfd * bool) :=
  sock ← trigger (LwipSocket AF_INET SOCK_DGRAM IPPROTO_UDP);
  let fds := alter (set_fd sock) SOCK_ID_IPV4 fds in
  if sock <? 0 then mret (fds, false) else
  srv ← get_glob udp_server;
  in4_addr ← lift (sin_addr (server_addr srv));
  my ← get_glob in4_addr_my;
  my ← (if negb (net_ipv4_is_addr_unspecified in4_addr) then
          lift (set_sin_addr in4_addr my)
        else
          '(ret, written) ← zperf_get_ipv4_addr (Some MY_IP4ADDR);
          my ← lift (match written with Some bs => set_sin_addr bs my | None => mret my end);
          if ret <? 0 then lift (set_sin_addr (store_le 4 INADDR_ANY) my) else mret my);
  my ← lift (set_sin_port (htons (server_port srv)) my);
  upd_glob (set_in4_addr_my my);;
  name ← lift (read_at 0 sizeof_sockaddr_in my);
  ret ← trigger (LwipBind sock name);
  if ret <? 0 then mret (fds, false) else
  mret (alter (set_events POLLIN) SOCK_ID_IPV4 fds, true).

Definition udp_open_ipv6 (fds : list pollfd) : M W (list pollfd * bool) :=
  sock ← trigger (LwipSocket AF_INET6 SOCK_DGRAM IPPROTO_UDP);
  let fds := alter (set_fd sock) SOCK_ID_IPV6 fds in
  if sock <? 0 then mret (fds, false) else
  srv ← get_glob udp_server;
  in6_addr ← lift (sin6_addr (server_addr srv));
  my ← get_glob in6_addr_my;
  my ← (if negb (net_ipv6_is_addr_unspecified in6_addr) then
          lift (set_sin6_addr in6_addr my)
        else
          '(ret, written) ← zperf_get_ipv6_addr (Some MY_IP6ADDR) MY_PREFIX_LEN_STR;
          my ← lift (match written with Some bs => set_sin6_addr bs my | None => mret my end);
          if ret <? 0 then lift (set_sin6_addr net_ipv6_unspecified_address my) else mret my);
  my ← lift (set_sin6_port (htons (server_port srv)) my);
  upd_glob (set_in6_addr_my my);;
  name ← lift (read_at 0 sizeof_sockaddr_in6 my);
  ret ← trigger (LwipBind sock name);
  if ret <? 0 then mret (fds, false) else
  mret (alter (set_events POLLIN) SOCK_ID_IPV6 fds, true).

(** The [for] loop over the sockets after a poll: [false] is [goto error]. *)
Fixpoint udp_serve (fds : list pollfd) : M W bool :=
  match fds with
  | [] => mret true
  | p :: fds' =>
      if has_bit (revents p) POLLERR || has_bit (revents p) POLLNVAL then mret false else
      if negb (has_bit (revents p) POLLIN) then udp_serve fds' else
      '(ret, data, from) ←
        trigger (LwipRecvfrom (fd p) (Z.of_nat UDP_RECEIVER_BUF_SIZE) 0
                   (Z.of_nat sizeof_sockaddr));
      if ret <? 0 then mret false else
      udp_received (fd p) (fill sizeof_sockaddr from) (fill UDP_RECEIVER_BUF_SIZE data) ret;;
      udp_serve fds'
  end.

(** One turn of [while (true)]: [inr true] is [goto error], [inr false] is
    [goto cleanup]. [others] is what other tasks do to the server's variables
    while it is in [poll]. *)
Definition udp_turn (others : M W unit) (fds : list pollfd) : M W (list pollfd + list pollfd * bool) :=
  '(ret, rs) ← trigger (LwipPoll fds POLL_TIMEOUT_MS);
  let fds := store_revents fds rs in
  others;;
  if ret <? 0 then mret (inr (fds, true)) else
  srv ← get_glob udp_server;
  if server_stop srv then mret (inr (fds, false)) else
  if ret =? 0 then mret (inl fds) else
  ok ← udp_serve fds;
  mret (if ok : bool then inl fds else inr (fds, true)).

Fixpoint close_all (fds : list pollfd) : M W unit :=
  match fds with
  | [] => mret tt
  | p :: fds' =>
      (if 0 <=? fd p then trigger (LwipClose (fd p));; mret tt else mret tt);;
      close_all fds'
  end.

(** Requests can also come between the loop, or the opening that failed, and the
    report. *)
Definition udp_server_session (others : M W unit) (fuel : nat) : M W unit :=
  let fds := [no_fd; no_fd] in
  '(fds, ok) ← (if CONFIG_NET_IPV4 then udp_open_ipv4 fds else mret (fds, true));
  '(fds, ok) ← (if ok && CONFIG_NET_IPV6 then udp_open_ipv6 fds else mret (fds, ok));
  '(fds, err) ← (if ok : bool then loop fuel (udp_turn others) fds else mret (fds, true));
  others;;
  when err (notify udp_server ZPERF_SESSION_ERROR None);;
  close_all fds.

(** ** Start and stop *)
(** [udp_receiver_thread]: the start, and one turn of its loop. *)
Definition udp_receiver_thread_start : M W unit :=
  srv ← get_glob udp_server;
  sem ← k_sem_init (server_run srv) (initial_count (server_run srv))
          (max_count (server_run srv));
  upd_glob (fun g => set_udp_server (set_server_run sem (udp_server g)) g).

Definition udp_receiver_thread_turn (others : M W unit) (fuel : nat) : M W unit :=
  srv ← get_glob udp_server;
  k_sem_take (server_run srv);;
  udp_server_session others fuel;;
  upd_glob (fun g => set_udp_server (set_running false (udp_server g)) g).

Definition zperf_udp_download (param : option zperf_download_params) (cb : option callback)
    (ud : Z) : M W Z :=
  match param, cb with
  | Some param, Some cb =>
      srv ← get_glob udp_server;
      if server_running srv then mret (- EALREADY) else
      srv ← lift (server_start param cb ud srv);
      upd_glob (set_udp_server srv);;
      k_sem_give (server_run srv);;
      mret 0
  | _, _ => mret (- EINVAL)
  end.

Definition zperf_udp_download_stop : M W Z :=
  srv ← get_glob udp_server;
  if negb (server_running srv) then mret (- EALREADY) else
  upd_glob (set_udp_server (server_stop_request srv));;
  mret 0.

(** The requests, as they come while a session runs. *)
Definition udp_request (r : request) : M W unit :=
  match r with
  | RequestStart param cb ud => zperf_udp_download param cb ud;; mret tt
  | RequestStop => zperf_udp_download_stop;; mret tt
  end.
Definition udp_requests (arrive : W -> list request) : M W unit := requests udp_request arrive.
End UdpServer.

Section Requests.
Context {L : Lwip} {R : Rtos} {E : Type} `{!Env E}.

Lemma udp_requests_stop srv (arrive : world E -> list request) :
  server_running srv = true -> only_stops udp_server set_udp_server srv (udp_requests arrive).
Proof.
  intros Hrun. apply requests_stop; [done..|]. intros r w Hw.
  assert (Hr : server_running (udp_server (glob w)) = true) by (by destruct Hw as [->| ->]).
  destruct r as [[p|] [cb|] ud|]; cbn [udp_request]; apply wp_bind;
    unfold zperf_udp_download, zperf_udp_download_stop; try (apply wp_ret, wp_ret; by left);
    apply wp_bind, wp_gets; rewrite Hr; cbn [negb].
  - apply wp_ret, wp_ret. by left.
  - apply wp_bind, wp_modify, wp_ret, wp_ret. right. by rewrite (asked_stop _ _ Hw).
Qed.
Lemma udp_requests_no_socket (arrive : world E -> list request) : only no_socket (udp_requests arrive).
Proof.
  apply only_requests. intros [p cb ud|]; cbn [udp_request];
    unfold zperf_udp_download, zperf_udp_download_stop, k_sem_give; by only_steps.
Qed.
End Requests.
#[export] Hint Resolve udp_requests_no_socket : zperf.

(** ** The server's sockets *)
Section ServerSockets.
Context {L : Lwip} {R : Rtos} {E : Type} `{!Env E}.
Implicit Types w : world E.

Lemma udp_received_no_socket sock addr data len :
  only no_socket (udp_received (E := E) sock addr data len).
Proof.
  unfold udp_received, udp_received_idle, udp_received_ongoing, zperf_receiver_send_stat,
    find_session, load_session, store_session. by only_steps.
Qed.
#[local] Hint Resolve udp_received_no_socket : zperf.

Lemma udp_serve_no_socket fds : only no_socket (udp_serve (E := E) fds).
Proof. induction fds as [|p fds IH]; cbn [udp_serve]; by only_steps. Qed.
#[local] Hint Resolve udp_serve_no_socket : zperf.

Lemma udp_open_ipv4_accounted fds p w :
  fds !! SOCK_ID_IPV4 = Some p -> fd p < 0 ->
  wp Partial (udp_open_ipv4 fds) (fun r w' => accounted 0 fds w (fst r) w' /\
    (fd <$> fst r) !! SOCK_ID_IPV6 = (fd <$> fds) !! SOCK_ID_IPV6) w.
Proof.
  intros Hi Hp. unfold udp_open_ipv4. apply wp_bind. wp_call sock e.
  set (w1 := emit _ _ _ _). set (fds1 := alter (set_fd sock) SOCK_ID_IPV4 fds).
  assert (H1 : accounted 0 fds w fds1 w1) by (by apply (created_accounted _ _ _ p)).
  assert (H2 : (fd <$> fds1) !! SOCK_ID_IPV6 = (fd <$> fds) !! SOCK_ID_IPV6).
  { unfold fds1. rewrite !list_lookup_fmap. by rewrite list_lookup_alter_ne. }
  clearbody w1 fds1.
  eapply (wp_only_returns no_socket (fun r => fd <$> fst r = fd <$> fds1)).
  - by only_steps.
  - returns_steps; cbn [fst]; rewrite ?fd_alter_events; done.
  - intros r w' evs Hr Htr He. rewrite Hr. split; [|done].
    eapply accounted_trans; [exact H1|]. by eapply accounted_quiet.
Qed.

Lemma udp_open_ipv6_accounted fds p w :
  fds !! SOCK_ID_IPV6 = Some p -> fd p < 0 ->
  wp Partial (udp_open_ipv6 fds) (fun r w' => accounted 0 fds w (fst r) w') w.
Proof.
  intros Hi Hp. unfold udp_open_ipv6. apply wp_bind. wp_call sock e.
  set (w1 := emit _ _ _ _). set (fds1 := alter (set_fd sock) SOCK_ID_IPV6 fds).
  assert (H1 : accounted 0 fds w fds1 w1) by (by apply (created_accounted _ _ _ p)).
  clearbody w1 fds1.
  eapply (wp_only_returns no_socket (fun r => fd <$> fst r = fd <$> fds1)).
  - by only_steps.
  - returns_steps; cbn [fst]; rewrite ?fd_alter_events; done.
  - intros r w' evs Hr Htr He. eapply accounted_trans; [exact H1|]. by eapply accounted_quiet.
Qed.

(** The array after a turn of the loop, on either exit. *)
Definition turn_fds (r : list pollfd + list pollfd * bool) : list pollfd :=
  match r with inl fds => fds | inr (fds, _) => fds end.

Lemma udp_turn_accounted others fds w :
  only no_socket others -> wp Partial (udp_turn others fds) (fun r w' => accounted 0 fds w (turn_fds r) w') w.
Proof.
  intros Ho. unfold udp_turn. eapply (wp_only_returns no_socket (fun r => fd <$> turn_fds r = fd <$> fds)).
  - by only_steps.
  - returns_steps; repeat case_match; simplify_eq; apply fd_store_revents.
  - intros r w' evs Hr Htr He. by eapply accounted_quiet.
Qed.

Lemma close_all_closed fds w : wp Partial (close_all fds) (fun _ w' => closed fds w w') w.
Proof.
  revert w. induction fds as [|p fds IH]; intros w; cbn [close_all].
  - apply wp_ret, closed_nil.
  - apply wp_bind. destruct (Z.leb_spec 0 (fd p)) as [Hp|Hp].
    + apply wp_bind. wp_call r e. apply wp_ret. eapply wp_mono; [apply IH|]. intros ? w'.
      by apply (closed_cons _ _ (fd p) r w e).
    + apply wp_ret. eapply wp_mono; [apply IH|]. intros ? w'. by apply closed_skip.
Qed.

(** However a session ends, it has closed what it opened, and never had more
    than two sockets open. *)
Lemma udp_session_accounted others fuel w :
  only no_socket others -> wp Partial (udp_server_session others fuel) (fun _ w' =>
    (forall f, 0 <= f -> balance f (trace w') = balance f (trace w)) /\ at_most 2 w w') w.
Proof.
  intros Ho. unfold udp_server_session. cbn [CONFIG_NET_IPV4 CONFIG_NET_IPV6].
  set (fds0 := [no_fd; no_fd]). apply wp_bind.
  eapply wp_mono; [by apply (udp_open_ipv4_accounted fds0 no_fd)|].
  intros [fds1 ok1] w1 [H1 H6]. cbn [fst] in *. apply wp_bind.
  eapply (wp_mono _ _ (fun r w' => accounted 0 fds0 w (fst r) w')).
  { destruct ok1; cbn [andb]; [|by apply wp_ret].
    rewrite !list_lookup_fmap in H6. cbn in H6.
    destruct (fds1 !! SOCK_ID_IPV6) as [p|] eqn:Hp; [|done]. injection H6 as H6.
    eapply wp_mono; [apply (udp_open_ipv6_accounted fds1 p); [done|lia]|].
    intros r w2 H2. by eapply accounted_trans. }
  intros [fds2 ok2] w2 H2. cbn [fst] in H2. apply wp_bind.
  eapply (wp_mono _ _ (fun r w' => accounted 0 fds0 w (fst r) w')).
  { destruct ok2; [|by apply wp_ret].
    apply (wp_loop_inv _ (fun fds w' => accounted 0 fds0 w fds w')); [done| |done].
    intros fds w' H. eapply wp_mono; [by apply udp_turn_accounted|].
    intros [fds'|[fds' b]] w'' H'; by eapply accounted_trans. }
  intros [fds3 err] w3 H3. cbn [fst] in H3.
  apply (wp_assoc _ others (fun _ => when err (notify udp_server ZPERF_SESSION_ERROR None))). apply wp_bind.
  eapply wp_only; [apply only_bind; [exact Ho|intros _; apply only_when, notify_no_socket]|].
  intros ? w4 evs Htr He.
  eapply wp_mono; [apply close_all_closed|]. intros ? w5 H5.
  apply (accounted_closed 0 fds0 w fds3 w4); [done|by repeat constructor| |exact H5].
  eapply accounted_trans; [exact H3|]. by eapply accounted_quiet.
Qed.

(** C14: no socket is leaked. However the UDP server's session ends (an error while
    opening, an error of [poll] or [recvfrom], a request to stop), it has
    closed every descriptor as often as it was opened; and at no moment has it
    had more than two sockets open. This is so whatever requests, to start or to
    stop, other tasks make while it polls. *)
Theorem udp_server_session_closes arrive fuel w :
  wp Partial (udp_server_session (udp_requests arrive) fuel) (fun _ w' =>
    (forall f, 0 <= f -> balance f (trace w') = balance f (trace w)) /\ at_most 2 w w') w.
Proof. apply udp_session_accounted, udp_requests_no_socket. Qed.
End ServerSockets.

(** ** Stopping *)
Section Stop.
Context {L : Lwip} {LOk : LwipOk L} {R : Rtos} {E : Type} `{!Env E}.
Implicit Types w : world E.

(** The sizes of the static address objects. *)
Definition statics_ok (g : globals) : Prop :=
  length (in4_addr_my g) = sizeof_sockaddr_in /\ length (in6_addr_my g) = sizeof_sockaddr_in6 /\
  length (server_addr (udp_server g)) = sizeof_sockaddr_storage.

(** What opening the sockets and polling leave alone. *)
Definition kept (w w' : world E) : Prop :=
  statics_ok (glob w') /\ udp_server (glob w') = udp_server (glob w) /\
  sessions (glob w') = sessions (glob w).

Lemma kept_trans w1 w2 w3 : kept w1 w2 -> kept w2 w3 -> kept w1 w3.
Proof. intros (_ & H1 & H2) (? & H3 & H4). split_and!; congruence. Qed.

Lemma udp_open_ipv4_kept fds w :
  statics_ok (glob w) -> wp Total (udp_open_ipv4 fds) (fun _ w' => kept w w') w.
Proof.
  intros (H4 & H6 & Hs). pose proof addr_in_sockaddr_in. pose proof port_before_addr.
  pose proof in_fits_sockaddr. pose proof sockaddr_fits_storage.
  unfold udp_open_ipv4. apply wp_bind. wp_call sock e. destruct (sock <? 0); [by apply wp_ret|].
  apply wp_bind, wp_gets, wp_bind. eapply wp_lift; [apply read_at_ok; cbn [glob emit]; lia|].
  apply wp_bind, wp_gets, wp_bind. cbn [glob emit].
  eapply wp_mono; [apply wp_choose4; [rewrite length_take, length_drop; lia|done]|].
  intros my w1 [Hg Hmy]. cbn [glob emit] in Hg. apply wp_bind.
  apply wp_write; [rewrite length_store_le; lia|]. intros my' Hmy'.
  apply wp_bind, wp_modify, wp_bind. eapply wp_lift; [apply read_at_ok; lia|].
  apply wp_bind. wp_call ret e'.
  assert (kept w (emit (LwipBind sock (take sizeof_sockaddr_in (drop 0 my'))) ret e'
                    (with_glob (set_in4_addr_my my') w1))).
  { unfold kept, statics_ok. cbn. rewrite Hg. split_and!; try done. cbn. lia. }
  destruct (ret <? 0); by apply wp_ret.
Qed.

Lemma udp_open_ipv6_kept fds w :
  statics_ok (glob w) -> wp Total (udp_open_ipv6 fds) (fun _ w' => kept w w') w.
Proof.
  intros (H4 & H6 & Hs). pose proof addr_in_sockaddr_in6. pose proof port_before_addr6.
  pose proof in6_fits_storage.
  unfold udp_open_ipv6. apply wp_bind. wp_call sock e. destruct (sock <? 0); [by apply wp_ret|].
  apply wp_bind, wp_gets, wp_bind. eapply wp_lift; [apply read_at_ok; cbn [glob emit]; lia|].
  apply wp_bind, wp_gets, wp_bind. cbn [glob emit].
  eapply wp_mono; [apply wp_choose6; [rewrite length_take, length_drop; lia|done]|].
  intros my w1 [Hg Hmy]. cbn [glob emit] in Hg. apply wp_bind.
  apply wp_write; [rewrite length_store_le; lia|]. intros my' Hmy'.
  apply wp_bind, wp_modify, wp_bind. eapply wp_lift; [apply read_at_ok; lia|].
  apply wp_bind. wp_call ret e'.
  assert (kept w (emit (LwipBind sock (take sizeof_sockaddr_in6 (drop 0 my'))) ret e'
                    (with_glob (set_in6_addr_my my') w1))).
  { unfold kept, statics_ok. cbn. rewrite Hg. split_and!; try done. cbn. lia. }
  destruct (ret <? 0); by apply wp_ret.
Qed.

Lemma close_all_closes fds w :
  wp Total (close_all fds) (fun _ w' => glob w' = glob w /\
    exists evs, trace w' = trace w ++ evs /\ calls evs = LwipClose <$> open_fds fds) w.
Proof.
  unfold open_fds. revert w. induction fds as [|p fds IH]; intros w; cbn [close_all fmap list_fmap].
  { apply wp_ret. split; [done|]. exists []. by rewrite app_nil_r. }
  rewrite filter_cons. apply wp_bind. destruct (Z.leb_spec 0 (fd p)).
  - rewrite decide_True by done. apply wp_bind. wp_call r e. apply wp_ret.
    eapply wp_mono; [apply IH|]. intros ? w' (-> & evs & -> & Hc). split; [done|].
    exists (Event (LwipClose (fd p)) r :: evs). cbn. split; [by rewrite <- app_assoc|]. f_equal. exact Hc.
  - rewrite decide_False by lia. apply wp_ret, IH.
Qed.

(** The server stops. Once a stop has been requested the session of the UDP
    server ends after at most one call of [poll]: it opens its sockets, leaves
    the loop and closes them, and handles no packet: the session table and the
    server's variables are as before. *)
Theorem udp_server_session_stops fuel w :
  statics_ok (glob w) -> server_stop (udp_server (glob w)) = true -> fuel <> O ->
  wp Total (udp_server_session nobody fuel) (fun _ w' => kept w w') w.
Proof.
  intros Hok Hstop Hfuel. destruct fuel as [|fuel]; [done|].
  unfold udp_server_session. cbn [CONFIG_NET_IPV4 CONFIG_NET_IPV6]. apply wp_bind.
  eapply wp_mono; [by apply udp_open_ipv4_kept|]. intros [fds1 ok1] w1 H1. apply wp_bind.
  eapply (wp_mono _ _ (fun _ w' => kept w w')).
  { destruct ok1; cbn [andb]; [|by apply wp_ret].
    eapply wp_mono; [apply udp_open_ipv6_kept, H1|]. intros ? w' H. by eapply kept_trans. }
  intros [fds2 ok2] w2 H2. apply wp_bind. eapply (wp_mono _ _ (fun _ w' => kept w w')).
  { destruct ok2; [|by apply wp_ret]. cbn [loop]. apply wp_bind.
    eapply (wp_mono _ _ (fun r w' => kept w w' /\ exists x, r = inr x)).
    - unfold udp_turn. apply wp_bind. wp_call r e. destruct r as [ret rs]. apply wp_bind, wp_ret.
      destruct (ret <? 0); [apply wp_ret; split; [done|by eexists]|]. apply wp_bind, wp_gets.
      destruct H2 as (? & Hsrv & ?). cbn [glob emit]. rewrite Hsrv, Hstop. apply wp_ret.
      split; [done|by eexists].
    - intros r w' [H [[fds' b] ->]]. by apply wp_ret. }
  intros [fds3 err] w3 H3. apply wp_bind, wp_ret, wp_bind.
  eapply (wp_mono _ _ (fun _ w' => kept w w')).
  { destruct err; [|by apply wp_ret]. cbn [when]. apply wp_notify. by intros e. }
  intros ? w4 H4. eapply wp_mono; [apply close_all_closes|]. intros ? w5 [H5 _].
  unfold kept. rewrite H5. exact H4.
Qed.
End Stop.

(** ** Witness *)
Section Witnesses.
#[local] Existing Instances lwip_example rtos_example.

Lemma udp_server_session_stops_witness :
  let w := with_glob (fun g => set_udp_server (server_stop_request (udp_server g)) g)
             (example_world [RZ 3; RZ 0; RZ 0; RZ 4; RZ 0]) in
  exists w', udp_server_session nobody 1 w = Done (tt, w') /\ udp_server (glob w') = udp_server (glob w).
Proof.
  intros w.
  assert (H : wp Total (udp_server_session nobody 1) (fun _ w' => kept w w') w).
  { apply (udp_server_session_stops (L := lwip_example) (R := rtos_example));
      [vm_compute; auto|reflexivity|discriminate]. }
  apply wp_total_done in H. destruct H as ([] & w' & Hrun & _ & Hsrv & _).
  exists w'. split; [exact Hrun|exact Hsrv].
Defined.
End Witnesses.
