(* ===== verification/UdpSession.v ===== *)
(** A whole session of the UDP server (zperf_udp_receiver.c,
    [udp_server_session]): it opens its sockets, serves the datagrams that arrive
    on them as the abstract server of [UdpSpec], and closes the sockets. *)
From stdpp Require Import gmap.
From S2P Require Import Prelude CInt Platform CString Kernel NetIp Session World Environment Common Server UdpStats UdpReceiver UdpSpec UdpServer.
Open Scope Z_scope.

(** ** The contract

    What the server makes of its sockets [socks], with what it knows of its
    clients: it polls them, and handles each datagram, by one step of the
    abstract server, before it receives the next. *)
Section Contract.
Context {L : Lwip} {R : Rtos} (srv : server) (socks : list Z).

(** The calls of the packet handler. *)
Definition handler_event (ev : event) : Prop :=
  match ev with
  | Event TaskGetTickCount _ | Event (LwipSendto _ _ _ _) _ | Event Errno _
  | Event (InvokeCallback _ _ _ _) _ => True
  | _ => False
  end.

Abbreviation RecvDatagram s := (LwipRecvfrom s (Z.of_nat UDP_RECEIVER_BUF_SIZE) 0 (Z.of_nat sizeof_sockaddr)).

Inductive udp_step (m : clients) : list event -> clients -> Prop :=
| step_poll fds ret rs :
    fd <$> fds = socks -> udp_step m [Event (LwipPoll fds POLL_TIMEOUT_MS) (ret, rs)] m
| step_fails s ret data from :
    s ∈ socks -> ret < 0 -> udp_step m [Event (RecvDatagram s) (ret, data, from)] m
| step_datagram s ret data from k evs out m' :
    s ∈ socks -> ret = Z.of_nat (length data) ->
    let addr := fill sizeof_sockaddr from in
    addr_peer addr = Done (Some k) -> serve k data m (clock_readings evs) out m' ->
    Forall handler_event evs ->
    sent_to evs = answers s addr data out -> callbacks evs = reports srv out ->
    udp_step m (Event (RecvDatagram s) (ret, data, from) :: evs) m'.

Inductive udp_steps : clients -> list event -> clients -> Prop :=
| udp_steps_nil m : udp_steps m [] m
| udp_steps_cons m1 evs1 m2 evs2 m3 :
    udp_step m1 evs1 m2 -> udp_steps m2 evs2 m3 -> udp_steps m1 (evs1 ++ evs2) m3.

Lemma udp_steps_one m1 evs m2 : udp_step m1 evs m2 -> udp_steps m1 evs m2.
Proof. intros H. rewrite <- (app_nil_r evs). eapply udp_steps_cons; [done|constructor]. Qed.
Lemma udp_steps_trans m1 evs1 m2 evs2 m3 :
  udp_steps m1 evs1 m2 -> udp_steps m2 evs2 m3 -> udp_steps m1 (evs1 ++ evs2) m3.
Proof.
  induction 1 as [|m1 evs1 m2 evs' m2' Hs _ IH]; [done|]. intros H3. rewrite <- app_assoc.
  eapply udp_steps_cons; [done|by apply IH].
Qed.

(** The abstract server divides by zero: the end of a measurement of no packets. *)
Definition empty_measurement (m : clients) (f : fault) : Prop :=
  f = DivisionByZero /\ exists serving m' k c time data,
    udp_steps m serving m' /\ m' !! k = Some c /\ react time data c = Fault f.
End Contract.

(** Datagrams come from IPv4 peers, whose address fits a [struct sockaddr]. *)
Class ReceivesIpv4 {L : Lwip} (E : Type) `{!Env E} : Prop := {
  receives_ipv4 : forall s e ret data from e',
    answer (LwipRecvfrom s (Z.of_nat UDP_RECEIVER_BUF_SIZE) 0 (Z.of_nat sizeof_sockaddr)) e
      = ((ret, data, from), e') -> 0 <= ret ->
    ret = Z.of_nat (length data) /\ (length data <= UDP_RECEIVER_BUF_SIZE)%nat /\
    sa_family (fill sizeof_sockaddr from) = Done AF_INET /\
    exists k, addr_peer (fill sizeof_sockaddr from) = Done (Some k);
}.

(** ** One turn *)
Section Turn.
Context {L : Lwip} {LOk : LwipOk L} {R : Rtos} {E : Type} `{!Env E}.
Implicit Types (g : globals) (w : world E) (m : clients).

Lemma received_buffer sock addr data w :
  (length data <= UDP_RECEIVER_BUF_SIZE)%nat ->
  udp_received sock addr (fill UDP_RECEIVER_BUF_SIZE data) (Z.of_nat (length data)) w =
  udp_received sock addr data (Z.of_nat (length data)) w.
Proof.
  intros Hl. unfold udp_received.
  destruct (Z.ltb_spec (Z.of_nat (length data)) (Z.of_nat sizeof_udp_datagram)); [done|].
  unfold fill. rewrite take_ge by done.
  rewrite (read_at_ok _ _ (data ++ _)) by (rewrite length_app; lia).
  by rewrite read_at_ok, !drop_0, take_app_le by lia.
Qed.

Lemma received_handler sock addr data len : only handler_event (udp_received (E := E) sock addr data len).
Proof.
  unfold udp_received, udp_received_idle, udp_received_ongoing, zperf_receiver_send_stat,
    find_session, load_session, store_session, notify, k_uptime_ticks, get_errno. by only_steps.
Qed.

(** What the server does from [w] to [w']. *)
Definition served_udp (socks : list Z) m w w' : Prop := exists evs m',
  trace w' = trace w ++ evs /\ udp_steps (udp_server (glob w)) socks m evs m' /\
  implements (sessions (glob w')) m' /\ glob w' = set_sessions (sessions (glob w')) (glob w).

Lemma sessions_same g : g = set_sessions (sessions g) g.
Proof. by destruct g. Qed.
Lemma served_refl socks m w : implements (sessions (glob w)) m -> served_udp socks m w w.
Proof.
  intros Hm. exists [], m. rewrite app_nil_r. split; [done|]. split; [constructor|].
  split; [done|]. apply sessions_same.
Qed.

(** Sequencing: the rest of the run continues from the state reached, and its
    fault is one of the whole run. *)
Lemma wpf_served_from {B} socks (m : M (world E) B) (Q : B -> Prop) cs w w1 :
  served_udp socks cs w w1 ->
  (forall cs', implements (sessions (glob w1)) cs' ->
     wpf (empty_measurement (udp_server (glob w1)) socks cs') m
       (fun b w2 => served_udp socks cs' w1 w2 /\ Q b) w1) ->
  wpf (empty_measurement (udp_server (glob w)) socks cs) m
    (fun b w2 => served_udp socks cs w w2 /\ Q b) w1.
Proof.
  intros (evs1 & cs1 & Ht1 & Hs1 & Hi1 & Hg1) Hm.
  assert (Hsrv : udp_server (glob w1) = udp_server (glob w)) by (by rewrite Hg1).
  eapply wpf_mono; [by apply Hm| |].
  - rewrite Hsrv. intros f (Hf & evs2 & cs2 & k & c & time & data & Hs2 & H). split; [done|].
    exists (evs1 ++ evs2), cs2, k, c, time, data. split; [by eapply udp_steps_trans|done].
  - intros b w2 [(evs2 & cs2 & Ht2 & Hs2 & Hi2 & Hg2) HQ]. split; [|done].
    rewrite Hsrv in Hs2. exists (evs1 ++ evs2), cs2.
    split; [by rewrite Ht2, Ht1, app_assoc|]. split; [by eapply udp_steps_trans|].
    split; [done|]. rewrite Hg2 at 1. by rewrite Hg1.
Qed.

(** A datagram. *)
Lemma received_serves_udp `{!ReceivesIpv4 E} socks m s ret data from e w :
  implements (sessions (glob w)) m -> s ∈ socks -> 0 <= ret ->
  answer (LwipRecvfrom s (Z.of_nat UDP_RECEIVER_BUF_SIZE) 0 (Z.of_nat sizeof_sockaddr)) (env w)
    = ((ret, data, from), e) ->
  wpf (empty_measurement (udp_server (glob w)) socks m)
    (udp_received s (fill sizeof_sockaddr from) (fill UDP_RECEIVER_BUF_SIZE data) ret)
    (fun _ w' => served_udp socks m w w')
    (emit (LwipRecvfrom s (Z.of_nat UDP_RECEIVER_BUF_SIZE) 0 (Z.of_nat sizeof_sockaddr)) (ret, data, from) e w).
Proof.
  intros Hm Hs Hret Ha. destruct (receives_ipv4 _ _ _ _ _ _ Ha Hret) as (Hlen & Hbuf & Hf & k & Hk).
  set (ev := LwipRecvfrom _ _ _ _). set (addr := fill sizeof_sockaddr from) in *. subst ret.
  assert (Hto : exists to, destination addr = Done to).
  { unfold destination. rewrite Hf. cbn [mbind outcome_bind].
    destruct (Z.eqb_spec AF_INET AF_INET6) as [Heq|_]; [by destruct (af_distinct Heq)|].
    rewrite read_at_ok; [by eexists|]. pose proof in_fits_sockaddr. unfold addr, fill.
    rewrite length_app, length_take, length_replicate. lia. }
  destruct Hto as [to Hto].
  set (w1 := emit _ _ _ _).
  assert (Hw1 : w1 = on (glob w) (sessions (glob w)) e (trace w ++ [Event ev (Z.of_nat (length data), data, from)]))
    by (unfold w1, emit, on; by destruct (glob w)).
  pose proof (received_handler s addr data (Z.of_nat (length data)) w1) as Hh. rewrite Hw1 in Hh |- *.
  pose proof (received_serves s addr k data to m (glob w) (sessions (glob w)) e
    (trace w ++ [Event ev (Z.of_nat (length data), data, from)]) Hm Hk Hto) as H.
  unfold wpf, wp in *. rewrite received_buffer by done.
  destruct (udp_received s addr data _ _) as [[[] w2]|f|]; [| |done].
  - destruct H as (out & m' & t' & e' & evs & -> & Hserve & Him & Hsent & Hcb).
    destruct Hh as (evs' & Htr & Hall). cbn [trace on] in Htr. apply app_inv_head in Htr as <-.
    exists (Event ev (Z.of_nat (length data), data, from) :: evs), m'.
    split; [cbn [trace on]; by rewrite <- app_assoc|]. split; [|done].
    by apply udp_steps_one, (step_datagram _ _ _ _ _ _ _ k _ out).
  - destruct H as (time & c & Hc & Hr). assert (f = DivisionByZero) as ->.
    { unfold react, summary, c_div, mret, outcome_ret in Hr. repeat case_match; cbn in Hr; congruence. }
    split; [done|]. exists [], m, k, c, time, data. split; [constructor|done].
Qed.
End Turn.

(** ** The loop *)
Section Loop.
Context {L : Lwip} {LOk : LwipOk L} {R : Rtos} {E : Type} `{!Env E, !ReceivesIpv4 E}.
Context (socks : list Z).
Implicit Types (w : world E) (m : clients).

Lemma udp_serve_serves m fds w :
  implements (sessions (glob w)) m -> (forall p, p ∈ fds -> fd p ∈ socks) ->
  wpf (empty_measurement (udp_server (glob w)) socks m) (udp_serve fds)
    (fun _ w' => served_udp socks m w w' /\ True) w.
Proof.
  revert m w. induction fds as [|p fds IH]; intros m w Hm Hfds; cbn [udp_serve].
  { apply wpf_ret. split; [by apply served_refl|done]. }
  assert (Hp : fd p ∈ socks) by (apply Hfds; by left).
  assert (Hrest : forall q, q ∈ fds -> fd q ∈ socks) by (intros q Hq; apply Hfds; by right).
  destruct (_ || _); [apply wpf_ret; split; [by apply served_refl|done]|].
  destruct (negb _); [by apply IH|].
  apply wpf_bind, wpf_safe, (wp_trigger _ (LwipRecvfrom _ _ _ _)). intros [[ret data] from] e Ha.
  destruct (Z.ltb_spec ret 0) as [Hret|Hret].
  - apply wpf_ret. split; [|done]. eexists _, m. split; [reflexivity|].
    split; [by apply udp_steps_one, step_fails|]. split; [done|]. apply sessions_same.
  - apply wpf_bind. eapply wpf_mono; [by apply received_serves_udp|done|].
    intros [] w1 H1. eapply wpf_served_from; [exact H1|]. intros m1 Hm1. by apply IH.
Qed.

(** What the session does from [w] to [w'], while other tasks may ask its server,
    [srv], to stop. *)
Definition udp_ran srv m w w' : Prop := exists evs m',
  trace w' = trace w ++ evs /\ udp_steps srv socks m evs m' /\ implements (sessions (glob w')) m' /\
  asked srv (udp_server (glob w')) /\
  glob w' = set_sessions (sessions (glob w')) (set_udp_server (udp_server (glob w')) (glob w)).

Lemma globals_same g : g = set_sessions (sessions g) (set_udp_server (udp_server g) g).
Proof. by destruct g. Qed.
Lemma udp_ran_refl srv m w :
  implements (sessions (glob w)) m -> asked srv (udp_server (glob w)) -> udp_ran srv m w w.
Proof.
  intros Hm Ha. exists [], m. rewrite app_nil_r. split; [done|]. split; [constructor|].
  split; [done|]. split; [done|]. apply globals_same.
Qed.
Lemma udp_ran_served srv m w w' : udp_server (glob w) = srv -> served_udp socks m w w' -> udp_ran srv m w w'.
Proof.
  intros <- (evs & m' & Ht & Hs & Hi & Hg). exists evs, m'. split; [done|]. split; [done|]. split; [done|].
  split; [left; by rewrite Hg|]. rewrite Hg. by destruct (glob w).
Qed.
Lemma wpf_udp_ran_from {B} srv (m : M (world E) B) (Q : B -> world E -> Prop) cs w w1 :
  udp_ran srv cs w w1 ->
  (forall cs', implements (sessions (glob w1)) cs' -> asked srv (udp_server (glob w1)) ->
     wpf (empty_measurement srv socks cs') m (fun b w2 => udp_ran srv cs' w1 w2 /\ Q b w2) w1) ->
  wpf (empty_measurement srv socks cs) m (fun b w2 => udp_ran srv cs w w2 /\ Q b w2) w1.
Proof.
  intros (evs1 & cs1 & Ht1 & Hs1 & Hi1 & Ha1 & Hg1) Hm.
  eapply wpf_mono; [by apply Hm| |].
  - intros f (Hf & evs2 & cs2 & k & c & time & data & Hs2 & H). split; [done|].
    exists (evs1 ++ evs2), cs2, k, c, time, data. split; [by eapply udp_steps_trans|done].
  - intros b w2 [(evs2 & cs2 & Ht2 & Hs2 & Hi2 & Ha2 & Hg2) HQ]. split; [|done].
    exists (evs1 ++ evs2), cs2. split; [by rewrite Ht2, Ht1, app_assoc|]. split; [by eapply udp_steps_trans|].
    split; [done|]. split; [done|]. rewrite Hg2 at 1. rewrite Hg1. by destruct (glob w).
Qed.

Context (srv : server) (others : M (world E) unit).
Context (Hothers : only_stops udp_server set_udp_server srv others).

(** Requests. *)
Lemma udp_others_run md m w :
  implements (sessions (glob w)) m -> asked srv (udp_server (glob w)) ->
  wp md others (fun _ w' => udp_ran srv m w w' /\
    (server_stop (udp_server (glob w)) = true -> server_stop (udp_server (glob w')) = true)) w.
Proof.
  intros Hm Ha. eapply wp_mono; [by apply wp_total, Hothers|]. intros _ w' [->| ->].
  - split; [by apply udp_ran_refl|done].
  - split; [|done]. exists [], m. rewrite app_nil_r. split; [done|]. split; [constructor|].
    split; [done|]. split; [by right|]. cbn. by destruct (glob w).
Qed.

Lemma udp_turn_serves m fds w :
  implements (sessions (glob w)) m -> asked srv (udp_server (glob w)) -> fd <$> fds = socks ->
  wpf (empty_measurement srv socks m) (udp_turn others fds)
    (fun r w' => udp_ran srv m w w' /\ (fd <$> turn_fds r = socks /\
       forall fds', r = inr (fds', false) -> server_stop (udp_server (glob w')) = true)) w.
Proof.
  intros Hm Ha Hfds. unfold udp_turn.
  apply wpf_bind, wpf_safe, (wp_trigger _ (LwipPoll fds POLL_TIMEOUT_MS)). intros [ret rs] e _.
  set (w1 := emit _ _ _ _). set (fds1 := store_revents fds rs).
  assert (Hfds1 : fd <$> fds1 = socks) by (unfold fds1; by rewrite fd_store_revents).
  assert (H1 : udp_ran srv m w w1).
  { eexists _, m. split; [reflexivity|]. split; [by apply udp_steps_one, step_poll|].
    split; [done|]. split; [done|]. apply globals_same. }
  clearbody w1 fds1. eapply wpf_udp_ran_from; [exact H1|]. clear m w Hm Ha Hfds H1 rs e. intros m Hm Ha.
  apply wpf_bind, wpf_safe. eapply wp_mono; [by apply udp_others_run|]. intros _ w2 [H2 _].
  eapply wpf_udp_ran_from; [exact H2|]. clear m Hm Ha H2. intros m Hm Ha.
  pose proof (udp_ran_refl srv m w2 Hm Ha) as Href.
  destruct (ret <? 0); [by apply wpf_ret|]. apply wpf_bind, wpf_safe, wp_gets.
  destruct (server_stop _) eqn:Hstop; [by apply wpf_ret|]. destruct (ret =? 0); [by apply wpf_ret|].
  pose proof (asked_serving _ _ Ha Hstop) as Hsrv.
  apply wpf_bind. eapply wpf_mono; [apply udp_serve_serves; [exact Hm|]| |].
  - intros p Hp. rewrite <- Hfds1. by apply list_elem_of_fmap_2.
  - by rewrite Hsrv.
  - intros ok w3 [H3 _]. apply wpf_ret. split; [by apply udp_ran_served|]. destruct ok; cbn [turn_fds]; by split.
Qed.

(** The loop, or the error that replaces it, and the report of an error. *)
Definition udp_served m w w' (serving : list event) m' (err : bool) : Prop :=
  trace w' = trace w ++ serving
    ++ (if err then notified (udp_server (glob w')) ZPERF_SESSION_ERROR None else []) /\
  udp_steps srv socks m serving m' /\ implements (sessions (glob w')) m' /\
  (err = false -> server_stop (udp_server (glob w')) = true) /\ asked srv (udp_server (glob w')) /\
  glob w' = set_sessions (sessions (glob w')) (set_udp_server (udp_server (glob w')) (glob w)).

Lemma udp_loop_serves {B} m fuel (ok : bool) fds (k : list pollfd -> M (world E) B) Q w :
  implements (sessions (glob w)) m -> asked srv (udp_server (glob w)) -> fd <$> fds = socks ->
  (forall fds' w' serving m' err, fd <$> fds' = socks -> udp_served m w w' serving m' err ->
     wpf (empty_measurement srv socks m) (k fds') Q w') ->
  wpf (empty_measurement srv socks m)
    ('(fds', err) ← (if ok : bool then loop fuel (udp_turn others) fds else mret (fds, true));
     others;; when err (notify udp_server ZPERF_SESSION_ERROR None);; k fds') Q w.
Proof.
  intros Hm Ha Hfds HQ. apply wpf_bind.
  eapply (wpf_mono _ _ _ (fun r w1 => udp_ran srv m w w1 /\ fd <$> fst r = socks /\
    (snd r = false -> server_stop (udp_server (glob w1)) = true))); [|done|].
  - destruct ok; [|apply wpf_ret; split; [by apply udp_ran_refl|done]].
    apply (wpf_loop_inv _ (fun fds w1 => udp_ran srv m w w1 /\ fd <$> fds = socks)).
    + intros fds1 w1 [H1 Hf1].
      eapply wpf_mono; [apply (wpf_udp_ran_from srv _ (fun r w2 => fd <$> turn_fds r = socks /\
        forall fds', r = inr (fds', false) -> server_stop (udp_server (glob w2)) = true) m w); [exact H1|]|done|].
      * intros m1 Hm1 Ha1. by apply udp_turn_serves.
      * intros [fds2|[fds2 err]] w2 (H2 & Hf2 & Hs2); [done|]. split; [done|]. split; [done|].
        cbn [snd]. intros ->. by eapply Hs2.
    + split; [by apply udp_ran_refl|done].
  - intros [fds' err] w1 (H1 & Hf' & Hstop). cbn [fst snd] in *. apply wpf_bind.
    eapply wpf_mono; [apply (wpf_udp_ran_from srv others (fun _ w2 =>
        server_stop (udp_server (glob w1)) = true -> server_stop (udp_server (glob w2)) = true) m w w1 H1)|done|].
    { intros m1 Hm1 Ha1. by apply wpf_safe, udp_others_run. }
    intros _ w2 [(evs & m' & Ht & Hs & Hi & Ha2 & Hg) Hkeep]. apply wpf_bind. destruct err; cbn [when].
    + apply wpf_safe, wp_notify. intros e. apply (HQ _ _ evs m' true); [done|].
      split; [cbn [trace]; by rewrite Ht, <- app_assoc|done].
    + apply (wpf_ret _ tt), (HQ _ _ evs m' false); [done|].
      split; [by rewrite app_nil_r|]. split; [done|]. split; [done|]. by split; [intros _; apply Hkeep, Hstop|].
Qed.
End Loop.

(** ** The session *)
Section Session.
Context {L : Lwip} {LOk : LwipOk L} {R : Rtos} {E : Type} `{!Env E}.
Implicit Types (w : world E) (m : clients).

(** A socket that is created and set up. *)
Definition socket_opened i fds w (r : list pollfd * bool) w' : Prop :=
  kept w w' /\ exists domain sock evs,
    trace w' = trace w ++ Event (LwipSocket domain SOCK_DGRAM IPPROTO_UDP) sock :: evs /\
    Forall setup_event evs /\ fd <$> fst r = <[i := sock]> (fd <$> fds).

Lemma wp_socket_opened i domain fds (m : Z -> M (world E) (list pollfd * bool)) w :
  (forall sock, only setup_event (m sock)) ->
  (forall sock, returns (fun r => fd <$> fst r = <[i := sock]> (fd <$> fds)) (m sock)) ->
  wp Total (sock ← trigger (LwipSocket domain SOCK_DGRAM IPPROTO_UDP); m sock) (fun _ w' => kept w w') w ->
  wp Total (sock ← trigger (LwipSocket domain SOCK_DGRAM IPPROTO_UDP); m sock) (socket_opened i fds w) w.
Proof.
  intros Ho Hr Hk. eapply wp_mono; [apply wp_conj_partial; [exact Hk|]|intros r w' H; exact H].
  apply wp_bind, (wp_trigger _ (LwipSocket domain SOCK_DGRAM IPPROTO_UDP)). intros sock e _.
  eapply wp_only_returns; [apply Ho|apply Hr|]. intros r w' evs Hfds Htr Hevs.
  exists domain, sock, evs. split; [|done]. rewrite Htr. cbn [trace emit]. by rewrite <- app_assoc.
Qed.

Lemma udp_open_ipv4_opens fds w :
  statics_ok (glob w) -> wp Total (udp_open_ipv4 fds) (socket_opened SOCK_ID_IPV4 fds w) w.
Proof.
  intros Hw. apply wp_socket_opened; [| |by apply udp_open_ipv4_kept].
  - intros sock. by only_steps.
  - intros sock. returns_steps; cbn [fst]; rewrite ?fd_alter_events; by apply fd_alter.
Qed.
Lemma udp_open_ipv6_opens fds w :
  statics_ok (glob w) -> wp Total (udp_open_ipv6 fds) (socket_opened SOCK_ID_IPV6 fds w) w.
Proof.
  intros Hw. apply wp_socket_opened; [| |by apply udp_open_ipv6_kept].
  - intros sock. by only_steps.
  - intros sock. returns_steps; cbn [fst]; rewrite ?fd_alter_events; by apply fd_alter.
Qed.

(** Both sockets, or the first only. *)
Definition both_opened w (r : list pollfd * bool) w' : Prop :=
  kept w w' /\ exists evs, trace w' = trace w ++ evs /\ Forall opening_event evs /\
    created evs = open_fds (fst r).

Lemma wp_both_opened w :
  statics_ok (glob w) ->
  wp Total (udp_open_ipv4 [no_fd; no_fd]) (fun r w1 =>
    wp Total (if snd r && CONFIG_NET_IPV6 then udp_open_ipv6 (fst r) else mret r) (both_opened w) w1) w.
Proof.
  intros Hw. eapply wp_mono; [by apply udp_open_ipv4_opens|].
  intros [fds1 ok] w1 (Hk1 & d4 & s4 & evs4 & Ht1 & He4 & Hf1). cbn [fst snd] in *.
  assert (Hopen4 : Forall opening_event (Event (LwipSocket d4 SOCK_DGRAM IPPROTO_UDP) s4 :: evs4)).
  { constructor; [done|]. eapply Forall_impl; [apply setup_opening|exact He4]. }
  destruct (ok && CONFIG_NET_IPV6).
  - eapply wp_mono; [apply udp_open_ipv6_opens, Hk1|].
    intros [fds2 ok'] w2 (Hk2 & d6 & s6 & evs6 & Ht2 & He6 & Hf2). cbn [fst snd] in *. rewrite Hf1 in Hf2.
    split; [by eapply kept_trans|]. eexists. split; [rewrite Ht2, Ht1, <- app_assoc; reflexivity|].
    split; [apply Forall_app; split; [done|constructor; [done|]; eapply Forall_impl; [apply setup_opening|exact He6]]|].
    unfold open_fds. cbn [fst]. rewrite Hf2, created_app. cbn [created].
    rewrite (created_setup _ He4), (created_setup _ He6).
    cbn [fmap list_fmap no_fd fd insert list_insert SOCK_ID_IPV4 SOCK_ID_IPV6].
    rewrite !filter_cons. destruct (Z.leb_spec 0 s4), (Z.leb_spec 0 s6); repeat case_decide; done || lia.
  - apply wp_ret. split; [done|]. eexists. split; [exact Ht1|]. split; [done|].
    unfold open_fds. cbn [fst created]. rewrite Hf1, (created_setup _ He4).
    cbn [fmap list_fmap no_fd fd insert list_insert SOCK_ID_IPV4 SOCK_ID_IPV6].
    rewrite !filter_cons. destruct (Z.leb_spec 0 s4); repeat case_decide; done || lia.
Qed.

(** C4: a whole session of the UDP server, as long as the datagrams come from IPv4
    peers (one from an IPv6 peer makes it read past an object, which is another
    theorem). Whatever the state of its clients, and whatever requests other
    tasks make meanwhile, it opens its sockets, then polls them and handles each
    datagram by one step of the abstract server of [udp_server_refines] before
    it receives the next, until an error or a request to stop; it reports an
    error, unless it was told to stop, and at the end closes the sockets it has
    created, each once, and nothing else; the table it leaves represents the
    state of the abstract server, so that the next session goes on from there.
    The requests change nothing else than that the server is asked to stop. It
    meets a fault only where the abstract server does, at the end of a
    measurement of no packets. *)
Theorem udp_server_session_refines `{!ReceivesIpv4 E} arrive fuel w m :
  statics_ok (glob w) -> implements (sessions (glob w)) m -> server_running (udp_server (glob w)) = true ->
  wpf (fun f => exists socks, empty_measurement (udp_server (glob w)) socks m f)
    (udp_server_session (udp_requests arrive) fuel)
    (fun _ w' => exists opens socks serving m' err closes,
      trace w' = trace w ++ opens ++ serving
        ++ (if err : bool then notified (udp_server (glob w')) ZPERF_SESSION_ERROR None else []) ++ closes /\
      Forall opening_event opens /\ created opens = filter (fun s => 0 <= s) socks /\
      udp_steps (udp_server (glob w)) socks m serving m' /\
      (err = false -> server_stop (udp_server (glob w')) = true) /\
      calls closes = LwipClose <$> created opens /\
      statics_ok (glob w') /\ asked (udp_server (glob w)) (udp_server (glob w')) /\
      implements (sessions (glob w')) m') w.
Proof.
  intros Hw Hm Hrun. pose proof (udp_requests_stop (E := E) _ arrive Hrun) as Hothers.
  unfold udp_server_session. cbn [CONFIG_NET_IPV4].
  apply wpf_bind, wpf_safe. eapply wp_mono; [by apply wp_total, wp_both_opened|].
  intros [fds1 ok1] w1 H1. cbn [fst snd] in H1. apply wpf_bind, wpf_safe.
  eapply wp_mono; [apply wp_total, H1|]. clear H1 fds1 ok1 w1.
  intros [fds ok] w2 ((Hst & Hsrv & Hses) & opens & Ht2 & Hopens & Hcr). cbn [fst] in Hcr.
  rewrite <- Hses in Hm. set (srv := udp_server (glob w)) in *.
  eapply wpf_mono; [eapply (udp_loop_serves (fd <$> fds) srv _ Hothers m fuel ok fds close_all _ w2 Hm (or_introl Hsrv) eq_refl)| |].
  - intros fds' w3 serving m' err Hf' Hserved. apply wpf_safe, wp_total.
    eapply wp_mono; [apply close_all_closes|]. intros ? w4 (Hg4 & closes & Ht4 & Hc).
    instantiate (1 := fun _ w4 => exists w3 serving m' err closes, udp_served (fd <$> fds) srv m w2 w3 serving m' err /\
      glob w4 = glob w3 /\ trace w4 = trace w3 ++ closes /\ calls closes = LwipClose <$> open_fds fds).
    cbn beta. exists w3, serving, m', err, closes. split; [done|]. split; [done|]. split; [done|].
    rewrite Hc. unfold open_fds. by rewrite Hf'.
  - intros f Hf. by exists (fd <$> fds).
  - intros ? w4 (w3 & serving & m' & err & closes & (Ht3 & Hs & Hi & Hstop & Ha & Hg3) & Hg4 & Ht4 & Hc).
    rewrite Hg4. exists opens, (fd <$> fds), serving, m', err, closes.
    split; [by rewrite Ht4, Ht3, Ht2, <- !app_assoc|]. split; [done|]. split; [exact Hcr|].
    split; [done|]. split; [done|]. split; [by rewrite Hc, Hcr|]. split; [|done].
    destruct Hst as (H4 & H6 & Hl). rewrite Hg3. split; [exact H4|]. split; [exact H6|]. cbn.
    destruct Ha as [->| ->]; [|cbn]; rewrite <- Hsrv; exact Hl.
Qed.
End Session.

(** ** On a concrete input *)
Section Examples.
#[local] Existing Instances lwip_example rtos_example.

(** Datagrams of the example's peer that wait on the first socket; [poll] times out
    when there are none. Each reading of the clock is ten ticks later. *)
Record arrivals : Set := Arrivals { datagrams : list bytes; now : Z }.

Definition arriving_answer (c : call) (e : arrivals) : resp c * arrivals :=
  match c with
  | LwipSocket domain _ _ => (if domain =? AF_INET then 3 else 4, e)
  | LwipPoll _ _ => (match datagrams e with [] => (0, []) | _ => (1, [POLLIN; 0]) end, e)
  | LwipRecvfrom _ _ _ _ =>
      match datagrams e with
      | [] => ((-1, [], []), e)
      | d :: later =>
          let data := take UDP_RECEIVER_BUF_SIZE d in
          ((Z.of_nat (length data), data, example_peer4), Arrivals later (now e))
      end
  | TaskGetTickCount => (now e, Arrivals (datagrams e) (now e + 10))
  | c => (scripted_answer c (RZ 0), e)
  end.
Definition arriving : Env arrivals := {| answer := arriving_answer |}.
#[local] Existing Instance arriving.

Lemma arriving_ipv4 : ReceivesIpv4 arrivals.
Proof.
  split. intros s e ret data from e' Ha Hret. cbn [answer arriving arriving_answer] in Ha.
  destruct (datagrams e) as [|d later]; injection Ha as <- <- <- _; [lia|].
  split; [done|]. split; [rewrite length_take; lia|]. split; [reflexivity|]. eexists. vm_compute. reflexivity.
Qed.

#[local] Existing Instance arriving_ipv4.

(** A measurement of three packets, the second of which is lost, and its end; then
    another task asks the server to stop, while it is in [poll]. *)
Definition example_arrivals : world arrivals :=
  World (set_udp_server (set_running true (udp_server (glob (example_world [])))) (glob (example_world [])))
    (Arrivals [example_dgram 0 88; example_dgram 1 88; example_dgram 3 88; example_dgram (-4) 88] 0) [].

Definition stop_at_end (w : world arrivals) : list request :=
  match datagrams (env w) with [] => [RequestStop] | _ => [] end.

Lemma udp_server_session_refines_witness :
  exists w' socks serving m' before, udp_server_session (udp_requests stop_at_end) 9 example_arrivals = Done (tt, w') /\
    udp_steps (udp_server (glob example_arrivals)) socks ∅ serving m' /\
    implements (sessions (glob w')) m' /\ calls (trace w') = before ++ [LwipClose 3; LwipClose 4].
Proof.
  assert (Hrun : exists w', udp_server_session (udp_requests stop_at_end) 9 example_arrivals = Done (tt, w') /\
            drop 19 (calls (trace w')) = [LwipClose 3; LwipClose 4]).
  { eexists. split; vm_compute; reflexivity. }
  destruct Hrun as (w' & Hrun & Hc).
  assert (Hst : statics_ok (glob example_arrivals)) by (split; [reflexivity|split; reflexivity]).
  destruct (wpf_done _ _ _ _ _ _ (udp_server_session_refines stop_at_end 9 example_arrivals ∅ Hst static_implements eq_refl) Hrun)
    as (opens & socks & serving & m' & err & closes & _ & _ & _ & Hs & _ & _ & _ & _ & Hi).
  exists w', socks, serving, m', (take 19 (calls (trace w'))). split; [exact Hrun|]. split; [exact Hs|].
  split; [exact Hi|]. rewrite <- Hc. symmetry. apply take_drop.
Defined.
End Examples.
