(* ===== verification/TcpReceiver.v ===== *)
(** The TCP server (zperf_tcp_receiver.c): sessions of accepted connections,
    the connection table, and starting and stopping the server. *)
From S2P Require Import Prelude CInt Platform CString Kernel NetIp Session World Common Server.
Open Scope Z_scope.

Definition SOCK_ID_IPV4_LISTEN : nat := 0.
Definition SOCK_ID_IPV6_LISTEN : nat := 1.
(** [CONFIG_NET_ZPERF_MAX_SESSIONS + 2]. *)
Definition SOCK_ID_MAX : nat := SESSION_MAX + 2.
Definition TCP_RECEIVER_BUF_SIZE : nat := 1500.

(** [int] index of the first free connection slot. *)
Fixpoint first_free (j : nat) (fds : list pollfd) : nat :=
  match fds with
  | [] => j
  | p :: fds' => if fd p <? 0 then j else first_free (S j) fds'
  end.

Section TcpReceiver.
Context {L : Lwip} {R : Rtos} {E : Type} `{!Env E}.
Abbreviation W := (world E).

(** [case STATE_COMPLETED: case STATE_NULL:], which falls through. *)
Definition tcp_session_start (i : nat) : M W unit :=
  s ← load_session SESSION_TCP i;
  store_session SESSION_TCP i (zperf_reset_session_stats s);;
  now ← k_uptime_ticks;
  s ← load_session SESSION_TCP i;
  store_session SESSION_TCP i (set_state STATE_ONGOING (set_start_time now s));;
  notify tcp_server ZPERF_SESSION_STARTED None.

(** [case STATE_ONGOING:] *)
Definition tcp_session_data (i : nat) (time datalen : Z) : M W unit :=
  s ← load_session SESSION_TCP i;
  let s := add_data datalen s in
  store_session SESSION_TCP i s;;
  if datalen =? 0 then
    store_session SESSION_TCP i (set_state STATE_COMPLETED s);;
    let results := Results 0 0 0 0 (u32 (length_of s))
                     (k_ticks_to_us_ceil32 (s64 (time - start_time s))) 0 0 0 0 in
    notify tcp_server ZPERF_SESSION_FINISHED (Some results)
  else mret tt.

Definition tcp_received (addr : bytes) (datalen : Z) : M W unit :=
  time ← k_uptime_ticks;
  session ← find_session addr SESSION_TCP;
  match session with
  | None => mret tt
  | Some i =>
      s ← load_session SESSION_TCP i;
      match state_of s with
      | STATE_COMPLETED | STATE_NULL =>
          tcp_session_start i;; tcp_session_data i time datalen
      | STATE_ONGOING => tcp_session_data i time datalen
      | STATE_LAST_PACKET_RECEIVED => mret tt
      end
  end.

(** The array [fds] and [sock_addr], entry [i]. *)
Definition get_fd (i : nat) : M W pollfd :=
  fds ← get_glob tcp_fds;
  match fds !! i with Some p => mret p | None => fail OutOfBounds end.
Definition upd_fd (i : nat) (f : pollfd -> pollfd) : M W unit :=
  upd_glob (fun g => set_tcp_fds (alter f i (tcp_fds g)) g).
Definition get_sock_addr (i : nat) : M W bytes :=
  addrs ← get_glob tcp_sock_addr;
  match addrs !! i with Some a => mret a | None => fail OutOfBounds end.
Definition put_sock_addr (i : nat) (a : bytes) : M W unit :=
  upd_glob (fun g => set_tcp_sock_addr (<[i := a]> (tcp_sock_addr g)) g).

(** [sizeof( *address)] is the size of a [struct sockaddr]. *)
Definition tcp_bind_listen_connection (i : nat) (address : bytes) : M W Z :=
  p ← get_fd i;
  family ← lift (sa_family address);
  (if family =? AF_INET then _ ← lift (sin_port address); mret tt
   else _ ← lift (sin6_port address); mret tt);;
  name ← lift (read_at 0 sizeof_sockaddr address);
  ret ← trigger (LwipBind (fd p) name);
  if ret <? 0 then mret ret else
  ret ← trigger (LwipListen (fd p) 1);
  if ret <? 0 then mret ret else
  upd_fd i (set_events POLLIN);;
  mret ret.

Definition tcp_session_error_report : M W unit :=
  notify tcp_server ZPERF_SESSION_ERROR None.

(** The two blocks that open a listening socket; [false] is [goto error]. *)
Definition tcp_open_ipv4 : M W bool :=
  in4_addr ← get_glob in4_addr_my;
  sock ← trigger (LwipSocket AF_INET SOCK_STREAM IPPROTO_TCP);
  upd_fd SOCK_ID_IPV4_LISTEN (set_fd sock);;
  if sock <? 0 then mret false else
  srv ← get_glob tcp_server;
  addr ← lift (sin_addr (server_addr srv));
  my ← (if negb (net_ipv4_is_addr_unspecified addr) then
          lift (set_sin_addr addr in4_addr)
        else
          '(ret, written) ← zperf_get_ipv4_addr (Some MY_IP4ADDR);
          my ← lift (match written with
                     | Some bs => set_sin_addr bs in4_addr | None => mret in4_addr end);
          if ret <? 0 then lift (set_sin_addr (store_le 4 INADDR_ANY) my) else mret my);
  my ← lift (set_sin_port (htons (server_port srv)) my);
  upd_glob (set_in4_addr_my my);;
  dest ← lift (copy_sockaddr_in_to_sockaddr_storage my);
  put_sock_addr SOCK_ID_IPV4_LISTEN dest;;
  ret ← tcp_bind_listen_connection SOCK_ID_IPV4_LISTEN dest;
  mret (negb (ret <? 0)).

Definition tcp_open_ipv6 : M W bool :=
  in6_addr ← get_glob in6_addr_my;
  sock ← trigger (LwipSocket AF_INET6 SOCK_STREAM IPPROTO_TCP);
  upd_fd SOCK_ID_IPV6_LISTEN (set_fd sock);;
  if sock <? 0 then mret false else
  srv ← get_glob tcp_server;
  addr ← lift (sin6_addr (server_addr srv));
  my ← (if negb (net_ipv6_is_addr_unspecified addr) then
          lift (set_sin6_addr addr in6_addr)
        else
          '(ret, written) ← zperf_get_ipv6_addr (Some MY_IP6ADDR) MY_PREFIX_LEN_STR;
          my ← lift (match written with
                     | Some bs => set_sin6_addr bs in6_addr | None => mret in6_addr end);
          if ret <? 0 then lift (set_sin6_addr net_ipv6_unspecified_address my) else mret my);
  my ← lift (set_sin6_port (htons (server_port srv)) my);
  upd_glob (set_in6_addr_my my);;
  dest ← lift (copy_sockaddr_in6_to_sockaddr_storage my);
  put_sock_addr SOCK_ID_IPV6_LISTEN dest;;
  ret ← tcp_bind_listen_connection SOCK_ID_IPV6_LISTEN dest;
  mret (negb (ret <? 0)).

(** A readable listening socket: accept, then take a free slot or drop. *)
Definition tcp_accept (i : nat) : M W bool :=
  p ← get_fd i;
  '(sock, from) ← trigger (LwipAccept (fd p) (Z.of_nat sizeof_sockaddr_storage));
  if sock <? 0 then mret false else
  fds ← get_glob tcp_fds;
  let j := first_free (SOCK_ID_IPV6_LISTEN + 1) (drop (SOCK_ID_IPV6_LISTEN + 1) fds) in
  if (j =? SOCK_ID_MAX)%nat then
    trigger (LwipClose sock);; mret true
  else
    upd_fd j (fun q => Pollfd sock POLLIN (revents q));;
    a ← get_sock_addr j;
    let incoming := take sizeof_sockaddr_storage from in
    a ← lift (write_at 0 incoming a);
    put_sock_addr j a;;
    mret true.

(** A readable connection: receive; the end of the stream closes it. *)
Definition tcp_receive (i : nat) : M W unit :=
  p ← get_fd i;
  '(ret, data) ← trigger (LwipRecv (fd p) (Z.of_nat TCP_RECEIVER_BUF_SIZE) 0);
  ret ← (if ret <? 0 then tcp_session_error_report;; mret 0 else mret ret);
  a ← get_sock_addr i;
  tcp_received a ret;;
  when (ret =? 0)
    (p ← get_fd i;
     trigger (LwipClose (fd p));;
     upd_fd i (set_fd (-1));;
     put_sock_addr i (memset 0 sizeof_sockaddr_storage)).

(** The [for] loop over the array, from entry [i], [n] entries left. *)
Fixpoint tcp_serve (i n : nat) : M W bool :=
  match n with
  | O => mret true
  | S n' =>
      p ← get_fd i;
      if has_bit (revents p) POLLERR || has_bit (revents p) POLLNVAL then mret false else
      if negb (has_bit (revents p) POLLIN) then tcp_serve (S i) n' else
      ok ← (if (SOCK_ID_IPV4_LISTEN <=? i)%nat && (i <=? SOCK_ID_IPV6_LISTEN)%nat
            then tcp_accept i
            else if (SOCK_ID_IPV6_LISTEN <? i)%nat && (i <? SOCK_ID_MAX)%nat
            then tcp_receive i;; mret true
            else mret false);
      if ok : bool then tcp_serve (S i) n' else mret false
  end.

(** One turn of [while (true)]: [inr true] is [goto error], [inr false] is
    [goto cleanup]. [others] is what other tasks do to the server's variables
    while it is in [poll]. *)
Definition tcp_turn (others : M W unit) (_ : unit) : M W (unit + bool) :=
  fds ← get_glob tcp_fds;
  '(ret, rs) ← trigger (LwipPoll fds POLL_TIMEOUT_MS);
  upd_glob (fun g => set_tcp_fds (store_revents (tcp_fds g) rs) g);;
  others;;
  if ret <? 0 then mret (inr true) else
  srv ← get_glob tcp_server;
  if server_stop srv then mret (inr false) else
  if ret =? 0 then mret (inl tt) else
  ok ← tcp_serve 0 SOCK_ID_MAX;
  mret (if ok : bool then inl tt else inr true).

(** [cleanup:], from entry [i], [n] entries left. *)
Fixpoint tcp_cleanup (i n : nat) : M W unit :=
  match n with
  | O => mret tt
  | S n' =>
      p ← get_fd i;
      (if 0 <=? fd p then
         trigger (LwipClose (fd p));;
         a ← get_sock_addr i;
         a ← lift (write_at 0 (memset 0 sizeof_sockaddr) a);
         put_sock_addr i a
       else mret tt);;
      tcp_cleanup (S i) n'
  end.

(** Requests can also come between the loop, or the opening that failed, and the
    report. *)
Definition tcp_server_session (others : M W unit) (fuel : nat) : M W unit :=
  upd_glob (fun g => set_tcp_fds (set_fd (-1) <$> tcp_fds g) g);;
  ok ← (if CONFIG_NET_IPV4 then tcp_open_ipv4 else mret true);
  ok ← (if ok && CONFIG_NET_IPV6 then tcp_open_ipv6 else mret ok);
  err ← (if ok : bool then loop fuel (tcp_turn others) tt else mret true);
  others;;
  when err tcp_session_error_report;;
  tcp_cleanup 0 SOCK_ID_MAX.

(** [tcp_receiver_thread]: the start, and one turn of its loop. *)
Definition tcp_receiver_thread_start : M W unit :=
  srv ← get_glob tcp_server;
  sem ← k_sem_init (server_run srv) (initial_count (server_run srv))
          (max_count (server_run srv));
  upd_glob (fun g => set_tcp_server (set_server_run sem (tcp_server g)) g).

Definition tcp_receiver_thread_turn (others : M W unit) (fuel : nat) : M W unit :=
  srv ← get_glob tcp_server;
  k_sem_take (server_run srv);;
  tcp_server_session others fuel;;
  upd_glob (fun g => set_tcp_server (set_running false (tcp_server g)) g).

Definition zperf_tcp_download (param : option zperf_download_params) (cb : option callback)
    (ud : Z) : M W Z :=
  match param, cb with
  | Some param, Some cb =>
      srv ← get_glob tcp_server;
      if server_running srv then mret (- EALREADY) else
      srv ← lift (server_start param cb ud srv);
      upd_glob (set_tcp_server srv);;
      k_sem_give (server_run srv);;
      mret 0
  | _, _ => mret (- EINVAL)
  end.

Definition zperf_tcp_download_stop : M W Z :=
  srv ← get_glob tcp_server;
  if negb (server_running srv) then mret (- EALREADY) else
  upd_glob (set_tcp_server (server_stop_request srv));;
  mret 0.

(** The requests, as they come while a session runs. *)
Definition tcp_request (r : request) : M W unit :=
  match r with
  | RequestStart param cb ud => zperf_tcp_download param cb ud;; mret tt
  | RequestStop => zperf_tcp_download_stop;; mret tt
  end.
Definition tcp_requests (arrive : W -> list request) : M W unit := requests tcp_request arrive.
End TcpReceiver.

Section Requests.
Context {L : Lwip} {R : Rtos} {E : Type} `{!Env E}.

Lemma tcp_requests_stop srv (arrive : world E -> list request) :
  server_running srv = true -> only_stops tcp_server set_tcp_server srv (tcp_requests arrive).
Proof.
  intros Hrun. apply requests_stop; [done..|]. intros r w Hw.
  assert (Hr : server_running (tcp_server (glob w)) = true) by (by destruct Hw as [->| ->]).
  destruct r as [[p|] [cb|] ud|]; cbn [tcp_request]; apply wp_bind;
    unfold zperf_tcp_download, zperf_tcp_download_stop; try (apply wp_ret, wp_ret; by left);
    apply wp_bind, wp_gets; rewrite Hr; cbn [negb].
  - apply wp_ret, wp_ret. by left.
  - apply wp_bind, wp_modify, wp_ret, wp_ret. right. by rewrite (asked_stop _ _ Hw).
Qed.
Lemma tcp_requests_no_socket (arrive : world E -> list request) : only no_socket (tcp_requests arrive).
Proof.
  apply only_requests. intros [p cb ud|]; cbn [tcp_request];
    unfold zperf_tcp_download, zperf_tcp_download_stop, k_sem_give; by only_steps.
Qed.
Lemma tcp_requests_keeps {B} (obs : globals -> B) (arrive : world E -> list request) :
  (forall s g, obs (set_tcp_server s g) = obs g) -> keeps obs (tcp_requests arrive).
Proof.
  intros Ho. apply keeps_requests. intros [p cb ud|]; cbn [tcp_request];
    unfold zperf_tcp_download, zperf_tcp_download_stop, k_sem_give; by keeps_steps.
Qed.
End Requests.
#[export] Hint Resolve tcp_requests_no_socket : zperf.

(** ** Sockets: the connection table accounts for every open descriptor *)
Section Sockets.
Context {L : Lwip} {R : Rtos} {E : Type} `{!Env E}.
Implicit Types w : world E.

Definition fds_of (g : globals) : list Z := fd <$> tcp_fds g.

(** Between two worlds, the descriptors opened and not closed are those the
    table has gained, and one more than it has entries is open at most; the table
    keeps its size. *)
Definition table_accounts (w w' : world E) : Prop :=
  accounted 1 (tcp_fds (glob w)) w (tcp_fds (glob w')) w'.

Lemma accounts_refl w : table_accounts w w.
Proof. by apply accounted_refl. Qed.

Lemma accounts_trans w1 w2 w3 :
  table_accounts w1 w2 -> table_accounts w2 w3 -> table_accounts w1 w3.
Proof. apply accounted_trans. Qed.

Lemma accounts_quiet w w' evs :
  fds_of (glob w') = fds_of (glob w) -> trace w' = trace w ++ evs -> Forall no_socket evs ->
  table_accounts w w'.
Proof. intros Hg Htr He. by apply (accounted_quiet _ _ _ _ _ evs). Qed.

Lemma accounts_call w w' ev :
  fds_of (glob w') = fds_of (glob w) -> trace w' = trace w ++ [ev] -> no_socket ev -> table_accounts w w'.
Proof. intros Hg Htr He. eapply accounts_quiet; [done|exact Htr|by constructor]. Qed.

(** Code that neither opens or closes sockets nor touches the table. *)
Lemma neutral_accounts {A} (m : M (world E) A) w :
  only no_socket m -> keeps fds_of m ->
  wp Partial m (fun _ w' => table_accounts w w' /\ fds_of (glob w') = fds_of (glob w)) w.
Proof.
  intros Ho Hk. eapply wp_mono; [apply wp_conj; [apply Ho|apply Hk]|].
  intros a w' [(evs & Htr & He) Hfds]. split; [|done]. by eapply accounts_quiet.
Qed.

Lemma received_no_socket addr len : only no_socket (tcp_received (E := E) addr len).
Proof.
  unfold tcp_received, tcp_session_start, tcp_session_data, find_session, load_session,
    store_session. by only_steps.
Qed.
Lemma received_keeps addr len : keeps fds_of (tcp_received (E := E) addr len).
Proof.
  unfold tcp_received, tcp_session_start, tcp_session_data, find_session, load_session,
    store_session. by keeps_steps.
Qed.
Lemma keeps_ipv4 {B} (obs : globals -> B) host : keeps (E := E) obs (zperf_get_ipv4_addr host).
Proof. unfold zperf_get_ipv4_addr, net_if_ipv4_addr_add. by keeps_steps. Qed.
Lemma keeps_ipv6 {B} (obs : globals -> B) host p : keeps (E := E) obs (zperf_get_ipv6_addr host p).
Proof. unfold zperf_get_ipv6_addr, net_if_ipv6_addr_add, net_if_ipv6_prefix_add. by keeps_steps. Qed.
Lemma bind_listen_no_socket i a : only no_socket (tcp_bind_listen_connection (E := E) i a).
Proof. unfold tcp_bind_listen_connection, get_fd, upd_fd. by only_steps. Qed.
Lemma bind_listen_keeps i a : keeps fds_of (tcp_bind_listen_connection (E := E) i a).
Proof.
  unfold tcp_bind_listen_connection, get_fd, upd_fd. keeps_steps. apply fd_alter_events.
Qed.
#[local] Hint Resolve received_no_socket received_keeps keeps_ipv4 keeps_ipv6
  bind_listen_no_socket bind_listen_keeps : zperf.

(** A new descriptor stored in a slot that held none. *)
Lemma store_fd_accounts c (r : resp c) e i sock ev p w :
  tcp_fds (glob w) !! i = Some p -> fd p < 0 ->
  (forall f, 0 <= f -> opens f (Event c r) = if sock =? f then 1 else 0) ->
  gained (Event c r) = (if 0 <=? sock then 1 else 0) ->
  table_accounts w (with_glob (fun g => set_tcp_fds
     (alter (fun q => Pollfd sock (ev q) (revents q)) i (tcp_fds g)) g) (emit c r e w)).
Proof.
  intros Hi Hp Hop Hg. eapply accounts_trans; [|eapply (accounts_quiet (with_glob (fun g => set_tcp_fds
     (alter (set_fd sock) i (tcp_fds g)) g) (emit c r e w)) _ [])].
  - by apply (accounted_store _ _ _ _ (Event c r) _ p).
  - cbn. unfold fds_of. cbn. by rewrite !(fd_alter _ sock).
  - by rewrite app_nil_r.
  - done.
Qed.

Lemma tcp_open_ipv4_accounts p w :
  tcp_fds (glob w) !! SOCK_ID_IPV4_LISTEN = Some p -> fd p < 0 ->
  wp Partial tcp_open_ipv4 (fun _ w' => table_accounts w w' /\
    fds_of (glob w') !! SOCK_ID_IPV6_LISTEN = fds_of (glob w) !! SOCK_ID_IPV6_LISTEN) w.
Proof.
  intros Hi Hp. unfold tcp_open_ipv4. apply wp_bind, wp_gets, wp_bind. wp_call sock e.
  apply wp_bind, wp_modify.
  set (w1 := with_glob _ _).
  assert (H1 : table_accounts w w1).
  { apply (store_fd_accounts _ _ _ _ sock events p); [done|done| |done]. intros f Hf. cbn.
    destruct (Z.eqb_spec sock f), (Z.leb_spec 0 sock); cbn; lia. }
  assert (H2 : fds_of (glob w1) !! SOCK_ID_IPV6_LISTEN = fds_of (glob w) !! SOCK_ID_IPV6_LISTEN).
  { unfold w1, fds_of. cbn [glob with_glob emit tcp_fds set_tcp_fds].
    rewrite (fd_alter _ sock) by done. by rewrite list_lookup_insert_ne. }
  clearbody w1. eapply wp_mono; [apply neutral_accounts|].
  - unfold put_sock_addr. by only_steps.
  - unfold put_sock_addr. by keeps_steps.
  - intros a w' [Ha Hf]. split; [by eapply accounts_trans|]. by rewrite Hf.
Qed.

Lemma tcp_open_ipv6_accounts p w :
  tcp_fds (glob w) !! SOCK_ID_IPV6_LISTEN = Some p -> fd p < 0 ->
  wp Partial tcp_open_ipv6 (fun _ w' => table_accounts w w') w.
Proof.
  intros Hi Hp. unfold tcp_open_ipv6. apply wp_bind, wp_gets, wp_bind. wp_call sock e.
  apply wp_bind, wp_modify.
  set (w1 := with_glob _ _).
  assert (H1 : table_accounts w w1).
  { apply (store_fd_accounts _ _ _ _ sock events p); [done|done| |done]. intros f Hf. cbn.
    destruct (Z.eqb_spec sock f), (Z.leb_spec 0 sock); cbn; lia. }
  clearbody w1. eapply wp_mono; [apply neutral_accounts|].
  - unfold put_sock_addr. by only_steps.
  - unfold put_sock_addr. by keeps_steps.
  - intros a w' [Ha Hf]. by eapply accounts_trans.
Qed.

(** The search for a free slot. *)
Lemma first_free_spec j fds :
  (first_free j fds = j + length fds)%nat \/
  exists m p, (first_free j fds = j + m)%nat /\ fds !! m = Some p /\ fd p < 0.
Proof.
  revert j. induction fds as [|p fds IH]; intros j; cbn; [left; lia|].
  destruct (Z.ltb_spec (fd p) 0) as [Hp|Hp].
  - right. exists 0%nat, p. split; [lia|done].
  - destruct (IH (S j)) as [-> | (m & q & -> & Hm & Hq)]; [left; lia|].
    right. exists (S m), q. split; [lia|done].
Qed.

(** A connection accepted and closed at once. *)
Lemma dropped_accounts s len sock from e e' u w :
  0 <= sock -> table_accounts w (emit (LwipClose sock) u e' (emit (LwipAccept s len) (sock, from) e w)).
Proof.
  intros Hs. split; [done|]. split.
  - intros f Hf. cbn [trace emit glob]. rewrite !balance_app. cbn.
    destruct (Z.eqb_spec sock f), (Z.leb_spec 0 sock); cbn; lia.
  - exists [Event (LwipAccept s len) (sock, from); Event (LwipClose sock) u]. cbn [trace emit glob].
    rewrite <- app_assoc. split; [done|]. pose proof (used_range (tcp_fds (glob w))). cbn.
    rewrite (proj2 (Z.leb_le _ _)) by done. lia.
Qed.

Lemma tcp_accept_accounts i w :
  length (tcp_fds (glob w)) = SOCK_ID_MAX ->
  wp Partial (tcp_accept i) (fun _ w' => table_accounts w w') w.
Proof.
  intros Hlen. unfold tcp_accept. apply wp_bind. eapply wp_mono; [apply neutral_accounts|].
  { unfold get_fd. by only_steps. } { unfold get_fd. by keeps_steps. }
  intros p w0 [H0 _]. apply wp_bind. wp_call r e. destruct r as [sock from].
  set (w1 := emit _ _ _ _).
  assert (Hop : forall f, 0 <= f -> opens f (Event (LwipAccept (fd p) (Z.of_nat sizeof_sockaddr_storage))
                  (sock, from)) = if sock =? f then 1 else 0).
  { intros f Hf. cbn. destruct (Z.eqb_spec sock f), (Z.leb_spec 0 sock); cbn; lia. }
  destruct (Z.ltb_spec sock 0) as [Hs|Hs].
  { apply wp_ret. eapply accounts_trans; [exact H0|].
    eapply accounts_call; [reflexivity|reflexivity|]. intros f. cbn. destruct (Z.eqb_spec sock f), (Z.leb_spec 0 sock); cbn; lia. }
  apply wp_bind, wp_gets.
  set (fds := tcp_fds (glob w1)). set (j := first_free _ _).
  destruct (Nat.eqb_spec j SOCK_ID_MAX) as [Hj|Hj].
  { apply wp_bind. wp_call u e'. apply wp_ret. eapply accounts_trans; [exact H0|].
    by apply dropped_accounts. }
  destruct (first_free_spec (SOCK_ID_IPV6_LISTEN + 1) (drop (SOCK_ID_IPV6_LISTEN + 1) fds))
    as [Hff|(m & q & Hff & Hm & Hq)]; fold j in Hff.
  { exfalso. apply Hj. rewrite Hff, length_drop. unfold fds, w1. cbn [glob emit].
    rewrite (proj1 H0), Hlen. reflexivity. }
  rewrite lookup_drop, <- Hff in Hm. apply wp_bind, wp_modify.
  set (w2 := with_glob _ _).
  assert (H2 : table_accounts w0 w2).
  { by apply (store_fd_accounts _ _ _ _ sock (fun _ => POLLIN) q). }
  clearbody w2. eapply wp_mono; [apply neutral_accounts|].
  { unfold get_sock_addr, put_sock_addr. by only_steps. }
  { unfold get_sock_addr, put_sock_addr. by keeps_steps. }
  intros a w' [Ha _]. eapply accounts_trans; [exact H0|]. by eapply accounts_trans.
Qed.

Lemma wp_get_fd md i p (Q : pollfd -> world E -> Prop) w :
  tcp_fds (glob w) !! i = Some p -> Q p w -> wp md (get_fd i) Q w.
Proof. intros Hi HQ. unfold wp, get_fd, get_glob, gets, mbind, M_bind. by rewrite Hi. Qed.

Lemma wp_get_fd_partial i (Q : pollfd -> world E -> Prop) w :
  (forall p, tcp_fds (glob w) !! i = Some p -> Q p w) -> wp Partial (get_fd i) Q w.
Proof.
  intros HQ. unfold wp, get_fd, get_glob, gets, mbind, M_bind.
  destruct (tcp_fds (glob w) !! i) as [p|] eqn:Hi; [by apply HQ|done].
Qed.

Lemma tcp_receive_accounts i w : wp Partial (tcp_receive i) (fun _ w' => table_accounts w w') w.
Proof.
  unfold tcp_receive, tcp_session_error_report. apply wp_bind, wp_get_fd_partial. intros p _.
  apply wp_bind. wp_call r e. destruct r as [ret data]. set (w1 := emit _ _ _ _).
  assert (H1 : table_accounts w w1) by (by eapply accounts_call).
  clearbody w1. apply wp_bind. eapply wp_mono; [apply neutral_accounts|].
  { by only_steps. } { by keeps_steps. }
  intros ret' w2 [H2 _]. apply wp_bind. unfold get_sock_addr.
  eapply wp_mono; [apply neutral_accounts|]. { by only_steps. } { by keeps_steps. }
  intros a w3 [H3 _]. apply wp_bind. eapply wp_mono; [by apply neutral_accounts; auto with zperf|].
  intros ? w4 [H4 _]. pose proof (accounts_trans _ _ _ (accounts_trans _ _ _ (accounts_trans _ _ _ H1 H2) H3) H4) as H.
  apply wp_when; [|done]. intros _. apply wp_bind, wp_get_fd_partial. intros q Hq.
  apply wp_bind. wp_call u e'. apply wp_bind, wp_modify. apply wp_modify.
  eapply accounts_trans; [exact H|]. apply (accounted_call _ _ _ _ _ (Event (LwipClose (fd q)) u)); try done.
  - apply length_alter.
  - intros f Hf. cbn [glob with_glob emit tcp_fds set_tcp_fds set_tcp_sock_addr].
    rewrite (held_alter _ _ _ _ q Hq). cbn. destruct (Z.eqb_spec (fd q) f), (Z.eqb_spec (-1) f); lia.
  - cbn [glob with_glob emit tcp_fds set_tcp_fds set_tcp_sock_addr].
    rewrite (used_alter _ _ _ q Hq). cbn. destruct (Z.leb_spec 0 (fd q)); lia.
Qed.

Lemma tcp_serve_accounts i n w :
  length (tcp_fds (glob w)) = SOCK_ID_MAX ->
  wp Partial (tcp_serve i n) (fun _ w' => table_accounts w w') w.
Proof.
  revert i w. induction n as [|n IH]; intros i w Hlen; cbn [tcp_serve];
    [apply wp_ret, accounts_refl|].
  apply wp_bind, wp_get_fd_partial. intros p _.
  destruct (_ || _); [apply wp_ret, accounts_refl|].
  destruct (negb _); [by apply IH|].
  apply wp_bind. eapply (wp_mono _ _ (fun _ w' => table_accounts w w')).
  - destruct (_ && _); [by apply tcp_accept_accounts|].
    destruct (_ && _); [|apply wp_ret, accounts_refl].
    apply wp_bind. eapply wp_mono; [apply tcp_receive_accounts|]. intros ? w' H. by apply wp_ret.
  - intros ok w' H. destruct ok; [|by apply wp_ret].
    eapply wp_mono; [apply IH; by rewrite (proj1 H)|]. intros ? w'' H'. by eapply accounts_trans.
Qed.

Lemma tcp_turn_accounts others u w :
  only no_socket others -> keeps fds_of others -> length (tcp_fds (glob w)) = SOCK_ID_MAX ->
  wp Partial (tcp_turn others u) (fun _ w' => table_accounts w w') w.
Proof.
  intros Ho Hk Hlen. unfold tcp_turn. apply wp_bind, wp_gets, wp_bind. wp_call r e. destruct r as [ret rs].
  apply wp_bind, wp_modify. set (w1 := with_glob _ _).
  assert (H1 : table_accounts w w1).
  { eapply accounts_call; [apply fd_store_revents|reflexivity|done]. }
  clearbody w1. apply wp_bind. eapply wp_mono; [by apply neutral_accounts|]. intros _ w2 [H2 _].
  apply (accounts_trans _ _ _ H1) in H2. clear H1. rename H2 into H1. clear w1. rename w2 into w1.
  destruct (ret <? 0); [by apply wp_ret|]. apply wp_bind, wp_gets.
  destruct (server_stop _); [by apply wp_ret|]. destruct (ret =? 0); [by apply wp_ret|].
  apply wp_bind. eapply wp_mono; [apply tcp_serve_accounts; by rewrite (proj1 H1)|].
  intros ok w' H. apply wp_ret. by eapply accounts_trans.
Qed.

Lemma tcp_cleanup_closed i n w :
  (i + n = length (tcp_fds (glob w)))%nat ->
  wp Partial (tcp_cleanup i n) (fun _ w' => closed (drop i (tcp_fds (glob w))) w w') w.
Proof.
  revert i w. induction n as [|n IH]; intros i w Hl; cbn [tcp_cleanup].
  - apply wp_ret. rewrite drop_ge by lia. apply closed_nil.
  - apply wp_bind, wp_get_fd_partial. intros p Hp. rewrite (drop_S _ _ _ Hp). apply wp_bind.
    destruct (Z.leb_spec 0 (fd p)) as [Hf|Hf].
    + apply wp_bind. wp_call u e. unfold get_sock_addr. apply wp_bind.
      unfold wp at 1, get_glob, gets, mbind, M_bind. cbn [glob emit].
      destruct (tcp_sock_addr (glob w) !! i); [|done]. unfold mret, M_ret, lift.
      destruct (write_at _ _ _); [|done..]. cbn. eapply wp_mono; [apply IH; cbn; lia|].
      intros ? w'. by apply (closed_cons _ _ (fd p) u w e).
    + apply wp_ret. eapply wp_mono; [apply IH; lia|]. intros ? w'. by apply closed_skip.
Qed.

(** However a session ends, it has closed what it opened, and never had more
    open than its table has entries and one connection to drop. *)
Lemma tcp_session_accounted others fuel w :
  only no_socket others -> keeps fds_of others -> length (tcp_fds (glob w)) = SOCK_ID_MAX ->
  wp Partial (tcp_server_session others fuel) (fun _ w' =>
    (forall f, 0 <= f -> balance f (trace w') = balance f (trace w)) /\
    at_most (Z.of_nat SOCK_ID_MAX + 1) w w') w.
Proof.
  intros Ho Hk Hlen. unfold tcp_server_session. cbn [CONFIG_NET_IPV4 CONFIG_NET_IPV6].
  apply wp_bind, wp_modify. set (w0 := with_glob _ _).
  assert (Hf0 : forall i, (i < SOCK_ID_MAX)%nat ->
            exists p, tcp_fds (glob w0) !! i = Some p /\ fd p = -1).
  { intros i Hi. unfold w0. cbn. destruct (lookup_lt_is_Some_2 (tcp_fds (glob w)) i ltac:(lia)) as [p Hp].
    exists (set_fd (-1) p). by rewrite list_lookup_fmap, Hp. }
  assert (Hneg : Forall (fun p => fd p < 0) (tcp_fds (glob w0))).
  { unfold w0. cbn. apply Forall_fmap, Forall_true. done. }
  assert (Hl0 : length (tcp_fds (glob w0)) = SOCK_ID_MAX)
    by (unfold w0; cbn; by rewrite length_fmap).
  unfold at_most. change (trace w) with (trace w0). clearbody w0. clear Hlen w.
  destruct (Hf0 SOCK_ID_IPV4_LISTEN ltac:(unfold SOCK_ID_MAX, SOCK_ID_IPV4_LISTEN; lia)) as (p4 & Hp4 & Hv4).
  destruct (Hf0 SOCK_ID_IPV6_LISTEN ltac:(unfold SOCK_ID_MAX, SOCK_ID_IPV6_LISTEN; lia)) as (p6 & Hp6 & Hv6).
  apply wp_bind. eapply wp_mono; [apply (tcp_open_ipv4_accounts p4); [done|lia]|].
  intros ok1 w1 [H1 Hk1]. apply wp_bind.
  eapply (wp_mono _ _ (fun _ w' => table_accounts w0 w')).
  { destruct ok1; cbn [andb]; [|by apply wp_ret].
    unfold fds_of in Hk1. rewrite !list_lookup_fmap, Hp6 in Hk1. cbn in Hk1.
    destruct (tcp_fds (glob w1) !! SOCK_ID_IPV6_LISTEN) as [q|] eqn:Hq; [|done].
    injection Hk1 as Hk1. eapply wp_mono; [apply (tcp_open_ipv6_accounts q); [done|lia]|].
    intros ? w2 H2. by eapply accounts_trans. }
  intros ok2 w2 H2. apply wp_bind. eapply (wp_mono _ _ (fun _ w' => table_accounts w0 w')).
  { destruct ok2; [|by apply wp_ret].
    apply (wp_loop_inv _ (fun _ w' => table_accounts w0 w')); [done| |done].
    intros u w' H. eapply wp_mono; [apply tcp_turn_accounts; [done..|by rewrite (proj1 H)]|].
    intros [[]|b] w'' H'; by eapply accounts_trans. }
  intros err w3 H3. apply (wp_assoc _ others (fun _ => when err tcp_session_error_report)). apply wp_bind.
  eapply wp_mono.
  { apply neutral_accounts; [apply only_bind; [exact Ho|intros _; apply only_when, notify_no_socket]
                            |apply keeps_bind; [exact Hk|intros _; apply keeps_when, keeps_notify]]. }
  intros ? w4 [H4 _]. pose proof (accounts_trans _ _ _ H3 H4) as H.
  eapply wp_mono; [apply tcp_cleanup_closed; rewrite (proj1 H), Hl0; reflexivity|].
  intros ? w5 H5. rewrite drop_0 in H5. rewrite <- Hl0. by eapply accounted_closed.
Qed.

(** C11: no connection is leaked. However the TCP server's session ends (by an error,
    or by a request to stop that another task makes while it polls, whatever
    connections are open then), it has closed its listening sockets and every
    connection it accepted, also those it accepted while the table was full:
    every descriptor was closed as often as it was opened. At no moment has it had more sockets open than the two it
    listens on, one for each entry of the table, and one that it drops. *)
Theorem tcp_server_session_closes arrive fuel w :
  length (tcp_fds (glob w)) = SOCK_ID_MAX ->
  wp Partial (tcp_server_session (tcp_requests arrive) fuel) (fun _ w' =>
    (forall f, 0 <= f -> balance f (trace w') = balance f (trace w)) /\
    at_most (Z.of_nat SOCK_ID_MAX + 1) w w') w.
Proof. apply tcp_session_accounted; [apply tcp_requests_no_socket|by apply tcp_requests_keeps]. Qed.
End Sockets.

(** ** A connection's stream *)
Section Stream.
Context {L : Lwip} {LOk : LwipOk L} {R : Rtos} {E : Type} `{!Env E}.
Implicit Types (g : globals) (t : table) (e : E) (tr : list event).

(** The successive results of [recv] on one connection. *)
Fixpoint tcp_deliver (addr : bytes) (lens : list Z) : M (world E) unit :=
  match lens with
  | [] => mret tt
  | len :: lens' => tcp_received addr len;; tcp_deliver addr lens'
  end.

Definition tput (i : nat) (s : session) (t : table) : table :=
  set_row SESSION_TCP (<[i := s]> (row SESSION_TCP t)) t.

Lemma tput_lookup i s s0 t :
  row SESSION_TCP t !! i = Some s0 -> row SESSION_TCP (tput i s t) !! i = Some s.
Proof.
  intros Hi. unfold tput. rewrite row_set_row, decide_True by done.
  apply list_lookup_insert_eq. by eapply lookup_lt_Some.
Qed.
Lemma tput_other i s t q j :
  (q, j) <> (SESSION_TCP, i) -> row q (tput i s t) !! j = row q t !! j.
Proof.
  intros Hne. unfold tput. rewrite row_set_row. case_decide; [subst q|done].
  apply list_lookup_insert_ne. congruence.
Qed.
Lemma tput_tput i s s' t : tput i s' (tput i s t) = tput i s' t.
Proof.
  unfold tput. rewrite row_set_row, decide_True by done.
  by rewrite set_row_twice, list_insert_insert_eq.
Qed.

(** What the callback gets at the end of a connection. *)
Definition tcp_results (len duration : Z) : zperf_results := Results 0 0 0 0 len duration 0 0 0 0.
Definition tcp_closed (s : session) : session := set_state STATE_COMPLETED (add_data 0 s).
Definition tcp_started (time : Z) (s : session) : session :=
  set_state STATE_ONGOING (set_start_time time (zperf_reset_session_stats s)).

Lemma wp_data md i s time len (Q : unit -> world E -> Prop) g t e tr :
  row SESSION_TCP t !! i = Some s -> len <> 0 ->
  Q tt (on g (tput i (add_data len s) t) e tr) ->
  wp md (tcp_session_data i time len) Q (on g t e tr).
Proof.
  intros Hi Hl HQ. apply wp_bind. eapply wp_load_session; [exact Hi|].
  apply wp_bind, wp_store_session. destruct (Z.eqb_spec len 0); [done|]. apply wp_ret, HQ.
Qed.

Lemma wp_eof md i s time (Q : unit -> world E -> Prop) g t e tr :
  row SESSION_TCP t !! i = Some s ->
  let r := tcp_results (u32 (length_of (tcp_closed s)))
             (k_ticks_to_us_ceil32 (s64 (time - start_time s))) in
  (forall e', Q tt (on g (tput i (tcp_closed s) t) e'
     (tr ++ notified (tcp_server g) ZPERF_SESSION_FINISHED (Some r)))) ->
  wp md (tcp_session_data i time 0) Q (on g t e tr).
Proof.
  intros Hi r HQ. apply wp_bind. eapply wp_load_session; [exact Hi|].
  apply wp_bind, wp_store_session. cbv zeta. rewrite Z.eqb_refl.
  apply wp_bind, wp_store_session, wp_notify_on. intros e'.
  specialize (HQ e'). rewrite <- (tput_tput i (add_data 0 s)) in HQ. exact HQ.
Qed.

(** The first result of a connection starts a session, then counts as data. *)
Lemma wp_first md addr i s len (Q : unit -> world E -> Prop) g t t1 e tr :
  get_session addr SESSION_TCP t = Done (Some i, t1) -> row SESSION_TCP t1 !! i = Some s ->
  slot_free s = true ->
  (forall time now e', wp md (tcp_session_data i (u32 time) len) Q
     (on g (tput i (tcp_started (u32 now) s) t1) e'
        (tr ++ Event TaskGetTickCount time :: Event TaskGetTickCount now
            :: notified (tcp_server g) ZPERF_SESSION_STARTED None))) ->
  wp md (tcp_received addr len) Q (on g t e tr).
Proof.
  intros Hget Hi Hfree HQ. unfold tcp_received. apply wp_bind, wp_clock. intros time e1 _.
  apply wp_bind. eapply wp_find_session; [exact Hget|]. apply wp_bind.
  eapply wp_load_session; [exact Hi|].
  assert (Hstart : wp md (tcp_session_start i;; tcp_session_data i (u32 time) len) Q
            (on g t1 e1 (tr ++ [Event TaskGetTickCount time]))).
  { apply wp_bind. unfold tcp_session_start. apply wp_bind. eapply wp_load_session; [exact Hi|].
    apply wp_bind, wp_store_session, wp_bind, wp_clock. intros now e2 _.
    fold (tput i (zperf_reset_session_stats s) t1).
    apply wp_bind. eapply wp_load_session; [by eapply tput_lookup|].
    apply wp_bind, wp_store_session, wp_notify_on. intros e3.
    specialize (HQ time now e3). rewrite <- (tput_tput i (zperf_reset_session_stats s)) in HQ.
    rewrite <- !app_assoc. exact HQ. }
  unfold slot_free in Hfree. apply orb_true_iff in Hfree as [H|H]; apply bool_decide_eq_true in H;
    by rewrite H.
Qed.

(** The following ones. *)
Lemma wp_next md addr k i s len (Q : unit -> world E -> Prop) g t e tr :
  table_wf t -> addr_peer addr = Done (Some k) ->
  row SESSION_TCP t !! i = Some s -> slot_peer s = Some k -> state_of s = STATE_ONGOING ->
  (forall time e', wp md (tcp_session_data i (u32 time) len) Q
     (on g t e' (tr ++ [Event TaskGetTickCount time]))) ->
  wp md (tcp_received addr len) Q (on g t e tr).
Proof.
  intros Hwf Hk Hi Hs Hst HQ. unfold tcp_received. apply wp_bind, wp_clock. intros time e1 _.
  apply wp_bind. eapply wp_find_session; [by eapply get_session_found|]. apply wp_bind.
  eapply wp_load_session; [exact Hi|]. rewrite Hst. apply HQ.
Qed.

(** The data between the first result and the end of the stream. *)
Lemma wp_tcp_data md addr k i lens s (Q : unit -> world E -> Prop) g t e tr :
  table_wf t -> addr_peer addr = Done (Some k) ->
  row SESSION_TCP t !! i = Some s -> slot_peer s = Some k -> state_of s = STATE_ONGOING ->
  Forall (fun n => 0 < n) lens ->
  (forall evs e', callbacks evs = [] ->
    Q tt (on g (tput i (foldl (fun s n => add_data n s) s lens) t) e' (tr ++ evs))) ->
  wp md (tcp_deliver addr lens) Q (on g t e tr).
Proof.
  intros Hwf Hk. revert s t e tr Hwf. induction lens as [|n lens IH];
    intros s t e tr Hwf Hi Hs Hst Hl HQ.
  - apply wp_ret. specialize (HQ [] e eq_refl). cbn [foldl] in HQ. unfold tput in HQ.
    rewrite set_row_same, app_nil_r in HQ by done. exact HQ.
  - apply Forall_cons_iff in Hl as [Hn Hl]. cbn [tcp_deliver]. apply wp_bind.
    eapply wp_next; [done..|]. intros time e'. eapply wp_data; [done|lia|].
    apply (IH (add_data n s)).
    + eapply (table_wf_update SESSION_TCP); done.
    + by eapply tput_lookup.
    + done.
    + done.
    + done.
    + intros evs e'' Hevs. rewrite tput_tput, <- app_assoc.
      apply (HQ (Event TaskGetTickCount time :: evs)). exact Hevs.
Qed.

Lemma add_data_foldl lens s :
  let s' := foldl (fun s n => add_data n s) s lens in
  u64 (length_of s') = u64 (length_of s + sum lens) /\ start_time s' = start_time s /\
  ip s' = ip s /\ port s' = port s /\ state_of s' = state_of s.
Proof.
  cbv zeta. revert s. induction lens as [|n lens IH]; intros s; cbn [foldl sum foldr].
  - by rewrite Z.add_0_r.
  - destruct (IH (add_data n s)) as (H1 & H2 & H3 & H4 & H5). split_and!; [|done..].
    rewrite H1. cbn. fold (sum lens). cint.
Qed.

(** Delivering one more result. *)
Lemma wp_deliver_snoc md addr lens len (Q : unit -> world E -> Prop) w :
  wp md (tcp_deliver addr lens) (fun _ w' => wp md (tcp_received addr len) Q w') w ->
  wp md (tcp_deliver addr (lens ++ [len])) Q w.
Proof.
  revert w. induction lens as [|n lens IH]; intros w H; cbn [app tcp_deliver] in *.
  - apply wp_bind. eapply wp_mono; [exact H|]. by intros [].
  - apply wp_bind. unfold mbind, M_bind, wp in *.
    destruct (tcp_received addr n w) as [[[] w1]| |]; [|done..]. by apply IH.
Qed.

(** A whole TCP session. For a connection with no session in progress that
    delivers [n] and then more bytes and then its end, the server runs to the
    end in every environment, reports the start and the end exactly once to the
    callback, with the number of bytes received and the time from the first
    data to the end as the clock gave it, leaves the session completed and
    changes no other session. *)
Theorem tcp_session_run addr k n lens i s0 w t1 :
  table_wf (sessions (glob w)) -> addr_peer addr = Done (Some k) ->
  get_session addr SESSION_TCP (sessions (glob w)) = Done (Some i, t1) ->
  row SESSION_TCP t1 !! i = Some s0 -> slot_free s0 = true ->
  Forall (fun n => 0 < n) (n :: lens) ->
  wp Total (tcp_deliver addr (n :: lens ++ [0])) (fun _ w' =>
    exists first last evs r,
      trace w' = trace w ++ evs /\
      clock_readings evs !! 1%nat = Some first /\ list.last (clock_readings evs) = Some last /\
      r = tcp_results (u32 (sum (n :: lens))) (k_ticks_to_us_ceil32 (s64 (last - first))) /\
      callbacks evs =
        match session_cb (tcp_server (glob w)) with
        | None => []
        | Some cb =>
            [(cb, ZPERF_SESSION_STARTED, None, user_data (tcp_server (glob w)));
             (cb, ZPERF_SESSION_FINISHED, Some r, user_data (tcp_server (glob w)))]
        end /\
      (exists s, row SESSION_TCP (sessions (glob w')) !! i = Some s /\
                 state_of s = STATE_COMPLETED) /\
      forall q j, (q, j) <> (SESSION_TCP, i) ->
        row q (sessions (glob w')) !! j = row q (sessions (glob w)) !! j) w.
Proof.
  intros Hwf Hk Hget Hi Hfree Hpos. rewrite (world_on w). set (g := glob w). set (t := sessions g) in *.
  apply Forall_cons_iff in Hpos as [Hn Hpos].
  destruct (get_session_slot addr k SESSION_TCP t i t1 Hwf Hk Hget) as (Hwf1 & Hs & Hoth & _).
  destruct Hs as (s0' & Hi' & Hpeer). assert (s0' = s0) as -> by congruence. clear Hi'.
  cbn [tcp_deliver]. apply wp_bind. eapply wp_first; [done..|]. intros time now e1.
  eapply wp_data; [by eapply tput_lookup|lia|]. rewrite tput_tput.
  set (s := add_data n (tcp_started (u32 now) s0)).
  apply wp_deliver_snoc.
  eapply wp_tcp_data; [eapply (table_wf_update SESSION_TCP); done|done|by eapply tput_lookup
                      |exact Hpeer|done|done|].
  intros evs e2 Hevs. rewrite tput_tput. set (s' := foldl _ s lens).
  destruct (add_data_foldl lens s) as (Hlen & Hst & Hip & Hport & Hstate).
  fold s' in Hlen, Hst, Hip, Hport, Hstate.
  eapply (wp_next _ _ k i s'); [eapply (table_wf_update SESSION_TCP); done|done|by eapply tput_lookup| |done|].
  { unfold slot_peer. rewrite Hip, Hport. exact Hpeer. }
  intros time' e3. eapply wp_eof; [by eapply tput_lookup|]. intros e4. rewrite tput_tput.
  set (r := tcp_results _ _).
  exists (u32 now), (u32 time'), (Event TaskGetTickCount time :: Event TaskGetTickCount now
      :: notified (tcp_server g) ZPERF_SESSION_STARTED None ++ evs
      ++ Event TaskGetTickCount time'
      :: notified (tcp_server g) ZPERF_SESSION_FINISHED (Some r)), r.
  split; [cbn [trace on]; rewrite <- !app_assoc; reflexivity|]. split; [done|].
  split; [|split; [|split; [|split]]].
  - cbn [clock_readings]. rewrite !clock_readings_app. cbn [clock_readings].
    rewrite !clock_readings_notified. cbn [app].
    change (u32 time :: u32 now :: clock_readings evs ++ [u32 time'])
      with ((u32 time :: u32 now :: clock_readings evs) ++ [u32 time']).
    apply last_snoc.
  - unfold r. rewrite Hst. f_equal. cbn [length_of tcp_closed set_state add_data].
    change (length_of s) with (u64 (0 + n)) in Hlen. cbn [sum foldr]. fold (sum lens).
    clear -Hlen. cint.
  - cbn [callbacks]. rewrite !callbacks_app, callbacks_notified, Hevs. cbn [callbacks app].
    rewrite callbacks_notified. cbn [glob on tcp_server set_sessions].
    by destruct (session_cb (tcp_server g)).
  - exists (tcp_closed s'). split; [by eapply tput_lookup|done].
  - intros q j Hne. transitivity (row q t1 !! j); [by apply tput_other|by apply Hoth].
Qed.

(** A connection that ends, or whose first [recv] fails, before any data:
    the session starts and finishes at once with no bytes, and its duration is
    computed from a start that is read after the end: where the clock ticks
    between the two readings the duration is negative and wraps around. *)
Theorem tcp_empty_session addr i s0 w t1 :
  get_session addr SESSION_TCP (sessions (glob w)) = Done (Some i, t1) ->
  row SESSION_TCP t1 !! i = Some s0 -> slot_free s0 = true ->
  wp Total (tcp_received addr 0) (fun _ w' =>
    exists time start evs r,
      trace w' = trace w ++ evs /\ clock_readings evs = [time; start] /\
      r = tcp_results 0 (k_ticks_to_us_ceil32 (s64 (time - start))) /\
      callbacks evs =
        match session_cb (tcp_server (glob w)) with
        | None => []
        | Some cb =>
            [(cb, ZPERF_SESSION_STARTED, None, user_data (tcp_server (glob w)));
             (cb, ZPERF_SESSION_FINISHED, Some r, user_data (tcp_server (glob w)))]
        end) w.
Proof.
  intros Hget Hi Hfree. rewrite (world_on w). set (g := glob w).
  eapply wp_first; [done..|]. intros time now e1. eapply wp_eof; [by eapply tput_lookup|].
  intros e2. set (r := tcp_results _ _).
  exists (u32 time), (u32 now), (Event TaskGetTickCount time :: Event TaskGetTickCount now
      :: notified (tcp_server g) ZPERF_SESSION_STARTED None
      ++ notified (tcp_server g) ZPERF_SESSION_FINISHED (Some r)), r.
  split; [cbn [trace on]; rewrite <- !app_assoc; reflexivity|]. split; [|split; [done|]].
  - cbn [clock_readings]. by rewrite clock_readings_app, !clock_readings_notified.
  - cbn [callbacks]. rewrite callbacks_app, !callbacks_notified.
    cbn [glob on tcp_server set_sessions]. by destruct (session_cb (tcp_server g)).
Qed.
End Stream.

(** ** Witnesses *)
Section Witnesses.
#[local] Existing Instances lwip_example rtos_example.

(** Both listeners open and a connection is accepted; while the server polls
    again, another task asks it to stop. *)
Definition example_accept_world : world (list reply) :=
  with_glob (fun g => set_tcp_server (set_running true (tcp_server g)) g)
    (example_world [RZ 3; RZ 0; RZ 0; RZ 0; RZ 4; RZ 1; RZ 0; RZ 0; RPoll 1 [1; 0];
                    RData 5 example_peer4; RPoll 0 []]).
Definition example_stop (w : world (list reply)) : list request :=
  match env w with [] => [RequestStop] | _ => [] end.

Lemma tcp_server_session_closes_witness :
  exists w', tcp_server_session (L := lwip_example) (tcp_requests example_stop) 5 example_accept_world
      = Done (tt, w') /\ server_stop (tcp_server (glob w')) = true /\
    opens 5 <$> trace w' = [0; 0; 0; 0; 0; 0; 0; 0; 0; 1; 0; 0; 0; -1] /\
    balance 5 (trace w') = 0 /\ balance 3 (trace w') = 0.
Proof.
  destruct (tcp_server_session (L := lwip_example) (tcp_requests example_stop) 5 example_accept_world)
    as [[[] w']| |] eqn:Hrun; [|vm_compute in Hrun; discriminate Hrun..].
  exists w'. split; [reflexivity|].
  pose proof (tcp_server_session_closes (L := lwip_example) (R := rtos_example) example_stop 5
                example_accept_world eq_refl) as H.
  pose proof (wp_done _ _ _ _ _ _ H Hrun) as [Hb _].
  cut (server_stop (tcp_server (glob w')) = true /\
       opens 5 <$> trace w' = [0; 0; 0; 0; 0; 0; 0; 0; 0; 1; 0; 0; 0; -1]).
  { intros [H1 H2]. split; [exact H1|]. split; [exact H2|]. split; [exact (Hb 5 ltac:(lia))|exact (Hb 3 ltac:(lia))]. }
  vm_compute in Hrun. injection Hrun as <-. split; reflexivity.
Defined.

(** The first slot, bound to the example's peer. *)
Definition example_bound : session :=
  set_key 35091 (NetAddr 2 ([192; 168; 0; 1] ++ memset 0 12)) zero_session.
Definition example_tcp_table : table :=
  set_row SESSION_TCP (<[0%nat := example_bound]> (row_tcp static_table)) static_table.

Lemma tcp_session_run_witness :
  exists w', tcp_deliver (L := lwip_example) (R := rtos_example) example_peer4 [1000; 500; 0]
      (example_world [RZ 10; RZ 11; RZ 12; RZ 40]) = Done (tt, w') /\
    exists s, row SESSION_TCP (sessions (glob w')) !! 0%nat = Some s /\ state_of s = STATE_COMPLETED.
Proof.
  assert (H : wp Total _ _ _) by
    (apply (tcp_session_run (L := lwip_example) (R := rtos_example) example_peer4
       (Peer4 35091 16820416) 1000 [500] 0%nat example_bound
       (example_world [RZ 10; RZ 11; RZ 12; RZ 40]) example_tcp_table);
     [apply (static_table_wf (L := lwip_example))|vm_compute; reflexivity
     |vm_compute; reflexivity|vm_compute; reflexivity|vm_compute; reflexivity
     |repeat constructor]).
  apply wp_total_done in H.
  destruct H as ([] & w' & Hrun & first & last & evs & r & _ & _ & _ & _ & _ & Hs & _).
  exists w'. split; [exact Hrun|exact Hs].
Defined.

(** The duration of the connection below, at 1000 Hz: over an hour. *)
Example wrapped_duration : k_ticks_to_us_ceil32 (s64 (10 - 11)) = 4294966296.
Proof. vm_compute. reflexivity. Qed.

Lemma tcp_empty_session_witness :
  exists w' evs, tcp_received (L := lwip_example) (R := rtos_example) example_peer4 0
      (example_world [RZ 10; RZ 11]) = Done (tt, w') /\ trace w' = evs /\
    exists time start, clock_readings evs = [time; start].
Proof.
  assert (H : wp Total _ _ _) by
    (apply (tcp_empty_session (L := lwip_example) (R := rtos_example) example_peer4
       0%nat example_bound
       (example_world [RZ 10; RZ 11]) example_tcp_table);
     vm_compute; reflexivity).
  apply wp_total_done in H.
  destruct H as ([] & w' & Hrun & time & start & evs & r & Htr & Hc & _).
  exists w', evs. split; [exact Hrun|]. split; [exact Htr|]. by exists time, start.
Defined.
End Witnesses.
