(* ===== verification/TcpSpec.v ===== *)
(** What the TCP server promises (zperf_tcp_receiver.c): a contract in terms of
    open connections and of the bytes each has delivered, with no session table,
    slots or counters, and the proof that the server's loop implements it. *)
From stdpp Require Import gmap.
From S2P Require Import Prelude CInt Platform Kernel NetIp Session World Environment Common Server TcpReceiver.
Open Scope Z_scope.

(** ** The contract

    The connections that are open, as descriptor and peer; and for the peers
    whose session has started, when it did and what was received since. *)
Record service : Set := Service {
  open : list (Z * peer);
  active : gmap peer (Z * list Z);
}.

Section Contract.
Context {L : Lwip} {R : Rtos} (srv : server).

Definition total (start : Z) (lens : list Z) (time : Z) : option zperf_results :=
  Some (tcp_results (u32 (sum lens)) (k_ticks_to_us_ceil32 (s64 (time - start)))).

(** What [n] bytes of a peer, or the end of its stream, make the server do. *)
Inductive receive (k : peer) (m : gmap peer (Z * list Z))
    : Z -> list event -> gmap peer (Z * list Z) -> Prop :=
| receive_first n time now :
    m !! k = None -> 0 < n ->
    receive k m n (Event TaskGetTickCount time :: Event TaskGetTickCount now
                     :: notified srv ZPERF_SESSION_STARTED None) (<[k := (u32 now, [n])]> m)
| receive_data start lens n time :
    m !! k = Some (start, lens) -> 0 < n ->
    receive k m n [Event TaskGetTickCount time] (<[k := (start, lens ++ [n])]> m)
| receive_end start lens time :
    m !! k = Some (start, lens) ->
    receive k m 0 (Event TaskGetTickCount time
                     :: notified srv ZPERF_SESSION_FINISHED (total start lens (u32 time))) (delete k m)
| receive_nothing time now :
    m !! k = None ->
    receive k m 0 (Event TaskGetTickCount time :: Event TaskGetTickCount now
                     :: notified srv ZPERF_SESSION_STARTED None
                     ++ notified srv ZPERF_SESSION_FINISHED (total (u32 now) [] (u32 time))) m.

(** What happens on the sockets, and what the server does of it. Each open
    connection is polled; what it delivers is counted; its end, or an error on
    it, ends its session and closes it. Connections beyond SESSION_MAX are
    closed when they are accepted. *)
Inductive step : service -> list event -> service -> Prop :=
| step_poll v fds ret rs :
    (forall s k, (s, k) ∈ open v -> s ∈ fd <$> fds) ->
    step v [Event (LwipPoll fds POLL_TIMEOUT_MS) (ret, rs)] v
| step_accept v l s from k :
    0 <= s -> addr_peer from = Done (Some k) -> (length (open v) < SESSION_MAX)%nat ->
    step v [Event (LwipAccept l (Z.of_nat sizeof_sockaddr_storage)) (s, from)]
      (Service ((s, k) :: open v) (active v))
| step_refuse v l s from r :
    0 <= s -> length (open v) = SESSION_MAX ->
    step v [Event (LwipAccept l (Z.of_nat sizeof_sockaddr_storage)) (s, from); Event (LwipClose s) r] v
| step_accept_fails v l s from :
    s < 0 -> step v [Event (LwipAccept l (Z.of_nat sizeof_sockaddr_storage)) (s, from)] v
| step_data v s k n data evs m :
    (s, k) ∈ open v -> 0 < n -> receive k (active v) n evs m ->
    step v (Event (LwipRecv s (Z.of_nat TCP_RECEIVER_BUF_SIZE) 0) (n, data) :: evs) (Service (open v) m)
| step_end v s k n data evs m rest r :
    open v ≡ₚ (s, k) :: rest -> n <= 0 -> receive k (active v) 0 evs m ->
    step v (Event (LwipRecv s (Z.of_nat TCP_RECEIVER_BUF_SIZE) 0) (n, data)
              :: (if n <? 0 then notified srv ZPERF_SESSION_ERROR None else [])
              ++ evs ++ [Event (LwipClose s) r]) (Service rest m).

Inductive steps : service -> list event -> service -> Prop :=
| steps_nil v : steps v [] v
| steps_cons v1 evs1 v2 evs2 v3 :
    step v1 evs1 v2 -> steps v2 evs2 v3 -> steps v1 (evs1 ++ evs2) v3.

Lemma steps_one v1 evs v2 : step v1 evs v2 -> steps v1 evs v2.
Proof. intros H. rewrite <- (app_nil_r evs). eapply steps_cons; [done|constructor]. Qed.
Lemma steps_trans v1 evs1 v2 evs2 v3 :
  steps v1 evs1 v2 -> steps v2 evs2 v3 -> steps v1 (evs1 ++ evs2) v3.
Proof.
  induction 1 as [|v1 evs1 v2 evs' v3' Hs _ IH]; [done|]. intros H3. rewrite <- app_assoc.
  eapply steps_cons; [done|by apply IH].
Qed.
End Contract.

(** ** The session table *)
Section Table.
Context {L : Lwip} {LOk : LwipOk L}.

(** A free slot is of no active peer; a busy one has what its peer's entry says. *)
Definition slot_stands (s : session) (m : gmap peer (Z * list Z)) : Prop :=
  if slot_free s then forall k, slot_peer s = Some k -> m !! k = None
  else state_of s = STATE_ONGOING /\ exists k lens,
    slot_peer s = Some k /\ m !! k = Some (start_time s, lens) /\ length_of s = u64 (sum lens).

Definition table_stands (t : table) (m : gmap peer (Z * list Z)) : Prop :=
  table_wf t /\ length (row SESSION_TCP t) = SESSION_MAX /\
  (forall i s, row SESSION_TCP t !! i = Some s -> slot_stands s m) /\
  (forall k c, m !! k = Some c ->
    exists i s, row SESSION_TCP t !! i = Some s /\ slot_peer s = Some k).

Lemma tput_row i s t : row SESSION_TCP (tput i s t) = <[i := s]> (row SESSION_TCP t).
Proof. unfold tput. by rewrite row_set_row, decide_True. Qed.

Lemma slot_stands_ext s m m' :
  (forall k, slot_peer s = Some k -> m' !! k = m !! k) -> slot_stands s m -> slot_stands s m'.
Proof.
  intros Hm. unfold slot_stands. destruct (slot_free s).
  - intros H k Hk. rewrite Hm by done. by apply H.
  - intros (Hst & k & lens & Hk & H & Hl). split; [done|]. exists k, lens. by rewrite Hm.
Qed.

(** A slot that keeps its peer. *)
Lemma table_stands_update t m i s s' k m' :
  table_stands t m -> row SESSION_TCP t !! i = Some s -> slot_peer s = Some k ->
  ip s' = ip s -> port s' = port s -> slot_stands s' m' ->
  (forall k', k' <> k -> m' !! k' = m !! k') -> table_stands (tput i s' t) m'.
Proof.
  intros (Hwf & Hl & Hslots & Hcov) Hi Hk Hip Hport Hs Hm.
  assert (Hk' : slot_peer s' = Some k) by (unfold slot_peer in *; by rewrite Hip, Hport).
  split_and!; [by eapply (table_wf_update SESSION_TCP)|by rewrite tput_row, length_insert| |].
  - intros j s1. rewrite tput_row. intros [(<- & <- & _)|(Hne & Hj)]%list_lookup_insert_Some; [done|].
    eapply slot_stands_ext; [|by apply (Hslots j)]. intros k1 H1. apply Hm. intros ->.
    apply Hne. by eapply (proj2 (Hwf SESSION_TCP)).
  - intros k1 c1 H1. destruct (decide (k1 = k)) as [->|Hne].
    + exists i, s'. split; [by eapply tput_lookup|done].
    + rewrite Hm in H1 by done. destruct (Hcov k1 c1 H1) as (j & s1 & Hj & Hp). exists j, s1.
      split; [|done]. rewrite (tput_other i s' t SESSION_TCP j); [done|].
      intros [= ->]. congruence.
Qed.

(** A free slot that gets a new peer. *)
Lemma table_stands_bind t m f s s' k :
  table_stands t m -> row SESSION_TCP t !! f = Some s -> slot_free s = true ->
  slot_free s' = true -> slot_peer s' = Some k -> m !! k = None -> table_wf (tput f s' t) ->
  table_stands (tput f s' t) m.
Proof.
  intros (Hwf & Hl & Hslots & Hcov) Hf Hfree Hfree' Hk Hm Hwf'.
  split_and!; [done|by rewrite tput_row, length_insert| |].
  - intros j s1. rewrite tput_row. intros [(<- & <- & _)|(Hne & Hj)]%list_lookup_insert_Some; [|by eapply Hslots].
    unfold slot_stands. rewrite Hfree'. intros k' Hk'. congruence.
  - intros k1 c1 H1. destruct (Hcov k1 c1 H1) as (j & s1 & Hj & Hp). exists j, s1.
    split; [|done]. rewrite (tput_other f s' t SESSION_TCP j); [done|]. intros [= ->].
    pose proof (Hslots f s Hf) as H. unfold slot_stands in H. rewrite Hfree in H.
    assert (s1 = s) as -> by congruence. by rewrite H in H1.
Qed.

(** When no slot is free, every slot is of another active peer. *)
Lemma table_full t m :
  table_stands t m -> first_free_slot 0 (row SESSION_TCP t) = None -> (SESSION_MAX <= size m)%nat.
Proof.
  intros (Hwf & Hl & Hslots & _) Hfull. apply first_free_slot_None in Hfull.
  assert (Hbusy : forall i s, row SESSION_TCP t !! i = Some s ->
            exists k, slot_peer s = Some k /\ is_Some (m !! k)).
  { intros i s Hi. specialize (Hslots i s Hi). unfold slot_stands in Hslots.
    rewrite (Forall_lookup_1 _ _ _ _ Hfull Hi) in Hslots.
    destruct Hslots as (_ & k & lens & Hk & Hm & _). eauto. }
  rewrite <- Hl, <- (omap_length_eq slot_peer).
  - rewrite <- (size_list_to_set (C := gset peer)) by apply omap_peers_nodup, Hwf.
    rewrite <- (size_dom (D := gset peer)). apply subseteq_size. intros k.
    rewrite elem_of_list_to_set, list_elem_of_omap, elem_of_dom. intros (s & Hs & Hk).
    apply list_elem_of_lookup in Hs as [i Hi]. destruct (Hbusy i s Hi) as (k' & Hk' & Hm). congruence.
  - apply Forall_lookup. intros i s Hi. destruct (Hbusy i s Hi) as (k & Hk & _). by exists k.
Qed.
End Table.

(** ** [tcp_received] *)
Section Received.
Context {L : Lwip} {LOk : LwipOk L} {R : Rtos} {E : Type} `{!Env E}.
Implicit Types (g : globals) (t : table) (e : E) (tr : list event).

(** The run from [on g t e tr] is one [receive]. *)
Definition as_received k m len g tr : unit -> world E -> Prop := fun _ w' =>
  exists t' e' evs m', w' = on g t' e' (tr ++ evs) /\ receive (tcp_server g) k m len evs m' /\
    table_stands t' m'.

Lemma sum_app (l1 l2 : list Z) : sum (l1 ++ l2) = sum l1 + sum l2.
Proof. induction l1 as [|n l1 IH]; cbn; [done|]. fold (sum (l1 ++ l2)) (sum l1). lia. Qed.

(** For a peer with a free slot. *)
Lemma received_first addr k i s t t1 m len g e tr :
  get_session addr SESSION_TCP t = Done (Some i, t1) -> row SESSION_TCP t1 !! i = Some s ->
  slot_free s = true -> slot_peer s = Some k -> table_stands t1 m -> m !! k = None -> 0 <= len ->
  wp Total (tcp_received addr len) (as_received k m len g tr) (on g t e tr).
Proof.
  intros Hget Hi Hfree Hk Ht Hm Hlen. eapply wp_first; [done..|]. intros time now e1.
  destruct (decide (len = 0)) as [->|Hne].
  - eapply wp_eof; [by eapply tput_lookup|]. intros e2. rewrite tput_tput.
    eexists _, _, _, m. split; [f_equal; rewrite <- !app_assoc; reflexivity|].
    split; [by apply receive_nothing|].
    eapply table_stands_update; [exact Ht|exact Hi|exact Hk|done|done| |done].
    intros k' Hk'. change (slot_peer s = Some k') in Hk'. congruence.
  - eapply wp_data; [by eapply tput_lookup|done|]. rewrite tput_tput.
    eexists _, _, _, (<[k := (u32 now, [len])]> m). split; [reflexivity|].
    split; [apply receive_first; [done|lia]|].
    eapply table_stands_update; [exact Ht|exact Hi|exact Hk|done|done| |].
    + split; [done|]. exists k, [len]. split; [exact Hk|]. split; [by rewrite lookup_insert_eq|].
      cbn. by rewrite Z.add_0_r.
    + intros k' Hne'. by rewrite lookup_insert_ne.
Qed.

(** For a peer whose session has started. *)
Lemma received_next addr k i s t m lens len g e tr :
  addr_peer addr = Done (Some k) -> row SESSION_TCP t !! i = Some s -> state_of s = STATE_ONGOING ->
  slot_peer s = Some k -> table_stands t m -> m !! k = Some (start_time s, lens) ->
  length_of s = u64 (sum lens) -> 0 <= len ->
  wp Total (tcp_received addr len) (as_received k m len g tr) (on g t e tr).
Proof.
  intros Ha Hi Hst Hk Ht Hm Hl Hlen. eapply wp_next; [apply Ht|done..|]. intros time e1.
  destruct (decide (len = 0)) as [->|Hne].
  - eapply wp_eof; [done|]. intros e2. rewrite <- app_assoc.
    eexists _, _, _, (delete k m). split; [reflexivity|]. split.
    { replace (u32 (length_of (tcp_closed s))) with (u32 (sum lens)).
      - by apply receive_end.
      - cbn. rewrite Hl. clear. cint. }
    eapply table_stands_update; [exact Ht|exact Hi|exact Hk|done|done| |].
    + intros k' Hk'. change (slot_peer s = Some k') in Hk'. assert (k' = k) as -> by congruence.
      by rewrite lookup_delete_eq.
    + intros k' Hne'. by rewrite lookup_delete_ne.
  - eapply wp_data; [done|done|].
    eexists _, _, _, (<[k := (start_time s, lens ++ [len])]> m). split; [reflexivity|].
    split; [apply receive_data; [done|lia]|].
    eapply table_stands_update; [exact Ht|exact Hi|exact Hk|done|done| |].
    + unfold slot_stands, slot_free. change (state_of (add_data len s)) with (state_of s).
      rewrite Hst. split; [done|]. exists k, (lens ++ [len]). split; [exact Hk|].
      split; [by rewrite lookup_insert_eq|]. cbn. rewrite Hl, sum_app. cbn. clear. cint.
    + intros k' Hne'. by rewrite lookup_insert_ne.
Qed.

Lemma received_as addr k t m len g e tr :
  table_stands t m -> addr_peer addr = Done (Some k) -> 0 <= len ->
  (m !! k = None -> (size m < SESSION_MAX)%nat) ->
  wp Total (tcp_received addr len) (as_received k m len g tr) (on g t e tr).
Proof.
  intros Ht Hk Hlen Hroom. pose proof Ht as (Hwf & Hrow & Hslots & Hcov).
  destruct (Hwf SESSION_TCP) as [Hsw Hu].
  destruct (binding_map 0 (row SESSION_TCP t) !! k) as [i|] eqn:Hb.
  - apply binding_map_unique in Hb as (s & Hi & Hp); [|done].
    pose proof (Hslots i s Hi) as Hs. unfold slot_stands in Hs. destruct (slot_free s) eqn:Hfree.
    + eapply received_first; [by eapply get_session_found|done..|by apply Hs|done].
    + destruct Hs as (Hst & k' & lens & Hk' & Hm & Hl). assert (k' = k) as -> by congruence.
      by eapply received_next.
  - pose proof (get_session_cases addr k SESSION_TCP t Hk Hsw) as Hget. rewrite Hb in Hget.
    assert (Hnew : m !! k = None).
    { destruct (m !! k) as [c|] eqn:Hc; [|done]. destruct (Hcov k c Hc) as (i & s & Hi & Hp).
      assert (binding_map 0 (row SESSION_TCP t) !! k = Some i) by (apply binding_map_unique; eauto).
      congruence. }
    destruct (first_free_slot 0 (row SESSION_TCP t)) as [f|] eqn:Hfree.
    + destruct Hget as (s & q & a & Hf & Hsf & Hp & Hsw' & Hget).
      destruct (get_session_slot addr k _ _ _ _ Hwf Hk Hget) as (Hwf1 & _).
      eapply received_first; [exact Hget|by eapply tput_lookup|exact Hsf|exact Hp| |done|done].
      by eapply table_stands_bind.
    + specialize (Hroom Hnew). pose proof (table_full t m Ht Hfree). lia.
Qed.
End Received.

(** ** The connection table *)
Section Connections.
Context {L : Lwip} {LOk : LwipOk L} {R : Rtos} {E : Type} `{!Env E}.
Implicit Types (g : globals) (w : world E).

(** The connection of entry [i]. *)
Definition entry g (i : nat) : option (Z * peer) :=
  match tcp_fds g !! i, tcp_sock_addr g !! i with
  | Some p, Some a =>
      if fd p <? 0 then None
      else match addr_peer a with Done (Some k) => Some (fd p, k) | _ => None end
  | _, _ => None
  end.
Definition entries : list nat := seq (SOCK_ID_IPV6_LISTEN + 1) SESSION_MAX.
Definition connections g : list (Z * peer) := omap (entry g) entries.

(** The service the statics stand for. Every active peer has a connection. *)
Record stands g (v : service) : Prop := {
  stands_table : table_stands (sessions g) (active v);
  stands_open : open v ≡ₚ connections g;
  stands_fds : length (tcp_fds g) = SOCK_ID_MAX;
  stands_addrs : length (tcp_sock_addr g) = SOCK_ID_MAX;
  stands_sizes : Forall (fun a => length a = sizeof_sockaddr_storage) (tcp_sock_addr g);
  stands_known : forall i p a, (SOCK_ID_IPV6_LISTEN < i)%nat -> tcp_fds g !! i = Some p ->
    tcp_sock_addr g !! i = Some a -> 0 <= fd p -> exists k, addr_peer a = Done (Some k);
  stands_active : forall k, is_Some (active v !! k) -> exists s, (s, k) ∈ open v;
}.

Lemma entries_elem i : i ∈ entries <-> (SOCK_ID_IPV6_LISTEN < i < SOCK_ID_MAX)%nat.
Proof. unfold entries. rewrite elem_of_seq. unfold SOCK_ID_MAX, SOCK_ID_IPV6_LISTEN. lia. Qed.

Lemma connections_length g : (length (connections g) <= SESSION_MAX)%nat.
Proof. unfold connections. etransitivity; [apply omap_length_le|]. unfold entries; by rewrite length_seq. Qed.

(** An open entry. *)
Lemma stands_entry g v i p a :
  stands g v -> (SOCK_ID_IPV6_LISTEN < i)%nat -> tcp_fds g !! i = Some p ->
  tcp_sock_addr g !! i = Some a -> 0 <= fd p ->
  exists k, addr_peer a = Done (Some k) /\ entry g i = Some (fd p, k) /\ (fd p, k) ∈ open v.
Proof.
  intros Hv Hi Hp Ha Hf. destruct (stands_known _ _ Hv i p a) as [k Hk]; [done..|].
  assert (He : entry g i = Some (fd p, k)).
  { unfold entry. rewrite Hp, Ha, Hk. by destruct (Z.ltb_spec (fd p) 0); [lia|]. }
  exists k. split; [done|]. split; [done|]. rewrite (stands_open _ _ Hv).
  unfold connections. apply list_elem_of_omap. exists i. split; [|done]. apply entries_elem.
  apply lookup_lt_Some in Hp. rewrite (stands_fds _ _ Hv) in Hp. done.
Qed.

(** An entry that opens or closes. *)
Lemma connections_change g g' i c :
  (SOCK_ID_IPV6_LISTEN < i < SOCK_ID_MAX)%nat -> entry g i = Some c -> entry g' i = None ->
  (forall j, j <> i -> entry g j = entry g' j) -> connections g ≡ₚ c :: connections g'.
Proof.
  intros Hi Hc Hn Hs. unfold connections.
  apply entries_elem in Hi. destruct (list_elem_of_split _ _ Hi) as (l1 & l2 & Hl).
  assert (Hnd : NoDup entries) by apply NoDup_seq. rewrite Hl in *. by apply omap_change.
Qed.

(** A peer that is not active has room in the session table. *)
Lemma size_list_le (l : list peer) : (size (list_to_set l : gset peer) <= length l)%nat.
Proof.
  induction l as [|k l IH]; cbn; [by rewrite size_empty|].
  rewrite size_union_alt, size_singleton.
  assert (size (list_to_set l ∖ {[k]} : gset peer) <= size (list_to_set l : gset peer))%nat
    by (apply subseteq_size; intros x [Hx _]%elem_of_difference; exact Hx). lia.
Qed.

Lemma active_room g v s k :
  stands g v -> (s, k) ∈ open v -> active v !! k = None -> (size (active v) < SESSION_MAX)%nat.
Proof.
  intros Hv Hs Hk. eapply Nat.lt_le_trans; [|apply (connections_length g)].
  rewrite <- (stands_open _ _ Hv), <- (length_map snd), <- (size_dom (D := gset peer)).
  eapply Nat.lt_le_trans; [|apply size_list_le].
  enough (size ({[k]} ∪ dom (active v) : gset peer) <=
          size (list_to_set (snd <$> open v) : gset peer))%nat as H.
  { rewrite size_union, size_singleton in H; [exact H|].
    apply disjoint_singleton_l, not_elem_of_dom, Hk. }
  apply subseteq_size. intros k' Hk'. apply elem_of_list_to_set, list_elem_of_fmap.
  apply elem_of_union in Hk' as [Hk'|Hk'].
  - apply elem_of_singleton in Hk' as ->. by exists (s, k).
  - apply elem_of_dom in Hk'. destruct (stands_active _ _ Hv k' Hk') as [s' Hs']. by exists (s', k').
Qed.

(** What one action of the server establishes. *)
Definition serves v w : world E -> Prop := fun w' => exists evs v',
  trace w' = trace w ++ evs /\ steps (tcp_server (glob w)) v evs v' /\ stands (glob w') v' /\
  tcp_server (glob w') = tcp_server (glob w).

Lemma serves_refl v w : stands (glob w) v -> serves v w w.
Proof. intros Hv. exists [], v. rewrite app_nil_r. split_and!; [done|constructor|done|done]. Qed.

(** Sequencing: the rest of the run continues from the state reached. *)
Lemma wp_serves_from {B} md (m : M (world E) B) (Q : B -> world E -> Prop) v w w1 :
  serves v w w1 ->
  (forall v', stands (glob w1) v' -> wp md m (fun b w2 => serves v' w1 w2 /\ Q b w2) w1) ->
  wp md m (fun b w2 => serves v w w2 /\ Q b w2) w1.
Proof.
  intros (evs1 & v1 & Ht1 & Hs1 & Hv1 & Hg1) Hm. eapply wp_mono; [by apply Hm|].
  intros b w2 [(evs2 & v2 & Ht2 & Hs2 & Hv2 & Hg2) HQ]. split; [|done].
  exists (evs1 ++ evs2), v2. split; [by rewrite Ht2, Ht1, app_assoc|].
  split; [rewrite Hg1 in Hs2; by eapply steps_trans|]. split; [done|congruence].
Qed.

Lemma wp_serves {A B} md (m : M (world E) A) (k : A -> M (world E) B) (P : A -> world E -> Prop)
    (Q : B -> world E -> Prop) v w :
  wp md m (fun a w' => serves v w w' /\ P a w') w ->
  (forall a w' v', stands (glob w') v' -> P a w' ->
     wp md (k a) (fun b w'' => serves v' w' w'' /\ Q b w'') w') ->
  wp md (m ≫= k) (fun b w'' => serves v w w'' /\ Q b w'') w.
Proof.
  intros Hm Hk. apply wp_bind. eapply wp_mono; [exact Hm|].
  intros a w1 [H HP]. eapply wp_serves_from; [exact H|]. intros v' Hv'. by apply Hk.
Qed.

Lemma receive_active srv k m n evs m' k' :
  receive srv k m n evs m' -> is_Some (m' !! k') ->
  (is_Some (m !! k') /\ (k' = k -> 0 < n)) \/ k' = k /\ 0 < n.
Proof.
  intros H Hk'. destruct (decide (k' = k)) as [->|Hne].
  - destruct H as [| | |]; [by right..| |]; exfalso.
    + rewrite lookup_delete_eq in Hk'. by destruct Hk'.
    + rewrite H in Hk'. by destruct Hk'.
  - left. split; [|done]. destruct H as [| | |];
      rewrite ?lookup_insert_ne, ?lookup_delete_ne in Hk' by done; done.
Qed.

(** A connection that delivered bytes. *)
Lemma stands_data g v s k n evs t m :
  stands g v -> (s, k) ∈ open v -> receive (tcp_server g) k (active v) n evs m -> table_stands t m ->
  stands (set_sessions t g) (Service (open v) m).
Proof.
  intros Hv Hs Hr Ht. split; [done|apply Hv..|]. intros k' Hk'.
  destruct (receive_active _ _ _ _ _ _ _ Hr Hk') as [[H _]|[-> _]]; [|by exists s].
  by apply (stands_active _ _ Hv).
Qed.

(** A connection that is closed. *)
Definition closed i t g : globals :=
  set_tcp_sock_addr (<[i := memset 0 sizeof_sockaddr_storage]> (tcp_sock_addr g))
    (set_tcp_fds (alter (set_fd (-1)) i (tcp_fds g)) (set_sessions t g)).

Lemma stands_end g v i p a k evs t m :
  stands g v -> (SOCK_ID_IPV6_LISTEN < i)%nat -> tcp_fds g !! i = Some p ->
  tcp_sock_addr g !! i = Some a -> entry g i = Some (fd p, k) ->
  receive (tcp_server g) k (active v) 0 evs m -> table_stands t m ->
  open v ≡ₚ (fd p, k) :: connections (closed i t g) /\
  stands (closed i t g) (Service (connections (closed i t g)) m).
Proof.
  intros Hv Hi Hp Ha He Hr Ht.
  assert (Hlt : (i < SOCK_ID_MAX)%nat) by (rewrite <- (stands_fds _ _ Hv); by eapply lookup_lt_Some).
  assert (Hopen : open v ≡ₚ (fd p, k) :: connections (closed i t g)).
  { rewrite (stands_open _ _ Hv). apply (connections_change _ _ i); [done|done| |].
    - unfold entry, closed. cbn [tcp_fds tcp_sock_addr set_tcp_fds set_tcp_sock_addr set_sessions].
      rewrite list_lookup_alter_eq, Hp. cbn. by case_match.
    - intros j Hj. unfold entry, closed. cbn [tcp_fds tcp_sock_addr set_tcp_fds set_tcp_sock_addr set_sessions].
      by rewrite list_lookup_alter_ne, list_lookup_insert_ne by congruence. }
  split; [done|]. split; [done|done| | | | |]; cbn [tcp_fds tcp_sock_addr closed set_tcp_fds set_tcp_sock_addr set_sessions].
  - rewrite length_alter. apply Hv.
  - rewrite length_insert. apply Hv.
  - apply Forall_insert; [apply Hv|apply length_replicate].
  - intros j p' a' Hj Hp' Ha' Hf. destruct (decide (j = i)) as [->|Hne].
    + rewrite list_lookup_alter_eq, Hp in Hp'. injection Hp' as <-. by cbn in Hf.
    + rewrite list_lookup_alter_ne in Hp' by congruence. rewrite list_lookup_insert_ne in Ha' by congruence.
      by apply (stands_known _ _ Hv j p').
  - intros k' Hk'. destruct (receive_active _ _ _ _ _ _ _ Hr Hk') as [[H Hne]|[_ H0]]; [|lia].
    destruct (stands_active _ _ Hv k' H) as [s Hs]. exists s. rewrite Hopen in Hs.
    apply elem_of_cons in Hs as [Hs|Hs]; [|done]. injection Hs as _ ->. specialize (Hne eq_refl). lia.
Qed.

(** ** [tcp_receive] *)

Lemma wp_get_sock_addr md i a (Q : bytes -> world E -> Prop) w :
  tcp_sock_addr (glob w) !! i = Some a -> Q a w -> wp md (get_sock_addr i) Q w.
Proof. intros Hi HQ. unfold wp, get_sock_addr, get_glob, gets, mbind, M_bind. by rewrite Hi. Qed.

Lemma alter_set_fd (fds : list pollfd) i v p :
  fds !! i = Some p -> alter (set_fd v) i fds !! i = Some (set_fd v p).
Proof. intros Hi. by rewrite list_lookup_alter_eq, Hi. Qed.

(** The statement of one action on entry [i]: the later entries stay. *)
Definition later_same (i : nat) w w' : Prop :=
  forall j, (i < j)%nat -> tcp_fds (glob w') !! j = tcp_fds (glob w) !! j.

Lemma tcp_receive_serves i p v w :
  stands (glob w) v -> (SOCK_ID_IPV6_LISTEN < i)%nat -> tcp_fds (glob w) !! i = Some p -> 0 <= fd p ->
  wp Total (tcp_receive i) (fun _ w' => serves v w w' /\ later_same i w w') w.
Proof.
  intros Hv Hi Hp Hf. assert (Hlt : (i < SOCK_ID_MAX)%nat)
    by (rewrite <- (stands_fds _ _ Hv); by eapply lookup_lt_Some).
  destruct (lookup_lt_is_Some_2 (tcp_sock_addr (glob w)) i) as [a Ha];
    [by rewrite (stands_addrs _ _ Hv)|].
  destruct (stands_entry _ _ i p a Hv Hi Hp Ha Hf) as (k & Hk & He & Hin).
  unfold tcp_receive, tcp_session_error_report. apply wp_bind. eapply wp_get_fd; [exact Hp|].
  apply wp_bind, (wp_trigger _ (LwipRecv (fd p) (Z.of_nat TCP_RECEIVER_BUF_SIZE) 0)). intros [n data] e1 _.
  set (err := if n <? 0 then notified (tcp_server (glob w)) ZPERF_SESSION_ERROR None else []).
  set (ev := Event (LwipRecv (fd p) (Z.of_nat TCP_RECEIVER_BUF_SIZE) 0) (n, data)). apply wp_bind.
  eapply (wp_mono _ _ (fun ret w1 => ret = Z.max 0 n /\ exists e,
    w1 = on (glob w) (sessions (glob w)) e (trace w ++ ev :: err))).
  { unfold err. destruct (Z.ltb_spec n 0).
    - apply wp_bind, wp_notify. intros e. apply wp_ret. split; [lia|]. exists e.
      cbn [glob trace emit]. rewrite <- app_assoc. by destruct (glob w).
    - apply wp_ret. split; [lia|]. exists e1. unfold emit, on. by destruct (glob w). }
  intros ret w1 [-> [e ->]]. apply wp_bind. eapply wp_get_sock_addr; [exact Ha|].
  apply wp_bind. eapply wp_mono.
  { apply (received_as a k); [apply Hv|exact Hk|lia|]. by eapply active_room. }
  intros _ w2 (t & e2 & evs & m & -> & Hr & Ht). destruct (Z.leb_spec n 0) as [Hn|Hn].
  - rewrite Z.max_l in * by done. cbn [Z.eqb when]. apply wp_bind.
    eapply wp_get_fd; [exact Hp|]. apply wp_bind. wp_call r e3. apply wp_bind, wp_modify. apply wp_modify.
    destruct (stands_end _ v i p a k evs t m Hv) as [Hopen Hv']; [done..|].
    split; [|intros j Hj; cbn; apply list_lookup_alter_ne; lia].
    exists (ev :: err ++ evs ++ [Event (LwipClose (fd p)) r]), (Service (connections (closed i t (glob w))) m).
    split; [cbn [trace with_glob emit on]; rewrite <- !app_assoc; done|].
    split; [apply steps_one; by eapply step_end|]. by split.
  - rewrite Z.max_r in * by lia. destruct (Z.eqb_spec n 0); [lia|]. apply wp_ret.
    assert (Herr : err = []) by (unfold err; by destruct (Z.ltb_spec n 0); [lia|]).
    split; [|done]. exists (ev :: evs), (Service (open v) m).
    split; [cbn [trace on]; rewrite Herr, <- app_assoc; done|].
    split; [apply steps_one; by eapply step_data|]. split; [by eapply stands_data|done].
Qed.

(** ** [tcp_accept] *)
Lemma read_at_app off n (m r bs : bytes) : read_at off n m = Done bs -> read_at off n (m ++ r) = Done bs.
Proof.
  unfold read_at. case_decide as Hd; [|done]. intros [= <-]. rewrite decide_True by (rewrite length_app; lia).
  rewrite drop_app_le by lia. by rewrite take_app_le by (rewrite length_drop; lia).
Qed.
Lemma load_at_app off n (m r : bytes) v : load_at off n m = Done v -> load_at off n (m ++ r) = Done v.
Proof.
  unfold load_at. destruct (read_at off n m) as [bs| |] eqn:Hr; [|done..].
  by rewrite (read_at_app _ _ _ r _ Hr).
Qed.
Lemma addr_peer_app (a r : bytes) k : addr_peer a = Done (Some k) -> addr_peer (a ++ r) = Done (Some k).
Proof.
  assert (Hb : forall {B} (o o' : outcome B) (f f' : B -> outcome (option peer)),
    (forall b, o = Done b -> o' = Done b) -> (forall b, f b = Done (Some k) -> f' b = Done (Some k)) ->
    o ≫= f = Done (Some k) -> o' ≫= f' = Done (Some k)).
  { intros B o o' f f' Ho Hf. destruct o as [b| |]; [|done..]. rewrite (Ho b) by done. apply Hf. }
  apply Hb; [intros f; apply load_at_app|]. intros f.
  destruct (f =? AF_INET); [|destruct (f =? AF_INET6); [|done]].
  all: apply Hb; [intros p; apply load_at_app|]; intros p; apply Hb; [intros b; apply read_at_app|done].
Qed.

Lemma first_free_full j fds :
  first_free j fds = (j + length fds)%nat -> Forall (fun p => 0 <= fd p) fds.
Proof.
  revert j. induction fds as [|p fds IH]; intros j; cbn; [constructor|].
  destruct (Z.ltb_spec (fd p) 0); [lia|]. intros H1. constructor; [lia|]. apply (IH (S j)). lia.
Qed.

Lemma connections_full g v :
  stands g v -> Forall (fun p => 0 <= fd p) (drop (SOCK_ID_IPV6_LISTEN + 1) (tcp_fds g)) ->
  length (open v) = SESSION_MAX.
Proof.
  intros Hv Hall. rewrite (stands_open _ _ Hv). unfold connections. rewrite omap_length_eq.
  { unfold entries. apply length_seq. }
  apply list.Forall_forall. intros i [Hi Hlt]%entries_elem.
  destruct (lookup_lt_is_Some_2 (tcp_fds g) i) as [p Hp]; [by rewrite (stands_fds _ _ Hv)|].
  destruct (lookup_lt_is_Some_2 (tcp_sock_addr g) i) as [a Ha]; [by rewrite (stands_addrs _ _ Hv)|].
  destruct (stands_entry g v i p a) as (k & _ & He & _); [done..| |by exists (fd p, k)].
  refine (Forall_lookup_1 _ _ (i - (SOCK_ID_IPV6_LISTEN + 1)) p Hall _). rewrite lookup_drop, <- Hp.
  f_equal. unfold SOCK_ID_IPV6_LISTEN in *. lia.
Qed.

(** A connection that is stored in entry [j]. *)
Definition opened j sock (a : bytes) g : globals :=
  set_tcp_sock_addr (<[j := a]> (tcp_sock_addr g))
    (set_tcp_fds (alter (fun q => Pollfd sock POLLIN (revents q)) j (tcp_fds g)) g).

Lemma stands_accept g v j q sock a k :
  stands g v -> (SOCK_ID_IPV6_LISTEN < j)%nat -> tcp_fds g !! j = Some q -> fd q < 0 -> 0 <= sock ->
  addr_peer a = Done (Some k) -> length a = sizeof_sockaddr_storage ->
  (length (open v) < SESSION_MAX)%nat /\
  stands (opened j sock a g) (Service ((sock, k) :: open v) (active v)).
Proof.
  intros Hv Hj Hq Hf Hs Hk Hl.
  assert (Hlt : (j < SOCK_ID_MAX)%nat) by (rewrite <- (stands_fds _ _ Hv); by eapply lookup_lt_Some).
  set (g' := opened j sock a g).
  assert (Hfd : tcp_fds g' !! j = Some (Pollfd sock POLLIN (revents q))).
  { cbn. by rewrite list_lookup_alter_eq, Hq. }
  assert (Haddr : tcp_sock_addr g' !! j = Some a).
  { apply (list_lookup_insert_eq (tcp_sock_addr g)). by rewrite (stands_addrs _ _ Hv). }
  assert (Hother : forall i, i <> j -> tcp_fds g' !! i = tcp_fds g !! i /\
            tcp_sock_addr g' !! i = tcp_sock_addr g !! i).
  { intros i Hi. cbn. by rewrite list_lookup_alter_ne, list_lookup_insert_ne by congruence. }
  assert (Hc : connections g' ≡ₚ (sock, k) :: connections g).
  { apply (connections_change _ _ j); [done| | |].
    - unfold entry. rewrite Hfd, Haddr, Hk. cbn.
      by destruct (Z.ltb_spec sock 0); [lia|].
    - unfold entry. rewrite Hq. destruct (tcp_sock_addr g !! j); [|done].
      by destruct (Z.ltb_spec (fd q) 0); [|lia].
    - intros i Hi. unfold entry. by destruct (Hother i Hi) as [-> ->]. }
  split.
  { pose proof (connections_length g') as H. rewrite Hc in H.
    rewrite (stands_open _ _ Hv). exact H. }
  split; [apply Hv|by rewrite Hc, <- (stands_open _ _ Hv)| | | | |].
  - cbn. rewrite length_alter. apply Hv.
  - cbn. rewrite length_insert. apply Hv.
  - cbn. apply Forall_insert; [apply Hv|done].
  - intros i p a' Hi Hp Ha Hf'. destruct (decide (i = j)) as [->|Hne].
    + rewrite Haddr in Ha. injection Ha as <-. by exists k.
    + destruct (Hother i Hne) as [H1 H2]. rewrite H1 in Hp. rewrite H2 in Ha.
      by apply (stands_known _ _ Hv i p).
  - intros k' Hk'. destruct (stands_active _ _ Hv k' Hk') as [s' Hs']. exists s'. by right.
Qed.

(** What [poll] reported on the entries from [i] on is about open ones. *)
Definition ready (i : nat) g : Prop := forall j p,
  (i <= j)%nat -> (SOCK_ID_IPV6_LISTEN < j)%nat -> tcp_fds g !! j = Some p ->
  has_bit (revents p) POLLIN = true -> 0 <= fd p.

Lemma stands_size g v i a :
  stands g v -> tcp_sock_addr g !! i = Some a -> length a = sizeof_sockaddr_storage.
Proof. intros Hv Ha. exact (Forall_lookup_1 _ _ _ _ (stands_sizes _ _ Hv) Ha). Qed.

Lemma tcp_accept_serves `{!AcceptNames E} i p v w :
  stands (glob w) v -> tcp_fds (glob w) !! i = Some p ->
  wp Total (tcp_accept i) (fun _ w' => serves v w w' /\
    forall n, ready n (glob w) -> ready n (glob w')) w.
Proof.
  intros Hv Hp. unfold tcp_accept. apply wp_bind. eapply wp_get_fd; [exact Hp|].
  apply wp_bind, (wp_trigger _ (LwipAccept (fd p) (Z.of_nat sizeof_sockaddr_storage))).
  intros [sock from] e1 Ha.
  destruct (Z.ltb_spec sock 0) as [Hs|Hs].
  { apply wp_ret. split; [|done]. eexists _, v. split; [reflexivity|]. split; [|done].
    by apply steps_one, step_accept_fails. }
  destruct (accept_names _ _ _ _ _ Ha Hs) as [Hsize [k Hk]].
  apply wp_bind, wp_gets. set (fds := tcp_fds (glob _)). set (j := first_free _ _).
  destruct (Nat.eqb_spec j SOCK_ID_MAX) as [Hj|Hj].
  - apply wp_bind. wp_call r e2. apply wp_ret. split; [|done].
    eexists _, v. split; [cbn [trace emit]; rewrite <- app_assoc; reflexivity|]. split; [|done].
    apply steps_one, step_refuse; [done|]. eapply connections_full; [exact Hv|].
    apply (first_free_full (SOCK_ID_IPV6_LISTEN + 1)). transitivity j; [done|]. rewrite Hj, length_drop.
    by rewrite (stands_fds _ _ Hv).
  - destruct (first_free_spec (SOCK_ID_IPV6_LISTEN + 1) (drop (SOCK_ID_IPV6_LISTEN + 1) fds))
      as [Hff|(m & q & Hff & Hm & Hq)]; fold j in Hff.
    { exfalso. apply Hj. rewrite Hff, length_drop. unfold fds. cbn [glob emit].
      by rewrite (stands_fds _ _ Hv). }
    rewrite lookup_drop, <- Hff in Hm. change (tcp_fds (glob w) !! j = Some q) in Hm.
    destruct (lookup_lt_is_Some_2 (tcp_sock_addr (glob w)) j) as [a Haj].
    { rewrite (stands_addrs _ _ Hv), <- (stands_fds _ _ Hv). by eapply lookup_lt_Some. }
    pose proof (stands_size _ _ _ _ Hv Haj) as Hla.
    apply wp_bind, wp_modify, wp_bind. eapply wp_get_sock_addr; [exact Haj|].
    rewrite take_ge by lia. apply wp_bind. eapply wp_lift; [apply write_at_ok; lia|].
    apply wp_bind, wp_modify, wp_ret. cbn [Nat.add]. rewrite take_0. cbn [app].
    destruct (stands_accept (glob w) v j q sock (from ++ drop (length from) a) k) as [Hroom Hv'];
      [done|unfold SOCK_ID_IPV6_LISTEN in *; lia|done..|by apply addr_peer_app|rewrite length_app, length_drop; lia|].
    split.
    + eexists _, _. split; [reflexivity|]. split; [|split; [exact Hv'|done]].
      by apply steps_one, step_accept.
    + intros n Hn j' p' Hle Hl Hp' Hb.
      change (alter (fun q => Pollfd sock POLLIN (revents q)) j (tcp_fds (glob w)) !! j' = Some p') in Hp'.
      destruct (decide (j' = j)) as [->|Hne].
      * rewrite list_lookup_alter_eq, Hm in Hp'. by injection Hp' as <-.
      * rewrite list_lookup_alter_ne in Hp' by congruence. by apply (Hn j' p').
Qed.

(** ** The loop *)
Lemma tcp_serve_serves `{!AcceptNames E} i n v w :
  stands (glob w) v -> ready i (glob w) -> (i + n)%nat = SOCK_ID_MAX ->
  wp Total (tcp_serve i n) (fun _ w' => serves v w w' /\ True) w.
Proof.
  revert i v w. induction n as [|n IH]; intros i v w Hv Hr Hn; cbn [tcp_serve].
  { apply wp_ret. split; [by apply serves_refl|done]. }
  destruct (lookup_lt_is_Some_2 (tcp_fds (glob w)) i) as [p Hp];
    [rewrite (stands_fds _ _ Hv); lia|].
  apply wp_bind. eapply wp_get_fd; [exact Hp|].
  destruct (_ || _); [apply wp_ret; split; [by apply serves_refl|done]|].
  destruct (has_bit (revents p) POLLIN) eqn:Hin; cbn [negb].
  2: { apply IH; [done| |lia]. intros j q Hj. apply Hr. lia. }
  eapply (wp_serves _ _ _ (fun _ w' => ready (S i) (glob w'))).
  - destruct (Nat.leb_spec i SOCK_ID_IPV6_LISTEN) as [Hi|Hi].
    + cbn [SOCK_ID_IPV4_LISTEN Nat.leb andb]. eapply wp_mono; [by eapply tcp_accept_serves|].
      intros ok w' [Hs Hready]. split; [done|]. apply Hready. intros j q Hj. apply Hr. lia.
    + rewrite andb_false_r, (proj2 (Nat.ltb_lt _ _) Hi), (proj2 (Nat.ltb_lt i SOCK_ID_MAX)) by lia.
      cbn [andb]. apply wp_bind. eapply wp_mono; [eapply (tcp_receive_serves i p); [done..|]|].
      { by apply (Hr i p). }
      intros _ w' [Hs Hsame]. apply wp_ret. split; [done|]. intros j q Hj Hl Hq.
      rewrite Hsame in Hq by lia. apply (Hr j q); [lia|done..].
  - intros ok w' v' Hv' Hr'. destruct ok; [|apply wp_ret; split; [by apply serves_refl|done]].
    apply IH; [done|done|lia].
Qed.

Definition polled (rs : list Z) g : globals := set_tcp_fds (store_revents (tcp_fds g) rs) g.

Lemma polled_lookup rs g i : tcp_fds (polled rs g) !! i =
  (fun p => set_revents (default 0 (rs !! i)) p) <$> tcp_fds g !! i.
Proof. unfold polled, store_revents. cbn [tcp_fds set_tcp_fds]. by rewrite list_lookup_imap. Qed.

Lemma stands_polled rs g v : stands g v -> stands (polled rs g) v.
Proof.
  intros Hv. split; [apply Hv| | |apply Hv|apply Hv| |apply Hv].
  - rewrite (stands_open _ _ Hv). unfold connections.
    induction entries as [|i l IH]; [done|]. cbn.
    assert (entry (polled rs g) i = entry g i) as ->.
    { unfold entry. rewrite polled_lookup. by destruct (tcp_fds g !! i). }
    destruct (entry g i); [by constructor|done].
  - unfold polled, store_revents. cbn [tcp_fds set_tcp_fds]. rewrite length_imap. apply Hv.
  - intros i p a Hi Hp Ha Hf. rewrite polled_lookup in Hp.
    destruct (tcp_fds g !! i) as [q|] eqn:Hq; [|done]. injection Hp as <-.
    by apply (stands_known _ _ Hv i q).
Qed.

(** Every open connection is polled. *)
Lemma stands_polls g v s k : stands g v -> (s, k) ∈ open v -> s ∈ fd <$> tcp_fds g.
Proof.
  intros Hv Hs. rewrite (stands_open _ _ Hv) in Hs. unfold connections in Hs.
  apply list_elem_of_omap in Hs as (i & _ & He). unfold entry in He.
  destruct (tcp_fds g !! i) as [p|] eqn:Hp; [|done]. destruct (tcp_sock_addr g !! i); [|done].
  destruct (fd p <? 0); [done|]. destruct (addr_peer _) as [[k'|]| |]; [|done..]. injection He as <- <-.
  apply list_elem_of_fmap. exists p. split; [done|]. by eapply list_elem_of_lookup_2.
Qed.

(** What the loop does from [w] to [w'], while other tasks may ask its server,
    [srv], to stop. *)
Definition tcp_ran srv v w w' : Prop := exists evs v',
  trace w' = trace w ++ evs /\ steps srv v evs v' /\ stands (glob w') v' /\
  asked srv (tcp_server (glob w')).

Lemma tcp_ran_refl srv v w : stands (glob w) v -> asked srv (tcp_server (glob w)) -> tcp_ran srv v w w.
Proof. intros Hv Ha. exists [], v. rewrite app_nil_r. split; [done|]. split; [constructor|done]. Qed.
Lemma tcp_ran_serves srv v w w' : tcp_server (glob w) = srv -> serves v w w' -> tcp_ran srv v w w'.
Proof. intros <- (evs & v' & Ht & Hs & Hv & Hg). exists evs, v'. by repeat (split; [done|]); left. Qed.
Lemma wp_tcp_ran_from {B} md srv (m : M (world E) B) (Q : B -> world E -> Prop) v w w1 :
  tcp_ran srv v w w1 ->
  (forall v', stands (glob w1) v' -> asked srv (tcp_server (glob w1)) ->
     wp md m (fun b w2 => tcp_ran srv v' w1 w2 /\ Q b w2) w1) ->
  wp md m (fun b w2 => tcp_ran srv v w w2 /\ Q b w2) w1.
Proof.
  intros (evs1 & v1 & Ht1 & Hs1 & Hv1 & Ha1) Hm. eapply wp_mono; [by apply Hm|].
  intros b w2 [(evs2 & v2 & Ht2 & Hs2 & Hv2 & Ha2) HQ]. split; [|done].
  exists (evs1 ++ evs2), v2. split; [by rewrite Ht2, Ht1, app_assoc|].
  split; [by eapply steps_trans|done].
Qed.

(** Requests leave the connections and the sessions. *)
Lemma stands_server s g v : stands g v -> stands (set_tcp_server s g) v.
Proof. intros Hv. split; apply Hv. Qed.
Lemma tcp_others_run md srv others v w :
  only_stops tcp_server set_tcp_server srv others -> stands (glob w) v -> asked srv (tcp_server (glob w)) ->
  wp md others (fun _ w' => tcp_ran srv v w w' /\
    (server_stop (tcp_server (glob w)) = true -> server_stop (tcp_server (glob w')) = true)) w.
Proof.
  intros Ho Hv Ha. eapply wp_mono; [by apply wp_total, Ho|]. intros _ w' [->| ->].
  - split; [by apply tcp_ran_refl|done].
  - split; [|done]. exists [], v. rewrite app_nil_r. split; [done|]. split; [constructor|].
    split; [by apply stands_server|by right].
Qed.

Lemma tcp_turn_serves `{!AcceptNames E, !PollSkips E} srv others u v w :
  only_stops tcp_server set_tcp_server srv others -> stands (glob w) v -> asked srv (tcp_server (glob w)) ->
  wp Total (tcp_turn others u) (fun r w' => tcp_ran srv v w w' /\
    (r = inr false -> server_stop (tcp_server (glob w')) = true)) w.
Proof.
  intros Ho Hv Ha. unfold tcp_turn. apply wp_bind, wp_gets, wp_bind.
  apply (wp_trigger _ (LwipPoll (tcp_fds (glob w)) POLL_TIMEOUT_MS)). intros [ret rs] e Hans.
  apply wp_bind, wp_modify. set (w1 := with_glob _ _).
  assert (Hg1 : glob w1 = polled rs (glob w)) by done.
  assert (Hready : ready 0 (glob w1)).
  { intros j p _ _ Hp Hin. rewrite Hg1, polled_lookup in Hp.
    destruct (tcp_fds (glob w) !! j) as [q|] eqn:Hq; [|done]. injection Hp as <-. cbn [fd set_revents] in *.
    destruct (Z.ltb_spec (fd q) 0) as [Hneg|]; [|done]. destruct (rs !! j) as [r|] eqn:Hr; [|done].
    rewrite (poll_skips _ _ _ _ _ _ j q r Hans Hq Hneg Hr) in Hin. done. }
  assert (H1 : tcp_ran srv v w w1).
  { eexists _, v. split; [reflexivity|]. split; [|split; [by apply stands_polled|done]].
    apply steps_one, step_poll. intros s k Hs. by eapply stands_polls. }
  clearbody w1. eapply wp_tcp_ran_from; [exact H1|]. clear v w Hv Ha Hans Hg1 H1. intros v Hv Ha.
  apply wp_bind. eapply wp_mono; [by apply wp_total, Ho|]. intros ? w2 Hw2. cbn beta in Hw2.
  assert (H2 : tcp_ran srv v w1 w2 /\ ready 0 (glob w2)).
  { destruct Hw2 as [->| ->]; [by split; [apply tcp_ran_refl|]|]. split; [|exact Hready].
    exists [], v. rewrite app_nil_r. split; [done|]. split; [constructor|].
    split; [by apply stands_server|by right]. }
  destruct H2 as [H2 Hready2]. eapply wp_tcp_ran_from; [exact H2|]. clear v Hv Ha H2 Hready Hw2. intros v Hv Ha.
  pose proof (tcp_ran_refl srv v w2 Hv Ha) as Href.
  destruct (ret <? 0); [by apply wp_ret|].
  apply wp_bind, wp_gets. destruct (server_stop _) eqn:Hstop; [by apply wp_ret|].
  destruct (ret =? 0); [by apply wp_ret|].
  apply wp_bind. eapply wp_mono; [by apply tcp_serve_serves|]. intros ok w3 [H3 _]. apply wp_ret.
  split; [by apply tcp_ran_serves; [apply asked_serving|]|by destruct ok].
Qed.

Lemma tcp_loop_serves `{!AcceptNames E, !PollSkips E} srv others fuel v w :
  only_stops tcp_server set_tcp_server srv others -> stands (glob w) v -> asked srv (tcp_server (glob w)) ->
  wp Safe (loop fuel (tcp_turn others) tt) (fun err w' => tcp_ran srv v w w' /\
    (err = false -> server_stop (tcp_server (glob w')) = true)) w.
Proof.
  intros Ho Hv Ha. eapply (wp_loop_inv _ (fun _ => tcp_ran srv v w)); [done| |by apply tcp_ran_refl].
  intros u w1 H1. eapply wp_mono.
  - eapply (wp_tcp_ran_from _ _ _ (fun r w2 => r = inr false -> server_stop (tcp_server (glob w2)) = true));
      [exact H1|]. intros v1 Hv1 Ha1. by apply wp_total, tcp_turn_serves.
  - intros [[]|b] w2 [H2 Hs]; [exact H2|]. split; [exact H2|]. intros ->. by apply Hs.
Qed.

(** C3: the TCP server's loop implements the contract, for every number of
    turns. As long as [poll] reports nothing on closed entries and [accept] gives
    addresses, it meets no fault, and whatever arrives on any number of
    interleaved connections, the calls it makes are those the contract allows:
    each connection it keeps is reported once when its first data arrive and once
    when it ends, with the bytes received on it in between, and then closed; none
    is ignored, since a peer whose session has not started always finds a free
    slot. This needs that no session was in progress without a connection
    before. *)
Theorem tcp_server_refines `{!AcceptNames E, !PollSkips E} fuel v w :
  stands (glob w) v ->
  wp Safe (loop fuel (tcp_turn nobody) tt) (fun _ w' => exists evs v',
    trace w' = trace w ++ evs /\ steps (tcp_server (glob w)) v evs v' /\ stands (glob w') v') w.
Proof.
  intros Hv. eapply wp_mono.
  { apply tcp_loop_serves; [apply nobody_stops|exact Hv|by left]. }
  intros b w' [(evs & v' & Ht & Hs & Hv' & _) _]. by exists evs, v'.
Qed.

(** ** Where it starts, and what the end of a session leaves *)

(** No session in progress, and no connection. *)
Lemma stands_idle g :
  table_stands (sessions g) ∅ -> length (tcp_fds g) = SOCK_ID_MAX ->
  length (tcp_sock_addr g) = SOCK_ID_MAX ->
  Forall (fun a => length a = sizeof_sockaddr_storage) (tcp_sock_addr g) ->
  Forall (fun p => fd p < 0) (drop (SOCK_ID_IPV6_LISTEN + 1) (tcp_fds g)) ->
  stands g (Service [] ∅).
Proof.
  intros Ht Hf Ha Hs Hneg.
  assert (Hclosed : forall i p, (SOCK_ID_IPV6_LISTEN < i)%nat -> tcp_fds g !! i = Some p -> fd p < 0).
  { intros i p Hi Hp. refine (Forall_lookup_1 _ _ (i - (SOCK_ID_IPV6_LISTEN + 1)) p Hneg _).
    rewrite lookup_drop, <- Hp. f_equal. unfold SOCK_ID_IPV6_LISTEN in *. lia. }
  split; [done| |done..| |].
  - cbn [open]. unfold connections. assert (omap (entry g) entries = []) as ->; [|done].
    assert (He : forall i, i ∈ entries -> entry g i = None).
    { intros i [Hi _]%entries_elem. unfold entry. destruct (tcp_fds g !! i) as [p|] eqn:Hp; [|done].
      destruct (tcp_sock_addr g !! i); [|done]. specialize (Hclosed i p Hi Hp).
      by destruct (Z.ltb_spec (fd p) 0); [|lia]. }
    induction entries as [|i l IH]; [done|]. cbn. rewrite He by left. apply IH.
    intros j Hj. apply He. by right.
  - intros i p a Hi Hp _ Hge. specialize (Hclosed i p Hi Hp). lia.
  - intros k [c Hk]. cbn [active] in Hk. by rewrite lookup_empty in Hk.
Qed.

(** The busy slots are those of the active peers. *)
Lemma table_exhausted t m :
  table_stands t m -> (SESSION_MAX <= size m)%nat -> first_free_slot 0 (row SESSION_TCP t) = None.
Proof.
  intros (Hwf & Hl & Hslots & Hcov) Hm.
  destruct (first_free_slot 0 (row SESSION_TCP t)) as [f|] eqn:Hf; [exfalso|done].
  apply first_free_slot_Some in Hf as (n & s & _ & Hs & Hfree).
  set (peer_of := fun s => if slot_free s then None else slot_peer s).
  assert (length (omap peer_of (row SESSION_TCP t)) < length (row SESSION_TCP t))%nat as Hlt.
  { eapply omap_length_lt; [exact Hs|]. unfold peer_of. by rewrite Hfree. }
  enough (size m <= length (omap peer_of (row SESSION_TCP t)))%nat by lia.
  rewrite <- (size_dom (D := gset peer)). etransitivity; [|apply size_list_le].
  apply subseteq_size. intros k [c Hk]%elem_of_dom. apply elem_of_list_to_set, list_elem_of_omap.
  destruct (Hcov k c Hk) as (i & s' & Hi & Hp). exists s'. split; [by eapply list_elem_of_lookup_2|].
  unfold peer_of. specialize (Hslots i s' Hi). unfold slot_stands in Hslots.
  destruct (slot_free s'); [|done]. by rewrite (Hslots k Hp) in Hk.
Qed.

(** The end of a session closes what is open and leaves the sessions. *)
Lemma tcp_cleanup_sessions i n w :
  (i + n)%nat = SOCK_ID_MAX -> length (tcp_fds (glob w)) = SOCK_ID_MAX ->
  length (tcp_sock_addr (glob w)) = SOCK_ID_MAX ->
  Forall (fun a => length a = sizeof_sockaddr_storage) (tcp_sock_addr (glob w)) ->
  wp Total (tcp_cleanup i n) (fun _ w' => exists addrs evs,
    glob w' = set_tcp_sock_addr addrs (glob w) /\ length addrs = SOCK_ID_MAX /\
    Forall (fun a => length a = sizeof_sockaddr_storage) addrs /\
    trace w' = trace w ++ evs /\ calls evs = LwipClose <$> open_fds (drop i (tcp_fds (glob w)))) w.
Proof.
  revert i w. induction n as [|n IH]; intros i w Hn Hf Ha Hs; cbn [tcp_cleanup].
  { apply wp_ret. exists (tcp_sock_addr (glob w)), []. rewrite app_nil_r, drop_ge by lia.
    split_and!; try done. by destruct (glob w). }
  destruct (lookup_lt_is_Some_2 (tcp_fds (glob w)) i) as [p Hp]; [lia|].
  destruct (lookup_lt_is_Some_2 (tcp_sock_addr (glob w)) i) as [a Hi]; [lia|].
  apply wp_bind. eapply wp_get_fd; [exact Hp|]. apply wp_bind. rewrite (drop_S _ _ _ Hp).
  unfold open_fds. cbn [fmap list_fmap]. destruct (Z.leb_spec 0 (fd p)) as [Hfd|Hfd].
  - rewrite filter_cons_True by done.
    apply wp_bind. wp_call r e. apply wp_bind. eapply wp_get_sock_addr; [exact Hi|].
    pose proof (Forall_lookup_1 _ _ _ _ Hs Hi) as Hla. cbn beta in Hla.
    pose proof sockaddr_fits_storage. apply wp_bind. eapply wp_lift.
    { apply write_at_ok. unfold memset. rewrite length_replicate. lia. }
    apply wp_modify. eapply wp_mono; [apply IH|].
    + lia.
    + exact Hf.
    + cbn. by rewrite length_insert.
    + cbn. apply Forall_insert; [done|]. unfold memset.
      rewrite !length_app, length_take, length_drop, length_replicate. lia.
    + intros ? w' (addrs & evs & Hg & Hl & Hsz & Ht & Hc).
      exists addrs, (Event (LwipClose (fd p)) r :: evs). rewrite Hg, Ht. split; [done|].
      split; [done|]. split; [done|]. cbn. split; [by rewrite <- app_assoc|]. f_equal. exact Hc.
  - rewrite filter_cons_False by lia. apply wp_ret. by apply IH; [lia|..].
Qed.

(** What [recv] gave on any connections, one result after the other. *)
Fixpoint tcp_received_all (arrivals : list (bytes * Z)) : M (world E) unit :=
  match arrivals with
  | [] => mret tt
  | (addr, len) :: later => tcp_received addr len;; tcp_received_all later
  end.

(** A peer without a session when every slot is busy. *)
Lemma tcp_received_exhausted addr k len m w :
  table_stands (sessions (glob w)) m -> (SESSION_MAX <= size m)%nat ->
  addr_peer addr = Done (Some k) -> m !! k = None ->
  wp Total (tcp_received addr len) (fun _ w' => sessions (glob w') = sessions (glob w) /\
    exists evs, trace w' = trace w ++ evs /\ callbacks evs = []) w.
Proof.
  intros Ht Hmax Ha Hk. pose proof Ht as (Hwf & _ & Hslots & _).
  pose proof (table_exhausted _ _ Ht Hmax) as Hfull. rewrite (world_on w).
  pose proof (get_session_cases addr k SESSION_TCP _ Ha (proj1 (Hwf SESSION_TCP))) as Hget.
  rewrite Hfull in Hget.
  assert (Hb : binding_map 0 (row SESSION_TCP (sessions (glob w))) !! k = None).
  { destruct (binding_map _ _ !! k) as [i|] eqn:Hb; [exfalso|done].
    apply binding_map_unique in Hb as (s & Hi & Hp); [|apply Hwf].
    pose proof (Hslots i s Hi) as H. unfold slot_stands in H. apply first_free_slot_None in Hfull.
    rewrite (Forall_lookup_1 _ _ _ _ Hfull Hi) in H. destruct H as (_ & k' & lens & Hk' & Hm & _). congruence. }
  rewrite Hb in Hget. apply wp_bind, wp_clock. intros time e _. apply wp_bind.
  eapply wp_find_session; [exact Hget|]. apply wp_ret. split; [done|].
  by exists [Event TaskGetTickCount time].
Qed.

(** C13: sessions in progress keep their slots when the server's session ends. It
    closes all connections, but not their sessions. After SESSION_MAX peers were
    cut off in this way, by a stop request or an error, whatever arrives next
    from other peers, on any number of connections, none of it is counted or
    reported, and the sessions stay as they are. (Arrivals from the peers that
    were cut off are not covered: one of them can end its session, which frees
    its slot.) *)
Theorem tcp_stop_exhausts v arrivals w :
  stands (glob w) v -> (SESSION_MAX <= size (active v))%nat ->
  Forall (fun '(addr, _) => exists k, addr_peer addr = Done (Some k) /\ active v !! k = None) arrivals ->
  wp Total (tcp_cleanup 0 SOCK_ID_MAX;; tcp_received_all arrivals) (fun _ w' =>
    sessions (glob w') = sessions (glob w) /\
    exists evs, trace w' = trace w ++ evs /\ callbacks evs = []) w.
Proof.
  intros Hv Hmax Harr. pose proof (stands_table _ _ Hv) as Ht.
  apply wp_bind. eapply wp_mono; [apply tcp_cleanup_sessions; [done|apply Hv..]|].
  intros _ w1 (addrs & evs & Hg & _ & _ & Htr & Hcb%callbacks_closes).
  assert (Hs : sessions (glob w1) = sessions (glob w)) by (by rewrite Hg). clear Hg addrs Hv.
  revert w1 evs Hs Htr Hcb. induction Harr as [|[addr len] arrivals (k & Ha & Hk) _ IH];
    intros w1 evs Hs Htr Hcb; cbn [tcp_received_all].
  { apply wp_ret. split; [done|]. by exists evs. }
  apply wp_bind. eapply wp_mono.
  { eapply (tcp_received_exhausted addr k); [rewrite Hs; exact Ht|done..]. }
  intros _ w2 (Hs2 & evs2 & Htr2 & Hcb2). apply (IH w2 (evs ++ evs2)); [congruence| |].
  - by rewrite Htr2, Htr, app_assoc.
  - by rewrite callbacks_app, Hcb, Hcb2.
Qed.

End Connections.

(** ** On concrete inputs *)
Section Examples.
#[local] Existing Instances lwip_example rtos_example trafficking trafficking_polls trafficking_accepts.

(** The statics of a server that listens on descriptors 3 and 4. *)
Definition example_listening (t : table) : globals :=
  set_sessions t (set_tcp_fds ([Pollfd 3 POLLIN 0; Pollfd 4 POLLIN 0] ++ replicate SESSION_MAX no_fd)
    (glob (example_world []))).

Lemma example_table : table_stands static_table ∅.
Proof.
  split; [apply static_table_wf|]. split; [reflexivity|]. split.
  - intros i s Hi. apply lookup_replicate in Hi as [-> _]. intros k Hk. vm_compute in Hk. discriminate.
  - intros k c Hk. by rewrite lookup_empty in Hk.
Qed.
Lemma example_stands : stands (example_listening static_table) (Service [] ∅).
Proof.
  apply stands_idle; [exact example_table|reflexivity|reflexivity|by repeat constructor|by repeat constructor].
Qed.

(** A connection delivers 1000 bytes, then 500, then ends. *)
Definition example_start : world traffic :=
  World (example_listening static_table) (Traffic [[3]; [5]; [5]; []; [5]] [1000; 500; 0] 0) [].

Lemma tcp_server_refines_witness :
  exists w' v', loop 9 (tcp_turn nobody) tt example_start = Done (true, w') /\
    steps (tcp_server (glob example_start)) (Service [] ∅) (trace w') v' /\
    clock_readings (trace w') = [0; 10; 20; 30].
Proof.
  assert (Hrun : exists w', loop 9 (tcp_turn nobody) tt example_start = Done (true, w') /\
                   clock_readings (trace w') = [0; 10; 20; 30]).
  { eexists. split; [vm_compute; reflexivity|vm_compute; reflexivity]. }
  destruct Hrun as (w' & Hrun & Hc).
  destruct (wp_done _ _ _ _ _ _ (tcp_server_refines 9 (Service [] ∅) example_start example_stands) Hrun)
    as (evs & v' & Ht & Hs & _).
  exists w', v'. split; [exact Hrun|]. split; [|exact Hc]. rewrite Ht. exact Hs.
Defined.

(** Four peers whose sessions are in progress, and a fifth. *)
Definition example_busy (k : nat) : session :=
  set_state STATE_ONGOING (set_key (Z.of_nat k) (NetAddr 2 ([192; 168; 0; 1] ++ memset 0 12)) zero_session).
Definition example_full : table := set_row SESSION_TCP (example_busy <$> seq 0 SESSION_MAX) static_table.
Definition example_active : gmap peer (Z * list Z) :=
  list_to_map ((fun k => (Peer4 (Z.of_nat k) 16820416, (0, []))) <$> seq 0 SESSION_MAX).
Definition example_conn (k : nat) : bytes := [0; 2; Z.of_nat k; 0; 192; 168; 0; 1] ++ memset 0 20.
Definition example_four : globals :=
  set_tcp_sock_addr (replicate 2 (memset 0 28) ++ (example_conn <$> seq 0 SESSION_MAX))
    (set_tcp_fds ([Pollfd 3 POLLIN 0; Pollfd 4 POLLIN 0]
                  ++ ((fun k => Pollfd (5 + Z.of_nat k) POLLIN 0) <$> seq 0 SESSION_MAX))
      (example_listening example_full)).

Lemma example_active_inv k c : example_active !! k = Some c ->
  exists i, (i < SESSION_MAX)%nat /\ k = Peer4 (Z.of_nat i) 16820416.
Proof.
  intros Hk. apply elem_of_list_to_map_2, list_elem_of_fmap in Hk as (i & [= -> _] & Hi).
  apply elem_of_seq in Hi. exists i. split; [lia|done].
Qed.

Lemma example_full_lookup i s : row SESSION_TCP example_full !! i = Some s ->
  (i < SESSION_MAX)%nat /\ s = example_busy i.
Proof.
  change (row SESSION_TCP example_full) with (example_busy <$> seq 0 SESSION_MAX).
  rewrite list_lookup_fmap. intros (k & Hk & ->)%fmap_Some. apply lookup_seq in Hk as [-> Hi]. done.
Qed.

Lemma example_full_stands : table_stands example_full example_active.
Proof.
  split; [intros [|]|split; [reflexivity|split]].
  - apply (static_table_wf (L := lwip_example) SESSION_UDP).
  - split; [by repeat constructor|]. intros i j s s' k Hi Hj Hs Hs'.
    apply example_full_lookup in Hi as [_ ->]. apply example_full_lookup in Hj as [_ ->].
    change (slot_peer (example_busy i)) with (Some (Peer4 (Z.of_nat i) 16820416)) in Hs.
    change (slot_peer (example_busy j)) with (Some (Peer4 (Z.of_nat j) 16820416)) in Hs'.
    assert (Z.of_nat i = Z.of_nat j) by congruence. lia.
  - intros i s [Hi ->]%example_full_lookup. split; [reflexivity|]. exists (Peer4 (Z.of_nat i) 16820416), [].
    split; [reflexivity|]. split; [|reflexivity]. unfold SESSION_MAX in Hi.
    do 4 (destruct i as [|i]; [reflexivity|]). lia.
  - intros k c (i & Hi & ->)%example_active_inv. exists i, (example_busy i). split; [|reflexivity].
    unfold SESSION_MAX in Hi. do 4 (destruct i as [|i]; [reflexivity|]). lia.
Qed.

Lemma example_four_stands : stands example_four (Service (connections example_four) example_active).
Proof.
  split; [apply example_full_stands|done|reflexivity|reflexivity|by repeat constructor| |].
  - intros i p a Hi Hp Ha _. unfold SOCK_ID_IPV6_LISTEN in Hi.
    assert (i < 6)%nat by (by apply lookup_lt_Some in Hp).
    exists (Peer4 (Z.of_nat (i - 2)) 16820416).
    do 6 (destruct i as [|i]; [first [lia|by injection Ha as <-]|]). lia.
  - intros k [c (i & Hi & ->)%example_active_inv]. exists (5 + Z.of_nat i).
    apply list_elem_of_lookup. exists i. unfold SESSION_MAX in Hi.
    do 4 (destruct i as [|i]; [reflexivity|]). lia.
Qed.

(** The fifth peer connects, sends and ends, twice. *)
Lemma tcp_stop_exhausts_witness :
  let w := World example_four (Traffic [] [] 0) [] in
  let fifth := (fun len => (example_peer4, len)) <$> [1000; 0; 500; 0] in
  exists w' evs, (tcp_cleanup 0 SOCK_ID_MAX;; tcp_received_all fifth) w = Done (tt, w') /\
    trace w' = evs /\ callbacks evs = [].
Proof.
  intros w fifth.
  assert (Hpeer : addr_peer example_peer4 = Done (Some (Peer4 35091 16820416)) /\
                  example_active !! Peer4 35091 16820416 = None) by (split; reflexivity).
  destruct (wp_total_done _ _ _ (tcp_stop_exhausts _ fifth w
    example_four_stands (proj1 (Nat.leb_le SESSION_MAX 4) eq_refl)
    ltac:(repeat constructor; exists (Peer4 35091 16820416); exact Hpeer)))
    as ([] & w' & Hrun & _ & evs & Ht & Hcb).
  exists w', evs. split; [exact Hrun|]. split; [exact Ht|exact Hcb].
Defined.
End Examples.
