(* ===== verification/TcpSession.v ===== *)
(** A whole session of the TCP server (zperf_tcp_receiver.c,
    [tcp_server_session]): it opens its listening sockets, serves connections by
    the contract of [TcpSpec], and closes what is open. *)
From stdpp Require Import gmap.
From S2P Require Import Prelude CInt Platform CString Kernel NetIp Session World Environment Common Server TcpReceiver TcpSpec.
Open Scope Z_scope.

(** ** Opening *)
Section Opening.
Context {L : Lwip} {LOk : LwipOk L} {R : Rtos} {E : Type} `{!Env E}.
Implicit Types (g : globals) (w : world E).

(** The sizes of the static objects. *)
Record tcp_statics g : Prop := {
  statics_in4 : length (in4_addr_my g) = sizeof_sockaddr_in;
  statics_in6 : length (in6_addr_my g) = sizeof_sockaddr_in6;
  statics_addr : length (server_addr (tcp_server g)) = sizeof_sockaddr_storage;
  statics_fds : length (tcp_fds g) = SOCK_ID_MAX;
  statics_socks : length (tcp_sock_addr g) = SOCK_ID_MAX;
  statics_sizes : Forall (fun a => length a = sizeof_sockaddr_storage) (tcp_sock_addr g);
}.

(** What opening a socket leaves. *)
Definition opening g g' : Prop :=
  tcp_statics g' /\ tcp_server g' = tcp_server g /\ sessions g' = sessions g.

Lemma opening_refl g : tcp_statics g -> opening g g.
Proof. done. Qed.
Lemma opening_trans g1 g2 g3 : opening g1 g2 -> opening g2 g3 -> opening g1 g3.
Proof. intros (_ & H1 & H2) (? & H3 & H4). split_and!; congruence. Qed.

(** Opening went on from [w] to [w']: what it has created is in the table. *)
Definition opened_to i sock w w' : Prop :=
  opening (glob w) (glob w') /\ fds_of (glob w') = <[i := sock]> (fds_of (glob w)) /\
  exists domain evs, Forall setup_event evs /\
    trace w' = trace w ++ Event (LwipSocket domain SOCK_STREAM IPPROTO_TCP) sock :: evs.

Lemma wp_bind_listen i dest w :
  tcp_statics (glob w) -> (i < SOCK_ID_MAX)%nat -> length dest = sizeof_sockaddr_storage ->
  wp Total (tcp_bind_listen_connection i dest) (fun _ w' => opening (glob w) (glob w')) w.
Proof.
  intros Hw Hi Hd. pose proof addr_in_sockaddr_in. pose proof port_before_addr.
  pose proof in_fits_sockaddr. pose proof sockaddr_fits_storage. pose proof family_before_port.
  pose proof port6_in_sockaddr.
  destruct (lookup_lt_is_Some_2 (tcp_fds (glob w)) i) as [p Hp]; [by rewrite statics_fds|].
  unfold tcp_bind_listen_connection. apply wp_bind. eapply wp_get_fd; [exact Hp|].
  assert (Hload : forall off n, (off + n <= sizeof_sockaddr)%nat -> exists v, load_at off n dest = Done v).
  { intros off n Hn. unfold load_at. rewrite read_at_ok by lia. by eexists. }
  destruct (Hload off_sa_family sizeof_sa_family) as [family Hf]; [lia|].
  destruct (Hload off_sin_port 2%nat) as [p4 Hp4]; [lia|].
  destruct (Hload off_sin6_port 2%nat) as [p6 Hp6]; [lia|].
  apply wp_bind. eapply wp_lift; [exact Hf|]. apply wp_bind.
  apply (wp_mono _ _ (fun _ w' => w' = w)).
  { destruct (family =? AF_INET); apply wp_bind; (eapply wp_lift; [eassumption|]); by apply wp_ret. }
  intros _ w1 ->. apply wp_bind. eapply wp_lift; [apply read_at_ok; lia|].
  apply wp_bind. wp_call ret e. destruct (ret <? 0); [apply wp_ret; by apply opening_refl|].
  apply wp_bind. wp_call ret' e'. destruct (ret' <? 0); [apply wp_ret; by apply opening_refl|].
  apply wp_bind, wp_modify, wp_ret. split; [|done]. split; try apply Hw.
  cbn. rewrite length_alter. apply Hw.
Qed.
Lemma bind_listen_setup i a : only setup_event (tcp_bind_listen_connection (E := E) i a).
Proof. unfold tcp_bind_listen_connection, get_fd, upd_fd. by only_steps. Qed.
#[local] Hint Resolve bind_listen_setup keeps_ipv4 keeps_ipv6
  bind_listen_keeps : zperf.

(** A socket that is created, stored and set up. *)
Lemma wp_opens {A} i domain (m : Z -> M (world E) A) w :
  (forall sock, only setup_event (m sock)) -> (forall sock, keeps fds_of (m sock)) ->
  tcp_statics (glob w) ->
  (forall sock w', opening (glob w) (glob w') -> wp Total (m sock) (fun _ w'' => opening (glob w) (glob w'')) w') ->
  wp Total (sock ← trigger (LwipSocket domain SOCK_STREAM IPPROTO_TCP); upd_fd i (set_fd sock);; m sock)
    (fun _ w' => exists sock, opened_to i sock w w') w.
Proof.
  intros Ho Hk Hw Hm. apply wp_bind, (wp_trigger _ (LwipSocket domain SOCK_STREAM IPPROTO_TCP)).
  intros sock e _. apply wp_bind, wp_modify. set (w1 := with_glob _ _).
  assert (H1 : opening (glob w) (glob w1)).
  { split; [|done]. split; try apply Hw. cbn. rewrite length_alter. apply Hw. }
  eapply wp_mono.
  { apply wp_conj_partial; [by apply Hm|]. apply wp_conj; [apply Ho|apply Hk]. }
  intros a w2 (H2 & (evs & Htr & Hevs) & Hfds). exists sock. split; [done|]. split.
  { rewrite Hfds. unfold w1, fds_of. cbn [glob with_glob tcp_fds set_tcp_fds emit].
    by rewrite (fd_alter _ sock). }
  exists domain, evs. split; [done|]. rewrite Htr. unfold w1. cbn [trace with_glob emit].
  by rewrite <- app_assoc.
Qed.

(** The end of both: the address is kept, and the socket listens. *)
Lemma wp_listen i (my : bytes) (copy : bytes -> outcome bytes) w0 w :
  opening (glob w0) (glob w) -> (i < SOCK_ID_MAX)%nat ->
  (exists dest, copy my = Done dest /\ length dest = sizeof_sockaddr_storage) ->
  wp Total (dest ← lift (copy my); put_sock_addr i dest;;
            ret ← tcp_bind_listen_connection i dest; mret (negb (ret <? 0)))
    (fun _ w' => opening (glob w0) (glob w')) w.
Proof.
  intros Hw Hi (dest & Hc & Hl). apply wp_bind. eapply wp_lift; [exact Hc|].
  apply wp_bind, wp_modify, wp_bind. eapply wp_mono.
  { apply wp_bind_listen; [|exact Hi|exact Hl]. destruct Hw as [Hw _]. split; try apply Hw; cbn.
    - rewrite length_insert. apply Hw.
    - apply Forall_insert; [apply Hw|done]. }
  intros ret w1 H1. apply wp_ret. eapply opening_trans; [exact Hw|]. exact H1.
Qed.

Lemma copied4 my : length my = sizeof_sockaddr_in ->
  exists dest, copy_sockaddr_in_to_sockaddr_storage my = Done dest /\ length dest = sizeof_sockaddr_storage.
Proof.
  intros Hl. pose proof in_fits_sockaddr. pose proof sockaddr_fits_storage.
  pose proof family_before_port. pose proof port_before_addr. pose proof addr_in_sockaddr_in.
  unfold copy_sockaddr_in_to_sockaddr_storage, sa_family, load_at. rewrite read_at_ok by lia.
  cbn [mret outcome_ret mbind outcome_bind]. assert (Hz : length (memset 0 sizeof_sockaddr_storage) = sizeof_sockaddr_storage)
    by apply length_replicate.
  case_match; [|by eexists]. eexists. split; [apply memcpy_ok; lia|].
  rewrite length_app, length_take, !length_drop. lia.
Qed.
Lemma copied6 my : length my = sizeof_sockaddr_in6 ->
  exists dest, copy_sockaddr_in6_to_sockaddr_storage my = Done dest /\ length dest = sizeof_sockaddr_storage.
Proof.
  intros Hl. pose proof in6_fits_storage. pose proof family_before_port6. pose proof port_before_addr6.
  pose proof addr_in_sockaddr_in6.
  unfold copy_sockaddr_in6_to_sockaddr_storage, sa_family, load_at. rewrite read_at_ok by lia.
  cbn [mret outcome_ret mbind outcome_bind]. assert (Hz : length (memset 0 sizeof_sockaddr_storage) = sizeof_sockaddr_storage)
    by apply length_replicate.
  case_match; [|by eexists]. eexists. split; [apply memcpy_ok; lia|].
  rewrite length_app, length_take, !length_drop. lia.
Qed.

Lemma tcp_open_ipv4_opens w :
  tcp_statics (glob w) ->
  wp Total tcp_open_ipv4 (fun _ w' => exists sock, opened_to SOCK_ID_IPV4_LISTEN sock w w') w.
Proof.
  intros Hw. pose proof addr_in_sockaddr_in. pose proof port_before_addr. pose proof in_fits_sockaddr.
  pose proof sockaddr_fits_storage. unfold tcp_open_ipv4. apply wp_bind, wp_gets. apply wp_opens; [| |done|].
  { intros sock. unfold put_sock_addr. by only_steps. }
  { intros sock. unfold put_sock_addr. by keeps_steps. }
  intros sock w1 Ho. pose proof Ho as (Hs1 & Hsrv & _). destruct (sock <? 0); [by apply wp_ret|].
  apply wp_bind, wp_gets, wp_bind. pose proof (statics_addr _ Hs1).
  eapply wp_lift; [apply read_at_ok; lia|]. apply wp_bind.
  eapply wp_mono; [apply wp_choose4; [rewrite length_take, length_drop; lia|apply Hw]|].
  intros my w2 [Hg Hmy]. apply wp_bind. apply wp_write; [rewrite length_store_le; lia|].
  intros my' Hmy'. apply wp_bind, wp_modify. apply wp_listen; [|by apply Nat.ltb_lt|apply copied4; lia].
  eapply opening_trans; [exact Ho|]. rewrite <- Hg. split; [|done]. rewrite <- Hg in Hs1.
  split; try apply Hs1. cbn. lia.
Qed.

Lemma tcp_open_ipv6_opens w :
  tcp_statics (glob w) ->
  wp Total tcp_open_ipv6 (fun _ w' => exists sock, opened_to SOCK_ID_IPV6_LISTEN sock w w') w.
Proof.
  intros Hw. pose proof addr_in_sockaddr_in6. pose proof port_before_addr6.
  pose proof in6_fits_storage. unfold tcp_open_ipv6. apply wp_bind, wp_gets. apply wp_opens; [| |done|].
  { intros sock. unfold put_sock_addr. by only_steps. }
  { intros sock. unfold put_sock_addr. by keeps_steps. }
  intros sock w1 Ho. pose proof Ho as (Hs1 & Hsrv & _). destruct (sock <? 0); [by apply wp_ret|].
  apply wp_bind, wp_gets, wp_bind. pose proof (statics_addr _ Hs1).
  eapply wp_lift; [apply read_at_ok; lia|]. apply wp_bind.
  eapply wp_mono; [apply wp_choose6; [rewrite length_take, length_drop; lia|apply Hw]|].
  intros my w2 [Hg Hmy]. apply wp_bind. apply wp_write; [rewrite length_store_le; lia|].
  intros my' Hmy'. apply wp_bind, wp_modify. apply wp_listen; [|by apply Nat.ltb_lt|apply copied6; lia].
  eapply opening_trans; [exact Ho|]. rewrite <- Hg. split; [|done]. rewrite <- Hg in Hs1.
  split; try apply Hs1. cbn. lia.
Qed.
End Opening.

(** ** The listening sockets *)
Section Listening.
Context {L : Lwip} {LOk : LwipOk L} {R : Rtos} {E : Type} `{!Env E}.
Implicit Types (g : globals) (w : world E).

Definition listening g : list Z := take (SOCK_ID_IPV6_LISTEN + 1) (fds_of g).

(** No connection, and the listening sockets are those created. *)
Definition fresh (evs : list event) g : Prop :=
  drop (SOCK_ID_IPV6_LISTEN + 1) (fds_of g) = replicate SESSION_MAX (-1) /\
  created evs = filter (fun s => 0 <= s) (listening g).

Lemma wp_opens_both w :
  tcp_statics (glob w) -> fds_of (glob w) = replicate SOCK_ID_MAX (-1) ->
  wp Total tcp_open_ipv4 (fun ok w1 =>
    wp Total (if ok && CONFIG_NET_IPV6 then tcp_open_ipv6 else mret ok) (fun _ w2 =>
      opening (glob w) (glob w2) /\ exists evs, trace w2 = trace w ++ evs /\
        Forall opening_event evs /\ fresh evs (glob w2)) w1) w.
Proof.
  intros Hw Hfds. eapply wp_mono; [by apply tcp_open_ipv4_opens|].
  intros ok w1 (s4 & Ho1 & Hf1 & d4 & evs4 & He4 & Ht1). rewrite Hfds in Hf1.
  assert (Hopen4 : Forall opening_event (Event (LwipSocket d4 SOCK_STREAM IPPROTO_TCP) s4 :: evs4)).
  { constructor; [done|]. eapply Forall_impl; [apply setup_opening|exact He4]. }
  destruct (ok && CONFIG_NET_IPV6).
  - eapply wp_mono; [apply tcp_open_ipv6_opens, Ho1|].
    intros ok' w2 (s6 & Ho2 & Hf2 & d6 & evs6 & He6 & Ht2). rewrite Hf1 in Hf2.
    split; [by eapply opening_trans|]. eexists. split; [rewrite Ht2, Ht1, <- app_assoc; reflexivity|].
    split; [apply Forall_app; split; [done|constructor; [done|]];
      eapply Forall_impl; [apply setup_opening|exact He6]|].
    unfold fresh, listening. rewrite Hf2, created_app. cbn [created].
    rewrite (created_setup _ He4), (created_setup _ He6). split; [done|].
    cbn [replicate SOCK_ID_MAX SESSION_MAX Nat.add insert list_insert SOCK_ID_IPV4_LISTEN
      SOCK_ID_IPV6_LISTEN take].
    rewrite !filter_cons. destruct (Z.leb_spec 0 s4), (Z.leb_spec 0 s6); repeat case_decide; done || lia.
  - apply wp_ret. split; [done|]. eexists. split; [exact Ht1|]. split; [done|].
    unfold fresh, listening. rewrite Hf1. cbn [created]. rewrite (created_setup _ He4). split; [done|].
    cbn [replicate SOCK_ID_MAX SESSION_MAX Nat.add insert list_insert SOCK_ID_IPV4_LISTEN
      SOCK_ID_IPV6_LISTEN take].
    rewrite !filter_cons. destruct (Z.leb_spec 0 s4); repeat case_decide; done || lia.
Qed.

(** What the loop leaves alone. *)
Definition kept_by_turns g : bytes * bytes * list Z := (in4_addr_my g, in6_addr_my g, listening g).

Lemma listening_alter j h g :
  (SOCK_ID_IPV6_LISTEN < j)%nat -> kept_by_turns (set_tcp_fds (alter h j (tcp_fds g)) g) = kept_by_turns g.
Proof.
  intros Hj. unfold kept_by_turns, listening, fds_of. cbn [tcp_fds set_tcp_fds in4_addr_my in6_addr_my].
  f_equal. apply list_eq. intros i. destruct (decide (i < SOCK_ID_IPV6_LISTEN + 1)%nat).
  - rewrite !lookup_take_lt, !list_lookup_fmap by done. rewrite list_lookup_alter_ne by lia. done.
  - by rewrite !lookup_take_ge by lia.
Qed.
Lemma first_free_ge j fds : (j <= first_free j fds)%nat.
Proof.
  revert j. induction fds as [|p fds IH]; intros j; cbn; [done|]. destruct (fd p <? 0); [done|].
  specialize (IH (S j)). lia.
Qed.

Lemma received_keeps_rest addr len : keeps kept_by_turns (tcp_received (E := E) addr len).
Proof.
  unfold tcp_received, tcp_session_start, tcp_session_data, find_session, load_session,
    store_session. by keeps_steps.
Qed.
Lemma tcp_accept_keeps i : keeps kept_by_turns (tcp_accept (E := E) i).
Proof.
  unfold tcp_accept, get_fd, upd_fd, get_sock_addr, put_sock_addr. keeps_steps.
  apply listening_alter. eapply Nat.lt_le_trans; [|apply first_free_ge]. lia.
Qed.
Lemma tcp_receive_keeps i : (SOCK_ID_IPV6_LISTEN < i)%nat -> keeps kept_by_turns (tcp_receive (E := E) i).
Proof.
  intros Hi. pose proof received_keeps_rest.
  unfold tcp_receive, tcp_session_error_report, get_fd, upd_fd, get_sock_addr, put_sock_addr. keeps_steps.
  by apply listening_alter.
Qed.
Lemma tcp_serve_keeps i n : keeps kept_by_turns (tcp_serve (E := E) i n).
Proof.
  revert i. induction n as [|n IH]; intros i; cbn [tcp_serve]; [by keeps_steps|].
  pose proof (tcp_accept_keeps i). unfold get_fd. apply keeps_bind; [by keeps_steps|]. intros p.
  destruct (_ || _); [by keeps_steps|]. destruct (negb _); [done|].
  apply keeps_bind; [|intros ok; by keeps_steps]. destruct (_ && _); [done|].
  destruct (Nat.ltb_spec SOCK_ID_IPV6_LISTEN i) as [Hi|]; cbn [andb]; [|by keeps_steps].
  pose proof (tcp_receive_keeps i Hi). by keeps_steps.
Qed.
Lemma tcp_turn_keeps others u : keeps kept_by_turns others -> keeps kept_by_turns (tcp_turn (E := E) others u).
Proof.
  intros Ho. pose proof (tcp_serve_keeps 0 SOCK_ID_MAX). unfold tcp_turn. keeps_steps.
  unfold kept_by_turns, listening, fds_of. cbn [tcp_fds set_tcp_fds in4_addr_my in6_addr_my].
  by rewrite fd_store_revents.
Qed.
End Listening.

(** ** The session *)
Section Session.
Context {L : Lwip} {LOk : LwipOk L} {R : Rtos} {E : Type} `{!Env E}.
Implicit Types (g : globals) (w : world E).

(** The open entries of the table are the listening sockets and the
    connections. *)
Lemma open_fds_connections g v j fds :
  stands g v -> (SOCK_ID_IPV6_LISTEN < j)%nat -> drop j (tcp_fds g) = fds ->
  fst <$> omap (entry g) (seq j (length fds)) = open_fds fds.
Proof.
  intros Hv. revert j. induction fds as [|p fds IH]; intros j Hj Hd; [done|].
  assert (Hp : tcp_fds g !! j = Some p) by (by rewrite <- (Nat.add_0_r j), <- lookup_drop, Hd).
  assert (Hd' : drop (S j) (tcp_fds g) = fds) by (rewrite (drop_S _ _ _ Hp) in Hd; by injection Hd).
  destruct (lookup_lt_is_Some_2 (tcp_sock_addr g) j) as [a Ha].
  { rewrite (stands_addrs _ _ Hv), <- (stands_fds _ _ Hv). by eapply lookup_lt_Some. }
  unfold open_fds. cbn [length seq omap list_omap fmap list_fmap]. rewrite filter_cons.
  specialize (IH (S j) ltac:(lia) Hd'). destruct (decide (0 <= fd p)) as [Hf|Hf].
  - destruct (stands_entry g v j p a) as (k & _ & -> & _); [done..|]. cbn [fmap list_fmap fst].
    f_equal. exact IH.
  - assert (entry g j = None) as ->; [|exact IH]. unfold entry. rewrite Hp, Ha.
    by destruct (Z.ltb_spec (fd p) 0); [|lia].
Qed.

Lemma open_fds_split g v evs :
  stands g v -> created evs = filter (fun s => 0 <= s) (listening g) ->
  exists conns, open_fds (tcp_fds g) = created evs ++ conns /\ conns ≡ₚ fst <$> open v.
Proof.
  intros Hv ->. exists (fst <$> connections g). split; [|by rewrite (stands_open _ _ Hv)].
  unfold connections, entries.
  assert (Hlen : length (drop (SOCK_ID_IPV6_LISTEN + 1) (tcp_fds g)) = SESSION_MAX)
    by (rewrite length_drop, (stands_fds _ _ Hv); done).
  rewrite <- Hlen, (open_fds_connections g v _ (drop (SOCK_ID_IPV6_LISTEN + 1) (tcp_fds g)))
    by (done || (unfold SOCK_ID_IPV6_LISTEN; lia)).
  unfold open_fds, listening, fds_of. rewrite <- list.filter_app, fmap_drop, take_drop. done.
Qed.

(** The array at the start. *)
Lemma fresh_stands g evs :
  tcp_statics g -> table_stands (sessions g) ∅ -> fresh evs g -> stands g (Service [] ∅).
Proof.
  intros Hg Ht [Hd _]. apply stands_idle; [done|apply Hg..|]. apply list.Forall_forall. intros p Hp.
  assert (Hin : fd p ∈ drop (SOCK_ID_IPV6_LISTEN + 1) (fds_of g)).
  { unfold fds_of. rewrite <- fmap_drop. by apply list_elem_of_fmap_2. }
  rewrite Hd in Hin. apply elem_of_replicate_inv in Hin. lia.
Qed.

(** The part between opening and closing. *)
Definition served srv w w' (serving : list event) v err : Prop :=
  trace w' = trace w ++ serving
    ++ (if err : bool then notified (tcp_server (glob w')) ZPERF_SESSION_ERROR None else []) /\
  steps srv (Service [] ∅) serving v /\ stands (glob w') v /\
  (err = false -> server_stop (tcp_server (glob w')) = true) /\
  kept_by_turns (glob w') = kept_by_turns (glob w) /\ asked srv (tcp_server (glob w')).

Lemma wp_served `{!AcceptNames E, !PollSkips E} srv others fuel (ok : bool) w :
  only_stops tcp_server set_tcp_server srv others -> keeps kept_by_turns others ->
  stands (glob w) (Service [] ∅) -> asked srv (tcp_server (glob w)) ->
  wp Safe (err ← (if ok : bool then loop fuel (tcp_turn others) tt else mret true);
           others;; when err tcp_session_error_report)
    (fun _ w' => exists serving v err, served srv w w' serving v err) w.
Proof.
  intros Ho Hko Hw Ha. apply wp_bind.
  eapply (wp_mono _ _ (fun err w1 => tcp_ran srv (Service [] ∅) w w1 /\
    (err = false -> server_stop (tcp_server (glob w1)) = true) /\
    kept_by_turns (glob w1) = kept_by_turns (glob w))).
  { destruct ok; [|by apply wp_ret; split; [apply tcp_ran_refl|]].
    assert (Hk : keeps kept_by_turns (loop fuel (tcp_turn others) tt)).
    { apply keeps_loop. intros u. by apply tcp_turn_keeps. }
    eapply wp_mono; [apply wp_conj_partial; [by apply (tcp_loop_serves srv)|apply Hk]|].
    by intros err w1 [[H1 H2] H3]. }
  intros err w1 (H1 & Hstop & Hk). apply wp_bind.
  eapply wp_mono; [apply wp_conj_partial; [|apply Hko]|].
  { apply (wp_tcp_ran_from _ _ _ (fun _ w2 =>
      server_stop (tcp_server (glob w1)) = true -> server_stop (tcp_server (glob w2)) = true) _ _ _ H1).
    intros v1 Hv1 Ha1. by apply tcp_others_run. }
  intros _ w2 [[(evs & v & Ht & Hs & Hv & Ha2) Hkeep] Hk2]. rewrite Hk in Hk2.
  destruct err; cbn [when].
  - apply wp_notify. intros e. exists evs, v, true. split; [|done].
    cbn [trace]. by rewrite Ht, <- app_assoc.
  - apply wp_ret. exists evs, v, false. split; [by rewrite app_nil_r|]. split; [done|]. split; [done|].
    split; [|done]. intros _. by apply Hkeep, Hstop.
Qed.

(** C5: a whole session of the TCP server, as long as [poll] reports nothing on
    closed entries and [accept] gives addresses. Started with no session in
    progress, it meets no fault, whatever requests to start and to stop other tasks make
    meanwhile: it opens its listening sockets, then makes the calls the contract
    of [tcp_server_refines] allows, from no connection on, until an error or,
    with any number of connections open, a request to stop; it reports an error
    unless it was told to stop, and at the end closes the listening sockets it
    has created and the connections still open, each once, and nothing else.
    The requests change nothing else than that the server is asked to stop. The
    sessions of those connections are left in progress; when there are none, the
    next session can start in the same way. *)
Theorem tcp_server_session_refines `{!AcceptNames E, !PollSkips E} arrive fuel w :
  tcp_statics (glob w) -> table_stands (sessions (glob w)) ∅ -> server_running (tcp_server (glob w)) = true ->
  wp Safe (tcp_server_session (tcp_requests arrive) fuel) (fun _ w' => exists opens serving v err closes conns,
    trace w' = trace w ++ opens ++ serving
      ++ (if err : bool then notified (tcp_server (glob w')) ZPERF_SESSION_ERROR None else []) ++ closes /\
    Forall opening_event opens /\
    steps (tcp_server (glob w)) (Service [] ∅) serving v /\
    (err = false -> server_stop (tcp_server (glob w')) = true) /\
    calls closes = LwipClose <$> created opens ++ conns /\ conns ≡ₚ fst <$> open v /\
    tcp_statics (glob w') /\ asked (tcp_server (glob w)) (tcp_server (glob w')) /\
    table_stands (sessions (glob w')) (active v)) w.
Proof.
  intros Hw Htab Hrun. pose proof (tcp_requests_stop (E := E) _ arrive Hrun) as Hothers.
  assert (Hko : keeps kept_by_turns (tcp_requests arrive)) by by apply tcp_requests_keeps.
  unfold tcp_server_session. cbn [CONFIG_NET_IPV4]. apply wp_bind, wp_modify.
  set (w0 := with_glob _ _).
  assert (H0 : opening (glob w) (glob w0)).
  { split; [|done]. split; try apply Hw. cbn. rewrite length_fmap. apply Hw. }
  assert (Hf0 : fds_of (glob w0) = replicate SOCK_ID_MAX (-1)).
  { unfold w0, fds_of. cbn [glob with_glob tcp_fds set_tcp_fds]. rewrite <- list_fmap_compose.
    rewrite <- (statics_fds _ Hw). by apply fmap_const. }
  change (trace w) with (trace w0). clearbody w0.
  apply wp_bind. eapply wp_mono; [apply wp_total, wp_opens_both; [apply H0|done]|].
  intros ok1 w1 H1. apply wp_bind. eapply wp_mono; [apply wp_total, H1|].
  clear H1. intros ok w2 (Ho & opens & Ht2 & Hopens & Hfresh).
  pose proof (opening_trans _ _ _ H0 Ho) as (Hst & Hsrv & Hses). rewrite <- Hses in Htab.
  pose proof (fresh_stands _ _ Hst Htab Hfresh) as Hv0. set (srv := tcp_server (glob w)) in *.
  pose proof (wp_served srv _ fuel ok w2 Hothers Hko Hv0 (or_introl Hsrv)) as Hserve.
  apply (wp_assoc3 _ _ (fun _ => tcp_requests arrive) (fun err => when err tcp_session_error_report)). apply wp_bind.
  eapply wp_mono; [exact Hserve|]. intros _ w3 (serving & v & err & Ht3 & Hs & Hv & Hstop & Hk & Ha3).
  injection Hk as Hk4 Hk6 Hkl.
  eapply wp_mono; [apply wp_total, tcp_cleanup_sessions; [done|apply Hv..]|].
  intros _ w4 (addrs & closes & Hg4 & Hl & Hsz & Ht4 & Hc). rewrite drop_0 in Hc.
  destruct (open_fds_split _ v opens Hv) as (conns & Hconns & Hperm); [rewrite Hkl; apply Hfresh|].
  assert (Hsrv4 : tcp_server (glob w4) = tcp_server (glob w3)) by (by rewrite Hg4). rewrite Hsrv4.
  exists opens, serving, v, err, closes, conns.
  split; [by rewrite Ht4, Ht3, Ht2, <- !app_assoc|]. split; [done|]. split; [done|]. split; [done|].
  split; [by rewrite Hc, Hconns|]. split; [done|]. rewrite Hg4. split; [|split; [done|apply Hv]].
  split; cbn; [by rewrite Hk4; apply Hst|by rewrite Hk6; apply Hst| |apply Hv|done|done].
  destruct Ha3 as [->| ->]; unfold srv; cbn; apply Hw.
Qed.
End Session.

(** ** On a concrete input *)
Section Examples.
#[local] Existing Instances lwip_example rtos_example trafficking trafficking_polls trafficking_accepts.

(** A connection delivers 1000 bytes; another task then asks the server to stop:
    the connection is closed with the two listening sockets. *)
Definition example_session : world traffic :=
  World (set_tcp_server (set_running true (tcp_server (glob (example_world [])))) (glob (example_world [])))
    (Traffic [[3]; [5]; []] [1000] 0) [].
Definition example_stop (w : world traffic) : list request :=
  if (length (calls (trace w)) =? 14)%nat then [RequestStart None None 0; RequestStop] else [].

Lemma tcp_server_session_refines_witness :
  exists w' serving v, tcp_server_session (tcp_requests example_stop) 9 example_session = Done (tt, w') /\
    steps (tcp_server (glob example_session)) (Service [] ∅) serving v /\
    server_stop (tcp_server (glob w')) = true /\
    (exists before, calls (trace w') = before ++ [LwipClose 3; LwipClose 4; LwipClose 5]).
Proof.
  assert (Hrun : exists w', tcp_server_session (tcp_requests example_stop) 9 example_session = Done (tt, w') /\
            server_stop (tcp_server (glob w')) = true /\
            drop 14 (calls (trace w')) = [LwipClose 3; LwipClose 4; LwipClose 5]).
  { eexists. split; [vm_compute; reflexivity|]. split; vm_compute; reflexivity. }
  destruct Hrun as (w' & Hrun & Hstop & Hc).
  assert (Hst : tcp_statics (glob example_session)) by (split; [reflexivity..|repeat constructor]).
  destruct (wp_done _ _ _ _ _ _ (tcp_server_session_refines example_stop 9 example_session Hst example_table eq_refl) Hrun)
    as (opens & serving & v & err & closes & conns & _ & _ & Hs & _).
  exists w', serving, v. split; [exact Hrun|]. split; [exact Hs|]. split; [exact Hstop|].
  exists (take 14 (calls (trace w'))). rewrite <- Hc. symmetry. apply take_drop.
Defined.
End Examples.
