(* ===== verification/Work.v ===== *)
(** Work items (zephyr/work.c): the pending flag and submission. The queue
    itself is a FreeRTOS queue. *)
From S2P Require Import Prelude CInt Platform NetIp Session World.
Open Scope Z_scope.

(** [1UL << WORK_ITEM_IS_PENDING_BIT]. *)
Definition WORK_ITEM_IS_PENDING_BIT : Z := 0.
Definition WORK_ITEM_IS_PENDING_BIT_MASK : Z := Z.shiftl 1 WORK_ITEM_IS_PENDING_BIT.

Definition k_work_init (h : work_handler) (w : k_work) : k_work :=
  KWork (Some h) (context w) (is_pending w).

Definition k_work_is_pending (w : k_work) : bool :=
  negb (Z.land (is_pending w) WORK_ITEM_IS_PENDING_BIT_MASK =? 0).

(** The fields [k_work_submit_to_queue] stores before it sends the item, and the
    one [_work_task] stores after it received it. *)
Definition work_submitted (id : work_id) (w : k_work) : k_work :=
  KWork (handler w) (Some id) (Z.lor (is_pending w) WORK_ITEM_IS_PENDING_BIT_MASK).
Definition work_taken (w : k_work) : k_work :=
  KWork (handler w) (context w) (Z.lxor (is_pending w) WORK_ITEM_IS_PENDING_BIT_MASK).

Definition ctx_of (id : work_id) (g : globals) : async_ctx :=
  match id with UDP_WORK => udp_async_upload_ctx g | TCP_WORK => tcp_async_upload_ctx g end.
Definition set_ctx_of (id : work_id) (x : async_ctx) (g : globals) : globals :=
  match id with UDP_WORK => set_udp_ctx x g | TCP_WORK => set_tcp_ctx x g end.
Definition set_work (w : k_work) (x : async_ctx) : async_ctx :=
  AsyncCtx w (ctx_param x) (ctx_callback x) (ctx_user_data x).
Definition upd_work (id : work_id) (f : k_work -> k_work) (g : globals) : globals :=
  set_ctx_of id (set_work (f (work (ctx_of id g))) (ctx_of id g)) g.

Section Work.
Context {L : Lwip} {E : Type} `{!Env E}.
Abbreviation W := (world E).

Definition k_work_submit_to_queue (id : work_id) : M W unit :=
  upd_glob (upd_work id (work_submitted id));;
  trigger (QueueSend id);;
  mret tt.

Definition zperf_async_work_submit (id : work_id) : M W unit := k_work_submit_to_queue id.

(** The callback of a context; calling through [NULL] is a fault. *)
Definition call_ctx (ctx : async_ctx) (st : zperf_status) (r : option zperf_results)
    : M W unit :=
  match ctx_callback ctx with
  | None => fail NullPointer
  | Some cb => trigger (InvokeCallback cb st r (ctx_user_data ctx))
  end.
End Work.
