(* ===== verification/UdpUploader.v ===== *)
(** The UDP client (zperf_udp_uploader.c): packets and their pacing, the end of
    an upload and the server's statistics, and the asynchronous upload. *)
From S2P Require Import Prelude CInt Platform Kernel NetIp Session World Environment Common Server UdpReceiver Work.
Open Scope Z_scope.

(** zperf_internal.h: [sizeof(struct zperf_client_hdr_v1)], and the size of the
    static [sample_packet]. *)
Definition sizeof_client_hdr_v1 : nat := 24.
Definition sizeof_sample_packet : nat :=
  sizeof_udp_datagram + sizeof_client_hdr_v1 + Z.to_nat PACKET_SIZE_MAX.
Definition sizeof_stats : nat := sizeof_udp_datagram + sizeof_server_hdr.

(** The fields of the [zperf_udp_datagram] and the [zperf_client_hdr_v1] at the
    head of a packet, stored one by one. *)
Fixpoint store_fields (off : nat) (vs : list Z) (buf : bytes) : outcome bytes :=
  match vs with
  | [] => mret buf
  | v :: vs' => buf ← store_at off 4 v buf; store_fields (off + 4) vs' buf
  end.

Definition fill_packet (id secs usecs port bandwidth packet_size : Z) (buf : bytes)
    : outcome bytes :=
  store_fields 0
    [htonl id; htonl secs; htonl usecs;
     0; htonl 1; port;
     Z.of_nat sizeof_sample_packet - Z.of_nat sizeof_udp_datagram
       - Z.of_nat sizeof_client_hdr_v1;
     bandwidth; htonl packet_size] buf.

(** ** Pacing: [adjust] and the new [delay] of a turn *)
Definition pace_adjust (packet_duration last_loop_time loop_time : Z) : Z :=
  if negb (last_loop_time =? loop_time)
  then s32 (s32 packet_duration - s32 (loop_time - last_loop_time))
  else 0.

Definition pace_delay (adjust delay : Z) : Z :=
  if (0 <=? adjust) || (u32 (- adjust) <? delay) then u32 (delay + u32 adjust) else 0.

(** The statistics in the server's reply. *)
Definition get_be32 (off : nat) (data : bytes) : outcome Z :=
  v ← load_at off 4 data; mret (ntohl v).

Definition zperf_upload_decode_stat (data : bytes) (r : zperf_results) : outcome zperf_results :=
  let stat := sizeof_udp_datagram in
  total ← get_be32 (stat + 8) data;
  sec ← get_be32 (stat + 12) data;
  usec ← get_be32 (stat + 16) data;
  lost ← get_be32 (stat + 20) data;
  ooo ← get_be32 (stat + 24) data;
  rcvd ← get_be32 (stat + 28) data;
  j1 ← get_be32 (stat + 32) data;
  j2 ← get_be32 (stat + 36) data;
  mret (Results (nb_packets_sent r) rcvd lost ooo total
          (u32 (usec + u32 (sec * USEC_PER_SEC))) (u32 (j2 + u32 (j1 * USEC_PER_SEC)))
          (client_time_in_us r) (packet_size r) (nb_packets_errors r)).

Section UdpUploader.
Context {L : Lwip} {R : Rtos} {E : Type} `{!Env E}.
Abbreviation W := (world E).

Definition store_packet (f : bytes -> outcome bytes) : M W unit :=
  buf ← get_glob udp_sample_packet;
  buf ← lift (f buf);
  upd_glob (set_udp_sample_packet buf).

Definition send_packet (sock packet_size : Z) : M W Z :=
  buf ← get_glob udp_sample_packet;
  data ← lift (read_at 0 (Z.to_nat packet_size) buf);
  trigger (LwipSend sock data 0).

(** One turn of the loop that ends an upload: [ret] and the reply buffer. *)
Definition upload_fin_turn (sock nb_packets secs usecs packet_size : Z) (stats : bytes)
    : M W (Z * bytes) :=
  store_packet (fill_packet (u32 (- nb_packets)) secs usecs 0 0 packet_size);;
  ret ← send_packet sock packet_size;
  if ret <? 0 then mret (ret, stats) else
  ret ← trigger (LwipSetsockopt sock SOL_SOCKET SO_RCVTIMEO [2; 0]);
  if ret <? 0 then mret (ret, stats) else
  '(ret, data) ← trigger (LwipRecv sock (Z.of_nat sizeof_stats) 0);
  stats ← lift (write_at 0 (take sizeof_stats data) stats);
  mret (ret, stats).

(** [while (ret <= 0 && loop-- > 0)] *)
Fixpoint upload_fin_loop (loop : nat) (sock nb_packets secs usecs packet_size ret : Z)
    (stats : bytes) : M W (Z * bytes) :=
  if ret <=? 0 then
    match loop with
    | O => mret (ret, stats)
    | S loop' =>
        '(ret, stats) ← upload_fin_turn sock nb_packets secs usecs packet_size stats;
        upload_fin_loop loop' sock nb_packets secs usecs packet_size ret stats
    end
  else mret (ret, stats).

(** One turn of the loop that drains the socket. *)
Definition drain_turn (sock : Z) (_ : unit) : M W (unit + unit) :=
  '(ret, _) ← trigger (LwipRecv sock (Z.of_nat sizeof_stats) MSG_DONTWAIT);
  mret (if ret <? 0 then inr tt else inl tt).

Definition zperf_upload_fin (fuel : nat) (sock nb_packets end_time packet_size : Z)
    (results : zperf_results) : M W (Z * zperf_results) :=
  let secs := k_ticks_to_ms_ceil32 end_time / 1000 in
  let usecs := u32 (k_ticks_to_us_ceil32 end_time - u32 (secs * USEC_PER_SEC)) in
  '(ret, stats) ← upload_fin_loop 2 sock nb_packets secs usecs packet_size 0
                    (memset 0 sizeof_stats);
  if ret >? 0 then
    results ← lift (zperf_upload_decode_stat stats results);
    loop fuel (drain_turn sock) tt;;
    mret (0, results)
  else mret (ret, results).

(** The variables of the upload loop. *)
Record upload_vars : Set := UploadVars {
  uv_delay : Z;
  uv_nb_packets : Z;
  uv_last_loop_time : Z;
}.

(** One turn of [do ... while (last_loop_time < end_time)]: [inr (inr e)] is
    [return e], [inr (inl v)] leaves the loop. *)
Definition udp_upload_turn (sock port packet_size rate_in_kbps packet_duration end_time : Z)
    (v : upload_vars) : M W (upload_vars + (upload_vars + Z)) :=
  loop_time ← k_uptime_ticks;
  let adjust := pace_adjust packet_duration (uv_last_loop_time v) loop_time in
  let delay := pace_delay adjust (uv_delay v) in
  let usecs64 := k_ticks_to_us_floor64 loop_time in
  let secs := u32 (usecs64 / USEC_PER_SEC) in
  let usecs := u32 (u64 (usecs64 - secs * USEC_PER_SEC)) in
  store_packet (fill_packet (uv_nb_packets v) secs usecs (htonl port) (htonl rate_in_kbps)
                  packet_size);;
  ret ← send_packet sock packet_size;
  if ret <? 0 then e ← get_errno; mret (inr (inr (- e))) else
  let nb_packets := u32 (uv_nb_packets v + 1) in
  when (negb (delay =? 0)) (trigger (TaskDelay (K_TICKS delay)));;
  let v := UploadVars delay nb_packets loop_time in
  mret (if loop_time <? end_time then inl v else inr (inl v)).

Definition clamp_udp_size (packet_size : Z) : Z :=
  if packet_size >? PACKET_SIZE_MAX then PACKET_SIZE_MAX
  else if packet_size <? Z.of_nat sizeof_udp_datagram then Z.of_nat sizeof_udp_datagram
  else packet_size.

Definition udp_upload (fuel : nat) (sock port duration_in_ms packet_size rate_in_kbps : Z)
    (results : zperf_results) : M W (Z * zperf_results) :=
  packet_duration_us ← lift (zperf_packet_duration packet_size rate_in_kbps);
  let packet_duration := k_us_to_ticks_ceil32 packet_duration_us in
  let packet_size := clamp_udp_size packet_size in
  start_time ← k_uptime_ticks;
  let end_time := s64 (start_time + k_ms_to_ticks_ceil64 duration_in_ms) in
  upd_glob (set_udp_sample_packet (memset 122 sizeof_sample_packet));;
  r ← loop fuel (udp_upload_turn sock port packet_size rate_in_kbps packet_duration end_time)
        (UploadVars packet_duration 0 start_time);
  match r with
  | inr e => mret (e, results)
  | inl v =>
      end_time ← k_uptime_ticks;
      '(ret, results) ← zperf_upload_fin fuel sock (uv_nb_packets v) end_time packet_size
                          results;
      if ret <? 0 then mret (ret, results) else
      mret (0, Results (uv_nb_packets v) (nb_packets_rcvd results) (nb_packets_lost results)
                 (nb_packets_outorder results) (total_len results) (time_in_us results)
                 (jitter_in_us results)
                 (k_ticks_to_us_ceil32 (s64 (end_time - start_time)))
                 packet_size (nb_packets_errors results))
  end.

(** [result] holds what the caller's structure contains at the call. *)
Definition zperf_udp_upload (fuel : nat) (param : option zperf_upload_params)
    (result : option zperf_results) : M W (Z * option zperf_results) :=
  match param, result with
  | Some param, Some results =>
      family ← lift (sa_family (peer_addr param));
      port ← (if family =? AF_INET then
                p ← lift (sin_port (peer_addr param)); mret (Some (ntohs p))
              else if family =? AF_INET6 then
                p ← lift (sin6_port (peer_addr param)); mret (Some (ntohs p))
              else mret None);
      match port with
      | None => mret (- EINVAL, result)
      | Some port =>
          sock ← zperf_prepare_upload_sock (peer_addr param) (tos param) (priority param)
                   IPPROTO_UDP;
          if sock <? 0 then mret (sock, result) else
          '(ret, results) ← udp_upload fuel sock port (duration_ms param)
                              (up_packet_size param) (rate_kbps param) results;
          trigger (LwipClose sock);;
          mret (ret, Some results)
      end
  | _, _ => mret (- EINVAL, result)
  end.

(** [result] is not initialised: [garbage] is what it holds. *)
Definition udp_upload_async_work (fuel : nat) (garbage : zperf_results) : M W unit :=
  ctx ← get_glob udp_async_upload_ctx;
  call_ctx ctx ZPERF_SESSION_STARTED None;;
  ctx ← get_glob udp_async_upload_ctx;
  '(ret, result) ← zperf_udp_upload fuel (Some (ctx_param ctx)) (Some garbage);
  ctx ← get_glob udp_async_upload_ctx;
  if ret <? 0 then call_ctx ctx ZPERF_SESSION_ERROR None
  else call_ctx ctx ZPERF_SESSION_FINISHED result.

Definition zperf_udp_upload_async (param : option zperf_upload_params)
    (cb : option callback) (ud : Z) : M W Z :=
  match param, cb with
  | Some param, Some cb =>
      ctx ← get_glob udp_async_upload_ctx;
      if k_work_is_pending (work ctx) then mret (- EBUSY) else
      upd_glob (set_udp_ctx (AsyncCtx (work ctx) param (Some cb) ud));;
      zperf_async_work_submit UDP_WORK;;
      mret 0
  | _, _ => mret (- EINVAL)
  end.

Definition zperf_udp_uploader_init : M W unit :=
  upd_glob (upd_work UDP_WORK (k_work_init UdpUploadAsyncWork)).
End UdpUploader.

(** ** Packets *)
Section Packets.

(** Storing fields one after the other replaces the bytes they take. *)
Lemma store_fields_ok vs : forall off buf,
  (off + 4 * length vs <= length buf)%nat ->
  store_fields off vs buf =
    Done (take off buf ++ mjoin (store_le 4 <$> vs) ++ drop (off + 4 * length vs) buf).
Proof.
  induction vs as [|v vs IH]; intros off buf Hl; cbn [length] in Hl.
  - cbn. by rewrite Nat.add_0_r, take_drop.
  - cbn [store_fields]. unfold store_at.
    rewrite write_at_ok by (rewrite length_store_le; lia). cbn [mbind outcome_bind].
    rewrite IH by (rewrite !length_app, length_take, length_drop, length_store_le; lia).
    f_equal. rewrite length_store_le. set (A := take off buf). set (B := store_le 4 v).
    assert (HA : length A = off) by (unfold A; rewrite length_take; lia).
    assert (HB : length B = 4%nat) by apply length_store_le.
    rewrite (app_assoc A B), take_app_length', drop_app_ge, drop_drop
      by (rewrite length_app; lia).
    cbn [fmap list_fmap length mjoin list_join]. rewrite <- !app_assoc. do 4 f_equal.
    rewrite length_app. lia.
Qed.

Lemma ntohl_load_store v : ntohl (load_le (store_le 4 (htonl v))) = u32 v.
Proof.
  rewrite load_store_le, Z.mod_small, ntohl_htonl; [done|].
  change (256 ^ Z.of_nat 4) with 4294967296. apply htonl_range.
Qed.

(** A packet as the receiver reads it. *)
Lemma packet_fields a b c vs rest n :
  (sizeof_udp_datagram <= n)%nat ->
  let data := take n (mjoin (store_le 4 <$> htonl a :: htonl b :: htonl c :: vs) ++ rest) in
  dgram_id data = s32 a /\ dgram_sent_us data = u32 (u32 (u32 b * USEC_PER_SEC) + u32 c).
Proof.
  unfold sizeof_udp_datagram. intros Hn. cbv zeta. cbn [fmap list_fmap mjoin list_join].
  rewrite <- !app_assoc. set (r := mjoin _ ++ rest).
  set (A := store_le 4 (htonl a)). set (B := store_le 4 (htonl b)). set (C := store_le 4 (htonl c)).
  assert (HA : length A = 4%nat) by apply length_store_le.
  assert (HB : length B = 4%nat) by apply length_store_le.
  assert (HC : length C = 4%nat) by apply length_store_le.
  assert (HD : drop 4 (A ++ B ++ C ++ r) = B ++ C ++ r) by by apply drop_app_length'.
  assert (HE : drop 8 (A ++ B ++ C ++ r) = C ++ r).
  { rewrite app_assoc. apply drop_app_length'. rewrite length_app. lia. }
  unfold dgram_id, dgram_sent_us. rewrite !skipn_firstn_comm, HD, HE, !take_take.
  rewrite !Nat.min_l by lia. rewrite !take_app_length' by done.
  unfold A, B, C. rewrite !ntohl_load_store, s32_u32. done.
Qed.
End Packets.

(** ** What an upload sends *)
Section Upload.
Context {L : Lwip} {LOk : LwipOk L} {R : Rtos} {ROk : RtosOk R} {E : Type} `{!Env E, !ErrnoOk E}.
Implicit Types w : world E.

Definition packet_buffer (w : world E) : Prop :=
  length (udp_sample_packet (glob w)) = sizeof_sample_packet.
Definition packet_size_ok (size : Z) : Prop :=
  Z.of_nat sizeof_udp_datagram <= size <= PACKET_SIZE_MAX.

Lemma sample_size : sizeof_sample_packet = 1060%nat.
Proof. reflexivity. Qed.

Lemma clamp_udp_size_ok size : packet_size_ok (clamp_udp_size size).
Proof.
  unfold packet_size_ok, clamp_udp_size, PACKET_SIZE_MAX, sizeof_udp_datagram.
  rewrite Z.gtb_ltb. bool_cases; lia.
Qed.

(** A datagram of the upload: identifier, timestamp and size. *)
Definition is_packet (size id sent_us : Z) (data : bytes) : Prop :=
  length data = Z.to_nat size /\ dgram_id data = s32 id /\ dgram_sent_us data = u32 sent_us.

(** Filling the sample packet and sending it. *)
Lemma wp_packet md sock size id secs usecs port bandwidth (Q : Z -> world E -> Prop) w :
  packet_size_ok size -> packet_buffer w -> 0 <= secs < 4294967296 -> 0 <= usecs < 4294967296 ->
  (forall data ret w', is_packet size id (secs * USEC_PER_SEC + usecs) data ->
     answer (LwipSend sock data 0) (env w) = (ret, env w') ->
     trace w' = trace w ++ [Event (LwipSend sock data 0) ret] -> packet_buffer w' -> Q ret w') ->
  wp md (store_packet (fill_packet id secs usecs port bandwidth size))
    (fun _ w1 => wp md (send_packet sock size) Q w1) w.
Proof.
  intros Hsize Hbuf Hs Hu HQ. pose proof sample_size. unfold packet_buffer in Hbuf.
  unfold store_packet. apply wp_bind, wp_gets, wp_bind. unfold fill_packet.
  eapply wp_lift; [apply store_fields_ok; rewrite Hbuf; cbn; lia|].
  apply wp_modify. unfold send_packet. apply wp_bind, wp_gets, wp_bind. cbn [glob with_glob udp_sample_packet set_udp_sample_packet].
  rewrite take_0, app_nil_l. set (vs := [_; _; _; _; _; _; _; _; _]). set (buf := mjoin _ ++ _).
  assert (Hlen : length buf = sizeof_sample_packet).
  { unfold buf. rewrite length_app, length_drop, Hbuf. unfold vs. cbn [fmap list_fmap mjoin list_join].
    rewrite !length_app, !length_store_le. reflexivity. }
  unfold packet_size_ok, PACKET_SIZE_MAX, sizeof_udp_datagram in Hsize.
  eapply wp_lift; [apply read_at_ok; rewrite Hlen; lia|].
  rewrite drop_0. apply (wp_trigger _ (LwipSend sock _ 0)). intros ret e Ha.
  apply (HQ (take (Z.to_nat size) buf)); [|exact Ha|done|exact Hlen].
  pose proof (packet_fields id secs usecs
    [0; htonl 1; port; Z.of_nat sizeof_sample_packet - Z.of_nat sizeof_udp_datagram
       - Z.of_nat sizeof_client_hdr_v1; bandwidth; htonl size]
    (drop (0 + 4 * length vs) (udp_sample_packet (glob w))) (Z.to_nat size)) as [Hid Hus];
    [unfold sizeof_udp_datagram; lia|].
  split; [rewrite length_take, Hlen; lia|].
  split; [exact Hid|]. etransitivity; [exact Hus|]. clear. cint.
Qed.

(** One turn. *)
Lemma wp_udp_turn md sock port size rate dur end_time v w :
  packet_size_ok size -> packet_buffer w ->
  wp md (udp_upload_turn sock port size rate dur end_time v) (fun r w' =>
    exists time ret data evs,
      trace w' = trace w ++ Event TaskGetTickCount time :: Event (LwipSend sock data 0) ret :: evs /\
      sent_on sock evs = [] /\ clock_readings evs = [] /\ packet_buffer w' /\
      is_packet size (uv_nb_packets v) (k_ticks_to_us_floor64 (u32 time)) data /\
      (exists e e', answer (LwipSend sock data 0) e = (ret, e')) /\
      match r with
      | inr (inr e) => ret < 0 /\ e < 0
      | inl v' | inr (inl v') =>
          0 <= ret /\
          v' = UploadVars (pace_delay (pace_adjust dur (uv_last_loop_time v) (u32 time)) (uv_delay v))
                 (u32 (uv_nb_packets v + 1)) (u32 time) /\
          (u32 time <? end_time) = (if r is inl _ then true else false)
      end) w.
Proof.
  intros Hsize Hbuf. unfold udp_upload_turn. apply wp_bind, wp_bind, (wp_trigger _ TaskGetTickCount).
  intros time e1 _. cbn in time. apply wp_ret. cbv zeta.
  set (t := u32 time). set (us := k_ticks_to_us_floor64 t).
  destruct (floor64_exact t (u32_range time)) as [_ Hus]. fold us in Hus.
  destruct (timestamp_parts us Hus) as [Hsum Husecs].
  set (secs := u32 (us / USEC_PER_SEC)) in *. set (usecs := u32 (u64 _)) in *.
  change USEC_PER_SEC with 1000000 in Husecs.
  apply wp_bind. eapply wp_mono.
  { eapply (wp_packet md sock size (uv_nb_packets v) secs usecs _ _ (fun ret w' => exists data,
      is_packet size (uv_nb_packets v) us data /\ packet_buffer w' /\
      (exists e e', answer (LwipSend sock data 0) e = (ret, e')) /\
      trace w' = trace w ++ [Event TaskGetTickCount time; Event (LwipSend sock data 0) ret]));
      [done|exact Hbuf|apply u32_range|lia|].
    intros data ret w' Hp Ha Htr Hb. exists data. rewrite Hsum in Hp. split; [done|]. split; [done|].
    split; [by eexists _, _|].
    rewrite Htr. cbn. by rewrite <- app_assoc. }
  intros ? w1 Hsend. apply wp_bind. eapply wp_mono; [exact Hsend|]. clear Hsend w1.
  intros ret w1 (data & Hp & Hb & Ha & Htr). destruct (Z.ltb_spec ret 0) as [Hr|Hr].
  - apply wp_bind. apply (wp_trigger _ Errno). intros e e2 He.
    pose proof (errno_ok (env w1)) as Hpos. rewrite He in Hpos. cbn in Hpos. apply wp_ret.
    exists time, ret, data, [Event Errno e]. cbn. rewrite Htr, <- app_assoc.
    repeat (split; [done|]). lia.
  - apply wp_bind. set (delay := pace_delay _ _).
    assert (Hend : forall w' evs, trace w' = trace w1 ++ evs -> sent_on sock evs = [] ->
      clock_readings evs = [] -> packet_buffer w' ->
      exists evs', trace w' = trace w ++ Event TaskGetTickCount time
                     :: Event (LwipSend sock data 0) ret :: evs' /\
        sent_on sock evs' = [] /\ clock_readings evs' = [] /\ packet_buffer w').
    { intros w' evs Htr' H1 H2 H3. exists evs. rewrite Htr', Htr, <- app_assoc. auto. }
    apply wp_when; [intros _; apply (wp_trigger _ (TaskDelay _)); intros [] e2 _|intros _].
    + destruct (Hend (emit (TaskDelay (K_TICKS delay)) tt e2 w1)
                  [Event (TaskDelay (K_TICKS delay)) tt])
        as (evs & H1 & H2 & H3 & H4); [done..|].
      destruct (t <? end_time) eqn:Hlt; apply wp_ret; exists time, ret, data, evs; auto 10.
    + destruct (Hend w1 []) as (evs & H1 & H2 & H3 & H4); [by rewrite app_nil_r|done..|].
      destruct (t <? end_time) eqn:Hlt; apply wp_ret; exists time, ret, data, evs; auto 10.
Qed.

(** The delay and the time of the last turn, after turns at [times]. *)
Definition pace_step (dur : Z) (p : Z * Z) (t : Z) : Z * Z :=
  (pace_delay (pace_adjust dur (snd p) t) (fst p), t).
Definition pace (dur start : Z) (times : list Z) : Z * Z := foldl (pace_step dur) (dur, start) times.

(** Packets 0, 1, 2... with the timestamps of the given clock readings. *)
Definition numbered (size : Z) (datas : list bytes) (times : list Z) : Prop :=
  length datas = length times /\
  forall i data t, datas !! i = Some data -> times !! i = Some t ->
    is_packet size (Z.of_nat i) (k_ticks_to_us_floor64 t) data.

Lemma numbered_snoc size datas times data t :
  numbered size datas times ->
  is_packet size (u32 (Z.of_nat (length datas))) (k_ticks_to_us_floor64 t) data ->
  numbered size (datas ++ [data]) (times ++ [t]).
Proof.
  intros [Hl Hn] Hp. split; [rewrite !length_app; cbn; lia|]. intros i d t' Hd Ht.
  apply lookup_app_cases in Hd as [Hd|[Hi Hd]], Ht as [Ht|[Hi' Ht]].
  - by eapply Hn.
  - apply lookup_lt_Some in Hd. lia.
  - apply lookup_lt_Some in Ht. lia.
  - assert (i = length datas) as -> by (apply lookup_lt_Some in Hd; cbn in Hd; lia).
    rewrite Hl in Ht. rewrite Nat.sub_diag in Hd, Ht. injection Hd as <-. injection Ht as <-.
    destruct Hp as (H1 & H2 & H3). split; [done|]. split; [by rewrite H2, s32_u32|done].
Qed.

(** The state of the upload loop. *)
Definition sending (sock size dur start : Z) (w0 : world E) (v : upload_vars) (w : world E) : Prop :=
  exists evs times,
    trace w = trace w0 ++ evs /\ packet_buffer w /\ clock_readings evs = times /\
    numbered size (sent_on sock evs) times /\
    v = UploadVars (fst (pace dur start times)) (u32 (Z.of_nat (length times)))
          (snd (pace dur start times)).

Definition upload_sent (sock size dur start : Z) (w0 : world E) (r : upload_vars + Z)
    (w : world E) : Prop :=
  match r with
  | inl v => sending sock size dur start w0 v w
  | inr e => e < 0 /\ exists evs,
      trace w = trace w0 ++ evs /\ packet_buffer w /\
      numbered size (sent_on sock evs) (clock_readings evs)
  end.

Lemma wp_upload_turn md sock port size rate dur end_time start w0 v w :
  packet_size_ok size -> sending sock size dur start w0 v w ->
  wp md (udp_upload_turn sock port size rate dur end_time v) (fun r w' =>
    match r with
    | inl v' => sending sock size dur start w0 v' w'
    | inr r => upload_sent sock size dur start w0 r w'
    end) w.
Proof.
  intros Hsize (evs & times & Htr & Hb & Htimes & Hnum & ->).
  eapply wp_mono; [by apply wp_udp_turn|].
  intros r w' (time & ret & data & evs' & Htr' & Hs & Hc & Hb' & Hp & _ & Hr). cbn [uv_nb_packets] in Hp.
  set (evs2 := evs ++ Event TaskGetTickCount time :: Event (LwipSend sock data 0) ret :: evs').
  assert (Htr2 : trace w' = trace w0 ++ evs2) by (unfold evs2; by rewrite Htr', Htr, app_assoc).
  assert (Hs2 : sent_on sock evs2 = sent_on sock evs ++ [data]).
  { unfold evs2. rewrite sent_on_app. cbn [sent_on]. by rewrite Z.eqb_refl, Hs. }
  assert (Hc2 : clock_readings evs2 = times ++ [u32 time]).
  { unfold evs2. rewrite clock_readings_app. cbn [clock_readings]. by rewrite Hc, Htimes. }
  assert (Hn2 : numbered size (sent_on sock evs2) (clock_readings evs2)).
  { rewrite Hs2, Hc2. apply numbered_snoc; [done|]. by rewrite (proj1 Hnum). }
  assert (Hnext : forall v', v' = UploadVars (pace_delay (pace_adjust dur (snd (pace dur start times))
              (u32 time)) (fst (pace dur start times))) (u32 (u32 (Z.of_nat (length times)) + 1))
              (u32 time) -> sending sock size dur start w0 v' w').
  { intros v' ->. exists evs2, (times ++ [u32 time]). rewrite Hc2 in Hn2.
    split; [done|]. split; [done|]. split; [done|]. split; [done|].
    unfold pace. rewrite foldl_snoc, length_app. cbn. f_equal. cint. }
  destruct r as [v'|[v'|e]].
  - apply Hnext, Hr.
  - apply Hnext, Hr.
  - split; [apply Hr|]. by exists evs2.
Qed.

(** ** The end of an upload *)
Definition is_fin (size n : Z) (data : bytes) : Prop :=
  length data = Z.to_nat size /\ dgram_id data = s32 (- n).

Lemma wp_fin_turn md sock n secs usecs size stats (Q : Z * bytes -> world E -> Prop) w :
  packet_size_ok size -> packet_buffer w -> 0 <= secs < 4294967296 -> 0 <= usecs < 4294967296 ->
  length stats = sizeof_stats ->
  (forall ret stats' data w' evs, length stats' = sizeof_stats -> is_fin size n data ->
     trace w' = trace w ++ evs -> sent_on sock evs = [data] -> packet_buffer w' -> Q (ret, stats') w') ->
  wp md (upload_fin_turn sock n secs usecs size stats) Q w.
Proof.
  intros Hsize Hb Hs Hu Hstats HQ. unfold upload_fin_turn. apply wp_bind. eapply wp_mono.
  { eapply (wp_packet md sock size _ secs usecs _ _ (fun ret w' => exists data,
      is_fin size n data /\ packet_buffer w' /\
      trace w' = trace w ++ [Event (LwipSend sock data 0) ret])); [done..|].
    intros data ret w' (H1 & H2 & _) _ Htr Hb'. exists data. split; [|done].
    split; [done|]. by rewrite H2, s32_u32. }
  intros ? w1 H1. apply wp_bind. eapply wp_mono; [exact H1|]. clear H1 w1.
  intros ret w1 (data & Hd & Hb1 & Htr1).
  assert (HQ' : forall ret stats' w' evs, length stats' = sizeof_stats ->
            trace w' = trace w1 ++ evs -> sent_on sock evs = [] -> packet_buffer w' -> Q (ret, stats') w').
  { intros ret' stats' w' evs Hl Htr Hs' Hb'.
    apply (HQ ret' stats' data w' (Event (LwipSend sock data 0) ret :: evs)); [done..| | |done].
    - by rewrite Htr, Htr1, <- app_assoc.
    - cbn. by rewrite Z.eqb_refl, Hs'. }
  destruct (ret <? 0); [apply wp_ret; by eapply (HQ' _ _ _ []); rewrite ?app_nil_r|].
  apply wp_bind, (wp_trigger _ (LwipSetsockopt _ _ _ _)). intros ret1 e1 _. cbn in ret1.
  destruct (ret1 <? 0); [apply wp_ret; by eapply HQ'|].
  apply wp_bind, (wp_trigger _ (LwipRecv _ _ _)). intros [ret2 reply] e2 _. cbn beta iota.
  assert (Hw : (0 + length (take sizeof_stats reply) <= length stats)%nat)
    by (rewrite length_take, Hstats; lia).
  apply wp_bind. pose proof (write_at_ok _ _ _ Hw) as Hwr. eapply wp_lift; [exact Hwr|].
  apply wp_ret. eapply HQ'.
  - by rewrite (write_at_length _ _ _ _ Hwr).
  - cbn [trace emit]. rewrite <- app_assoc. reflexivity.
  - done.
  - exact Hb1.
Qed.

Lemma wp_fin_loop md sock n secs usecs size k : forall ret stats w,
  packet_size_ok size -> packet_buffer w -> 0 <= secs < 4294967296 -> 0 <= usecs < 4294967296 ->
  length stats = sizeof_stats -> ret <= 0 ->
  wp md (upload_fin_loop k sock n secs usecs size ret stats) (fun '(ret', stats') w' =>
    exists evs, trace w' = trace w ++ evs /\ length stats' = sizeof_stats /\
      Forall (is_fin size n) (sent_on sock evs) /\ (length (sent_on sock evs) <= k)%nat /\
      (Nat.min 1 k <= length (sent_on sock evs))%nat) w.
Proof.
  induction k as [|k IH]; intros ret stats w Hsize Hb Hs Hu Hl Hret; cbn [upload_fin_loop];
    (destruct (Z.leb_spec ret 0); [|lia]).
  - apply wp_ret. exists []. rewrite app_nil_r. cbn. auto.
  - apply wp_bind. eapply wp_fin_turn; [done..|].
    intros ret1 stats1 data w1 evs1 Hl1 Hd Htr1 Hs1 Hb1. cbn beta iota.
    destruct (Z.leb_spec ret1 0) as [Hr|Hr].
    + eapply wp_mono; [by apply IH|]. intros [ret2 stats2] w2 (evs2 & Htr2 & Hl2 & Hf & Hk & _).
      exists (evs1 ++ evs2). rewrite sent_on_app, Hs1, Htr2, Htr1, <- app_assoc.
      split; [done|]. split; [done|]. split; [by constructor|]. cbn. lia.
    + assert (Hloop : upload_fin_loop k sock n secs usecs size ret1 stats1 = mret (ret1, stats1)).
      { destruct k; cbn [upload_fin_loop]; by destruct (Z.leb_spec ret1 0); [lia|]. }
      rewrite Hloop. apply wp_ret. exists evs1. rewrite Hs1. split; [done|]. split; [done|].
      split; [by apply Forall_singleton|]. cbn. lia.
Qed.

(** The reply has all the statistics. *)
Lemma decode_stat_ok stats r :
  length stats = sizeof_stats -> exists r', zperf_upload_decode_stat stats r = Done r'.
Proof.
  intros Hl. assert (Hb : forall off, (off + 4 <= sizeof_stats)%nat ->
            exists v, get_be32 off stats = Done v).
  { intros off Ho. unfold get_be32, load_at. rewrite read_at_ok by lia. by eexists. }
  unfold zperf_upload_decode_stat.
  repeat match goal with
  | |- context [get_be32 ?off stats] =>
      destruct (Hb off) as [? ->]; [vm_compute; lia|]; cbn [mbind outcome_bind]
  end.
  by eexists.
Qed.

Lemma drain_quiet fuel sock :
  only (fun ev => match ev with Event (LwipRecv _ _ _) _ => True | _ => False end)
    (loop (S := world E) fuel (drain_turn sock) tt).
Proof. unfold drain_turn. by only_steps. Qed.

Lemma quiet_events sock evs :
  Forall (fun ev => match ev with Event (LwipRecv _ _ _) _ => True | _ => False end) evs ->
  sent_on sock evs = [] /\ clock_readings evs = [].
Proof. induction 1 as [|[[] r] evs H _ [IH1 IH2]]; done. Qed.

Lemma fin_loop_no_clock fuel sock n secs usecs size ret stats :
  only (fun ev => match ev with Event TaskGetTickCount _ => False | _ => True end)
    (upload_fin_loop (E := E) fuel sock n secs usecs size ret stats).
Proof.
  revert ret stats. induction fuel as [|fuel IH]; intros ret stats; cbn [upload_fin_loop];
    unfold upload_fin_turn, store_packet, send_packet; by only_steps.
Qed.

Lemma no_clock_events evs :
  Forall (fun ev => match ev with Event TaskGetTickCount _ => False | _ => True end) evs ->
  clock_readings evs = [].
Proof. induction 1 as [|[[] r] evs H _ IH]; done. Qed.

Lemma fin_time_ok t :
  let secs := k_ticks_to_ms_ceil32 t / 1000 in
  0 <= secs < 4294967296 /\ 0 <= u32 (k_ticks_to_us_ceil32 t - u32 (secs * USEC_PER_SEC)) < 4294967296.
Proof. cbv zeta. split; [unfold k_ticks_to_ms_ceil32; pose proof u32_range; cint|apply u32_range]. Qed.

Lemma upload_fin_sends fuel sock n end_time size results w :
  packet_size_ok size -> packet_buffer w ->
  wp Partial (zperf_upload_fin fuel sock n end_time size results) (fun _ w' =>
    exists evs, trace w' = trace w ++ evs /\ clock_readings evs = [] /\
      Forall (is_fin size n) (sent_on sock evs) /\ (1 <= length (sent_on sock evs) <= 2)%nat) w.
Proof.
  intros Hsize Hb. unfold zperf_upload_fin. cbv zeta. destruct (fin_time_ok end_time) as [Hs Hu].
  apply wp_bind. eapply wp_mono.
  { apply wp_conj; [|apply fin_loop_no_clock]. by apply wp_fin_loop. }
  intros [ret stats] w1 [(evs & Htr & Hl & Hf & H2 & H1) (evs' & Htr' & Hc)].
  rewrite Htr in Htr'. apply app_inv_head in Htr' as <-. apply no_clock_events in Hc.
  rewrite Z.gtb_ltb. destruct (Z.ltb_spec 0 ret) as [Hr|Hr].
  - apply wp_bind, wp_lift_partial. intros results' _. apply wp_bind.
    eapply wp_only; [apply drain_quiet|]. intros ? w2 evs2 Htr2 He2.
    destruct (quiet_events sock evs2 He2) as [Hs2 Hc2]. apply wp_ret. exists (evs ++ evs2).
    rewrite Htr2, Htr, sent_on_app, clock_readings_app, Hs2, Hc2, Hc, !app_nil_r, <- app_assoc.
    split; [done|]. split; [done|]. split; [done|]. cbn in H1. lia.
  - apply wp_ret. exists evs. cbn in H1. repeat (split; [done|]). lia.
Qed.

(** C21: what a UDP upload puts on the network. Whatever the stack and the clock
    do, the socket carries datagrams of the size asked (brought between the
    smallest and the largest allowed), numbered 0, 1, 2..., each with the time
    at which its turn began; then one or two final datagrams numbered minus the
    count of the others, or none, and the result is then negative. A result that is not
    negative reports that count, the size, and the time between the readings of
    the clock before the first turn and after the last. *)
Theorem udp_upload_stream fuel sock port duration_in_ms asked rate results w :
  wp Partial (udp_upload fuel sock port duration_in_ms asked rate results) (fun '(ret, r) w' =>
    let size := clamp_udp_size asked in
    exists evs datas fins start times fin,
      trace w' = trace w ++ evs /\ sent_on sock evs = datas ++ fins /\
      clock_readings evs = start :: times ++ fin /\ numbered size datas times /\
      Forall (is_fin size (u32 (Z.of_nat (length datas)))) fins /\ (length fins <= 2)%nat /\
      (fins <> [] \/ ret < 0) /\
      (0 <= ret -> exists stop, fin = [stop] /\
         nb_packets_sent r = u32 (Z.of_nat (length datas)) /\ packet_size r = size /\
         client_time_in_us r = k_ticks_to_us_ceil32 (s64 (stop - start)))) w.
Proof.
  unfold udp_upload. apply wp_bind, wp_lift_partial. intros us _. cbv zeta.
  set (dur := k_us_to_ticks_ceil32 us). set (size := clamp_udp_size asked).
  pose proof (clamp_udp_size_ok asked) as Hsize. fold size in Hsize.
  apply wp_bind, wp_bind, (wp_trigger _ TaskGetTickCount). intros now e1 _. apply wp_ret.
  set (start := u32 now). apply wp_bind, wp_modify. set (w0 := with_glob _ _).
  assert (Htr0 : trace w0 = trace w ++ [Event TaskGetTickCount now]) by done.
  assert (Hb0 : packet_buffer w0) by apply length_replicate. clearbody w0.
  apply wp_bind. eapply wp_mono.
  { apply (wp_loop_inv _ (sending sock size dur start w0) _ (upload_sent sock size dur start w0));
      [done|intros v w1 Hv; by apply wp_upload_turn|].
    exists [], []. rewrite app_nil_r. done. }
  intros [v|e] w1.
  - intros (evs & times & Htr & Hb & Hc & Hnum & ->). cbn [uv_nb_packets].
    apply wp_bind, wp_bind, (wp_trigger _ TaskGetTickCount). intros stop e2 _. apply wp_ret, wp_bind.
    eapply wp_mono; [by apply upload_fin_sends|]. intros [ret r] w2 (evs2 & Htr2 & Hc2 & Hf & H2).
    set (evs' := Event TaskGetTickCount now :: evs ++ Event TaskGetTickCount stop :: evs2).
    assert (Htr' : trace w2 = trace w ++ evs').
    { unfold evs'. rewrite Htr2. cbn [trace emit]. rewrite Htr, Htr0, <- !app_assoc. done. }
    assert (Hs' : sent_on sock evs' = sent_on sock evs ++ sent_on sock evs2).
    { unfold evs'. cbn [sent_on]. rewrite sent_on_app. done. }
    assert (Hc' : clock_readings evs' = start :: times ++ [u32 stop]).
    { unfold evs'. cbn [clock_readings]. rewrite clock_readings_app. cbn [clock_readings].
      by rewrite Hc2, Hc. }
    rewrite <- (proj1 Hnum) in Hf |- *.
    assert (Hne : sent_on sock evs2 <> []) by (intros H; rewrite H in H2; cbn in H2; lia).
    destruct (Z.ltb_spec ret 0) as [Hr|Hr]; apply wp_ret;
      exists evs', (sent_on sock evs), (sent_on sock evs2), start, times, [u32 stop];
      (do 5 (split; [done|])); (split; [lia|]); (split; [by left|]); [lia|].
    intros _. by exists (u32 stop).
  - intros (He & evs & Htr & Hb & Hnum). apply wp_ret.
    exists (Event TaskGetTickCount now :: evs), (sent_on sock evs), [], start, (clock_readings evs), [].
    split; [rewrite Htr, Htr0, <- app_assoc; done|]. rewrite !app_nil_r.
    do 3 (split; [done|]). split; [done|]. split; [cbn; lia|]. split; [by right|lia].
Qed.
End Upload.

(** ** How an upload ends *)
Section Ends.
Context {L : Lwip} {LOk : LwipOk L} {R : Rtos} {ROk : RtosOk R} {E : Type} `{!Env E, !ErrnoOk E}.
Implicit Types w : world E.

(** The end computed from the first reading of the clock. *)
Definition upload_end (w : world E) (duration_in_ms : Z) : Z :=
  u32 (fst (answer TaskGetTickCount (env w))) + k_ms_to_ticks_ceil64 duration_in_ms.

Lemma ms_to_ticks_range ms :
  0 <= ms < 4294967296 -> 0 <= k_ms_to_ticks_ceil64 ms < 4294967296 * 1000000.
Proof.
  intros Hms. unfold k_ms_to_ticks_ceil64. rewrite _tick_rate_hz_value.
  change (u64 USEC_PER_MSEC) with 1000. pose proof tick_rate_range.
  rewrite (u64_small ms), u64_small by nia.
  split; [apply Z.div_pos; nia|apply Z.div_lt_upper_bound; nia].
Qed.

Lemma store_advances stop `{!ClockReaches E stop} f : advances stop (store_packet (E := E) f).
Proof. unfold store_packet. advances_steps. Qed.
Lemma send_advances stop `{!ClockReaches E stop} sock size :
  advances stop (send_packet (E := E) sock size).
Proof. unfold send_packet. advances_steps. Qed.

(** A turn before the end brings the end closer. *)
Lemma udp_turn_advances stop `{!ClockReaches E stop} sock port size rate dur v w :
  wp Partial (udp_upload_turn sock port size rate dur stop v) (fun r w' =>
    (remaining stop (env w') <= remaining stop (env w))%nat /\
    if r is inl _ then (remaining stop (env w') < remaining stop (env w))%nat else True) w.
Proof.
  unfold udp_upload_turn. apply wp_bind, (wp_tick_before (stop := stop)). intros time w1 _ _ Hle Hlt. cbv zeta.
  set (delay := pace_delay _ _).
  apply wp_bind. eapply wp_mono; [by apply store_advances|]. intros ? w2 H2.
  apply wp_bind. eapply wp_mono; [by apply send_advances|]. intros ret w3 H3. cbn beta in *.
  destruct (ret <? 0).
  - apply wp_bind. eapply wp_mono; [apply (advances_trigger (stop := stop) Errno)|]. intros e w4 H4. apply wp_ret. cbn beta in *. split; [lia|done].
  - apply wp_bind. eapply wp_mono; [apply (advances_when (stop := stop) _ _ (advances_trigger (TaskDelay _)))|]. intros ? w4 H4. cbn beta in *.
    destruct (Z.ltb_spec (u32 time) stop) as [Ht|Ht]; apply wp_ret.
    + specialize (Hlt Ht). lia.
    + split; [lia|done].
Qed.

Lemma wp_drain k `{!DrainEnds E MSG_DONTWAIT k} fuel sock (Q : unit -> world E -> Prop) w :
  (k <= fuel)%nat -> (forall w', Q tt w') -> wp Total (loop fuel (drain_turn sock) tt) Q w.
Proof.
  intros Hfuel HQ. pose proof (waiting_bound MSG_DONTWAIT k (env w)).
  apply (wp_loop_variant _ (fun _ _ => True) (fun _ w' => waiting MSG_DONTWAIT k (env w'))); [|done|lia].
  intros [] w' _. unfold drain_turn. apply wp_bind.
  apply (wp_trigger _ (LwipRecv _ _ _)). intros [ret data] e He. apply wp_ret.
  destruct (Z.ltb_spec ret 0) as [Hr|Hr]; [apply HQ|]. split; [done|].
  pose proof (waiting_recv MSG_DONTWAIT k sock (Z.of_nat sizeof_stats) (env w')) as Hw.
  rewrite He in Hw. by apply Hw.
Qed.

Lemma upload_fin_ends k `{!DrainEnds E MSG_DONTWAIT k} fuel sock n end_time size results w :
  (k <= fuel)%nat -> packet_size_ok size -> packet_buffer w ->
  wp Total (zperf_upload_fin fuel sock n end_time size results) (fun _ _ => True) w.
Proof.
  intros Hfuel Hsize Hb. unfold zperf_upload_fin. cbv zeta. destruct (fin_time_ok end_time) as [Hs Hu].
  apply wp_bind. eapply wp_mono; [by apply wp_fin_loop|].
  intros [ret stats] w1 (evs & _ & Hl & _). rewrite Z.gtb_ltb.
  destruct (0 <? ret); [|by apply wp_ret].
  destruct (decode_stat_ok stats results Hl) as [r' Hr']. apply wp_bind.
  eapply wp_lift; [exact Hr'|]. apply wp_bind. apply (wp_drain k); [done|]. intros w'. by apply wp_ret.
Qed.

(** C24: a UDP upload ends, without a fault, whatever packets are lost and
    whatever the server replies: the size and the rate must give a packet
    duration, the clock must reach the end, and the replies that wait to be
    drained must be finitely many. *)
Theorem udp_upload_ends k `{!DrainEnds E MSG_DONTWAIT k} stop `{!ClockReaches E stop}
    fuel sock port duration_in_ms asked rate results w us :
  0 <= duration_in_ms < 4294967296 -> stop = upload_end w duration_in_ms ->
  zperf_packet_duration asked rate = Done us ->
  (k <= fuel)%nat -> (remaining stop (env w) < fuel)%nat ->
  wp Total (udp_upload fuel sock port duration_in_ms asked rate results) (fun _ _ => True) w.
Proof.
  intros Hms Hstop Hus Hk Hfuel. unfold udp_upload. apply wp_bind.
  eapply wp_lift; [exact Hus|]. cbv zeta. set (size := clamp_udp_size asked).
  pose proof (clamp_udp_size_ok asked) as Hsize. fold size in Hsize.
  apply wp_bind, wp_bind, (wp_trigger _ TaskGetTickCount). intros now e1 Ha. apply wp_ret.
  unfold upload_end in Hstop. pose proof (remaining_call stop TaskGetTickCount (env w)) as Hrem.
  rewrite Ha in Hstop, Hrem. cbn in Hstop, Hrem.
  assert (s64 (u32 now + k_ms_to_ticks_ceil64 duration_in_ms) = stop) as ->.
  { rewrite Hstop. apply s64_small. pose proof (u32_range now).
    pose proof (ms_to_ticks_range _ Hms). lia. }
  apply wp_bind, wp_modify, wp_bind. eapply wp_mono.
  { apply (wp_loop_variant _ (fun _ w' => packet_buffer w') (fun _ w' => remaining stop (env w'))
             _ (fun r w' => if r is inl _ then packet_buffer w' else True)).
    - intros v w1 Hb. eapply wp_mono.
      { apply wp_conj_partial; [by apply wp_udp_turn|by apply udp_turn_advances]. }
      intros r w2 [(time & ret & data & evs & _ & _ & _ & Hb2 & _) [_ Hlt]].
      by destruct r as [v'|[v'|e]].
    - apply length_replicate.
    - cbn. lia. }
  intros [v|e] w1; [|intros _; by apply wp_ret]. intros Hb.
  apply wp_bind, wp_bind, (wp_trigger _ TaskGetTickCount). intros fin e2 _. apply wp_ret, wp_bind.
  eapply wp_mono; [by apply (upload_fin_ends k)|]. intros [ret r] w2 _.
  destruct (ret <? 0); by apply wp_ret.
Qed.

(** With a stack that takes every packet, a turn leaves the loop only at the end. *)
Lemma wp_udp_turn_succeeds `{!SendSucceeds E} md sock port size rate dur stop v w :
  packet_size_ok size -> packet_buffer w ->
  wp md (udp_upload_turn sock port size rate dur stop v) (fun r w' =>
    exists time, packet_buffer w' /\
      match r with
      | inl _ => True
      | inr (inl _) => (u32 time <? stop) = false
      | inr (inr _) => False
      end) w.
Proof.
  intros Hsize Hb. eapply wp_mono; [by apply wp_udp_turn|].
  intros r w' (time & ret & data & evs & _ & _ & _ & Hb' & (Hl & _) & (e & e' & Ha) & Hr).
  exists time. split; [done|]. apply send_succeeds in Ha.
  - destruct r as [v'|[v'|err]]; [done| |lia]. apply Hr.
  - intros ->. unfold packet_size_ok, sizeof_udp_datagram in Hsize. cbn in Hl. lia.
Qed.

(** C38: a UDP upload that never ends: as for TCP, when the end is past the range
    of the 32-bit clock and every send succeeds, the loop goes on for ever. *)
Theorem udp_upload_never_ends `{!SendSucceeds E} fuel sock port duration_in_ms asked rate results w us :
  0 <= duration_in_ms < 4294967296 -> 4294967296 <= upload_end w duration_in_ms ->
  zperf_packet_duration asked rate = Done us ->
  udp_upload fuel sock port duration_in_ms asked rate results w = OutOfFuel.
Proof.
  intros Hms Hstop Hus.
  cut (wp Safe (udp_upload fuel sock port duration_in_ms asked rate results) (fun _ _ => False) w).
  { unfold wp. by destruct (udp_upload _ _ _ _ _ _ _ w) as [[]| |]. }
  unfold udp_upload. apply wp_bind. eapply wp_lift; [exact Hus|]. cbv zeta.
  pose proof (clamp_udp_size_ok asked) as Hsize. set (size := clamp_udp_size asked) in *.
  apply wp_bind, wp_bind, (wp_trigger _ TaskGetTickCount). intros now e1 Ha. apply wp_ret.
  unfold upload_end in Hstop. rewrite Ha in Hstop. cbn in Hstop.
  rewrite s64_small by (pose proof (u32_range now); pose proof (ms_to_ticks_range _ Hms); lia).
  apply wp_bind, wp_modify, wp_bind.
  apply (wp_loop_inv _ (fun _ w' => packet_buffer w')); [done| |apply length_replicate].
  intros v w1 Hb. eapply wp_mono; [by apply wp_udp_turn_succeeds|].
  intros r w2 (time & Hb2 & Hr). destruct r as [v'|[v'|e]]; [done| |done].
  pose proof (u32_range time). destruct (Z.ltb_spec (u32 time) (u32 now + k_ms_to_ticks_ceil64 duration_in_ms)); [done|lia].
Qed.
End Ends.

(** ** Pacing *)
Section Pacing.

(** One turn, later than the last. *)
Lemma pace_due dur last now delay :
  0 <= dur < 2147483648 -> 0 <= delay -> last < now < last + 2147483648 ->
  delay + dur < 4294967296 ->
  now + pace_delay (pace_adjust dur last now) delay = Z.max now (last + delay + dur).
Proof.
  intros Hd Hdelay Hnow Hsum. unfold pace_adjust.
  destruct (Z.eqb_spec last now); [lia|]. cbn [negb].
  rewrite (s32_small dur), (s32_small (now - last)), s32_small by lia.
  unfold pace_delay. destruct (Z.leb_spec 0 (dur - (now - last))) as [H|H]; cbn [orb].
  - rewrite (u32_small (dur - (now - last))), u32_small by lia. lia.
  - destruct (Z.ltb_spec (u32 (- (dur - (now - last)))) delay) as [H2|H2]; rewrite u32_small in H2 by lia; [|lia].
    replace (u32 (delay + u32 (dur - (now - last)))) with (delay + (dur - (now - last))) by cint. lia.
Qed.

(** Turns at different ticks, and no turn half the clock's range after another. *)
Fixpoint increasing (last : Z) (times : list Z) : Prop :=
  match times with
  | [] => True
  | t :: times' => last < t < last + 2147483648 /\ increasing t times'
  end.

(** No turn comes after the packet that follows is due. *)
Fixpoint on_time (dur due : Z) (times : list Z) : Prop :=
  match times with
  | [] => True
  | t :: times' => t <= due + dur /\ on_time dur (due + dur) times'
  end.

(** The reference: packets are due a duration apart, or at once when late. *)
Definition schedule (dur due : Z) (times : list Z) : Z :=
  foldl (fun due now => Z.max now (due + dur)) due times.

Lemma schedule_lower dur due times :
  due + Z.of_nat (length times) * dur <= schedule dur due times.
Proof.
  revert due. induction times as [|t times IH]; intros due; cbn; [lia|].
  specialize (IH (Z.max t (due + dur))). unfold schedule in IH. lia.
Qed.

Lemma schedule_on_time dur due times :
  on_time dur due times -> schedule dur due times = due + Z.of_nat (length times) * dur.
Proof.
  revert due. induction times as [|t times IH]; intros due; cbn; [lia|].
  intros [Ht H]. rewrite Z.max_r by lia. specialize (IH _ H). unfold schedule in IH. lia.
Qed.

Lemma pace_schedule dur times : forall delay last,
  0 <= dur < 2147483648 -> 0 <= delay -> increasing last times ->
  delay + Z.of_nat (length times) * dur < 4294967296 ->
  let p := foldl (pace_step dur) (delay, last) times in
  snd p + fst p = schedule dur (last + delay) times.
Proof.
  induction times as [|t times IH]; intros delay last Hd Hdelay Hinc Hsum; [done|].
  destruct Hinc as [Ht Hinc]. cbn [length] in Hsum. rewrite Nat2Z.inj_succ, Z.mul_succ_l in Hsum.
  assert (0 <= Z.of_nat (length times) * dur) by (apply Z.mul_nonneg_nonneg; lia).
  pose proof (pace_due dur last t delay Hd Hdelay Ht ltac:(lia)) as Hdue.
  unfold schedule. cbn [foldl pace_step fst snd]. unfold pace_step at 2 4. cbn [fst snd].
  set (delay' := pace_delay _ _) in *. rewrite <- Hdue. apply IH; [done|lia|done|lia].
Qed.

(** C25: the rate of a UDP upload. Over turns at different ticks, each packet
    becomes due one packet duration after the packet before was due, or at once
    when that is past. So the [n]th packet is never due before [n] durations
    have passed, whatever the time spent in the stack, and is due exactly then
    as long as no turn is a whole duration late: delays do not add up. *)
Theorem pace_rate dur start times :
  0 <= dur < 2147483648 -> increasing start times ->
  (Z.of_nat (length times) + 1) * dur < 4294967296 ->
  let '(delay, last) := pace dur start times in
  let n := Z.of_nat (length times) + 1 in
  last + delay = schedule dur (start + dur) times /\
  start + n * dur <= last + delay /\
  (on_time dur (start + dur) times -> last + delay = start + n * dur).
Proof.
  intros Hd Hinc Hsum. unfold pace. pose proof (pace_schedule dur times dur start) as H.
  destruct (foldl _ _ _) as [delay last]. cbn [fst snd] in H. specialize (H Hd ltac:(lia) Hinc ltac:(lia)).
  cbv zeta. rewrite H. split; [done|]. split.
  - pose proof (schedule_lower dur (start + dur) times). lia.
  - intros Hon. rewrite (schedule_on_time _ _ _ Hon). lia.
Qed.

Lemma pace_delay_range dur start times :
  0 <= dur < 4294967296 -> 0 <= fst (pace dur start times) < 4294967296.
Proof.
  intros Hd. unfold pace. induction times as [|t times _] using rev_ind; [done|].
  rewrite foldl_snoc. cbn. unfold pace_delay. case_match; [apply u32_range|lia].
Qed.

(** Turns within one tick are not paced. The delay stays what it was, however
    many packets were sent in the tick, so that the time they take is not
    waited for; with a packet duration below one tick (no delay at all) the
    client sends as fast as the stack takes packets until the clock ticks. *)
Theorem pace_same_tick dur start times n :
  0 <= dur < 4294967296 ->
  let p := pace dur start times in
  pace dur start (times ++ replicate n (snd p)) = p.
Proof.
  intros Hd p. pose proof (pace_delay_range dur start times Hd) as Hr. fold p in Hr.
  unfold pace. rewrite foldl_app. fold (pace dur start times). fold p.
  clearbody p. induction n as [|n IH]; [done|]. cbn [replicate foldl].
  assert (pace_step dur p (snd p) = p) as ->; [|exact IH].
  destruct p as [delay last]. unfold pace_step, pace_adjust, pace_delay. cbn [fst snd] in *.
  rewrite Z.eqb_refl. cbn. by rewrite Z.add_0_r, u32_small by lia.
Qed.
End Pacing.

(** ** Sockets *)
Section UploadSockets.
Context {L : Lwip} {LOk : LwipOk L} {R : Rtos} {E : Type} `{!Env E, !ErrnoOk E}.
Implicit Types w : world E.

(** The times an upload reports are not negative. *)
Definition times_ok (r : zperf_results) : Prop :=
  0 <= time_in_us r /\ 0 <= jitter_in_us r /\ 0 <= client_time_in_us r.

Lemma decode_times data r r' : times_ok r -> zperf_upload_decode_stat data r = Done r' -> times_ok r'.
Proof.
  intros (_ & _ & H). unfold zperf_upload_decode_stat, get_be32, load_at, mbind, outcome_bind.
  repeat (case_match; [|done..]). intros [= <-]. repeat split; cbn; try apply u32_range. done.
Qed.
Lemma upload_fin_times fuel sock n e size r :
  times_ok r -> returns (E := E) (fun p => times_ok (snd p)) (zperf_upload_fin fuel sock n e size r).
Proof.
  intros Hr. unfold zperf_upload_fin. apply returns_bind. intros [ret stats].
  destruct (ret >? 0); [|by apply returns_ret].
  apply (returns_bind_of times_ok); [apply returns_lift; intros r' Hd; by eapply decode_times|].
  intros r' Hr'. apply returns_bind. intros u. by apply returns_ret.
Qed.
Lemma udp_upload_times fuel sock port d size rate r :
  times_ok r -> returns (E := E) (fun p => times_ok (snd p)) (udp_upload fuel sock port d size rate r).
Proof.
  intros Hr. unfold udp_upload. do 4 (apply returns_bind; intros ?). destruct a2 as [v|e]; [|by apply returns_ret].
  apply returns_bind. intros now.
  apply (returns_bind_of (fun p => times_ok (snd p))); [by apply upload_fin_times|].
  intros [ret r'] (H1 & H2 & H3). destruct (ret <? 0); apply returns_ret; [done|].
  repeat split; try done. apply u32_range.
Qed.

Lemma upload_fin_loop_events k sock n secs usecs size ret stats :
  only upload_event (upload_fin_loop (E := E) k sock n secs usecs size ret stats).
Proof.
  revert ret stats. induction k as [|k IH]; intros ret stats; cbn [upload_fin_loop];
    unfold upload_fin_turn, store_packet, send_packet; by only_steps.
Qed.
#[local] Hint Resolve upload_fin_loop_events : zperf.

Lemma udp_upload_events fuel sock port d size rate results :
  only upload_event (udp_upload (E := E) fuel sock port d size rate results).
Proof.
  unfold udp_upload, udp_upload_turn, zperf_upload_fin, store_packet, send_packet, drain_turn,
    k_uptime_ticks, get_errno. by only_steps.
Qed.
Lemma udp_upload_no_socket fuel sock port d size rate results :
  only no_socket (udp_upload (E := E) fuel sock port d size rate results).
Proof. eapply only_impl; [apply upload_no_socket|apply udp_upload_events]. Qed.

Lemma zperf_udp_upload_events fuel p r : only client_event (zperf_udp_upload (E := E) fuel p r).
Proof.
  unfold zperf_udp_upload.
  only_steps; first [done|eapply only_impl; [apply upload_client|apply udp_upload_events]].
Qed.

Lemma udp_upload_accounted fuel param result w :
  wp Partial (zperf_udp_upload fuel param result) (fun _ w' =>
    (forall f, 0 <= f -> balance f (trace w') = balance f (trace w)) /\ at_most 1 w w') w.
Proof.
  pose proof errno_positive as (HE & _).
  assert (Hnone : forall w', opened (-1) w w' ->
    (forall f, 0 <= f -> balance f (trace w') = balance f (trace w)) /\ at_most 1 w w').
  { intros w' H. by apply (opened_closed (-1)). }
  destruct param as [p|], result as [res|]; try by apply wp_ret, Hnone, opened_refl.
  unfold zperf_udp_upload. apply wp_bind, wp_lift_partial. intros family _. apply wp_bind.
  eapply wp_only; [by only_steps|]. intros port w1 evs Htr He.
  assert (H1 : opened (-1) w w1) by (eapply opened_quiet; [apply opened_refl|exact Htr|exact He]).
  destruct port as [port|]; [|by apply wp_ret, Hnone].
  apply wp_bind. eapply wp_mono; [by apply prepare_upload_sock_opens|]. intros sock w2 H2.
  pose proof (opened_none sock w w1 w2 evs Htr He H2) as H3.
  destruct (Z.ltb_spec sock 0) as [Hs|Hs]; [by apply wp_ret, (opened_closed sock)|].
  apply wp_bind. eapply wp_only; [apply udp_upload_no_socket|].
  intros [ret results] w3 evs3 Htr3 He3. cbn beta iota. apply wp_bind. wp_call u e. apply wp_ret.
  by eapply opened_used.
Qed.

(** C26: the socket of a UDP upload: on every path the upload has closed every
    socket it opened, and never had two open. *)
Theorem zperf_udp_upload_sockets fuel param result w :
  wp Partial (zperf_udp_upload fuel param result) (fun _ w' =>
    (forall f, 0 <= f -> balance f (trace w') = balance f (trace w)) /\ at_most 1 w w') w.
Proof. apply udp_upload_accounted. Qed.
End UploadSockets.

(** ** Witnesses *)
Section Witnesses.
#[local] Existing Instances lwip_example rtos_example ticking_errno ticking_send.

Definition example_upload_world : world Z := World example_globals 0 [].

Lemma udp_upload_stream_witness :
  exists r w', udp_upload (Env0 := ticking) 20 3 5001 10 100 800 zero_results example_upload_world
      = Done (0, r, w') /\ nb_packets_sent r = 10 /\
    exists datas fins times, sent_on 3 (trace w') = datas ++ fins /\ numbered 100 datas times /\
      fins <> [].
Proof.
  pose proof (udp_upload_stream (L := lwip_example) (R := rtos_example) (E := Z) (Env0 := ticking)
    20 3 5001 10 100 800 zero_results example_upload_world) as H.
  destruct (udp_upload (Env0 := ticking) 20 3 5001 10 100 800 zero_results example_upload_world)
    as [[[ret r] w']| |] eqn:Hrun; [|vm_compute in Hrun; discriminate Hrun..].
  pose proof (wp_done _ _ _ _ _ _ H Hrun)
    as (evs & datas & fins & start & times & fin & Htr & Hs & _ & Hn & _ & _ & Hne & _).
  assert (ret = 0 /\ nb_packets_sent r = 10) as [-> Hsent]
    by (vm_compute in Hrun; injection Hrun as <- <- <-; split; reflexivity).
  exists r, w'. split; [reflexivity|]. split; [exact Hsent|]. exists datas, fins, times.
  rewrite Htr. split; [exact Hs|]. split; [exact Hn|]. destruct Hne as [Hne|Hne]; [exact Hne|lia].
Defined.

Lemma udp_upload_ends_witness :
  exists ret w', udp_upload (Env0 := ticking) 20 3 5001 10 100 800 zero_results example_upload_world
      = Done (ret, w').
Proof.
  assert (H : wp Total _ _ _) by
    (apply (udp_upload_ends (L := lwip_example) (R := rtos_example) (E := Z) (Env0 := ticking) 1
       (DrainEnds0 := ticking_drain 8 ltac:(lia)) 10 (ClockReaches0 := ticking_clock 10 ltac:(lia))
       20 3 5001 10 100 800 zero_results example_upload_world 976);
     [lia|vm_compute; reflexivity|vm_compute; reflexivity|lia|cbn; lia]).
  apply wp_total_done in H. destruct H as (ret & w' & Hrun & _). exists ret, w'. exact Hrun.
Defined.

Lemma udp_upload_never_ends_witness :
  udp_upload (Env0 := ticking) 20 3 5001 5000 100 800 zero_results (World example_globals 4294967000 [])
    = OutOfFuel.
Proof.
  apply (udp_upload_never_ends (L := lwip_example) (R := rtos_example) (E := Z) (Env0 := ticking)
    20 3 5001 5000 100 800 zero_results (World example_globals 4294967000 []) 976);
    [lia|vm_compute; discriminate|vm_compute; reflexivity].
Defined.

(** Ten ticks a packet; the third turn is late. *)
Lemma pace_rate_witness : pace 10 0 [1; 11; 45; 46] = (9, 46) /\ 0 + 5 * 10 <= 46 + 9.
Proof.
  split; [reflexivity|].
  pose proof (pace_rate 10 0 [1; 11; 45; 46] ltac:(lia) ltac:(cbn; lia) ltac:(cbn; lia)) as (_ & H & _).
  exact H.
Defined.

Lemma pace_same_tick_witness : pace 10 0 ([1] ++ replicate 50 1) = (19, 1).
Proof. exact (pace_same_tick 10 0 [1] 50 ltac:(lia)). Defined.

Lemma zperf_udp_upload_sockets_witness :
  exists w', zperf_udp_upload (Env0 := ticking) 20
      (Some (UploadParams example_peer4 5 800 100 0 0 (-1))) (Some zero_results)
      example_upload_world = Done (0, Some (Results 5 0 0 0 0 0 0 6000 100 0), w') /\
    balance 0 (trace w') = 0.
Proof.
  pose proof (zperf_udp_upload_sockets (L := lwip_example) (R := rtos_example) (E := Z)
    (Env0 := ticking) 20 (Some (UploadParams example_peer4 5 800 100 0 0 (-1))) (Some zero_results)
    example_upload_world) as H.
  destruct (zperf_udp_upload (Env0 := ticking) 20
      (Some (UploadParams example_peer4 5 800 100 0 0 (-1))) (Some zero_results)
      example_upload_world) as [[[ret r] w']| |] eqn:Hrun; [|vm_compute in Hrun; discriminate Hrun..].
  pose proof (proj1 (wp_done _ _ _ _ _ _ H Hrun) 0 ltac:(lia)) as Hb.
  exists w'. split; [|exact Hb]. vm_compute in Hrun. injection Hrun as <- <- <-. reflexivity.
Defined.
End Witnesses.
