(* ===== verification/TcpUploader.v ===== *)
(** The TCP client (zperf_tcp_uploader.c). *)
From S2P Require Import Prelude CInt Platform Kernel NetIp Session World Environment Common Work.
Open Scope Z_scope.

Section TcpUploader.
Context {L : Lwip} {R : Rtos} {E : Type} `{!Env E}.
Abbreviation W := (world E).

(** One turn of [while (len)] of [sendall]: offset of [buf] in the object, and
    [len], a 32-bit [size_t]. *)
Definition sendall_turn (sock : Z) (obj : bytes) (v : Z * Z) : M W (Z * Z + Z) :=
  let '(off, len) := v in
  if len =? 0 then mret (inr 0) else
  data ← lift (read_at (Z.to_nat off) (Z.to_nat len) obj);
  out_len ← trigger (LwipSend sock data 0);
  if out_len <? 0 then mret (inr out_len) else
  mret (inl (off + out_len, u32 (len - out_len))).

Definition sendall (fuel : nat) (sock : Z) (obj : bytes) (len : Z) : M W Z :=
  loop fuel (sendall_turn sock obj) (0, len).

(** The counters of the upload loop; [ret] is the last result. *)
Record tcp_vars : Set := TcpVars {
  tv_nb_packets : Z;
  tv_nb_errors : Z;
  tv_alloc_errors : Z;
  tv_ret : Z;
}.

(** kernel.h *)
Definition sys_timepoint_calc (ticks : Z) : M W Z :=
  now ← k_uptime_ticks; mret (u64 (now + ticks)).
Definition sys_timepoint_expired (stop : Z) : M W bool :=
  now ← k_uptime_ticks; mret (stop <=? now).

(** One turn of [do ... while (!sys_timepoint_expired(end))]. *)
Definition tcp_upload_turn (fuel : nat) (sock packet_size stop : Z) (v : tcp_vars)
    : M W (tcp_vars + tcp_vars) :=
  obj ← get_glob tcp_sample_packet;
  ret ← sendall fuel sock obj packet_size;
  '(v, break) ←
    (if ret <? 0 then
       let nb_errors := u32 (tv_nb_errors v + 1) in
       e ← get_errno;
       if e =? - ENOMEM
       then mret (TcpVars (tv_nb_packets v) nb_errors (u32 (tv_alloc_errors v + 1)) ret, false)
       else mret (TcpVars (tv_nb_packets v) nb_errors (tv_alloc_errors v) (- e), true)
     else mret (TcpVars (u32 (tv_nb_packets v + 1)) (tv_nb_errors v) (tv_alloc_errors v) ret,
                false));
  if break : bool then mret (inr v) else
  trigger TaskYield;;
  expired ← sys_timepoint_expired stop;
  mret (if expired : bool then inr v else inl v).

Definition tcp_upload (fuel : nat) (sock duration_in_ms packet_size : Z)
    (results : zperf_results) : M W (Z * zperf_results) :=
  stop ← sys_timepoint_calc (K_MSEC duration_in_ms);
  let packet_size := if packet_size >? PACKET_SIZE_MAX then PACKET_SIZE_MAX else packet_size in
  start_time ← k_uptime_ticks;
  upd_glob (set_tcp_sample_packet (memset 0 4 ++ memset 122 (Z.to_nat PACKET_SIZE_MAX - 4)));;
  v ← loop fuel (tcp_upload_turn fuel sock packet_size stop) (TcpVars 0 0 0 0);
  end_time ← k_uptime_ticks;
  let results :=
    Results (tv_nb_packets v) (nb_packets_rcvd results) (nb_packets_lost results)
      (nb_packets_outorder results) (total_len results) (time_in_us results)
      (jitter_in_us results) (k_ticks_to_us_ceil32 (s64 (end_time - start_time)))
      packet_size (tv_nb_errors v) in
  if tv_ret v <? 0 then mret (tv_ret v, results) else mret (0, results).

Definition zperf_tcp_upload (fuel : nat) (param : option zperf_upload_params)
    (result : option zperf_results) : M W (Z * option zperf_results) :=
  match param, result with
  | Some param, Some results =>
      sock ← zperf_prepare_upload_sock (peer_addr param) (tos param) (priority param)
               IPPROTO_TCP;
      if sock <? 0 then mret (sock, result) else
      bad ← (if negb (tcp_nodelay param =? 0) then
               r ← trigger (LwipSetsockopt sock IPPROTO_TCP TCP_NODELAY [tcp_nodelay param]);
               mret (negb (r =? 0))
             else mret false);
      if bad : bool then mret (- EINVAL, result) else
      '(ret, results) ← tcp_upload fuel sock (duration_ms param) (up_packet_size param) results;
      trigger (LwipClose sock);;
      mret (ret, Some results)
  | _, _ => mret (- EINVAL, result)
  end.

(** [result] is not initialised: [garbage] is what it holds. *)
Definition tcp_upload_async_work (fuel : nat) (garbage : zperf_results) : M W unit :=
  ctx ← get_glob tcp_async_upload_ctx;
  call_ctx ctx ZPERF_SESSION_STARTED None;;
  ctx ← get_glob tcp_async_upload_ctx;
  '(ret, result) ← zperf_tcp_upload fuel (Some (ctx_param ctx)) (Some garbage);
  ctx ← get_glob tcp_async_upload_ctx;
  if ret <? 0 then call_ctx ctx ZPERF_SESSION_ERROR None
  else call_ctx ctx ZPERF_SESSION_FINISHED result.

Definition zperf_tcp_upload_async (param : option zperf_upload_params)
    (cb : option callback) (ud : Z) : M W Z :=
  match param, cb with
  | Some param, Some cb =>
      ctx ← get_glob tcp_async_upload_ctx;
      if k_work_is_pending (work ctx) then mret (- EBUSY) else
      upd_glob (set_tcp_ctx (AsyncCtx (work ctx) param (Some cb) ud));;
      zperf_async_work_submit TCP_WORK;;
      mret 0
  | _, _ => mret (- EINVAL)
  end.

Definition zperf_tcp_uploader_init : M W unit :=
  upd_glob (upd_work TCP_WORK (k_work_init TcpUploadAsyncWork)).
End TcpUploader.

(** ** Sending a buffer *)
Section Sendall.
Context {L : Lwip} {R : Rtos} {E : Type} `{!Env E, !SendOk E}.
Implicit Types w : world E.

(** Calls of [send] that succeeded, and nothing else. *)
Definition took (sock : Z) : list event -> Prop :=
  Forall (fun ev => exists data r, ev = Event (LwipSend sock data 0) r /\ 0 <= r).

Lemma wp_sendall fuel sock obj len w :
  0 <= len <= Z.of_nat (length obj) -> len < 4294967296 -> (Z.to_nat len < fuel)%nat ->
  wp Total (sendall fuel sock obj len) (fun ret w' =>
    exists evs n, trace w' = trace w ++ evs /\ glob w' = glob w /\
      accepted sock evs = take n obj /\ (n <= Z.to_nat len)%nat /\
      (ret = 0 /\ n = Z.to_nat len /\ took sock evs \/
       ret < 0 /\ (n < Z.to_nat len)%nat /\ exists before data,
         evs = before ++ [Event (LwipSend sock data 0) ret] /\ took sock before)) w.
Proof.
  intros Hlen H32 Hfuel. unfold sendall.
  set (I := fun (v : Z * Z) w' =>
    let '(off, rest) := v in 0 <= off /\ 0 <= rest /\ off + rest = len /\
    exists evs, trace w' = trace w ++ evs /\ glob w' = glob w /\
      accepted sock evs = take (Z.to_nat off) obj /\ took sock evs).
  apply (wp_loop_variant _ I (fun v _ => Z.to_nat (snd v))); [|split_and!; [lia..|]|cbn; lia].
  2: { exists []. rewrite app_nil_r. split_and!; [done..|constructor]. }
  intros [off rest] w' (Hoff & Hrest & Hsum & evs & Htr & Hg & Hacc & Htook). cbn [sendall_turn].
  destruct (Z.eqb_spec rest 0) as [->|Hne].
  { apply wp_ret. exists evs, (Z.to_nat off). split_and!; [done..|lia|]. left. split; [done|]. split; [lia|done]. }
  apply wp_bind. eapply wp_lift; [apply read_at_ok; lia|]. set (data := take _ _).
  assert (Hl : length data = Z.to_nat rest)
    by (unfold data; rewrite length_take, length_drop; lia).
  apply wp_bind. apply (wp_trigger _ (LwipSend sock data 0)). intros r e Ha.
  apply send_takes in Ha; [|intros ->; cbn in Hl; lia]. rewrite Hl in Ha.
  assert (Htr' : trace (emit (LwipSend sock data 0) r e w') = trace w ++ (evs ++ [Event (LwipSend sock data 0) r]))
    by (cbn; by rewrite Htr, app_assoc).
  assert (Hacc' : accepted sock (evs ++ [Event (LwipSend sock data 0) r]) =
            take (Z.to_nat off + Z.to_nat r) obj).
  { rewrite accepted_app, Hacc. cbn. rewrite Z.eqb_refl, app_nil_r.
    unfold data. rewrite take_take, Nat.min_l by lia. apply take_take_drop. }
  destruct (Z.ltb_spec r 0) as [Hr|Hr].
  - apply wp_ret. exists (evs ++ [Event (LwipSend sock data 0) r]), (Z.to_nat off).
    split; [done|]. split; [done|]. split; [rewrite Hacc'; f_equal; lia|]. split; [lia|].
    right. split; [done|]. split; [lia|]. by exists evs, data.
  - apply wp_ret. rewrite u32_small by lia. split; [|cbn; lia]. unfold I.
    split_and!; [lia..|]. exists (evs ++ [Event (LwipSend sock data 0) r]).
    split; [done|]. split; [done|]. split; [rewrite Hacc'; f_equal; lia|].
    apply Forall_app. split; [done|]. constructor; [by exists data, r|done].
Qed.

(** C22: [sendall] sends the whole buffer. With a stack that takes at least a byte
    per call, it ends, within as many turns as the buffer has bytes; it returns
    0 exactly when every byte of the buffer was taken, in order and once,
    whatever pieces the stack took them in, by calls that all succeeded; otherwise
    it returns the negative result of the call that failed, which is its last
    and the only one that failed, and a proper prefix of the buffer was taken. *)
Theorem sendall_spec fuel sock obj len w :
  0 <= len <= Z.of_nat (length obj) -> len < 4294967296 -> (Z.to_nat len < fuel)%nat ->
  wp Total (sendall fuel sock obj len) (fun ret w' =>
    exists evs n, trace w' = trace w ++ evs /\ glob w' = glob w /\
      accepted sock evs = take n obj /\ (n <= Z.to_nat len)%nat /\
      (ret = 0 /\ n = Z.to_nat len /\ took sock evs \/
       ret < 0 /\ (n < Z.to_nat len)%nat /\ exists before data,
         evs = before ++ [Event (LwipSend sock data 0) ret] /\ took sock before)) w.
Proof. apply wp_sendall. Qed.
End Sendall.
(** ** The upload *)
Section Upload.
Context {L : Lwip} {R : Rtos} {ROk : RtosOk R} {E : Type} `{!Env E}.
Implicit Types w : world E.

(** The bytes of one packet, and what the parameters ask for. *)
Definition tcp_packet (packet_size : Z) : bytes :=
  take (Z.to_nat packet_size) (memset 0 4 ++ memset 122 (Z.to_nat PACKET_SIZE_MAX - 4)).
Definition clamp_tcp_size (packet_size : Z) : Z :=
  if packet_size >? PACKET_SIZE_MAX then PACKET_SIZE_MAX else packet_size.

Lemma K_MSEC_range ms : 0 <= K_MSEC ms < 4294967296.
Proof.
  unfold K_MSEC. rewrite pdMS_TO_TICKS_spec. pose proof (u32_range (u32 ms * configTICK_RATE_HZ)).
  lia.
Qed.

Lemma wp_sendall_succeeds `{!SendSucceeds E} fuel sock obj len w :
  0 <= len <= Z.of_nat (length obj) -> len < 4294967296 ->
  wp Safe (sendall fuel sock obj len) (fun ret w' => ret = 0 /\ glob w' = glob w) w.
Proof.
  intros Hlen H32. unfold sendall.
  apply (wp_loop_inv _ (fun (v : Z * Z) w' =>
    0 <= fst v /\ 0 <= snd v /\ fst v + snd v = len /\ glob w' = glob w)); [done| |cbn; done_arith].
  intros [off rest] w' (Hoff & Hrest & Hsum & Hg). cbn [fst snd] in *. cbn [sendall_turn].
  destruct (Z.eqb_spec rest 0) as [->|Hne]; [by apply wp_ret|].
  apply wp_bind. eapply wp_lift; [apply read_at_ok; lia|]. set (data := take _ _).
  assert (Hl : length data = Z.to_nat rest)
    by (unfold data; rewrite length_take, length_drop; lia).
  apply wp_bind, (wp_trigger _ (LwipSend sock data 0)). intros r e Ha.
  apply send_succeeds in Ha; [|intros Hd; rewrite Hd in Hl; cbn in Hl; lia]. rewrite Hl in Ha.
  destruct (Z.ltb_spec r 0); [lia|]. apply wp_ret. rewrite u32_small by lia. cbn. done_arith.
Qed.

Lemma sendall_remaining stop `{!ClockReaches E stop} fuel sock obj len :
  advances stop (sendall (E := E) fuel sock obj len).
Proof. unfold sendall, sendall_turn. advances_steps. Qed.

(** The state of the upload loop after [n] packets. *)
Definition uploading (sock size : Z) (w0 : world E) (v : tcp_vars) (w : world E) : Prop :=
  exists evs n,
    trace w = trace w0 ++ evs /\
    accepted sock evs = mjoin (replicate n (tcp_packet size)) /\
    tcp_sample_packet (glob w) = memset 0 4 ++ memset 122 (Z.to_nat PACKET_SIZE_MAX - 4) /\
    v = TcpVars (u32 (Z.of_nat n)) 0 0 0.

(** How it ends: every packet sent, or the packet after the [n]th failed. *)
Definition uploaded (sock size : Z) (w0 : world E) (v : tcp_vars) (w : world E) : Prop :=
  uploading sock size w0 v w \/
  exists evs n m,
    trace w = trace w0 ++ evs /\ (m < Z.to_nat size)%nat /\
    accepted sock evs = mjoin (replicate n (tcp_packet size)) ++ take m (tcp_packet size) /\
    tv_nb_packets v = u32 (Z.of_nat n) /\ tv_nb_errors v = 1 /\ tv_alloc_errors v = 0 /\
    tv_ret v < 0.

Lemma tcp_packet_length size :
  0 <= size <= PACKET_SIZE_MAX -> length (tcp_packet size) = Z.to_nat size.
Proof.
  intros H. unfold tcp_packet, memset. change PACKET_SIZE_MAX with 1024 in *.
  rewrite length_take, length_app, !length_replicate. lia.
Qed.

Lemma replicate_snoc_join {A} n (x : list A) :
  mjoin (replicate n x) ++ x = mjoin (replicate (S n) x).
Proof. induction n as [|n IH]; cbn; [by rewrite app_nil_r|]. rewrite <- app_assoc. f_equal. exact IH. Qed.

Lemma wp_tcp_turn `{!SendOk E, !ErrnoOk E} stop `{!ClockReaches E stop} fuel sock size w0 v w :
  0 <= size <= PACKET_SIZE_MAX -> (Z.to_nat size < fuel)%nat ->
  LwipOk L -> uploading sock size w0 v w ->
  wp Total (tcp_upload_turn fuel sock size stop v) (fun r w' =>
    match r with
    | inl v' => uploading sock size w0 v' w' /\ (remaining stop (env w') < remaining stop (env w))%nat
    | inr v' => uploaded sock size w0 v' w'
    end) w.
Proof.
  intros Hsize Hfuel HL (evs & n & Htr & Hacc & Hobj & ->). unfold tcp_upload_turn.
  apply wp_bind, wp_gets. apply wp_bind.
  assert (Hl : length (tcp_sample_packet (glob w)) = 1024%nat).
  { rewrite Hobj. reflexivity. }
  change PACKET_SIZE_MAX with 1024 in Hsize.
  eapply wp_mono.
  { apply wp_conj_partial; [apply wp_sendall; [rewrite Hl|..]; lia|apply sendall_remaining]. }
  intros ret w1 [(evs1 & m & Htr1 & Hg1 & Hacc1 & Hm & Hret) Hrem]. cbn beta in *.
  assert (Htake : forall m, (m <= Z.to_nat size)%nat ->
            take m (tcp_sample_packet (glob w)) = take m (tcp_packet size)).
  { intros m' Hm'. unfold tcp_packet. rewrite <- Hobj, take_take. f_equal. lia. }
  rewrite Htake in Hacc1 by done.
  destruct (Z.ltb_spec ret 0) as [Hr|Hr].
  - apply wp_bind, wp_bind. unfold get_errno. apply (wp_trigger _ Errno). intros e e2 He.
    pose proof (errno_ok (env w1)) as Hpos. rewrite He in Hpos. cbn in Hpos.
    pose proof errno_positive as (_ & _ & _ & _ & HENOMEM).
    destruct (Z.eqb_spec e (- ENOMEM)); [lia|]. apply wp_ret. cbn beta iota. apply wp_ret. right.
    exists (evs ++ evs1 ++ [Event Errno e]), n, m. cbn.
    split; [by rewrite Htr1, Htr, <- !app_assoc|]. split; [lia|].
    split; [rewrite !accepted_app; cbn; by rewrite app_nil_r, Hacc, Hacc1|]. done_arith.
  - apply wp_bind, wp_ret. cbn beta iota. assert (m = Z.to_nat size) as -> by lia.
    assert (ret = 0) as -> by lia.
    rewrite <- (tcp_packet_length size) in Hacc1 by done. rewrite take_ge in Hacc1 by lia.
    apply wp_bind. apply (wp_trigger _ TaskYield). intros y e2 Hy.
    pose proof (remaining_call stop TaskYield (env w1)) as Hr2. rewrite Hy in Hr2. cbn in Hr2.
    apply wp_bind. unfold sys_timepoint_expired, k_uptime_ticks. apply wp_bind, wp_bind.
    apply (wp_trigger _ TaskGetTickCount). intros now e3 Hnow. cbn in Hnow.
    pose proof (remaining_tick stop e2) as Hr3. rewrite Hnow in Hr3. cbn in Hr3.
    apply wp_ret, wp_ret.
    assert (Hnext : forall w3, glob w3 = glob w1 ->
              trace w3 = trace w1 ++ [Event TaskYield y; Event TaskGetTickCount now] ->
              uploading sock size w0 (TcpVars (u32 (u32 (Z.of_nat n) + 1)) 0 0 0) w3).
    { intros w3 Hg3 Htr3. exists (evs ++ evs1 ++ [Event TaskYield y; Event TaskGetTickCount now]), (S n).
      split; [by rewrite Htr3, Htr1, Htr, <- !app_assoc|].
      split; [rewrite !accepted_app; cbn [accepted];
              rewrite app_nil_r, Hacc, Hacc1; apply (replicate_snoc_join (A := Z))|].
      split; [by rewrite Hg3, Hg1|]. f_equal. cint. }
    destruct (Z.leb_spec stop (u32 now)); apply wp_ret.
    + left. apply Hnext; cbn; by rewrite <- ?app_assoc.
    + split; [apply Hnext; cbn; by rewrite <- ?app_assoc|]. cbn. lia.
Qed.

Lemma clamp_tcp_size_range size : 0 <= size -> 0 <= clamp_tcp_size size <= PACKET_SIZE_MAX.
Proof. intros H. unfold clamp_tcp_size, PACKET_SIZE_MAX. rewrite Z.gtb_ltb. bool_cases; lia. Qed.

Lemma uploaded_summary sock size w0 v w :
  uploaded sock size w0 v w -> exists evs n m,
    trace w = trace w0 ++ evs /\
    accepted sock evs = mjoin (replicate n (tcp_packet size)) ++ take m (tcp_packet size) /\
    tv_nb_packets v = u32 (Z.of_nat n) /\
    (m = 0%nat /\ tv_ret v = 0 /\ tv_nb_errors v = 0 \/
     (m < Z.to_nat size)%nat /\ tv_ret v < 0 /\ tv_nb_errors v = 1).
Proof.
  intros [(evs & n & Htr & Hacc & _ & ->)|(evs & n & m & Htr & Hm & Hacc & Hn & He & _ & Hret)].
  - exists evs, n, 0%nat. split; [done|]. rewrite app_nil_r. split; [done|]. split; [done|].
    by left.
  - exists evs, n, m. auto 10.
Qed.

Lemma last_clock a b (l : list Z) fin :
  list.last (a :: b :: l ++ clock_readings [Event TaskGetTickCount fin]) = Some (u32 fin).
Proof. apply (last_snoc (u32 fin) (a :: b :: l)). Qed.

(** What an upload has sent between two worlds, and what it reports. *)
Definition tcp_report (sock size : Z) (w w' : world E) (ret : Z) (r : zperf_results) : Prop :=
  exists evs n m start fin,
    trace w' = trace w ++ evs /\
    accepted sock evs = mjoin (replicate n (tcp_packet size)) ++ take m (tcp_packet size) /\
    clock_readings evs !! 1%nat = Some start /\ list.last (clock_readings evs) = Some fin /\
    nb_packets_sent r = u32 (Z.of_nat n) /\ packet_size r = size /\
    client_time_in_us r = k_ticks_to_us_ceil32 (s64 (fin - start)) /\
    (m = 0%nat /\ ret = 0 /\ nb_packets_errors r = 0 \/
     (m < Z.to_nat size)%nat /\ ret < 0 /\ nb_packets_errors r = 1).

Lemma wp_tcp_upload `{!LwipOk L, !SendOk E, !ErrnoOk E} stop `{!ClockReaches E stop}
    fuel sock duration_in_ms asked results w :
  stop = u32 (fst (answer TaskGetTickCount (env w))) + K_MSEC duration_in_ms ->
  0 <= asked -> (1024 < fuel)%nat -> (remaining stop (env w) < fuel)%nat ->
  wp Total (tcp_upload fuel sock duration_in_ms asked results)
    (fun '(ret, r) w' => tcp_report sock (clamp_tcp_size asked) w w' ret r) w.
Proof.
  intros Hstop Hsize Hfuel Hrem. unfold tcp_upload, sys_timepoint_calc, k_uptime_ticks.
  apply wp_bind, wp_bind, wp_bind, (wp_trigger _ TaskGetTickCount). intros now e1 Ha1.
  pose proof (remaining_call stop TaskGetTickCount (env w)) as Hr1. rewrite Ha1 in Hr1, Hstop.
  cbn in Hr1, Hstop. apply wp_ret, wp_ret.
  assert (u64 (u32 now + K_MSEC duration_in_ms) = stop) as ->.
  { rewrite Hstop. apply u64_small. pose proof (K_MSEC_range duration_in_ms).
    pose proof (u32_range now). lia. }
  cbv zeta. fold (clamp_tcp_size asked). set (size := clamp_tcp_size asked).
  assert (Hsz : 0 <= size <= PACKET_SIZE_MAX) by by apply clamp_tcp_size_range.
  apply wp_bind, wp_bind, (wp_trigger _ TaskGetTickCount). intros start e2 Ha2.
  pose proof (remaining_call stop TaskGetTickCount e1) as Hr2. cbn in Ha2. rewrite Ha2 in Hr2.
  cbn in Hr2. apply wp_ret, wp_bind, wp_modify, wp_bind.
  set (w0 := with_glob _ _).
  eapply wp_mono.
  { apply (wp_loop_variant _ (uploading sock size w0) (fun _ w' => remaining stop (env w'))
             _ (uploaded sock size w0)).
    - intros v w' Hv. apply wp_tcp_turn; [done| |done|done].
      unfold PACKET_SIZE_MAX in Hsz. lia.
    - exists [], 0%nat. by rewrite app_nil_r.
    - cbn. lia. }
  intros v w1 Hv. apply wp_bind, wp_bind, (wp_trigger _ TaskGetTickCount).
  intros fin e3 _. apply wp_ret.
  destruct (uploaded_summary _ _ _ _ _ Hv) as (evs & n & m & Htr & Hacc & Hn & Hcase).
  set (evs' := Event TaskGetTickCount now :: Event TaskGetTickCount start :: evs
                 ++ [Event TaskGetTickCount fin]).
  destruct (Z.ltb_spec (tv_ret v) 0) as [Hr|Hr]; apply wp_ret; exists evs', n, m, (u32 start), (u32 fin); unfold evs';
    (split; [cbn [trace emit]; rewrite Htr; unfold w0; cbn [trace with_glob emit];
             rewrite <- !app_assoc; reflexivity|]);
    (split; [cbn [accepted]; rewrite accepted_app, Hacc; cbn [accepted]; by rewrite app_nil_r|]);
    (split; [done|]);
    (split; [cbn [clock_readings]; rewrite clock_readings_app; apply last_clock|]);
    (split; [done|]); (split; [done|]); (split; [done|]); cbn [nb_packets_errors]; lia.
Qed.

(** C20: a TCP upload. With a clock that reaches the end of the upload and a stack
    that takes data or fails, the upload ends. It has sent copies of the sample
    packet one after the other and nothing else, reports their number and the
    time from the clock readings before and after them, and either every packet
    was sent, with result 0 and no error, or one packet failed part of the way,
    with a negative result and one error, whatever the error was: the branch
    that would go on after a failed allocation is never taken. *)
Theorem tcp_upload_spec `{!LwipOk L, !SendOk E, !ErrnoOk E} stop `{!ClockReaches E stop}
    fuel sock duration_in_ms asked results w :
  stop = u32 (fst (answer TaskGetTickCount (env w))) + K_MSEC duration_in_ms ->
  0 <= asked -> (1024 < fuel)%nat -> (remaining stop (env w) < fuel)%nat ->
  wp Total (tcp_upload fuel sock duration_in_ms asked results)
    (fun '(ret, r) w' => tcp_report sock (clamp_tcp_size asked) w w' ret r) w.
Proof. apply wp_tcp_upload. Qed.

(** One turn when every [send] succeeds and the end is beyond the clock's range. *)
Lemma wp_turn_beyond `{!SendSucceeds E} fuel sock size stop v w :
  0 <= size <= PACKET_SIZE_MAX -> 4294967296 <= stop ->
  length (tcp_sample_packet (glob w)) = 1024%nat ->
  wp Safe (tcp_upload_turn fuel sock size stop v) (fun r w' =>
    match r with
    | inl _ => length (tcp_sample_packet (glob w')) = 1024%nat
    | inr _ => False
    end) w.
Proof.
  intros Hsize Hstop Hl. change PACKET_SIZE_MAX with 1024 in Hsize. unfold tcp_upload_turn.
  apply wp_bind, wp_gets, wp_bind.
  eapply (wp_mono _ _ (fun ret w' => ret = 0 /\ glob w' = glob w)).
  { apply wp_sendall_succeeds; lia. }
  intros ret w1 [-> Hg]. cbn [Z.ltb Z.compare]. apply wp_bind, wp_ret. cbn beta iota.
  apply wp_bind, (wp_trigger _ TaskYield). intros y e2 _. apply wp_bind, wp_bind, wp_bind.
  apply (wp_trigger _ TaskGetTickCount). intros now e3 _. apply wp_ret, wp_ret.
  pose proof (u32_range now). destruct (Z.leb_spec stop (u32 now)); [lia|].
  apply wp_ret. cbn. by rewrite Hg.
Qed.

(** C39: an upload that never ends. The end of an upload is computed on 64 bits
    but compared with a clock of 32: when the duration asked takes it past the
    clock's range, and the stack takes everything it is given, the upload goes
    on for ever. *)
Theorem tcp_upload_never_ends `{!SendSucceeds E} fuel sock duration_in_ms asked results w :
  0 <= asked ->
  4294967296 <= u32 (fst (answer TaskGetTickCount (env w))) + K_MSEC duration_in_ms ->
  tcp_upload fuel sock duration_in_ms asked results w = OutOfFuel.
Proof.
  intros Hsize Hstop.
  cut (wp Safe (tcp_upload fuel sock duration_in_ms asked results) (fun _ _ => False) w).
  { unfold wp. by destruct (tcp_upload _ _ _ _ _ w) as [[]| |]. }
  unfold tcp_upload, sys_timepoint_calc, k_uptime_ticks.
  apply wp_bind, wp_bind, wp_bind, (wp_trigger _ TaskGetTickCount). intros now e1 Ha1.
  rewrite Ha1 in Hstop. cbn in Hstop. apply wp_ret, wp_ret.
  rewrite u64_small by (pose proof (K_MSEC_range duration_in_ms); pose proof (u32_range now); lia).
  cbv zeta. fold (clamp_tcp_size asked). set (size := clamp_tcp_size asked).
  assert (Hsz : 0 <= size <= PACKET_SIZE_MAX) by by apply clamp_tcp_size_range.
  apply wp_bind, wp_bind, (wp_trigger _ TaskGetTickCount). intros start e2 _.
  apply wp_ret, wp_bind, wp_modify, wp_bind.
  apply (wp_loop_inv _ (fun _ w' => length (tcp_sample_packet (glob w')) = 1024%nat)); [done| |done].
  intros v w' Hl. eapply wp_mono; [by apply wp_turn_beyond|]. by intros [] ?.
Qed.
End Upload.

(** ** Sockets *)
Section UploadSockets.
Context {L : Lwip} {LOk : LwipOk L} {R : Rtos} {E : Type} `{!Env E, !ErrnoOk E}.
Implicit Types w : world E.

Lemma tcp_upload_events fuel sock d size results :
  only upload_event (tcp_upload (E := E) fuel sock d size results).
Proof.
  unfold tcp_upload, tcp_upload_turn, sendall, sendall_turn, sys_timepoint_calc,
    sys_timepoint_expired, k_uptime_ticks, get_errno. by only_steps.
Qed.
Lemma tcp_upload_no_socket fuel sock d size results :
  only no_socket (tcp_upload (E := E) fuel sock d size results).
Proof. eapply only_impl; [apply upload_no_socket|apply tcp_upload_events]. Qed.

Lemma zperf_tcp_upload_events fuel p r : only client_event (zperf_tcp_upload (E := E) fuel p r).
Proof.
  unfold zperf_tcp_upload.
  only_steps; first [done|eapply only_impl; [apply upload_client|apply tcp_upload_events]].
Qed.

(** The stack has refused the option, and the socket is still open. *)
Definition nodelay_refused (param : option zperf_upload_params) (ret : Z) w w' : Prop :=
  exists p sock r,
    param = Some p /\ tcp_nodelay p <> 0 /\ ret = - EINVAL /\ 0 <= sock /\ r <> 0 /\
    list.last (trace w') =
      Some (Event (LwipSetsockopt sock IPPROTO_TCP TCP_NODELAY [tcp_nodelay p]) r) /\
    forall f, 0 <= f ->
      balance f (trace w') = balance f (trace w) + (if sock =? f then 1 else 0).

Lemma tcp_upload_accounted fuel param result w :
  wp Partial (zperf_tcp_upload fuel param result) (fun '(ret, _) w' =>
    ((forall f, 0 <= f -> balance f (trace w') = balance f (trace w)) \/
     nodelay_refused param ret w w') /\
    at_most 1 w w') w.
Proof.
  pose proof errno_positive as (HE & _).
  assert (Hnone : (forall f, 0 <= f -> balance f (trace w) = balance f (trace w)) /\ at_most 1 w w)
    by (apply (opened_closed (-1)); [apply opened_refl|done]).
  destruct param as [p|], result as [res|];
    try (apply wp_ret; split; [by left|apply Hnone]). unfold zperf_tcp_upload.
  apply wp_bind. eapply wp_mono; [by apply prepare_upload_sock_opens|]. intros sock w1 H1.
  destruct (Z.ltb_spec sock 0) as [Hs|Hs].
  { apply wp_ret. destruct (opened_closed _ _ _ H1 Hs). split; [by left|done]. }
  assert (Hrest : forall w2, opened sock w w2 ->
    wp Partial ('(ret, results) ← tcp_upload fuel sock (duration_ms p) (up_packet_size p) res;
                trigger (LwipClose sock);; mret (ret, Some results))
      (fun _ w' => (forall f, 0 <= f -> balance f (trace w') = balance f (trace w)) /\
                   at_most 1 w w') w2).
  { intros w2 H2. apply wp_bind. eapply wp_only; [apply tcp_upload_no_socket|].
    intros [ret results] w3 evs Htr He. cbn beta iota. apply wp_bind. wp_call u e. apply wp_ret.
    by eapply opened_used. }
  apply wp_bind. destruct (Z.eqb_spec (tcp_nodelay p) 0) as [Hn|Hn]; cbn [negb].
  { apply wp_ret. cbn beta iota. eapply wp_mono; [by apply Hrest|]. intros [ret r] w' [H ?].
    split; [by left|done]. }
  apply wp_bind, (wp_trigger _ (LwipSetsockopt _ _ _ _)). intros r e _. cbn in r.
  apply wp_ret. assert (H2 : opened sock w (emit (LwipSetsockopt sock IPPROTO_TCP TCP_NODELAY
    [tcp_nodelay p]) r e w1)) by by apply opened_same.
  destruct (Z.eqb_spec r 0) as [Hr|Hr]; cbn [negb].
  - eapply wp_mono; [by apply Hrest|]. intros [ret r'] w' [H ?]. split; [by left|done].
  - destruct H2 as [H2 (tr & Htr & _ & Hp)]. apply wp_ret. split; [|by exists tr].
    right. exists p, sock, r. do 5 (split; [done|]).
    split; [cbn [trace emit]; apply last_snoc|]. exact H2.
Qed.

(** C27: the socket of a TCP upload. On every path but one the upload closes the
    socket it opened. When the stack refuses the TCP_NODELAY option it does
    not: the call returns -EINVAL with the socket still open. It never has two
    sockets open. *)
Theorem zperf_tcp_upload_sockets fuel param result w :
  wp Partial (zperf_tcp_upload fuel param result) (fun '(ret, _) w' =>
    ((forall f, 0 <= f -> balance f (trace w') = balance f (trace w)) \/
     nodelay_refused param ret w w') /\
    at_most 1 w w') w.
Proof. apply tcp_upload_accounted. Qed.
End UploadSockets.

(** ** Witnesses *)
Section Witnesses.
#[local] Existing Instances lwip_example rtos_example ticking_errno ticking_send.
#[local] Existing Instance send_succeeds_ok.

(** A world of the ticking environment that starts at [now]. *)
Definition example_ticking (now : Z) : world Z := World example_globals now [].

Lemma sendall_spec_witness :
  exists ret w', sendall (Env0 := ticking) 6 3 [1; 2; 3; 4; 5] 5 (example_ticking 0)
      = Done (ret, w') /\ accepted 3 (trace w') = [1; 2; 3; 4; 5].
Proof.
  assert (H : wp Total _ _ _) by
    (apply (sendall_spec (E := Z) (Env0 := ticking) 6 3 [1; 2; 3; 4; 5] 5 (example_ticking 0));
     cbn; lia).
  apply wp_total_done in H. destruct H as (ret & w' & Hrun & evs & n & Htr & _ & Hacc & Hn & Hcase).
  exists ret, w'. split; [exact Hrun|]. vm_compute in Hrun. injection Hrun as <- <-. reflexivity.
Defined.

Lemma tcp_upload_spec_witness :
  exists r w', tcp_upload (Env0 := ticking) 2000 3 5 100 zero_results (example_ticking 0)
      = Done (0, r, w') /\ nb_packets_sent r = 4 /\ nb_packets_errors r = 0.
Proof.
  assert (H : wp Total _ _ _) by
    (apply (tcp_upload_spec (L := lwip_example) (R := rtos_example) (E := Z) (Env0 := ticking)
       (ClockReaches0 := ticking_clock 5 ltac:(lia)) 5
       2000 3 5 100 zero_results (example_ticking 0)); [reflexivity|lia|lia|cbn; lia]).
  apply wp_total_done in H.
  destruct H as ([ret r] & w' & Hrun & evs & n & m & start & fin & _).
  destruct (tcp_upload (Env0 := ticking) 2000 3 5 100 zero_results (example_ticking 0))
    as [[[ret' r'] w'']| |] eqn:Hrun'; [|discriminate Hrun..]. injection Hrun as -> -> ->.
  vm_compute in Hrun'. injection Hrun' as <- <- <-.
  by eexists _, _.
Defined.

Lemma tcp_upload_never_ends_witness :
  tcp_upload (Env0 := ticking) 20 3 5000 100 zero_results (example_ticking 4294967000) = OutOfFuel.
Proof.
  apply (tcp_upload_never_ends (R := rtos_example) (E := Z) (Env0 := ticking)); [lia|].
  vm_compute. discriminate.
Defined.
(** A stack that refuses every option. *)
Definition refusing : Env Z := {|
  answer c now :=
    match c with
    | LwipSetsockopt _ _ _ _ => (-1, now)
    | c => ticking_answer c now
    end;
|}.
Lemma refusing_errno : ErrnoOk Z (Env0 := refusing).
Proof. by split. Qed.
Definition example_nodelay : zperf_upload_params := UploadParams example_peer4 5 0 100 0 1 (-1).

Lemma zperf_tcp_upload_sockets_witness :
  exists w', zperf_tcp_upload (Env0 := refusing) 20 (Some example_nodelay) (Some zero_results)
      (example_ticking 0) = Done (- EINVAL, Some zero_results, w') /\ balance 0 (trace w') = 1.
Proof.
  pose proof (zperf_tcp_upload_sockets (L := lwip_example) (R := rtos_example) (E := Z)
    (Env0 := refusing) (ErrnoOk0 := refusing_errno) 20 (Some example_nodelay) (Some zero_results)
    (example_ticking 0)) as H.
  destruct (zperf_tcp_upload (Env0 := refusing) 20 (Some example_nodelay) (Some zero_results)
      (example_ticking 0)) as [[[ret r] w']| |] eqn:Hrun; [|vm_compute in Hrun; discriminate Hrun..].
  pose proof (wp_done _ _ _ _ _ _ H Hrun) as Hb. cbn beta iota in Hb.
  vm_compute in Hrun. injection Hrun as <- <- <-. eexists. split; reflexivity.
Defined.
End Witnesses.
