(* ===== verification/Resources.v ===== *)
(** The sockets of the whole program against the pool lwIP is configured with
    (lwip/include/lwipopts.h): the two servers and two uploads, one of the
    shell's task and one of the work task, in any interleaving. *)
From S2P Require Import Prelude CInt Platform NetIp Session World Environment Common Server UdpStats UdpReceiver UdpServer TcpReceiver UdpUploader TcpUploader.
Open Scope Z_scope.

(** lwipopts.h: the number of [struct netconn], one for every open socket. *)
Definition MEMP_NUM_NETCONN : Z := 10.

(** ** Interleavings *)
Inductive interleaved : list (list event) -> list event -> Prop :=
| interleaved_nil ts : Forall (fun t => t = []) ts -> interleaved ts []
| interleaved_cons i ev t ts tr :
    ts !! i = Some (ev :: t) -> interleaved (<[i := t]> ts) tr -> interleaved ts (ev :: tr).

Definition peaks (ts : list (list event)) : Z := sum (peak <$> ts).

Lemma peaks_nonneg ts : 0 <= peaks ts.
Proof.
  induction ts as [|t ts IH]; [done|]. change (peaks (t :: ts)) with (peak t + peaks ts).
  pose proof (peak_nonneg t). lia.
Qed.

Lemma peaks_insert i t t' ts :
  ts !! i = Some t -> peaks (<[i := t']> ts) = peaks ts - peak t + peak t' /\ peak t <= peaks ts.
Proof.
  revert i. induction ts as [|u ts IH]; intros [|i]; cbn [lookup list_lookup insert list_insert];
    [done..|intros [= ->]|].
  - change (peaks (t' :: ts)) with (peak t' + peaks ts). change (peaks (t :: ts)) with (peak t + peaks ts).
    pose proof (peaks_nonneg ts). lia.
  - intros Hi. destruct (IH i Hi) as [IH1 IH2]. pose proof (peak_nonneg u).
    change (peaks (u :: <[i := t']> ts)) with (peak u + peaks (<[i := t']> ts)).
    change (peaks (u :: ts)) with (peak u + peaks ts). lia.
Qed.

(** The most that is open in an interleaving: no more than in each part. *)
Lemma peak_interleaved ts tr : interleaved ts tr -> peak tr <= peaks ts.
Proof.
  induction 1 as [ts H|i ev t ts tr Hi _ IH]; [apply peaks_nonneg|].
  destruct (peaks_insert i _ t ts Hi) as [H1 H2]. cbn [peak foldr] in *. fold (peak t) (peak tr) in *.
  pose proof (peak_nonneg t). lia.
Qed.

(** The interleaving that takes its next event from the part the schedule
    names. *)
Fixpoint merge (schedule : list nat) (ts : list (list event)) : option (list event) :=
  match schedule with
  | [] => if forallb (fun t => match t with [] => true | _ => false end) ts then Some [] else None
  | i :: schedule =>
      match ts !! i with
      | Some (ev :: t) => cons ev <$> merge schedule (<[i := t]> ts)
      | _ => None
      end
  end.

Lemma merge_interleaved schedule ts tr : merge schedule ts = Some tr -> interleaved ts tr.
Proof.
  revert ts tr. induction schedule as [|i schedule IH]; intros ts tr; cbn [merge].
  - destruct (forallb _ ts) eqn:H; [|done]. intros [= <-]. constructor.
    rewrite forallb_forall in H. apply list.Forall_forall. intros t Ht.
    apply list_elem_of_In in Ht. specialize (H t Ht). by destruct t.
  - destruct (ts !! i) as [[|ev t]|] eqn:Hi; [done| |done].
    destruct (merge schedule _) as [tr'|] eqn:Hm; [|done]. intros [= <-].
    by apply (interleaved_cons i ev t), IH.
Qed.

(** ** The tasks *)
Section Tasks.
Context {L : Lwip} {LOk : LwipOk L} {R : Rtos} {E : Type} `{!Env E} {F : Type} `{!Env F, !ErrnoOk F}.

(** An upload of the shell's task or of the work task, and its trace. *)
Inductive upload_run : list event -> Prop :=
| udp_upload_run fuel p r a (w w' : world F) t :
    zperf_udp_upload fuel p r w = Done (a, w') -> trace w' = trace w ++ t -> upload_run t
| tcp_upload_run fuel p r a (w w' : world F) t :
    zperf_tcp_upload fuel p r w = Done (a, w') -> trace w' = trace w ++ t -> upload_run t.

Lemma at_most_peak {G} n (w w' : world G) t : at_most n w w' -> trace w' = trace w ++ t -> peak t <= n.
Proof. intros (tr & Htr & Hp) Ht. rewrite Htr in Ht. by apply app_inv_head in Ht as <-. Qed.

Lemma upload_run_peak t : upload_run t -> peak t <= 1.
Proof.
  intros [fuel p r a w w' t' Hm Ht|fuel p r a w w' t' Hm Ht]; apply (at_most_peak 1 w w'); try done.
  - apply (wp_done _ _ _ _ _ _ (udp_upload_accounted fuel p r w) Hm).
  - pose proof (wp_done _ _ _ _ _ _ (tcp_upload_accounted fuel p r w) Hm) as H. destruct a. apply H.
Qed.

(** C12: the sockets of the whole program. While each server runs a session and
    both the shell's task and the work task run an upload, whatever the stack
    answers, whatever requests are made to the servers and however the tasks
    interleave, at most eleven sockets are open at
    any moment: two of the UDP server, two listening sockets, four connections
    and one to be dropped of the TCP server, and one of each upload. That is one
    more than lwIP is configured with. *)
Theorem sockets_bounded arrive_u arrive_t fuel_u fuel_t (wu wu' wt wt' : world E) tr_u tr_t tr_s tr_a tr :
  length (tcp_fds (glob wt)) = SOCK_ID_MAX ->
  udp_server_session (udp_requests arrive_u) fuel_u wu = Done (tt, wu') -> trace wu' = trace wu ++ tr_u ->
  tcp_server_session (tcp_requests arrive_t) fuel_t wt = Done (tt, wt') -> trace wt' = trace wt ++ tr_t ->
  upload_run tr_s -> upload_run tr_a -> interleaved [tr_u; tr_t; tr_s; tr_a] tr ->
  forall p, p `prefix_of` tr -> net p <= MEMP_NUM_NETCONN + 1.
Proof.
  intros Hlen Hu Hu' Ht Ht' Hs Ha Htr p Hp.
  pose proof (at_most_peak _ _ _ _ (proj2 (wp_done _ _ _ _ _ _
    (udp_session_accounted _ fuel_u wu (udp_requests_no_socket arrive_u)) Hu)) Hu').
  pose proof (at_most_peak _ _ _ _ (proj2 (wp_done _ _ _ _ _ _
    (tcp_session_accounted _ fuel_t wt (tcp_requests_no_socket arrive_t)
       (tcp_requests_keeps fds_of arrive_t (fun _ _ => eq_refl)) Hlen) Ht)) Ht') as Hpt.
  apply upload_run_peak in Hs, Ha. apply peak_interleaved in Htr.
  change (peaks [tr_u; tr_t; tr_s; tr_a]) with (peak tr_u + (peak tr_t + (peak tr_s + (peak tr_a + 0)))) in Htr.
  change (Z.of_nat SOCK_ID_MAX + 1) with 7 in Hpt. change (MEMP_NUM_NETCONN + 1) with 11.
  pose proof (proj1 (peak_spec tr) p Hp). lia.
Qed.
End Tasks.

(** ** Witness

    The bound is reached: five clients connect to the TCP server while the other
    tasks have their sockets open. *)
Section Witness.
#[local] Existing Instances lwip_example rtos_example ticking_errno.

Definition example_udp_world : world (list reply) :=
  example_world [RZ 3; RZ 0; RZ 0; RZ 4; RZ 1; RZ 0; RPoll (-1) []].
Definition example_full_world : world (list reply) :=
  example_world ([RZ 3; RZ 0; RZ 0; RZ 0; RZ 4; RZ 1; RZ 0; RZ 0]
    ++ mjoin (List.map (fun s => [RPoll 1 [1; 0]; RData s example_peer4]) [5; 6; 7; 8; 9])
    ++ [RZ 0; RPoll (-1) []]).
Definition trace_of {G A} (o : outcome (A * world G)) : list event :=
  match o with Done (_, w) => trace w | _ => [] end.
Definition udp_trace : list event := Eval vm_compute in
  trace_of (udp_server_session (L := lwip_example) (R := rtos_example) (udp_requests (fun _ => [])) 5 example_udp_world).
Definition tcp_trace : list event := Eval vm_compute in
  trace_of (tcp_server_session (L := lwip_example) (R := rtos_example) (tcp_requests (fun _ => [])) 9 example_full_world).
Definition upload_trace : list event := Eval vm_compute in
  trace_of (zperf_udp_upload (L := lwip_example) (R := rtos_example) (Env0 := ticking) 20
    (Some (UploadParams example_peer4 5 800 100 0 0 (-1))) (Some zero_results) (World example_globals 0 [])).

Definition example_schedule : list nat :=
  (replicate 4 0 ++ [2; 3] ++ replicate 18 1
   ++ replicate 8 1 ++ replicate 5 0 ++ replicate 18 2 ++ replicate 18 3)%nat.
Definition example_interleaving : list event := Eval vm_compute in
  default [] (merge example_schedule [udp_trace; tcp_trace; upload_trace; upload_trace]).

Lemma example_upload_run : upload_run (L := lwip_example) (R := rtos_example) (Env1 := ticking) upload_trace.
Proof.
  destruct (zperf_udp_upload (L := lwip_example) (R := rtos_example) (Env0 := ticking) 20
      (Some (UploadParams example_peer4 5 800 100 0 0 (-1))) (Some zero_results)
      (World example_globals 0 [])) as [[a w']| |] eqn:Hrun; [|vm_compute in Hrun; discriminate Hrun..].
  apply (udp_upload_run _ _ _ _ _ _ upload_trace Hrun).
  vm_compute in Hrun. injection Hrun as <- <-. reflexivity.
Qed.

Lemma sockets_bounded_witness :
  interleaved [udp_trace; tcp_trace; upload_trace; upload_trace] example_interleaving /\
  net (take 24 example_interleaving) = 11 /\
  net (take 24 example_interleaving) <= MEMP_NUM_NETCONN + 1.
Proof.
  assert (Hi : interleaved [udp_trace; tcp_trace; upload_trace; upload_trace] example_interleaving)
    by (apply (merge_interleaved example_schedule); vm_compute; reflexivity).
  split; [exact Hi|]. split; [vm_compute; reflexivity|].
  destruct (udp_server_session (L := lwip_example) (R := rtos_example) (udp_requests (fun _ => [])) 5 example_udp_world)
    as [[[] wu]| |] eqn:Hu; [|vm_compute in Hu; discriminate Hu..].
  destruct (tcp_server_session (L := lwip_example) (R := rtos_example) (tcp_requests (fun _ => [])) 9 example_full_world)
    as [[[] wt]| |] eqn:Ht; [|vm_compute in Ht; discriminate Ht..].
  apply (sockets_bounded (L := lwip_example) (LOk := lwip_example_ok) (R := rtos_example) (F := Z)
           (Env1 := ticking) (ErrnoOk0 := ticking_errno) (fun _ => []) (fun _ => []) 5 9 example_udp_world wu example_full_world wt
           udp_trace tcp_trace upload_trace upload_trace example_interleaving);
    [reflexivity|exact Hu| |exact Ht| | | |exact Hi|].
  - vm_compute in Hu. injection Hu as <-. reflexivity.
  - vm_compute in Ht. injection Ht as <-. reflexivity.
  - apply example_upload_run.
  - apply example_upload_run.
  - apply prefix_take.
Defined.
End Witness.
