(* ===== verification/Control.v ===== *)
(** Starting and stopping the servers: the requests of other tasks
    ([zperf_udp_download], [zperf_tcp_download] and their stops) and the thread
    of a server, which wait for each other through a counting semaphore. The
    two servers are proved once, against an interface both implement. *)
From stdpp Require Import relations.
From S2P Require Import Prelude CInt Platform CString NetIp Session World Environment Common Server UdpStats UdpReceiver UdpServer TcpReceiver TcpSpec TcpSession.
Open Scope Z_scope.

(** ** The interface *)
Section Interface.
Context {L : Lwip} {R : Rtos} {E : Type} `{!Env E}.
Abbreviation W := (world E).

Definition no_semaphore (ev : event) : Prop :=
  match ev with
  | Event (SemaphoreGive _) _ | Event (SemaphoreTake _) _ => False
  | _ => True
  end.

(** Calls that leave a semaphore alone, and those of a server that neither
    takes anything from its clients nor tells anybody anything. *)
Definition silent_event (ev : event) : Prop :=
  match ev with
  | Event (LwipAccept _ _) _ | Event (LwipRecv _ _ _) _ | Event (LwipRecvfrom _ _ _ _) _
  | Event (LwipSend _ _ _) _ | Event (LwipSendto _ _ _ _) _ | Event (InvokeCallback _ _ _ _) _ => False
  | _ => True
  end.
Definition polling_event (ev : event) : Prop :=
  match ev with Event (LwipPoll _ _) _ => True | _ => False end.
Definition closing_event (ev : event) : Prop :=
  match ev with Event (LwipClose _) _ => True | _ => False end.

(** A session in parts, with the local variables [X] of its function: it opens
    the sockets; it waits in [poll]; it reads the flag and serves what has
    arrived; it closes the sockets. *)
Definition session_parts {X : Type} (start : M W (X * bool)) (wait : X -> M W (X * Z))
    (serve : X -> Z -> M W (X + X * bool)) (stop : X -> bool -> M W unit) (fuel : nat) : M W unit :=
  '(x, ok) ← start;
  '(x, err) ← (if ok : bool then loop fuel (fun x => '(x, ret) ← wait x; serve x ret) x
               else mret (x, true));
  stop x err.

(** A server: where its variables are, its two requests, and the session its
    thread runs, in parts; a session leaves the variables and the semaphores
    alone. With the flag set it serves nothing, and without a callback it calls
    none at the end. *)
Class ServerControl : Type := {
  sc_get : globals -> server;
  sc_put : server -> globals -> globals;
  sc_download : option zperf_download_params -> option callback -> Z -> M W Z;
  sc_download_stop : M W Z;
  sc_local : Type;
  sc_open : M W (sc_local * bool);
  sc_poll : sc_local -> M W (sc_local * Z);
  sc_serve : sc_local -> Z -> M W (sc_local + sc_local * bool);
  sc_close : sc_local -> bool -> M W unit;
  sc_session : nat -> M W unit;
  sc_get_put : forall s g, sc_get (sc_put s g) = s;
  sc_download_null : forall p cb ud w, p = None \/ cb = None ->
    sc_download p cb ud w = Done (- EINVAL, w);
  sc_download_spec : forall p cb ud w,
    sc_download (Some p) (Some cb) ud w =
      if server_running (sc_get (glob w)) then Done (- EALREADY, w)
      else (s ← lift (server_start p cb ud (sc_get (glob w)));
            upd_glob (sc_put s);; k_sem_give (server_run s);; mret 0) w;
  sc_download_stop_spec : forall w,
    sc_download_stop w =
      if server_running (sc_get (glob w))
      then Done (0, with_glob (sc_put (server_stop_request (sc_get (glob w)))) w)
      else Done (- EALREADY, w);
  sc_session_spec : forall fuel w,
    sc_session fuel w = session_parts sc_open sc_poll sc_serve sc_close fuel w;
  sc_open_keeps : keeps sc_get sc_open;
  sc_poll_keeps : forall x, keeps sc_get (sc_poll x);
  sc_serve_keeps : forall x ret, keeps sc_get (sc_serve x ret);
  sc_close_keeps : forall x err, keeps sc_get (sc_close x err);
  sc_open_events : only opening_event sc_open;
  sc_poll_events : forall x, only polling_event (sc_poll x);
  sc_serve_semaphore : forall x ret, only no_semaphore (sc_serve x ret);
  sc_close_semaphore : forall x err, only no_semaphore (sc_close x err);
  sc_serve_stopped : forall x ret w, server_stop (sc_get (glob w)) = true ->
    exists err, sc_serve x ret w = Done (inr (x, err), w);
  sc_close_silent : forall x err w, session_cb (sc_get (glob w)) = None ->
    wp Partial (sc_close x err) (fun _ w' => exists evs,
      trace w' = trace w ++ evs /\ Forall closing_event evs) w;
}.

(** The thread's loop: wait for a request, run a session, mark the end. *)
Definition sc_take {C : ServerControl} : M W unit :=
  srv ← get_glob sc_get; k_sem_take (server_run srv).
Definition sc_end {C : ServerControl} : M W unit :=
  upd_glob (fun g => sc_put (set_running false (sc_get g)) g).
Definition sc_turn {C : ServerControl} (fuel : nat) : M W unit :=
  sc_take;; sc_session fuel;; sc_end.

Lemma opening_silent ev : opening_event ev -> silent_event ev.
Proof. by destruct ev as [[] r]. Qed.
Lemma polling_silent ev : polling_event ev -> silent_event ev.
Proof. by destruct ev as [[] r]. Qed.
Lemma closing_silent ev : closing_event ev -> silent_event ev.
Proof. by destruct ev as [[] r]. Qed.
Lemma opening_no_semaphore ev : opening_event ev -> no_semaphore ev.
Proof. by destruct ev as [[] r]. Qed.
Lemma polling_no_semaphore ev : polling_event ev -> no_semaphore ev.
Proof. by destruct ev as [[] r]. Qed.

(** The end of a session, when nobody is to be told. *)
Lemma wp_silent_end {A} (m : M W A) srv err w :
  (forall w, wp Partial m (fun _ w' => exists evs,
     trace w' = trace w ++ evs /\ Forall closing_event evs) w) ->
  session_cb (srv (glob w)) = None ->
  wp Partial (when err (notify srv ZPERF_SESSION_ERROR None);; m) (fun _ w' => exists evs,
    trace w' = trace w ++ evs /\ Forall closing_event evs) w.
Proof.
  intros Hm Hcb. apply wp_bind. apply wp_when; [|intros _; apply Hm]. intros _.
  apply wp_notify. intros e. unfold notified. rewrite Hcb, app_nil_r.
  apply (Hm (World (glob w) e (trace w))).
Qed.
End Interface.
Arguments ServerControl {L} E {_}.

(** A server whose session is never stuck, other than in [poll]: with its static
    data of the sizes declared, its parts return. *)
Class ServerReturns {L : Lwip} {E : Type} `{!Env E} (C : ServerControl E) : Type := {
  sc_sized : globals -> Prop;
  sc_open_returns : forall w, sc_sized (glob w) -> wp Total sc_open (fun _ _ => True) w;
  sc_poll_returns : forall x w, wp Total (sc_poll x) (fun _ _ => True) w;
  sc_close_returns : forall x err w, sc_sized (glob w) -> wp Total (sc_close x err) (fun _ _ => True) w;
}.

(** ** The UDP server *)
Section UdpInstance.
Context {L : Lwip} {R : Rtos} {E : Type} `{!Env E}.
Abbreviation W := (world E).

Definition udp_open : M W (list pollfd * bool) :=
  '(fds, ok) ← (if CONFIG_NET_IPV4 then udp_open_ipv4 [no_fd; no_fd] else mret ([no_fd; no_fd], true));
  if ok && CONFIG_NET_IPV6 then udp_open_ipv6 fds else mret (fds, ok).

Definition udp_poll (fds : list pollfd) : M W (list pollfd * Z) :=
  '(ret, rs) ← trigger (LwipPoll fds POLL_TIMEOUT_MS);
  mret (store_revents fds rs, ret).

Definition udp_after_poll (fds : list pollfd) (ret : Z) : M W (list pollfd + list pollfd * bool) :=
  if ret <? 0 then mret (inr (fds, true)) else
  srv ← get_glob udp_server;
  if server_stop srv then mret (inr (fds, false)) else
  if ret =? 0 then mret (inl fds) else
  ok ← udp_serve fds;
  mret (if ok : bool then inl fds else inr (fds, true)).

Definition udp_close (fds : list pollfd) (err : bool) : M W unit :=
  when err (notify udp_server ZPERF_SESSION_ERROR None);;
  close_all fds.

Lemma udp_session_spec fuel (w : W) :
  udp_server_session nobody fuel w = session_parts udp_open udp_poll udp_after_poll udp_close fuel w.
Proof.
  unfold udp_server_session, session_parts, udp_open. cbn [CONFIG_NET_IPV4 CONFIG_NET_IPV6].
  unfold mbind, M_bind. destruct (udp_open_ipv4 _ w) as [[[fds ok] w1]| |]; [|done..].
  destruct ok; cbn [andb CONFIG_NET_IPV6]; [|done]. destruct (udp_open_ipv6 fds w1) as [[[fds' ok'] w2]| |]; [|done..].
  destruct ok'; [|done]. erewrite loop_ext; [reflexivity|]. clear. intros fds w.
  unfold udp_turn, udp_poll, mbind, M_bind. by destruct (trigger _ w) as [[[ret rs] w1]| |].
Qed.

Lemma udp_received_keeps_server sock addr data len :
  keeps udp_server (udp_received (E := E) sock addr data len).
Proof.
  unfold udp_received, udp_received_idle, udp_received_ongoing, zperf_receiver_send_stat,
    find_session, load_session, store_session. by keeps_steps.
Qed.
Lemma udp_received_no_semaphore sock addr data len :
  only no_semaphore (udp_received (E := E) sock addr data len).
Proof.
  unfold udp_received, udp_received_idle, udp_received_ongoing, zperf_receiver_send_stat,
    find_session, load_session, store_session, notify, k_uptime_ticks. by only_steps.
Qed.
#[local] Hint Resolve udp_received_keeps_server udp_received_no_semaphore : zperf.

Lemma udp_serve_keeps_server fds : keeps udp_server (udp_serve (E := E) fds).
Proof. induction fds as [|p fds IH]; cbn [udp_serve]; by keeps_steps. Qed.
Lemma udp_serve_no_semaphore fds : only no_semaphore (udp_serve (E := E) fds).
Proof. induction fds as [|p fds IH]; cbn [udp_serve]; by only_steps. Qed.
Lemma close_all_keeps_server fds : keeps udp_server (close_all (E := E) fds).
Proof. induction fds as [|p fds IH]; cbn [close_all]; by keeps_steps. Qed.
Lemma close_all_closing fds : only closing_event (close_all (E := E) fds).
Proof. induction fds as [|p fds IH]; cbn [close_all]; by only_steps. Qed.
Lemma close_all_no_semaphore fds : only no_semaphore (close_all (E := E) fds).
Proof. eapply only_impl; [|apply close_all_closing]. by intros [[] r]. Qed.
#[local] Hint Resolve udp_serve_keeps_server udp_serve_no_semaphore close_all_keeps_server
  close_all_no_semaphore : zperf.

Lemma udp_open_keeps : keeps udp_server udp_open.
Proof.
  unfold udp_open, udp_open_ipv4, udp_open_ipv6, zperf_get_ipv4_addr, zperf_get_ipv6_addr,
    net_if_ipv4_addr_add, net_if_ipv6_addr_add, net_if_ipv6_prefix_add. by keeps_steps.
Qed.
Lemma udp_open_events : only opening_event udp_open.
Proof.
  unfold udp_open, udp_open_ipv4, udp_open_ipv6, zperf_get_ipv4_addr, zperf_get_ipv6_addr,
    net_if_ipv4_addr_add, net_if_ipv6_addr_add, net_if_ipv6_prefix_add. by only_steps.
Qed.
Lemma udp_poll_keeps fds : keeps udp_server (udp_poll fds).
Proof. unfold udp_poll. by keeps_steps. Qed.
Lemma udp_poll_events fds : only polling_event (udp_poll fds).
Proof. unfold udp_poll. by only_steps. Qed.
Lemma udp_after_poll_keeps fds ret : keeps udp_server (udp_after_poll fds ret).
Proof. unfold udp_after_poll. by keeps_steps. Qed.
Lemma udp_after_poll_semaphore fds ret : only no_semaphore (udp_after_poll fds ret).
Proof. unfold udp_after_poll. by only_steps. Qed.
Lemma udp_close_keeps fds err : keeps udp_server (udp_close fds err).
Proof. unfold udp_close. by keeps_steps. Qed.
Lemma udp_close_semaphore fds err : only no_semaphore (udp_close fds err).
Proof. unfold udp_close, notify. by only_steps. Qed.

#[export] Program Instance udp_control : ServerControl E := {|
  sc_get := udp_server;
  sc_put := set_udp_server;
  sc_download := zperf_udp_download;
  sc_download_stop := zperf_udp_download_stop;
  sc_open := udp_open;
  sc_poll := udp_poll;
  sc_serve := udp_after_poll;
  sc_close := udp_close;
  sc_session := udp_server_session nobody;
  sc_session_spec := udp_session_spec;
  sc_open_keeps := udp_open_keeps;
  sc_poll_keeps := udp_poll_keeps;
  sc_serve_keeps := udp_after_poll_keeps;
  sc_close_keeps := udp_close_keeps;
  sc_open_events := udp_open_events;
  sc_poll_events := udp_poll_events;
  sc_serve_semaphore := udp_after_poll_semaphore;
  sc_close_semaphore := udp_close_semaphore;
|}.
Next Obligation. done. Qed.
Next Obligation. intros [] [] ud w [H|H]; by try discriminate H. Qed.
Next Obligation.
  intros p cb ud w. unfold zperf_udp_download, get_glob, gets, mbind, M_bind.
  by destruct (server_running (udp_server (glob w))).
Qed.
Next Obligation.
  intros w. unfold zperf_udp_download_stop, get_glob, gets, mbind, M_bind.
  by destruct (server_running (udp_server (glob w))).
Qed.
Next Obligation.
  intros fds ret w Hs. unfold udp_after_poll, get_glob, gets, mbind, M_bind.
  destruct (ret <? 0); [by eexists|]. rewrite Hs. by eexists.
Qed.
Next Obligation. intros fds err w Hcb. apply wp_silent_end; [apply close_all_closing|exact Hcb]. Qed.

Lemma udp_thread_turn fuel w :
  udp_receiver_thread_turn (E := E) nobody fuel w = sc_turn (C := udp_control) fuel w.
Proof.
  unfold udp_receiver_thread_turn, sc_turn, sc_take, sc_end, get_glob, gets, mbind, M_bind. cbn.
  by destruct (k_sem_take _ w) as [[[] w']| |].
Qed.

#[export] Program Instance udp_returns {LOk : LwipOk L} : ServerReturns udp_control := {|
  sc_sized := statics_ok;
|}.
Next Obligation.
  intros LOk w Hw. cbn [sc_open udp_control]. unfold udp_open. cbn [CONFIG_NET_IPV4 CONFIG_NET_IPV6].
  apply wp_bind. eapply wp_mono; [by apply udp_open_ipv4_kept|]. intros [fds []] w1 [H1 _]; cbn [andb].
  - eapply wp_mono; [by apply udp_open_ipv6_kept|done].
  - by apply wp_ret.
Qed.
Next Obligation.
  intros LOk fds w. cbn [sc_poll udp_control]. unfold udp_poll. apply wp_bind. wp_call r e.
  destruct r. by apply wp_ret.
Qed.
Next Obligation.
  intros LOk fds err w _. cbn [sc_close udp_control]. unfold udp_close. apply wp_bind.
  assert (Hc : forall w, wp Total (close_all fds) (fun _ _ => True) w)
    by (intros w'; eapply wp_mono; [apply close_all_closes|done]).
  apply wp_when; intros _; [apply wp_notify; intros e|]; apply Hc.
Qed.
End UdpInstance.

(** ** The TCP server *)
Section TcpInstance.
Context {L : Lwip} {R : Rtos} {E : Type} `{!Env E}.
Abbreviation W := (world E).

(** Its array of sockets is static: the session has no local variables. *)
Definition tcp_open : M W (unit * bool) :=
  upd_glob (fun g => set_tcp_fds (set_fd (-1) <$> tcp_fds g) g);;
  ok ← (if CONFIG_NET_IPV4 then tcp_open_ipv4 else mret true);
  ok ← (if ok && CONFIG_NET_IPV6 then tcp_open_ipv6 else mret ok);
  mret (tt, ok).

Definition tcp_poll (_ : unit) : M W (unit * Z) :=
  fds ← get_glob tcp_fds;
  '(ret, rs) ← trigger (LwipPoll fds POLL_TIMEOUT_MS);
  upd_glob (fun g => set_tcp_fds (store_revents (tcp_fds g) rs) g);;
  mret (tt, ret).

Definition tcp_after_poll (_ : unit) (ret : Z) : M W (unit + unit * bool) :=
  if ret <? 0 then mret (inr (tt, true)) else
  srv ← get_glob tcp_server;
  if server_stop srv then mret (inr (tt, false)) else
  if ret =? 0 then mret (inl tt) else
  ok ← tcp_serve 0 SOCK_ID_MAX;
  mret (if ok : bool then inl tt else inr (tt, true)).

Definition tcp_close (_ : unit) (err : bool) : M W unit :=
  when err tcp_session_error_report;;
  tcp_cleanup 0 SOCK_ID_MAX.

(** A loop whose exits are given another name. *)
Lemma loop_exits {S A B D} (f : B -> D) (body : A -> M S (A + B)) (body' : A -> M S (A + D)) fuel a s :
  (forall a s, body' a s =
     match body a s with
     | Done (inl a', s') => Done (inl a', s')
     | Done (inr b, s') => Done (inr (f b), s')
     | Fault flt => Fault flt
     | OutOfFuel => OutOfFuel
     end) ->
  loop fuel body' a s =
    match loop fuel body a s with
    | Done (b, s') => Done (f b, s')
    | Fault flt => Fault flt
    | OutOfFuel => OutOfFuel
    end.
Proof.
  intros Hb. revert a s. induction fuel as [|fuel IH]; intros a s; [done|].
  cbn [loop]. unfold mbind, M_bind. rewrite Hb. by destruct (body a s) as [[[a'|b] s']| |].
Qed.

Lemma tcp_after_poll_turn x (w : W) :
  ('(x, ret) ← tcp_poll x; tcp_after_poll x ret) w =
    match tcp_turn nobody x w with
    | Done (inl x', w') => Done (inl x', w')
    | Done (inr err, w') => Done (inr (tt, err), w')
    | Fault flt => Fault flt
    | OutOfFuel => OutOfFuel
    end.
Proof.
  unfold tcp_turn, nobody, tcp_poll, tcp_after_poll, get_glob, gets, upd_glob, modify, mbind, M_bind.
  destruct (trigger _ w) as [[[ret rs] w1]| |]; [|done..]. unfold mret, M_ret. cbn beta iota.
  destruct (ret <? 0); [done|]. destruct (server_stop _); [done|]. destruct (ret =? 0); [done|].
  by destruct (tcp_serve 0 SOCK_ID_MAX _) as [[[] w2]| |].
Qed.

Lemma tcp_session_spec fuel (w : W) :
  tcp_server_session nobody fuel w = session_parts tcp_open tcp_poll tcp_after_poll tcp_close fuel w.
Proof.
  unfold tcp_server_session, session_parts, tcp_open. cbn [CONFIG_NET_IPV4 CONFIG_NET_IPV6].
  unfold mbind, M_bind, upd_glob, modify. set (w0 := with_glob _ w).
  destruct (tcp_open_ipv4 w0) as [[ok w1]| |]; [|done..].
  destruct ok; cbn [andb CONFIG_NET_IPV6]; [|done]. destruct (tcp_open_ipv6 w1) as [[ok' w2]| |]; [|done..].
  destruct ok'; [|done]. unfold mret, M_ret.
  erewrite (loop_exits (fun err => (tt, err)) (tcp_turn nobody) _ fuel tt w2) by apply tcp_after_poll_turn.
  by destruct (loop fuel (tcp_turn nobody) tt w2) as [[err w3]| |].
Qed.

Lemma tcp_received_keeps_server addr len : keeps tcp_server (tcp_received (E := E) addr len).
Proof.
  unfold tcp_received, tcp_session_start, tcp_session_data, find_session, load_session,
    store_session. by keeps_steps.
Qed.
Lemma tcp_received_no_semaphore addr len : only no_semaphore (tcp_received (E := E) addr len).
Proof.
  unfold tcp_received, tcp_session_start, tcp_session_data, find_session, load_session,
    store_session, notify, k_uptime_ticks. by only_steps.
Qed.
#[local] Hint Resolve tcp_received_keeps_server tcp_received_no_semaphore : zperf.

Lemma tcp_serve_keeps_server i n : keeps tcp_server (tcp_serve (E := E) i n).
Proof.
  revert i. induction n as [|n IH]; intros i; cbn [tcp_serve];
    unfold tcp_accept, tcp_receive, tcp_session_error_report, get_fd, upd_fd, get_sock_addr,
      put_sock_addr; by keeps_steps.
Qed.
Lemma tcp_serve_no_semaphore i n : only no_semaphore (tcp_serve (E := E) i n).
Proof.
  revert i. induction n as [|n IH]; intros i; cbn [tcp_serve];
    unfold tcp_accept, tcp_receive, tcp_session_error_report, notify, get_fd, upd_fd, get_sock_addr,
      put_sock_addr; by only_steps.
Qed.
Lemma tcp_cleanup_keeps_server i n : keeps tcp_server (tcp_cleanup (E := E) i n).
Proof.
  revert i. induction n as [|n IH]; intros i; cbn [tcp_cleanup];
    unfold get_fd, get_sock_addr, put_sock_addr; by keeps_steps.
Qed.
Lemma tcp_cleanup_closing i n : only closing_event (tcp_cleanup (E := E) i n).
Proof.
  revert i. induction n as [|n IH]; intros i; cbn [tcp_cleanup];
    unfold get_fd, get_sock_addr, put_sock_addr; by only_steps.
Qed.
Lemma tcp_cleanup_no_semaphore i n : only no_semaphore (tcp_cleanup (E := E) i n).
Proof. eapply only_impl; [|apply tcp_cleanup_closing]. by intros [[] r]. Qed.
#[local] Hint Resolve tcp_serve_keeps_server tcp_serve_no_semaphore tcp_cleanup_keeps_server
  tcp_cleanup_no_semaphore : zperf.

Lemma tcp_open_keeps : keeps tcp_server tcp_open.
Proof.
  unfold tcp_open, tcp_open_ipv4, tcp_open_ipv6, tcp_bind_listen_connection, put_sock_addr, get_fd,
    upd_fd, zperf_get_ipv4_addr, zperf_get_ipv6_addr, net_if_ipv4_addr_add, net_if_ipv6_addr_add,
    net_if_ipv6_prefix_add. by keeps_steps.
Qed.
Lemma tcp_open_events : only opening_event tcp_open.
Proof.
  unfold tcp_open, tcp_open_ipv4, tcp_open_ipv6, tcp_bind_listen_connection, put_sock_addr, get_fd,
    upd_fd, zperf_get_ipv4_addr, zperf_get_ipv6_addr, net_if_ipv4_addr_add, net_if_ipv6_addr_add,
    net_if_ipv6_prefix_add. by only_steps.
Qed.
Lemma tcp_poll_keeps x : keeps tcp_server (tcp_poll x).
Proof. unfold tcp_poll. by keeps_steps. Qed.
Lemma tcp_poll_events x : only polling_event (tcp_poll x).
Proof. unfold tcp_poll. by only_steps. Qed.
Lemma tcp_after_poll_keeps x ret : keeps tcp_server (tcp_after_poll x ret).
Proof. unfold tcp_after_poll. by keeps_steps. Qed.
Lemma tcp_after_poll_semaphore x ret : only no_semaphore (tcp_after_poll x ret).
Proof. unfold tcp_after_poll. by only_steps. Qed.
Lemma tcp_close_keeps x err : keeps tcp_server (tcp_close x err).
Proof. unfold tcp_close, tcp_session_error_report. by keeps_steps. Qed.
Lemma tcp_close_semaphore x err : only no_semaphore (tcp_close x err).
Proof. unfold tcp_close, tcp_session_error_report, notify. by only_steps. Qed.

Program Definition tcp_control : ServerControl E := {|
  sc_get := tcp_server;
  sc_put := set_tcp_server;
  sc_download := zperf_tcp_download;
  sc_download_stop := zperf_tcp_download_stop;
  sc_open := tcp_open;
  sc_poll := tcp_poll;
  sc_serve := tcp_after_poll;
  sc_close := tcp_close;
  sc_session := tcp_server_session nobody;
  sc_session_spec := tcp_session_spec;
  sc_open_keeps := tcp_open_keeps;
  sc_poll_keeps := tcp_poll_keeps;
  sc_serve_keeps := tcp_after_poll_keeps;
  sc_close_keeps := tcp_close_keeps;
  sc_open_events := tcp_open_events;
  sc_poll_events := tcp_poll_events;
  sc_serve_semaphore := tcp_after_poll_semaphore;
  sc_close_semaphore := tcp_close_semaphore;
|}.
Next Obligation. done. Qed.
Next Obligation. intros [] [] ud w [H|H]; by try discriminate H. Qed.
Next Obligation.
  intros p cb ud w. unfold zperf_tcp_download, get_glob, gets, mbind, M_bind.
  by destruct (server_running (tcp_server (glob w))).
Qed.
Next Obligation.
  intros w. unfold zperf_tcp_download_stop, get_glob, gets, mbind, M_bind.
  by destruct (server_running (tcp_server (glob w))).
Qed.
Next Obligation.
  intros [] ret w Hs. unfold tcp_after_poll, get_glob, gets, mbind, M_bind.
  destruct (ret <? 0); [by eexists|]. rewrite Hs. by eexists.
Qed.
Next Obligation. intros x err w Hcb. apply wp_silent_end; [apply tcp_cleanup_closing|exact Hcb]. Qed.

Lemma tcp_thread_turn fuel w :
  tcp_receiver_thread_turn (E := E) nobody fuel w = sc_turn (C := tcp_control) fuel w.
Proof.
  unfold tcp_receiver_thread_turn, sc_turn, sc_take, sc_end, get_glob, gets, mbind, M_bind. cbn.
  by destruct (k_sem_take _ w) as [[[] w']| |].
Qed.

Lemma tcp_statics_reset g : tcp_statics g -> tcp_statics (set_tcp_fds (set_fd (-1) <$> tcp_fds g) g).
Proof. intros Hg. split; cbn; try apply Hg. rewrite length_fmap. apply Hg. Qed.

Program Definition tcp_returns {LOk : LwipOk L} : ServerReturns tcp_control := {|
  sc_sized := tcp_statics;
|}.
Next Obligation.
  intros LOk w Hw. cbn [sc_open tcp_control]. unfold tcp_open. cbn [CONFIG_NET_IPV4 CONFIG_NET_IPV6].
  apply wp_bind, wp_modify, wp_bind.
  eapply wp_mono; [apply tcp_open_ipv4_opens; by apply tcp_statics_reset|].
  intros ok w1 (s4 & [H1 _] & _). apply wp_bind. destruct ok; cbn [andb]; [|by apply wp_ret].
  eapply wp_mono; [by apply tcp_open_ipv6_opens|]. intros. by apply wp_ret.
Qed.
Next Obligation.
  intros LOk x w. cbn [sc_poll tcp_control]. unfold tcp_poll. apply wp_bind, wp_gets, wp_bind.
  wp_call r e. destruct r. apply wp_bind, wp_modify. by apply wp_ret.
Qed.
Next Obligation.
  intros LOk x err w Hw. cbn [sc_close tcp_control]. unfold tcp_close, tcp_session_error_report.
  assert (Hc : forall w', glob w' = glob w -> wp Total (tcp_cleanup 0 SOCK_ID_MAX) (fun _ _ => True) w').
  { intros w' Hg. rewrite <- Hg in Hw. eapply wp_mono; [by apply tcp_cleanup_sessions; try apply Hw|done]. }
  apply wp_bind, wp_when; intros _; [apply wp_notify; intros e|]; by apply Hc.
Qed.
End TcpInstance.

(** ** The protocol *)
(** Where the thread is: it waits for a request, opens the sockets, is in [poll]
    or has returned from it, closes the sockets, or is about to mark the end. *)
Inductive phase (X : Type) : Type :=
| Waiting
| Opening
| Polling (x : X)
| Polled (x : X) (ret : Z)
| Closing (x : X) (err : bool)
| Ending.
Arguments Waiting {X}.
Arguments Opening {X}.
Arguments Polling {X} x.
Arguments Polled {X} x ret.
Arguments Closing {X} x err.
Arguments Ending {X}.

(** How many steps of the thread are left, at most, before it marks the end,
    when it is to stop. *)
Definition steps_left {X} (ph : phase X) : nat :=
  match ph with
  | Waiting => 5
  | Opening => 4
  | Polling _ => 3
  | Polled _ _ => 2
  | Closing _ _ => 1
  | Ending => 0
  end.

Section Protocol.
Context {L : Lwip} {R : Rtos} {E : Type} `{!Env E} {C : ServerControl E} (h : Z).
Implicit Types w : world E.

(** The count of the semaphore [h]: those given and not yet taken. *)
Definition token (ev : event) : Z :=
  match ev with
  | Event (SemaphoreGive h') _ => if h' =? h then 1 else 0
  | Event (SemaphoreTake h') _ => if h' =? h then -1 else 0
  | _ => 0
  end.
Definition tokens (tr : list event) : Z := sum (token <$> tr).

(** A step of the server's thread: it takes the semaphore, which blocks while its
    count is zero; then the parts of its session; then it marks the end. *)
Inductive thread_step : world E * phase sc_local -> world E * phase sc_local -> Prop :=
| step_take w w' :
    0 < tokens (trace w) -> sc_take w = Done (tt, w') -> thread_step (w, Waiting) (w', Opening)
| step_open x (ok : bool) w w' :
    sc_open w = Done ((x, ok), w') ->
    thread_step (w, Opening) (w', if ok then Polling x else Closing x true)
| step_poll x x' ret w w' :
    sc_poll x w = Done ((x', ret), w') -> thread_step (w, Polling x) (w', Polled x' ret)
| step_serve x ret r w w' :
    sc_serve x ret w = Done (r, w') ->
    thread_step (w, Polled x ret) (w', match r with inl x' => Polling x' | inr (x', err) => Closing x' err end)
| step_close x err w w' :
    sc_close x err w = Done (tt, w') -> thread_step (w, Closing x err) (w', Ending)
| step_end w w' :
    sc_end w = Done (tt, w') -> thread_step (w, Ending) (w', Waiting).

(** A step of another task: a request, or anything that leaves the server's
    variables and its semaphore alone. *)
Inductive task_step : world E -> world E -> Prop :=
| step_download p cb ud r w w' : sc_download p cb ud w = Done (r, w') -> task_step w w'
| step_download_stop r w w' : sc_download_stop w = Done (r, w') -> task_step w w'
| step_other {A} (m : M (world E) A) a w w' :
    keeps sc_get m -> only (fun ev => token ev = 0) m -> m w = Done (a, w') -> task_step w w'.

Inductive control_step : world E * phase sc_local -> world E * phase sc_local -> Prop :=
| step_thread s s' : thread_step s s' -> control_step s s'
| step_task w w' ph : task_step w w' -> control_step (w, ph) (w', ph).

(** Once the thread has created the semaphore. *)
Definition control_ready (s : world E * phase sc_local) : Prop :=
  let '(w, ph) := s in
  semaphore_handle (server_run (sc_get (glob w))) = Some h /\
  server_running (sc_get (glob w)) = false /\ tokens (trace w) = 0 /\ ph = Waiting.

Definition control_inv (s : world E * phase sc_local) : Prop :=
  let '(w, ph) := s in
  semaphore_handle (server_run (sc_get (glob w))) = Some h /\
  match ph with
  | Waiting => tokens (trace w) = if server_running (sc_get (glob w)) then 1 else 0
  | _ => server_running (sc_get (glob w)) = true /\ tokens (trace w) = 0
  end.

Lemma tokens_app tr1 tr2 : tokens (tr1 ++ tr2) = tokens tr1 + tokens tr2.
Proof.
  unfold tokens. rewrite fmap_app. induction (token <$> tr1) as [|x l IH]; [done|].
  cbn [app sum foldr]. fold (sum l) (sum (l ++ (token <$> tr2))). rewrite IH. lia.
Qed.

Lemma tokens_quiet evs : Forall (fun ev => token ev = 0) evs -> tokens evs = 0.
Proof.
  induction 1 as [|ev evs He _ IH]; [done|]. change (token ev + tokens evs = 0). lia.
Qed.

Lemma quiet_step {A} (m : M (world E) A) a w w' :
  keeps sc_get m -> only (fun ev => token ev = 0) m -> m w = Done (a, w') ->
  sc_get (glob w') = sc_get (glob w) /\ tokens (trace w') = tokens (trace w).
Proof.
  intros Hk Ho Hm. split; [exact (wp_done _ _ _ _ _ _ (Hk w) Hm)|].
  destruct (wp_done _ _ _ _ _ _ (Ho w) Hm) as (evs & -> & He).
  rewrite tokens_app, (tokens_quiet evs He). lia.
Qed.

Lemma no_semaphore_quiet {A} (m : M (world E) A) :
  only no_semaphore m -> only (fun ev => token ev = 0) m.
Proof. apply only_impl. by intros [[] r]. Qed.

Lemma opening_quiet : only (fun ev => token ev = 0) (sc_open (E := E)).
Proof. eapply no_semaphore_quiet, only_impl; [apply opening_no_semaphore|apply sc_open_events]. Qed.
Lemma polling_quiet x : only (fun ev => token ev = 0) (sc_poll (E := E) x).
Proof. eapply no_semaphore_quiet, only_impl; [apply polling_no_semaphore|apply sc_poll_events]. Qed.

(** A start request that is accepted. *)
Lemma download_accepted p cb ud s w :
  server_running (sc_get (glob w)) = false ->
  semaphore_handle (server_run (sc_get (glob w))) = Some h ->
  server_start p cb ud (sc_get (glob w)) = Done s ->
  exists w', sc_download (Some p) (Some cb) ud w = Done (0, w') /\ sc_get (glob w') = s /\
    tokens (trace w') = tokens (trace w) + 1.
Proof.
  intros Hrun Hh Hs. rewrite sc_download_spec, Hrun.
  assert (Hsem : server_run s = server_run (sc_get (glob w))).
  { unfold server_start in Hs. unfold mbind, outcome_bind in Hs.
    destruct (memcpy _ _ _ _ _); [|done..]. by injection Hs as <-. }
  unfold mbind, M_bind, lift, upd_glob, modify, k_sem_give, trigger, mret, M_ret. rewrite Hs, Hsem, Hh.
  cbn [env with_glob]. destruct (answer (SemaphoreGive h) (env w)) as [r e].
  eexists. split; [reflexivity|]. cbn [glob emit with_glob trace]. split; [apply sc_get_put|].
  rewrite tokens_app. change (tokens [Event (SemaphoreGive h) r]) with ((if h =? h then 1 else 0) + 0).
  rewrite Z.eqb_refl. lia.
Qed.

Lemma server_start_fields p cb ud s s' :
  server_start p cb ud s = Done s' ->
  server_running s' = true /\ server_stop s' = false /\ session_cb s' = Some cb /\
  user_data s' = ud /\ server_port s' = dp_port p /\ server_run s' = server_run s.
Proof.
  unfold server_start, mbind, outcome_bind. destruct (memcpy _ _ _ _ _); [|done..].
  by intros [= <-].
Qed.

Lemma download_inv p cb ud r w w' ph :
  sc_download p cb ud w = Done (r, w') -> control_inv (w, ph) -> control_inv (w', ph).
Proof.
  intros Hm Hinv. destruct p as [p|]; [|rewrite sc_download_null in Hm by auto; by injection Hm as <- <-].
  destruct cb as [cb|]; [|rewrite sc_download_null in Hm by auto; by injection Hm as <- <-].
  destruct (server_running (sc_get (glob w))) eqn:Hrun.
  { rewrite sc_download_spec, Hrun in Hm. by injection Hm as <- <-. }
  destruct Hinv as [Hh Hinv]. rewrite Hrun in Hinv.
  destruct (server_start p cb ud (sc_get (glob w))) as [s| |] eqn:Hs;
    [|rewrite sc_download_spec, Hrun in Hm; unfold mbind, M_bind, lift in Hm; by rewrite Hs in Hm..].
  destruct (download_accepted p cb ud s w Hrun Hh Hs) as (w1 & Hm1 & Hg & Ht).
  assert (w1 = w') as -> by congruence.
  destruct (server_start_fields _ _ _ _ _ Hs) as (Hr' & _ & _ & _ & _ & Hsem).
  split; [by rewrite Hg, Hsem|]. rewrite Hg, Hr', Ht. destruct ph; [lia|by destruct Hinv..].
Qed.

Lemma take_spec w w' :
  semaphore_handle (server_run (sc_get (glob w))) = Some h -> sc_take w = Done (tt, w') ->
  glob w' = glob w /\ exists r, trace w' = trace w ++ [Event (SemaphoreTake h) r].
Proof.
  intros Hh Hm. unfold sc_take, get_glob, gets, mbind, M_bind, k_sem_take, trigger in Hm.
  rewrite Hh in Hm. destruct (answer (SemaphoreTake h) (env w)) as [r e]. injection Hm as _ <-.
  split; [done|]. by exists r.
Qed.

Lemma thread_step_inv s s' : thread_step s s' -> control_inv s -> control_inv s'.
Proof.
  intros Hstep Hinv.
  assert (Hquiet : forall w w' ph ph', ph <> Waiting -> ph' <> Waiting ->
            sc_get (glob w') = sc_get (glob w) /\ tokens (trace w') = tokens (trace w) ->
            control_inv (w, ph) -> control_inv (w', ph')).
  { intros w w' ph ph' Hp Hp' [Hg Ht]. unfold control_inv. rewrite Hg, Ht. by destruct ph, ph'. }
  destruct Hstep as [w w' Ht Hm|x ok w w' Hm|x x' ret w w' Hm|x ret r w w' Hm|x err w w' Hm|w w' Hm].
  - destruct Hinv as [Hh Hinv]. destruct (take_spec w w' Hh Hm) as (Hg & r & Htr).
    unfold control_inv. rewrite Hg, Htr, tokens_app. split; [done|].
    change (tokens [Event (SemaphoreTake h) r]) with ((if h =? h then -1 else 0) + 0).
    rewrite Z.eqb_refl. destruct (server_running (sc_get (glob w))); [split; [done|]|]; lia.
  - eapply (Hquiet w w' Opening); [done|by destruct ok| |exact Hinv].
    eapply quiet_step; [apply sc_open_keeps|apply opening_quiet|exact Hm].
  - eapply (Hquiet w w' (Polling x)); [done..| |exact Hinv].
    eapply quiet_step; [apply sc_poll_keeps|apply polling_quiet|exact Hm].
  - eapply (Hquiet w w' (Polled x ret)); [done|by repeat case_match| |exact Hinv].
    eapply quiet_step; [apply sc_serve_keeps|apply no_semaphore_quiet, sc_serve_semaphore|exact Hm].
  - eapply (Hquiet w w' (Closing x err)); [done..| |exact Hinv].
    eapply quiet_step; [apply sc_close_keeps|apply no_semaphore_quiet, sc_close_semaphore|exact Hm].
  - injection Hm as <-. destruct Hinv as (Hh & _ & Ht). unfold control_inv.
    cbn [glob with_glob trace]. rewrite sc_get_put. cbn. done.
Qed.

Lemma task_step_inv w w' ph : task_step w w' -> control_inv (w, ph) -> control_inv (w', ph).
Proof.
  intros Hstep Hinv. destruct Hstep as [p cb ud r w w' Hm|r w w' Hm|A m a w w' Hk Ho Hm].
  - by eapply download_inv.
  - rewrite sc_download_stop_spec in Hm. destruct (server_running (sc_get (glob w))) eqn:Hrun;
      injection Hm as <- <-; [|done]. destruct Hinv as [Hh Hinv].
    unfold control_inv. cbn [glob with_glob trace]. rewrite sc_get_put. cbn. by rewrite Hrun in *.
  - destruct (quiet_step _ _ _ _ Hk Ho Hm) as [Hg Ht]. unfold control_inv in *. by rewrite Hg, Ht.
Qed.

Lemma control_step_inv s s' : control_step s s' -> control_inv s -> control_inv s'.
Proof. intros [s1 s2 H|w w' ph H]; [by apply thread_step_inv|by apply task_step_inv]. Qed.

Lemma control_reachable s s' : control_ready s -> rtc control_step s s' -> control_inv s'.
Proof.
  intros Hready Hr. assert (H0 : control_inv s).
  { destruct s as [w ph]. destruct Hready as (Hh & Hrun & Ht & ->). split; [done|]. by rewrite Hrun. }
  clear Hready. induction Hr as [|s1 s2 s3 Hs _ IH]; [done|]. apply IH. by eapply control_step_inv.
Qed.

(** The steps of the thread, without those of others, are a session. *)
Lemma loop_steps fuel x x' err w w' :
  loop fuel (fun x => '(x, ret) ← sc_poll x; sc_serve x ret) x w = Done ((x', err), w') ->
  rtc thread_step (w, Polling x) (w', Closing x' err).
Proof.
  revert x w. induction fuel as [|fuel IH]; intros x w Hm; [done|]. cbn [loop] in Hm.
  apply bind_done in Hm as (r & w2 & Hb & Hm). apply bind_done in Hb as ([x1 ret] & w1 & Hp & Hs).
  eapply rtc_l; [by apply step_poll|]. eapply rtc_l; [by apply (step_serve x1 ret r)|].
  destruct r as [x2|[x2 err2]]; [by apply IH|]. by injection Hm as <- <- <-.
Qed.
Lemma session_steps fuel w w' :
  sc_session fuel w = Done (tt, w') -> rtc thread_step (w, Opening) (w', Ending).
Proof.
  rewrite sc_session_spec. intros Hm. apply bind_done in Hm as ([x ok] & w1 & Ho & Hm).
  apply bind_done in Hm as ([x' err] & w2 & Hl & Hm).
  eapply rtc_l; [by apply step_open|]. destruct ok.
  - eapply rtc_r; [by eapply loop_steps|]. by apply step_close.
  - injection Hl as <- <- <-. apply rtc_once. by apply step_close.
Qed.

(** C17: the servers' start requests. However requests, the server's thread and
    other tasks interleave, the count of the semaphore is 0 or 1 and is 1
    exactly between a request that was accepted and the thread taking it. A
    request to start is refused with -EALREADY, and changes nothing, exactly
    from the moment one is accepted to the end of the session it starts;
    otherwise it is accepted, and the stop request of the session before is
    forgotten. Every request accepted is thus served by one session. *)
Theorem server_starts s0 w ph :
  control_ready s0 -> rtc control_step s0 (w, ph) ->
  (tokens (trace w) = 0 \/ tokens (trace w) = 1) /\
  (server_running (sc_get (glob w)) = false <-> ph = Waiting /\ tokens (trace w) = 0) /\
  forall p cb ud,
    (server_running (sc_get (glob w)) = true ->
       sc_download (Some p) (Some cb) ud w = Done (- EALREADY, w)) /\
    (forall s, server_running (sc_get (glob w)) = false ->
       server_start p cb ud (sc_get (glob w)) = Done s ->
       exists w', sc_download (Some p) (Some cb) ud w = Done (0, w') /\ sc_get (glob w') = s /\
         server_stop s = false /\ session_cb s = Some cb /\ tokens (trace w') = 1).
Proof.
  intros Hready Hr. destruct (control_reachable _ _ Hready Hr) as [Hh Hinv]. split.
  { destruct ph; [destruct (server_running _)|..]; lia. }
  split.
  { destruct ph; [|by destruct Hinv as [-> _]; split; [|intros []]..].
    destruct (server_running _); split; [done|lia|done|done]. }
  intros p cb ud. split; [intros Hrun; by rewrite sc_download_spec, Hrun|].
  intros s Hrun Hs. destruct (download_accepted p cb ud s w Hrun Hh Hs) as (w' & Hm & Hg & Ht).
  destruct (server_start_fields _ _ _ _ _ Hs) as (_ & Hstop & Hcb & _).
  exists w'. split; [done|]. split; [done|]. split; [done|]. split; [done|]. rewrite Ht.
  destruct ph; [rewrite Hrun in Hinv; lia|destruct Hinv; lia..].
Qed.

(** While the server runs: [n] steps of its thread, and any of other tasks. *)
Inductive running_steps : nat -> world E * phase sc_local -> world E * phase sc_local -> Prop :=
| running_refl s : running_steps 0 s s
| running_thread n s1 s2 s3 :
    thread_step s1 s2 -> server_running (sc_get (glob (fst s2))) = true ->
    running_steps n s2 s3 -> running_steps (S n) s1 s3
| running_task n w1 w2 ph s3 :
    task_step w1 w2 -> running_steps n (w2, ph) s3 -> running_steps n (w1, ph) s3.

(** A server asked to stop. *)
Definition stopping (w : world E) : Prop :=
  let srv := sc_get (glob w) in
  server_stop srv = true /\ session_cb srv = None /\ server_running srv = true.

Lemma stopping_same w w' : sc_get (glob w') = sc_get (glob w) -> stopping w -> stopping w'.
Proof. unfold stopping. by intros ->. Qed.

Lemma task_step_stopping w w' : task_step w w' -> stopping w -> stopping w'.
Proof.
  intros Hstep H. destruct Hstep as [p cb ud r w w' Hm|r w w' Hm|A m a w w' Hk Ho Hm];
    pose proof H as (_ & _ & Hrun).
  - destruct p as [p|]; [|rewrite sc_download_null in Hm by auto; by injection Hm as <- <-].
    destruct cb as [cb|]; [|rewrite sc_download_null in Hm by auto; by injection Hm as <- <-].
    rewrite sc_download_spec, Hrun in Hm. by injection Hm as <- <-.
  - rewrite sc_download_stop_spec, Hrun in Hm. injection Hm as <- <-. unfold stopping.
    cbn [glob with_glob]. by rewrite sc_get_put.
  - eapply stopping_same; [|exact H]. exact (wp_done _ _ _ _ _ _ (Hk w) Hm).
Qed.

Lemma kept_stopping {A} (m : M (world E) A) a w w' :
  keeps sc_get m -> m w = Done (a, w') -> stopping w -> stopping w'.
Proof. intros Hk Hm. apply stopping_same. exact (wp_done _ _ _ _ _ _ (Hk w) Hm). Qed.

Lemma only_silent {A} P (m : M (world E) A) a w w' :
  (forall ev, P ev -> silent_event ev) -> only P m -> m w = Done (a, w') ->
  exists evs, trace w' = trace w ++ evs /\ Forall silent_event evs.
Proof. intros HP Ho. apply (only_impl _ _ _ HP) in Ho. exact (wp_done _ _ _ _ _ _ (Ho w)). Qed.

(** A step of the thread of a server asked to stop: it brings the end nearer,
    and is silent. *)
Lemma thread_step_stopping w ph w' ph' :
  thread_step (w, ph) (w', ph') -> stopping w ->
  (exists evs, trace w' = trace w ++ evs /\ Forall silent_event evs) /\
  (ph = Ending /\ server_running (sc_get (glob w')) = false \/
   (steps_left ph' < steps_left ph)%nat /\ stopping w').
Proof.
  intros Hstep H. inversion Hstep as [w1 w1' Ht Hm|x ok w1 w1' Hm|x x' ret w1 w1' Hm|x ret r w1 w1' Hm
    |x err w1 w1' Hm|w1 w1' Hm]; subst; pose proof H as (Hs & Hcb & _).
  - unfold sc_take, get_glob, gets, mbind, M_bind, k_sem_take, trigger in Hm.
    destruct (semaphore_handle _) as [h'|]; [|done].
    destruct (answer (SemaphoreTake h') (env w)) as [r e]. injection Hm as _ <-.
    split; [exists [Event (SemaphoreTake h') r]; by repeat constructor|]. right. split; [cbn; lia|exact H].
  - split; [by eapply only_silent, Hm; [apply opening_silent|apply sc_open_events]|]. right.
    split; [destruct ok; cbn; lia|]. eapply kept_stopping; [apply sc_open_keeps|exact Hm|exact H].
  - split; [by eapply only_silent, Hm; [apply polling_silent|apply sc_poll_events]|]. right.
    split; [cbn; lia|]. eapply kept_stopping; [apply sc_poll_keeps|exact Hm|exact H].
  - destruct (sc_serve_stopped x ret w Hs) as [err He]. rewrite He in Hm. injection Hm as <- <-.
    split; [exists []; by rewrite app_nil_r|]. right. split; [cbn; lia|done].
  - split.
    + destruct (wp_done _ _ _ _ _ _ (sc_close_silent x err w Hcb) Hm) as (evs & Htr & He).
      exists evs. split; [done|]. eapply Forall_impl; [apply closing_silent|exact He].
    + right. split; [cbn; lia|]. eapply kept_stopping; [apply sc_close_keeps|exact Hm|exact H].
  - injection Hm as <-. split; [exists []; by rewrite app_nil_r|]. left. split; [done|].
    cbn [glob with_glob]. by rewrite sc_get_put.
Qed.

Lemma running_steps_inv n s s' : running_steps n s s' -> control_inv s -> control_inv s'.
Proof.
  induction 1 as [s|n s1 s2 s3 Ht _ _ IH|n w1 w2 ph s3 Ht _ IH]; intros H; [done|..]; apply IH.
  - by eapply thread_step_inv.
  - by eapply task_step_inv.
Qed.

(** The thread of a server asked to stop brings its end nearer with each step,
    and keeps being asked. *)
Lemma running_steps_stopping n s s' :
  running_steps n s s' -> stopping (fst s) ->
  stopping (fst s') /\ (n + steps_left (snd s') <= steps_left (snd s))%nat.
Proof.
  induction 1 as [s|n [w1 ph1] [w2 ph2] s3 Ht Hrun _ IH|n w1 w2 ph s3 Ht _ IH]; intros H;
    cbn [fst snd] in *.
  - split; [done|lia].
  - destruct (thread_step_stopping _ _ _ _ Ht H) as [_ [[_ Hend]|[Hl Hst]]]; [congruence|].
    destruct (IH Hst). split; [done|lia].
  - apply IH. by eapply task_step_stopping.
Qed.

(** It is never stuck. *)
Lemma stopping_steps `{!ServerReturns C} w ph :
  control_inv (w, ph) -> stopping w -> sc_sized (glob w) -> exists s, thread_step (w, ph) s.
Proof.
  intros [Hh Hinv] (Hs & _ & Hrun) Hw. destruct ph as [| |x|x ret|x err|].
  - rewrite Hrun in Hinv. destruct (sc_take w) as [[[] w']| |] eqn:Hm;
      [eexists; eapply step_take; [lia|exact Hm]|..];
      unfold sc_take, get_glob, gets, mbind, M_bind, k_sem_take, trigger in Hm; rewrite Hh in Hm;
      by destruct (answer (SemaphoreTake h) (env w)).
  - destruct (wp_total_done _ _ _ (sc_open_returns w Hw)) as ([x ok] & w' & Hm & _).
    eexists. by eapply step_open.
  - destruct (wp_total_done _ _ _ (sc_poll_returns x w)) as ([x' ret] & w' & Hm & _).
    eexists. by eapply step_poll.
  - destruct (sc_serve_stopped x ret w Hs) as [err Hm]. eexists. by eapply step_serve.
  - destruct (wp_total_done _ _ _ (sc_close_returns x err w Hw)) as ([] & w' & Hm & _).
    eexists. by eapply step_close.
  - eexists. by eapply step_end.
Qed.

(** C18: a stop request is not lost, and is served soon. Once accepted, wherever
    the server's thread is, the flag the loop reads stays set and the callback
    away, whatever requests come, also to start, until the session has ended.
    The thread is never stuck before (its wait for the semaphore does not block
    and each part of its session returns, once [poll] does, which has a
    timeout), and gets there in at most five more steps: if it has yet to take
    the semaphore, it does, opens its sockets, polls, reads the flag, closes
    them; none of these steps accepts, receives or sends anything, or calls
    back. *)
Theorem server_stop_kept `{!ServerReturns C} s0 w0 w1 ph0 n w ph :
  control_ready s0 -> rtc control_step s0 (w0, ph0) ->
  server_running (sc_get (glob w0)) = true -> sc_download_stop w0 = Done (0, w1) ->
  running_steps n (w1, ph0) (w, ph) ->
  server_stop (sc_get (glob w)) = true /\ session_cb (sc_get (glob w)) = None /\
  (n + steps_left ph <= steps_left ph0)%nat /\
  (sc_sized (glob w) -> exists s, thread_step (w, ph) s) /\
  forall w' ph', thread_step (w, ph) (w', ph') ->
    (exists evs, trace w' = trace w ++ evs /\ Forall silent_event evs) /\
    (server_running (sc_get (glob w')) = false <-> ph = Ending).
Proof.
  intros Hready Hreach Hrun0 Hstop Hr.
  assert (Hinv : control_inv (w1, ph0)).
  { eapply task_step_inv; [by eapply step_download_stop|]. by eapply control_reachable. }
  assert (H0 : stopping w1).
  { rewrite sc_download_stop_spec, Hrun0 in Hstop. injection Hstop as <-. unfold stopping.
    cbn [glob with_glob]. by rewrite sc_get_put. }
  destruct (running_steps_stopping _ _ _ Hr H0) as [H Hn]. cbn [fst snd] in *.
  pose proof (running_steps_inv _ _ _ Hr Hinv) as Hinv'.
  pose proof H as (Hs & Hcb & _). split; [done|]. split; [done|]. split; [done|].
  split; [by apply stopping_steps|]. intros w' ph' Hstep.
  destruct (thread_step_stopping _ _ _ _ Hstep H) as [He [[-> Hend]|[Hl Hst]]]; [by split|].
  split; [done|]. destruct Hst as (_ & _ & ->). split; [done|]. intros ->. cbn in Hl. lia.
Qed.
End Protocol.

(** ** Witnesses: the UDP server *)
Section Witnesses.
#[local] Existing Instances lwip_example rtos_example.

Definition example_ready_server : world (list reply) :=
  with_glob (fun g => set_udp_server (set_server_run (KSem (Some 1) 0 1) (udp_server g)) g)
    (example_world []).
Definition example_download : zperf_download_params := DownloadParams 5001 (memset 0 28).
Definition example_started : world (list reply) :=
  match sc_download (Some example_download) (Some 7) 9 example_ready_server with
  | Done (_, w) => w
  | _ => example_ready_server
  end.

Lemma server_starts_witness :
  sc_download (Some example_download) (Some 8) 0 example_started = Done (- EALREADY, example_started) /\
  server_running (sc_get (glob example_started)) = true.
Proof.
  assert (Hrun : server_running (sc_get (glob example_started)) = true) by (vm_compute; reflexivity).
  split; [|exact Hrun].
  destruct (server_starts (L := lwip_example) 1 (example_ready_server, Waiting)
              example_started Waiting) as (_ & _ & H).
  - vm_compute. auto.
  - apply rtc_once, step_task, (step_download 1 (Some example_download) (Some 7) 9 0).
    vm_compute. reflexivity.
  - apply (H example_download 8 0). exact Hrun.
Defined.

(** The thread takes the semaphore, opens its sockets and returns from [poll];
    then the stop request comes. *)
Definition ran {A} (m : M (world (list reply)) A) (w : world (list reply)) : world (list reply) :=
  match m w with Done (_, w') => w' | _ => w end.
Definition example_fds : list pollfd :=
  match udp_open (ran sc_take example_started) with Done ((fds, _), _) => fds | _ => [] end.
Definition example_polled : world (list reply) :=
  ran (udp_poll example_fds) (ran udp_open (ran sc_take example_started)).
Definition example_stopping : world (list reply) := ran sc_download_stop example_polled.

Lemma server_stop_kept_witness :
  exists fds, sc_download_stop example_polled = Done (0, example_stopping) /\
    server_stop (sc_get (glob example_stopping)) = true /\
    thread_step 1 (example_stopping, Polled fds 0) (example_stopping, Closing fds false) /\
    exists s, thread_step 1 (example_stopping, Closing fds false) s.
Proof.
  exists example_fds. assert (Hstop : sc_download_stop example_polled = Done (0, example_stopping))
    by (vm_compute; reflexivity).
  assert (Hstep : thread_step 1 (example_stopping, Polled example_fds 0)
                    (example_stopping, Closing example_fds false)).
  { apply (step_serve (C := udp_control) 1 example_fds 0 (inr (example_fds, false))).
    vm_compute. reflexivity. }
  destruct (server_stop_kept (L := lwip_example) (C := udp_control) 1 (example_ready_server, Waiting)
              example_polled example_stopping (Polled example_fds 0) 1 example_stopping
              (Closing example_fds false)) as (Hs & _ & _ & Hnext & _).
  - vm_compute. auto.
  - eapply rtc_l; [apply step_task, (step_download 1 (Some example_download) (Some 7) 9 0);
                   vm_compute; reflexivity|].
    eapply rtc_l; [apply step_thread, step_take; vm_compute; reflexivity|].
    eapply rtc_l; [apply step_thread, (step_open (C := udp_control) 1 example_fds true);
                   vm_compute; reflexivity|].
    apply rtc_once, step_thread, (step_poll (C := udp_control)). vm_compute. reflexivity.
  - vm_compute. reflexivity.
  - exact Hstop.
  - eapply running_thread; [exact Hstep|vm_compute; reflexivity|apply running_refl].
  - split; [exact Hstop|]. split; [exact Hs|]. split; [exact Hstep|]. apply Hnext.
    vm_compute. auto.
Defined.
End Witnesses.
