(* ===== verification/Async.v ===== *)
(** Asynchronous uploads: the task that runs work items (zephyr/work.c), the
    queue between it and the callers of [zperf_udp_upload_async] and
    [zperf_tcp_upload_async], and how the two interleave. *)
From stdpp Require Import sets relations.
From S2P Require Import Prelude CInt Platform NetIp Session World Environment Common Work UdpUploader TcpUploader.
Open Scope Z_scope.

Section Async.
Context {L : Lwip} {R : Rtos} {E : Type} `{!Env E}.
Abbreviation W := (world E).

(** ** [_work_task] *)
Definition work_receive : M W (option work_id) :=
  item ← trigger QueueReceive;
  match item with
  | None => mret None
  | Some id => upd_glob (upd_work id work_taken);; mret (Some id)
  end.

Definition run_handler (fuel : nat) (garbage : zperf_results) (id : work_id) : M W unit :=
  ctx ← get_glob (ctx_of id);
  match handler (work ctx) with
  | None => fail NullPointer
  | Some UdpUploadAsyncWork => udp_upload_async_work fuel garbage
  | Some TcpUploadAsyncWork => tcp_upload_async_work fuel garbage
  end.

(** One turn of [for (;;)]. *)
Definition _work_task_turn (fuel : nat) (garbage : zperf_results) : M W unit :=
  item ← work_receive;
  match item with None => mret tt | Some id => run_handler fuel garbage id end.

(** ** The handler in three parts, between which other tasks may run *)
Definition async_start (id : work_id) : M W zperf_upload_params :=
  ctx ← get_glob (ctx_of id);
  call_ctx ctx ZPERF_SESSION_STARTED None;;
  ctx ← get_glob (ctx_of id);
  mret (ctx_param ctx).

Definition async_upload (fuel : nat) (garbage : zperf_results) (id : work_id)
    (p : zperf_upload_params) : M W (Z * option zperf_results) :=
  match id with
  | UDP_WORK => zperf_udp_upload fuel (Some p) (Some garbage)
  | TCP_WORK => zperf_tcp_upload fuel (Some p) (Some garbage)
  end.

Definition async_finish (id : work_id) (ret : Z) (result : option zperf_results) : M W unit :=
  ctx ← get_glob (ctx_of id);
  if ret <? 0 then call_ctx ctx ZPERF_SESSION_ERROR None
  else call_ctx ctx ZPERF_SESSION_FINISHED result.

Definition async_request (id : work_id) (p : option zperf_upload_params) (cb : option callback)
    (ud : Z) : M W Z :=
  match id with
  | UDP_WORK => zperf_udp_upload_async p cb ud
  | TCP_WORK => zperf_tcp_upload_async p cb ud
  end.

Definition async_handler (id : work_id) : work_handler :=
  match id with UDP_WORK => UdpUploadAsyncWork | TCP_WORK => TcpUploadAsyncWork end.

(** Without interleaving the parts are the handler. *)
Lemma handler_parts fuel garbage id w :
  handler (work (ctx_of id (glob w))) = Some (async_handler id) ->
  run_handler fuel garbage id w =
    (p ← async_start id; '(ret, result) ← async_upload fuel garbage id p;
     async_finish id ret result) w.
Proof.
  intros Hh. unfold run_handler, get_glob, gets, mbind, M_bind. rewrite Hh.
  destruct id; cbn [async_handler ctx_of async_upload];
    unfold udp_upload_async_work, tcp_upload_async_work, async_start, async_finish, get_glob, gets,
      mbind, M_bind, mret, M_ret; cbn [ctx_of];
    (destruct (call_ctx _ _ _ w) as [[[] w1]| |]; [|done..]);
    by match goal with
       | |- match ?u with _ => _ end = _ => destruct u as [[[ret result] w2]| |]
       end.
Qed.
End Async.

(** ** The queue

    FreeRTOS queues are first in, first out. The items in the queue after a
    trace, [None] when the answers are not those of such a queue. *)
Definition queue_step (q : option (list work_id)) (ev : event) : option (list work_id) :=
  match q, ev with
  | Some q, Event (QueueSend id) _ => Some (q ++ [id])
  | Some q, Event QueueReceive (Some id) =>
      match q with
      | id' :: q' => if decide (id = id') then Some q' else None
      | [] => None
      end
  | q, _ => q
  end.
Definition queue_of (tr : list event) : option (list work_id) := foldl queue_step (Some []) tr.

(** ** Reachable states *)
Section Reachable.
Context {L : Lwip} {R : Rtos} {E : Type} `{!Env E}.
Implicit Types w : world E.

(** What the work task is doing. *)
Inductive worker : Set :=
| Idle
| Taken (id : work_id)
| Uploading (id : work_id) (p : zperf_upload_params)
| Finishing (id : work_id) (ret : Z) (result : option zperf_results).

(** A step of the system: a request from another task, or the work task's next
    part. *)
Inductive async_step : world E * worker -> world E * worker -> Prop :=
| step_request id p cb ud r w w' k :
    async_request id p cb ud w = Done (r, w') -> async_step (w, k) (w', k)
| step_receive item w w' :
    work_receive w = Done (item, w') ->
    async_step (w, Idle) (w', match item with Some id => Taken id | None => Idle end)
| step_start id p w w' :
    async_start id w = Done (p, w') -> async_step (w, Taken id) (w', Uploading id p)
| step_upload id p fuel garbage ret result w w' :
    async_upload fuel garbage id p w = Done ((ret, result), w') ->
    async_step (w, Uploading id p) (w', Finishing id ret result)
| step_finish id ret result w w' :
    async_finish id ret result w = Done (tt, w') ->
    async_step (w, Finishing id ret result) (w', Idle).

(** After [zperf_init] and before any request. *)
Definition async_ready (w : world E) : Prop :=
  queue_of (trace w) = Some [] /\ forall id, is_pending (work (ctx_of id (glob w))) = 0.

(** The flags say what is in the queue. *)
Definition flags_ok (g : globals) (q : list work_id) : Prop :=
  NoDup q /\ forall id, is_pending (work (ctx_of id g)) = if decide (id ∈ q) then 1 else 0.

Definition async_inv (s : world E * worker) : Prop :=
  forall q, queue_of (trace (fst s)) = Some q -> flags_ok (glob (fst s)) q.

(** Code that neither touches the contexts nor the queue. *)
Definition no_queue (ev : event) : Prop :=
  match ev with
  | Event (QueueSend _) _ | Event QueueReceive _ => False
  | _ => True
  end.
Definition contexts (g : globals) : async_ctx * async_ctx :=
  (udp_async_upload_ctx g, tcp_async_upload_ctx g).

Lemma queue_of_app tr1 tr2 : queue_of (tr1 ++ tr2) = foldl queue_step (queue_of tr1) tr2.
Proof. apply foldl_app. Qed.

Lemma queue_of_quiet tr evs : Forall no_queue evs -> queue_of (tr ++ evs) = queue_of tr.
Proof.
  intros H. rewrite queue_of_app. generalize (queue_of tr). induction H as [|ev evs He _ IH]; [done|].
  intros q. cbn [foldl]. rewrite IH. by destruct q, ev as [[] r].
Qed.

Lemma contexts_ctx_of g g' id : contexts g = contexts g' -> ctx_of id g = ctx_of id g'.
Proof. intros [= H1 H2]. by destruct id. Qed.

Lemma quiet_inv {A} (m : M (world E) A) w a w' k k' :
  only no_queue m -> keeps contexts m -> m w = Done (a, w') ->
  async_inv (w, k) -> async_inv (w', k').
Proof.
  intros Ho Hk Hm Hinv q Hq. cbn [fst] in *.
  destruct (wp_done _ _ _ _ _ _ (Ho w) Hm) as (evs & Htr & He).
  pose proof (wp_done _ _ _ _ _ _ (Hk w) Hm) as Hc.
  rewrite Htr, queue_of_quiet in Hq by done. destruct (Hinv q Hq) as [Hn Hp]. split; [done|].
  intros id. rewrite (contexts_ctx_of _ _ id Hc). apply Hp.
Qed.

Lemma call_ctx_quiet ctx st r : only no_queue (call_ctx (E := E) ctx st r).
Proof. unfold call_ctx. by only_steps. Qed.
Lemma call_ctx_keeps ctx st r : keeps contexts (call_ctx (E := E) ctx st r).
Proof. unfold call_ctx. by keeps_steps. Qed.
Lemma prepare_keeps p tos prio proto : keeps contexts (zperf_prepare_upload_sock (E := E) p tos prio proto).
Proof. unfold zperf_prepare_upload_sock, open_upload_sock, get_errno. by keeps_steps. Qed.
Lemma fin_loop_keeps k sock n secs usecs size ret stats :
  keeps contexts (upload_fin_loop (E := E) k sock n secs usecs size ret stats).
Proof.
  revert ret stats. induction k as [|k IH]; intros ret stats; cbn [upload_fin_loop];
    unfold upload_fin_turn, store_packet, send_packet; by keeps_steps.
Qed.
#[local] Hint Resolve call_ctx_quiet call_ctx_keeps prepare_keeps fin_loop_keeps : zperf.

Lemma upload_quiet fuel garbage id p : only no_queue (async_upload (E := E) fuel garbage id p).
Proof.
  eapply (only_impl client_event); [by intros [[] r]|].
  destruct id; [apply zperf_udp_upload_events|apply zperf_tcp_upload_events].
Qed.
Lemma upload_keeps fuel garbage id p : keeps contexts (async_upload (E := E) fuel garbage id p).
Proof.
  destruct id; cbn [async_upload]; unfold zperf_udp_upload, zperf_tcp_upload, udp_upload, tcp_upload,
    udp_upload_turn, tcp_upload_turn, sendall, sendall_turn, zperf_upload_fin, drain_turn,
    store_packet, send_packet, k_uptime_ticks, get_errno, sys_timepoint_calc,
    sys_timepoint_expired, k_uptime_ticks; by keeps_steps.
Qed.

(** What an accepted request stores. *)
Definition accept (id : work_id) (p : zperf_upload_params) (cb : callback) (ud : Z)
    (g : globals) : globals :=
  upd_work id (work_submitted id)
    (set_ctx_of id (AsyncCtx (work (ctx_of id g)) p (Some cb) ud) g).

Lemma request_cases id p cb ud w :
  async_request id (Some p) (Some cb) ud w =
    if k_work_is_pending (work (ctx_of id (glob w))) then Done (- EBUSY, w)
    else match answer (QueueSend id) (env w) with
         | (r, e) => Done (0, emit (QueueSend id) r e (with_glob (accept id p cb ud) w))
         end.
Proof.
  destruct id; cbn [async_request]; unfold zperf_udp_upload_async, zperf_tcp_upload_async,
    zperf_async_work_submit, k_work_submit_to_queue, get_glob, gets, upd_glob, modify, mbind, M_bind,
    trigger; cbn [ctx_of]; destruct (k_work_is_pending _); try done;
    cbn [env with_glob]; by destruct (answer _ (env w)).
Qed.

Lemma request_null id p cb ud w :
  p = None \/ cb = None -> async_request id p cb ud w = Done (- EINVAL, w).
Proof. destruct id, p, cb; intros [H|H]; by try discriminate H. Qed.

Lemma ctx_of_accept id id' p cb ud g :
  is_pending (work (ctx_of id' (accept id p cb ud g))) =
    if decide (id' = id) then Z.lor (is_pending (work (ctx_of id g))) 1
    else is_pending (work (ctx_of id' g)).
Proof. by destruct id, id'. Qed.

Lemma ctx_of_taken id id' g :
  is_pending (work (ctx_of id' (upd_work id work_taken g))) =
    if decide (id' = id) then Z.lxor (is_pending (work (ctx_of id g))) 1
    else is_pending (work (ctx_of id' g)).
Proof. by destruct id, id'. Qed.

Lemma elem_of_snoc_ne (id' id : work_id) q : id' <> id -> id' ∈ q <-> id' ∈ q ++ [id].
Proof. rewrite elem_of_app, list_elem_of_singleton. tauto. Qed.
Lemma elem_of_cons_ne (id' id : work_id) q : id' <> id -> id' ∈ q <-> id' ∈ id :: q.
Proof. rewrite elem_of_cons. tauto. Qed.

Lemma pending_queued g q id :
  flags_ok g q -> k_work_is_pending (work (ctx_of id g)) = bool_decide (id ∈ q).
Proof.
  intros [_ H]. unfold k_work_is_pending. rewrite H.
  destruct (decide (id ∈ q)) as [Hi|Hi]; [by rewrite bool_decide_true|by rewrite bool_decide_false].
Qed.

Lemma request_inv id p cb ud r w w' k k' :
  async_request id p cb ud w = Done (r, w') -> async_inv (w, k) -> async_inv (w', k').
Proof.
  intros Hrun Hinv. destruct p as [p|]; [|rewrite request_null in Hrun by auto; by injection Hrun as <- <-].
  destruct cb as [cb|]; [|rewrite request_null in Hrun by auto; by injection Hrun as <- <-].
  rewrite request_cases in Hrun.
  destruct (k_work_is_pending (work (ctx_of id (glob w)))) eqn:Hpend; [by injection Hrun as <- <-|].
  destruct (answer (QueueSend id) (env w)) as [x e]. injection Hrun as <- <-.
  intros q' Hq'. cbn [fst trace emit with_glob glob] in *. rewrite queue_of_app in Hq'.
  destruct (queue_of (trace w)) as [q|] eqn:Hq; [|done]. injection Hq' as <-.
  specialize (Hinv q Hq). rewrite (pending_queued _ q) in Hpend by done.
  apply bool_decide_eq_false in Hpend. destruct Hinv as [Hn Hp]. split.
  - apply list.NoDup_app. split; [done|]. split; [|apply NoDup_singleton].
    intros x' Hx. rewrite list_elem_of_singleton. by intros ->.
  - intros id'. rewrite ctx_of_accept, !Hp. destruct (decide (id' = id)) as [->|Hne].
    + rewrite decide_False by done. rewrite decide_True; [done|]. set_solver.
    + by rewrite (decide_ext (id' ∈ q) _ _ _ (elem_of_snoc_ne id' id q Hne)).
Qed.

Lemma receive_inv item w w' k k' :
  work_receive w = Done (item, w') -> async_inv (w, k) -> async_inv (w', k').
Proof.
  unfold work_receive, mbind, M_bind, trigger, upd_glob, modify, mret, M_ret. intros Hrun Hinv.
  destruct (answer QueueReceive (env w)) as [r e] eqn:Ha. cbn in r.
  destruct r as [id|]; injection Hrun as <- <-; intros q' Hq'; cbn [fst trace emit with_glob glob] in *;
    rewrite queue_of_app in Hq'; cbn [foldl] in Hq';
    (destruct (queue_of (trace w)) as [q|] eqn:Hq; [|done]); specialize (Hinv q Hq).
  - destruct q as [|id' q]; [done|]. cbn in Hq'. destruct (decide (id = id')) as [<-|]; [|done].
    injection Hq' as <-. destruct Hinv as [Hn Hp]. apply list.NoDup_cons in Hn as [Hni Hn].
    split; [done|]. intros id'. rewrite ctx_of_taken, !Hp.
    destruct (decide (id' = id)) as [->|Hne].
    + rewrite decide_True by set_solver. by rewrite decide_False.
    + by rewrite (decide_ext (id' ∈ q) _ _ _ (elem_of_cons_ne id' id q Hne)).
  - by injection Hq' as <-.
Qed.

Lemma async_step_inv s s' : async_step s s' -> async_inv s -> async_inv s'.
Proof.
  intros Hstep Hinv. destruct Hstep as [id p cb ud r w w' k Hm|item w w' Hm|id p w w' Hm
    |id p fuel garbage ret result w w' Hm|id ret result w w' Hm].
  - by eapply request_inv.
  - by eapply receive_inv.
  - eapply quiet_inv; [| |exact Hm|done]; unfold async_start; [by only_steps|by keeps_steps].
  - eapply quiet_inv; [apply upload_quiet|apply upload_keeps|exact Hm|done].
  - eapply quiet_inv; [| |exact Hm|done]; unfold async_finish; [by only_steps|by keeps_steps].
Qed.

Lemma async_reachable_inv w0 s :
  async_ready w0 -> rtc async_step (w0, Idle) s -> async_inv s.
Proof.
  intros [Hq0 Hp0] Hr. assert (Hinv : async_inv (w0, Idle)).
  { intros q Hq. cbn [fst] in *. rewrite Hq0 in Hq. injection Hq as <-.
    split; [constructor|]. intros id. rewrite Hp0. by rewrite decide_False by set_solver. }
  clear Hq0 Hp0. induction Hr as [|s1 s2 s3 Hs _ IH]; [done|]. apply IH. by eapply async_step_inv.
Qed.

(** C19: when an asynchronous upload is accepted. Between the start of the program
    and any moment, however the requests of the other tasks and the parts of
    the work task interleave, on a first-in first-out queue: the queue holds an
    upload of each protocol at most once, so that sending to it never blocks; a
    request is refused with -EBUSY exactly when an upload of its protocol is
    still in the queue, and changes nothing; otherwise it is accepted, queued
    last, and its parameters and callback are stored. An upload that runs is no
    longer in the queue. *)
Theorem async_requests w0 w k q :
  async_ready w0 -> rtc async_step (w0, Idle) (w, k) -> queue_of (trace w) = Some q ->
  (length q <= 2)%nat /\
  forall id p cb ud,
    (id ∈ q -> async_request id (Some p) (Some cb) ud w = Done (- EBUSY, w)) /\
    (id ∉ q -> exists w', async_request id (Some p) (Some cb) ud w = Done (0, w') /\
       queue_of (trace w') = Some (q ++ [id]) /\ ctx_param (ctx_of id (glob w')) = p /\
       ctx_callback (ctx_of id (glob w')) = Some cb /\ ctx_user_data (ctx_of id (glob w')) = ud).
Proof.
  intros H0 Hr Hq. pose proof (async_reachable_inv _ _ H0 Hr q Hq) as Hinv. cbn [fst] in Hinv.
  split.
  { destruct Hinv as [Hn _]. change 2%nat with (length [UDP_WORK; TCP_WORK]).
    apply submseteq_length, NoDup_submseteq; [done|]. intros []; set_solver. }
  intros id p cb ud. rewrite request_cases, (pending_queued _ q) by done. split; intros Hi.
  - by rewrite bool_decide_true.
  - rewrite bool_decide_false by done. destruct (answer _ _) as [r e]. eexists. split; [reflexivity|].
    split; [cbn [trace emit with_glob]; by rewrite queue_of_app, Hq|]. by destruct id.
Qed.

(** C29: two uploads at once. While an upload runs its context is not protected: a
    second request of the same protocol is accepted, and the end of the first
    upload is then reported to the callback and the user data of the second. *)
Theorem async_overlap w0 w id p q p' cb' ud' :
  async_ready w0 -> rtc async_step (w0, Idle) (w, Uploading id p) ->
  queue_of (trace w) = Some q -> id ∉ q ->
  exists w1, async_request id (Some p') (Some cb') ud' w = Done (0, w1) /\
    forall fuel garbage ret result w2,
      async_upload fuel garbage id p w1 = Done ((ret, result), w2) ->
      exists w3, async_finish id ret result w2 = Done (tt, w3) /\
        trace w3 = trace w2 ++ [Event (InvokeCallback cb'
          (if ret <? 0 then ZPERF_SESSION_ERROR else ZPERF_SESSION_FINISHED)
          (if ret <? 0 then None else result) ud') tt].
Proof.
  intros H0 Hr Hq Hi. pose proof (async_reachable_inv _ _ H0 Hr q Hq) as Hinv. cbn [fst] in Hinv.
  rewrite request_cases, (pending_queued _ q), bool_decide_false by done.
  destruct (answer _ _) as [r e]. eexists. split; [reflexivity|].
  intros fuel garbage ret result w2 Hup.
  pose proof (wp_done _ _ _ _ _ _ (upload_keeps fuel garbage id p _) Hup) as Hc.
  apply (contexts_ctx_of _ _ id) in Hc. unfold async_finish, get_glob, gets, mbind, M_bind.
  rewrite Hc. unfold call_ctx. cbn [glob emit with_glob].
  assert (Hctx : ctx_callback (ctx_of id (accept id p' cb' ud' (glob w))) = Some cb' /\
                 ctx_user_data (ctx_of id (accept id p' cb' ud' (glob w))) = ud') by by destruct id.
  destruct Hctx as [-> ->]. unfold trigger.
  destruct (ret <? 0); destruct (answer _ (env w2)) as [[] e2]; eexists; split; reflexivity.
Qed.
End Reachable.

(** ** Witnesses *)
Section Witnesses.
#[local] Existing Instances lwip_example rtos_example.

Definition example_params : zperf_upload_params := UploadParams example_peer4 10 800 100 0 0 (-1).
Definition final {A S} (m : M S A) (s : S) : S := match m s with Done (_, s') => s' | _ => s end.

(** A first request, then the work task takes it and starts. *)
Definition example_idle : world (list reply) := example_world [RZ 1; RZ 0].
Definition example_queued : world (list reply) :=
  final (async_request UDP_WORK (Some example_params) (Some 7) 1) example_idle.
Definition example_taken : world (list reply) := final work_receive example_queued.
Definition example_uploading : world (list reply) := final (async_start UDP_WORK) example_taken.

Lemma example_ready : async_ready example_idle.
Proof. split; [reflexivity|]. by intros []. Qed.
Lemma example_queued_reachable : rtc async_step (example_idle, Idle) (example_queued, Idle).
Proof.
  apply rtc_once. apply (step_request UDP_WORK (Some example_params) (Some 7) 1 0).
  vm_compute. reflexivity.
Qed.
Lemma example_uploading_reachable :
  rtc async_step (example_idle, Idle) (example_uploading, Uploading UDP_WORK example_params).
Proof.
  etransitivity; [apply example_queued_reachable|].
  eapply rtc_l; [apply (step_receive (Some UDP_WORK) _ example_taken); vm_compute; reflexivity|].
  eapply rtc_l; [apply (step_start UDP_WORK example_params _ example_uploading); vm_compute; reflexivity|].
  apply rtc_refl.
Qed.

Lemma async_requests_witness :
  async_request UDP_WORK (Some example_params) (Some 8) 2 example_queued
    = Done (- EBUSY, example_queued) /\
  exists w', async_request TCP_WORK (Some example_params) (Some 8) 2 example_queued = Done (0, w') /\
    queue_of (trace w') = Some [UDP_WORK; TCP_WORK].
Proof.
  destruct (async_requests (L := lwip_example) (R := rtos_example) example_idle example_queued Idle
    [UDP_WORK] example_ready example_queued_reachable eq_refl) as [_ H].
  split; [apply (H UDP_WORK); constructor|].
  destruct (H TCP_WORK example_params 8 2) as [_ H2].
  destruct H2 as (w' & Hrun & Hq & _); [by intros Hin; inversion Hin as [|? ? ? Hin']; inversion Hin'|].
  exists w'. split; [exact Hrun|exact Hq].
Defined.

Lemma async_overlap_witness :
  exists w1, async_request UDP_WORK (Some example_params) (Some 8) 2 example_uploading = Done (0, w1).
Proof.
  destruct (async_overlap (L := lwip_example) (R := rtos_example) example_idle example_uploading
    UDP_WORK example_params [] example_params 8 2 example_ready example_uploading_reachable eq_refl)
    as (w1 & Hrun & _); [intros Hin; inversion Hin|].
  exists w1. exact Hrun.
Defined.
End Witnesses.
