(* ===== verification/Shell.v ===== *)
(** The command line (zperf_shell.c): numbers with units, options, the upload
    and download commands the shell's task knows, what they print, and what the
    callbacks print of a session's results. *)
From S2P Require Import Prelude CInt Platform CString Kernel NetIp Session World Environment Print Common Work Server UdpStats UdpReceiver UdpServer TcpReceiver UdpUploader TcpUploader.
Import Stdlib.Strings.String.StringSyntax.
Open Scope Z_scope.

(** defines.h: a value of the enumeration [shell_status_t], which has no
    negative constant and so is an [unsigned int] for the compiler. *)
Definition shell_status (z : Z) : Z := u32 z.
Definition kStatus_SHELL_Success : Z := 0.
Definition kStatus_SHELL_Error : Z := 1.

(** ** Numbers *)
Definition TIME_US : list Z := [60 * 1000 * 1000; 1000 * 1000; 1000; 0].
Definition TIME_US_UNIT : list bytes := [text "m"; text "s"; text "ms"; text "us"].
Definition KBPS : list Z := [1024; 0].
Definition KBPS_UNIT : list bytes := [text "Mbps"; text "Kbps"].
Definition K : list Z := [1024 * 1024; 1024; 0].
Definition K_UNIT : list bytes := [text "M"; text "K"; text ""].

(** [while (value < *divisor) { divisor++; unit++; }], then the text printed. *)
Fixpoint print_number (value : Z) (divisor_arr : list Z) (units : list bytes) : printing unit :=
  match divisor_arr, units with
  | divisor :: divisor_arr', unit :: units' =>
      if value <? divisor then print_number value divisor_arr' units'
      else if negb (divisor =? 0) then
        let radix := value / divisor in
        let dec := u32 (value mod divisor * 100) / divisor in
        print (decimal radix ++ text "." ++ (if dec <? 10 then text "0" else []) ++ decimal dec
                 ++ text " " ++ unit)
      else print (decimal value ++ text " " ++ unit)
  | _, _ => Fault OutOfBounds
  end.

(** [do { cmp = strncasecmp(suffix, *unit++, 1); } while (cmp != 0 && *++divisor != 0)]:
    the divisor the loop ends at. *)
Fixpoint find_unit (suffix : bytes) (divisor_arr : list Z) (units : list bytes) : outcome Z :=
  match divisor_arr, units with
  | divisor :: rest, unit :: units' =>
      if strncasecmp_eq suffix unit 1 then mret divisor else
      match rest with
      | next :: _ => if next =? 0 then mret 0 else find_unit suffix rest units'
      | [] => Fault OutOfBounds
      end
  | _, _ => Fault OutOfBounds
  end.

(** [long] has 32 bits; [dec * *divisor] is computed on [unsigned]. *)
Definition parse_number (string : bytes) (divisor_arr : list Z) (units : list bytes) : outcome Z :=
  s ← c_str string;
  let '(v, stop) := strtoul s 10 in
  let dec := s32 v in
  divisor ← find_unit (drop stop s) divisor_arr units;
  mret (if divisor =? 0 then dec else s32 (dec * divisor)).

(** ** Arguments *)

(** [argv[i]]: a null pointer follows the last argument. *)
Definition arg (argv : list bytes) (i : Z) : outcome (option bytes) :=
  if i <? 0 then Fault OutOfBounds else
  match argv !! Z.to_nat i with
  | Some s => mret (Some s)
  | None => if i =? Z.of_nat (length argv) then mret None else Fault OutOfBounds
  end.
Definition deref {A} (s : option A) : outcome A :=
  match s with Some s => mret s | None => Fault NullPointer end.

(** [strtoul(s, NULL, 10)]. *)
Definition to_str (s : option bytes) : outcome bytes := s ← deref s; c_str s.
Definition to_ulong (s : option bytes) : outcome Z :=
  s ← deref s; s ← c_str s; mret (fst (strtoul s 10)).

(** [parse_arg(&i, argc, argv)] in an [int]: the value and the new [i]. *)
Definition parse_arg (i : nat) (argv : list bytes) : outcome (Z * nat) :=
  a ← arg argv (Z.of_nat i); a ← deref a;
  c ← char_at a 2;
  if (c =? 0) && (length argv <=? i + 1)%nat then mret (s32 (shell_status (-1)), i) else
  '(str, i) ← (if c =? 0 then b ← arg argv (Z.of_nat (i + 1)); b ← deref b; mret (b, (i + 1)%nat)
               else mret (drop 2 a, i));
  s ← c_str str;
  let '(v, stop, errno) := strtol s (if strncmp_eq s (text "0x") 2 then 16 else 10) in
  if errno || (stop =? 0)%nat then mret (s32 (shell_status (- kStatus_SHELL_Error)), i)
  else mret (s32 (shell_status v), i).

Record upload_options : Set := UploadOptions {
  o_tos : Z;
  o_async : bool;
  o_nodelay : Z;
  o_cnt : Z;
}.

(** The [for] loop over the options, from argument [i], [n] arguments left;
    [None] is [return -kStatus_SHELL_Error]. *)
Fixpoint parse_options (n i : nat) (argv : list bytes) (is_udp : bool) (o : upload_options)
    : printing (option upload_options) :=
  match n with
  | O => mret (Some o)
  | S n' =>
      if negb (i <? length argv)%nat then mret (Some o) else
      a ← quiet (arg argv (Z.of_nat i)); a ← quiet (deref a);
      c0 ← quiet (char_at a 0);
      if negb (c0 =? 45) then mret (Some o) else
      c1 ← quiet (char_at a 1);
      if c1 =? 83 then
        '(tos, i) ← quiet (parse_arg i argv);
        if (tos <? 0) || (tos >? UINT8_MAX) then
          a ← quiet (arg argv (Z.of_nat i)); a ← quiet (to_str a);
          print (text "Parse error: " ++ a ++ nl);;
          mret None
        else parse_options n' (S i) argv is_udp
               (UploadOptions tos (o_async o) (o_nodelay o) (o_cnt o + 2))
      else if c1 =? 97 then
        parse_options n' (S i) argv is_udp
          (UploadOptions (o_tos o) true (o_nodelay o) (o_cnt o + 1))
      else if c1 =? 110 then
        if is_udp then print (text "UDP does not support -n option" ++ nl);; mret None
        else parse_options n' (S i) argv is_udp
               (UploadOptions (o_tos o) (o_async o) 1 (o_cnt o + 1))
      else
        a ← quiet (c_str a);
        print (text "Unrecognized argument: " ++ a ++ nl);;
        mret None
  end.

(** lwipopts.h: LWIP_UDP, LWIP_TCP. *)
Definition CONFIG_NET_UDP : bool := true.
Definition CONFIG_NET_TCP : bool := true.

Section Shell.
Context {L : Lwip} {R : Rtos} {E : Type} `{!Env E}.
Abbreviation W := (world E).

(** ** Addresses *)
Definition parse_ipv6_addr (host port : option bytes) (addr : bytes) : printing (Z * bytes) :=
  match host with
  | None => mret (shell_status (- kStatus_SHELL_Error), addr)
  | Some host =>
      h ← quiet (c_str host);
      let '(ret, written) := net_addr_pton AF_INET6 h in
      addr ← quiet (match written with Some bs => set_sin6_addr bs addr | None => mret addr end);
      if ret <? 0 then
        print (text "Invalid IPv6 address " ++ h ++ nl);;
        mret (shell_status (- kStatus_SHELL_Error), addr)
      else
      n ← quiet (to_ulong port);
      addr ← quiet (set_sin6_port (htons (u16 n)) addr);
      if htons (u16 n) =? 0 then
        port ← quiet (to_str port);
        print (text "Invalid port " ++ port ++ nl);;
        mret (shell_status (- kStatus_SHELL_Error), addr)
      else mret (kStatus_SHELL_Success, addr)
  end.

Definition parse_ipv4_addr (host port : option bytes) (addr : bytes) : printing (Z * bytes) :=
  match host with
  | None => mret (shell_status (- kStatus_SHELL_Error), addr)
  | Some host =>
      h ← quiet (c_str host);
      let '(ret, written) := net_addr_pton AF_INET h in
      addr ← quiet (match written with Some bs => set_sin_addr bs addr | None => mret addr end);
      if ret <? 0 then
        print (text "Invalid IPv4 address " ++ h ++ nl);;
        mret (shell_status (- kStatus_SHELL_Error), addr)
      else
      n ← quiet (to_ulong port);
      addr ← quiet (set_sin_port (htons (u16 n)) addr);
      if htons (u16 n) =? 0 then
        port ← quiet (to_str port);
        print (text "Invalid port " ++ port ++ nl);;
        mret (shell_status (- kStatus_SHELL_Error), addr)
      else mret (kStatus_SHELL_Success, addr)
  end.

(** The blocks for a system with IPv6 only, with IPv4 only, and with both
    protocols, which is the one compiled in: the peer, [None] to return. *)
Definition upload_peer_ipv6_only (host port : option bytes) : printing (option bytes) :=
  ipv6 ← quiet (set_sa_family AF_INET6 (memset 0 sizeof_sockaddr_in6));
  '(r6, ipv6) ← parse_ipv6_addr host port ipv6;
  if r6 <? 0 then
    print (text "Please specify the IP address of the remote server." ++ nl);;
    mret None
  else
    a ← quiet (sin6_addr ipv6); a ← quiet (net_sprint_ipv6_addr (Some a));
    print (text "Connecting to " ++ a ++ nl);;
    peer ← quiet (copy_sockaddr_in6_to_sockaddr_storage ipv6); mret (Some peer).

Definition upload_peer_ipv4_only (host port : option bytes) : printing (option bytes) :=
  ipv4 ← quiet (set_sa_family AF_INET (memset 0 sizeof_sockaddr_in));
  '(r4, ipv4) ← parse_ipv4_addr host port ipv4;
  if r4 <? 0 then
    print (text "Please specify the IP address of the remote server." ++ nl);;
    mret None
  else
    a ← quiet (sin_addr ipv4); a ← quiet (net_sprint_ipv4_addr (Some a));
    print (text "Connecting to " ++ a ++ nl);;
    peer ← quiet (copy_sockaddr_in_to_sockaddr_storage ipv4); mret (Some peer).

Definition upload_peer (host port : option bytes) : printing (option bytes) :=
  ipv6 ← quiet (set_sa_family AF_INET6 (memset 0 sizeof_sockaddr_in6));
  ipv4 ← quiet (set_sa_family AF_INET (memset 0 sizeof_sockaddr_in));
  '(r6, ipv6) ← parse_ipv6_addr host port ipv6;
  if negb (r6 =? kStatus_SHELL_Success) then
    '(r4, ipv4) ← parse_ipv4_addr host port ipv4;
    if r4 <? 0 then
      print (text "Please specify the IP address of the remote server." ++ nl);;
      mret None
    else
      a ← quiet (sin_addr ipv4); a ← quiet (net_sprint_ipv4_addr (Some a));
      print (text "Connecting to ipv4 " ++ a ++ nl);;
      peer ← quiet (copy_sockaddr_in_to_sockaddr_storage ipv4); mret (Some peer)
  else
    a ← quiet (sin6_addr ipv6); a ← quiet (net_sprint_ipv6_addr (Some a));
    print (text "Connecting to ipv6 " ++ a ++ nl);;
    peer ← quiet (copy_sockaddr_in6_to_sockaddr_storage ipv6); mret (Some peer).

Definition peer_address (host port : option bytes) : printing (option bytes) :=
  if CONFIG_NET_IPV6 && negb CONFIG_NET_IPV4 then upload_peer_ipv6_only host port
  else if CONFIG_NET_IPV4 && negb CONFIG_NET_IPV6 then upload_peer_ipv4_only host port
  else if CONFIG_NET_IPV6 && CONFIG_NET_IPV4 then upload_peer host port
  else mret (Some (memset 0 sizeof_sockaddr_storage)).

(** ** Uploads *)
Definition DEF_PORT_STR : bytes := literal "5001".
Definition UDP_UPLOAD_CB : callback := 1.
Definition TCP_UPLOAD_CB : callback := 2.
Definition UDP_SESSION_CB : callback := 3.
Definition TCP_SESSION_CB : callback := 4.

(** [if (argc < 2)]: every path returns [-kStatus_SHELL_Error]. *)
Definition not_enough (is_udp : bool) : printing unit :=
  print (text "Not enough parameters." ++ nl);;
  (if is_udp then if CONFIG_NET_UDP then print (text "help") else mret tt
   else if CONFIG_NET_TCP then print (text "help") else mret tt).

(** The parameters after the options; [None] is [return -kStatus_SHELL_Error]. *)
Definition upload_command (argv : list bytes) (o : upload_options) (is_udp : bool)
    : printing (option zperf_upload_params) :=
  let start := o_cnt o in
  let argc := u32 (Z.of_nat (length argv) - o_cnt o) in
  if argc <? 2 then not_enough is_udp;; mret None else
  port_str ← (if argc >? 2 then
                p ← quiet (arg argv (start + 2)); s ← quiet (to_str p);
                print (text "Remote port is " ++ s ++ nl);;
                mret p
              else mret (Some DEF_PORT_STR));
  host ← quiet (arg argv (start + 1));
  peer ← peer_address host port_str;
  match peer with
  | None => mret None
  | Some peer =>
      duration ← quiet (if argc >? 3
                        then d ← arg argv (start + 3); d ← to_ulong d; mret (u32 (MSEC_PER_SEC * d))
                        else mret (MSEC_PER_SEC * 1));
      size ← quiet (if argc >? 4
                    then d ← arg argv (start + 4); d ← deref d; v ← parse_number d K K_UNIT; mret (u16 v)
                    else mret 256);
      rate ← quiet (if argc >? 5
                    then d ← arg argv (start + 5); d ← deref d; v ← parse_number d K K_UNIT;
                         mret (u32 (Z.quot (s32 (v + 1023)) 1024))
                    else mret 10);
      mret (Some (UploadParams peer duration rate size (u8 (o_tos o)) (o_nodelay o) (-1)))
  end.
End Shell.

(** ** What the callbacks print *)
Definition server_rate (r : zperf_results) : Z :=
  if negb (time_in_us r =? 0)
  then u32 (u64 (u64 (total_len r * 8) * u64 USEC_PER_SEC) / u64 (time_in_us r * 1024))
  else 0.
Definition client_rate (r : zperf_results) : Z :=
  if negb (client_time_in_us r =? 0)
  then u32 (u64 (u64 (u64 (nb_packets_sent r * packet_size r) * 8) * u64 USEC_PER_SEC)
            / u64 (client_time_in_us r * 1024))
  else 0.

Definition udp_session_cb (st : zperf_status) (result : option zperf_results) : printing unit :=
  match st with
  | ZPERF_SESSION_STARTED => print (text "New session started." ++ nl)
  | ZPERF_SESSION_FINISHED =>
      match result with
      | None => Fault NullPointer
      | Some r =>
          print (text "End of session!" ++ nl);;
          print (text " duration:" ++ tab ++ tab);;
          print_number (time_in_us r) TIME_US TIME_US_UNIT;;
          print nl;;
          print (text " received packets:" ++ tab ++ decimal (nb_packets_rcvd r) ++ nl);;
          print (text " nb packets lost:" ++ tab ++ decimal (nb_packets_lost r) ++ nl);;
          print (text " nb packets outorder:" ++ tab ++ decimal (nb_packets_outorder r) ++ nl);;
          print (text " jitter:" ++ tab ++ tab ++ tab);;
          print_number (jitter_in_us r) TIME_US TIME_US_UNIT;;
          print nl;;
          print (text " rate:" ++ tab ++ tab ++ tab);;
          print_number (server_rate r) KBPS KBPS_UNIT;;
          print nl
      end
  | ZPERF_SESSION_ERROR => print (text "UDP session error." ++ nl)
  end.

Definition tcp_session_cb (st : zperf_status) (result : option zperf_results) : printing unit :=
  match st with
  | ZPERF_SESSION_STARTED => print (text "New TCP session started." ++ nl)
  | ZPERF_SESSION_FINISHED =>
      match result with
      | None => Fault NullPointer
      | Some r =>
          print (text "TCP session ended" ++ nl);;
          print (text " Duration:" ++ tab ++ tab);;
          print_number (time_in_us r) TIME_US TIME_US_UNIT;;
          print nl;;
          print (text " rate:" ++ tab ++ tab ++ tab);;
          print_number (server_rate r) KBPS KBPS_UNIT;;
          print nl
      end
  | ZPERF_SESSION_ERROR => print (text "TCP session error." ++ nl)
  end.

Definition shell_udp_upload_print_stats (r : zperf_results) : printing unit :=
  if CONFIG_NET_UDP then
    print (text "-" ++ nl ++ text "Upload completed!" ++ nl);;
    (if server_rate r =? 0 then print (text "LAST PACKET NOT RECEIVED!!!" ++ nl) else mret tt);;
    print (text "Statistics:" ++ tab ++ tab ++ text "server" ++ tab ++ text "(client)" ++ nl);;
    print (text "Duration:" ++ tab ++ tab);;
    print_number (time_in_us r) TIME_US TIME_US_UNIT;;
    print (tab ++ text "(");;
    print_number (client_time_in_us r) TIME_US TIME_US_UNIT;;
    print (text ")" ++ nl);;
    print (text "Num packets:" ++ tab ++ tab ++ decimal (nb_packets_rcvd r) ++ tab
             ++ text "(" ++ decimal (nb_packets_sent r) ++ text ")" ++ nl);;
    print (text "Num packets out order:" ++ tab ++ decimal (nb_packets_outorder r) ++ nl);;
    print (text "Num packets lost:" ++ tab ++ decimal (nb_packets_lost r) ++ nl);;
    print (text "Jitter:" ++ tab ++ tab ++ tab);;
    print_number (jitter_in_us r) TIME_US TIME_US_UNIT;;
    print nl;;
    print (text "Rate:" ++ tab ++ tab ++ tab);;
    print_number (server_rate r) KBPS KBPS_UNIT;;
    print (tab ++ text "(");;
    print_number (client_rate r) KBPS KBPS_UNIT;;
    print (text ")" ++ nl)
  else mret tt.

Definition shell_tcp_upload_print_stats (r : zperf_results) : printing unit :=
  if CONFIG_NET_TCP then
    print (text "-" ++ nl ++ text "Upload completed!" ++ nl);;
    print (text "Duration:" ++ tab);;
    print_number (client_time_in_us r) TIME_US TIME_US_UNIT;;
    print nl;;
    print (text "Num packets:" ++ tab ++ decimal (nb_packets_sent r) ++ nl);;
    print (text "Num errors:" ++ tab ++ decimal (nb_packets_errors r) ++ text " (retry or fail)" ++ nl);;
    print (text "Rate:" ++ tab ++ tab);;
    print_number (client_rate r) KBPS KBPS_UNIT;;
    print nl
  else mret tt.

Definition udp_upload_cb (st : zperf_status) (result : option zperf_results) : printing unit :=
  match st with
  | ZPERF_SESSION_STARTED => mret tt
  | ZPERF_SESSION_FINISHED =>
      match result with None => Fault NullPointer | Some r => shell_udp_upload_print_stats r end
  | ZPERF_SESSION_ERROR => print (text "UDP upload failed" ++ nl)
  end.

Definition tcp_upload_cb (st : zperf_status) (result : option zperf_results) : printing unit :=
  match st with
  | ZPERF_SESSION_STARTED => mret tt
  | ZPERF_SESSION_FINISHED =>
      match result with None => Fault NullPointer | Some r => shell_tcp_upload_print_stats r end
  | ZPERF_SESSION_ERROR => print (text "TCP upload failed" ++ nl)
  end.

Section Commands.
Context {L : Lwip} {R : Rtos} {E : Type} `{!Env E}.
Abbreviation W := (world E).

(** ** The upload *)
Definition upload_banner (param : zperf_upload_params) : printing unit :=
  print (text "Duration:" ++ tab);;
  print_number (u32 (duration_ms param * USEC_PER_MSEC)) TIME_US TIME_US_UNIT;;
  print nl;;
  print (text "Packet size:" ++ tab ++ decimal (up_packet_size param) ++ text " bytes" ++ nl);;
  print (text "Rate:" ++ tab ++ tab ++ decimal (rate_kbps param) ++ text " kbps" ++ nl);;
  print (text "Starting..." ++ nl).

Definition udp_banner (param : zperf_upload_params) : printing unit :=
  packet_duration ← quiet (zperf_packet_duration (up_packet_size param) (rate_kbps param));
  print (text "Rate:" ++ tab ++ tab);;
  print_number (rate_kbps param) KBPS KBPS_UNIT;;
  print nl;;
  if packet_duration >? 1000
  then print (text "Packet duration " ++ decimal (packet_duration / 1000) ++ text " ms" ++ nl)
  else print (text "Packet duration " ++ decimal packet_duration ++ text " us" ++ nl).

(** The two halves of [execute_upload]: [Some ret] is [return ret]. [sh] is the
    user data of the callbacks. *)
Definition execute_udp (fuel : nat) (sh : Z) (param : zperf_upload_params) (is_udp async : bool)
    : M W (option Z) :=
  if is_udp && CONFIG_NET_UDP then
    say (udp_banner param);;
    if async then
      ret ← zperf_udp_upload_async (Some param) (Some UDP_UPLOAD_CB) sh;
      if ret <? 0 then
        say (print (text "Failed to start UDP async upload (" ++ signed ret ++ text ")" ++ nl));;
        mret (Some (shell_status ret))
      else mret None
    else
      '(ret, results) ← zperf_udp_upload fuel (Some param) (Some zero_results);
      if ret <? 0 then
        say (print (text "UDP upload failed (" ++ signed ret ++ text ")" ++ nl));;
        mret (Some (shell_status ret))
      else
        say (r ← quiet (deref results); shell_udp_upload_print_stats r);;
        mret None
  else
    say (if negb CONFIG_NET_UDP then print (text "UDP not supported" ++ nl) else mret tt);;
    mret None.

Definition execute_tcp (fuel : nat) (sh : Z) (param : zperf_upload_params) (is_udp async : bool)
    : M W (option Z) :=
  if negb is_udp && CONFIG_NET_TCP then
    if async then
      ret ← zperf_tcp_upload_async (Some param) (Some TCP_UPLOAD_CB) sh;
      if ret <? 0 then
        say (print (text "Failed to start TCP async upload (" ++ signed ret ++ text ")" ++ nl));;
        mret (Some (shell_status ret))
      else mret None
    else
      '(ret, results) ← zperf_tcp_upload fuel (Some param) (Some zero_results);
      if ret <? 0 then
        say (print (text "TCP upload failed (" ++ signed ret ++ text ")" ++ nl));;
        mret (Some (shell_status ret))
      else
        say (r ← quiet (deref results); shell_tcp_upload_print_stats r);;
        mret None
  else
    say (if negb CONFIG_NET_TCP then print (text "TCP not supported" ++ nl) else mret tt);;
    mret None.

Definition execute_upload (fuel : nat) (sh : Z) (param : zperf_upload_params) (is_udp async : bool)
    : M W Z :=
  say (upload_banner param);;
  r ← execute_udp fuel sh param is_udp async;
  match r with
  | Some ret => mret ret
  | None =>
      r ← execute_tcp fuel sh param is_udp async;
      match r with
      | Some ret => mret ret
      | None => mret kStatus_SHELL_Success
      end
  end.

Definition shell_cmd_upload (fuel : nat) (sh : Z) (argv : list bytes) (is_udp : bool) : M W Z :=
  o ← say (parse_options (length argv) 1 argv is_udp (UploadOptions 0 false 0 0));
  match o with
  | None => mret (shell_status (- kStatus_SHELL_Error))
  | Some o =>
      param ← say (upload_command argv o is_udp);
      match param with
      | None => mret (shell_status (- kStatus_SHELL_Error))
      | Some param => execute_upload fuel sh param is_udp (o_async o)
      end
  end.

(** ** Downloads *)

(** The status, and the parameters. [net_ipaddr_parse] returns a [bool]. *)
Definition zperf_bind_host (argv : list bytes) : printing (Z * zperf_download_params) :=
  port ← quiet (if (2 <=? length argv)%nat then a ← arg argv 1; p ← to_ulong a; mret (u16 p)
                else mret DEF_PORT);
  let addr0 := memset 0 sizeof_sockaddr_storage in
  if (3 <=? length argv)%nat then
    a ← quiet (arg argv 2); a ← quiet (deref a);
    len ← quiet (strlen a);
    '(ok, addr) ← quiet (net_ipaddr_parse (Some a) len (memset 0 sizeof_sockaddr));
    let ret := Z.b2z ok in
    if ret <? 0 then
      s ← quiet (c_str a);
      print (text "Cannot parse address " ++ [34] ++ s ++ [34] ++ nl);;
      mret (shell_status ret, DownloadParams port addr0)
    else
      bs ← quiet (read_at 0 sizeof_sockaddr addr);
      addr ← quiet (write_at 0 bs addr0);
      mret (kStatus_SHELL_Success, DownloadParams port addr)
  else mret (kStatus_SHELL_Success, DownloadParams port addr0).

Definition cmd_udp_download (sh : Z) (argv : list bytes) : M W Z :=
  if CONFIG_NET_UDP then
    '(ret, param) ← say (zperf_bind_host argv);
    if s32 ret <? 0 then
      say (print (text "Unable to bind host." ++ nl ++ text "help"));;
      mret (shell_status (- kStatus_SHELL_Error))
    else
    ret ← zperf_udp_download (Some param) (Some UDP_SESSION_CB) sh;
    if ret =? - EALREADY then
      say (print (text "UDP server already started!" ++ nl));;
      mret (shell_status (- kStatus_SHELL_Error))
    else if ret <? 0 then
      say (print (text "Failed to start UDP server!" ++ nl));;
      mret (shell_status (- kStatus_SHELL_Error))
    else
    trigger TaskYield;;
    say (print (text "UDP server started on port " ++ decimal (dp_port param) ++ nl));;
    mret kStatus_SHELL_Success
  else mret (shell_status (- kStatus_SHELL_Error)).

Definition cmd_tcp_download (sh : Z) (argv : list bytes) : M W Z :=
  if CONFIG_NET_TCP then
    '(ret, param) ← say (zperf_bind_host argv);
    if s32 ret <? 0 then
      say (print (text "Unable to bind host." ++ nl ++ text "help"));;
      mret (shell_status (- kStatus_SHELL_Error))
    else
    ret ← zperf_tcp_download (Some param) (Some TCP_SESSION_CB) sh;
    if ret =? - EALREADY then
      say (print (text "TCP server already started!" ++ nl));;
      mret (shell_status (- kStatus_SHELL_Error))
    else if ret <? 0 then
      say (print (text "Failed to start TCP server!" ++ nl));;
      mret (shell_status (- kStatus_SHELL_Error))
    else
    say (print (text "TCP server started on port " ++ decimal (dp_port param) ++ nl));;
    mret kStatus_SHELL_Success
  else mret (shell_status (- kStatus_SHELL_Error)).

(** ** The task *)
Definition helpmessage : bytes :=
  let indent := nl ++ text "                                   " in
  text "Usage:" ++ indent
    ++ text "udp_upload <address> <port> <duration> <packet size> <baud rate> - udp upload" ++ indent
    ++ text "tcp_upload <address> <port> <duration> <packet size> <baud rate> - tcp upload" ++ indent
    ++ text "udp_download <port> <address> " ++ indent
    ++ text "tcp_download <port> <address> " ++ nl.

(** [shell_task], before the loop in which it then stays: [args] are the
    program's arguments, its name first. *)
Definition shell_task (fuel : nat) (args : list bytes) : M W unit :=
  if (length args =? 1)%nat then say (print helpmessage) else
  cmd ← lift (arg args 1); c ← lift (to_str cmd);
  let argv := drop 1 args in
  if strcmp_eq c (text "udp_upload") then shell_cmd_upload fuel 0 argv true;; mret tt
  else if strcmp_eq c (text "tcp_upload") then shell_cmd_upload fuel 0 argv false;; mret tt
  else if strcmp_eq c (text "udp_download") then cmd_udp_download 0 argv;; mret tt
  else if strcmp_eq c (text "tcp_download") then cmd_tcp_download 0 argv;; mret tt
  else say (print (text "Unknown command" ++ nl ++ helpmessage)).
End Commands.

(** ** Numbers: theorems *)
Section Numbers.

(** A number followed by a suffix. *)
Lemma parse_number_suffix n suffix divisor :
  0 <= n < 2147483648 -> Forall (fun c => c <> 0) suffix -> starts_with_digit suffix = false ->
  find_unit suffix K K_UNIT = Done divisor ->
  parse_number (decimal n ++ suffix ++ [0]) K K_UNIT =
    Done (if divisor =? 0 then n else s32 (n * divisor)).
Proof.
  intros Hn Hz Hd Hu. unfold parse_number.
  rewrite app_assoc, c_str_app by (apply Forall_app; split; [apply decimal_nonzero; lia|done]).
  cbn [mbind outcome_bind]. rewrite strtoul_decimal by (done || lia).
  rewrite drop_app_length, Hu. cbn [mbind outcome_bind]. by rewrite s32_small by lia.
Qed.

(** Sizes and rates on the command line. A number below 2^31 without a suffix
    is itself; with the suffix K or M, in either case, it is multiplied by 1024
    or 1024^2 and wraps around the 32-bit [long], so it is exact only below
    2^31. *)
Theorem parse_number_units n :
  0 <= n < 2147483648 ->
  parse_number (decimal n ++ literal "") K K_UNIT = Done n /\
  (forall k, k = 75 \/ k = 107 -> parse_number (decimal n ++ [k; 0]) K K_UNIT = Done (s32 (n * 1024))) /\
  (forall m, m = 77 \/ m = 109 ->
     parse_number (decimal n ++ [m; 0]) K K_UNIT = Done (s32 (n * 1048576))).
Proof.
  intros Hn. split; [|split].
  - by apply (parse_number_suffix n [] 0).
  - intros k Hk.
    apply (parse_number_suffix n [k] 1024); [done|constructor; [lia|done]| |]; by destruct Hk as [-> | ->].
  - intros m Hm.
    apply (parse_number_suffix n [m] 1048576); [done|constructor; [lia|done]| |];
      by destruct Hm as [-> | ->].
Qed.

Lemma parse_number_units_witness :
  parse_number (decimal 300 ++ literal "") K K_UNIT = Done 300 /\
  parse_number (decimal 3000 ++ [77; 0]) K K_UNIT = Done (-1149239296).
Proof.
  split; [apply (parse_number_units 300); lia|].
  apply (parse_number_units 3000); [lia|by left].
Defined.

(** Durations printed in minutes. From a minute on a duration is printed as
    minutes with two decimals; the decimals are computed on 32 bits and are
    right only while the part beyond the last whole minute is below 42.95
    seconds. *)
Theorem print_number_minutes t :
  60000000 <= t < 4294967296 ->
  exists dec,
    print_number t TIME_US TIME_US_UNIT =
      print (decimal (t / 60000000) ++ text "." ++ (if dec <? 10 then text "0" else [])
              ++ decimal dec ++ text " m") /\
    (t mod 60000000 < 42949673 -> dec = t mod 60000000 * 100 / 60000000) /\
    (42949673 <= t mod 60000000 -> dec < t mod 60000000 * 100 / 60000000).
Proof.
  intros Ht. eexists. split; [|split].
  - unfold TIME_US, TIME_US_UNIT. cbn [print_number].
    destruct (Z.ltb_spec t (60 * 1000 * 1000)); [lia|]. cbn [negb Z.eqb].
    change (negb (60 * 1000 * 1000 =? 0)) with true. cbn iota.
    change (60 * 1000 * 1000) with 60000000. unfold mret, outcome_ret.
    reflexivity.
  - intros H. rewrite u32_small by lia. done.
  - intros H. cint.
Qed.
Lemma print_number_minutes_witness :
  exists dec,
    print_number 103000000 TIME_US TIME_US_UNIT =
      print (decimal 1 ++ text "." ++ (if dec <? 10 then text "0" else [])
              ++ decimal dec ++ text " m") /\ dec < 71.
Proof.
  destruct (print_number_minutes 103000000) as (dec & Hp & _ & Hlt); [lia|].
  exists dec. split; [exact Hp|apply Hlt; vm_compute; discriminate].
Defined.
End Numbers.

(** ** Addresses: theorems *)
Section Addresses.
Context {L : Lwip} {LOk : LwipOk L}.

(** A zeroed address object of which the family is set. *)
Lemma fresh_sockaddr family n :
  0 < family < 256 ^ Z.of_nat sizeof_sa_family -> (off_sa_family + sizeof_sa_family <= n)%nat ->
  exists m, set_sa_family family (memset 0 n) = Done m /\ length m = n /\
    sa_family m = Done family /\
    forall off k, (off_sa_family + sizeof_sa_family <= off)%nat -> (off + k <= n)%nat ->
      read_at off k m = Done (replicate k 0).
Proof.
  intros Hf Hn. unfold set_sa_family, store_at.
  assert (Hl : length (memset 0 n) = n) by apply length_replicate.
  assert (Hsz : length (store_le sizeof_sa_family family) = sizeof_sa_family) by apply length_store_le.
  destruct (write_at off_sa_family (store_le sizeof_sa_family family) (memset 0 n)) as [m|f|] eqn:Hw;
    [|by rewrite write_at_ok in Hw by (rewrite Hsz, Hl; lia)
     |by rewrite write_at_ok in Hw by (rewrite Hsz, Hl; lia)].
  exists m. pose proof (write_at_length _ _ _ _ Hw) as Hm. split; [done|]. split; [lia|]. split.
  - unfold sa_family, load_at. pose proof (read_write_same _ _ _ _ Hw) as Hr. rewrite Hsz in Hr.
    rewrite Hr. cbn [mbind outcome_bind]. rewrite load_store_le, Z.mod_small by lia. done.
  - intros off k Ho Hk. rewrite (read_write_after _ _ _ _ _ _ Hw) by (rewrite Hsz; lia).
    rewrite read_at_ok by lia. f_equal. unfold memset. rewrite drop_replicate, take_replicate.
    f_equal. lia.
Qed.

(** The address of a peer holds what was written to the IPv4 address. *)
Lemma copied_ipv4 m :
  length m = sizeof_sockaddr_in -> sa_family m = Done AF_INET ->
  exists peer, copy_sockaddr_in_to_sockaddr_storage m = Done peer /\
    forall off n, (off + n <= sizeof_sockaddr_in)%nat -> read_at off n peer = read_at off n m.
Proof.
  intros Hm Hf. pose proof in_fits_sockaddr. pose proof sockaddr_fits_storage.
  unfold copy_sockaddr_in_to_sockaddr_storage. rewrite Hf. cbn [mbind outcome_bind].
  rewrite Z.eqb_refl. unfold memcpy. rewrite (proj2 (Z.ltb_ge _ _)) by lia. rewrite Nat2Z.id.
  rewrite read_at_ok by lia. cbn [mbind outcome_bind]. rewrite drop_0, take_ge by lia.
  rewrite write_at_ok by (unfold memset; rewrite length_replicate; lia).
  rewrite take_0. eexists. split; [reflexivity|]. intros off n Hle. cbn [app].
  rewrite !read_at_ok by (rewrite ?length_app, ?length_drop; unfold memset; rewrite ?length_replicate; lia).
  f_equal. rewrite drop_app_le by lia. by rewrite take_app_le by (rewrite length_drop; lia).
Qed.

(** What is printed on the way to an IPv4 peer. *)
Definition invalid_v6 (h : bytes) : bytes := text "Invalid IPv6 address " ++ h ++ nl.
Definition invalid_v4 (h : bytes) : bytes := text "Invalid IPv4 address " ++ h ++ nl.
Definition connecting_v4 (a : bytes) : bytes := text "Connecting to ipv4 " ++ ip4addr_ntoa a ++ nl.

Lemma parse_ipv6_invalid host h port addr :
  c_str host = Done h -> inet_pton AF_INET6 h = (0, None) ->
  parse_ipv6_addr (Some host) port addr =
    Done (invalid_v6 h, (shell_status (- kStatus_SHELL_Error), addr)).
Proof.
  intros Hh H6. unfold parse_ipv6_addr, net_addr_pton. rewrite Hh. print_step. rewrite H6.
  cbn [Z.eqb]. change (-1 <? 0) with true. cbn iota. print_step. by rewrite app_nil_r.
Qed.
Lemma parse_ipv4_invalid host h port addr :
  c_str host = Done h -> inet_pton AF_INET h = (0, None) ->
  parse_ipv4_addr (Some host) port addr =
    Done (invalid_v4 h, (shell_status (- kStatus_SHELL_Error), addr)).
Proof.
  intros Hh H4. unfold parse_ipv4_addr, net_addr_pton. rewrite Hh. print_step. rewrite H4.
  cbn [Z.eqb]. change (-1 <? 0) with true. cbn iota. print_step. by rewrite app_nil_r.
Qed.

(** The host is no IPv6 address: what decides is the IPv4 address. *)
Lemma upload_peer_v4 host h port ipv4 t4 r m a :
  c_str host = Done h -> inet_pton AF_INET6 h = (0, None) ->
  set_sa_family AF_INET (memset 0 sizeof_sockaddr_in) = Done ipv4 ->
  parse_ipv4_addr (Some host) port ipv4 = Done (t4, (r, m)) -> 0 <= r ->
  length m = sizeof_sockaddr_in -> sa_family m = Done AF_INET -> sin_addr m = Done a ->
  exists peer, upload_peer (Some host) port =
      Done (invalid_v6 h ++ t4 ++ connecting_v4 a, Some peer) /\
    forall off n, (off + n <= sizeof_sockaddr_in)%nat -> read_at off n peer = read_at off n m.
Proof.
  intros Hh H6 Hset Hp Hr Hl Hf Ha. destruct (copied_ipv4 m Hl Hf) as (peer & Hc & Hread).
  pose proof addr_in_sockaddr_in6. pose proof family_before_port6. pose proof port_before_addr6.
  destruct (fresh_sockaddr AF_INET6 sizeof_sockaddr_in6) as (ipv6 & Hset6 & _);
    [apply af_inet6_range|lia|].
  exists peer. split; [|done]. unfold upload_peer. rewrite Hset6, Hset. print_step.
  rewrite (parse_ipv6_invalid host h) by done. print_step.
  change (negb (shell_status (- kStatus_SHELL_Error) =? kStatus_SHELL_Success)) with true. cbn iota.
  rewrite Hp. print_step. rewrite (proj2 (Z.ltb_ge _ _)) by lia. rewrite Ha. print_step.
  unfold net_sprint_ipv4_addr. print_step. rewrite Hc. print_step. by rewrite !app_nil_r.
Qed.

(** An address that is no address. When the host of an upload is neither an
    IPv6 nor an IPv4 address, the command says so twice and goes on: its error
    code is compared as an unsigned number, and the upload is made to the IPv4
    address 0.0.0.0 and port 0, which it prints as the peer. *)
Theorem upload_peer_invalid host h port :
  c_str host = Done h -> inet_pton AF_INET6 h = (0, None) -> inet_pton AF_INET h = (0, None) ->
  exists peer, upload_peer (Some host) port =
      Done (invalid_v6 h ++ invalid_v4 h ++ connecting_v4 (store_le 4 INADDR_ANY), Some peer) /\
    sa_family peer = Done AF_INET /\ sin_addr peer = Done (store_le 4 INADDR_ANY) /\
    sin_port peer = Done 0.
Proof.
  intros Hh H6 H4. pose proof addr_in_sockaddr_in. pose proof family_before_port.
  pose proof port_before_addr.
  destruct (fresh_sockaddr AF_INET sizeof_sockaddr_in) as (ipv4 & Hset & Hl & Hf & Hz);
    [apply af_inet_range|lia|].
  assert (Ha : sin_addr ipv4 = Done (store_le 4 INADDR_ANY)).
  { unfold sin_addr. rewrite Hz by lia. by rewrite inaddr_any_zero. }
  destruct (upload_peer_v4 host h port ipv4 (invalid_v4 h) (shell_status (- kStatus_SHELL_Error)) ipv4
              (store_le 4 INADDR_ANY)) as (peer & Hp & Hread); try done.
  { by apply parse_ipv4_invalid. }
  exists peer. split; [done|]. unfold sa_family, sin_addr, sin_port, load_at in *.
  rewrite !Hread by lia. split; [done|]. split; [done|]. by rewrite Hz by lia.
Qed.

(** A host that is an IPv4 address, and its port. *)
Lemma parse_ipv4_valid host h a port ipv4 :
  c_str host = Done h -> inet_pton AF_INET h = (1, Some a) -> 0 < port < 65536 ->
  length ipv4 = sizeof_sockaddr_in -> sa_family ipv4 = Done AF_INET ->
  exists m, parse_ipv4_addr (Some host) (Some (decimal port ++ [0])) ipv4
      = Done ([], (kStatus_SHELL_Success, m)) /\
    length m = sizeof_sockaddr_in /\ sa_family m = Done AF_INET /\ sin_addr m = Done a /\
    read_at off_sin_port 2 m = Done (store_le 2 (htons port)).
Proof.
  intros Hh H4 Hport Hl Hf. pose proof addr_in_sockaddr_in. pose proof family_before_port.
  pose proof port_before_addr. destruct (inet_pton_size_4 _ _ _ H4) as [Ha _].
  assert (Hn : ntohs (htons port) = port) by (rewrite ntohs_htons; apply u16_small; lia).
  assert (Hnz : htons port <> 0) by (intros E; rewrite E in Hn; vm_compute in Hn; lia).
  destruct (write_at off_sin_addr a ipv4) as [m1|f|] eqn:Hw1;
    [|by rewrite write_at_ok in Hw1 by lia..].
  pose proof (write_at_length _ _ _ _ Hw1) as Hl1.
  assert (Hs2 : length (store_le 2 (htons port)) = 2%nat) by apply length_store_le.
  destruct (write_at off_sin_port (store_le 2 (htons port)) m1) as [m2|f|] eqn:Hw2;
    [|by rewrite write_at_ok in Hw2 by lia..].
  pose proof (write_at_length _ _ _ _ Hw2) as Hl2. exists m2. split_and!.
  - unfold parse_ipv4_addr, net_addr_pton. rewrite Hh. print_step. rewrite H4. cbn [Z.eqb].
    unfold set_sin_addr. rewrite Hw1. change (0 <? 0) with false. cbn iota.
    unfold to_ulong, deref. print_step. rewrite c_str_app by (apply decimal_nonzero; lia). print_step.
    rewrite <- (app_nil_r (decimal port)), strtoul_decimal by (done || lia). cbn [fst].
    rewrite (u16_small port) by lia. unfold set_sin_port, store_at. rewrite Hw2.
    by rewrite (proj2 (Z.eqb_neq _ _) Hnz).
  - lia.
  - unfold sa_family, load_at in *. rewrite (read_write_before _ _ _ _ _ _ Hw2) by lia.
    by rewrite (read_write_before _ _ _ _ _ _ Hw1) by lia.
  - unfold sin_addr. rewrite (read_write_after _ _ _ _ _ _ Hw2) by lia.
    pose proof (read_write_same _ _ _ _ Hw1) as Hr. by rewrite Ha in Hr.
  - pose proof (read_write_same _ _ _ _ Hw2) as Hr. by rewrite Hs2 in Hr.
Qed.

(** An IPv4 upload. A host that is an IPv4 address with a port other than 0
    gives the peer of that address, with address and port in network order. *)
Theorem upload_peer_ipv4 host h a port :
  c_str host = Done h -> inet_pton AF_INET6 h = (0, None) -> inet_pton AF_INET h = (1, Some a) ->
  0 < port < 65536 ->
  exists peer, upload_peer (Some host) (Some (decimal port ++ [0])) =
      Done (invalid_v6 h ++ connecting_v4 a, Some peer) /\
    sa_family peer = Done AF_INET /\ sin_addr peer = Done a /\
    read_at off_sin_port 2 peer = Done (reverse (store_le 2 port)).
Proof.
  intros Hh H6 H4 Hport. pose proof addr_in_sockaddr_in. pose proof family_before_port.
  pose proof port_before_addr.
  destruct (fresh_sockaddr AF_INET sizeof_sockaddr_in) as (ipv4 & Hset & Hl & Hf & _);
    [apply af_inet_range|lia|].
  destruct (parse_ipv4_valid host h a port ipv4) as (m & Hm & Hlm & Hfm & Ham & Hpm); [done..|].
  destruct (upload_peer_v4 host h (Some (decimal port ++ [0])) ipv4 [] kStatus_SHELL_Success m a)
    as (peer & Hp & Hread); [done|done|done|done|unfold kStatus_SHELL_Success; lia|done|done|done|].
  exists peer. split; [exact Hp|]. unfold sin_addr, sa_family, load_at in *.
  rewrite !Hread by lia. split; [done|]. split; [done|]. rewrite Hpm. f_equal.
  unfold htons. pose proof (store_load_le (reverse (store_le 2 port))) as H'.
  rewrite length_reverse, length_store_le in H'. apply H'.
  rewrite Forall_reverse. apply store_le_bytes.
Qed.
End Addresses.

Lemma upload_peer_invalid_witness :
  exists peer, upload_peer (L := lwip_example) (Some (literal "10.0.0")) (Some (literal "5001"))
      = Done (text "Invalid IPv6 address 10.0.0" ++ nl ++ text "Invalid IPv4 address 10.0.0" ++ nl
                ++ text "Connecting to ipv4 0.0.0.0" ++ nl, Some peer) /\
    sa_family (L := lwip_example) peer = Done 2 /\ sin_addr (L := lwip_example) peer = Done ([0; 0; 0; 0]) /\
    sin_port (L := lwip_example) peer = Done 0.
Proof.
  apply (upload_peer_invalid (L := lwip_example) _ (text "10.0.0")); reflexivity.
Defined.

Lemma upload_peer_ipv4_witness :
  exists peer, upload_peer (L := lwip_example) (Some (literal "10.0.0.7"))
      (Some (decimal 5001 ++ [0])) =
        Done (text "Invalid IPv6 address 10.0.0.7" ++ nl ++ text "Connecting to ipv4 10.0.0.7" ++ nl,
              Some peer) /\
    sa_family (L := lwip_example) peer = Done 2 /\ sin_addr (L := lwip_example) peer = Done [10; 0; 0; 7] /\
    read_at 2 2 peer = Done (reverse (store_le 2 5001)).
Proof.
  apply (upload_peer_ipv4 (L := lwip_example) (literal "10.0.0.7") (text "10.0.0.7") [10; 0; 0; 7] 5001);
    [reflexivity..|lia].
Defined.

(** ** The arguments of an upload: theorems *)

(** Evaluates the arguments of a given command line. *)
Ltac eval_args :=
  repeat match goal with
  | |- context [arg ?l ?i] =>
      let v := eval vm_compute in (arg l i) in
      match v with Done (Some ?s) => change (arg l i) with (@Done (option bytes) (@Some bytes s)) end
  end.
Ltac upload_step := unfold deref; print_step.

Section Arguments.
Context {L : Lwip}.

Definition remote_port (p : bytes) : bytes := text "Remote port is " ++ p ++ nl.
Definition set_cnt (n : Z) (o : upload_options) : upload_options :=
  UploadOptions (o_tos o) (o_async o) (o_nodelay o) n.

Lemma arg_shift (a : bytes) opts rest j :
  1 <= j -> arg (a :: opts ++ rest) (Z.of_nat (length opts) + j) = arg (a :: rest) j.
Proof.
  intros Hj. unfold arg. rewrite !(proj2 (Z.ltb_ge _ _)) by lia.
  destruct (Z.to_nat j) as [|k] eqn:Hk; [lia|].
  replace (Z.to_nat (Z.of_nat (length opts) + j)) with (S (length opts + k)) by lia.
  change ((a :: opts ++ rest) !! S (length opts + k)%nat) with ((opts ++ rest) !! (length opts + k)%nat).
  change ((a :: rest) !! S k) with (rest !! k). rewrite lookup_app_r by lia. replace (length opts + k - length opts)%nat with k by lia.
  destruct (rest !! k); [done|]. cbn [length]. rewrite length_app.
  destruct (Z.eqb_spec (Z.of_nat (length opts) + j) (Z.of_nat (S (length opts + length rest)))),
    (Z.eqb_spec j (Z.of_nat (S (length rest)))); done || lia.
Qed.

Lemma arg_lookup (argv : list bytes) i (a : bytes) :
  argv !! i = Some a -> arg argv (Z.of_nat i) = Done (Some a).
Proof. intros Hl. unfold arg. by rewrite (proj2 (Z.ltb_ge _ _)), Nat2Z.id, Hl by lia. Qed.

(** Options that are counted right are as good as absent. *)
Lemma upload_command_shift a opts rest o is_udp :
  o_cnt o = Z.of_nat (length opts) ->
  upload_command (a :: opts ++ rest) o is_udp = upload_command (a :: rest) (set_cnt 0 o) is_udp.
Proof.
  intros Hc. unfold upload_command. cbn [set_cnt o_cnt o_tos o_nodelay]. rewrite Hc.
  replace (Z.of_nat (length (a :: opts ++ rest)) - Z.of_nat (length opts))
    with (Z.of_nat (length (a :: rest)) - 0) by (cbn [length]; rewrite length_app; lia).
  rewrite !arg_shift by lia. rewrite !Z.add_0_l. done.
Qed.

Lemma to_ulong_decimal n : 0 <= n < 4294967296 -> to_ulong (Some (decimal n ++ [0])) = Done n.
Proof.
  intros Hn. unfold to_ulong, deref, mret, outcome_ret. cbn [mbind outcome_bind].
  rewrite c_str_app by (apply decimal_nonzero; lia). cbn [mbind outcome_bind].
  by rewrite <- (app_nil_r (decimal n)), strtoul_decimal by (done || lia).
Qed.

(** Numbers in range, as the commands read them. *)
Lemma upload_numbers d n r :
  0 <= d <= 4294967 -> 0 <= n < 65536 -> 0 <= r < 2097152 ->
  to_ulong (@Some bytes (decimal d ++ [0])) = Done d /\ u32 (MSEC_PER_SEC * d) = 1000 * d /\
  parse_number (decimal n ++ [0]) K K_UNIT = Done n /\ u16 n = n /\
  parse_number (decimal r ++ [75; 0]) K K_UNIT = Done (r * 1024) /\
  u32 (Z.quot (s32 (r * 1024 + 1023)) 1024) = r.
Proof.
  intros Hd Hn Hr. split; [apply to_ulong_decimal; lia|].
  split; [unfold MSEC_PER_SEC; apply u32_small; lia|].
  split; [apply (parse_number_suffix n [] 0); [lia|done..]|].
  split; [apply u16_small; lia|]. split; [|rewrite s32_small by lia; rewrite u32_small; lia].
  change [75; 0] with ([75] ++ [0]).
  rewrite (parse_number_suffix r [75] 1024) by (done || lia || by repeat constructor).
  cbn [Z.eqb]. by rewrite s32_small by lia.
Qed.

(** The arguments of an upload. With host, port, duration in seconds, packet
    size in bytes and rate in multiples of 1024, each in range, the parameters
    of the upload are those asked for, the duration in milliseconds, and the
    port is printed. A missing duration is a second, a missing size 256 bytes, a
    missing rate 10. *)
Theorem upload_arguments cmd host port p d n r o is_udp t peer :
  o_cnt o = 0 -> c_str port = Done p -> upload_peer (Some host) (Some port) = Done (t, Some peer) ->
  0 <= d <= 4294967 -> 0 <= n < 65536 -> 0 <= r < 2097152 ->
  let duration : bytes := decimal d ++ [0] in
  let size : bytes := decimal n ++ [0] in
  let rate : bytes := decimal r ++ [75; 0] in
  let params ms size rate :=
    Done (remote_port p ++ t, Some (UploadParams peer ms rate size (u8 (o_tos o)) (o_nodelay o) (-1))) in
  upload_command [cmd; host; port; duration; size; rate] o is_udp = params (1000 * d) n r /\
  upload_command [cmd; host; port; duration; size] o is_udp = params (1000 * d) n 10 /\
  upload_command [cmd; host; port; duration] o is_udp = params (1000 * d) 256 10 /\
  upload_command [cmd; host; port] o is_udp = params 1000 256 10.
Proof.
  intros Hc Hport Hp Hd Hn Hr duration size rate params.
  destruct (upload_numbers d n r Hd Hn Hr) as (Hdur & Hms & Hsize & Hu8 & Hrate & Hkb).
  fold duration in Hdur. fold size in Hsize. fold rate in Hrate.
  clearbody duration size rate.
  unfold upload_command, params, remote_port. rewrite Hc. cbn [length].
  change (u32 (Z.of_nat 6 - 0)) with 6. change (u32 (Z.of_nat 5 - 0)) with 5.
  change (u32 (Z.of_nat 4 - 0)) with 4. change (u32 (Z.of_nat 3 - 0)) with 3.
  eval_args. unfold to_str. cbn [Z.ltb Z.gtb Z.compare Pos.compare Pos.compare_cont].
  upload_step. rewrite !Hport. upload_step. change (peer_address (Some host) (Some port)) with (upload_peer (Some host) (Some port)). rewrite !Hp. upload_step. rewrite !Hdur. upload_step.
  rewrite Hms, !Hsize. upload_step. rewrite Hrate. upload_step. by rewrite Hkb, Hu8, !app_nil_r, <- !app_assoc.
Qed.

(** ** The option -S *)
Lemma parse_options_stop n i (argv : list bytes) is_udp o :
  (forall a : bytes, argv !! i = Some a -> exists c, char_at a 0 = Done c /\ c <> 45) ->
  parse_options n i argv is_udp o = Done ([], Some o).
Proof.
  intros Ha. destruct n as [|n]; [done|]. cbn [parse_options].
  destruct (Nat.ltb_spec i (length argv)) as [Hi|Hi]; [|done]. cbn [negb].
  destruct (lookup_lt_is_Some_2 argv i Hi) as [a Hl]. destruct (Ha a Hl) as (c & Hc & Hne).
  rewrite (arg_lookup argv i a Hl), quiet_bind. unfold deref at 1. rewrite quiet_bind, Hc, quiet_bind.
  by rewrite (proj2 (Z.eqb_neq c 45) Hne).
Qed.

Lemma parse_options_tos n i (argv : list bytes) is_udp o (a : bytes) t j :
  argv !! i = Some a -> char_at a 0 = Done 45 -> char_at a 1 = Done 83 ->
  parse_arg i argv = Done (t, j) -> 0 <= t < 256 ->
  parse_options (S n) i argv is_udp o =
    parse_options n (S j) argv is_udp (UploadOptions t (o_async o) (o_nodelay o) (o_cnt o + 2)).
Proof.
  intros Hl H0 H1 Hp Ht. cbn [parse_options]. pose proof (lookup_lt_Some _ _ _ Hl) as Hi.
  destruct (Nat.ltb_spec i (length argv)) as [_|]; [|lia]. cbn [negb].
  rewrite (arg_lookup argv i a Hl). rewrite quiet_bind. unfold deref at 1. rewrite quiet_bind, H0, quiet_bind.
  cbn [negb Z.eqb Pos.eqb]. rewrite H1, quiet_bind. cbn [Z.eqb Pos.eqb]. rewrite Hp, quiet_bind.
  by replace ((t <? 0) || (t >? UINT8_MAX)) with false by (unfold UINT8_MAX; lia).
Qed.

(** A type of service is not read as a hexadecimal number. *)
Lemma tos_decimal t : 0 <= t < 256 -> strncmp_eq (decimal t) (text "0x") 2 = false.
Proof.
  intros Ht. assert (H : forallb (fun t => negb (strncmp_eq (decimal t) (text "0x") 2)) (seqZ 0 256) = true)
    by (vm_compute; reflexivity).
  rewrite forallb_forall in H. apply negb_true_iff, H, list_elem_of_In, elem_of_seqZ. lia.
Qed.

(** [strtol] on the value of an option, and the tests after it. *)
Lemma tos_value t :
  0 <= t < 256 ->
  strtol (decimal t) (if strncmp_eq (decimal t) (text "0x") 2 then 16 else 10) =
    (t, length (decimal t), false) /\
  (0 < length (decimal t))%nat /\ s32 (shell_status t) = t.
Proof.
  intros Ht. rewrite tos_decimal by done. rewrite <- (app_nil_r (decimal t)) at 1.
  destruct (strtol_decimal t [] ltac:(lia) eq_refl) as [H Hl]. split; [exact H|]. split; [exact Hl|].
  unfold shell_status. rewrite u32_small by lia. apply s32_small. lia.
Qed.

Lemma parse_arg_separate (cmd a : bytes) t rest :
  char_at a 2 = Done 0 -> 0 <= t < 256 ->
  parse_arg 1 (cmd :: a :: (decimal t ++ [0]) :: rest) = Done (t, 2%nat).
Proof.
  intros Ha Ht. destruct (tos_value t Ht) as (Hv & Hl & Hs). unfold parse_arg.
  change (arg _ (Z.of_nat 1)) with (@Done (option bytes) (Some a)). unfold deref. upload_step.
  rewrite Ha. upload_step. cbn [Z.eqb andb length Nat.leb Nat.add].
  change (arg _ (Z.of_nat 2)) with (@Done (option bytes) (Some (decimal t ++ [0]))). upload_step.
  rewrite c_str_app by (apply decimal_nonzero; lia). upload_step. rewrite Hv.
  destruct (length (decimal t)); [lia|]. cbn [Nat.eqb orb]. by rewrite Hs.
Qed.

Lemma parse_arg_attached cmd t rest :
  0 <= t < 256 ->
  parse_arg 1 (cmd :: (text "-S" ++ decimal t ++ [0]) :: rest) = Done (t, 1%nat).
Proof.
  intros Ht. destruct (tos_value t Ht) as (Hv & Hl & Hs). unfold parse_arg.
  pose proof (decimal_nonzero t ltac:(lia)) as Hnz.
  change (arg _ (Z.of_nat 1)) with (@Done (option bytes) (Some (text "-S" ++ decimal t ++ [0]))). 
  unfold deref. upload_step.
  assert (Hc : exists c, c <> 0 /\ char_at (text "-S" ++ decimal t ++ [0]) 2 = Done c).
  { destruct (decimal t) as [|c ds]; [cbn in Hl; lia|]. exists c. split; [by inversion Hnz|done]. }
  destruct Hc as (c & Hc0 & Hc). rewrite Hc. upload_step.
  rewrite (proj2 (Z.eqb_neq c 0) Hc0). cbn [andb]. upload_step.
  change (drop 2 (text "-S" ++ decimal t ++ [0])) with (decimal t ++ [0]).
  rewrite c_str_app by done. upload_step. rewrite Hv.
  destruct (length (decimal t)); [lia|]. cbn [Nat.eqb orb]. by rewrite Hs.
Qed.

(** C32: the option -S. Given as two arguments it sets the type of service and
    leaves the others in place. With the value attached, as in -S16, it sets it
    too, but is counted as two arguments: the host is taken for its value, and
    what follows the host for the host. *)
Theorem tos_option (cmd host : bytes) more t is_udp :
  0 <= t < 256 -> (exists c, char_at host 0 = Done c /\ c <> 45) ->
  let none := UploadOptions 0 false 0 0 in
  let parsed := UploadOptions t false 0 2 in
  (let argv := cmd :: literal "-S" :: (decimal t ++ [0]) :: host :: more in
   parse_options (length argv) 1 argv is_udp none = Done ([], Some parsed) /\
   upload_command argv parsed is_udp = upload_command (cmd :: host :: more) (set_cnt 0 parsed) is_udp) /\
  (let argv := cmd :: (text "-S" ++ decimal t ++ [0]) :: host :: more in
   parse_options (length argv) 1 argv is_udp none = Done ([], Some parsed) /\
   upload_command argv parsed is_udp = upload_command (cmd :: more) (set_cnt 0 parsed) is_udp).
Proof.
  intros Ht Hhost none parsed.
  assert (Hstop : forall n (argv : list bytes) i o, argv !! i = Some host ->
    parse_options n i argv is_udp o = Done ([], Some o)).
  { intros n argv i o Hi. apply parse_options_stop. intros a Ha. assert (a = host) as -> by congruence. done. }
  split; intros argv; (split; [|apply (upload_command_shift cmd [_; _]); done]); unfold argv; cbn [length].
  - erewrite parse_options_tos; [|done..|by apply parse_arg_separate|done]. by apply Hstop.
  - erewrite parse_options_tos; [|done..|by apply parse_arg_attached|done]. by apply Hstop.
Qed.
End Arguments.

Lemma upload_arguments_witness :
  exists t peer, upload_command (L := lwip_example)
      [literal "udp_upload"; literal "10.0.0.7"; literal "5002"; decimal 20 ++ [0]]
      (UploadOptions 0 false 0 0) true =
        Done (remote_port (text "5002") ++ t, Some (UploadParams peer 20000 10 256 0 0 (-1))).
Proof.
  destruct (upload_peer (L := lwip_example) (Some (literal "10.0.0.7")) (Some (literal "5002")))
    as [[t [peer|]]| |] eqn:Hp; [|discriminate Hp..].
  exists t, peer. apply (upload_arguments (L := lwip_example) (literal "udp_upload") (literal "10.0.0.7")
    (literal "5002") (text "5002") 20 0 0 (UploadOptions 0 false 0 0) true t peer eq_refl eq_refl Hp); lia.
Defined.

Lemma tos_option_witness :
  upload_command (L := lwip_example) [literal "udp_upload"; text "-S" ++ decimal 16 ++ [0];
      literal "10.0.0.7"] (UploadOptions 16 false 0 2) true
  = Done (text "Not enough parameters." ++ nl ++ text "help", None).
Proof.
  destruct (tos_option (L := lwip_example) (literal "udp_upload") (literal "10.0.0.7") [] 16 true)
    as [_ [_ H]]; [lia|exists 49; done|].
  rewrite H. reflexivity.
Defined.
