(* ===== verification/Init.v ===== *)
(** Program start: [zperf_init] (zperf_common.c) with the start of the work task
    (zephyr/work.c), of the servers' threads (zephyr/thread.c) and of the shell
    (zperf_shell.c), and the start of those threads. It establishes the
    invariants the other files begin with. *)
From S2P Require Import Prelude CInt Platform CString NetIp Session World Common Server UdpReceiver UdpServer TcpReceiver Work UdpUploader TcpUploader Control Async.
Import Stdlib.Strings.String.StringSyntax.
Open Scope Z_scope.

(** work.h, zperf_internal.h, config.h. *)
Definition DEFAULT_QUEUE_SIZE : Z := 10.
Definition DST_IP4ADDR : bytes := text "192.168.0.1".
Definition DST_IP6ADDR : bytes := text "2001:db8::2".
Definition MY_IP4ADDR_SET : bool := true.
Definition MY_IP6ADDR_SET : bool := true.
Definition CONFIG_NET_SHELL : bool := true.

Section Init.
Context {L : Lwip} {R : Rtos} {E : Type} `{!Env E}.
Abbreviation W := (world E).

(** ** work.c and thread.c *)
Definition k_work_queue_init : M W unit :=
  ok ← trigger (QueueCreate DEFAULT_QUEUE_SIZE);
  if ok : bool then mret tt else fail AssertionFailed.

Definition k_work_queue_start : M W unit :=
  ok ← trigger (TaskCreate WorkTask);
  if ok : bool then mret tt else fail AssertionFailed.

Definition k_thread_create (t : task) : M W unit :=
  ok ← trigger (TaskCreate t);
  if ok : bool then mret tt else fail AssertionFailed.

Definition zperf_udp_receiver_init : M W unit := k_thread_create UdpReceiverThread.
Definition zperf_tcp_receiver_init : M W unit := k_thread_create TcpReceiverThread.

(** ** zperf_shell.c *)

(** [net_addr_pton(family, host, &addr->sin_addr)], whose failure is only
    printed. *)
Definition resolve (family : Z) (set : bytes -> bytes -> outcome bytes) (host addr : bytes)
    : outcome bytes :=
  let '(_, written) := net_addr_pton family host in
  match written with Some bs => set bs addr | None => mret addr end.

Definition zperf_shell_init : M W unit :=
  sh ← get_glob shell_statics;
  '(my6, dst6) ← lift (if MY_IP6ADDR_SET then
      my ← resolve AF_INET6 set_sin6_addr MY_IP6ADDR (sh_in6_addr_my sh);
      dst ← resolve AF_INET6 set_sin6_addr DST_IP6ADDR (sh_in6_addr_dst sh);
      mret (my, dst)
    else mret (sh_in6_addr_my sh, sh_in6_addr_dst sh));
  '(my4, dst4) ← lift (if MY_IP4ADDR_SET then
      my ← resolve AF_INET set_sin_addr MY_IP4ADDR (sh_in4_addr_my sh);
      dst ← resolve AF_INET set_sin_addr DST_IP4ADDR (sh_in4_addr_dst sh);
      mret (my, dst)
    else mret (sh_in4_addr_my sh, sh_in4_addr_dst sh));
  upd_glob (set_shell_statics (ShellAddrs my6 dst6 dst4 my4 (shell_ipv6 sh) (shell_ipv4 sh))).

(** ** zperf_common.c *)
Definition zperf_init : M W Z :=
  k_work_queue_init;;
  k_work_queue_start;;
  zperf_udp_uploader_init;;
  zperf_tcp_uploader_init;;
  zperf_udp_receiver_init;;
  zperf_tcp_receiver_init;;
  upd_glob (fun g => set_sessions (zperf_session_init (sessions g)) g);;
  when CONFIG_NET_SHELL zperf_shell_init;;
  mret 0.

(** ** What it establishes *)

(** A server that has not been asked for anything. *)
Definition unused (s : server) : Prop :=
  server_running s = false /\ server_stop s = false /\ session_cb s = None /\
  semaphore_handle (server_run s) = None /\
  length (server_addr s) = sizeof_sockaddr_storage.

Definition initialised (w : world E) : Prop :=
  let g := glob w in
  table_ok (sessions g) /\
  (forall p, Forall (fun s => slot_free s = true) (row p (sessions g))) /\
  statics_ok g /\ length (tcp_fds g) = SOCK_ID_MAX /\
  unused (udp_server g) /\ unused (tcp_server g) /\
  (forall id, handler (work (ctx_of id g)) = Some (async_handler id)) /\
  async_ready w /\ Forall no_semaphore (trace w).
End Init.

(** ** Theorems *)
Section Start.
Context {L : Lwip} {LOk : LwipOk L} {R : Rtos} {E : Type} `{!Env E}.

Lemma init_sin_length p a : init_sin p = Done a -> length a = sizeof_sockaddr_in.
Proof.
  unfold init_sin, set_sa_family, set_sin_port, store_at.
  destruct (write_at off_sa_family _ _) as [m|f|] eqn:Hm; [|done..]. cbn [mbind outcome_bind].
  intros Ha. rewrite (write_at_length _ _ _ _ Ha), (write_at_length _ _ _ _ Hm).
  apply length_replicate.
Qed.

Lemma init_sin6_length p a : init_sin6 p = Done a -> length a = sizeof_sockaddr_in6.
Proof.
  unfold init_sin6, set_sa_family, set_sin6_port, store_at.
  destruct (write_at off_sa_family _ _) as [m|f|] eqn:Hm; [|done..]. cbn [mbind outcome_bind].
  intros Ha. rewrite (write_at_length _ _ _ _ Ha), (write_at_length _ _ _ _ Hm).
  apply length_replicate.
Qed.

(** An address written into a whole [sockaddr_in] or [sockaddr_in6] fits. *)
Lemma resolve4 host addr :
  length addr = sizeof_sockaddr_in -> exists a, resolve AF_INET set_sin_addr host addr = Done a.
Proof.
  intros Hl. pose proof addr_in_sockaddr_in. unfold resolve, net_addr_pton.
  destruct (inet_pton AF_INET host) as [r [bs|]] eqn:Hp; [|by eexists].
  destruct (inet_pton_size_4 _ _ _ Hp) as [Hb _]. unfold set_sin_addr.
  rewrite write_at_ok by lia. by eexists.
Qed.

Lemma resolve6 host addr :
  length addr = sizeof_sockaddr_in6 -> exists a, resolve AF_INET6 set_sin6_addr host addr = Done a.
Proof.
  intros Hl. pose proof addr_in_sockaddr_in6. unfold resolve, net_addr_pton.
  destruct (inet_pton AF_INET6 host) as [r [bs|]] eqn:Hp; [|by eexists].
  destruct (inet_pton_size_6 _ _ _ Hp) as [Hb _]. unfold set_sin6_addr.
  rewrite write_at_ok by lia. by eexists.
Qed.
End Start.
Section Start2.
Context {L : Lwip} {LOk : LwipOk L} {R : Rtos} {E : Type} `{!Env E}.

(** [m] ends as [Q] says, or fails an assertion. *)
Definition checked {A} (m : M (world E) A) (Q : A -> world E -> Prop) (w : world E) : Prop :=
  match m w with
  | Done (a, w') => Q a w'
  | Fault f => f = AssertionFailed
  | OutOfFuel => False
  end.

Lemma checked_bind {A B} (m : M (world E) A) (k : A -> M (world E) B) Q w :
  checked m (fun a w' => checked (k a) Q w') w -> checked (m ≫= k) Q w.
Proof. unfold checked, mbind, M_bind. by destruct (m w) as [[a w']| |]. Qed.

Lemma checked_total {A} (m : M (world E) A) Q w : wp Total m Q w -> checked m Q w.
Proof. unfold checked, wp. by destruct (m w) as [[a w']| |]. Qed.

(** Creating a task or the queue: both are asserted to succeed. *)
Lemma checked_create (c : call) (ok : resp c -> bool) (Q : unit -> world E -> Prop) w :
  (forall r e, Q tt (emit c r e w)) ->
  checked (r ← trigger c; if ok r then mret tt else fail AssertionFailed) Q w.
Proof.
  intros HQ. unfold checked, trigger, mbind, M_bind.
  destruct (answer c (env w)) as [r e]. by destruct (ok r); [apply HQ|].
Qed.

(** The statics before [main]. *)
Lemma static_globals_fields g :
  static_globals = Done g ->
  sessions g = static_table /\ statics_ok g /\ length (tcp_fds g) = SOCK_ID_MAX /\
  udp_server g = static_server /\ tcp_server g = static_server /\
  (forall id, ctx_of id g = static_ctx) /\
  length (sh_in6_addr_my (shell_statics g)) = sizeof_sockaddr_in6 /\
  length (sh_in6_addr_dst (shell_statics g)) = sizeof_sockaddr_in6 /\
  length (sh_in4_addr_my (shell_statics g)) = sizeof_sockaddr_in /\
  length (sh_in4_addr_dst (shell_statics g)) = sizeof_sockaddr_in.
Proof.
  unfold static_globals.
  destruct (init_sin MY_SRC_PORT) as [sin| |] eqn:H1; [|done..]. cbn [mbind outcome_bind].
  destruct (init_sin6 MY_SRC_PORT) as [sin6| |] eqn:H2; [|done..]. cbn [mbind outcome_bind].
  destruct (init_sin DEF_PORT) as [dst| |] eqn:H3; [|done..]. cbn [mbind outcome_bind].
  destruct (init_sin6 DEF_PORT) as [dst6| |] eqn:H4; [|done..]. cbn [mbind outcome_bind].
  apply init_sin_length in H1, H3. apply init_sin6_length in H2, H4.
  intros [= <-]. unfold statics_ok. cbn [sessions in4_addr_my in6_addr_my tcp_fds udp_server tcp_server
    shell_statics sh_in6_addr_my sh_in6_addr_dst sh_in4_addr_my sh_in4_addr_dst].
  split_and!; try done.
  - cbn. apply length_replicate.
  - by intros [].
Qed.

Lemma wp_shell_init md (Q : unit -> world E -> Prop) w :
  (let sh := shell_statics (glob w) in
   length (sh_in6_addr_my sh) = sizeof_sockaddr_in6 /\
   length (sh_in6_addr_dst sh) = sizeof_sockaddr_in6 /\
   length (sh_in4_addr_my sh) = sizeof_sockaddr_in /\
   length (sh_in4_addr_dst sh) = sizeof_sockaddr_in) ->
  (forall sh, Q tt (with_glob (set_shell_statics sh) w)) ->
  wp md zperf_shell_init Q w.
Proof.
  intros (H1 & H2 & H3 & H4) HQ. unfold zperf_shell_init. apply wp_bind, wp_gets.
  destruct (resolve6 MY_IP6ADDR _ H1) as [a Ha], (resolve6 DST_IP6ADDR _ H2) as [b Hb],
    (resolve4 MY_IP4ADDR _ H3) as [c Hc], (resolve4 DST_IP4ADDR _ H4) as [d Hd].
  cbn [MY_IP6ADDR_SET MY_IP4ADDR_SET]. apply wp_bind.
  eapply wp_lift; [rewrite Ha; cbn [mbind outcome_bind]; rewrite Hb; reflexivity|]. apply wp_bind.
  eapply wp_lift; [rewrite Hc; cbn [mbind outcome_bind]; rewrite Hd; reflexivity|].
  apply wp_modify, HQ.
Qed.

Lemma session_init_ok (t : table) :
  t = static_table -> table_ok (zperf_session_init t) /\
  forall p, Forall (fun s => slot_free s = true) (row p (zperf_session_init t)).
Proof.
  intros ->. split; [split; [apply session_init_wf|]|]; intros []; by repeat constructor.
Qed.

(** How [zperf_init] ends. *)
Lemma init_ends w :
  static_globals = Done (glob w) -> Forall no_semaphore (trace w) -> queue_of (trace w) = Some [] ->
  checked zperf_init (fun r w' => r = 0 /\ initialised w' /\
    ev_call <$> trace w' = (ev_call <$> trace w) ++ [QueueCreate DEFAULT_QUEUE_SIZE; TaskCreate WorkTask;
                            TaskCreate UdpReceiverThread; TaskCreate TcpReceiverThread]) w.
Proof.
  intros Hg Ht Hq. destruct (static_globals_fields _ Hg) as (Hs & Hok & Hfds & Hu & Hc & Hctx & Hsh).
  unfold zperf_init. apply checked_bind, (checked_create (QueueCreate _) (fun r => r)). intros r1 e1.
  apply checked_bind, (checked_create (TaskCreate _) (fun r => r)). intros r2 e2.
  apply checked_bind, checked_total, wp_modify, checked_bind, checked_total, wp_modify.
  apply checked_bind, (checked_create (TaskCreate _) (fun r => r)). intros r3 e3.
  apply checked_bind, (checked_create (TaskCreate _) (fun r => r)). intros r4 e4.
  apply checked_bind, checked_total, wp_modify, checked_total, wp_bind.
  apply wp_shell_init; [exact Hsh|]. intros sh. apply wp_ret. split; [done|].
  cbn [trace with_glob emit]. rewrite <- !app_assoc. split; [|by rewrite fmap_app].
  destruct (session_init_ok (sessions (glob w)) Hs) as [H1 H2].
  assert (Hunused : unused static_server) by (repeat split; apply length_replicate).
  unfold initialised. cbn [trace with_glob emit]. rewrite <- !app_assoc.
  split_and!; [exact H1|exact H2|exact Hok|exact Hfds|by rewrite <- Hu in Hunused
    |by rewrite <- Hc in Hunused| | |].
  - by intros [].
  - split; [cbn [trace with_glob emit]; rewrite <- !app_assoc, queue_of_quiet; [done|by repeat constructor]|].
    pose proof (Hctx UDP_WORK) as E1. pose proof (Hctx TCP_WORK) as E2.
    cbn in E1, E2. intros []; cbn; by rewrite ?E1, ?E2.
  - apply Forall_app. split; [done|by repeat constructor].
Qed.

(** The program's start. From the static variables as C initialises them,
    [zperf_init] creates the queue and the three tasks, each once, or stops in
    an assertion when one cannot be created. When it returns, the session table
    is well formed and every slot of it free, the two servers wait to be asked,
    the work items have their handlers and are not pending: the invariants the
    servers and the asynchronous uploads start from. *)
Theorem zperf_init_ready w :
  static_globals = Done (glob w) -> trace w = [] ->
  checked zperf_init (fun r w' => r = 0 /\ initialised w' /\
    ev_call <$> trace w' = [QueueCreate DEFAULT_QUEUE_SIZE; TaskCreate WorkTask;
                            TaskCreate UdpReceiverThread; TaskCreate TcpReceiverThread]) w.
Proof.
  intros Hg Ht. pose proof (init_ends w Hg) as H. rewrite Ht in H. apply H; [constructor|done].
Qed.

(** A request that is not refused, while the semaphore does not exist. *)
Lemma download_null_semaphore {C : ServerControl E} p cb ud (w : world E) :
  unused (sc_get (glob w)) -> length (dp_addr p) = sizeof_sockaddr_storage ->
  sc_download (Some p) (Some cb) ud w = Fault NullPointer.
Proof.
  intros (Hrun & _ & _ & Hsem & Hl) Hp. pose proof sockaddr_fits_storage.
  assert (Hs : exists s, server_start p cb ud (sc_get (glob w)) = Done s /\
                 semaphore_handle (server_run s) = None).
  { unfold server_start, memcpy. rewrite (proj2 (Z.ltb_ge _ _)), Nat2Z.id by lia.
    rewrite read_at_ok by lia. cbn [mbind outcome_bind]. rewrite write_at_ok.
    - eexists. split; [reflexivity|exact Hsem].
    - rewrite length_take, length_drop. lia. }
  destruct Hs as (s & Hs & Hnull). rewrite sc_download_spec, Hrun, Hs.
  unfold lift, mbind, M_bind, upd_glob, modify, k_sem_give. by rewrite Hnull.
Qed.

(** The semaphore of a server comes into being. *)
Lemma checked_sem_init sem i m (Q : k_sem -> world E -> Prop) w :
  (forall h e, Q (KSem (Some h) (initial_count sem) (max_count sem))
                 (emit (SemaphoreCreateCounting m i) (Some h) e w)) ->
  checked (k_sem_init sem i m) Q w.
Proof.
  intros HQ. unfold checked, k_sem_init, mbind, M_bind, trigger.
  destruct (answer (SemaphoreCreateCounting m i) (env w)) as [[h|] e]; [apply HQ|done].
Qed.

Lemma tokens_none h tr : Forall no_semaphore tr -> tokens h tr = 0.
Proof.
  intros H. apply tokens_quiet. eapply Forall_impl; [|exact H]. by intros [[] r].
Qed.

(** C31: the start of the servers' threads. Until the thread of a server has run,
    its semaphore does not exist, and a request to start the server, though
    the server is not running, makes a call on a null handle. Once the threads
    have created their semaphores, or stopped in an assertion, both servers are
    ready: they wait, with no request pending. *)
Theorem servers_ready w :
  initialised w ->
  (forall p cb ud, length (dp_addr p) = sizeof_sockaddr_storage ->
     zperf_udp_download (Some p) (Some cb) ud w = Fault NullPointer /\
     zperf_tcp_download (Some p) (Some cb) ud w = Fault NullPointer) /\
  checked (udp_receiver_thread_start;; tcp_receiver_thread_start) (fun _ w' =>
    (exists h, control_ready (C := udp_control) h (w', Waiting)) /\
    (exists h, control_ready (C := tcp_control) h (w', Waiting))) w.
Proof.
  intros (_ & _ & _ & _ & Hu & Hc & _ & _ & Hq). split.
  { intros p cb ud Hp. split.
    - by apply (download_null_semaphore (C := udp_control)).
    - by apply (download_null_semaphore (C := tcp_control)). }
  apply checked_bind. unfold udp_receiver_thread_start, tcp_receiver_thread_start.
  apply checked_bind, checked_total, wp_gets, checked_bind, checked_sem_init. intros h e.
  apply checked_total, wp_modify, checked_bind, checked_total, wp_gets, checked_bind, checked_sem_init.
  intros h' e'. apply checked_total, wp_modify.
  assert (Htok : forall h0, tokens h0 (trace (emit (SemaphoreCreateCounting
    (max_count (server_run (tcp_server (glob w)))) (initial_count (server_run (tcp_server (glob w)))))
    (Some h') e' (emit (SemaphoreCreateCounting (max_count (server_run (udp_server (glob w))))
      (initial_count (server_run (udp_server (glob w))))) (Some h) e w))) = 0).
  { intros h0. apply tokens_none. cbn [trace emit]. rewrite !Forall_app. by repeat constructor. }
  destruct Hu as [Hu _], Hc as [Hc _].
  split; [exists h|exists h']; (split; [done|]; split; [done|]; split; [apply Htok|done]).
Qed.
End Start2.

(** ** Witnesses *)
Section Witnesses.
#[local] Existing Instances lwip_example rtos_example.

Definition example_started_world : world (list reply) :=
  match zperf_init (example_world []) with Done (_, w) => w | _ => example_world [] end.

Lemma zperf_init_ready_witness : initialised example_started_world.
Proof.
  pose proof (zperf_init_ready (L := lwip_example) (example_world []) eq_refl eq_refl) as H.
  unfold checked in H.
  assert (Hrun : zperf_init (example_world []) = Done (0, example_started_world))
    by (vm_compute; reflexivity).
  rewrite Hrun in H. exact (proj1 (proj2 H)).
Defined.

Lemma servers_ready_witness :
  zperf_udp_download (Some example_download) (Some 7) 9 example_started_world = Fault NullPointer.
Proof.
  assert (H : initialised example_started_world).
  { pose proof (init_ends (L := lwip_example) (example_world []) eq_refl (List.Forall_nil _) eq_refl) as H.
    unfold checked in H.
    assert (Hrun : zperf_init (example_world []) = Done (0, example_started_world))
      by (vm_compute; reflexivity).
    rewrite Hrun in H. exact (proj1 (proj2 H)). }
  exact (proj1 (proj1 (servers_ready (L := lwip_example) (R := rtos_example) example_started_world H)
    example_download 7 9 eq_refl)).
Defined.
End Witnesses.
