(* ===== verification/Commands.v ===== *)
(** The functions of the shell that are written but not reached: the commands
    zperf_shell.c defines and would register with a Zephyr shell, and the two
    functions of zperf_common.c that nothing calls. *)
From S2P Require Import Prelude CInt Platform CString Kernel NetIp Session World Environment Print Common Work Server UdpReceiver UdpServer TcpReceiver UdpUploader TcpUploader Shell Init.
Import Stdlib.Strings.String.StringSyntax.
Open Scope Z_scope.

Section Commands.
Context {L : Lwip} {R : Rtos} {E : Type} `{!Env E}.
Abbreviation W := (world E).

(** ** Addresses *)
Definition set_shell_ipv6 (written : option bytes) : M W unit :=
  match written with
  | Some bs => upd_glob (fun g => let sh := shell_statics g in
      set_shell_statics (ShellAddrs (sh_in6_addr_my sh) (sh_in6_addr_dst sh) (sh_in4_addr_dst sh)
                           (sh_in4_addr_my sh) bs (shell_ipv4 sh)) g)
  | None => mret tt
  end.
Definition set_shell_ipv4 (written : option bytes) : M W unit :=
  match written with
  | Some bs => upd_glob (fun g => let sh := shell_statics g in
      set_shell_statics (ShellAddrs (sh_in6_addr_my sh) (sh_in6_addr_dst sh) (sh_in4_addr_dst sh)
                           (sh_in4_addr_my sh) (shell_ipv6 sh) bs) g)
  | None => mret tt
  end.

Definition argument (argv : list bytes) (i : Z) : M W bytes :=
  a ← lift (arg argv i); a ← lift (deref a); lift (c_str a).

(** [net_sprint_ipv4_addr(&shell_ipv4)], [net_sprint_ipv6_addr(&shell_ipv6)]. *)
Definition say_address (sprint : option bytes -> outcome bytes) (field : shell_addrs -> bytes)
    : M W unit :=
  sh ← get_glob shell_statics;
  say (a ← quiet (sprint (Some (field sh))); print (text "Setting IP address " ++ a ++ nl)).

(** The blocks for a system with IPv6 only, with IPv4 only, and with both
    protocols, which is the one compiled in; [cmd_setip] runs one of them. *)
Definition setip_ipv6_only (argv : list bytes) : M W Z :=
  if negb (length argv =? 3)%nat then
    say (print (text "help"));; mret (shell_status (- kStatus_SHELL_Error))
  else
  host ← argument argv 1; prefix ← argument argv 2;
  '(ret, written) ← zperf_get_ipv6_addr (Some host) prefix;
  set_shell_ipv6 written;;
  if ret <? 0 then
    say (print (text "Unable to set IPv6 address (IPv4 disabled)" ++ nl));;
    mret kStatus_SHELL_Success
  else
  say_address net_sprint_ipv6_addr shell_ipv6;;
  mret kStatus_SHELL_Success.

Definition setip_ipv4_only (argv : list bytes) : M W Z :=
  if negb (length argv =? 2)%nat then
    say (print (text "help"));; mret (shell_status (- kStatus_SHELL_Error))
  else
  host ← argument argv 1;
  '(ret, written) ← zperf_get_ipv4_addr (Some host);
  set_shell_ipv4 written;;
  if ret <? 0 then
    say (print (text "Unable to set IPv4 address (IPv6 disabled)" ++ nl));;
    mret (shell_status (- kStatus_SHELL_Error))
  else
  say_address net_sprint_ipv4_addr shell_ipv4;;
  mret kStatus_SHELL_Success.

Definition setip_both (argv : list bytes) : M W Z :=
  host ← argument argv 1;
  let '(ret, written) := net_addr_pton AF_INET6 host in
  set_shell_ipv6 written;;
  if ret <? 0 then
    if negb (length argv =? 2)%nat then
      say (print (text "help"));; mret (shell_status (- kStatus_SHELL_Error))
    else
    '(ret, written) ← zperf_get_ipv4_addr (Some host);
    set_shell_ipv4 written;;
    if ret <? 0 then
      say (print (text "Unable to set IPv4 address" ++ nl));;
      mret (shell_status (- kStatus_SHELL_Error))
    else
    say_address net_sprint_ipv4_addr shell_ipv4;;
    mret kStatus_SHELL_Success
  else
    if negb (length argv =? 3)%nat then
      say (print (text "help"));; mret (shell_status (- kStatus_SHELL_Error))
    else
    prefix ← argument argv 2;
    '(ret, written) ← zperf_get_ipv6_addr (Some host) prefix;
    set_shell_ipv6 written;;
    if ret <? 0 then
      say (print (text "Unable to set IPv6 address" ++ nl));;
      mret (shell_status (- kStatus_SHELL_Error))
    else
    say_address net_sprint_ipv6_addr shell_ipv6;;
    mret kStatus_SHELL_Success.

Definition cmd_setip (sh : Z) (argv : list bytes) : M W Z :=
  if CONFIG_NET_IPV6 && negb CONFIG_NET_IPV4 then setip_ipv6_only argv
  else if CONFIG_NET_IPV4 && negb CONFIG_NET_IPV6 then setip_ipv4_only argv
  else if CONFIG_NET_IPV6 && CONFIG_NET_IPV4 then setip_both argv
  else mret kStatus_SHELL_Success.

(** ** Stopping the servers *)
Definition cmd_udp_download_stop (sh : Z) (argv : list bytes) : M W Z :=
  ret ← zperf_udp_download_stop;
  if ret <? 0 then
    say (print (text "UDP server not running!" ++ nl));;
    mret (shell_status (- kStatus_SHELL_Error))
  else
  say (print (text "UDP server stopped" ++ nl));;
  mret kStatus_SHELL_Success.

Definition cmd_tcp_download_stop (sh : Z) (argv : list bytes) : M W Z :=
  ret ← zperf_tcp_download_stop;
  if ret <? 0 then
    say (print (text "TCP server not running!" ++ nl));;
    mret (shell_status (- ret))
  else
  say (print (text "TCP server stopped" ++ nl));;
  mret kStatus_SHELL_Success.

(** ** Uploads *)
Definition cmd_tcp_upload (fuel : nat) (sh : Z) (argv : list bytes) : M W Z :=
  shell_cmd_upload fuel sh argv false.
Definition cmd_udp_upload (fuel : nat) (sh : Z) (argv : list bytes) : M W Z :=
  shell_cmd_upload fuel sh argv true.

(** The peer of upload2: the destination set at the start of the program. *)
Definition upload2_peer (version : bytes) (sh : shell_addrs) : printing (option bytes) :=
  let family := if strcmp_eq version (text "v4") then AF_INET else AF_INET6 in
  if family =? AF_INET6 then
    a ← quiet (sin6_addr (sh_in6_addr_dst sh));
    if net_ipv6_is_addr_unspecified a then
      print (text "Invalid destination IPv6 address." ++ nl);; mret None
    else
      a ← quiet (net_sprint_ipv6_addr (Some a));
      print (text "Connecting to " ++ a ++ nl);;
      peer ← quiet (copy_sockaddr_in6_to_sockaddr_storage (sh_in6_addr_dst sh)); mret (Some peer)
  else
    a ← quiet (sin_addr (sh_in4_addr_dst sh));
    if net_ipv4_is_addr_unspecified a then
      print (text "Invalid destination IPv4 address." ++ nl);; mret None
    else
      a ← quiet (net_sprint_ipv4_addr (Some a));
      print (text "Connecting to " ++ a ++ nl);;
      peer ← quiet (copy_sockaddr_in_to_sockaddr_storage (sh_in4_addr_dst sh)); mret (Some peer).

(** The parameters after the options; the priority stays 0. *)
Definition upload2_command (argv : list bytes) (o : upload_options) (is_udp : bool) (sh : shell_addrs)
    : printing (option zperf_upload_params) :=
  let start := o_cnt o in
  let argc := u32 (Z.of_nat (length argv) - o_cnt o) in
  if argc <? 2 then not_enough is_udp;; mret None else
  version ← quiet (arg argv (start + 1)); version ← quiet (to_str version);
  peer ← upload2_peer version sh;
  match peer with
  | None => mret None
  | Some peer =>
      duration ← quiet (if argc >? 2
                        then d ← arg argv (start + 2); d ← to_ulong d; mret (u32 (MSEC_PER_SEC * d))
                        else mret (MSEC_PER_SEC * 1));
      size ← quiet (if argc >? 3
                    then d ← arg argv (start + 3); d ← deref d; v ← parse_number d K K_UNIT; mret (u16 v)
                    else mret 256);
      print (text "packet size " ++ decimal size ++ nl);;
      rate ← quiet (if argc >? 4
                    then d ← arg argv (start + 4); d ← deref d; v ← parse_number d K K_UNIT;
                         mret (u32 (Z.quot (s32 (v + 1023)) 1024))
                    else mret 10);
      mret (Some (UploadParams peer duration rate size (u8 (o_tos o)) (o_nodelay o) 0))
  end.

Definition shell_cmd_upload2 (fuel : nat) (sh : Z) (argv : list bytes) (is_udp : bool) : M W Z :=
  o ← say (parse_options (length argv) 1 argv is_udp (UploadOptions 0 false 0 0));
  match o with
  | None => mret (shell_status (- kStatus_SHELL_Error))
  | Some o =>
      addrs ← get_glob shell_statics;
      param ← say (upload2_command argv o is_udp addrs);
      match param with
      | None => mret (shell_status (- kStatus_SHELL_Error))
      | Some param => execute_upload fuel sh param is_udp (o_async o)
      end
  end.

Definition cmd_tcp_upload2 (fuel : nat) (sh : Z) (argv : list bytes) : M W Z :=
  shell_cmd_upload2 fuel sh argv false.
Definition cmd_udp_upload2 (fuel : nat) (sh : Z) (argv : list bytes) : M W Z :=
  shell_cmd_upload2 fuel sh argv true.

(** ** Help, and what only prints *)
Definition cmd_tcp (sh : Z) (argv : list bytes) : M W Z :=
  if CONFIG_NET_TCP then
    say (print (text "help"));; mret (shell_status (- kStatus_SHELL_Error))
  else
  say (print (text "TCP support is not enabled. Set CONFIG_NET_TCP=y in your config file." ++ nl));;
  mret (shell_status (- kStatus_SHELL_Error)).
Definition cmd_udp (sh : Z) (argv : list bytes) : M W Z :=
  if CONFIG_NET_UDP then
    say (print (text "help"));; mret (shell_status (- kStatus_SHELL_Error))
  else
  say (print (text "UDP support is not enabled. Set CONFIG_NET_UDP=y in your config file." ++ nl));;
  mret (shell_status (- kStatus_SHELL_Error)).
Definition cmd_connectap (sh : Z) (argv : list bytes) : M W Z :=
  say (print (text "Zephyr has not been built with Wi-Fi support." ++ nl));;
  mret kStatus_SHELL_Success.

Definition ZPERF_VERSION : bytes := text "1.1".
(** Without CONFIG_WIFI; config.h defines the other three. *)
Definition CONFIG : bytes := text "unified" ++ text " ethernet" ++ text " ipv4" ++ text " ipv6".
Definition cmd_version : M W Z :=
  say (print (text "Version: " ++ ZPERF_VERSION ++ nl ++ text "Config: " ++ CONFIG ++ nl));;
  mret kStatus_SHELL_Success.

(** ** zperf_common.c *)

(** Without a [return] at its end: [garbage] is what a caller would read. *)
Definition udp_uploader_run (fuel : nat) (garbage : Z) : M W Z :=
  let param := UploadParams (memset 0 sizeof_sockaddr_storage) (MSEC_PER_SEC * 1) 10 256 0 0 0 in
  '(ret, _) ← zperf_udp_upload fuel (Some param) (Some zero_results);
  if ret <? 0 then mret ret else
  zperf_udp_uploader_init;;
  mret garbage.

(** [while (counter--)]. *)
Fixpoint count_down (counter : nat) : M W unit :=
  match counter with O => mret tt | S counter' => count_down counter' end.

Definition handle : M W unit :=
  count_down 1000;;
  ret ← zperf_udp_download_stop;
  if ret <? 0 then mret tt else mret tt.
End Commands.

(** ** What they do *)
Section Theorems.
Context {L : Lwip} {LOk : LwipOk L} {R : Rtos} {E : Type} `{!Env E}.
Implicit Types w : world E.

(** [udp_uploader_run] never uploads: its parameters have no address family. *)
Theorem udp_uploader_run_invalid fuel garbage w :
  udp_uploader_run fuel garbage w = Done (- EINVAL, w).
Proof.
  unfold udp_uploader_run, zperf_udp_upload.
  pose proof af_inet_range. pose proof af_inet6_range. pose proof family_before_port.
  pose proof port_before_addr. pose proof addr_in_sockaddr_in. pose proof in_fits_sockaddr.
  pose proof sockaddr_fits_storage. destruct errno_positive as (HE & _).
  assert (sa_family (memset 0 sizeof_sockaddr_storage) = Done 0) as Hf.
  { unfold sa_family, load_at. rewrite read_at_ok by (unfold memset; rewrite length_replicate; lia).
    cbn [mbind outcome_bind]. unfold memset. rewrite drop_replicate, take_replicate.
    unfold mret, outcome_ret. f_equal. generalize (Nat.min sizeof_sa_family
      (sizeof_sockaddr_storage - off_sa_family)). intros n. induction n as [|n IH]; [done|]. cbn. by rewrite IH. }
  cbn [peer_addr]. unfold lift, mbind, M_bind. rewrite Hf.
  destruct (Z.eqb_spec 0 AF_INET); [lia|]. destruct (Z.eqb_spec 0 AF_INET6); [lia|].
  unfold mret at 1, M_ret at 1. cbn iota beta. unfold mret, M_ret.
  by destruct (Z.ltb_spec (- EINVAL) 0); [|lia].
Qed.

(** The command setip with an IPv4 address: the address is kept, given to the
    interface and printed. *)
Theorem setip_ipv4 sh cmd (host : bytes) h a w :
  c_str host = Done h -> inet_pton AF_INET6 h = (0, None) -> inet_pton AF_INET h = (1, Some a) ->
  wp Total (cmd_setip sh [cmd; host]) (fun r w' =>
    r = kStatus_SHELL_Success /\ shell_ipv4 (shell_statics (glob w')) = a /\
    calls (trace w') = calls (trace w) ++
      [NetifSetAddr a; Printf (text "Setting IP address " ++ ip4addr_ntoa a ++ nl)]) w.
Proof.
  intros Hh H6 H4. unfold cmd_setip, setip_both, argument. cbn [CONFIG_NET_IPV6 CONFIG_NET_IPV4 andb negb].
  change (arg [cmd; host] 1) with (@Done (option bytes) (@Some bytes host)).
  apply wp_bind, wp_bind. eapply wp_lift; [reflexivity|]. apply wp_bind. eapply wp_lift; [reflexivity|].
  eapply wp_lift; [exact Hh|]. unfold net_addr_pton at 1. rewrite H6. cbn [Z.eqb].
  apply wp_bind, wp_ret. cbn [Z.ltb Z.compare length Nat.eqb negb]. apply wp_bind.
  unfold zperf_get_ipv4_addr, net_addr_pton. rewrite H4. cbn [Z.eqb Z.ltb Z.compare].
  apply wp_bind. unfold net_if_ipv4_addr_add. apply wp_bind. wp_call u e. apply wp_ret. cbn [negb].
  apply wp_ret, wp_bind, wp_modify. cbn [Z.ltb Z.compare]. apply wp_bind, wp_bind, wp_gets.
  eapply wp_say; [print_step; reflexivity|]. apply wp_ret. split; [done|]. split; [done|].
  cbn [shell_ipv4 shell_statics glob with_glob set_shell_statics]. unfold after_text.
  cbn [trace with_glob emit]. unfold calls. by rewrite !List.map_app, <- app_assoc.
Qed.

(** The arguments of upload2: as those of an upload, without the port. *)
Theorem upload2_arguments (cmd version : bytes) v d n r o is_udp shl t peer :
  o_cnt o = 0 -> c_str version = Done v -> upload2_peer v shl = Done (t, Some peer) ->
  0 <= d <= 4294967 -> 0 <= n < 65536 -> 0 <= r < 2097152 ->
  let duration : bytes := decimal d ++ [0] in
  let size : bytes := decimal n ++ [0] in
  let rate : bytes := decimal r ++ [75; 0] in
  let params ms size rate :=
    Done (t ++ text "packet size " ++ decimal size ++ nl,
          Some (UploadParams peer ms rate size (u8 (o_tos o)) (o_nodelay o) 0)) in
  upload2_command [cmd; version; duration; size; rate] o is_udp shl = params (1000 * d) n r /\
  upload2_command [cmd; version; duration; size] o is_udp shl = params (1000 * d) n 10 /\
  upload2_command [cmd; version; duration] o is_udp shl = params (1000 * d) 256 10 /\
  upload2_command [cmd; version] o is_udp shl = params 1000 256 10.
Proof.
  intros Hc Hv Hp Hd Hn Hr duration size rate params.
  destruct (upload_numbers d n r Hd Hn Hr) as (Hdur & Hms & Hsize & Hu8 & Hrate & Hkb).
  fold duration in Hdur. fold size in Hsize. fold rate in Hrate. clearbody duration size rate.
  unfold upload2_command, params. rewrite Hc. cbn [length].
  change (u32 (Z.of_nat 5 - 0)) with 5. change (u32 (Z.of_nat 4 - 0)) with 4.
  change (u32 (Z.of_nat 3 - 0)) with 3. change (u32 (Z.of_nat 2 - 0)) with 2.
  eval_args. unfold to_str. cbn [Z.ltb Z.gtb Z.compare Pos.compare Pos.compare_cont].
  upload_step. rewrite !Hv. upload_step. rewrite !Hp. upload_step. rewrite !Hdur. upload_step.
  rewrite Hms, !Hsize. upload_step. rewrite Hrate. upload_step. by rewrite Hkb, Hu8, !app_nil_r.
Qed.
End Theorems.
