(* ===== verification/Download.v ===== *)
(** From the command line to the server's socket: the commands udp_download and
    tcp_download, and the first thing the thread they wake up does, which is to
    bind a socket to the address and the port of the command. *)
From S2P Require Import Prelude CInt Platform CString Kernel NetIp AddrParse Session World Environment Print Common Server UdpReceiver UdpServer TcpReceiver TcpSession Shell.
Import Stdlib.Strings.String.StringSyntax.
Open Scope Z_scope.

(** ** The argument *)
Section Argument.
Context {L : Lwip} {LOk : LwipOk L}.

(** A text that is an address without a port goes to [parse_ipv4]. *)
Lemma parse_ipv4_plain (host : list Z) addr :
  nonzero host -> (length host < NET_IPV4_ADDR_LEN)%nat ->
  parse_ipv4 (host ++ [0]) (length host) addr false =
  read_host AF_INET set_sin_addr host addr (fun addr => mret (true, addr)).
Proof.
  intros Hh Hlen. unfold parse_ipv4. rewrite clip_start by done. cbn [mbind outcome_bind].
  replace (Nat.min (length host) (Nat.min NET_IPV4_ADDR_LEN (length host))) with (length host) by lia.
  rewrite Nat.min_r by lia. cbv zeta.
  rewrite (memcpy_set_nul (fun b => _ ← c_str b; _));
    [|rewrite length_app; cbn; lia|unfold memset; rewrite length_replicate; lia].
  rewrite drop_0, take_app_length, c_str_app by done. cbn [mbind outcome_bind negb]. unfold read_host.
  destruct (net_addr_pton AF_INET host) as [ret written].
  destruct (match written with Some bs => set_sin_addr bs addr | None => mret addr end)
    as [addr1| |]; [|done..]. cbn [mbind outcome_bind].
  destruct (ret <? 0); [done|]. by destruct (set_sa_family AF_INET addr1).
Qed.

(** A host: a text that is an IPv4 address. *)
Record ipv4_host (host bs : bytes) : Prop := {
  host_text : nonzero host;
  host_colon : Forall (fun c => c <> 58) host;
  host_some : host <> [];
  host_bracket : host !! 0%nat <> Some 91;
  host_length : (length host < NET_IPV4_ADDR_LEN)%nat;
  host_addr : exists r, inet_pton AF_INET host = (r, Some bs) /\ r <> 0;
}.

Lemma net_ipaddr_parse_host host bs addr :
  ipv4_host host bs -> (sizeof_sockaddr_in <= length addr)%nat ->
  exists addr', net_ipaddr_parse (Some (host ++ [0])) (length host) addr = Done (true, addr') /\
    length addr' = length addr /\ sin_addr addr' = Done bs.
Proof.
  intros [Hh H58 Hne H91 Hlen (r & Hp & Hr)] Hl. unfold net_ipaddr_parse.
  destruct (Nat.eqb_spec (length host) 0) as [H0|H0]; [by destruct host|].
  destruct (char_in_string host [0] 0) as (c & Hc & Hc0 & Hl0); [lia|done|]. rewrite Hc.
  cbn [mbind outcome_bind].
  destruct (Z.eqb_spec c 0); [done|]. destruct (Z.eqb_spec c 91) as [->|]; [done|].
  rewrite count_colons_string, drop_0, no_colons by (done || lia). cbn [mbind outcome_bind Nat.eqb Nat.add].
  rewrite parse_ipv4_plain by done.
  edestruct (read_host_ok host bs r addr) as (addr1 & -> & Hl1 & _ & Ha1 & _); [done..|].
  cbn [mbind outcome_bind mret outcome_ret]. by exists addr1.
Qed.

(** What the arguments of a download make of its parameters. *)
Lemma bind_host_ipv4 (cmd : bytes) port host bs :
  ipv4_host host bs -> 0 <= port < 65536 ->
  exists addr, zperf_bind_host [cmd; decimal port ++ [0]; host ++ [0]]
      = Done ([], (kStatus_SHELL_Success, DownloadParams port addr)) /\
    length addr = sizeof_sockaddr_storage /\ sin_addr addr = Done bs.
Proof.
  intros Hhost Hport. pose proof in_fits_sockaddr. pose proof sockaddr_fits_storage.
  pose proof addr_in_sockaddr_in.
  destruct (net_ipaddr_parse_host host bs (memset 0 sizeof_sockaddr)) as (addr & Hparse & Hl & Ha);
    [done|unfold memset; rewrite length_replicate; lia|].
  unfold memset in Hl. rewrite length_replicate in Hl.
  assert (Hread : read_at 0 sizeof_sockaddr addr = Done addr)
    by (rewrite read_at_ok, drop_0, take_ge by lia; done).
  destruct (write_at 0 addr (memset 0 sizeof_sockaddr_storage)) as [m| |] eqn:Hw;
    [|rewrite write_at_ok in Hw by (unfold memset; rewrite length_replicate; lia); done..].
  exists m. unfold zperf_bind_host. cbn [length Nat.leb].
  change (arg [cmd; decimal port ++ [0]; host ++ [0]] 1) with (@Done (option bytes) (Some (decimal port ++ [0]))).
  change (arg [cmd; decimal port ++ [0]; host ++ [0]] 2) with (@Done (option bytes) (Some (host ++ [0]))).
  cbn [mbind outcome_bind]. rewrite to_ulong_decimal by lia. unfold strlen, deref.
  print_step. rewrite c_str_app by apply Hhost. print_step.
  match goal with |- context [net_ipaddr_parse ?a ?b ?c] =>
    replace (net_ipaddr_parse a b c) with (Done (true, addr)) by (symmetry; exact Hparse) end.
  print_step. cbn [Z.b2z Z.ltb Z.compare]. rewrite Hread. print_step.
  rewrite Hw. print_step. rewrite u16_small by lia. split; [done|].
  pose proof (write_at_length _ _ _ _ Hw) as Hlm. unfold memset in Hlm. rewrite length_replicate in Hlm.
  split; [done|]. rewrite write_at_ok in Hw by (unfold memset; rewrite length_replicate; lia).
  injection Hw as <-. unfold sin_addr in *. cbn [take app].
  rewrite read_at_ok in Ha by lia. rewrite read_at_ok by (rewrite length_app; lia).
  rewrite drop_app_le by lia. by rewrite take_app_le by (rewrite length_drop; lia).
Qed.
End Argument.

(** ** The address that is bound *)
Section Names.
Context {L : Lwip} {LOk : LwipOk L}.

Definition names (bs : bytes) (port : Z) (name : bytes) : Prop :=
  sa_family name = Done AF_INET /\ sin_port name = Done (htons port) /\ sin_addr name = Done bs.

Lemma named bs port my :
  length my = sizeof_sockaddr_in -> length bs = 4%nat -> sa_family my = Done AF_INET ->
  exists my1 my2, set_sin_addr bs my = Done my1 /\ set_sin_port (htons port) my1 = Done my2 /\
    length my2 = sizeof_sockaddr_in /\ names bs port my2.
Proof.
  intros Hl Hbs Hf. pose proof addr_in_sockaddr_in. pose proof family_before_port.
  pose proof port_before_addr. unfold set_sin_addr, set_sin_port.
  destruct (write_at off_sin_addr bs my) as [my1| |] eqn:Hw1;
    [|rewrite write_at_ok in Hw1 by lia; done..].
  pose proof (write_at_length _ _ _ _ Hw1) as Hl1.
  destruct (store_at off_sin_port 2 (htons port) my1) as [my2| |] eqn:Hw2;
    [|unfold store_at in Hw2; rewrite write_at_ok in Hw2 by (rewrite length_store_le; lia); done..].
  pose proof (write_at_length _ _ _ _ Hw2) as Hl2. exists my1, my2.
  split; [done|]. split; [done|]. split; [congruence|]. split; [|split].
  - unfold sa_family in *. rewrite (load_other _ sizeof_sa_family _ _ _ _ Hw2) by lia.
    by rewrite (load_other _ sizeof_sa_family _ _ _ _ Hw1) by lia.
  - unfold sin_port. rewrite (load_stored _ _ _ _ _ Hw2), Z.mod_small; [done|].
    change (256 ^ Z.of_nat 2) with 65536. apply htons_range.
  - unfold sin_addr. rewrite (read_write_after _ _ _ _ _ _ Hw2) by (rewrite length_store_le; lia).
    rewrite <- Hbs. by apply (read_write_same _ _ my).
Qed.

(** An address at the start of a larger object. *)
Lemma read_at_prefix off n (m r : bytes) k :
  (off + n <= length m)%nat -> (length m <= k)%nat -> read_at off n (take k (m ++ r)) = read_at off n m.
Proof.
  intros Hn Hk. rewrite take_app_ge by done. rewrite !read_at_ok by (rewrite ?length_app; lia).
  rewrite drop_app_le by lia. by rewrite take_app_le by (rewrite length_drop; lia).
Qed.
Lemma names_prefix bs port m r k :
  length m = sizeof_sockaddr_in -> (sizeof_sockaddr_in <= k)%nat -> names bs port m ->
  names bs port (take k (m ++ r)).
Proof.
  intros Hl Hk. pose proof addr_in_sockaddr_in. pose proof family_before_port. pose proof port_before_addr.
  unfold names, sa_family, sin_port, sin_addr, load_at. by rewrite !read_at_prefix by lia.
Qed.

Lemma server_start_addr port addr cb ud s bs :
  length (server_addr s) = sizeof_sockaddr_storage -> length addr = sizeof_sockaddr_storage ->
  sin_addr addr = Done bs ->
  exists addr', server_start (DownloadParams port addr) cb ud s
      = Done (Server (Some cb) ud true false port addr' (server_run s)) /\
    length addr' = sizeof_sockaddr_storage /\ sin_addr addr' = Done bs.
Proof.
  intros Hs Hl Ha. pose proof in_fits_sockaddr. pose proof sockaddr_fits_storage.
  pose proof addr_in_sockaddr_in. unfold server_start. cbn [dp_addr dp_port].
  rewrite memcpy_ok by lia. cbn [mbind outcome_bind]. eexists. split; [done|].
  rewrite length_app, length_take, !length_drop. split; [lia|]. rewrite drop_0.
  unfold sin_addr in *. rewrite read_at_ok in Ha by lia.
  rewrite read_at_ok by (rewrite length_app, length_take, length_drop; lia).
  rewrite <- Ha, drop_app_le by (rewrite length_take; lia). f_equal.
  rewrite take_app_le by (rewrite length_drop, length_take; lia).
  apply list_eq. intros i. destruct (decide (i < 4)%nat).
  - rewrite !lookup_take_lt, !lookup_drop by done. by rewrite lookup_take_lt by lia.
  - by rewrite !lookup_take_ge by lia.
Qed.
End Names.

(** ** The commands *)
Section Commands.
Context {L : Lwip} {LOk : LwipOk L} {R : Rtos} {E : Type} `{!Env E}.
Implicit Types (w : world E) (g : globals).

Definition download_args (program command host : bytes) (port : Z) : list bytes :=
  [program; command; decimal port ++ [0]; host ++ [0]].

(** A server that waits for a start request: its thread has created the
    semaphore [h]. *)
Definition waits (s : server) (h : Z) : Prop :=
  server_running s = false /\ semaphore_handle (server_run s) = Some h /\
  length (server_addr s) = sizeof_sockaddr_storage.

(** A request that is accepted. *)
Definition requested (s s' : server) (cb : callback) (port : Z) (bs : bytes) : Prop :=
  session_cb s' = Some cb /\ server_running s' = true /\ server_stop s' = false /\
  server_port s' = port /\ length (server_addr s') = sizeof_sockaddr_storage /\
  sin_addr (server_addr s') = Done bs /\ server_run s' = server_run s.

Lemma wp_udp_download_command program host port bs h fuel w (Q : unit -> world E -> Prop) :
  ipv4_host host bs -> 0 <= port < 65536 -> waits (udp_server (glob w)) h ->
  (forall s e, requested (udp_server (glob w)) s UDP_SESSION_CB port bs ->
     Q tt (World (set_udp_server s (glob w)) e (trace w ++
       [Event (SemaphoreGive h) tt; Event TaskYield tt;
        Event (Printf (text "UDP server started on port " ++ decimal port ++ nl)) tt]))) ->
  wp Total (shell_task fuel (download_args program (literal "udp_download") host port)) Q w.
Proof.
  intros Hhost Hport (Hrun & Hsem & Hlen) HQ. unfold shell_task, download_args. cbn [length Nat.eqb].
  apply wp_bind. eapply wp_lift; [reflexivity|].
  apply wp_bind. eapply (wp_lift _ _ _ _ (text "udp_download")); [reflexivity|]. cbv zeta. cbn [drop].
  change (strcmp_eq (text "udp_download") (text "udp_upload")) with false.
  change (strcmp_eq (text "udp_download") (text "tcp_upload")) with false.
  change (strcmp_eq (text "udp_download") (text "udp_download")) with true. cbn iota.
  apply wp_bind. unfold cmd_udp_download. cbn [CONFIG_NET_UDP].
  destruct (bind_host_ipv4 (literal "udp_download") port host bs Hhost Hport) as (addr & Hbind & Hla & Hab).
  apply wp_bind. eapply wp_say; [exact Hbind|]. change (s32 kStatus_SHELL_Success <? 0) with false. cbn iota.
  apply wp_bind. unfold zperf_udp_download. apply wp_bind, wp_gets.
  unfold after_text. cbn [glob]. rewrite Hrun. apply wp_bind.
  destruct (server_start_addr port addr UDP_SESSION_CB 0 (udp_server (glob w)) bs Hlen Hla Hab)
    as (addr' & Hstart & Hla' & Hab').
  eapply wp_lift; [exact Hstart|]. apply wp_bind, wp_modify, wp_bind.
  unfold k_sem_give. cbn [server_run]. rewrite Hsem. apply (wp_trigger _ (SemaphoreGive h)).
  intros [] e1 _. apply wp_ret. destruct errno_positive as (_ & He & _).
  destruct (Z.eqb_spec 0 (- EALREADY)); [lia|]. cbn [Z.ltb Z.compare].
  apply wp_bind, (wp_trigger _ TaskYield). intros [] e2 _. apply wp_bind.
  eapply wp_say; [reflexivity|]. apply wp_ret, wp_ret. cbn [dp_port].
  unfold after_text, prints. cbn [text nl app glob trace env with_glob emit].
  rewrite app_nil_r, <- !app_assoc. by apply HQ.
Qed.

Lemma wp_tcp_download_command program host port bs h fuel w (Q : unit -> world E -> Prop) :
  ipv4_host host bs -> 0 <= port < 65536 -> waits (tcp_server (glob w)) h ->
  (forall s e, requested (tcp_server (glob w)) s TCP_SESSION_CB port bs ->
     Q tt (World (set_tcp_server s (glob w)) e (trace w ++
       [Event (SemaphoreGive h) tt;
        Event (Printf (text "TCP server started on port " ++ decimal port ++ nl)) tt]))) ->
  wp Total (shell_task fuel (download_args program (literal "tcp_download") host port)) Q w.
Proof.
  intros Hhost Hport (Hrun & Hsem & Hlen) HQ. unfold shell_task, download_args. cbn [length Nat.eqb].
  apply wp_bind. eapply wp_lift; [reflexivity|].
  apply wp_bind. eapply (wp_lift _ _ _ _ (text "tcp_download")); [reflexivity|]. cbv zeta. cbn [drop].
  change (strcmp_eq (text "tcp_download") (text "udp_upload")) with false.
  change (strcmp_eq (text "tcp_download") (text "tcp_upload")) with false.
  change (strcmp_eq (text "tcp_download") (text "udp_download")) with false.
  change (strcmp_eq (text "tcp_download") (text "tcp_download")) with true. cbn iota.
  apply wp_bind. unfold cmd_tcp_download. cbn [CONFIG_NET_TCP].
  destruct (bind_host_ipv4 (literal "tcp_download") port host bs Hhost Hport) as (addr & Hbind & Hla & Hab).
  apply wp_bind. eapply wp_say; [exact Hbind|]. change (s32 kStatus_SHELL_Success <? 0) with false. cbn iota.
  apply wp_bind. unfold zperf_tcp_download. apply wp_bind, wp_gets.
  unfold after_text. cbn [glob]. rewrite Hrun. apply wp_bind.
  destruct (server_start_addr port addr TCP_SESSION_CB 0 (tcp_server (glob w)) bs Hlen Hla Hab)
    as (addr' & Hstart & Hla' & Hab').
  eapply wp_lift; [exact Hstart|]. apply wp_bind, wp_modify, wp_bind.
  unfold k_sem_give. cbn [server_run]. rewrite Hsem. apply (wp_trigger _ (SemaphoreGive h)).
  intros [] e1 _. apply wp_ret. destruct errno_positive as (_ & He & _).
  destruct (Z.eqb_spec 0 (- EALREADY)); [lia|]. cbn [Z.ltb Z.compare].
  apply wp_bind. eapply wp_say; [reflexivity|]. apply wp_ret, wp_ret. cbn [dp_port].
  unfold after_text, prints. cbn [text nl app glob trace env with_glob emit].
  rewrite app_nil_r, <- !app_assoc. by apply HQ.
Qed.

(** ** The socket *)

(** lwIP reads the configured address as [conf]. *)
Definition configured (conf : bytes) : Prop :=
  exists r, inet_pton AF_INET MY_IP4ADDR = (r, Some conf) /\ r <> 0.

(** The address bound to when the command's is [bs]: with 0.0.0.0 it is the
    configured one, which is given to the interface first. *)
Definition bound_address (bs conf : bytes) : bytes :=
  if net_ipv4_is_addr_unspecified bs then conf else bs.
Definition assigned (bs conf : bytes) (evs : list event) : Prop :=
  if net_ipv4_is_addr_unspecified bs then exists r, evs = [Event (NetifSetAddr conf) r] else evs = [].

(** What follows the creation of a listening or receiving socket [sock]: nothing
    when it failed; else it is bound to the address and, when it [listens] and
    that succeeded, made to listen. *)
Definition binds (listens : bool) bs conf port sock (rest : list event) : Prop :=
  sock < 0 /\ rest = [] \/
  0 <= sock /\ exists evs name ret rest',
    rest = evs ++ Event (LwipBind sock name) ret :: rest' /\ assigned bs conf evs /\
    names (bound_address bs conf) port name /\
    if listens && (0 <=? ret) then exists r, rest' = [Event (LwipListen sock 1) r] else rest' = [].

Lemma configured_length conf : configured conf -> length conf = 4%nat.
Proof. intros (r & Hp & _). by eapply inet_pton_size_4. Qed.

Lemma wp_bound_address bs conf my my1 (Q : bytes -> world E -> Prop) w :
  configured conf -> set_sin_addr (bound_address bs conf) my = Done my1 ->
  (forall e evs, assigned bs conf evs -> Q my1 (World (glob w) e (trace w ++ evs))) ->
  wp Total
    (if negb (net_ipv4_is_addr_unspecified bs) then lift (set_sin_addr bs my)
     else
       '(ret, written) ← zperf_get_ipv4_addr (Some MY_IP4ADDR);
       my ← lift (match written with Some bs => set_sin_addr bs my | None => mret my end);
       if ret <? 0 then lift (set_sin_addr (store_le 4 INADDR_ANY) my) else mret my) Q w.
Proof.
  intros (r & Hp & Hr) Hmy HQ. unfold bound_address, assigned in *.
  destruct (net_ipv4_is_addr_unspecified bs); cbn [negb].
  - unfold zperf_get_ipv4_addr, net_addr_pton. rewrite Hp. destruct (Z.eqb_spec r 0); [done|].
    cbn [Z.ltb Z.compare default]. apply wp_bind, wp_bind. unfold net_if_ipv4_addr_add.
    apply wp_bind, (wp_trigger _ (NetifSetAddr conf)). intros u e _. apply wp_ret. cbn [negb].
    apply wp_ret, wp_bind. eapply wp_lift; [exact Hmy|]. apply wp_ret, HQ. by exists u.
  - eapply wp_lift; [exact Hmy|]. specialize (HQ (env w) [] eq_refl). rewrite app_nil_r in HQ. by destruct w.
Qed.

Lemma udp_open_binds fds bs conf w :
  statics_ok (glob w) -> sa_family (in4_addr_my (glob w)) = Done AF_INET ->
  sin_addr (server_addr (udp_server (glob w))) = Done bs -> configured conf ->
  wp Total (udp_open_ipv4 fds) (fun _ w' => exists sock rest,
    trace w' = trace w ++ Event (LwipSocket AF_INET SOCK_DGRAM IPPROTO_UDP) sock :: rest /\
    binds false bs conf (server_port (udp_server (glob w))) sock rest) w.
Proof.
  intros (H4 & _ & Hs) Hf Hb Hconf. pose proof (read_at_length _ _ _ _ Hb) as Hbs.
  assert (Ha : length (bound_address bs conf) = 4%nat)
    by (unfold bound_address; destruct (net_ipv4_is_addr_unspecified bs); [by apply configured_length|done]).
  unfold udp_open_ipv4. apply wp_bind, (wp_trigger _ (LwipSocket _ _ _)). intros sock e1 _.
  destruct (Z.ltb_spec sock 0) as [Hsock|Hsock].
  { apply wp_ret. exists sock, []. split; [done|by left]. }
  apply wp_bind, wp_gets, wp_bind. eapply wp_lift; [exact Hb|]. apply wp_bind, wp_gets, wp_bind.
  destruct (named (bound_address bs conf) (server_port (udp_server (glob w))) (in4_addr_my (glob w)) H4 Ha Hf)
    as (my1 & my2 & H1 & H2 & Hl & Hn).
  eapply wp_bound_address; [exact Hconf|exact H1|]. intros e1' evs Hevs. apply wp_bind. eapply wp_lift; [exact H2|].
  apply wp_bind, wp_modify, wp_bind. eapply wp_lift; [apply read_at_ok; lia|].
  rewrite drop_0, take_ge by lia.
  apply wp_bind, (wp_trigger _ (LwipBind sock my2)). intros ret e2 _.
  destruct (ret <? 0); apply wp_ret; exists sock, (evs ++ [Event (LwipBind sock my2) ret]);
    (split; [cbn [trace emit with_glob]; by rewrite <- !app_assoc|right; split; [done|by exists evs, my2, ret, []]]).
Qed.

Lemma tcp_open_binds bs conf w :
  tcp_statics (glob w) -> sa_family (in4_addr_my (glob w)) = Done AF_INET ->
  sin_addr (server_addr (tcp_server (glob w))) = Done bs -> configured conf ->
  wp Total tcp_open_ipv4 (fun _ w' => exists sock rest,
    trace w' = trace w ++ Event (LwipSocket AF_INET SOCK_STREAM IPPROTO_TCP) sock :: rest /\
    binds true bs conf (server_port (tcp_server (glob w))) sock rest) w.
Proof.
  intros Hst Hf Hb Hconf. pose proof (read_at_length _ _ _ _ Hb) as Hbs.
  assert (Ha : length (bound_address bs conf) = 4%nat)
    by (unfold bound_address; destruct (net_ipv4_is_addr_unspecified bs); [by apply configured_length|done]).
  pose proof in_fits_sockaddr. pose proof sockaddr_fits_storage. pose proof port6_in_sockaddr.
  unfold tcp_open_ipv4. apply wp_bind, wp_gets, wp_bind, (wp_trigger _ (LwipSocket _ _ _)). intros sock e1 _.
  apply wp_bind, wp_modify. destruct (Z.ltb_spec sock 0) as [Hsock|Hsock].
  { apply wp_ret. exists sock, []. split; [done|by left]. }
  apply wp_bind, wp_gets, wp_bind. eapply wp_lift; [exact Hb|].
  destruct (named (bound_address bs conf) (server_port (tcp_server (glob w))) (in4_addr_my (glob w))
    (statics_in4 _ Hst) Ha Hf) as (my1 & my2 & Hw1 & Hw2 & Hl & Hn).
  apply wp_bind. eapply wp_bound_address; [exact Hconf|exact Hw1|]. intros e1' evs Hevs. apply wp_bind. eapply wp_lift; [exact Hw2|].
  apply wp_bind, wp_modify, wp_bind. set (r := drop sizeof_sockaddr_in (memset 0 sizeof_sockaddr_storage)).
  assert (Hr : length (my2 ++ r) = sizeof_sockaddr_storage).
  { unfold r. rewrite length_app, length_drop. unfold memset. rewrite length_replicate. lia. }
  eapply (wp_lift _ _ _ _ (my2 ++ r)).
  { unfold copy_sockaddr_in_to_sockaddr_storage. rewrite (proj1 Hn). cbn [mbind outcome_bind].
    rewrite Z.eqb_refl, memcpy_ok by (unfold memset; rewrite ?length_replicate; lia).
    by rewrite drop_0, take_ge by lia. }
  apply wp_bind, wp_modify, wp_bind. unfold tcp_bind_listen_connection.
  destruct (lookup_lt_is_Some_2 (tcp_fds (glob w)) SOCK_ID_IPV4_LISTEN) as [p Hp];
    [rewrite (statics_fds _ Hst); by apply Nat.ltb_lt|].
  apply wp_bind. apply (wp_get_fd _ _ (set_fd sock p)).
  { cbn [glob with_glob emit tcp_fds set_tcp_fds set_tcp_sock_addr set_in4_addr_my].
    by rewrite list_lookup_alter_eq, Hp. }
  pose proof (names_prefix (bound_address bs conf) _ my2 r sizeof_sockaddr_storage Hl ltac:(lia) Hn) as Hn'.
  rewrite take_ge in Hn' by lia. apply wp_bind. eapply wp_lift; [apply Hn'|]. rewrite Z.eqb_refl.
  apply wp_bind, wp_bind. eapply wp_lift; [apply Hn'|]. apply wp_ret, wp_bind.
  eapply wp_lift; [apply read_at_ok; lia|]. rewrite drop_0. set (name := take sizeof_sockaddr (my2 ++ r)).
  assert (Hname : names (bound_address bs conf) (server_port (tcp_server (glob w))) name) by (by apply names_prefix).
  clearbody name. apply wp_bind, (wp_trigger _ (LwipBind _ name)). intros ret e2 _.
  destruct (Z.ltb_spec ret 0) as [Hret|Hret].
  { apply wp_ret, wp_ret. exists sock, (evs ++ [Event (LwipBind sock name) ret]).
    split; [cbn [trace emit with_glob]; by rewrite <- !app_assoc|]. right. split; [done|].
    exists evs, name, ret, []. destruct (Z.leb_spec 0 ret); [lia|]. done. }
  apply wp_bind, (wp_trigger _ (LwipListen sock 1)). intros ret2 e3 _.
  destruct (ret2 <? 0); [|apply wp_bind, wp_modify]; apply wp_ret, wp_ret;
    exists sock, (evs ++ [Event (LwipBind sock name) ret; Event (LwipListen sock 1) ret2]);
    (split; [cbn [trace emit with_glob]; by rewrite <- !app_assoc|]); right; (split; [done|]);
    exists evs, name, ret, [Event (LwipListen sock 1) ret2]; (destruct (Z.leb_spec 0 ret); [|lia]);
    (split; [done|]); (split; [done|]); (split; [done|by eexists]).
Qed.

(** C15: the command udp_download. Given a port and an IPv4 address, while the
    server waits for a request and the static addresses are of the size and the
    family [zperf_init] gives them, the command wakes the server's thread and prints
    that the server has started on that port; the thread then opens its first
    socket and, if that succeeds, binds it to that address and that port; given
    the address 0.0.0.0, it gives the interface the configured address
    MY_IP4ADDR, as lwIP reads it, and binds the socket to that one. *)
Theorem udp_download_binds program host bs conf port h fuel w :
  ipv4_host host bs -> configured conf -> 0 <= port < 65536 ->
  waits (udp_server (glob w)) h -> statics_ok (glob w) -> sa_family (in4_addr_my (glob w)) = Done AF_INET ->
  wp Total (shell_task fuel (download_args program (literal "udp_download") host port);;
            udp_open_ipv4 [no_fd; no_fd]) (fun _ w' => exists sock rest,
    trace w' = trace w
      ++ [Event (SemaphoreGive h) tt; Event TaskYield tt;
          Event (Printf (text "UDP server started on port " ++ decimal port ++ nl)) tt]
      ++ Event (LwipSocket AF_INET SOCK_DGRAM IPPROTO_UDP) sock :: rest /\
    binds false bs conf port sock rest) w.
Proof.
  intros Hhost Hconf Hport Hw (H4 & H6 & _) Hf. apply wp_bind.
  eapply wp_udp_download_command; [done..|]. intros s e (_ & _ & _ & Hp & Hl & Ha & _).
  eapply wp_mono; [by apply (udp_open_binds _ bs conf)|].
  intros _ w' (sock & rest & Ht & Hb). cbn [glob udp_server set_udp_server trace] in Ht, Hb.
  rewrite Hp in Hb. exists sock, rest. split; [by rewrite Ht, <- app_assoc|done].
Qed.
(** C16: the command tcp_download, in the same way: the thread binds its first
    socket to the address and the port of the command (with 0.0.0.0, to the
    configured address, which it gives the interface first) and, if that
    succeeds, makes it listen. *)
Theorem tcp_download_binds program host bs conf port h fuel w :
  ipv4_host host bs -> configured conf -> 0 <= port < 65536 ->
  waits (tcp_server (glob w)) h -> tcp_statics (glob w) -> sa_family (in4_addr_my (glob w)) = Done AF_INET ->
  wp Total (shell_task fuel (download_args program (literal "tcp_download") host port);; tcp_open_ipv4)
    (fun _ w' => exists sock rest,
      trace w' = trace w
        ++ [Event (SemaphoreGive h) tt;
            Event (Printf (text "TCP server started on port " ++ decimal port ++ nl)) tt]
        ++ Event (LwipSocket AF_INET SOCK_STREAM IPPROTO_TCP) sock :: rest /\
      binds true bs conf port sock rest) w.
Proof.
  intros Hhost Hconf Hport Hw Hst Hf. apply wp_bind.
  eapply wp_tcp_download_command; [done..|]. intros s e (_ & _ & _ & Hp & Hl & Ha & _).
  eapply wp_mono; [by apply (tcp_open_binds bs conf); [split; try apply Hst|..]|].
  intros _ w' (sock & rest & Ht & Hb). cbn [glob tcp_server set_tcp_server trace] in Ht, Hb.
  rewrite Hp in Hb. exists sock, rest. split; [by rewrite Ht, <- app_assoc|done].
Qed.
End Commands.

(** ** Witness *)
Section Examples.
#[local] Existing Instances lwip_example rtos_example.

(** The UDP server's thread has started: its semaphore is 7. *)
Definition example_waiting : world (list reply) :=
  with_glob (fun g => set_udp_server (set_server_run (KSem (Some 7) 0 1) (udp_server g)) g)
    (example_world [RZ 0; RZ 0; RZ 3; RZ 0]).

Lemma example_host : ipv4_host (text "10.0.0.7") [10; 0; 0; 7].
Proof.
  split; [repeat constructor; done..|discriminate|discriminate| |].
  - apply Nat.ltb_lt. reflexivity.
  - exists 1. split; [reflexivity|lia].
Qed.

Lemma example_any : ipv4_host (text "0.0.0.0") [0; 0; 0; 0].
Proof.
  split; [repeat constructor; done..|discriminate|discriminate| |].
  - apply Nat.ltb_lt. reflexivity.
  - exists 1. split; [reflexivity|lia].
Qed.
Lemma example_configured : configured [192; 168; 0; 2].
Proof. exists 1. split; [reflexivity|lia]. Qed.

Lemma udp_download_binds_witness :
  exists w' r rest, (shell_task 0 (download_args (literal "zperf") (literal "udp_download") (text "0.0.0.0") 5002);;
      udp_open_ipv4 [no_fd; no_fd]) example_waiting = Done (([Pollfd 3 POLLIN 0; no_fd], true), w') /\
    trace w' = [Event (SemaphoreGive 7) tt; Event TaskYield tt;
      Event (Printf (text "UDP server started on port " ++ decimal 5002 ++ nl)) tt;
      Event (LwipSocket AF_INET SOCK_DGRAM IPPROTO_UDP) 3; Event (NetifSetAddr [192; 168; 0; 2]) r] ++ rest.
Proof.
  assert (Hrun : exists w', (shell_task 0 (download_args (literal "zperf") (literal "udp_download") (text "0.0.0.0") 5002);;
      udp_open_ipv4 [no_fd; no_fd]) example_waiting = Done (([Pollfd 3 POLLIN 0; no_fd], true), w') /\
      created (trace w') = [3]) by (eexists; split; vm_compute; reflexivity).
  destruct Hrun as (w' & Hrun & Hc).
  assert (Hok : statics_ok (glob example_waiting)) by (split; [reflexivity|split; reflexivity]).
  assert (Hwait : waits (udp_server (glob example_waiting)) 7) by (split; [reflexivity|split; reflexivity]).
  destruct (wp_done _ _ _ _ _ _ (udp_download_binds (literal "zperf") (text "0.0.0.0") [0; 0; 0; 0] [192; 168; 0; 2] 5002 7 0
    example_waiting example_any example_configured ltac:(lia) Hwait Hok eq_refl) Hrun) as (sock & rest & Ht & Hb).
  assert (sock = 3) as ->.
  { rewrite Ht in Hc. cbn [trace example_waiting with_glob example_world app created] in Hc.
    destruct Hb as [[Hneg ->]|[Hpos _]]; cbn [created] in Hc.
    - destruct (Z.leb_spec 0 sock); [lia|discriminate].
    - destruct (Z.leb_spec 0 sock); [|lia]. injection Hc as Hc _. exact Hc. }
  destruct Hb as [[Hneg _]|(_ & evs & name & ret & rest' & -> & [r ->] & _)]; [lia|].
  exists w', r, (Event (LwipBind 3 name) ret :: rest'). split; [exact Hrun|exact Ht].
Defined.

Definition example_tcp_waiting : world (list reply) :=
  with_glob (fun g => set_tcp_server (set_server_run (KSem (Some 7) 0 1) (tcp_server g)) g)
    (example_world [RZ 0; RZ 3; RZ 0]).

Lemma tcp_download_binds_witness :
  exists w' sock rest, (shell_task 0 (download_args (literal "zperf") (literal "tcp_download") (text "10.0.0.7") 5002);;
      tcp_open_ipv4) example_tcp_waiting = Done (true, w') /\
    trace w' = [Event (SemaphoreGive 7) tt;
      Event (Printf (text "TCP server started on port " ++ decimal 5002 ++ nl)) tt;
      Event (LwipSocket AF_INET SOCK_STREAM IPPROTO_TCP) sock] ++ rest /\
    binds true [10; 0; 0; 7] [192; 168; 0; 2] 5002 sock rest /\ created (trace w') = [3].
Proof.
  assert (Hrun : exists w', (shell_task 0 (download_args (literal "zperf") (literal "tcp_download") (text "10.0.0.7") 5002);;
      tcp_open_ipv4) example_tcp_waiting = Done (true, w') /\ created (trace w') = [3])
    by (eexists; split; vm_compute; reflexivity).
  destruct Hrun as (w' & Hrun & Hc).
  assert (Hok : tcp_statics (glob example_tcp_waiting)) by (split; [reflexivity..|repeat constructor]).
  assert (Hwait : waits (tcp_server (glob example_tcp_waiting)) 7) by (split; [reflexivity|split; reflexivity]).
  destruct (wp_done _ _ _ _ _ _ (tcp_download_binds (literal "zperf") (text "10.0.0.7") [10; 0; 0; 7] [192; 168; 0; 2] 5002 7 0
    example_tcp_waiting example_host example_configured ltac:(lia) Hwait Hok eq_refl) Hrun) as (sock & rest & Ht & Hb).
  exists w', sock, rest. split; [exact Hrun|]. split; [exact Ht|]. split; [exact Hb|exact Hc].
Defined.
End Examples.
