(* ===== verification/Main.v ===== *)
(** The start of the program, zperf_main.c: [main] brings up the network
    interface, calls [zperf_init], creates the shell's task and starts the
    scheduler. Also the two functions of that file nothing calls, and
    freertos/FreeRTOSCommonHooks.c. *)
From S2P Require Import Prelude CInt Platform CString Kernel NetIp Session World Environment Print Common Server Control Async Shell Init.
Import Stdlib.Strings.String.StringSyntax.
Open Scope Z_scope.

(** ** The options main does not read *)
Record long_option : Set := LongOption {
  opt_name : option bytes;
  opt_has_arg : Z;
  opt_flag : option Z;
  opt_val : Z;
}.
(** <getopt.h>. *)
Definition no_argument : Z := 0.
Definition required_argument : Z := 1.

Definition longopts : list long_option :=
  [ LongOption (Some (text "debug")) no_argument None 100;
    LongOption (Some (text "help")) no_argument None 104;
    LongOption (Some (text "gateway")) required_argument None 103;
    LongOption (Some (text "ipaddr")) required_argument None 105;
    LongOption (Some (text "netmask")) required_argument None 109;
    LongOption None 0 None 0 ].
Definition NUM_OPTS : nat := length longopts - 1.

(** The [for] loop, [n] options left. *)
Fixpoint usage_loop (n i : nat) : printing unit :=
  match n with
  | O => mret tt
  | S n' =>
      match longopts !! i with
      | None => Fault OutOfBounds
      | Some o =>
          name ← quiet (deref (opt_name o));
          print (text "-" ++ [opt_val o] ++ text " --" ++ name ++ nl);;
          usage_loop n' (S i)
      end
  end.
Definition usage : printing unit :=
  print (text "options:" ++ nl);; usage_loop NUM_OPTS 0.

(** What [usage] prints. *)
Example usage_text :
  usage = print (text "options:" ++ nl ++ text "-d --debug" ++ nl ++ text "-h --help" ++ nl
                   ++ text "-g --gateway" ++ nl ++ text "-i --ipaddr" ++ nl
                   ++ text "-m --netmask" ++ nl).
Proof. vm_compute. reflexivity. Qed.

Section Main.
Context {L : Lwip} {R : Rtos} {E : Type} `{!Env E}.
Abbreviation W := (world E).

Definition msDelay (ms : Z) : M W unit :=
  trigger (TaskDelay (u32 (configTICK_RATE_HZ * ms) / 1000)).

(** The addresses of the interface. *)
Definition gw : bytes := [192; 168; 0; 1].
Definition ipaddr : bytes := [192; 168; 0; 2].
Definition netmask : bytes := [255; 255; 255; 0].
Definition ipaddr6 : bytes := [32; 1; 13; 184; 0; 0; 0; 0; 0; 0; 0; 0; 0; 0; 0; 1].

(** [lpc_netif.ip6_addr_state[idx] |= IP6_ADDR_VALID], an array of lwIP's. *)
Definition set_addr_valid (idx : Z) : M W unit :=
  if (0 <=? idx) && (idx <? Z.of_nat LWIP_IPV6_NUM_ADDRESSES)
  then trigger (NetifAddrSetValid idx);; mret tt
  else fail OutOfBounds.

Definition cannot_add : bytes := text "Can't add ipv6 address" ++ nl.

(** [idx] is not initialised: [garbage] is what it holds. *)
Definition main (garbage : Z) : M W Z :=
  trigger LwipInit;;
  ok ← trigger (NetifAdd ipaddr netmask gw);
  if negb ok then fail AssertionFailed else
  trigger (NetifCreateIp6LinklocalAddress 1);;
  '(err, written) ← trigger (NetifAddIp6Address ipaddr6);
  let idx := default garbage written in
  say (if negb (err =? ERR_OK) then print cannot_add else mret tt);;
  set_addr_valid 0;;
  set_addr_valid idx;;
  trigger NetifSetDefault;;
  trigger NetifSetUp;;
  when LWIP_TCPIP_CORE_LOCKING (
    err ← trigger SysMutexNew;
    if negb (err =? ERR_OK) then fail AssertionFailed else mret tt);;
  zperf_init;;
  trigger (SysThreadNew ShellTask);;
  trigger TaskStartScheduler;;
  mret 1.

(** ** vSetupIFTask *)

(** The callback of [tcpip_init] for the thread of lwIP: what it stores in the
    [s32_t] its argument points to. *)
Definition tcpip_init_done_signal (done : Z) : Z := 1.

(** [while (!tcpipdone) msDelay(1);] *)
Definition wait_turn (_ : unit) : M W (unit + unit) :=
  tcpipdone ← trigger ReadTcpipDone;
  if tcpipdone =? 0 then msDelay 1;; mret (inl tt) else mret (inr tt).

Definition print_address (label addr : bytes) : printing unit :=
  s ← quiet (deref (ipaddr_ntoa_r addr 16));
  print (label ++ s ++ [13] ++ nl).

(** The addresses are those [main] has stored. It calls [shell_task] without its
    argument: [args] are the arguments at the place where the argument would be.
    [shell_task] does not return. *)
Definition vSetupIFTask (fuel : nat) (args : list bytes) : M W unit :=
  trigger TcpipInit;;
  loop fuel wait_turn tt;;
  trigger (NetifAddIp6Address ipaddr6);;
  ok ← trigger (NetifAdd ipaddr netmask gw);
  if negb ok then fail AssertionFailed else
  trigger NetifSetDefault;;
  trigger NetifSetUp;;
  addr ← trigger NetifAddress;
  say (print_address (text "IP_ADDR    : ") addr);;
  mask ← trigger NetifNetmask;
  say (print_address (text "NET_MASK   : ") mask);;
  gateway ← trigger NetifGateway;
  say (print_address (text "GATEWAY_IP : ") gateway);;
  zperf_init;;
  shell_task fuel args.

(** ** FreeRTOSCommonHooks.c *)
Definition vAssertCalled (ulLine : Z) (pcFileName : bytes) : M W unit :=
  trigger TaskEnterCritical;;
  say (print (text "[ASSERT] " ++ pcFileName ++ text ":" ++ decimal ulLine ++ nl));;
  trigger Fflush;;
  trigger TaskExitCritical;;
  fail (Exited (-1)).

Definition FreeRTOSDelay (ms : Z) : M W unit :=
  xDelayTime ← trigger TaskGetTickCount;
  trigger (TaskDelayUntil (u32 xDelayTime) (u32 ms));;
  mret tt.

(** [__FILE__] is the compiler's. *)
Definition vApplicationMallocFailedHook (__FILE__ : bytes) : M W unit := vAssertCalled 103 __FILE__.
Definition vApplicationIdleHook : M W unit := mret tt.
Definition vApplicationTickHook : M W unit := mret tt.
End Main.

(** ** What it establishes *)
Section Start.
Context {L : Lwip} {LOk : LwipOk L} {R : Rtos} {E : Type} `{!Env E}.
Implicit Types w : world E.

(** How [main] can end: the scheduler has taken over and returned; an assertion
    has failed; or, when [oob], the array of lwIP is left. *)
Definition starts {A} (m : M (world E) A) (oob : Prop) (Q : A -> world E -> Prop) w : Prop :=
  match m w with
  | Done (a, w') => Q a w'
  | Fault f => f = AssertionFailed \/ f = OutOfBounds /\ oob
  | OutOfFuel => False
  end.

Lemma starts_bind {A B} (m : M (world E) A) (k : A -> M (world E) B) oob Q w :
  starts m oob (fun a w' => starts (k a) oob Q w') w -> starts (m ≫= k) oob Q w.
Proof. unfold starts, mbind, M_bind. by destruct (m w) as [[a w']| |]. Qed.
Lemma starts_mono {A} (m : M (world E) A) oob (P Q : A -> world E -> Prop) w :
  starts m oob P w -> (forall a w', P a w' -> Q a w') -> starts m oob Q w.
Proof. unfold starts. destruct (m w) as [[a w']| |]; auto. Qed.
Lemma starts_total {A} (m : M (world E) A) oob Q w : wp Total m Q w -> starts m oob Q w.
Proof. unfold starts, wp. by destruct (m w) as [[a w']| |]. Qed.
Lemma starts_checked {A} (m : M (world E) A) oob Q w : checked m Q w -> starts m oob Q w.
Proof. unfold starts, checked. destruct (m w) as [[a w']| |]; auto. Qed.
Lemma starts_trigger c oob (Q : resp c -> world E -> Prop) w :
  (forall r e, Q r (emit c r e w)) -> starts (trigger c) oob Q w.
Proof. intros HQ. apply starts_total, wp_trigger. intros r e _. apply HQ. Qed.
Lemma starts_addr_valid idx oob (Q : unit -> world E -> Prop) w :
  (0 <= idx < Z.of_nat LWIP_IPV6_NUM_ADDRESSES ->
   forall r e, Q tt (emit (NetifAddrSetValid idx) r e w)) ->
  (~ 0 <= idx < Z.of_nat LWIP_IPV6_NUM_ADDRESSES -> oob) ->
  starts (set_addr_valid idx) oob Q w.
Proof.
  intros HQ Hg. unfold set_addr_valid.
  destruct (Z.leb_spec 0 idx), (Z.ltb_spec idx (Z.of_nat LWIP_IPV6_NUM_ADDRESSES)); cbn [andb].
  - apply starts_bind, starts_trigger. intros r e. apply starts_total, wp_ret, HQ. lia.
  - right. split; [done|]. apply Hg. lia.
  - right. split; [done|]. apply Hg. lia.
  - right. split; [done|]. apply Hg. lia.
Qed.

(** The calls of a start that succeeds, in order. *)
Definition interface_calls (failed : bool) (idx : Z) : list call :=
  [LwipInit; NetifAdd ipaddr netmask gw; NetifCreateIp6LinklocalAddress 1;
   NetifAddIp6Address ipaddr6]
  ++ (if failed then [Printf cannot_add] else [])
  ++ [NetifAddrSetValid 0; NetifAddrSetValid idx; NetifSetDefault; NetifSetUp]
  ++ if LWIP_TCPIP_CORE_LOCKING then [SysMutexNew] else [].
Definition task_calls : list call :=
  [QueueCreate DEFAULT_QUEUE_SIZE; TaskCreate WorkTask; TaskCreate UdpReceiverThread;
   TaskCreate TcpReceiverThread; SysThreadNew ShellTask; TaskStartScheduler].

Lemma initialised_emit c (r : resp c) e w :
  no_semaphore (Event c r) -> no_queue (Event c r) -> initialised w -> initialised (emit c r e w).
Proof.
  intros Hs Hq (H1 & H2 & H3 & H4 & H5 & H6 & H7 & [H8 H8'] & H9). unfold initialised, async_ready.
  cbn [glob trace emit]. rewrite queue_of_quiet by by repeat constructor.
  repeat (split; [done|]). apply Forall_app. split; [done|by repeat constructor].
Qed.

(** From the interface on. *)
Lemma starts_tasks oob w :
  static_globals = Done (glob w) -> Forall no_semaphore (trace w) -> queue_of (trace w) = Some [] ->
  starts (zperf_init;; trigger (SysThreadNew ShellTask);; trigger TaskStartScheduler;; mret 1)
    oob (fun r w' => r = 1 /\ initialised w' /\
      ev_call <$> trace w' = (ev_call <$> trace w) ++ task_calls) w.
Proof.
  intros Hg Hs Hq. pose proof (init_ends w Hg Hs Hq) as Hinit. apply starts_bind, starts_checked.
  unfold checked in *. destruct (zperf_init w) as [[a w1]| |]; [|done..].
  destruct Hinit as (-> & Hinit & Hcalls).
  apply starts_bind, starts_trigger. intros r2 e2. apply starts_bind, starts_trigger. intros r3 e3.
  apply starts_total, wp_ret. split; [done|]. split; [apply initialised_emit; [done..|by apply initialised_emit]|].
  cbn [trace emit]. rewrite !fmap_app, Hcalls, <- !app_assoc. done.
Qed.

(** What lwIP answers, of the first four calls, to the two that [main] looks at:
    whether the interface was added; the error and, if lwIP wrote one, the index
    of the IPv6 address. *)
Definition interface_added (e : E) : bool * (Z * option Z) :=
  let e := snd (answer LwipInit e) in
  let '(ok, e) := answer (NetifAdd ipaddr netmask gw) e in
  let e := snd (answer (NetifCreateIp6LinklocalAddress 1) e) in
  (ok, fst (answer (NetifAddIp6Address ipaddr6) e)).

(** No index was written, and the one read does not fit. *)
Definition no_index (garbage : Z) (written : option Z) : Prop :=
  written = None /\ ~ 0 <= garbage < Z.of_nat LWIP_IPV6_NUM_ADDRESSES.

(** The interface. *)
Lemma starts_interface {A} (k : M (world E) A) garbage ok err written (Q : A -> world E -> Prop) w :
  trace w = [] -> (0 < LWIP_IPV6_NUM_ADDRESSES)%nat -> interface_added (env w) = (ok, (err, written)) ->
  (forall i, written = Some i -> 0 <= i < Z.of_nat LWIP_IPV6_NUM_ADDRESSES) ->
  (forall w', ok = true -> 0 <= default garbage written < Z.of_nat LWIP_IPV6_NUM_ADDRESSES ->
     glob w' = glob w ->
     ev_call <$> trace w' = interface_calls (negb (err =? ERR_OK)) (default garbage written) ->
     Forall no_semaphore (trace w') -> queue_of (trace w') = Some [] ->
     starts k (no_index garbage written) Q w') ->
  starts (trigger LwipInit;;
    ok ← trigger (NetifAdd ipaddr netmask gw);
    if negb ok then fail AssertionFailed else
    trigger (NetifCreateIp6LinklocalAddress 1);;
    '(err, written) ← trigger (NetifAddIp6Address ipaddr6);
    let idx := default garbage written in
    say (if negb (err =? ERR_OK) then print cannot_add else mret tt);;
    set_addr_valid 0;; set_addr_valid idx;; trigger NetifSetDefault;; trigger NetifSetUp;;
    when LWIP_TCPIP_CORE_LOCKING (
      err ← trigger SysMutexNew;
      if negb (err =? ERR_OK) then fail AssertionFailed else mret tt);; k) (no_index garbage written) Q w.
Proof.
  intros Ht HN Hans Hidx HQ. unfold interface_added in Hans.
  apply starts_bind, starts_total, (wp_trigger _ LwipInit). intros r1 e1 H1. rewrite H1 in Hans. cbn [snd] in Hans.
  apply starts_bind, starts_total, (wp_trigger _ (NetifAdd ipaddr netmask gw)). intros ok' e2 H2.
  cbn [env emit] in H2. rewrite H2 in Hans. destruct ok'; [|by left].
  apply starts_bind, starts_total, (wp_trigger _ (NetifCreateIp6LinklocalAddress 1)). intros r3 e3 H3.
  cbn [env emit] in H3. rewrite H3 in Hans. cbn [snd] in Hans.
  apply starts_bind, starts_total, (wp_trigger _ (NetifAddIp6Address ipaddr6)).
  intros [err' written'] e4 H4. cbn [env emit] in H4. rewrite H4 in Hans. injection Hans as <- -> ->.
  set (idx := default garbage written) in *.
  assert (Hgarb : ~ 0 <= idx < Z.of_nat LWIP_IPV6_NUM_ADDRESSES -> no_index garbage written).
  { intros Hno. destruct written as [i|]; [|done]. destruct Hno. by apply Hidx. }
  apply starts_bind, starts_total. set (failed := negb (err =? ERR_OK)) in *.
  assert (Hsay : exists t, (if failed then print cannot_add else mret tt) = Done (t, tt) /\
    prints t = if failed then [Event (Printf cannot_add) tt] else []) by (destruct failed; by eexists).
  destruct Hsay as (t & Hsay & Hprints). eapply wp_say; [exact Hsay|].
  apply starts_bind, starts_addr_valid; [|lia]. intros _ r5 e5.
  apply starts_bind, starts_addr_valid; [|done]. intros Hin r6 e6.
  apply starts_bind, starts_trigger. intros r7 e7. apply starts_bind, starts_trigger. intros r8 e8.
  apply starts_bind. unfold interface_calls in HQ.
  destruct LWIP_TCPIP_CORE_LOCKING; cbn [when].
  - apply starts_bind, (starts_trigger SysMutexNew). intros r9 e9. cbn in r9.
    destruct (Z.eqb_spec r9 ERR_OK) as [_|_]; cbn [negb]; [|by left]. apply starts_total, wp_ret.
    apply HQ; unfold after_text; cbn [trace emit glob]; rewrite ?Ht, ?Hprints;
      destruct failed; solve [done|by repeat constructor].
  - apply starts_total, wp_ret.
    apply HQ; unfold after_text; cbn [trace emit glob]; rewrite ?Ht, ?Hprints;
      destruct failed; solve [done|by repeat constructor].
Qed.

(** C30: the program's start. From the static variables as C initialises them, [main]
    initialises lwIP and the interface before it calls [zperf_init], creates the
    shell's task after it, and starts the scheduler last, each once; the state
    it leaves is the one [zperf_init] establishes. On the way it prints an error
    exactly when lwIP answers that it could not add the IPv6 address, and marks
    as valid the addresses 0 and the one whose index lwIP wrote. Where this does
    not happen an assertion has failed, or lwIP wrote no index (the indices it
    writes are those of its array): [main] then uses the uninitialised one, and
    leaves the array if that is out of bounds. *)
Theorem main_starts garbage ok err written w :
  static_globals = Done (glob w) -> trace w = [] -> (0 < LWIP_IPV6_NUM_ADDRESSES)%nat ->
  interface_added (env w) = (ok, (err, written)) ->
  (forall i, written = Some i -> 0 <= i < Z.of_nat LWIP_IPV6_NUM_ADDRESSES) ->
  starts (main garbage) (no_index garbage written) (fun r w' =>
    ok = true /\ r = 1 /\ initialised w' /\ ~ no_index garbage written /\
    ev_call <$> trace w' =
      interface_calls (negb (err =? ERR_OK)) (default garbage written) ++ task_calls) w.
Proof.
  intros Hg Ht HN Hans Hidx. eapply starts_interface; [done..|].
  intros w1 Hok Hin Hg1 Hc1 Hs1 Hq1. rewrite <- Hg1 in Hg.
  eapply starts_mono; [by apply starts_tasks|]. intros a w2 (-> & Hinit & Hcalls).
  split; [done|]. split; [done|]. split; [done|].
  split; [by intros [-> Hno]|]. by rewrite Hcalls, Hc1.
Qed.

(** When lwIP adds no address and writes no index, [main] reads one that is not
    there. *)
Theorem main_index_garbage garbage w :
  (forall e, fst (answer (NetifAdd ipaddr netmask gw) e) = true) ->
  (forall e, exists err, fst (answer (NetifAddIp6Address ipaddr6) e) = (err, None)) ->
  (0 < LWIP_IPV6_NUM_ADDRESSES)%nat -> ~ 0 <= garbage < Z.of_nat LWIP_IPV6_NUM_ADDRESSES ->
  main garbage w = Fault OutOfBounds.
Proof.
  intros Hadd Hip6 HN Hg. change (faults OutOfBounds (main garbage) w). unfold main.
  apply faults_after, wp_trigger. intros r1 e1 _.
  apply faults_after, (wp_trigger _ (NetifAdd ipaddr netmask gw)). intros ok e2 Ha2.
  pose proof (Hadd (env (emit LwipInit r1 e1 w))) as H2. rewrite Ha2 in H2. cbn in H2. subst ok. cbn [negb].
  apply faults_after, wp_trigger. intros r3 e3 _.
  apply faults_after, (wp_trigger _ (NetifAddIp6Address ipaddr6)). intros [err written] e4 Ha4.
  destruct (Hip6 e3) as [err' H4]. cbn in Ha4. rewrite Ha4 in H4. injection H4 as -> ->.
  apply faults_after. assert (exists t, (if negb (err' =? ERR_OK) then print cannot_add else mret tt) = Done (t, tt))
    as [t Hsay] by (destruct (negb _); by eexists).
  eapply wp_say; [exact Hsay|]. apply faults_after. unfold set_addr_valid at 1.
  rewrite (proj2 (Z.ltb_lt 0 (Z.of_nat _))) by lia. cbn [Z.leb Z.compare andb].
  apply wp_bind, wp_trigger. intros r5 e5 _. apply wp_ret.
  apply faults_here. cbn [default from_option]. unfold set_addr_valid, faults.
  destruct (Z.leb_spec 0 garbage), (Z.ltb_spec garbage (Z.of_nat LWIP_IPV6_NUM_ADDRESSES)); done || lia.
Qed.
End Start.

(** ** On concrete inputs *)
Section Examples.
#[local] Existing Instances lwip_example rtos_example.

Lemma main_starts_witness :
  exists w, main 77 (example_world []) = Done (1, w) /\ initialised w /\
    ev_call <$> trace w = interface_calls false 1 ++ task_calls.
Proof.
  assert (HN : (0 < LWIP_IPV6_NUM_ADDRESSES)%nat) by (apply Nat.ltb_lt; reflexivity).
  pose proof (main_starts (L := lwip_example) 77 true 0 (Some 1) (example_world []) eq_refl eq_refl HN eq_refl) as H.
  unfold starts in H. destruct (main 77 (example_world [])) as [[a w]| |] eqn:Hrun;
    [|vm_compute in Hrun; discriminate Hrun..].
  destruct H as (_ & -> & Hi & _ & Hc).
  - intros i Hi. injection Hi as <-. split; [apply Z.leb_le|apply Z.ltb_lt]; reflexivity.
  - exists w. split; [reflexivity|]. split; [exact Hi|exact Hc].
Defined.
Example main_faults : main 77 (example_world [RZ 0; RZ 0; RZ 0; RZ (-3)]) = Fault OutOfBounds.
Proof. vm_compute. reflexivity. Qed.
End Examples.
