(* ===== verification/EndToEnd.v ===== *)
(** The UDP client and the UDP server together: what the client reads in the
    server's reply, and a whole upload over a network that loses nothing. *)
From S2P Require Import Prelude CInt Platform Kernel NetIp Session World Environment Common Server UdpStats UdpReceiver UdpUploader.
Open Scope Z_scope.

(** ** The statistics on the wire *)

Definition wire (vs : list Z) : bytes := mjoin ((fun v => store_le 4 (htonl v)) <$> vs).

Lemma wire_field vs i v :
  vs !! i = Some v ->
  take 4 (drop (4 * i) (wire vs)) = store_le 4 (htonl v) /\ (4 * i + 4 <= length (wire vs))%nat.
Proof.
  revert i. induction vs as [|x vs IH]; intros [|i] Hi; [done..| |].
  - injection Hi as ->. change (wire (v :: vs)) with (store_le 4 (htonl v) ++ wire vs).
    split; [by apply take_app_length'|]. rewrite length_app, length_store_le. lia.
  - destruct (IH i Hi) as [H1 H2]. change (wire (x :: vs)) with (store_le 4 (htonl x) ++ wire vs).
    rewrite length_app, length_store_le. split; [|lia].
    replace (4 * S i)%nat with (length (store_le 4 (htonl x)) + 4 * i)%nat
      by (rewrite length_store_le; lia).
    by rewrite <- drop_drop, drop_app_length.
Qed.

(** The [i]th 32-bit field after the datagram header. *)
Lemma get_be32_field hdr vs i v :
  length hdr = sizeof_udp_datagram -> vs !! i = Some v ->
  get_be32 (sizeof_udp_datagram + 4 * i) (hdr ++ wire vs) = Done (u32 v).
Proof.
  intros Hh Hi. destruct (wire_field vs i v Hi) as [H1 H2]. unfold get_be32, load_at.
  rewrite read_at_ok by (rewrite length_app, Hh; lia).
  rewrite <- Hh, <- drop_drop, drop_app_length, H1. unfold mbind, outcome_bind, mret, outcome_ret.
  by rewrite ntohl_load_store.
Qed.

Lemma statistics_decode hdr duration s r :
  (sizeof_udp_datagram <= length hdr)%nat ->
  0 <= counter s < 4294967296 -> 0 <= error s < 4294967296 -> 0 <= outorder s < 4294967296 ->
  0 <= length_of s -> 0 <= duration < 4294967296 ->
  zperf_upload_decode_stat (build_reply hdr (udp_fill_stat duration s)) r =
    Done (Results (nb_packets_sent r) (counter s) (error s) (outorder s)
            (length_of s mod 4294967295) duration (u32 (jitter s))
            (client_time_in_us r) (packet_size r) (nb_packets_errors r)).
Proof.
  intros Hhdr Hc He Ho Hl Hd. unfold build_reply. fold (wire (hdr_fields (udp_fill_stat duration s))).
  set (vs := hdr_fields _). set (data := _ ++ _).
  assert (Hf : forall i v, vs !! i = Some v -> get_be32 (sizeof_udp_datagram + 4 * i) data = Done (u32 v)).
  { intros i v Hi. apply get_be32_field; [|done]. rewrite length_take. unfold sizeof_udp_datagram in *. lia. }
  unfold zperf_upload_decode_stat. unfold sizeof_udp_datagram in Hf |- *.
  pose proof (Hf 2%nat _ eq_refl) as F2. pose proof (Hf 3%nat _ eq_refl) as F3.
  pose proof (Hf 4%nat _ eq_refl) as F4. pose proof (Hf 5%nat _ eq_refl) as F5.
  pose proof (Hf 6%nat _ eq_refl) as F6. pose proof (Hf 7%nat _ eq_refl) as F7.
  pose proof (Hf 8%nat _ eq_refl) as F8. pose proof (Hf 9%nat _ eq_refl) as F9.
  cbn [Nat.add Nat.mul] in F2, F3, F4, F5, F6, F7, F8, F9 |- *.
  rewrite F2, F3, F4, F5, F6, F7, F8, F9. clear F2 F3 F4 F5 F6 F7 F8 F9.
  unfold mbind, outcome_bind, mret, outcome_ret, udp_fill_stat, USEC_PER_SEC, USEC_PER_MSEC, MSEC_PER_SEC.
  clear Hf. cbn [datagrams error_cnt outorder_cnt total_len2 stop_sec stop_usec jitter1 jitter2].
  do 2 f_equal; cint.
Qed.

Lemma fill_results_jitter duration s r :
  udp_fill_results duration s = Done r -> jitter_in_us r = u32 (jitter s).
Proof.
  unfold udp_fill_results. destruct (c_div _ _); [|done..]. by intros [= <-].
Qed.

Lemma length_build_reply hdr st :
  (sizeof_udp_datagram <= length hdr)%nat -> length (build_reply hdr st) = sizeof_stats.
Proof.
  intros Hh. unfold build_reply. rewrite length_app, length_take, Nat.min_l by done.
  cbn [hdr_fields fmap list_fmap mjoin list_join]. by rewrite !length_app, !length_store_le.
Qed.

(** The server's reply on a session that took [duration] microseconds. *)
Definition reply_of (hdr : bytes) (duration : Z) (s : session) : bytes :=
  build_reply hdr (udp_fill_stat duration s).

(** C10: the server's statistics arrive. Whatever session the server sums up, the
    client reads in the reply the packets received, lost and out of order, the
    duration and the jitter that the server computed; the number of bytes
    arrives modulo 2^32 - 1. *)
Theorem statistics_round_trip hdr duration s r :
  (sizeof_udp_datagram <= length hdr)%nat ->
  0 <= counter s < 4294967296 -> 0 <= error s < 4294967296 -> 0 <= outorder s < 4294967296 ->
  0 <= length_of s -> 0 <= duration < 4294967296 ->
  zperf_upload_decode_stat (reply_of hdr duration s) r =
    Done (Results (nb_packets_sent r) (counter s) (error s) (outorder s)
            (length_of s mod 4294967295) duration (u32 (jitter s))
            (client_time_in_us r) (packet_size r) (nb_packets_errors r)).
Proof. apply statistics_decode. Qed.

Lemma statistics_round_trip_witness :
  exists r, zperf_upload_decode_stat (reply_of (memset 0 12) 2500000
      (add_data 4294967295 zero_session)) zero_results = Done r /\
    nb_packets_rcvd r = 1 /\ total_len r = 0 /\ time_in_us r = 2500000.
Proof.
  eexists. split; [apply (statistics_round_trip (memset 0 12) 2500000
    (add_data 4294967295 zero_session) zero_results);
    [reflexivity|vm_compute; split; [discriminate|reflexivity]|cbn; lia|cbn; lia
    |vm_compute; discriminate|lia]|].
  split; [|split]; reflexivity.
Defined.

(** ** An upload over a network that loses nothing *)

(** What the server receives: the data, in order, and one closing datagram. *)
Definition arriving (addr : bytes) (datas : list bytes) (fin : bytes) : list (bytes * bytes) :=
  (fun d => (addr, d)) <$> datas ++ [fin].

Section Lossless.
Context {L : Lwip} {LOk : LwipOk L} {R : Rtos} {ROk : RtosOk R} {E : Type} `{!Env E}.

(** The datagrams of an upload, seen by the server. *)
Lemma numbered_ids size datas times :
  numbered size datas times -> Z.of_nat (length datas) < 2147483648 ->
  dgram_id <$> datas = Z.of_nat <$> seq 0 (length datas).
Proof.
  intros [Hl Hn] Hlen. apply list_eq. intros i. rewrite !list_lookup_fmap.
  destruct (datas !! i) as [d|] eqn:Hd.
  - pose proof (lookup_lt_Some _ _ _ Hd) as Hi. rewrite lookup_seq_lt by done. cbn.
    destruct (lookup_lt_is_Some_2 times i) as [t Ht]; [lia|].
    destruct (Hn i d t Hd Ht) as (_ & -> & _). f_equal. rewrite s32_small by lia. lia.
  - apply lookup_ge_None in Hd. by rewrite lookup_seq_ge.
Qed.

Lemma numbered_sizes size datas times :
  numbered size datas times -> Forall (fun d => length d = Z.to_nat size) datas.
Proof.
  intros [Hl Hn]. apply Forall_lookup. intros i d Hd.
  destruct (lookup_lt_is_Some_2 times i) as [t Ht]; [rewrite <- Hl; by eapply lookup_lt_Some|].
  by destruct (Hn i d t Hd Ht).
Qed.

Lemma sum_sizes size (datas : list bytes) :
  0 <= size -> Forall (fun d => length d = Z.to_nat size) datas ->
  sum ((fun d => Z.of_nat (length d)) <$> datas) = Z.of_nat (length datas) * size.
Proof.
  intros Hs. induction 1 as [|d datas Hd _ IH]; [done|]. cbn [fmap list_fmap length sum foldr].
  fold (sum ((fun d => Z.of_nat (length d)) <$> datas)). rewrite IH, Hd. lia.
Qed.

(** What the server sees of them: the first, then identifiers from 1. *)
Lemma numbered_body size start body times :
  packet_size_ok size -> numbered size (start :: body) times ->
  Z.of_nat (length (start :: body)) < 2147483648 ->
  dgram_id start = 0 /\ late 0 (dgram_id <$> body) = 0 /\
  max_id (dgram_id <$> body) = Z.of_nat (length body) /\
  Forall (fun d => 0 <= dgram_id d) body /\ whole start /\ Forall whole body.
Proof.
  intros Hsize Hnum Hn. pose proof (numbered_ids _ _ _ Hnum Hn) as Hids.
  pose proof (numbered_sizes _ _ _ Hnum) as Hsizes. apply Forall_cons_iff in Hsizes as [Hs0 Hsizes].
  assert (Hwhole : forall d, length d = Z.to_nat size -> whole d).
  { intros d Hd. unfold whole, packet_size_ok in *. lia. }
  injection Hids as Hstart Hbids. split; [exact Hstart|].
  change (dgram_id <$> body = Z.of_nat <$> seq 1 (length body)) in Hbids.
  split; [rewrite Hbids; apply (late_increasing 0)|]. split; [rewrite Hbids; apply max_id_seq|].
  split; [|split; [by apply Hwhole|eapply Forall_impl; [exact Hwhole|exact Hsizes]]].
  apply Forall_lookup. intros j d Hd.
  assert (Hj : (dgram_id <$> body) !! j = Some (dgram_id d)) by by rewrite list_lookup_fmap, Hd.
  rewrite Hbids, list_lookup_fmap in Hj. destruct (seq 1 _ !! j) as [m|]; [|done].
  injection Hj as <-. lia.
Qed.

Lemma stream_bytes size body ps s :
  packet_size_ok size -> Z.of_nat (length body) < 2147483648 -> fresh s ->
  Forall2 seen_as body ps -> Forall (fun d => length d = Z.to_nat size) body ->
  length_of (udp_stream ps s) = Z.of_nat (length body) * size.
Proof.
  unfold packet_size_ok, PACKET_SIZE_MAX. intros Hsize Hn (_ & _ & _ & _ & H0 & _) Hps Hsizes.
  destruct (udp_stream_totals ps s) as [_ Htot].
  rewrite H0, (seen_as_lens _ _ Hps), (sum_sizes size) in Htot by first [done | lia].
  pose proof (udp_stream_length_range ps s ltac:(lia)) as Hrange.
  rewrite !u64_small in Htot by nia. rewrite Htot. lia.
Qed.

(** A whole upload over a network that loses and reorders nothing. When the
    server is given, in order, the [n] datagrams a client numbered, at least
    two, and one final datagram, it finishes the session, and both sides report
    that nothing was lost or out of order. Both count [n - 1] packets received:
    the datagram that opens the session is not counted. The client is told the
    same duration and jitter as the server's callback, and the number of bytes
    modulo 2^32 - 1 where the callback gets it modulo 2^32. *)
Theorem lossless_upload sock addr k to i s0 w t1 cb size datas times fin (result : zperf_results) :
  table_wf (sessions (glob w)) -> addr_peer addr = Done (Some k) -> destination addr = Done to ->
  get_session addr SESSION_UDP (sessions (glob w)) = Done (Some i, t1) ->
  row SESSION_UDP t1 !! i = Some s0 -> slot_free s0 = true ->
  session_cb (udp_server (glob w)) = Some cb ->
  let n := Z.of_nat (length datas) in
  2 <= n < 2147483648 -> packet_size_ok size -> numbered size datas times -> is_fin size n fin ->
  wp Total (deliver sock (arriving addr datas fin)) (fun _ w' =>
    exists evs r reply r',
      trace w' = trace w ++ evs /\
      callbacks evs = [(cb, ZPERF_SESSION_STARTED, None, user_data (udp_server (glob w)));
                       (cb, ZPERF_SESSION_FINISHED, Some r, user_data (udp_server (glob w)))] /\
      nb_packets_rcvd r = n - 1 /\ nb_packets_lost r = 0 /\ nb_packets_outorder r = 0 /\
      total_len r = u32 ((n - 1) * size) /\
      sent_to evs = [(sock, reply, to)] /\ length reply = sizeof_stats /\
      zperf_upload_decode_stat reply result = Done r' /\
      nb_packets_rcvd r' = n - 1 /\ nb_packets_lost r' = 0 /\ nb_packets_outorder r' = 0 /\
      total_len r' = (n - 1) * size mod 4294967295 /\
      time_in_us r' = time_in_us r /\ jitter_in_us r' = jitter_in_us r) w.
Proof.
  intros Hwf Hk Hto Hget Hi Hfree Hcb n Hn Hsize Hnum Hfin.
  pose proof (numbered_sizes _ _ _ Hnum) as Hsizes.
  destruct datas as [|start body]; [cbn in n; lia|]. cbn [length] in n.
  rewrite (world_on w). set (g := glob w). set (t := sessions g) in *.
  apply Forall_cons_iff in Hsizes as [Hs0 Hsizes].
  destruct (numbered_body _ _ _ _ Hsize Hnum ltac:(cbn; lia))
    as (Hstart & Hlate & Hmax & Hpos & Hw0 & Hwhole).
  destruct Hfin as [Hfl Hfid]. eapply (wp_session _ _ _ k); try done.
  - constructor; [exact Hw0|]. constructor; [|exact Hwhole].
    unfold whole, packet_size_ok in *. lia.
  - lia.
  - rewrite Hfid, s32_small; lia.
  - intros ->. cbn in n. lia.
  - lia.
  - intros s ps r evs e' Hf Hps s' st Hr Ht Hsent Hcbs.
    destruct (stream_of_datagrams body ps s Hf Hps Hpos ltac:(lia)) as (Hc & Ho & He & Hl).
    fold s' in Hc, Ho, He, Hl. rewrite Hlate in Ho, He. rewrite Hmax in He.
    assert (Hsum : length_of s' = (n - 1) * size).
    { unfold s'. rewrite (stream_bytes size body) by (done || lia). lia. }
    destruct (fill_results_ok (time_in_us r) s' ltac:(lia)) as (r0 & Hr0 & H1 & H2 & H3 & H4 & _).
    assert (r0 = r) as -> by congruence.
    assert (Hh : (sizeof_udp_datagram <= length (take sizeof_udp_datagram fin))%nat).
    { rewrite length_take, Hfl. unfold packet_size_ok in Hsize. lia. }
    pose proof (statistics_decode _ (time_in_us r) s' result Hh ltac:(lia) ltac:(lia) ltac:(lia)
                  ltac:(unfold packet_size_ok in Hsize; nia) Ht) as Hdec. fold st in Hdec.
    exists evs, r, (build_reply (take sizeof_udp_datagram fin) st).
    eexists. split; [reflexivity|]. split; [rewrite Hcbs; fold g in Hcb; by rewrite Hcb|].
    split; [lia|]. split; [lia|]. split; [lia|]. split; [by rewrite H4, Hsum|].
    split; [exact Hsent|]. split; [by apply length_build_reply|]. split; [exact Hdec|]. cbn [nb_packets_rcvd nb_packets_lost
      nb_packets_outorder total_len time_in_us jitter_in_us].
    split; [lia|]. split; [lia|]. split; [lia|]. split; [by rewrite Hsum|]. split; [done|].
    symmetry. by apply (fill_results_jitter (time_in_us r)).
Qed.
End Lossless.

(** ** Witness *)
Section Witnesses.
#[local] Existing Instances lwip_example rtos_example.

(** Packets as [fill_packet] makes them, 100 bytes long. *)
Definition example_packet (id : Z) : bytes :=
  match fill_packet id 0 (1000 * id) (htonl 5001) (htonl 800) 100 (memset 122 sizeof_sample_packet) with
  | Done buf => take 100 buf
  | _ => []
  end.
Definition example_server_world : world (list reply) :=
  with_glob (fun g => set_udp_server
    (Server (Some 7) 9 true false 5001 (memset 0 28) (KSem (Some 1) 0 1)) g) (example_world []).
Definition example_udp_table : table :=
  set_row SESSION_UDP (<[0%nat := set_key 35091 (NetAddr 2 ([192; 168; 0; 1] ++ memset 0 12)) zero_session]>
                         (row_udp static_table)) static_table.

Lemma example_numbered : numbered 100 (example_packet <$> [0; 1; 2]) [0; 1; 2].
Proof.
  split; [reflexivity|]. intros [|[|[|i]]] d t Hd Ht; try done;
    injection Hd as <-; injection Ht as <-; repeat split; vm_compute; reflexivity.
Qed.

Lemma lossless_upload_witness :
  exists w', deliver (L := lwip_example) (R := rtos_example) 3
      ((fun d => (example_peer4, d)) <$> (example_packet <$> [0; 1; 2]) ++ [example_packet (-3)])
      example_server_world = Done (tt, w') /\
    exists r reply r', sent_to (trace w') = [(3, reply, example_peer4)] /\
      zperf_upload_decode_stat reply zero_results = Done r' /\
      nb_packets_rcvd r' = 2 /\ nb_packets_rcvd r = 2.
Proof.
  assert (H : wp Total _ _ _) by
    (apply (lossless_upload (L := lwip_example) (R := rtos_example) 3 example_peer4
       (Peer4 35091 16820416) example_peer4 0%nat
       (set_key 35091 (NetAddr 2 ([192; 168; 0; 1] ++ memset 0 12)) zero_session)
       example_server_world example_udp_table 7 100 (example_packet <$> [0; 1; 2]) [0; 1; 2]
       (example_packet (-3)) zero_results);
     [apply (static_table_wf (L := lwip_example))|vm_compute; reflexivity|vm_compute; reflexivity
     |vm_compute; reflexivity|vm_compute; reflexivity|vm_compute; reflexivity|reflexivity
     |vm_compute; split; [discriminate|reflexivity]
     |vm_compute; split; discriminate|apply example_numbered
     |split; vm_compute; reflexivity]).
  apply wp_total_done in H.
  destruct H as ([] & w' & Hrun & evs & r & reply & r' & Htr & _ & H1 & _ & _ & _ & H5 & _ & H6 & H7 & _).
  exists w'. split; [exact Hrun|]. exists r, reply, r'. rewrite Htr.
  split; [exact H5|]. split; [exact H6|]. split; [exact H7|exact H1].
Defined.
End Witnesses.
