(* ===== verification/Network.v ===== *)
(** Clients and servers over a network that loses and reorders nothing. UDP:
    what the client sends on its socket is given to the server's packet handler,
    and what the server sends back is what the client receives. TCP: the bytes
    the client's stack took, in any pieces, arrive on the server's connection. *)
From S2P Require Import Prelude CInt Platform Kernel NetIp Session World Environment Common Server UdpStats UdpReceiver UdpUploader TcpReceiver TcpUploader EndToEnd.
Open Scope Z_scope.

(** ** The link

    The environment of a client: that of any other, [E], except for one socket.
    [carried] are the datagrams sent on it so far, [taken] the number of replies
    received from it. *)
Record link (E : Type) : Type := Link {
  other : E;
  carried : list bytes;
  taken : nat;
}.
Arguments Link {E} _ _ _.
Arguments other {E} _.
Arguments carried {E} _.
Arguments taken {E} _.

Section Link.
Context {L : Lwip} {LOk : LwipOk L} {R : Rtos} {ROk : RtosOk R}.
Context {E : Type} `{!Env E} {F : Type} `{!Env F}.
(** The client's socket; the server's, the client's address as the server sees
    it, the server's static variables and its environment when the client
    starts. *)
Variables (csock ssock : Z) (addr : bytes) (g : globals) (f : F).

Definition served (datas : list bytes) : outcome (unit * world F) :=
  deliver ssock ((fun d => (addr, d)) <$> datas) (World g f []).
(** What a server that has met no fault has sent. *)
Definition replies (datas : list bytes) : list bytes :=
  match served datas with
  | Done (_, w) => (fun '(_, data, _) => data) <$> sent_to (trace w)
  | _ => []
  end.

Definition link_answer (c : call) (l : link E) : resp c * link E :=
  match c with
  | LwipSend s data flags =>
      if s =? csock
      then (Z.of_nat (length data), Link (other l) (carried l ++ [data]) (taken l))
      else let '(r, e) := answer (LwipSend s data flags) (other l) in
           (r, Link e (carried l) (taken l))
  | LwipRecv s len flags =>
      if s =? csock
      then match replies (carried l) !! taken l with
           | Some data =>
               let data := take (Z.to_nat len) data in
               ((Z.of_nat (length data), data), Link (other l) (carried l) (S (taken l)))
           | None => ((-1, []), l)
           end
      else let '(r, e) := answer (LwipRecv s len flags) (other l) in
           (r, Link e (carried l) (taken l))
  | c => let '(r, e) := answer c (other l) in (r, Link e (carried l) (taken l))
  end.
#[local] Instance link_env : Env (link E) := {| answer := link_answer |}.

Lemma link_errno : ErrnoOk E -> ErrnoOk (link E).
Proof. intros [H]. split. intros l. cbn. specialize (H (other l)). by destruct (answer Errno _). Qed.

Definition link_clock stop : ClockReaches E stop -> ClockReaches (link E) stop.
Proof.
  intros [rem Hcall Htick]. refine {| remaining := fun l => rem (other l) |}.
  - intros c l.
    assert (H : forall c, (rem (snd (answer c (other l))) <= rem (other l))%nat) by done.
    destruct c; cbn; repeat case_match; cbn; try lia;
      match goal with H1 : answer ?c _ = _ |- _ => specialize (H c); rewrite H1 in H; exact H end.
  - intros l. cbn. specialize (Htick (other l)). by destruct (answer TaskGetTickCount _).
Defined.

(** ** What the link carries *)
Definition no_recv (ev : event) : Prop :=
  match ev with Event (LwipRecv _ _ _) _ => False | _ => True end.

Lemma carried_after evs : forall l,
  Forall no_recv evs ->
  carried (env_after l evs) = carried l ++ sent_on csock evs /\ taken (env_after l evs) = taken l.
Proof.
  induction evs as [|[c r] evs IH]; intros l Hevs; [by rewrite app_nil_r|].
  apply Forall_cons_iff in Hevs as [Hc Hevs]. unfold env_after in *. cbn [foldl ev_call].
  destruct (IH (snd (answer c l)) Hevs) as [-> ->]. clear IH.
  destruct c; try done; cbn [answer link_env link_answer sent_on];
    try destruct (Z.eqb_spec s csock); cbn; try (destruct (answer _ _); done).
  by rewrite <- app_assoc.
Qed.

(** Computations that send on the link and do not receive. *)
Lemma wp_carried {A} (m : M (world (link E)) A) w :
  follows m -> only no_recv m ->
  wp Partial m (fun _ w' => exists evs, trace w' = trace w ++ evs /\
    carried (env w') = carried (env w) ++ sent_on csock evs /\ taken (env w') = taken (env w)) w.
Proof.
  intros Hf Ho. eapply wp_mono; [apply wp_conj; [apply Hf|apply Ho]|].
  intros a w' [(evs & Ht & He) (evs' & Ht' & Hr)]. rewrite Ht in Ht'. apply app_inv_head in Ht' as <-.
  exists evs. split; [done|]. rewrite He. by apply carried_after.
Qed.

Lemma turn_follows port size rate dur stop v :
  follows (udp_upload_turn csock port size rate dur stop v).
Proof. unfold udp_upload_turn, k_uptime_ticks, store_packet, send_packet, get_errno. follows_steps. Qed.
Lemma turn_no_recv port size rate dur stop v :
  only no_recv (udp_upload_turn csock port size rate dur stop v).
Proof.
  unfold udp_upload_turn, k_uptime_ticks, store_packet, send_packet, get_errno. by only_steps.
Qed.

Section Upload.
Context {stop : Z} `{!ErrnoOk (link E), !ClockReaches (link E) stop}.
Implicit Types w : world (link E).

(** The upload since [w0], and all it sent on the link. *)
Definition on_link (size dur start : Z) w0 (v : upload_vars) w : Prop :=
  sending csock size dur start w0 v w /\ taken (env w) = 0%nat /\
  exists evs, trace w = trace w0 ++ evs /\ carried (env w) = sent_on csock evs.

(** A turn never fails, and sends one datagram. *)
Lemma wp_link_turn md port size rate dur start w0 v w :
  packet_size_ok size -> on_link size dur start w0 v w ->
  wp md (udp_upload_turn csock port size rate dur stop v) (fun r w' => exists v',
    r = (if r is inl _ then inl v' else inr (inl v')) /\ on_link size dur start w0 v' w' /\
    length (carried (env w')) = S (length (carried (env w))) /\
    (remaining stop (env w') + (if r is inl _ then 1 else 0) <= remaining stop (env w))%nat) w.
Proof.
  intros Hsize (Hs & Htk & evs0 & Htr0 & Hc0). pose proof Hs as (_ & _ & _ & Hb & _).
  eapply wp_mono.
  { apply wp_conj_partial; [apply wp_conj; [by apply wp_upload_turn|by apply wp_udp_turn]|].
    apply wp_conj; [apply wp_carried; [apply turn_follows|apply turn_no_recv]|apply udp_turn_advances]. }
  intros r w' [[Hup (time & ret & data & evs & Htr & Hsent & _ & _ & _ & (l & l' & Ha) & Hr)]
               [(evs' & Htr' & Hc & Ht) [Hle Hlt]]].
  rewrite Htr in Htr'. apply app_inv_head in Htr' as <-.
  cbn [sent_on] in Hc. rewrite Z.eqb_refl, Hsent in Hc.
  cbn in Ha. rewrite Z.eqb_refl in Ha. injection Ha as <- _.
  assert (Hlink : exists evs2, trace w' = trace w0 ++ evs2 /\ carried (env w') = sent_on csock evs2).
  { exists (evs0 ++ Event TaskGetTickCount time :: Event (LwipSend csock data 0) (Z.of_nat (length data)) :: evs).
    rewrite Htr, Htr0, <- app_assoc, sent_on_app. cbn [sent_on]. by rewrite Z.eqb_refl, Hsent, Hc, Hc0. }
  assert (Hlen : length (carried (env w')) = S (length (carried (env w)))).
  { rewrite Hc, length_app. cbn. lia. }
  destruct r as [v'|[v'|e]]; [| |lia]; exists v'; (split; [done|]);
    (split; [split; [exact Hup|split; [by rewrite Ht|done]]|]); (split; [done|]); lia.
Qed.

(** The loop, which sends at least one datagram. *)
Lemma wp_link_loop fuel port size rate dur start w0 v w :
  packet_size_ok size -> on_link size dur start w0 v w ->
  (remaining stop (env w) < fuel)%nat ->
  wp Total (loop fuel (udp_upload_turn csock port size rate dur stop) v) (fun r w' => exists v',
    r = inl v' /\ on_link size dur start w0 v' w' /\
    (1 <= length (carried (env w')) <= length (carried (env w)) + remaining stop (env w) + 1)%nat) w.
Proof.
  intros Hsize Hl Hfuel. set (B := (length (carried (env w)) + remaining stop (env w))%nat).
  apply (wp_loop_variant _ (fun v w' => on_link size dur start w0 v w' /\
           (length (carried (env w')) + remaining stop (env w') <= B)%nat)
           (fun _ w' => remaining stop (env w'))); [|split; [done|lia]|done].
  intros v1 w1 [Hl1 HB]. eapply wp_mono; [by apply wp_link_turn|].
  intros r w2 (v2 & Hr & Hl2 & Hlen & Hrem). destruct r as [v2'|r].
  - injection Hr as ->. split; [split; [done|]|]; lia.
  - injection Hr as ->. exists v2. split; [done|]. split; [done|]. lia.
Qed.
End Upload.

(** ** The end of an upload over the link *)
Section Fin.
Context `{!SetsockoptSucceeds E}.
Implicit Types w : world (link E).

Lemma wp_link_fin_turn md n secs usecs size stats (Q : Z * bytes -> world (link E) -> Prop) w :
  packet_size_ok size -> packet_buffer w -> 0 <= secs < 4294967296 -> 0 <= usecs < 4294967296 ->
  length stats = sizeof_stats -> taken (env w) = 0%nat ->
  (forall fin w', is_fin size n fin -> packet_buffer w' ->
     carried (env w') = carried (env w) ++ [fin] ->
     match head (replies (carried (env w) ++ [fin])) with
     | None => taken (env w') = 0%nat -> Q (-1, stats) w'
     | Some d => forall stats', taken (env w') = 1%nat ->
         write_at 0 (take sizeof_stats d) stats = Done stats' ->
         Q (Z.of_nat (length (take sizeof_stats d)), stats') w'
     end) ->
  wp md (upload_fin_turn csock n secs usecs size stats) Q w.
Proof.
  intros Hsize Hb Hs Hu Hstats Ht HQ. unfold upload_fin_turn. apply wp_bind. eapply wp_mono.
  { eapply (wp_packet md csock size _ secs usecs _ _ (fun ret w' => exists fin,
      is_fin size n fin /\ packet_buffer w' /\ ret = Z.of_nat (length fin) /\
      env w' = Link (other (env w)) (carried (env w) ++ [fin]) 0)); [done..|].
    intros data ret w' (H1 & H2 & _) Ha _ Hb'. exists data. cbn in Ha. rewrite Z.eqb_refl in Ha.
    injection Ha as <- <-. rewrite Ht. split; [|done]. split; [done|]. by rewrite H2, s32_u32. }
  intros ? w1 H1. apply wp_bind. eapply wp_mono; [exact H1|]. clear H1 w1.
  intros ret w1 (fin & Hfin & Hb1 & -> & He). destruct (Z.ltb_spec (Z.of_nat (length fin)) 0); [lia|].
  apply wp_bind, (wp_trigger _ (LwipSetsockopt _ _ _ _)). intros ret1 l1 Ha.
  pose proof (setsockopt_succeeds csock SOL_SOCKET SO_RCVTIMEO [2; 0] (other (env w1))) as Hok.
  cbn in Ha. destruct (answer (LwipSetsockopt _ _ _ _) (other (env w1))) as [r1 e1].
  injection Ha as <- <-. cbn in Hok. destruct (Z.ltb_spec r1 0); [lia|].
  apply wp_bind, (wp_trigger _ (LwipRecv _ _ _)). intros [ret2 reply] l2 Ha.
  cbn in Ha. rewrite Z.eqb_refl, He in Ha. cbn [carried taken] in Ha.
  apply wp_bind. specialize (HQ fin). rewrite head_lookup in HQ.
  destruct (replies _ !! 0%nat) as [d|] eqn:Hd; injection Ha as <- <- <-.
  - rewrite Nat2Z.id, take_take, Nat.min_id.
    assert (Hl : (0 + length (take sizeof_stats d) <= length stats)%nat) by (rewrite length_take; lia).
    pose proof (write_at_ok _ _ _ Hl) as Hwr. eapply wp_lift; [exact Hwr|]. apply wp_ret.
    eapply HQ; [exact Hfin|exact Hb1|done|done|exact Hwr].
  - rewrite take_nil. eapply wp_lift; [apply (write_at_ok 0 [] stats); cbn; lia|].
    apply wp_ret. cbn. rewrite drop_0. apply HQ; [done|exact Hb1|done|done].
Qed.

(** No reply: the closing datagram is sent again. *)
Lemma wp_link_lost md fuel n end_time size results w :
  packet_size_ok size -> packet_buffer w -> taken (env w) = 0%nat ->
  (forall fins, Forall (is_fin size n) fins -> fins <> [] -> replies (carried (env w) ++ fins) = []) ->
  wp md (zperf_upload_fin fuel csock n end_time size results) (fun '(ret, _) w' =>
    ret < 0 /\ exists fins, Forall (is_fin size n) fins /\ length fins = 2%nat /\
      carried (env w') = carried (env w) ++ fins) w.
Proof.
  intros Hsize Hb Ht Hlost. unfold zperf_upload_fin. cbv zeta. destruct (fin_time_ok end_time) as [Hs Hu].
  apply wp_bind. cbn [upload_fin_loop Z.leb Z.compare]. apply wp_bind.
  eapply wp_link_fin_turn; try done. intros fin1 w1 Hf1 Hb1 Hc1.
  rewrite (Hlost [fin1]) by (done || by constructor). cbn [head]. intros Ht1.
  change (-1 <=? 0) with true. cbn iota. apply wp_bind.
  eapply wp_link_fin_turn; try done. intros fin2 w2 Hf2 Hb2 Hc2.
  rewrite Hc1, <- app_assoc in Hc2 |- *. change ([fin1] ++ [fin2]) with [fin1; fin2] in Hc2 |- *.
  assert (Hf12 : Forall (is_fin size n) [fin1; fin2]) by (constructor; [done|by constructor]).
  rewrite (Hlost [fin1; fin2]) by done. cbn [head]. intros Ht2.
  change (-1 <=? 0) with true. cbn iota. apply wp_ret. apply wp_ret. split; [lia|].
  exists [fin1; fin2]. split; [done|]. by split.
Qed.

(** One reply: its statistics, and nothing left to drain. *)
Lemma wp_link_reply md fuel n end_time size results w :
  packet_size_ok size -> packet_buffer w -> taken (env w) = 0%nat ->
  (forall fin, is_fin size n fin -> exists reply r',
     replies (carried (env w) ++ [fin]) = [reply] /\ length reply = sizeof_stats /\
     zperf_upload_decode_stat reply results = Done r') ->
  wp md (zperf_upload_fin (S fuel) csock n end_time size results) (fun '(ret, r') w' =>
    ret = 0 /\ exists fin reply, is_fin size n fin /\ carried (env w') = carried (env w) ++ [fin] /\
      replies (carried (env w) ++ [fin]) = [reply] /\
      zperf_upload_decode_stat reply results = Done r') w.
Proof.
  intros Hsize Hb Ht Hreply. unfold zperf_upload_fin. cbv zeta. destruct (fin_time_ok end_time) as [Hs Hu].
  apply wp_bind. cbn [upload_fin_loop Z.leb Z.compare]. apply wp_bind.
  eapply wp_link_fin_turn; try done. intros fin w1 Hf1 Hb1 Hc1.
  destruct (Hreply fin Hf1) as (reply & r' & Hr & Hlen & Hdec). rewrite Hr. cbn [head].
  intros stats' Ht1 Hwr. rewrite take_ge in Hwr by lia. rewrite take_ge, Hlen by lia.
  unfold write_at in Hwr. case_decide as Hl; [|done]. injection Hwr as <-.
  cbn [take app]. rewrite drop_ge, app_nil_r by (unfold memset; rewrite length_replicate; lia).
  change (Z.of_nat sizeof_stats <=? 0) with false. cbn iota. apply wp_ret.
  change (Z.of_nat sizeof_stats >? 0) with true. cbn iota.
  apply wp_bind. eapply wp_lift; [exact Hdec|]. apply wp_bind. cbn [loop]. unfold drain_turn.
  apply wp_bind, wp_bind, (wp_trigger _ (LwipRecv _ _ _)). intros [ret data] l2 Ha.
  cbn in Ha. rewrite Z.eqb_refl, Ht1, Hc1, Hr in Ha. injection Ha as <- <- <-.
  apply wp_ret, wp_ret, wp_ret. split; [done|]. by exists fin, reply.
Qed.
End Fin.

(** ** A whole upload *)
Lemma deliver_fault sock ms1 ms2 (w : world F) flt :
  deliver sock ms1 w = Fault flt -> deliver sock (ms1 ++ ms2) w = Fault flt.
Proof.
  revert w. induction ms1 as [|[a d] ms1 IH]; intros w; [done|]. cbn [app deliver].
  unfold mbind, M_bind. destruct (udp_received _ _ _ _ w) as [[u w1]|f1|]; [apply IH|done..].
Qed.

Section Lossless.
Context (k : peer) (to : bytes) (i : nat) (s0 : session) (t1 : table) (cb : callback).
Hypothesis Hwf : table_wf (sessions g).
Hypothesis Hk : addr_peer addr = Done (Some k).
Hypothesis Hto : destination addr = Done to.
Hypothesis Hget : get_session addr SESSION_UDP (sessions g) = Done (Some i, t1).
Hypothesis Hslot : row SESSION_UDP t1 !! i = Some s0.
Hypothesis Hfree : slot_free s0 = true.
Hypothesis Hcb : session_cb (udp_server g) = Some cb.

(** The server's side of an upload of one datagram. *)
Lemma served_one size start times fins :
  packet_size_ok size -> numbered size [start] times -> Forall (is_fin size 1) fins -> fins <> [] ->
  served (start :: fins) = Fault DivisionByZero.
Proof.
  intros Hsize Hnum Hfins Hne. destruct fins as [|fin fins]; [done|].
  apply Forall_cons_iff in Hfins as [[Hfl Hfid] _].
  destruct (numbered_body _ _ _ _ Hsize Hnum ltac:(cbn; lia)) as (Hid & _ & _ & _ & Hw & _).
  unfold served. cbn [fmap list_fmap].
  apply (deliver_fault _ [(addr, start); (addr, fin)]).
  apply (empty_session ssock addr k to start fin i s0 (World g f []) t1); try done; [lia| |].
  - unfold whole, packet_size_ok in *. lia.
  - by rewrite Hfid.
Qed.

(** The server's side of a longer one, and what the client reads of it. *)
Definition both_report (size n : Z) (r' : zperf_results) (sw : world F) : Prop :=
  exists rs,
    callbacks (trace sw) =
      [(cb, ZPERF_SESSION_STARTED, None, user_data (udp_server g));
       (cb, ZPERF_SESSION_FINISHED, Some rs, user_data (udp_server g))] /\
    nb_packets_rcvd rs = n - 1 /\ nb_packets_rcvd r' = n - 1 /\
    nb_packets_lost rs = 0 /\ nb_packets_lost r' = 0 /\
    nb_packets_outorder rs = 0 /\ nb_packets_outorder r' = 0 /\
    total_len rs = u32 ((n - 1) * size) /\ total_len r' = (n - 1) * size mod 4294967295 /\
    time_in_us r' = time_in_us rs /\ jitter_in_us r' = jitter_in_us rs.

Lemma served_many size datas times fin results :
  let n := Z.of_nat (length datas) in
  2 <= n < 2147483648 -> packet_size_ok size -> numbered size datas times -> is_fin size n fin ->
  exists sw reply r', served (datas ++ [fin]) = Done (tt, sw) /\ replies (datas ++ [fin]) = [reply] /\
    length reply = sizeof_stats /\ zperf_upload_decode_stat reply results = Done r' /\
    both_report size n r' sw.
Proof.
  intros n Hn Hsize Hnum Hfin.
  pose proof (lossless_upload ssock addr k to i s0 (World g f []) t1 cb size datas times fin results
                Hwf Hk Hto Hget Hslot Hfree Hcb Hn Hsize Hnum Hfin) as H.
  apply wp_total_done in H as ([] & sw & Hrun & evs & rs & reply & r' & Htr & Hcbs & H).
  cbn [trace app] in Htr. subst evs. destruct H as (H1 & H2 & H3 & H4 & Hsent & Hlen & Hdec & H).
  unfold arriving in Hrun. exists sw, reply, r'. unfold replies, served. rewrite Hrun, Hsent.
  split; [done|]. split; [done|]. split; [done|]. split; [done|]. exists rs.
  cbn [glob udp_server] in Hcbs. tauto.
Qed.

Context `{!SetsockoptSucceeds E}.

(** The end of the client's side. *)
Definition link_end (size : Z) (datas fins : list bytes) (ret : Z) (r : zperf_results) : Prop :=
  let n := Z.of_nat (length datas) in
  Forall (is_fin size n) fins /\
  (n = 1 /\ ret < 0 /\ length fins = 2%nat /\ served (datas ++ fins) = Fault DivisionByZero \/
   2 <= n /\ ret = 0 /\ length fins = 1%nat /\
   exists sw, served (datas ++ fins) = Done (tt, sw) /\ both_report size n r sw).

Lemma wp_link_end md fuel end_time size results datas times (w : world (link E)) :
  packet_size_ok size -> packet_buffer w -> numbered size datas times ->
  carried (env w) = datas -> taken (env w) = 0%nat ->
  1 <= Z.of_nat (length datas) < 2147483648 ->
  wp md (zperf_upload_fin (S fuel) csock (Z.of_nat (length datas)) end_time size results)
    (fun '(ret, r) w' => exists fins, carried (env w') = datas ++ fins /\ link_end size datas fins ret r) w.
Proof.
  intros Hsize Hb Hnum Hc Ht Hn. destruct (Z.eqb_spec (Z.of_nat (length datas)) 1) as [H1|H1].
  - assert (exists start, datas = [start]) as [start ->].
    { destruct datas as [|start [|? ?]]; [done|by eexists|cbn in H1; lia]. }
    assert (Hlost : forall fins, Forall (is_fin size 1) fins -> fins <> [] ->
              served ([start] ++ fins) = Fault DivisionByZero).
    { intros. by eapply served_one. }
    eapply wp_mono; [apply wp_link_lost; try done|].
    { intros fins Hf Hne. rewrite Hc. unfold replies. by rewrite Hlost. }
    intros [ret r] w' (Hr & fins & Hf & Hl & Hc'). rewrite Hc in Hc'. exists fins. split; [done|].
    split; [done|]. left. split; [done|]. split; [done|]. split; [done|].
    apply Hlost; [done|]. intros ->. done.
  - eapply wp_mono; [apply wp_link_reply; try done|].
    { intros fin Hf. destruct (served_many size datas times fin results ltac:(lia) Hsize Hnum Hf)
        as (sw & reply & r' & _ & Hr & Hl & Hd & _). exists reply, r'. by rewrite Hc. }
    intros [ret r] w' (-> & fin & reply & Hf & Hc' & Hr & Hd). rewrite Hc in Hc', Hr.
    destruct (served_many size datas times fin results ltac:(lia) Hsize Hnum Hf)
      as (sw & reply' & r' & Hs & Hr' & _ & Hd' & Hboth).
    assert (reply' = reply) as -> by congruence. assert (r' = r) as -> by congruence.
    exists [fin]. split; [done|]. split; [by constructor|]. right.
    split; [lia|]. split; [done|]. split; [done|]. by exists sw.
Qed.

Context {stop : Z} `{!ErrnoOk (link E), !ClockReaches (link E) stop}.

(** A whole upload. The client's datagrams go to the server and the server's
    reply comes back, over a link that loses and reorders nothing; the clocks of
    both are any, as long as the client's reaches the end. If the client had
    time for one datagram only, the server divides by zero, no reply comes and
    the upload fails. Otherwise it succeeds, after one final datagram: the
    server finishes one session, and the client, which reports the [n]
    datagrams it sent, and the server's callback report the same [n - 1]
    received, none lost, none out of order, the same duration and jitter. *)
Theorem upload_over_link fuel port duration_in_ms asked rate results us e (w : world (link E)) :
  env w = Link e [] 0 -> 0 <= duration_in_ms < 4294967296 -> stop = upload_end w duration_in_ms ->
  zperf_packet_duration asked rate = Done us ->
  (remaining stop (env w) < fuel)%nat -> Z.of_nat (remaining stop (env w)) < 2147483647 ->
  let size := clamp_udp_size asked in
  wp Total (udp_upload fuel csock port duration_in_ms asked rate results) (fun '(ret, r) w' =>
    exists datas fins times, carried (env w') = datas ++ fins /\ numbered size datas times /\
      link_end size datas fins ret r /\
      (0 <= ret -> nb_packets_sent r = Z.of_nat (length datas) /\ packet_size r = size)) w.
Proof.
  intros He Hms Hstop Hus Hfuel Hbound size. unfold udp_upload. apply wp_bind.
  eapply wp_lift; [exact Hus|]. cbv zeta. fold size.
  pose proof (clamp_udp_size_ok asked) as Hsize. fold size in Hsize.
  apply wp_bind, wp_bind, (wp_trigger _ TaskGetTickCount). intros now l1 Ha. apply wp_ret.
  unfold upload_end in Hstop. pose proof (remaining_call stop TaskGetTickCount (env w)) as Hrem.
  rewrite Ha in Hstop, Hrem. cbn in Hstop, Hrem.
  assert (s64 (u32 now + k_ms_to_ticks_ceil64 duration_in_ms) = stop) as ->.
  { rewrite Hstop. apply s64_small. pose proof (u32_range now).
    pose proof (ms_to_ticks_range _ Hms). lia. }
  assert (Hl1 : carried l1 = [] /\ taken l1 = 0%nat).
  { rewrite He in Ha. cbn in Ha. destruct (answer TaskGetTickCount e). by injection Ha as <- <-. }
  apply wp_bind, wp_modify. set (w0 := with_glob _ _).
  apply wp_bind. eapply wp_mono.
  { apply (wp_link_loop _ _ size _ _ (u32 now) w0); [done| |cbn; lia].
    split; [exists [], []; split; [by rewrite app_nil_r|]; by split; [apply length_replicate|]|].
    split; [apply Hl1|]. exists []. rewrite app_nil_r. split; [done|]. apply Hl1. }
  intros r w1 (v & -> & (Hs & Ht & evs' & Htr' & Hc) & Hlen). cbn [env with_glob emit w0] in Hlen.
  destruct Hs as (evs & times & Htr & Hb & Hct & Hnum & ->). rewrite Htr in Htr'.
  apply app_inv_head in Htr' as <-. rewrite <- Hc in Hnum. rewrite (proj1 Hl1) in Hlen. cbn in Hlen.
  assert (Hn : u32 (Z.of_nat (length times)) = Z.of_nat (length (carried (env w1)))).
  { rewrite <- (proj1 Hnum). apply u32_small. lia. }
  cbn [uv_nb_packets]. rewrite Hn.
  apply wp_bind, wp_bind, (wp_trigger _ TaskGetTickCount). intros fin l2 Ha2. apply wp_ret, wp_bind.
  cbn in Ha2. destruct (answer TaskGetTickCount (other (env w1))) as [fin' e2]. injection Ha2 as <- <-.
  destruct fuel as [|fuel]; [lia|].
  eapply wp_mono; [apply (wp_link_end _ fuel _ size results (carried (env w1)) times); try done; lia|].
  intros [ret r] w2 (fins & Hc2 & Hend).
  destruct (Z.ltb_spec ret 0) as [Hr|Hr]; apply wp_ret; exists (carried (env w1)), fins, times.
  - split; [done|]. split; [done|]. split; [done|lia].
  - split; [done|]. split; [done|]. split; [|done]. destruct Hend as [Hf [Hbad|Hend]]; [lia|].
    split; [done|]. right. destruct Hend as (H2 & Hret & Hl2 & sw & Hsw & Hboth).
    split; [done|]. split; [done|]. split; [done|]. by exists sw.
Qed.
End Lossless.
End Link.

(** ** TCP: the bytes of an upload, and the connection they arrive on

    A stream keeps the bytes and their order, not the pieces they were sent in:
    [segs] are the pieces [recv] gives the server, before the end of the
    connection. *)
Section Stream.
Context {L : Lwip} {LOk : LwipOk L} {R : Rtos} {ROk : RtosOk R}.
Context {E : Type} `{!Env E, !SendOk E, !ErrnoOk E} {F : Type} `{!Env F}.

Definition receive_stream (addr : bytes) (segs : list bytes) : M (world F) unit :=
  tcp_deliver addr ((fun d => Z.of_nat (length d)) <$> segs ++ [[]]).

Lemma sum_lengths (segs : list bytes) :
  sum ((fun d => Z.of_nat (length d)) <$> segs) = Z.of_nat (length (mjoin segs)).
Proof.
  induction segs as [|d segs IH]; [done|]. change (mjoin (d :: segs)) with (d ++ mjoin segs).
  rewrite length_app, Nat2Z.inj_add, <- IH. done.
Qed.

Lemma length_copies n (x : bytes) : length (mjoin (replicate n x)) = (n * length x)%nat.
Proof.
  induction n as [|n IH]; [done|].
  change (mjoin (replicate (S n) x)) with (x ++ mjoin (replicate n x)). rewrite length_app, IH. lia.
Qed.

Lemma received_stream addr k segs i s0 t1 cb (sw : world F) :
  table_wf (sessions (glob sw)) -> addr_peer addr = Done (Some k) ->
  get_session addr SESSION_TCP (sessions (glob sw)) = Done (Some i, t1) ->
  row SESSION_TCP t1 !! i = Some s0 -> slot_free s0 = true ->
  session_cb (tcp_server (glob sw)) = Some cb ->
  segs <> [] -> Forall (fun d => d <> []) segs ->
  wp Total (receive_stream addr segs) (fun _ sw' => exists evs rs,
    trace sw' = trace sw ++ evs /\
    callbacks evs = [(cb, ZPERF_SESSION_STARTED, None, user_data (tcp_server (glob sw)));
                     (cb, ZPERF_SESSION_FINISHED, Some rs, user_data (tcp_server (glob sw)))] /\
    total_len rs = u32 (Z.of_nat (length (mjoin segs)))) sw.
Proof.
  intros Hwf Hk Hget Hi Hfree Hcb Hne Hsegs. destruct segs as [|d segs]; [done|].
  unfold receive_stream. rewrite fmap_app. change ((fun d => Z.of_nat (length d)) <$> [[]]) with [0].
  eapply wp_mono.
  { eapply tcp_session_run; [done..|].
    change (Forall (fun n => 0 < n) ((fun d => Z.of_nat (length d)) <$> d :: segs)).
    apply Forall_map. eapply Forall_impl; [|exact Hsegs]. intros [|? ?]; [done|cbn; lia]. }
  intros _ sw' (first & last & evs & rs & Htr & _ & _ & Hrs & Hcbs & _). rewrite Hcb in Hcbs.
  exists evs, rs. split; [done|]. split; [done|]. rewrite Hrs. cbn [total_len tcp_results].
  by rewrite <- sum_lengths.
Qed.

(** A connection that delivers, in any pieces, [n] packets of an upload and [m]
    bytes of the next. *)
Lemma received_upload addr k size n m data segs i s0 t1 cb (sw : world F) :
  table_wf (sessions (glob sw)) -> addr_peer addr = Done (Some k) ->
  get_session addr SESSION_TCP (sessions (glob sw)) = Done (Some i, t1) ->
  row SESSION_TCP t1 !! i = Some s0 -> slot_free s0 = true ->
  session_cb (tcp_server (glob sw)) = Some cb ->
  0 <= size <= PACKET_SIZE_MAX -> (m <= Z.to_nat size)%nat ->
  data = mjoin (replicate n (tcp_packet size)) ++ take m (tcp_packet size) ->
  mjoin segs = data -> segs <> [] -> Forall (fun d => d <> []) segs ->
  wp Total (receive_stream addr segs) (fun _ sw' => exists evs rs,
    trace sw' = trace sw ++ evs /\
    callbacks evs = [(cb, ZPERF_SESSION_STARTED, None, user_data (tcp_server (glob sw)));
                     (cb, ZPERF_SESSION_FINISHED, Some rs, user_data (tcp_server (glob sw)))] /\
    total_len rs = u32 (u32 (Z.of_nat n) * size + Z.of_nat m)) sw.
Proof.
  intros Hwf Hk Hget Hi Hfree Hcb Hsize Hm Hdata Hsegs Hne Hpos.
  eapply wp_mono; [by eapply (received_stream _ k _ i s0 t1 cb)|].
  intros _ sw' (evs & rs & Htr & Hcbs & Hlen). exists evs, rs. split; [done|]. split; [done|].
  rewrite Hlen, Hsegs, Hdata, length_app, length_copies, length_take, tcp_packet_length by done.
  rewrite Nat.min_l by done. rewrite Nat2Z.inj_add, Nat2Z.inj_mul, Z2Nat.id by apply Hsize.
  unfold u32. by rewrite <- Zplus_mod_idemp_l, <- (Zplus_mod_idemp_l (_ mod _ * _)), Zmult_mod_idemp_l.
Qed.

(** A TCP upload and the connection it arrives on. Whatever pieces the
    client's stack takes the data in, whatever pieces the server receives it
    in, and whatever the clocks do as long as the client's reaches the end: the
    client and the server both end; the server's callback gets one start and
    one end, with a number of bytes that is, modulo 2^32, what the client's
    report means: the packets it counts times their size, and part of a packet
    more when the upload failed. *)
Theorem tcp_upload_received stop `{!ClockReaches E stop} fuel sock duration_in_ms asked results
    addr k i s0 t1 cb (w : world E) (sw : world F) :
  stop = u32 (fst (answer TaskGetTickCount (env w))) + K_MSEC duration_in_ms ->
  0 <= asked -> (1024 < fuel)%nat -> (remaining stop (env w) < fuel)%nat ->
  table_wf (sessions (glob sw)) -> addr_peer addr = Done (Some k) ->
  get_session addr SESSION_TCP (sessions (glob sw)) = Done (Some i, t1) ->
  row SESSION_TCP t1 !! i = Some s0 -> slot_free s0 = true ->
  session_cb (tcp_server (glob sw)) = Some cb ->
  wp Total (tcp_upload fuel sock duration_in_ms asked results) (fun '(ret, r) w' =>
    exists evs, trace w' = trace w ++ evs /\
    forall segs, mjoin segs = accepted sock evs -> segs <> [] -> Forall (fun d => d <> []) segs ->
    wp Total (receive_stream addr segs) (fun _ sw' => exists evs' rs m,
      trace sw' = trace sw ++ evs' /\
      callbacks evs' = [(cb, ZPERF_SESSION_STARTED, None, user_data (tcp_server (glob sw)));
                        (cb, ZPERF_SESSION_FINISHED, Some rs, user_data (tcp_server (glob sw)))] /\
      total_len rs = u32 (nb_packets_sent r * packet_size r + m) /\
      (ret = 0 /\ m = 0 \/ ret < 0 /\ 0 <= m < packet_size r)) sw) w.
Proof.
  intros Hstop Hsize Hfuel Hrem Hwf Hk Hget Hi Hfree Hcb.
  eapply wp_mono; [by eapply wp_tcp_upload|].
  intros [ret r] w' (evs & n & m & start & fin & Htr & Hacc & _ & _ & Hn & Hps & _ & Hret).
  exists evs. split; [done|]. intros segs Hsegs Hne Hpos.
  pose proof (clamp_tcp_size_range asked Hsize) as Hrange. rewrite <- Hps in *.
  eapply wp_mono.
  { eapply (received_upload _ k (packet_size r) n m _ _ i s0 t1 cb); try done.
    destruct Hret as [(-> & _)|(? & _)]; lia. }
  intros _ sw' (evs' & rs & Htr' & Hcbs & Hlen). exists evs', rs, (Z.of_nat m). rewrite Hn.
  split; [done|]. split; [done|]. split; [done|].
  destruct Hret as [(-> & -> & _)|(? & ? & _)]; lia.
Qed.
End Stream.

(** ** Witness

    A client with a clock that ticks at every reading uploads for 5 ms to a
    server that has served nobody. *)
Section Witnesses.
#[local] Existing Instances lwip_example rtos_example ticking_errno ticking_send.

Definition example_link : Env (link Z) :=
  link_env (Env0 := ticking) (Env1 := ticking) 3 4 example_peer4 (glob example_server_world) 0.
Definition example_link_world : world (link Z) := World example_globals (Link 0 [] 0) [].
Definition example_link_clock : ClockReaches (link Z) (Env0 := example_link) 5 :=
  link_clock (Env0 := ticking) (Env1 := ticking) 3 4 example_peer4 (glob example_server_world) 0 5
    (ticking_clock 5 ltac:(lia)).

Lemma upload_over_link_witness :
  exists r w', udp_upload (Env0 := example_link) 20 3 5001 5 100 800 zero_results example_link_world
      = Done (0, r, w') /\ nb_packets_sent r = 5 /\ nb_packets_rcvd r = 4 /\ nb_packets_lost r = 0.
Proof.
  assert (H : wp Total _ _ _) by
    (apply (upload_over_link (Env0 := ticking) (Env1 := ticking) 3 4 example_peer4
       (glob example_server_world) 0 (Peer4 35091 16820416) example_peer4 0%nat
       (set_key 35091 (NetAddr 2 ([192; 168; 0; 1] ++ memset 0 12)) zero_session)
       example_udp_table 7 (static_table_wf (L := lwip_example)) eq_refl eq_refl eq_refl eq_refl eq_refl eq_refl
       (stop := 5) (ErrnoOk0 := link_errno _ _ _ _ _ ticking_errno)
       (ClockReaches0 := example_link_clock) (SetsockoptSucceeds0 := ticking_sockopt)
       20 5001 5 100 800 zero_results 976 0 example_link_world);
     [reflexivity|lia|vm_compute; reflexivity|vm_compute; reflexivity|cbn; lia|cbn; lia]).
  apply wp_total_done in H as ([ret r] & w' & Hrun & datas & fins & times & Hc & _ & (_ & Hend) & Hr).
  assert (ret = 0 /\ nb_packets_sent r = 5) as [-> Hn]
    by (vm_compute in Hrun; injection Hrun as <- <- _; split; reflexivity).
  exists r, w'. split; [exact Hrun|]. split; [exact Hn|].
  destruct Hend as [(_ & Hbad & _)|(_ & _ & _ & sw & _ & rs & _ & _ & H1 & _ & H2 & _)]; [lia|].
  destruct (Hr ltac:(lia)) as [Hs _]. split; [|exact H2]. rewrite H1, <- Hs, Hn. reflexivity.
Defined.

(** A server that has accepted a connection and received nothing. *)
Definition example_tcp_server_world : world Z :=
  World (set_tcp_server (Server (Some 7) 9 true false 5001 (memset 0 28) (KSem (Some 1) 0 1))
           example_globals) 0 [].

Lemma tcp_upload_received_witness :
  exists r w', tcp_upload (Env0 := ticking) 1100 3 3 100 zero_results (World example_globals 0 [])
      = Done (0, r, w') /\ nb_packets_sent r = 2 /\
    exists sw', receive_stream (Env1 := ticking) example_peer4
        [memset 0 4; memset 122 96 ++ memset 0 2; memset 0 2 ++ memset 122 96] example_tcp_server_world = Done (tt, sw') /\
      exists rs evs, callbacks evs =
        [(7, ZPERF_SESSION_STARTED, None, 9); (7, ZPERF_SESSION_FINISHED, Some rs, 9)] /\
        total_len rs = 200.
Proof.
  assert (H : wp Total _ _ _) by
    (apply (tcp_upload_received (Env0 := ticking) (SendOk0 := _) (ErrnoOk0 := ticking_errno) (Env1 := ticking)
       3 (ClockReaches0 := ticking_clock 3 ltac:(lia)) 1100 3 3 100 zero_results
       example_peer4 (Peer4 35091 16820416) 0%nat example_bound example_tcp_table 7
       (World example_globals 0 []) example_tcp_server_world);
     [vm_compute; reflexivity|lia|lia|cbn; lia|apply (static_table_wf (L := lwip_example))
     |vm_compute; reflexivity|vm_compute; reflexivity|vm_compute; reflexivity|vm_compute; reflexivity
     |reflexivity]).
  apply wp_total_done in H as ([ret r] & w' & Hrun & evs & Htr & H).
  assert (Hc : ret = 0 /\ nb_packets_sent r = 2 /\ packet_size r = 100 /\
    mjoin [memset 0 4; memset 122 96 ++ memset 0 2; memset 0 2 ++ memset 122 96] = accepted 3 (trace w'))
    by (vm_compute in Hrun; injection Hrun as <- <- <-; repeat split; vm_compute; reflexivity).
  destruct Hc as (-> & Hn & Hp & Hacc). exists r, w'. split; [exact Hrun|]. split; [exact Hn|].
  rewrite Htr in Hacc. specialize (H _ Hacc ltac:(discriminate) ltac:(repeat constructor; discriminate)).
  apply wp_total_done in H as ([] & sw' & Hrun' & evs' & rs & m & _ & Hcbs & Hlen & Hm).
  exists sw'. split; [exact Hrun'|]. exists rs, evs'. split; [exact Hcbs|].
  assert (m = 0) as -> by lia. rewrite Hlen, Hn, Hp. reflexivity.
Defined.
End Witnesses.
