(* ===== verification/CommandLine.v ===== *)
(** From the command line to the printed report: the command udp_upload, run by
    the shell's task against the UDP server over the link of [Network]. *)
From S2P Require Import Prelude CInt Platform CString Kernel NetIp Session World Environment Print Common Server UdpStats UdpReceiver UdpUploader Shell EndToEnd Network.
Import Stdlib.Strings.String.StringSyntax.
Open Scope Z_scope.

(** ** What is printed of a report *)
Section Text.

Lemma print_time v : 0 <= v -> exists t, print_number v TIME_US TIME_US_UNIT = Done (t, tt).
Proof.
  intros Hv. unfold TIME_US, TIME_US_UNIT. cbn [print_number].
  repeat (case_match; [|by eexists]). lia.
Qed.
Lemma print_rate v : 0 <= v -> exists t, print_number v KBPS KBPS_UNIT = Done (t, tt).
Proof.
  intros Hv. unfold KBPS, KBPS_UNIT. cbn [print_number].
  repeat (case_match; [|by eexists]). lia.
Qed.

(** A text with a given part. *)
Definition contains (t part : bytes) : Prop := exists pre post, t = pre ++ part ++ post.

Lemma contains_here part post : contains (part ++ post) part.
Proof. by exists [], post. Qed.
Lemma contains_later t u part : contains u part -> contains (t ++ u) part.
Proof. intros (pre & post & ->). exists (t ++ pre), post. by rewrite <- app_assoc. Qed.

(** The lines on the packets. *)
Definition packet_lines (sent received outorder lost : Z) : bytes :=
  (text "Num packets:" ++ tab ++ tab ++ decimal received ++ tab
     ++ text "(" ++ decimal sent ++ text ")" ++ nl)
  ++ (text "Num packets out order:" ++ tab ++ decimal outorder ++ nl)
  ++ (text "Num packets lost:" ++ tab ++ decimal lost ++ nl).

Lemma rates_positive r : 0 <= server_rate r /\ 0 <= client_rate r.
Proof.
  unfold server_rate, client_rate. split; case_match; try lia; apply u32_range.
Qed.

Lemma stats_text r :
  0 <= time_in_us r -> 0 <= client_time_in_us r -> 0 <= jitter_in_us r ->
  exists t, shell_udp_upload_print_stats r = Done (t, tt) /\
    contains t (packet_lines (nb_packets_sent r) (nb_packets_rcvd r) (nb_packets_outorder r)
                  (nb_packets_lost r)).
Proof.
  intros H1 H2 H3. destruct (rates_positive r) as [H4 H5].
  destruct (print_time _ H1) as [t1 E1], (print_time _ H2) as [t2 E2], (print_time _ H3) as [t3 E3],
    (print_rate _ H4) as [t4 E4], (print_rate _ H5) as [t5 E5].
  unfold shell_udp_upload_print_stats. cbn [CONFIG_NET_UDP]. rewrite E1, E2, E3, E4, E5.
  assert (Hlast : exists t, (if server_rate r =? 0 then print (text "LAST PACKET NOT RECEIVED!!!" ++ nl)
                             else mret tt) = Done (t, tt)) by (case_match; by eexists).
  destruct Hlast as [t0 ->]. unfold packet_lines.
  set (l1 := text "Num packets:" ++ _). set (l2 := text "Num packets out order:" ++ _).
  set (l3 := text "Num packets lost:" ++ _). clearbody l1 l2 l3.
  eexists. split; [print_step; reflexivity|]. do 8 apply contains_later.
  match goal with |- contains (l1 ++ l2 ++ l3 ++ ?rest) _ =>
    replace (l1 ++ l2 ++ l3 ++ rest) with ((l1 ++ l2 ++ l3) ++ rest) by (by rewrite <- !app_assoc) end.
  apply contains_here.
Qed.
End Text.

(** ** The calls made before the first data *)
Section Setup.
Context {L : Lwip} {LOk : LwipOk L} {R : Rtos} {ROk : RtosOk R} {E : Type} `{!Env E}.
Implicit Types w : world E.

Definition env_calls (e : E) (cs : list call) : E := foldl (fun e c => snd (answer c e)) e cs.

Lemma remaining_calls stop `{!ClockReaches E stop} e cs :
  (remaining stop (env_calls e cs) <= remaining stop e)%nat.
Proof.
  revert e. induction cs as [|c cs IH]; intros e; [done|].
  etransitivity; [apply IH|apply remaining_call].
Qed.

Lemma remaining_printed stop `{!ClockReaches E stop} t e :
  (remaining stop (env_printed t e) <= remaining stop e)%nat.
Proof. unfold env_printed. destruct t; [done|apply remaining_call]. Qed.

(** Sockets are the descriptor [csock], and connect. *)
Class Connects (csock : Z) : Prop := {
  gives_socket : forall domain type proto e,
    fst (answer (LwipSocket domain type proto) e) = csock;
  connects : forall name e, 0 <= fst (answer (LwipConnect csock name) e);
}.

(** The calls that give an upload its socket. *)
Definition setup_calls (csock proto : Z) (name : bytes) : list call :=
  [LwipSocket AF_INET (if proto =? IPPROTO_UDP then SOCK_DGRAM else SOCK_STREAM) proto;
   LwipConnect csock name].

Lemma wp_upload_socket md csock `{!Connects csock} peer proto name (Q : Z -> world E -> Prop) w :
  0 <= csock -> sa_family peer = Done AF_INET -> read_at 0 sizeof_sockaddr_in peer = Done name ->
  (forall w' evs, glob w' = glob w -> env w' = env_calls (env w) (setup_calls csock proto name) ->
     trace w' = trace w ++ evs -> calls evs = setup_calls csock proto name -> Q csock w') ->
  wp md (zperf_prepare_upload_sock peer 0 (-1) proto) Q w.
Proof.
  intros Hcsock Hf Hname HQ. unfold zperf_prepare_upload_sock. apply wp_bind. eapply wp_lift; [exact Hf|].
  cbv zeta. destruct (Z.eqb_spec AF_INET AF_INET6) as [Heq|_]; [by destruct (af_distinct Heq)|].
  apply wp_bind. unfold open_upload_sock. rewrite Z.eqb_refl. cbn [CONFIG_NET_IPV4 negb].
  set (type := if proto =? IPPROTO_UDP then SOCK_DGRAM else SOCK_STREAM) in *.
  apply wp_bind, (wp_trigger _ (LwipSocket _ _ _)). intros sock e1 He1.
  pose proof (gives_socket AF_INET type proto (env w)) as Hs. rewrite He1 in Hs. cbn in Hs. subst sock.
  destruct (Z.ltb_spec csock 0); [lia|]. change (0 >? 0) with false. cbn iota.
  apply wp_bind, wp_ret, wp_ret. cbn [CONFIG_NET_CONTEXT_PRIORITY andb]. apply wp_bind, wp_ret.
  cbn iota. apply wp_bind. eapply wp_lift; [exact Hname|].
  apply wp_bind, (wp_trigger _ (LwipConnect _ _)). intros ret e2 He2. cbn [env emit] in He2.
  pose proof (connects name e1) as Hc. rewrite He2 in Hc. cbn in Hc.
  destruct (Z.ltb_spec ret 0); [lia|]. apply wp_ret.
  apply (HQ _ [Event (LwipSocket AF_INET type proto) csock; Event (LwipConnect csock name) ret]);
    [done| |cbn [trace emit]; by rewrite <- app_assoc|done].
  unfold env_calls, setup_calls. cbn. fold type. by rewrite He1; cbn; rewrite He2.
Qed.

Definition no_print (ev : event) : Prop := match ev with Event (Printf _) _ => False | _ => True end.
Lemma printed_none evs : Forall no_print evs -> printed evs = [].
Proof. induction 1 as [|[[] r] evs H _ IH]; done. Qed.
Lemma upload_prints_nothing ev : upload_event ev -> no_print ev.
Proof. by destruct ev as [[] r]. Qed.
Lemma setup_prints_nothing csock proto name evs :
  calls evs = setup_calls csock proto name -> Forall no_print evs.
Proof. destruct evs as [|[c1 r1] [|[c2 r2] [|? ?]]]; try done. intros [= -> ->]. by repeat constructor. Qed.

(** The arguments of the program. *)
Definition upload_command_name (is_udp : bool) : bytes :=
  if is_udp then text "udp_upload" else text "tcp_upload".
Definition upload_args (program command host : bytes) (port d n r : Z) : list bytes :=
  [program; command ++ [0]; host; decimal port ++ [0]; decimal d ++ [0]; decimal n ++ [0];
   decimal r ++ [75; 0]].

(** The shell's task, from the arguments to [execute_upload]. *)
Lemma wp_upload_command md fuel program host h a port d n r (is_udp : bool) peer
    (Q : unit -> world E -> Prop) w :
  c_str host = Done h -> (exists c, char_at host 0 = Done c /\ c <> 45) ->
  inet_pton AF_INET6 h = (0, None) -> inet_pton AF_INET h = (1, Some a) ->
  0 < port < 65536 -> 0 <= d <= 4294967 -> 0 <= n < 65536 -> 0 <= r < 2097152 ->
  let asked := remote_port (decimal port) ++ invalid_v6 h ++ connecting_v4 a in
  upload_peer (Some host) (Some (decimal port ++ [0])) = Done (invalid_v6 h ++ connecting_v4 a, Some peer) ->
  (forall w', sa_family peer = Done AF_INET -> (exists p, sin_port peer = Done p) ->
     glob w' = glob w -> env w' = env_printed asked (env w) -> trace w' = trace w ++ prints asked ->
     wp md (execute_upload fuel 0 (UploadParams peer (1000 * d) r n 0 0 (-1)) is_udp false)
       (fun _ w'' => Q tt w'') w') ->
  wp md (shell_task fuel
    (upload_args program (upload_command_name is_udp) host port d n r)) Q w.
Proof.
  intros Hh Hdash H6 H4 Hport Hd Hn Hr asked Hpeer HQ.
  destruct (upload_peer_ipv4 host h a port Hh H6 H4 Hport) as (peer' & Hpeer' & Hf & _ & Hp).
  assert (peer' = peer) as -> by congruence.
  assert (Hcport : c_str (decimal port ++ [0]) = Done (decimal port))
    by (apply c_str_app, decimal_nonzero; lia).
  set (cmd := upload_command_name is_udp).
  destruct (upload_arguments (cmd ++ [0]) host (decimal port ++ [0]) (decimal port) d n r
              (UploadOptions 0 false 0 0) is_udp _ peer eq_refl Hcport Hpeer Hd Hn Hr) as (Hargs & _).
  assert (Hbody : wp md (shell_cmd_upload fuel 0 (drop 1 (upload_args program cmd host port d n r)) is_udp)
                    (fun _ w' => Q tt w') w).
  { unfold shell_cmd_upload, upload_args. cbn [drop]. apply wp_bind. eapply wp_say.
    { apply parse_options_stop. intros x Hx. injection Hx as <-. exact Hdash. }
    apply wp_bind. eapply wp_say; [exact Hargs|]. eapply wp_mono; [apply HQ|done]; try done.
    - eexists. unfold sin_port, load_at. by rewrite Hp.
    - cbn. by rewrite app_nil_r. }
  clear HQ Hargs. unfold shell_task, upload_args. cbn [length Nat.eqb].
  apply wp_bind. eapply wp_lift; [reflexivity|]. destruct is_udp.
  - apply wp_bind. eapply (wp_lift _ _ _ _ (text "udp_upload")); [reflexivity|].
    cbv zeta. change (strcmp_eq (text "udp_upload") (text "udp_upload")) with true. cbn iota.
    apply wp_bind. eapply wp_mono; [exact Hbody|]. intros z w' H. by apply wp_ret.
  - apply wp_bind. eapply (wp_lift _ _ _ _ (text "tcp_upload")); [reflexivity|].
    cbv zeta. change (strcmp_eq (text "tcp_upload") (text "udp_upload")) with false.
    change (strcmp_eq (text "tcp_upload") (text "tcp_upload")) with true. cbn iota.
    apply wp_bind. eapply wp_mono; [exact Hbody|]. intros z w' H. by apply wp_ret.
Qed.
End Setup.
Arguments Connects E {_} csock.

(** ** The command udp_upload over the link *)
Section Command.
Context {L : Lwip} {LOk : LwipOk L} {R : Rtos} {ROk : RtosOk R}.
Context {E : Type} `{!Env E} {F : Type} `{!Env F}.
Context (csock ssock : Z) (addr : bytes) (g : globals) (f : F).
#[local] Instance to_server : Env (link E) := link_env csock ssock addr g f.
Implicit Types w : world (link E).

Lemma link_printed t e c n :
  env_printed t (Link e c n) = Link (env_printed t e) c n.
Proof. unfold env_printed. destruct t as [|b t]; [done|]. cbn. by destruct (answer (Printf (b :: t)) e). Qed.

Context `{!SetsockoptSucceeds E, !ErrnoOk E, !Connects E csock}.
Hypothesis Hcsock : 0 <= csock.

Lemma link_connects : Connects (link E) csock.
Proof.
  destruct Connects0 as [Hs Hc]. split.
  - intros domain type proto l. cbn. specialize (Hs domain type proto (other l)).
    by destruct (answer (LwipSocket _ _ _) _).
  - intros name l. cbn. specialize (Hc name (other l)). by destruct (answer (LwipConnect _ _) _).
Qed.

Lemma link_setup e proto name :
  env_calls (E := link E) (Link e [] 0) (setup_calls csock proto name) =
    Link (env_calls e (setup_calls csock proto name)) [] 0.
Proof.
  unfold env_calls, setup_calls. cbn. destruct (answer (LwipSocket _ _ _) e) as [r e1]. cbn.
  by destruct (answer (LwipConnect _ _) e1).
Qed.

Context (k : peer) (to : bytes) (i : nat) (s0 : session) (t1 : table) (cb : callback).
Hypothesis Hwf : table_wf (sessions g).
Hypothesis Hk : addr_peer addr = Done (Some k).
Hypothesis Hto : destination addr = Done to.
Hypothesis Hget : get_session addr SESSION_UDP (sessions g) = Done (Some i, t1).
Hypothesis Hslot : row SESSION_UDP t1 !! i = Some s0.
Hypothesis Hfree : slot_free s0 = true.
Hypothesis Hcb : session_cb (udp_server g) = Some cb.

(** What has happened on the link when an upload that asked for packets of
    [asked] bytes has returned [ret] and the results [rs]. *)
Definition uploaded (asked ret : Z) (rs : zperf_results) (l : link E) : Prop :=
  let size := clamp_udp_size asked in
  exists datas fins times, carried l = datas ++ fins /\ numbered size datas times /\
    link_end ssock addr g f cb size datas fins ret rs /\
    (0 <= ret -> nb_packets_sent rs = Z.of_nat (length datas) /\ packet_size rs = size).

Lemma uploaded_lines asked ret rs l :
  uploaded asked ret rs l -> 0 <= ret ->
  let n := nb_packets_sent rs in
  2 <= n /\ nb_packets_rcvd rs = n - 1 /\ nb_packets_outorder rs = 0 /\ nb_packets_lost rs = 0.
Proof.
  intros (datas & fins & times & _ & _ & [_ Hend] & Hn) Hret. destruct (Hn Hret) as [-> _].
  destruct Hend as [(_ & Hbad & _)|(H2 & _ & _ & sw & _ & srv & _ & _ & H & _ & Hl & _ & Ho & _)]; [lia|].
  done.
Qed.

(** The upload, between opening and closing its socket. *)
Lemma wp_link_upload stop `{!ClockReaches E stop} fuel param name e us w :
  sa_family (peer_addr param) = Done AF_INET -> (exists p, sin_port (peer_addr param) = Done p) ->
  read_at 0 sizeof_sockaddr_in (peer_addr param) = Done name ->
  tos param = 0 -> priority param = -1 -> env w = Link e [] 0 ->
  0 <= duration_ms param < 4294967296 ->
  zperf_packet_duration (up_packet_size param) (rate_kbps param) = Done us ->
  stop = u32 (fst (answer TaskGetTickCount (env_calls e (setup_calls csock IPPROTO_UDP name))))
           + k_ms_to_ticks_ceil64 (duration_ms param) ->
  (remaining stop e < fuel)%nat -> Z.of_nat (remaining stop e) < 2147483647 ->
  wp Total (zperf_udp_upload fuel (Some param) (Some zero_results)) (fun '(ret, r) w' =>
    exists rs evs, r = Some rs /\ trace w' = trace w ++ evs /\ Forall no_print evs /\ times_ok rs /\
      uploaded (up_packet_size param) ret rs (env w')) w.
Proof.
  intros Hf [p Hp] Hname Htos Hprio He Hms Hus Hstop Hfuel Hbound. unfold zperf_udp_upload.
  apply wp_bind. eapply wp_lift; [exact Hf|]. rewrite Z.eqb_refl.
  apply wp_bind, wp_bind. eapply wp_lift; [exact Hp|]. apply wp_ret. rewrite Htos, Hprio.
  apply wp_bind. eapply (wp_upload_socket _ csock (Connects0 := link_connects)); [done..|].
  intros w1 evs1 Hg1 He1 Ht1 Hq1. rewrite He, link_setup in He1. apply setup_prints_nothing in Hq1.
  destruct (Z.ltb_spec csock 0); [lia|]. apply wp_bind.
  pose proof (remaining_calls stop e (setup_calls csock IPPROTO_UDP name)) as Hrem.
  set (clock := link_clock csock ssock addr g f stop _ : ClockReaches (link E) stop).
  assert (Hr : remaining stop (env w1) = remaining stop (env_calls e (setup_calls csock IPPROTO_UDP name))).
  { rewrite He1. unfold clock, link_clock. by destruct ClockReaches0. }
  eapply wp_mono.
  { apply wp_conj_partial; [|apply wp_conj; [apply udp_upload_events|by apply udp_upload_times]].
    eapply (upload_over_link csock ssock addr g f k to i s0 t1 cb Hwf Hk Hto Hget Hslot Hfree Hcb (stop := stop)
      (ErrnoOk0 := link_errno csock ssock addr g f _) (ClockReaches0 := clock)); try done; [|unfold to_server in Hr; lia..].
    rewrite Hstop. unfold upload_end. rewrite He1. cbn.
    by destruct (answer TaskGetTickCount _). }
  intros [ret rs] w2 [(datas & fins & times & Hc & Hnum & Hend & Hn) [(evs2 & Ht2 & Hq2) Hok]].
  apply wp_bind, (wp_trigger _ (LwipClose csock)). intros r l Ha. apply wp_ret.
  exists rs, (evs1 ++ evs2 ++ [Event (LwipClose csock) r]). cbn [trace emit env].
  split; [done|]. split; [by rewrite Ht2, Ht1, <- !app_assoc|]. split.
  { rewrite !Forall_app. split_and!; [done| |by repeat constructor].
    eapply Forall_impl; [apply upload_prints_nothing|exact Hq2]. }
  split; [exact Hok|].
  cbn in Ha. destruct (answer (LwipClose csock) _) as [r' e']. injection Ha as <- <-.
  by exists datas, fins, times.
Qed.

(** What the command prints at its end. *)
Definition final_text (ret : Z) (rs : zperf_results) (t : bytes) : Prop :=
  if ret <? 0 then t = text "UDP upload failed (" ++ signed ret ++ text ")" ++ nl
  else shell_udp_upload_print_stats rs = Done (t, tt) /\
    contains t (packet_lines (nb_packets_sent rs) (nb_packets_sent rs - 1) 0 0).

Lemma wp_say_events {A} md (p : printing A) t a (Q : A -> world (link E) -> Prop) w e :
  p = Done (t, a) -> env w = Link e [] 0 ->
  (forall w', glob w' = glob w -> env w' = Link (env_printed t e) [] 0 ->
     trace w' = trace w ++ prints t -> Q a w') ->
  wp md (say p) Q w.
Proof. intros Hp He HQ. eapply wp_say; [exact Hp|]. apply HQ; [done| |done]. cbn. by rewrite He, link_printed. Qed.

Lemma carried_text t w : carried (env (after_text t w)) = carried (env w).
Proof.
  cbn. unfold env_printed. destruct t as [|c t]; [done|]. cbn. by destruct (answer (Printf (c :: t)) _).
Qed.

(** The end of [execute_upload], from the result of the upload on. *)
Lemma wp_report md asked fuel sh param ret rs w (Q : Z -> world (link E) -> Prop) :
  uploaded asked ret rs (env w) -> times_ok rs ->
  (forall t z w', final_text ret rs t -> trace w' = trace w ++ prints t ->
     carried (env w') = carried (env w) -> Q z w') ->
  wp md (if ret <? 0 then
           say (print (text "UDP upload failed (" ++ signed ret ++ text ")" ++ nl));;
           mret (Some (shell_status ret))
         else
           say (r ← quiet (deref (Some rs)); shell_udp_upload_print_stats r);;
           mret None)
    (fun r w' => wp md match r with
       | Some ret => mret ret
       | None =>
           r ← execute_tcp fuel sh param true false;
           match r with Some ret => mret ret | None => mret kStatus_SHELL_Success end
       end Q w') w.
Proof.
  intros Hup Hok HQ. destruct (Z.ltb_spec ret 0) as [Hr|Hr].
  - apply wp_bind. eapply wp_say; [reflexivity|]. apply wp_ret, wp_ret. eapply HQ; [|done|].
    + unfold final_text. by rewrite (proj2 (Z.ltb_lt _ _) Hr).
    + apply carried_text.
  - destruct Hok as (H1 & H2 & H3). destruct (stats_text rs H1 H3 H2) as (t & Ht & Hl).
    destruct (uploaded_lines _ _ _ _ Hup Hr) as (_ & Hrcvd & Ho & Hlost). rewrite Hrcvd, Ho, Hlost in Hl.
    apply wp_bind. eapply wp_say; [unfold deref; rewrite quiet_bind; exact Ht|]. apply wp_ret.
    apply wp_bind. unfold execute_tcp. cbn [negb andb CONFIG_NET_TCP].
    apply wp_bind. eapply wp_say; [reflexivity|]. apply wp_ret, wp_ret. eapply HQ.
    + unfold final_text. by rewrite (proj2 (Z.ltb_ge _ _) Hr).
    + cbn. by rewrite app_nil_r.
    + by rewrite !carried_text.
Qed.

(** [execute_upload] of a UDP upload that waits for its end. *)
Lemma wp_execute stop `{!ClockReaches E stop} fuel sh param name e tb tu w :
  sa_family (peer_addr param) = Done AF_INET -> (exists p, sin_port (peer_addr param) = Done p) ->
  read_at 0 sizeof_sockaddr_in (peer_addr param) = Done name ->
  tos param = 0 -> priority param = -1 -> env w = Link e [] 0 ->
  0 <= duration_ms param < 4294967296 ->
  upload_banner param = Done (tb, tt) -> udp_banner param = Done (tu, tt) ->
  stop = u32 (fst (answer TaskGetTickCount
                     (env_calls (env_printed tu (env_printed tb e)) (setup_calls csock IPPROTO_UDP name))))
           + k_ms_to_ticks_ceil64 (duration_ms param) ->
  (remaining stop e < fuel)%nat -> Z.of_nat (remaining stop e) < 2147483647 ->
  wp Total (execute_upload fuel sh param true false) (fun _ w' =>
    exists ret rs t, uploaded (up_packet_size param) ret rs (env w') /\ final_text ret rs t /\
      printed (trace w') = printed (trace w) ++ tb ++ tu ++ t) w.
Proof.
  intros Hf Hp Hname Htos Hprio He Hms Htb Htu Hstop Hfuel Hbound. unfold execute_upload.
  assert (exists us, zperf_packet_duration (up_packet_size param) (rate_kbps param) = Done us) as [us Hus].
  { unfold udp_banner, quiet, mbind, printing_bind in Htu.
    destruct (zperf_packet_duration _ _) as [us| |]; [by eexists|done..]. }
  apply wp_bind. eapply wp_say_events; [exact Htb|exact He|]. intros w1 _ He1 Ht1.
  apply wp_bind. unfold execute_udp. cbn [andb CONFIG_NET_UDP].
  apply wp_bind. eapply wp_say_events; [exact Htu|exact He1|]. intros w2 _ He2 Ht2.
  pose proof (remaining_printed stop tb e). pose proof (remaining_printed stop tu (env_printed tb e)).
  apply wp_bind. eapply wp_mono; [by eapply wp_link_upload; try done; lia|].
  intros [ret r] w3 (rs & evs & -> & Ht3 & Hq3 & Hok & Hup).
  eapply wp_report; [exact Hup|exact Hok|]. intros t z w4 Hfin Ht4 Hc4. exists ret, rs, t.
  split; [|split; [exact Hfin|]].
  - destruct Hup as (datas & fins & times & Hc & Hup). exists datas, fins, times. by rewrite Hc4.
  - rewrite Ht4, Ht3, Ht2, Ht1, !printed_app, !printed_prints, (printed_none evs), app_nil_r by done.
    by rewrite <- !app_assoc.
Qed.

(** C1: the command udp_upload, from its arguments to its report. With an IPv4
    address, a port, a duration, a packet size and a rate in range, the shell's
    task uploads to the server over a link that loses and reorders nothing and
    on which its socket is set up without an error; the clocks are any, as long
    as the client's reaches the end after fewer than 2^31 readings. It prints what it
    was asked for; it ends; and then it prints either that the upload failed,
    which happens when there was time for one datagram only, the server having
    divided by zero; or a report. The report says of the [n] datagrams the client
    sent that [n - 1] arrived, none out of order and none lost, which is what
    the server's callback is given. *)
Theorem udp_upload_command stop `{!ClockReaches E stop} fuel program host h a port d n r peer name tb tu e w :
  c_str host = Done h -> (exists c, char_at host 0 = Done c /\ c <> 45) ->
  inet_pton AF_INET6 h = (0, None) -> inet_pton AF_INET h = (1, Some a) ->
  0 < port < 65536 -> 0 <= d <= 4294967 -> 0 <= n < 65536 -> 0 <= r < 2097152 ->
  let asked := remote_port (decimal port) ++ invalid_v6 h ++ connecting_v4 a in
  let param := UploadParams peer (1000 * d) r n 0 0 (-1) in
  upload_peer (Some host) (Some (decimal port ++ [0])) = Done (invalid_v6 h ++ connecting_v4 a, Some peer) ->
  read_at 0 sizeof_sockaddr_in peer = Done name ->
  upload_banner param = Done (tb, tt) -> udp_banner param = Done (tu, tt) ->
  env w = Link e [] 0 ->
  stop = u32 (fst (answer TaskGetTickCount
                     (env_calls (env_printed tu (env_printed tb (env_printed asked e))) (setup_calls csock IPPROTO_UDP name))))
           + k_ms_to_ticks_ceil64 (1000 * d) ->
  (remaining stop e < fuel)%nat -> Z.of_nat (remaining stop e) < 2147483647 ->
  wp Total (shell_task fuel (upload_args program (text "udp_upload") host port d n r)) (fun _ w' =>
    exists ret rs t, uploaded n ret rs (env w') /\ final_text ret rs t /\
      printed (trace w') = printed (trace w) ++ asked ++ tb ++ tu ++ t) w.
Proof.
  intros Hh Hdash H6 H4 Hport Hd Hn Hr asked param Hpeer Hname Htb Htu He Hstop Hfuel Hbound.
  eapply (wp_upload_command _ _ _ _ _ _ _ _ _ _ true); [done..|].
  intros w1 Hf Hp _ He1 Ht1. rewrite He, link_printed in He1.
  pose proof (remaining_printed stop asked e) as Hrem.
  unfold asked in Hrem.
  eapply wp_mono; [eapply (wp_execute stop fuel 0 param name); try done; [unfold param; cbn [duration_ms]; lia|lia..]|].
  intros z w3 (ret & rs & t & Hup & Hfin & Hprint). exists ret, rs, t.
  split; [exact Hup|]. split; [exact Hfin|].
  rewrite Hprint, Ht1, printed_app, printed_prints. unfold asked. by rewrite <- !app_assoc.
Qed.
End Command.

(** ** Witness

    An upload of a second, on a system with 100 ticks a second and a clock that
    ticks at every reading. *)
Section Witness.
#[local] Existing Instances lwip_example rtos_100hz ticking_errno ticking_sockopt.

Lemma ticking_connects : Connects Z (Env0 := ticking) 0.
Proof. split; [done|]. intros name e. cbn. lia. Qed.

Definition example_cmd_link : Env (link Z) :=
  link_env (Env0 := ticking) (Env1 := ticking) 0 4 example_peer4 (glob example_server_world) 0.
Definition example_args : list bytes :=
  upload_args (literal "zperf") (text "udp_upload") (literal "10.0.0.7") 5001 1 100 800.
Definition ipv4_peer : bytes :=
  Eval vm_compute in
    match upload_peer (Some (literal "10.0.0.7")) (Some (decimal 5001 ++ [0])) with
    | Done (_, Some p) => p
    | _ => []
    end.
Definition printed_by (p : printing unit) : bytes := match p with Done (t, _) => t | _ => [] end.
Definition example_param : zperf_upload_params := UploadParams ipv4_peer 1000 800 100 0 0 (-1).

Lemma udp_upload_command_witness :
  exists w' rs t, shell_task (Env0 := example_cmd_link) 101 example_args example_link_world = Done (tt, w') /\
    uploaded (Env1 := ticking) 4 example_peer4 (glob example_server_world) 0 7 100 0 rs (env w') /\
    shell_udp_upload_print_stats rs = Done (t, tt) /\ contains t (packet_lines 100 99 0 0).
Proof.
  assert (H : wp Total _ _ _) by
    (apply (udp_upload_command (Env0 := ticking) (Env1 := ticking) 0 4 example_peer4 (glob example_server_world) 0
       (Connects0 := ticking_connects) ltac:(lia) (Peer4 35091 16820416) example_peer4 0%nat
       (set_key 35091 (NetAddr 2 ([192; 168; 0; 1] ++ memset 0 12)) zero_session)
       example_udp_table 7 (static_table_wf (L := lwip_example)) eq_refl eq_refl eq_refl eq_refl eq_refl eq_refl
       100 (ClockReaches0 := ticking_clock 100 ltac:(lia)) 101 (literal "zperf") (literal "10.0.0.7") (text "10.0.0.7") [10; 0; 0; 7]
       5001 1 100 800 ipv4_peer (take 16 ipv4_peer) (printed_by (upload_banner example_param))
       (printed_by (udp_banner example_param)) 0 example_link_world);
     [reflexivity|by exists 49|reflexivity|reflexivity|lia|lia|lia|lia|vm_compute; reflexivity|reflexivity
     |vm_compute; reflexivity|vm_compute; reflexivity|reflexivity|vm_compute; reflexivity|cbn; lia|cbn; lia]).
  apply wp_total_done in H as ([] & w' & Hrun & ret & rs & t & Hup & Hfin & _).
  assert (Hlen : length (carried (env w')) = 101%nat)
    by (vm_compute in Hrun; injection Hrun as <-; reflexivity).
  pose proof Hup as (datas & fins & times & Hc & _ & (_ & Hend) & Hn).
  rewrite Hc, length_app in Hlen.
  destruct Hend as [(H1 & _ & H2 & _)|(H2 & -> & H1 & _)]; [lia|].
  destruct (Hn ltac:(lia)) as [Hs _]. assert (Hs' : nb_packets_sent rs = 100) by lia.
  destruct Hfin as [Ht Hl]. rewrite Hs' in Hl.
  exists w', rs, t. split; [exact Hrun|]. split; [exact Hup|]. split; [exact Ht|exact Hl].
Defined.
End Witness.
