(* ===== verification/TcpCommandLine.v ===== *)
(** From the command line to the printed report: the command tcp_upload, run by
    the shell's task, and the connection of the TCP server it arrives on. *)
From S2P Require Import Prelude CInt Platform CString Kernel NetIp Session World Environment Print Common Server TcpReceiver TcpUploader Shell Network CommandLine.
Import Stdlib.Strings.String.StringSyntax.
Open Scope Z_scope.

(** ** What is printed of a report *)
Section Text.

Definition tcp_packet_lines (sent errors : Z) : bytes :=
  (text "Num packets:" ++ tab ++ decimal sent ++ nl)
  ++ (text "Num errors:" ++ tab ++ decimal errors ++ text " (retry or fail)" ++ nl).

Lemma tcp_stats_text r :
  0 <= client_time_in_us r ->
  exists t, shell_tcp_upload_print_stats r = Done (t, tt) /\
    contains t (tcp_packet_lines (nb_packets_sent r) (nb_packets_errors r)).
Proof.
  intros H. destruct (print_time _ H) as [t1 E1], (print_rate _ (proj2 (rates_positive r))) as [t2 E2].
  unfold shell_tcp_upload_print_stats. cbn [CONFIG_NET_TCP]. rewrite E1, E2.
  unfold tcp_packet_lines. set (l1 := text "Num packets:" ++ _). set (l2 := text "Num errors:" ++ _).
  clearbody l1 l2. eexists. split; [print_step; reflexivity|]. do 4 apply contains_later.
  match goal with |- contains (l1 ++ l2 ++ ?rest) _ =>
    replace (l1 ++ l2 ++ rest) with ((l1 ++ l2) ++ rest) by (by rewrite <- app_assoc) end.
  apply contains_here.
Qed.
End Text.

(** ** The command tcp_upload *)
Section Command.
Context {L : Lwip} {LOk : LwipOk L} {R : Rtos} {ROk : RtosOk R}.
Context {E : Type} `{!Env E, !SendOk E, !ErrnoOk E} (csock : Z) `{!Connects E csock}.
Context {F : Type} `{!Env F}.
Implicit Types w : world E.
Hypothesis Hcsock : 0 <= csock.

(** What the stack has taken of an upload that asked for packets of [asked]
    bytes and returned [ret] and the results [rs]: [n] packets, and [m] bytes of
    the next. *)
Definition streamed (asked ret : Z) (rs : zperf_results) (evs : list event) (n m : nat) : Prop :=
  let size := clamp_tcp_size asked in
  accepted csock evs = mjoin (replicate n (tcp_packet size)) ++ take m (tcp_packet size) /\
  nb_packets_sent rs = u32 (Z.of_nat n) /\ packet_size rs = size /\
  (m = 0%nat /\ ret = 0 /\ nb_packets_errors rs = 0 \/
   (m < Z.to_nat size)%nat /\ ret < 0 /\ nb_packets_errors rs = 1).

Lemma accepted_setup evs proto name :
  calls evs = setup_calls csock proto name -> accepted csock evs = [].
Proof. destruct evs as [|[c1 r1] [|[c2 r2] [|? ?]]]; try done. by intros [= -> ->]. Qed.
Lemma accepted_prints t : accepted csock (prints t) = [].
Proof. by destruct t. Qed.

Lemma wp_stream stop `{!ClockReaches E stop} fuel param name w :
  sa_family (peer_addr param) = Done AF_INET ->
  read_at 0 sizeof_sockaddr_in (peer_addr param) = Done name ->
  tos param = 0 -> priority param = -1 -> tcp_nodelay param = 0 -> 0 <= up_packet_size param ->
  stop = u32 (fst (answer TaskGetTickCount (env_calls (env w) (setup_calls csock IPPROTO_TCP name))))
           + K_MSEC (duration_ms param) ->
  (1024 < fuel)%nat -> (remaining stop (env w) < fuel)%nat ->
  wp Total (zperf_tcp_upload fuel (Some param) (Some zero_results)) (fun '(ret, r) w' =>
    exists rs evs n m, r = Some rs /\ trace w' = trace w ++ evs /\ Forall no_print evs /\
      0 <= client_time_in_us rs /\ streamed (up_packet_size param) ret rs evs n m) w.
Proof.
  intros Hf Hname Htos Hprio Hnd Hsize Hstop Hfuel Hrem. unfold zperf_tcp_upload. rewrite Htos, Hprio.
  apply wp_bind. eapply (wp_upload_socket _ csock); [exact Hcsock|exact Hf|exact Hname|].
  intros w1 evs1 _ He1 Ht1 Hc1. destruct (Z.ltb_spec csock 0); [lia|]. rewrite Hnd.
  cbn [Z.eqb negb]. apply wp_bind, wp_ret. cbn iota. apply wp_bind.
  pose proof (remaining_calls stop (env w) (setup_calls csock IPPROTO_TCP name)).
  eapply wp_mono.
  { apply wp_conj_partial; [|apply tcp_upload_events].
    apply (wp_tcp_upload stop); rewrite ?He1; [exact Hstop|done|done|lia]. }
  intros [ret rs] w2 [(evs2 & n & m & start & fin & Ht2 & Hacc & _ & _ & Hn & Hps & Htime & Hret) (evs & Ht & Hev)].
  rewrite Ht2 in Ht. apply app_inv_head in Ht as <-.
  apply wp_bind, (wp_trigger _ (LwipClose csock)). intros r e _. apply wp_ret.
  exists rs, (evs1 ++ evs2 ++ [Event (LwipClose csock) r]), n, m. split; [done|].
  split; [cbn [trace emit]; by rewrite Ht2, Ht1, <- !app_assoc|]. split.
  { rewrite !Forall_app. split_and!; [by eapply setup_prints_nothing| |by repeat constructor].
    eapply Forall_impl; [apply upload_prints_nothing|exact Hev]. }
  split; [rewrite Htime; apply u32_range|].
  split; [|done]. rewrite !accepted_app, (accepted_setup _ _ _ Hc1), Hacc. cbn. by rewrite app_nil_r.
Qed.

(** What the command prints at its end. *)
Definition tcp_final_text (ret : Z) (rs : zperf_results) (t : bytes) : Prop :=
  if ret <? 0 then t = text "TCP upload failed (" ++ signed ret ++ text ")" ++ nl
  else shell_tcp_upload_print_stats rs = Done (t, tt) /\
    contains t (tcp_packet_lines (nb_packets_sent rs) 0).

(** [execute_upload] of a TCP upload that waits for its end. *)
Lemma wp_execute_tcp stop `{!ClockReaches E stop} fuel sh param name tb w :
  sa_family (peer_addr param) = Done AF_INET ->
  read_at 0 sizeof_sockaddr_in (peer_addr param) = Done name ->
  tos param = 0 -> priority param = -1 -> tcp_nodelay param = 0 -> 0 <= up_packet_size param ->
  upload_banner param = Done (tb, tt) ->
  stop = u32 (fst (answer TaskGetTickCount
                     (env_calls (env_printed tb (env w)) (setup_calls csock IPPROTO_TCP name))))
           + K_MSEC (duration_ms param) ->
  (1024 < fuel)%nat -> (remaining stop (env w) < fuel)%nat ->
  wp Total (execute_upload fuel sh param false false) (fun _ w' => exists ret rs t evs n m,
    trace w' = trace w ++ evs /\ printed evs = tb ++ t /\ tcp_final_text ret rs t /\
    streamed (up_packet_size param) ret rs evs n m) w.
Proof.
  intros Hf Hname Htos Hprio Hnd Hsize Htb Hstop Hfuel Hrem. unfold execute_upload.
  apply wp_bind. eapply wp_say; [exact Htb|].
  apply wp_bind. unfold execute_udp. cbn [andb negb CONFIG_NET_UDP].
  apply wp_bind. eapply wp_say; [reflexivity|]. apply wp_ret. cbn iota.
  apply wp_bind. unfold execute_tcp. cbn [negb andb CONFIG_NET_TCP]. apply wp_bind.
  pose proof (remaining_printed stop tb (env w)).
  eapply wp_mono; [by eapply wp_stream; try done; cbn; lia|].
  intros [ret r] w1 (rs & evs & n & m & -> & Ht & Hq & Htime & Hs). cbn [trace after_text] in Ht.
  rewrite app_nil_r in Ht.
  assert (Hend : forall t w', trace w' = trace w1 ++ prints t -> tcp_final_text ret rs t ->
            exists ret rs t evs n m, trace w' = trace w ++ evs /\ printed evs = tb ++ t /\
              tcp_final_text ret rs t /\ streamed (up_packet_size param) ret rs evs n m).
  { intros t w' Ht' Hfin. exists ret, rs, t, (prints tb ++ evs ++ prints t), n, m.
    split; [by rewrite Ht', Ht, <- !app_assoc|]. split; [|split; [done|]].
    - by rewrite !printed_app, !printed_prints, (printed_none evs).
    - destruct Hs as [Hacc Hs]. split; [|done].
      by rewrite !accepted_app, !accepted_prints, app_nil_r. }
  destruct (Z.ltb_spec ret 0) as [Hr|Hr].
  - apply wp_bind. eapply wp_say; [reflexivity|]. apply wp_ret, wp_ret. eapply Hend; [done|].
    unfold tcp_final_text. by rewrite (proj2 (Z.ltb_lt _ _) Hr).
  - destruct (tcp_stats_text rs Htime) as (t & Ht' & Hl).
    apply wp_bind. eapply wp_say; [unfold deref; rewrite quiet_bind; exact Ht'|]. apply wp_ret, wp_ret.
    eapply Hend; [done|]. unfold tcp_final_text. rewrite (proj2 (Z.ltb_ge _ _) Hr).
    split; [done|]. destruct Hs as (_ & _ & _ & [(_ & _ & He)|(_ & Hbad & _)]); [by rewrite He in Hl|lia].
Qed.

(** C6: the command tcp_upload, from its arguments to its report and to what
    the server makes of it. With an IPv4 address, a port, a duration, a packet
    size and a rate in range, and a stack that sets up the socket without an
    error, whatever pieces it takes the data in and whatever the clock does as long as it reaches the end: the command ends. It
    prints what it was asked for, and then that the upload failed, or a report
    of packets sent and no error. In whatever pieces the bytes the stack took
    arrive on a connection of the server, the server's callback gets one start
    and one end; the number of bytes is, modulo 2^32, the packets of the
    client's report times their size, and part of a packet more when the
    upload failed. *)
Theorem tcp_upload_command stop `{!ClockReaches E stop} fuel program host h a port d n r peer name tb w
    addr k i s0 t1 cb (sw : world F) :
  c_str host = Done h -> (exists c, char_at host 0 = Done c /\ c <> 45) ->
  inet_pton AF_INET6 h = (0, None) -> inet_pton AF_INET h = (1, Some a) ->
  0 < port < 65536 -> 0 <= d <= 4294967 -> 0 <= n < 65536 -> 0 <= r < 2097152 ->
  let asked := remote_port (decimal port) ++ invalid_v6 h ++ connecting_v4 a in
  upload_peer (Some host) (Some (decimal port ++ [0])) = Done (invalid_v6 h ++ connecting_v4 a, Some peer) ->
  read_at 0 sizeof_sockaddr_in peer = Done name ->
  upload_banner (UploadParams peer (1000 * d) r n 0 0 (-1)) = Done (tb, tt) ->
  stop = u32 (fst (answer TaskGetTickCount (env_calls (env_printed tb (env_printed asked (env w)))
                                              (setup_calls csock IPPROTO_TCP name))))
           + K_MSEC (1000 * d) ->
  (1024 < fuel)%nat -> (remaining stop (env w) < fuel)%nat ->
  table_wf (sessions (glob sw)) -> addr_peer addr = Done (Some k) ->
  get_session addr SESSION_TCP (sessions (glob sw)) = Done (Some i, t1) ->
  row SESSION_TCP t1 !! i = Some s0 -> slot_free s0 = true ->
  session_cb (tcp_server (glob sw)) = Some cb ->
  wp Total (shell_task fuel (upload_args program (text "tcp_upload") host port d n r)) (fun _ w' =>
    exists ret rs t evs,
      trace w' = trace w ++ evs /\ printed evs = asked ++ tb ++ t /\ tcp_final_text ret rs t /\
      forall segs, mjoin segs = accepted csock evs -> segs <> [] -> Forall (fun d => d <> []) segs ->
      wp Total (receive_stream addr segs) (fun _ sw' => exists evs' rs' m,
        trace sw' = trace sw ++ evs' /\
        callbacks evs' = [(cb, ZPERF_SESSION_STARTED, None, user_data (tcp_server (glob sw)));
                          (cb, ZPERF_SESSION_FINISHED, Some rs', user_data (tcp_server (glob sw)))] /\
        total_len rs' = u32 (nb_packets_sent rs * packet_size rs + m) /\
        (ret = 0 /\ m = 0 \/ ret < 0 /\ 0 <= m < packet_size rs)) sw) w.
Proof.
  intros Hh Hdash H6 H4 Hport Hd Hn Hr asked Hpeer Hname Htb Hstop Hfuel Hrem Hwf Hk Hget Hi Hfree Hcb.
  eapply (wp_upload_command _ _ _ _ _ _ _ _ _ _ false); [done..|].
  intros w1 Hf _ _ He1 Ht1. pose proof (remaining_printed stop asked (env w)).
  eapply wp_mono; [eapply (wp_execute_tcp stop); try done; rewrite ?He1;
    first [exact Hstop|cbn [up_packet_size]; lia|unfold asked in *; lia]|].
  intros z w2 (ret & rs & t & evs & np & m & Ht2 & Hp & Hfin & Hacc & Hsent & Hps & Hret).
  exists ret, rs, t, (prints asked ++ evs). split; [by rewrite Ht2, Ht1, <- app_assoc|].
  split; [by rewrite printed_app, printed_prints, Hp|]. split; [done|].
  rewrite accepted_app, accepted_prints. intros segs Hsegs Hne Hpos.
  pose proof (clamp_tcp_size_range n ltac:(lia)) as Hrange. cbn [up_packet_size] in *. rewrite <- Hps in *.
  eapply wp_mono.
  { eapply (received_upload _ k (packet_size rs) np m _ _ i s0 t1 cb); try done.
    destruct Hret as [(-> & _)|(? & _)]; lia. }
  intros _ sw' (evs' & rs' & Htr' & Hcbs & Hlen). exists evs', rs', (Z.of_nat m). rewrite Hsent.
  split; [done|]. split; [done|]. split; [done|].
  destruct Hret as [(-> & -> & _)|(? & ? & _)]; lia.
Qed.
End Command.

(** ** Witness

    An upload of a second, on a system with 100 ticks a second and a clock that
    ticks at every reading; the server receives its 9900 bytes in two pieces. *)
Section Witness.
#[local] Existing Instances lwip_example rtos_100hz ticking_errno ticking_send ticking_connects.

Definition example_tcp_args : list bytes :=
  upload_args (literal "zperf") (text "tcp_upload") (literal "10.0.0.7") 5001 1 100 800.
Definition example_shell_world : world Z := World example_globals 0 [].
Definition example_asked : bytes :=
  remote_port (decimal 5001) ++ invalid_v6 (text "10.0.0.7") ++ connecting_v4 [10; 0; 0; 7].
Definition example_banner : bytes := printed_by (upload_banner example_param).

Lemma tcp_upload_command_witness :
  exists w' ret rs t, shell_task (Env0 := ticking) 1101 example_tcp_args example_shell_world = Done (tt, w') /\
    printed (trace w') = example_asked ++ example_banner ++ t /\ tcp_final_text ret rs t /\
    let data := accepted 0 (trace w') in
    Z.of_nat (length data) = 9900 /\
    exists sw' rs' m, receive_stream (Env1 := ticking) example_peer4 [take 1000 data; drop 1000 data]
        example_tcp_server_world = Done (tt, sw') /\
      total_len rs' = u32 (nb_packets_sent rs * packet_size rs + m).
Proof.
  assert (H : wp Total _ _ _) by
    (apply (tcp_upload_command (L := lwip_example) (R := rtos_100hz) (Env0 := ticking) (SendOk0 := _)
       (ErrnoOk0 := ticking_errno) 0 (Connects0 := ticking_connects) (Env1 := ticking) ltac:(lia)
       100 (ClockReaches0 := ticking_clock 100 ltac:(lia)) 1101 (literal "zperf") (literal "10.0.0.7")
       (text "10.0.0.7") [10; 0; 0; 7] 5001 1 100 800 ipv4_peer (take 16 ipv4_peer) example_banner
       example_shell_world example_peer4 (Peer4 35091 16820416) 0%nat example_bound example_tcp_table 7
       example_tcp_server_world);
     [reflexivity|by exists 49|reflexivity|reflexivity|lia|lia|lia|lia|vm_compute; reflexivity|reflexivity
     |vm_compute; reflexivity|vm_compute; reflexivity|lia|cbn; lia|apply (static_table_wf (L := lwip_example))
     |vm_compute; reflexivity|vm_compute; reflexivity|vm_compute; reflexivity|vm_compute; reflexivity
     |reflexivity]).
  apply wp_total_done in H as ([] & w' & Hrun & ret & rs & t & evs & Htr & Hp & Hfin & Hrecv).
  assert (Hlen : Z.of_nat (length (accepted 0 (trace w'))) = 9900)
    by (vm_compute in Hrun; injection Hrun as <-; vm_compute; reflexivity).
  exists w', ret, rs, t. cbn [trace example_shell_world app] in Htr. rewrite Htr in *.
  split; [exact Hrun|]. split; [exact Hp|]. split; [exact Hfin|]. cbv zeta. split; [exact Hlen|].
  set (data := accepted 0 evs) in *. specialize (Hrecv [take 1000 data; drop 1000 data]).
  assert (H1 : take 1000 data <> []) by (intros H; apply (f_equal length) in H; rewrite length_take in H; cbn [length] in H; lia).
  assert (H2 : drop 1000 data <> []) by (intros H; apply (f_equal length) in H; rewrite length_drop in H; cbn [length] in H; lia).
  specialize (Hrecv ltac:(cbn [mjoin list_join]; by rewrite app_nil_r, take_drop) ltac:(done)
                ltac:(constructor; [exact H1|constructor; [exact H2|constructor]])).
  apply wp_total_done in Hrecv as ([] & sw' & Hrun' & evs' & rs' & m & _ & _ & Hl & _).
  exists sw', rs', m. split; [exact Hrun'|exact Hl].
Defined.
End Witness.
